(* ===== verification/_CoqProject ===== *)
-Q . S2P
Prelude.v
Ring.v
Kernel.v
BarrierData.v
BarrierSync.v
BarrierSyncProofs.v
BarrierSyncSpec.v
BarrierProgress.v
BarrierQuiet.v
BarrierTest.v
BarrierTestSpec.v
BarrierRegistry.v
BarrierRegistryProofs.v
BarrierRegistrySpec.v
BarrierWorld.v
BarrierWorldProofs.v
BarrierWorldKeep.v
BarrierWorldInv.v
BarrierWorldSpec.v
BarrierWorldRefine.v
BarrierWorldFlow.v
BarrierWorldWitness.v
BarrierTeams.v
BarrierTeamsProofs.v
BarrierTeamsSpec.v
BarrierTeamsWitness.v
UserMemory.v
BarrierCalls.v
BarrierKern.v
BarrierCallsSpec.v
BarrierIoctlSpec.v
BarrierSyscallSpec.v
BarrierSysTest.v
Ht530.v
Ht530Proofs.v
Ht530Spec.v
Ht530Dump.v
Ht530Load.v
Ht530Test.v
Ht530TestSpec.v
Ht530Main.v
Ht530MainFrame.v
Ht530MainSpec.v
Ht530MainWitness.v
Text.v
Mprobe.v
MprobeProofs.v
MprobeSpec.v
MprobeHistory.v
MprobeWitness.v
MprobeTest.v
MprobeTestSpec.v
HwPins.v
HwPinsSpec.v
Sensor.v
SensorProofs.v
SensorSpec.v
SensorCalls.v
SensorRead.v
SensorPins.v
Release.v
Hc02.v
Hc02Spec.v
Hc02Exit.v
Hc02Witness.v
Hc03.v
Hc03Spec.v
Hc03Safe.v
Platform.v
PlatformSpec.v
Variants.v
Hc03Witness.v
SensorEcho.v
SensorTest.v
SensorTurns.v
SensorIdle.v
SensorTestProofs.v
SensorTestRuns.v
SensorTestSpec.v
SensorTestWitness.v
