(* ===== verification/Prelude.v ===== *)
(** * Linux kernel driver programs: a verification library

    The repository holds five small kernel programs.  This development models
    their C code as executable definitions and proves what each promises, and
    where it breaks the promise.  The files, in dependency order:

    ** Foundations
    - [Prelude] (this file): machine integers, the result of a call
      ([Ok], [Crash] with a fault, [Blocked]), the state monad [M] of the
      calls, the logic [safe], the tactic [step].
    - [Ring]: what a ring buffer holds after a list of stores.
    - [Kernel]: the kernel services as interfaces.  [KList], [Kmalloc],
      [IoctlCode] are classes with their documented laws; a request whose
      outcome the driver cannot know (registering a device, a GPIO, an
      interrupt; reading the clock; waiting) is a [request] answered by the
      parameter [reply] (class [Environment]), which sees the whole trace, and
      is logged there; [held] and [clean] read off the trace what is acquired
      and whether something was released that was not held.
    - [UserMemory]: the memory of the calling process; [copy_from_user],
      [copy_to_user] with what they leave out, and direct accesses through a
      user pointer, which survive only where something is mapped.  A direct
      write of the kernel through a pointer into its own memory is
      [KernelOverwrite], and the model ends there.
    - [Text]: the "%d" of the kernel's [sscanf] and [snprintf] in a buffer of
      10, on lists of character codes.

    ** Barrier (04_barrier_driver_module, 05_barrier_system_call)
    - [BarrierData]: [barrier_struct], [barrier_info], BARRIER_FLAG.
    - [BarrierSync]: [barrier_wait], [sleep_here], [wake_up_here] and the wait
      of [barrier_destroy] in eosi_barrier.c as a machine of any number of
      threads, one step per lock, queue or counter operation, and one for the
      message after the last unlock, which reads the barrier.
      [BarrierSyncProofs] has its invariant.  [BarrierSyncSpec]: a wait
      returns only after its round is full; the rounds do not mix; the
      flagged 64-bit counter implements an open/closing barrier.
    - [BarrierProgress], [BarrierQuiet]: critical sections are short; without
      new calls the threads come to rest within [11 N (N + 1)] steps, and at
      rest the round lacks threads or a wake-up was lost; a schedule that
      loses one; destroying a barrier on which threads gather.
    - [BarrierTest], [BarrierTestSpec]: [run_barriers] of barrier_test: a main
      thread, its workers and the joins, on that machine.  It never uses a
      freed barrier, and each worker's SYNC_ROUNS waits all return first.
    - [BarrierRegistry]: [tgid_list] and the barriers of each process as
      linked heap objects, [barrier_init], the look-ups, [barrier_destroy].
      [BarrierRegistryProofs], [BarrierRegistrySpec]: the well-formedness of
      the registry and its refinement of a book indexed by (process, number).
    - [BarrierWorld]: the whole module with all its calls interleaved: any
      number of processes and threads, one step per lock, unlock, allocation,
      free and unlocked access, each barrier a machine of [BarrierSync].
      [BarrierWorldProofs], [BarrierWorldKeep], [BarrierWorldInv]: its
      invariant, and that every step keeps it while the processes are
      [disciplined] (nobody else uses a barrier that is being destroyed, and
      it is not the last one of its process, and fewer than 2^32 numbers are
      given).  [BarrierWorldSpec]: then only a wait on an unknown number and a
      [barrier_init] without memory fail; the lists stay well formed; numbers
      are given once; the locks exclude; every barrier synchronises; when
      nothing can move, only sleepers are left.  [BarrierWorldRefine]: the
      module refines a map from (process, number) to barriers that run alone.
      [BarrierWorldWitness]: schedules of two processes for these theorems,
      and four undisciplined ones that end in a freed object.
      [BarrierWorldFlow]: how a thread goes through its call; without any
      discipline, the destruction of a last barrier never returns.
    - [BarrierTeams]: the test program of barrier_test on the whole module:
      the teams that fork_run, dev_run and both children of main start, each a
      main thread that makes, joins and destroys, and its workers.
      [BarrierTeamsProofs], [BarrierTeamsSpec]: the teams keep the discipline,
      so that nothing fails but a [barrier_init] without memory, as long as no
      barrier_init is refused and no process destroys its only barrier.
      [BarrierTeamsWitness]: runs where either happens.
    - [BarrierCalls]: the ioctls through the user's pointer, [barrier_wait] as
      one call that sleeps or returns, loading and unloading, the library of
      barrier_test.  [BarrierCallsSpec]: that call is the run of the machine
      in which only the caller moves.  [BarrierIoctlSpec]: every ioctl is a
      step of the book, or one of the crashes listed there (no memory among
      them).
    - [BarrierKern]: kern_backup/barrier.c, which repeats the module's
      functions and adds three system calls, with the library that makes them;
      [BarrierSyscallSpec]: what a [barrier_init] through them leaves behind,
      and the concrete runs of the theorems.
    - [BarrierSysTest]: 05's copy of the test program, each call a system call
      number with its argument in a register; it makes the steps of
      [BarrierTeams].

    ** Hash table driver (01, general_driver/ht530.c)
    - [Ht530]: the 128 chains of (key, data) nodes, every file operation,
      loading, unloading.  [Ht530Proofs]: the chains represent a finite map.
      [Ht530Spec]: [write] updates (or crashes without memory) and [read]
      looks up that map.  [Ht530Dump]:
      the two dumps.  [Ht530Load]: any history of calls from loading to
      unloading; two unserialised writers.  [Ht530Test], [Ht530TestSpec]:
      the threads of ht530-test.c under their mutex, a call's look-up and
      commit being two steps; whatever the schedule and the random numbers
      they come to their end and the final dump is the whole table.
    - [Ht530Main]: main and part1_execute of ht530-test.c over those threads:
      open, the four pthread_create and joins, the two ioctls, the lines
      printed.  [Ht530MainFrame]: what a thread's step leaves alone.
      [Ht530MainSpec]: a run has at most 1722 steps, none crashes, and a main
      that is done has printed the table, each pair once.
      [Ht530MainWitness]: a run to the end.

    ** mprobe (01, mprobe/mprobe.c)
    - [Mprobe]: the probe, its handlers, the ring of ten results.
      [MprobeProofs], [MprobeSpec], [MprobeHistory]: over any history of
      writes, hits and reads, a read returns the last results in slot order;
      [register_kprobe] may refuse a probe, which the driver does not notice.
      [MprobeWitness]: concrete runs.
    - [MprobeTest], [MprobeTestSpec]: mprobe-test1.c and mprobe-test2.c, which
      probe the hash table driver through both devices.  Given where the
      compiler put its lines and variables, they print each hit with the
      variables found there: those their comments name, or those of the
      README's session, as the compiler laid them out.

    ** Distance sensors (02 and 03)
    - [HwPins], [HwPinsSpec]: the pin tables and the GPIO set-up; freeing a
      sensor's pins gives back what setting them up requested.
    - [Sensor]: the calls on one device that 02 and 03 share; what differs is
      the class [SensorVariant].  [SensorProofs], [SensorSpec],
      [SensorCalls]: locks and sample buffer stay sound through every call.
      [SensorRead], [SensorPins]: what a read and SETPINS do.
    - [Release]: giving back what is held; shared by the next two.
    - [Hc02], [Hc02Spec], [Hc02Exit], [Hc02Witness]: the driver of 02 (two
      misc devices; hc_sr04.c).
    - [Hc03], [Hc03Spec], [Hc03Safe]: the driver of 03 on one device with its
      sysfs attributes (hc_sr04_kernel.h, hc_sr04.h).
    - [Platform], [PlatformSpec]: 03's devices, probe, remove and open files
      (HCSR.c, HCSR_driver.c, hc_sr04.h).  [Variants]: 02 and 03 read and
      write alike.  [Hc03Witness]: concrete runs.
    - [SensorTest]: the program hc_sr04-test.c of 02, which is also HCSR-test.c
      of 03: four threads of statements over the driver's calls, a [read] being
      cut into turns where it waits.  The driver is the class [LoadedDriver].
      [SensorEcho]: when an echo comes before a measurement gives up, each
      measurement records a sample.  [SensorTurns]: a [read] is its turns.
      [SensorIdle]: what each call does then.  [SensorTestProofs]: the program
      follows a finite machine, on every driver that keeps [DriverLaws].
      [SensorTestRuns]: the machine's states (980, computed) are closed under
      all turns, and each fair round brings it nearer to its end.
      [SensorTestSpec]: 02 and 03 keep the laws; the program completes on
      both.  [SensorTestWitness]: a run on each.

    ** How the models correspond to the code
    A C function is a definition of the same name; a state is the record of
    the static variables and heap objects it uses.  A statement that changes
    state is one step of the monad, in the order of the code.  [printk] is left
    out unless its arguments follow a pointer that may be bad.  A call runs by
    itself, except in [BarrierSync] and [BarrierWorld], where threads interleave
    at every lock, queue and counter operation, and in [SensorTest], where calls
    interleave where they wait; an interrupt or a round of the sensor's
    thread falls into a call where the code waits.  A spin lock that its
    caller already holds, or that will not be released, is [SelfDeadlock]:
    the model's spin locks spin, as those of a kernel for several processors
    do; on the board's kernel they only keep other code off the processor.
    An echo that falls while a call holds a lock the echo needs is excluded
    in [Sensor] and its clients; [echo_under_lock_deadlocks] is what it does.
    In [BarrierWorld] the [barrier_info] of a call belongs to the call, and
    no other thread writes it meanwhile.
    Sizes are those of a 64-bit kernel, but for [SensorTest], whose program
    is built for the 32-bit board.

    ** Bounds
    [wait_echo] runs with 50001 rounds of fuel and the code gives up at the
    50001st ([measurement_ends]: it never runs out).  The loops that wait
    without a bound in the code ([spin_ongoing], [wait_sample]) take the number
    of delays the caller is ready to wait for, and are [Blocked] after it;
    theorems on them hold for every number; [read_in_turns]: waiting is
    looking again, as often as there are delays.  [explore] has 6000 turns
    and needs fewer, which the computed check shows.  Printing a number has 20 digits
    of fuel; [print_nat_fuel]: fuel beyond the number's digits changes nothing.

    ** Not modelled
    What the test programs print, except the dump of the hash table; what
    opens the device and forks in the test program of the barrier; the
    kernel's own headers and call tables in kern_backup and patch.file
    (declarations); the constants that 03 repeats from 02; [get_curr_barrier], which is never called;
    the P and V operations under __EXTENNTION__, which do not compile.  Memory
    ordering below the level of lock operations; interleaving of two calls on
    a sensor within the stretches that do not wait (the board has one
    processor). *)

From stdpp Require Export base option list gmap fin_maps sorting.
From Stdlib Require Export ZArith Lia.

#[global] Open Scope Z_scope.
#[global] Set Default Goal Selector "!".

(** ** Machine integers

    The sources use [int] (32 bit, two's complement), [unsigned int] and
    [unsigned long long]/[u64].  A machine integer is a [Z] kept in range by
    the functions below: [u32], [u64] reduce modulo the width, [s32] is the
    conversion to [int] (gcc and the kernel build define it as wrap-around). *)

Definition wrap (w z : Z) : Z := z mod 2 ^ w.

Abbreviation u32 := (wrap 32).

Abbreviation u64 := (wrap 64).

Definition s32 (z : Z) : Z := (z + 2 ^ 31) mod 2 ^ 32 - 2 ^ 31.

(** ** Error numbers *)

Definition EAGAIN : Z := 11.

Definition EINVAL : Z := 22.

(** ** Results of a call

    [Ok a s] : the call returned [a] leaving state [s].
    [Crash f s] : the code did something the kernel does not survive.
    [Blocked s] : the call waits, in state [s], for something only another
    thread, an interrupt or a signal can do. *)

Inductive fault :=
  | NullDeref        (* a NULL or never-set pointer is followed *)
  | UseAfterFree     (* an object is accessed after its kfree *)
  | OutOfBounds      (* an access outside an array *)
  | DivByZero        (* an integer division by zero *)
  | SelfDeadlock     (* a spin lock is taken that its holder will not release: where spin locks
                        spin, that is for ever; a kernel for one processor has nothing to spin on *)
  | BadUnlock        (* a spin lock is released that is not held *)
  | UninitRead       (* memory is read that kmalloc returned and nobody wrote *)
  | BadUserAccess    (* an address is followed that is not mapped *)
  | KernelOverwrite. (* the kernel's own memory is written through a pointer from a process *)

Inductive outcome (S A : Type) :=
  | Ok (a : A) (s : S)
  | Crash (f : fault) (s : S)
  | Blocked (s : S).
Arguments Ok {S A} a s.
Arguments Crash {S A} f s.
Arguments Blocked {S A} s.

Definition M (S A : Type) : Type := S -> outcome S A.

#[global] Instance M_ret S : MRet (M S) := fun A a s => Ok a s.

#[global] Instance M_bind S : MBind (M S) := fun A B k m s =>
  match m s with
  | Ok a s' => k a s'
  | Crash f s' => Crash f s'
  | Blocked s' => Blocked s'
  end.

Definition gets {S A} (f : S -> A) : M S A := fun s => Ok (f s) s.

Definition modify {S} (f : S -> S) : M S unit := fun s => Ok tt (f s).

Definition crash {S A} (f : fault) : M S A := fun s => Crash f s.

Definition blocked {S A} : M S A := fun s => Blocked s.

(** [deref p e] follows a pointer: a missing value is the fault [e]. *)
Definition deref {S A} (o : S -> option A) (e : fault) : M S A := fun s =>
  match o s with Some a => Ok a s | None => Crash e s end.

Definition when {S} (b : bool) (m : M S unit) : M S unit :=
  if b then m else mret tt.

#[global] Arguments mret _ _ _ _ / : simpl nomatch.

(** ** Running a call *)

Lemma bind_ok {S A B} (m : M S A) (k : A -> M S B) s a s' :
  m s = Ok a s' -> (m ≫= k) s = k a s'.
Proof. intros H. unfold mbind, M_bind. by rewrite H. Qed.

Lemma bind_crash {S A B} (m : M S A) (k : A -> M S B) s f s' :
  m s = Crash f s' -> (m ≫= k) s = Crash f s'.
Proof. intros H. unfold mbind, M_bind. by rewrite H. Qed.

Lemma bind_ok_inv {S A B} (m : M S A) (k : A -> M S B) s b s' :
  (m ≫= k) s = Ok b s' -> exists a s1, m s = Ok a s1 /\ k a s1 = Ok b s'.
Proof. unfold mbind, M_bind. destruct (m s) as [a s1| |]; [eauto|done..]. Qed.

Lemma gets_ok {S A} (f : S -> A) s : gets f s = Ok (f s) s.
Proof. done. Qed.

Lemma modify_ok {S} (f : S -> S) s : modify f s = Ok tt (f s).
Proof. done. Qed.

Lemma deref_ok {S A} (o : S -> option A) e s a : o s = Some a -> deref o e s = Ok a s.
Proof. intros H. unfold deref. by rewrite H. Qed.

Lemma mret_ok {S A} (a : A) (s : S) : (mret a : M S A) s = Ok a s.
Proof. done. Qed.

(** A concrete run: what it returned, as a test to be computed. *)

Definition returns {S A} (P : A -> S -> bool) (o : outcome S A) : bool :=
  match o with Ok a s => P a s | _ => false end.

Lemma returns_inv {S A} (P : A -> S -> bool) (o : outcome S A) :
  returns P o = true -> exists a s, o = Ok a s /\ P a s = true.
Proof. destruct o as [a s| |]; [|done..]. intros H. by exists a, s. Qed.

(** A step of a symbolic run: the first call of a sequence is evaluated, by
    computation or by a lemma of the base [run]. *)

Create HintDb run discriminated.

Ltac step := erewrite bind_ok by (first [reflexivity | solve [eauto with run]]).

(** ** Partial correctness with a list of faults that may happen

    [safe allowed P m Q]: run from a state in [P], [m] returns in [Q], waits,
    or fails in one of the [allowed] ways. *)

Definition safe {S A} (allowed : list fault) (P : S -> Prop) (m : M S A) (Q : A -> S -> Prop) : Prop :=
  forall s, P s ->
  match m s with
  | Ok a s' => Q a s'
  | Crash f _ => f ∈ allowed
  | Blocked _ => True
  end.

Section safe.
Context {S : Type} (allowed : list fault).
Implicit Types (P : S -> Prop).

Lemma safe_bind {A B} P (m : M S A) (k : A -> M S B) (Q : A -> S -> Prop) (R : B -> S -> Prop) :
  safe allowed P m Q -> (forall a, safe allowed (Q a) (k a) R) -> safe allowed P (m ≫= k) R.
Proof.
  intros Hm Hk s Hs. specialize (Hm s Hs). unfold mbind, M_bind. destruct (m s) as [a s1| |]; [|done..].
  by apply Hk.
Qed.

Lemma safe_ret {A} P (a : A) : safe allowed P (mret a : M S A) (fun b s => b = a /\ P s).
Proof. by intros s Hs. Qed.

Lemma safe_done {A} P (a : A) : safe allowed P (mret a : M S A) (fun _ => P).
Proof. by intros s Hs. Qed.

Lemma safe_conseq {A} P P' (m : M S A) (Q Q' : A -> S -> Prop) :
  safe allowed P m Q -> (forall s, P' s -> P s) -> (forall a s, Q a s -> Q' a s) -> safe allowed P' m Q'.
Proof. intros Hm HP HQ s Hs. specialize (Hm s (HP s Hs)). destruct (m s); auto. Qed.

Lemma safe_crash {A} P f (Q : A -> S -> Prop) : f ∈ allowed -> safe allowed P (crash f : M S A) Q.
Proof. by intros Hf s _. Qed.

Lemma safe_blocked {A} P (Q : A -> S -> Prop) : safe allowed P (blocked : M S A) Q.
Proof. by intros s _. Qed.

Lemma safe_exists {A X} (P : X -> S -> Prop) (m : M S A) Q :
  (forall x, safe allowed (P x) m Q) -> safe allowed (fun s => exists x, P x s) m Q.
Proof. intros H s [x Hs]. by apply (H x). Qed.

Lemma safe_pure {A} (H : Prop) P (m : M S A) Q : (H -> safe allowed P m Q) -> safe allowed (fun s => H /\ P s) m Q.
Proof. intros Hm s [Hh Hs]. by apply Hm. Qed.

(** A step that runs to completion. *)

Lemma safe_ok {A} P (m : M S A) (Q : A -> S -> Prop) :
  (forall s, P s -> exists a s', m s = Ok a s' /\ Q a s') -> safe allowed P m Q.
Proof. intros Hm s Hs. destruct (Hm s Hs) as (a & s' & -> & HQ). done. Qed.
End safe.

(** ** Lemmas on machine integers *)

Lemma pow2_pos w : 0 <= w -> 0 < 2 ^ w.
Proof. apply Z.pow_pos_nonneg; lia. Qed.

Lemma wrap_range w z : 0 <= w -> 0 <= wrap w z < 2 ^ w.
Proof. intros. apply Z.mod_pos_bound. by apply pow2_pos. Qed.

Lemma wrap_small w z : 0 <= z < 2 ^ w -> wrap w z = z.
Proof. apply Z.mod_small. Qed.

Lemma s32_range z : - 2 ^ 31 <= s32 z < 2 ^ 31.
Proof. unfold s32. pose proof (Z.mod_pos_bound (z + 2 ^ 31) (2 ^ 32)). lia. Qed.

Lemma s32_small z : - 2 ^ 31 <= z < 2 ^ 31 -> s32 z = z.
Proof. intros. unfold s32. rewrite Z.mod_small; lia. Qed.

Lemma u32_s32 z : u32 (s32 z) = u32 z.
Proof.
  unfold wrap, s32. rewrite Zminus_mod_idemp_l. f_equal. lia.
Qed.

Lemma s32_zero z : 0 <= z < 2 ^ 32 -> s32 z = 0 -> z = 0.
Proof.
  unfold s32. intros Hz E. destruct (decide (z < 2 ^ 31)).
  - rewrite Z.mod_small in E; lia.
  - replace (z + 2 ^ 31) with (z - 2 ^ 31 + 1 * 2 ^ 32) in E by lia.
    rewrite Z_mod_plus_full, Z.mod_small in E; lia.
Qed.

(** Distinct numbers below [n] are at most [n]. *)

Lemma NoDup_bounded (l : list Z) n :
  NoDup l -> (forall z, z ∈ l -> 0 <= z < n) -> 0 <= n -> Z.of_nat (length l) <= n.
Proof.
  intros Hd Hb Hn. assert (l ⊆+ seqZ 0 n) as Hs.
  { apply NoDup_submseteq; [done|]. intros z Hz. apply elem_of_seqZ. specialize (Hb z Hz). lia. }
  apply submseteq_length in Hs. rewrite length_seqZ in Hs. lia.
Qed.

(** ** Removing an element from a list *)

Section filter_ne.
Context {A : Type} `{EqDecision A}.
Implicit Types (l : list A) (x : A).

Lemma filter_ne_absent l x : x ∉ l -> filter (fun y => y <> x) l = l.
Proof.
  induction l as [|y l IH]; intros Hx; [done|]. apply not_elem_of_cons in Hx as [??].
  rewrite filter_cons_True by done. by rewrite IH.
Qed.

Lemma length_filter_ne l x : NoDup l -> x ∈ l -> S (length (filter (fun y => y <> x) l)) = length l.
Proof.
  induction l as [|y l IH]; intros Hd Hx; [by apply elem_of_nil in Hx|].
  apply NoDup_cons in Hd as [Hy Hd]. apply elem_of_cons in Hx as [->|Hx].
  - rewrite filter_cons_False by (by intros ?). simpl. by rewrite filter_ne_absent.
  - rewrite filter_cons_True by (intros ->; done). simpl. f_equal. by apply IH.
Qed.
End filter_ne.

(** ** Sums over finite maps *)

Section msum.
Context {K A : Type} `{Countable K} (f : A -> nat).

Definition msum (m : gmap K A) : nat := map_fold (fun _ a n => (f a + n)%nat) 0%nat m.

Lemma msum_empty : msum ∅ = 0%nat.
Proof. apply map_fold_empty. Qed.

Lemma msum_insert_None m k a :
  m !! k = None -> msum (<[k := a]> m) = (f a + msum m)%nat.
Proof. intros. unfold msum. rewrite map_fold_insert_L; [done| lia | done]. Qed.

Lemma msum_delete m k a :
  m !! k = Some a -> msum m = (f a + msum (delete k m))%nat.
Proof.
  intros Hk. rewrite <- (msum_insert_None (delete k m) k a).
  - by rewrite insert_delete_id.
  - apply lookup_delete_eq.
Qed.

Lemma msum_insert m k a b :
  m !! k = Some a -> (msum (<[k := b]> m) + f a = msum m + f b)%nat.
Proof.
  intros Hk. rewrite (msum_delete m k a Hk).
  rewrite <- insert_delete_eq, msum_insert_None; [lia|]. apply lookup_delete_eq.
Qed.

Lemma msum_ge m k a : m !! k = Some a -> (f a <= msum m)%nat.
Proof. intros Hk. rewrite (msum_delete m k a Hk). lia. Qed.

Lemma msum_zero m : (forall k a, m !! k = Some a -> f a = 0%nat) -> msum m = 0%nat.
Proof.
  induction m as [|k a m Hk IH] using map_ind; intros Hz; [apply msum_empty|].
  rewrite msum_insert_None, (Hz k a), IH; [lia| |by apply lookup_insert_eq|done].
  intros k' a' Hk'. apply (Hz k'). rewrite lookup_insert_ne; [done|congruence].
Qed.
End msum.
