(* ===== verification/Ring.v ===== *)
(** * Ring buffers

    The contents of a ring of [k] cells, initially blank, into which the
    values [rs] were stored one after the other, the next cell being [length
    rs mod k]: the last [k] of the values, rotated. *)

From S2P Require Import Prelude.

Section ring.
Context {A : Type} (k : nat) (blank : A).
Implicit Types (rs : list A).

(** The last [k] of the values so far, oldest first, after blanks. *)

Definition window rs : list A := drop (length rs) (replicate k blank ++ rs).

Definition ring rs : list A := drop (k - length rs mod k) (window rs) ++ take (k - length rs mod k) (window rs).

Lemma length_window rs : length (window rs) = k.
Proof. unfold window. rewrite length_drop, length_app, length_replicate. lia. Qed.

Lemma length_ring rs : length (ring rs) = k.
Proof. unfold ring. rewrite length_app, length_drop, length_take, length_window. lia. Qed.

Lemma mod_succ n : (0 < k)%nat -> (S n mod k = if decide (S (n mod k) = k) then 0 else S (n mod k))%nat.
Proof.
  intros Hk. pose proof (Nat.mod_upper_bound n k ltac:(lia)). pose proof (Nat.div_mod_eq n k). destruct (decide _).
  - symmetry. apply (Nat.mod_unique _ _ (S (n / k))); lia.
  - symmetry. apply (Nat.mod_unique _ _ (n / k)); lia.
Qed.

Lemma window_snoc rs r : (0 < k)%nat -> window (rs ++ [r]) = drop 1 (window rs) ++ [r].
Proof.
  intros Hk. unfold window. rewrite length_app, drop_drop, app_assoc. cbn [length].
  rewrite drop_app_le; [done|]. rewrite length_app, length_replicate. lia.
Qed.

(** Storing in the next cell. *)

Lemma ring_step rs r : (0 < k)%nat -> <[(length rs mod k)%nat := r]> (ring rs) = ring (rs ++ [r]).
Proof.
  intros Hk. pose proof (Nat.mod_upper_bound (length rs) k ltac:(lia)) as Hb.
  unfold ring at 2. rewrite length_app, Nat.add_1_r, mod_succ, window_snoc by done. unfold ring.
  pose proof (length_window rs) as Hl. destruct (window rs) as [|x W]; [simpl in Hl; lia|].
  cbn [length drop] in *. rewrite drop_0. set (i := (length rs mod k)%nat) in *.
  replace (k - i)%nat with (S (k - 1 - i)) by lia. cbn [drop take].
  rewrite insert_app_r_alt by (rewrite length_drop; lia).
  replace (i - length (drop (k - 1 - i) W))%nat with 0%nat by (rewrite length_drop; lia). cbn [insert list_insert].
  destruct (decide (S i = k)) as [Ek|Ek].
  - replace (k - 1 - i)%nat with 0%nat by lia. rewrite Nat.sub_0_r, drop_0, take_0.
    rewrite drop_ge, take_ge by (rewrite length_app; simpl; lia). done.
  - replace (k - S i)%nat with (k - 1 - i)%nat by lia.
    rewrite drop_app_le, take_app_le by lia. by rewrite <- app_assoc.
Qed.

Lemma ring_nil : ring [] = replicate k blank.
Proof.
  unfold ring, window. cbn [length]. rewrite drop_0, app_nil_r.
  rewrite Nat.Div0.mod_0_l, Nat.sub_0_r. by rewrite drop_ge, take_ge by (rewrite length_replicate; lia).
Qed.

Lemma ring_few rs : (length rs <= k)%nat -> ring rs = rs ++ replicate (k - length rs) blank.
Proof.
  intros Hl. unfold ring, window. destruct (decide (length rs = k)) as [Ek|Ek].
  - rewrite drop_app_length' by (rewrite length_replicate; lia).
    rewrite Ek, Nat.Div0.mod_same, Nat.sub_0_r, Nat.sub_diag. cbn [replicate].
    by rewrite drop_ge, take_ge, app_nil_r by lia.
  - rewrite Nat.mod_small by lia. rewrite drop_drop.
    replace (length rs + (k - length rs))%nat with k by lia.
    rewrite drop_app_length' by (rewrite length_replicate; lia).
    rewrite drop_app_le by (rewrite length_replicate; lia). rewrite drop_replicate.
    by rewrite take_app_length' by (rewrite length_replicate; lia).
Qed.

Lemma ring_many rs : (k <= length rs)%nat -> ring rs ≡ₚ drop (length rs - k) rs.
Proof.
  intros Hl. unfold ring. rewrite Permutation_app_comm, take_drop. unfold window.
  rewrite drop_app_ge by (rewrite length_replicate; lia). by rewrite length_replicate.
Qed.

(** The cell written last holds the last value. *)

Lemma ring_last rs r : (0 < k)%nat -> ring (rs ++ [r]) !! (length rs mod k)%nat = Some r.
Proof.
  intros Hk. rewrite <- ring_step by done. apply list_lookup_insert_eq. rewrite length_ring.
  apply Nat.mod_upper_bound. lia.
Qed.
End ring.
