(* ===== verification/Kernel.v ===== *)
(** * The kernel interfaces the drivers are written against

    Nothing of the kernel is under [src/].  Its services are interfaces here:
    each class has the operations the drivers call and the documented laws
    they rely on.  The instances at the end are used to run the models. *)

From stdpp Require Export strings.
From S2P Require Import Prelude.

#[global] Open Scope Z_scope.

(** Addresses of kernel objects; a C pointer that may be NULL is an
    [option loc]. *)

Abbreviation loc := positive.

(** ** Linked lists: [struct list_head] and [struct hlist_head]

    [knodes] is the order in which [list_for_each] and
    [hlist_for_each_entry] visit; [kadd] is [list_add]/[hlist_add_head]. *)

Class KList (L : Type) := {
  knodes : L -> list loc;
  kempty : L;
  kadd : loc -> L -> L;
  kdel : loc -> L -> L;
  knodes_empty : knodes kempty = [];
  knodes_add p l : p ∉ knodes l -> knodes (kadd p l) = p :: knodes l;
  knodes_del p l : NoDup (knodes l) -> knodes (kdel p l) = filter (fun q => q <> p) (knodes l)
}.

(** ** [kmalloc]: NULL, or the address of an object nobody has *)

Class Kmalloc := {
  kmalloc : gset loc -> option loc;
  kmalloc_fresh d p : kmalloc d = Some p -> p ∉ d
}.

(** ** ioctl numbers: [_IOW(type, nr, size)] and the like are distinct when
    their parts are *)

Inductive ioc_dir := IOC_W | IOC_R | IOC_WR.

Class IoctlCode := {
  ioc : ioc_dir -> Z -> Z -> Z;
  ioc_inj d t n d' t' n' :
    0 <= t < 256 -> 0 <= t' < 256 -> 0 <= n < 256 -> 0 <= n' < 256 ->
    ioc d t n = ioc d' t' n' -> d = d' /\ t = t' /\ n = n'
}.

(** ** Requests to the kernel whose outcome the driver cannot know

    A driver's state [S] runs beside the trace of its requests, newest first.
    The reply to a request is given by the environment, which may look at the
    whole trace: [reply] is a parameter of every model that uses [kcall].  The
    reply is the C return value; for functions that return a pointer, 0 stands
    for a valid one. *)

Inductive request :=
  | Misc_register (name : string)
  | Misc_deregister (name : string)
  | Platform_device_register (name : string)
  | Platform_device_unregister (name : string)
  | Alloc_chrdev_region (name : string)
  | Unregister_chrdev_region (name : string)
  | Class_create (name : string)
  | Class_destroy (name : string)
  | Kmalloc_of (what : string)
  | Kfree_of (what : string)
  | Cdev_alloc (name : string)
  | Cdev_add (name : string)
  | Cdev_del (name : string)
  | Device_create (name : string)
  | Device_destroy (name : string)
  | Device_create_file (name attr : string)
  | Gpio_request (pin : Z)
  | Gpio_free (pin : Z)
  | Gpio_direction_output (pin v : Z)
  | Gpio_direction_input (pin : Z)
  | Gpio_set_value (pin v : Z)
  | Gpio_to_irq (pin : Z)
  | Request_irq (irq : Z)
  | Free_irq (irq : Z)
  | Ktime_get
  | Delay                       (* udelay, msleep: time passes *)
  | Kthread_run
  | Kthread_stop
  | Register_kprobe (p : loc)
  | Unregister_kprobe (p : loc).

#[export] Instance request_eq_dec : EqDecision request.
Proof. solve_decision. Defined.

Abbreviation trace := (list (request * Z)).

Class Environment := reply : trace -> request -> Z.

(** A driver's state [st], the trace, and the memory of the user processes. *)

Record sys (U S : Type) := { st : S; requests : trace; user : U }.
Arguments st {U S}.
Arguments requests {U S}.
Arguments user {U S}.

Definition with_st {U S T} (s : T) (w : sys U S) : sys U T :=
  {| st := s; requests := requests w; user := user w |}.

Definition log_request {U S} (c : request) (r : Z) (w : sys U S) : sys U S :=
  {| st := st w; requests := (c, r) :: requests w; user := user w |}.

Section calls.
Context {U S : Type}.
Implicit Types (w : sys U S).

Definition kcall `{Environment} (c : request) : M (sys U S) Z := fun w =>
  let r := reply (requests w) c in Ok r (log_request c r w).

Definition kcall_ `{Environment} (c : request) : M (sys U S) unit := kcall c ;; mret tt.

Definition get_st : M (sys U S) S := gets st.

Definition modify_st (f : S -> S) : M (sys U S) unit := modify (fun w => with_st (f (st w)) w).

(** A call on the driver's state alone. *)

Definition lift {A} (m : M S A) : M (sys U S) A := fun w =>
  match m (st w) with
  | Ok a s => Ok a (with_st s w)
  | Crash f s => Crash f (with_st s w)
  | Blocked s => Blocked (with_st s w)
  end.

(** Spin locks: [b] tells whether the lock is held, [f] sets it.  The
    process that finds its own lock held waits for itself. *)

Definition spin_lock (b : S -> bool) (f : bool -> S -> S) : M (sys U S) unit :=
  s ← get_st; if b s then crash SelfDeadlock else modify_st (f true).

Definition spin_unlock (b : S -> bool) (f : bool -> S -> S) : M (sys U S) unit :=
  s ← get_st; if b s then modify_st (f false) else crash BadUnlock.

Lemma kcall_ok `{Environment} c w :
  kcall c w = Ok (reply (requests w) c) (log_request c (reply (requests w) c) w).
Proof. done. Qed.

Lemma kcall__ok `{Environment} c w :
  kcall_ c w = Ok tt (log_request c (reply (requests w) c) w).
Proof. done. Qed.

Lemma get_st_ok w : get_st w = Ok (st w) w.
Proof. done. Qed.

Lemma modify_st_ok f w : modify_st f w = Ok tt (with_st (f (st w)) w).
Proof. done. Qed.

Lemma lift_ok {A} (m : M S A) w a s : m (st w) = Ok a s -> lift m w = Ok a (with_st s w).
Proof. intros H. unfold lift. by rewrite H. Qed.

Lemma spin_lock_ok b f w : b (st w) = false -> spin_lock b f w = Ok tt (with_st (f true (st w)) w).
Proof. intros H. unfold spin_lock. rewrite (bind_ok _ _ _ _ _ (get_st_ok w)). by rewrite H. Qed.

Lemma spin_lock_held b f w : b (st w) = true -> spin_lock b f w = Crash SelfDeadlock w.
Proof. intros H. unfold spin_lock. rewrite (bind_ok _ _ _ _ _ (get_st_ok w)). by rewrite H. Qed.

Lemma spin_unlock_ok b f w : b (st w) = true -> spin_unlock b f w = Ok tt (with_st (f false (st w)) w).
Proof. intros H. unfold spin_unlock. rewrite (bind_ok _ _ _ _ _ (get_st_ok w)). by rewrite H. Qed.

Lemma spin_unlock_free b f w : b (st w) = false -> spin_unlock b f w = Crash BadUnlock w.
Proof. intros H. unfold spin_unlock. rewrite (bind_ok _ _ _ _ _ (get_st_ok w)). by rewrite H. Qed.
End calls.

(** What a trace leaves acquired.  [acquired_by c] is the request that a
    release [c] undoes; a successful acquisition is one answered with 0. *)

Definition acquires (c : request) : bool :=
  match c with
  | Misc_register _ | Platform_device_register _ | Alloc_chrdev_region _ | Class_create _ | Kmalloc_of _
  | Cdev_add _ | Device_create _ | Gpio_request _ | Request_irq _ | Register_kprobe _ => true
  | _ => false
  end.

Definition acquired_by (c : request) : option request :=
  match c with
  | Misc_deregister n => Some (Misc_register n)
  | Platform_device_unregister n => Some (Platform_device_register n)
  | Unregister_chrdev_region n => Some (Alloc_chrdev_region n)
  | Class_destroy n => Some (Class_create n)
  | Kfree_of n => Some (Kmalloc_of n)
  | Cdev_del n => Some (Cdev_add n)
  | Device_destroy n => Some (Device_create n)
  | Gpio_free p => Some (Gpio_request p)
  | Free_irq i => Some (Request_irq i)
  | Unregister_kprobe p => Some (Register_kprobe p)
  | _ => None
  end.

Definition track (c : request) (r : Z) (h : list request) : list request :=
  if acquires c then (if r =? 0 then c :: h else h)
  else match acquired_by c with
       | Some a => filter (fun x => x <> a) h
       | None => h
       end.

Fixpoint held (t : trace) : list request :=
  match t with
  | [] => []
  | (c, r) :: t => track c r (held t)
  end.

(** No release of something that is not held. *)

Fixpoint clean (t : trace) : bool :=
  match t with
  | [] => true
  | (c, _) :: t =>
      clean t && match acquired_by c with
                 | Some a => bool_decide (a ∈ held t)
                 | None => true
                 end
  end.

(** ** Instances *)

#[export] Instance list_KList : KList (list loc).
Proof.
  refine {| knodes l := l; kempty := []; kadd p l := p :: l; kdel p l := filter (fun q => q <> p) l |}.
  all: done.
Defined.

Definition first_free (d : gset loc) : option loc := Some (fresh (elements d)).

#[export] Instance first_free_Kmalloc : Kmalloc.
Proof.
  refine {| kmalloc := first_free |}.
  intros d p [= <-] Hp. apply (infinite_is_fresh (elements d)). by apply elem_of_elements.
Defined.

(** An exhausted allocator. *)

Definition no_memory_Kmalloc : Kmalloc.
Proof. refine {| kmalloc := fun _ => None |}. done. Defined.

Definition ioc_bits (d : ioc_dir) : Z :=
  match d with IOC_W => 1 | IOC_R => 2 | IOC_WR => 3 end.

#[export] Instance linux_IoctlCode : IoctlCode.
Proof.
  refine {| ioc d t n := ioc_bits d * 2 ^ 30 + 4 * 2 ^ 16 + t * 2 ^ 8 + n |}.
  intros d t n d' t' n' ???? E.
  assert (ioc_bits d = ioc_bits d' /\ t = t' /\ n = n') as (Ed & -> & ->).
  { destruct d, d'; cbn [ioc_bits] in *; lia. }
  split_and!; [|done..]. by destruct d, d'.
Defined.

(** Every request succeeds. *)

Definition all_succeed : Environment := fun _ _ => 0.

(** Every request succeeds but one. *)

Definition fails_at (c : request) (e : Z) : Environment := fun _ c' => if decide (c' = c) then e else 0.
