(* ===== verification/BarrierData.v ===== *)
(** * The barrier's data (04_barrier_driver_module, 05_barrier_system_call)

    The structures of [eosi_barrier_kernel.h] and the constructor
    [init_barrier_struct]; the registry that links them is in
    [BarrierRegistry], the synchronisation on them in [BarrierSync]. *)

From S2P Require Import Prelude.

(** The calling thread: [task_tgid_vnr(current)] and [task_pid_vnr(current)]. *)

Record task := { task_tgid : Z; task_tid : Z }.

(** [#define BARRIER_FLAG (1ULL<<63)] *)

Definition BARRIER_FLAG : Z := Z.shiftl 1 63.

Record barrier_info := { bi_count : Z; bi_barrier_id : Z }.

(** [lock_total] holds the thread that has the spin lock; the wait queue of
    the structure is part of the machine of [BarrierSync]. *)

Record barrier_struct := {
  id : Z;
  b_tgid : Z;
  b_tid : Z;
  count : Z;
  total : Z;
  lock_total : option Z
}.

Definition set_total (b : barrier_struct) (v : Z) : barrier_struct :=
  {| id := id b; b_tgid := b_tgid b; b_tid := b_tid b; count := count b;
     total := v; lock_total := lock_total b |}.

Definition set_lock (b : barrier_struct) (o : option Z) : barrier_struct :=
  {| id := id b; b_tgid := b_tgid b; b_tid := b_tid b; count := count b;
     total := total b; lock_total := o |}.

(** [count] is an [int] argument stored in an [unsigned long long] field. *)

Definition init_barrier_struct (current : task) (count_arg id_arg : Z) : barrier_struct :=
  {| id := id_arg;
     b_tgid := task_tgid current;
     b_tid := task_tid current;
     count := u64 count_arg;
     total := BARRIER_FLAG;
     lock_total := None |}.

Lemma BARRIER_FLAG_val : BARRIER_FLAG = 2 ^ 63.
Proof. reflexivity. Qed.
