(* ===== verification/BarrierSync.v ===== *)
(** * The barrier's synchronisation: [barrier_wait] and the waiting part of
    [barrier_destroy], as a machine of interleaved threads

    Each thread has a program counter that stands between two statements of
    [barrier_wait]/[barrier_destroy]/[sleep_here]/[wake_up_here]
    (04_barrier_driver_module/eosi_barrier.c).  [thread_step] is one step of
    one thread; a schedule is any list of labels.  The history [log] records
    when a thread is counted ([Arrived], the [barrier->total++]) and when its
    call returns ([Returned]). *)

From S2P Require Import Prelude BarrierData.

(** Which loop the thread is in: the one at the entry of [barrier_wait]
    (lines 243-247), the one of a counted thread (259-263), the one of
    [barrier_destroy] (303-307). *)

Inductive loop := Entry | Leave | Destroy.

Inductive pc :=
  | Idle                 (* outside the calls *)
  | Lock (k : loop)      (* spin_lock(&barrier->lock_total), 241/246, 262, 301/306 *)
  | Test (k : loop)      (* the condition of the while, 243, 259, 303 *)
  | Unlock (k : loop)    (* spin_unlock in the body of the while, 244, 260, 304 *)
  | Prepare (k : loop)   (* prepare_to_wait in sleep_here, 223 *)
  | Schedule (k : loop)  (* schedule() in sleep_here, 224 *)
  | Finish (k : loop)    (* finish_wait in sleep_here, 225 *)
  | Arrive               (* 249-251: reset an idle total, total++ *)
  | Compare              (* 253-254: total == count *)
  | Depart               (* 265-267: total--, last one out wakes *)
  | WakeUp               (* wake_up_here, 255 and 268 *)
  | UnlockReturn         (* spin_unlock, 274 *)
  | PrintDone            (* printSYNC_done reads the barrier, 275; the return *)
  | UnlockFree           (* 309: spin_unlock before the recycling *)
  | Free.                (* 312-327: the barrier is unlinked and kfreed *)

#[export] Instance loop_eq_dec : EqDecision loop.
Proof. solve_decision. Defined.

#[export] Instance pc_eq_dec : EqDecision pc.
Proof. solve_decision. Defined.

(** The scheduler state of a thread: [TASK_RUNNING] or [TASK_INTERRUPTIBLE]. *)

Inductive runstate := Running | Interruptible.

Record thread := { th_pc : pc; th_run : runstate }.

Inductive event := Arrived (t : Z) | Returned (t : Z).

(** [bar = None] once the barrier has been [kfree]d.  [log] is newest first. *)

Record config := {
  bar : option barrier_struct;
  waitQ : list Z;
  threads : gmap Z thread;
  log : list event
}.

Definition goto (t : Z) (p : pc) (c : config) : config :=
  {| bar := bar c; waitQ := waitQ c;
     threads := <[t := {| th_pc := p; th_run := Running |}]> (threads c); log := log c |}.

Definition set_bar (b : barrier_struct) (c : config) : config :=
  {| bar := Some b; waitQ := waitQ c; threads := threads c; log := log c |}.

Definition emit (e : event) (c : config) : config :=
  {| bar := bar c; waitQ := waitQ c; threads := threads c; log := e :: log c |}.

(** [prepare_to_wait(&barrier->waitQ, &wait, TASK_INTERRUPTIBLE)]: on the
    queue (once) and not running; the thread still executes until it calls
    [schedule()]. *)

Definition prepare_to_wait (t : Z) (p : pc) (c : config) : config :=
  {| bar := bar c;
     waitQ := if decide (t ∈ waitQ c) then waitQ c else t :: waitQ c;
     threads := <[t := {| th_pc := p; th_run := Interruptible |}]> (threads c);
     log := log c |}.

Definition finish_wait (t : Z) (p : pc) (c : config) : config :=
  {| bar := bar c; waitQ := filter (fun u => u <> t) (waitQ c);
     threads := <[t := {| th_pc := p; th_run := Running |}]> (threads c); log := log c |}.

Definition wake (th : thread) : thread := {| th_pc := th_pc th; th_run := Running |}.

(** [wake_up_interruptible_all]: every thread on the queue is made running
    and leaves the queue ([DEFINE_WAIT] entries remove themselves). *)

Definition wake_up_here (c : config) : config :=
  {| bar := bar c; waitQ := [];
     threads := map_imap (fun u th => Some (if decide (u ∈ waitQ c) then wake th else th)) (threads c);
     log := log c |}.

(** Result of asking a thread to move: it may be unable to ([Stuck]: a spin
    lock is taken, or it sleeps), or touch a freed barrier. *)

Inductive result := Next (c : config) | Stuck | Fault (f : fault).

(** The condition of each loop, on [total]. *)

Definition keep_waiting (k : loop) (tot : Z) : bool :=
  match k with
  | Entry => BARRIER_FLAG <? tot
  | Leave => tot <? BARRIER_FLAG
  | Destroy => BARRIER_FLAG <? tot
  end.

Definition after_loop (k : loop) : pc :=
  match k with Entry => Arrive | Leave => Depart | Destroy => UnlockFree end.

(** One step of thread [t] at program counter [p]. *)

Definition thread_step (t : Z) (th : thread) (c : config) : result :=
  match bar c with
  | None => match th_pc th with Idle => Stuck | _ => Fault UseAfterFree end
  | Some b =>
    match th_pc th with
    | Idle => Stuck
    | Lock k =>
        match lock_total b with
        | Some _ => Stuck
        | None => Next (goto t (Test k) (set_bar (set_lock b (Some t)) c))
        end
    | Test k =>
        if keep_waiting k (total b) then Next (goto t (Unlock k) c)
        else Next (goto t (after_loop k) c)
    | Unlock k => Next (goto t (Prepare k) (set_bar (set_lock b None) c))
    | Prepare k => Next (prepare_to_wait t (Schedule k) c)
    | Schedule k =>
        match th_run th with
        | Interruptible => Stuck
        | Running => Next (goto t (Finish k) c)
        end
    | Finish k => Next (finish_wait t (Lock k) c)
    | Arrive =>
        let tot := if total b =? BARRIER_FLAG then 0 else total b in
        Next (emit (Arrived t) (goto t Compare (set_bar (set_total b (u64 (tot + 1))) c)))
    | Compare =>
        if total b =? count b
        then Next (goto t WakeUp (set_bar (set_total b (u64 (total b + (BARRIER_FLAG - 1)))) c))
        else Next (goto t (Test Leave) c)
    | Depart =>
        let tot := u64 (total b - 1) in
        Next (goto t (if tot =? BARRIER_FLAG then WakeUp else UnlockReturn) (set_bar (set_total b tot) c))
    | WakeUp => Next (goto t UnlockReturn (wake_up_here c))
    | UnlockReturn => Next (goto t PrintDone (set_bar (set_lock b None) c))
    | PrintDone => Next (emit (Returned t) (goto t Idle c))
    | UnlockFree => Next (goto t Free (set_bar (set_lock b None) c))
    | Free =>
        Next (goto t Idle {| bar := None; waitQ := waitQ c; threads := threads c; log := log c |})
    end
  end.

(** What the scheduler can do: start a call of a thread that is outside, let
    a thread make one step, deliver a signal (it ends an interruptible sleep). *)

Inductive label :=
  | CallWait (t : Z)
  | CallDestroy (t : Z)
  | Run (t : Z)
  | Signal (t : Z).

Definition exec (l : label) (c : config) : result :=
  match l with
  | CallWait t =>
      match threads c !! t with
      | Some {| th_pc := Idle |} => Next (goto t (Lock Entry) c)
      | _ => Stuck
      end
  | CallDestroy t =>
      match threads c !! t with
      | Some {| th_pc := Idle |} => Next (goto t (Lock Destroy) c)
      | _ => Stuck
      end
  | Run t => match threads c !! t with Some th => thread_step t th c | None => Stuck end
  | Signal t =>
      match threads c !! t with
      | Some th => Next {| bar := bar c; waitQ := waitQ c;
                           threads := <[t := wake th]> (threads c); log := log c |}
      | None => Stuck
      end
  end.

(** Run a schedule; labels that cannot fire stop it. *)

Fixpoint run (ls : list label) (c : config) : result :=
  match ls with
  | [] => Next c
  | l :: ls => match exec l c with Next c' => run ls c' | r => r end
  end.

Definition idle_thread : thread := {| th_pc := Idle; th_run := Running |}.

(** A new barrier for [n] threads and a set of threads that may use it. *)

Definition start (b : barrier_struct) (ts : gset Z) : config :=
  {| bar := Some b; waitQ := []; threads := gset_to_gmap idle_thread ts; log := [] |}.

Inductive reachable (c0 : config) : config -> Prop :=
  | reachable_refl : reachable c0 c0
  | reachable_step c l c' : reachable c0 c -> exec l c = Next c' -> reachable c0 c'.
