(* ===== verification/BarrierSyncProofs.v ===== *)
(** * Invariant of the barrier's synchronisation machine *)

From S2P Require Import Prelude BarrierData BarrierSync.

(** The history: how many threads have been counted, and which count a
    thread's last arrival got. *)

Fixpoint arrivals (l : list event) : Z :=
  match l with
  | [] => 0
  | Arrived _ :: l => arrivals l + 1
  | Returned _ :: l => arrivals l
  end.

Fixpoint arrival_index (t : Z) (l : list event) : option Z :=
  match l with
  | [] => None
  | Arrived u :: l => if decide (u = t) then Some (arrivals l + 1) else arrival_index t l
  | Returned _ :: l => arrival_index t l
  end.

(** The [i]-th arrival (from 1) belongs to round [(i - 1) / n]; the round is
    full once [n * (round + 1)] arrivals have happened. *)

Definition round_of (n i : Z) : Z := (i - 1) / n.

Definition round_full (n i : Z) (l : list event) : Prop := n * (round_of n i + 1) <= arrivals l.

Fixpoint log_ok (n : Z) (l : list event) : Prop :=
  match l with
  | [] => True
  | Arrived _ :: l => log_ok n l
  | Returned t :: l => log_ok n l /\ exists i, arrival_index t l = Some i /\ round_full n i l
  end.

Lemma arrivals_nonneg l : 0 <= arrivals l.
Proof. induction l as [|[]]; simpl; lia. Qed.

(** Program counters that own the lock, and those of a counted thread that
    has not been let go. *)

Definition holds_lock (p : pc) : bool :=
  match p with
  | Test _ | Unlock _ | Arrive | Compare | Depart | WakeUp | UnlockReturn | UnlockFree => true
  | _ => false
  end.

Definition counted (p : pc) : nat :=
  match p with
  | Compare | Depart
  | Lock Leave | Test Leave | Unlock Leave | Prepare Leave | Schedule Leave | Finish Leave => 1
  | _ => 0
  end.

Definition pcs (c : config) : gmap Z pc := th_pc <$> threads c.

Abbreviation inside m := (Z.of_nat (msum counted m)).

(** The two phases of the counter. *)

Definition filling (n : Z) (b : barrier_struct) (m : gmap Z pc) (l : list event) (q : Z) : Prop :=
  1 <= total b <= n /\ total b = inside m /\ arrivals l = n * q + total b.

Definition closing (n : Z) (b : barrier_struct) (m : gmap Z pc) (l : list event) (q : Z) : Prop :=
  total b = BARRIER_FLAG + inside m /\ inside m <= n - 1 /\ arrivals l = n * q.

Definition in_round (n g : Z) (m : gmap Z pc) (l : list event) : Prop :=
  forall t p, m !! t = Some p -> counted p = 1%nat ->
  exists i, arrival_index t l = Some i /\ round_of n i = g.

Definition counter_inv (n : Z) (b : barrier_struct) (m : gmap Z pc) (l : list event) : Prop :=
  exists q, 0 <= q /\
  ((filling n b m l q /\ in_round n q m l) \/ (closing n b m l q /\ in_round n (q - 1) m l)).

Definition pc_inv (n : Z) (b : barrier_struct) (l : list event) (t : Z) (p : pc) : Prop :=
  match p with
  | Arrive => total b <= BARRIER_FLAG
  | Compare => total b < BARRIER_FLAG
  | Depart => BARRIER_FLAG <= total b
  | WakeUp | UnlockReturn | PrintDone => exists i, arrival_index t l = Some i /\ round_full n i l
  | _ => True
  end.

Record live_inv (n : Z) (b : barrier_struct) (m : gmap Z pc) (l : list event) : Prop := {
  inv_count : count b = n;
  inv_lock : forall t p, m !! t = Some p -> (holds_lock p = true <-> lock_total b = Some t);
  inv_holder : forall t, lock_total b = Some t -> is_Some (m !! t);
  inv_counter : counter_inv n b m l;
  inv_full : total b = n -> exists t, m !! t = Some Compare;
  inv_pc : forall t p, m !! t = Some p -> pc_inv n b l t p
}.

Definition sync_inv (n : Z) (c : config) : Prop :=
  log_ok n (log c) /\ forall b, bar c = Some b -> live_inv n b (pcs c) (log c).

(** ** Program counters of updated configurations *)

Lemma pcs_goto t p c : pcs (goto t p c) = <[t := p]> (pcs c).
Proof. unfold pcs, goto; simpl. by rewrite fmap_insert. Qed.

Lemma pcs_prepare t p c : pcs (prepare_to_wait t p c) = <[t := p]> (pcs c).
Proof. unfold pcs, prepare_to_wait; simpl. by rewrite fmap_insert. Qed.

Lemma pcs_finish t p c : pcs (finish_wait t p c) = <[t := p]> (pcs c).
Proof. unfold pcs, finish_wait; simpl. by rewrite fmap_insert. Qed.

Lemma pcs_wake_up c : pcs (wake_up_here c) = pcs c.
Proof.
  unfold pcs, wake_up_here; simpl. apply map_eq; intros u.
  rewrite !lookup_fmap, map_lookup_imap. destruct (threads c !! u); simpl; [|done].
  by case_decide.
Qed.

Lemma pcs_set_bar b c : pcs (set_bar b c) = pcs c.
Proof. done. Qed.

Lemma pcs_emit e c : pcs (emit e c) = pcs c.
Proof. done. Qed.

Lemma pcs_lookup c t th : threads c !! t = Some th -> pcs c !! t = Some (th_pc th).
Proof. intros Ht. unfold pcs. by rewrite lookup_fmap, Ht. Qed.

(** ** The invariant is kept *)

Section keep.
Context (n : Z) (n_pos : 1 <= n) (n_small : n < BARRIER_FLAG).

Lemma other_lock b m l t u p p' :
  live_inv n b m l -> m !! t = Some p -> holds_lock p = true ->
  m !! u = Some p' -> holds_lock p' = true -> u = t.
Proof.
  intros I Ht Hp Hu Hp'.
  apply (inv_lock _ _ _ _ I _ _ Ht) in Hp. apply (inv_lock _ _ _ _ I _ _ Hu) in Hp'. congruence.
Qed.

Lemma inside_move (m : gmap Z pc) t p p' :
  m !! t = Some p ->
  inside (<[t := p']> m) + Z.of_nat (counted p) = inside m + Z.of_nat (counted p').
Proof. intros Ht. pose proof (msum_insert counted m t p p' Ht). lia. Qed.

Lemma inside_ge (m : gmap Z pc) t p : m !! t = Some p -> Z.of_nat (counted p) <= inside m.
Proof. intros Ht. pose proof (msum_ge counted m t p Ht). lia. Qed.

(** A move of one thread that changes neither counter nor history, and keeps
    the thread inside or outside the count. *)

Definition lock_move (b b' : barrier_struct) (t : Z) (p p' : pc) : Prop :=
  (holds_lock p = holds_lock p' /\ lock_total b' = lock_total b) \/
  (holds_lock p = true /\ holds_lock p' = false /\ lock_total b' = None) \/
  (lock_total b = None /\ holds_lock p' = true /\ lock_total b' = Some t).

Lemma keep_lock b b' m l t p p' :
  live_inv n b m l -> m !! t = Some p -> lock_move b b' t p p' ->
  (forall u q, <[t := p']> m !! u = Some q -> (holds_lock q = true <-> lock_total b' = Some u)) /\
  (forall u, lock_total b' = Some u -> is_Some (<[t := p']> m !! u)).
Proof.
  intros I Ht Hl. pose proof (inv_lock _ _ _ _ I) as L. pose proof (L _ _ Ht) as Lt.
  split.
  - intros u q Hu. destruct (decide (u = t)) as [->|Hne].
    + rewrite lookup_insert_eq in Hu. simplify_eq.
      destruct Hl as [[E1 E2]|[(E1&E2&E3)|(E1&E2&E3)]].
      * by rewrite <- E1, E2.
      * rewrite E2, E3. split; congruence.
      * rewrite E2, E3. by split.
    + rewrite lookup_insert_ne in Hu by done. rewrite (L _ _ Hu).
      destruct Hl as [[E1 ->]|[(E1&E2&->)|(E1&E2&->)]]; [done|..].
      * apply Lt in E1. rewrite E1. split; congruence.
      * rewrite E1. split; congruence.
  - intros u Hu. apply lookup_insert_is_Some. destruct (decide (t = u)); [by left|right].
    split; [done|]. apply (inv_holder _ _ _ _ I).
    destruct Hl as [[E1 E2]|[(E1&E2&E3)|(E1&E2&E3)]]; congruence.
Qed.

Lemma keep_move b b' m l t p p' :
  live_inv n b m l -> m !! t = Some p ->
  count b' = count b -> total b' = total b -> lock_move b b' t p p' ->
  counted p = counted p' -> (p = Compare -> total b <> n) -> pc_inv n b' l t p' ->
  live_inv n b' (<[t := p']> m) l.
Proof.
  intros I Ht Hc Hto Hl Hcnt Hcmp Hpc. destruct (keep_lock _ _ _ _ _ _ _ I Ht Hl).
  assert (inside (<[t := p']> m) = inside m) as Hin.
  { pose proof (inside_move m t p p' Ht). lia. }
  split; [rewrite Hc; apply I|done|done|..].
  - destruct (inv_counter _ _ _ _ I) as (q & Hq & HH). exists q. split; [done|].
    unfold filling, closing. rewrite Hto, Hin.
    destruct HH as [[F R]|[F R]]; [left|right]; (split; [done|]);
      (intros u pu Hu Hw; destruct (decide (u = t)) as [->|]; 
       [rewrite lookup_insert_eq in Hu; simplify_eq; eapply R; [done|congruence]
       |rewrite lookup_insert_ne in Hu by done; by eapply R]).
  - rewrite Hto. intros Hn. destruct (inv_full _ _ _ _ I Hn) as [u Hu].
    exists u. rewrite lookup_insert_ne; [done|]. intros ->. simplify_eq. by apply Hcmp.
  - intros u pu Hu. destruct (decide (u = t)) as [->|].
    + rewrite lookup_insert_eq in Hu. by simplify_eq.
    + rewrite lookup_insert_ne in Hu by done. pose proof (inv_pc _ _ _ _ I u pu Hu) as P.
      destruct pu; simpl in *; rewrite ?Hto; done.
Qed.

(** The history grows: facts about rounds stay. *)

Lemma arrival_index_other t u l : u <> t -> arrival_index t (Arrived u :: l) = arrival_index t l.
Proof. intros. simpl. by rewrite decide_False. Qed.

Lemma arrival_index_self t l : arrival_index t (Arrived t :: l) = Some (arrivals l + 1).
Proof. simpl. by rewrite decide_True. Qed.

Lemma round_of_range q k : 1 <= k <= n -> round_of n (n * q + k) = q.
Proof.
  intros. unfold round_of. replace (n * q + k - 1) with (q * n + (k - 1)) by lia.
  rewrite Z.div_add_l, Z.div_small; lia.
Qed.

Lemma round_full_grows i e l : round_full n i l -> round_full n i (e :: l).
Proof. unfold round_full. destruct e; simpl; lia. Qed.

(** [Arrive]: the thread is counted. *)

Lemma keep_arrive b m l t :
  live_inv n b m l -> m !! t = Some Arrive ->
  let tot := if total b =? BARRIER_FLAG then 0 else total b in
  live_inv n (set_total b (u64 (tot + 1))) (<[t := Compare]> m) (Arrived t :: l).
Proof.
  intros I Ht tot. pose proof (inv_pc _ _ _ _ I _ _ Ht) as Hle. simpl in Hle.
  assert (inside (<[t := Compare]> m) = inside m + 1) as Hin.
  { pose proof (inside_move m t Arrive Compare Ht). simpl in *. lia. }
  assert (Hlock : lock_move b (set_total b (u64 (tot + 1))) t Arrive Compare) by (by left).
  destruct (keep_lock _ _ _ _ _ _ _ I Ht Hlock) as [HL1 HL2].
  assert (total b <> n) as Hnf.
  { intros Hn. destruct (inv_full _ _ _ _ I Hn) as [u Hu].
    assert (u = t) as -> by (eapply other_lock; eauto). congruence. }
  destruct (inv_counter _ _ _ _ I) as (q & Hq & HH).
  assert (exists k, tot = k /\ 0 <= k < n /\ inside m = k /\ arrivals l = n * q + k /\ in_round n q m l)
    as (k & Hk & Hkn & Hik & Ha & HR).
  { destruct HH as [[(F1&F2&F3) R]|[(F1&F2&F3) R]]; subst tot.
    - exists (total b). destruct (Z.eqb_spec (total b) BARRIER_FLAG); [lia|].
      repeat split; try lia; done.
    - assert (inside m = 0) by lia. exists 0. destruct (Z.eqb_spec (total b) BARRIER_FLAG); [|lia].
      repeat split; try lia. intros u p Hu Hp. pose proof (inside_ge _ _ _ Hu). lia. }
  assert (u64 (tot + 1) = k + 1) as Hu64.
  { rewrite BARRIER_FLAG_val in n_small. rewrite wrap_small; lia. }
  split; simpl; [apply I|done|done|..].
  - exists q. split; [done|]. left. unfold filling; simpl. rewrite Hu64, Hin.
    split; [lia|]. intros u p Hu Hp. destruct (decide (t = u)) as [->|Hne].
    + rewrite arrival_index_self. eexists; split; [done|].
      rewrite Ha, <- Z.add_assoc. apply round_of_range. lia.
    + rewrite lookup_insert_ne in Hu by done. rewrite arrival_index_other by done.
      by eapply HR.
  - intros _. exists t. apply lookup_insert_eq.
  - intros u p Hu. destruct (decide (t = u)) as [->|Hne].
    + rewrite lookup_insert_eq in Hu. simplify_eq. simpl. rewrite Hu64. lia.
    + rewrite lookup_insert_ne in Hu by done. pose proof (inv_pc _ _ _ _ I _ _ Hu) as P.
      destruct p; try done; try (exfalso; apply Hne; symmetry; eapply (other_lock b m l t u); eauto; done).
      destruct P as (i & Hi & Hr). exists i. split; [by rewrite arrival_index_other|by apply round_full_grows].
Qed.

(** [Compare], last arrival: the round closes. *)

Lemma keep_trip b m l t :
  live_inv n b m l -> m !! t = Some Compare -> total b = count b ->
  live_inv n (set_total b (u64 (total b + (BARRIER_FLAG - 1)))) (<[t := WakeUp]> m) l.
Proof.
  intros I Ht Heq. rewrite (inv_count _ _ _ _ I) in Heq.
  assert (inside (<[t := WakeUp]> m) = inside m - 1) as Hin.
  { pose proof (inside_move m t Compare WakeUp Ht). simpl in *. lia. }
  pose proof (inside_ge _ _ _ Ht) as Hge. simpl in Hge.
  assert (Hu64 : u64 (total b + (BARRIER_FLAG - 1)) = BARRIER_FLAG + (n - 1)).
  { rewrite BARRIER_FLAG_val in *. rewrite wrap_small; lia. }
  assert (Hlock : lock_move b (set_total b (u64 (total b + (BARRIER_FLAG - 1)))) t Compare WakeUp) by (by left).
  destruct (keep_lock _ _ _ _ _ _ _ I Ht Hlock) as [HL1 HL2].
  destruct (inv_counter _ _ _ _ I) as (q & Hq & [[(F1&F2&F3) R]|[(F1&F2&F3) R]]); [|lia].
  split; simpl; [apply I|done|done|..].
  - exists (q + 1). split; [lia|]. right. unfold closing; simpl. rewrite Hu64, Hin.
    split; [lia|]. replace (q + 1 - 1) with q by lia.
    intros u p Hu Hp. destruct (decide (t = u)) as [->|Hne].
    + rewrite lookup_insert_eq in Hu. by simplify_eq.
    + rewrite lookup_insert_ne in Hu by done. by eapply R.
  - rewrite Hu64. lia.
  - intros u p Hu. destruct (decide (t = u)) as [->|Hne].
    + rewrite lookup_insert_eq in Hu. simplify_eq. simpl.
      destruct (R _ _ Ht eq_refl) as (i & Hi & Hr). exists i. split; [done|].
      unfold round_full. rewrite Hr. lia.
    + rewrite lookup_insert_ne in Hu by done. pose proof (inv_pc _ _ _ _ I _ _ Hu) as P.
      destruct p; try done; exfalso; apply Hne; symmetry; eapply (other_lock b m l t u); eauto; done.
Qed.

(** [Depart]: a thread of a closed round leaves. *)

Lemma keep_depart b m l t :
  live_inv n b m l -> m !! t = Some Depart ->
  let tot := u64 (total b - 1) in
  live_inv n (set_total b tot)
    (<[t := if tot =? BARRIER_FLAG then WakeUp else UnlockReturn]> m) l.
Proof.
  intros I Ht tot. set (p' := if tot =? BARRIER_FLAG then WakeUp else UnlockReturn).
  assert (holds_lock p' = true /\ counted p' = 0%nat) as [Hp1 Hp2] by (unfold p'; by case_match).
  assert (inside (<[t := p']> m) = inside m - 1) as Hin.
  { pose proof (inside_move m t Depart p' Ht). rewrite Hp2 in *. simpl in *. lia. }
  pose proof (inside_ge _ _ _ Ht) as Hge. simpl in Hge.
  pose proof (inv_pc _ _ _ _ I _ _ Ht) as Hfl. simpl in Hfl.
  assert (Hlock : lock_move b (set_total b tot) t Depart p') by (left; by rewrite Hp1).
  destruct (keep_lock _ _ _ _ _ _ _ I Ht Hlock) as [HL1 HL2].
  destruct (inv_counter _ _ _ _ I) as (q & Hq & [[(F1&F2&F3) R]|[(F1&F2&F3) R]]); [lia|].
  assert (tot = BARRIER_FLAG + (inside m - 1)) as Htot.
  { unfold tot. rewrite BARRIER_FLAG_val in *. rewrite wrap_small; lia. }
  split; simpl; [apply I|done|done|..].
  - exists q. split; [done|]. right. unfold closing; simpl. rewrite Hin. split; [lia|].
    intros u p Hu Hp. destruct (decide (t = u)) as [->|Hne].
    + rewrite lookup_insert_eq in Hu. injection Hu as <-. congruence.
    + rewrite lookup_insert_ne in Hu by done. by eapply R.
  - lia.
  - intros u p Hu. destruct (decide (t = u)) as [->|Hne].
    + rewrite lookup_insert_eq in Hu. injection Hu as <-.
      assert (exists i, arrival_index u l = Some i /\ round_full n i l) as X.
      { destruct (R _ _ Ht eq_refl) as (i & Hi & Hr). exists i. split; [done|].
        unfold round_full. rewrite Hr. lia. }
      unfold p'. by case_match.
    + rewrite lookup_insert_ne in Hu by done. pose proof (inv_pc _ _ _ _ I _ _ Hu) as P.
      destruct p; try done; exfalso; apply Hne; symmetry; eapply (other_lock b m l t u); eauto; done.
Qed.

Lemma keep_emit_returned b m l t : live_inv n b m l -> live_inv n b m (Returned t :: l).
Proof. intros I. split; apply I. Qed.
End keep.

Lemma log_ok_grows n t l i :
  log_ok n l -> arrival_index t l = Some i -> round_full n i l -> log_ok n (Returned t :: l).
Proof. simpl; eauto. Qed.

Lemma pcs_signal t th c :
  threads c !! t = Some th -> th_pc <$> <[t := wake th]> (threads c) = pcs c.
Proof.
  intros Ht. rewrite fmap_insert. simpl. apply insert_id. unfold pcs. by rewrite lookup_fmap, Ht.
Qed.

Create Rewrite HintDb pcs.

#[export] Hint Rewrite pcs_goto pcs_prepare pcs_finish pcs_wake_up pcs_set_bar pcs_emit : pcs.

(** Discharges the side conditions of [keep_move] for a concrete move. *)

Ltac move_side :=
  first [ done | by left | by (right; left) | by (right; right) | by (intros; simplify_eq) ].

(** A step that does not log: only the moved thread's side is left. *)

Ltac settle d HL := eapply d; [done|done|by autorewrite with pcs|exact HL|].

Section preserve.
Context (n : Z) (n_pos : 1 <= n) (n_small : n < BARRIER_FLAG).

Lemma thread_step_inv t th c c' :
  sync_inv n c -> threads c !! t = Some th -> thread_step t th c = Next c' -> sync_inv n c'.
Proof.
  intros [HL HI] Ht Hs. apply pcs_lookup in Ht.
  unfold thread_step in Hs. destruct (bar c) as [b|] eqn:Hb; [|by case_match].
  specialize (HI b eq_refl).
  assert (forall b' p', count b' = count b -> total b' = total b -> lock_move b b' t (th_pc th) p' ->
    counted (th_pc th) = counted p' -> (th_pc th = Compare -> total b <> n) ->
    pc_inv n b' (log c) t p' -> live_inv n b' (<[t := p']> (pcs c)) (log c)) as mv.
  { intros. eapply keep_move; eauto. }
  pose proof (inv_pc _ _ _ _ HI _ _ Ht) as Hpc. pose proof (inv_count _ _ _ _ HI) as Hcnt.
  assert (forall b' l' p', bar c' = Some b' -> log c' = l' -> pcs c' = <[t := p']> (pcs c) ->
    log_ok n l' -> live_inv n b' (<[t := p']> (pcs c)) l' -> sync_inv n c') as done_with.
  { intros b' l' p' E1 <- E3 ? ?. split; [done|]. intros ? ?. rewrite E3. by simplify_eq. }
  destruct (th_pc th) as [|k|k|k|k|k|k| | | | | | | |] eqn:Hp; simpl in Hpc.
  1: done.
  (* Lock, Test, Unlock, Prepare, Schedule, Finish *)
  1-6: repeat case_match; simplify_eq; (eapply done_with;
    [done|done|autorewrite with pcs; reflexivity|exact HL|apply mv; try move_side]).
  - by destruct k; left.
  - by destruct k.
  - destruct k; simpl in *; [lia|lia|done].
  (* Arrive, Compare (twice), Depart, WakeUp *)
  - injection Hs as <-. settle done_with HL. by apply keep_arrive.
  - destruct (Z.eqb_spec (total b) (count b)) as [E|E]; injection Hs as <-; settle done_with HL.
    + by apply keep_trip.
    + apply mv; move_side.
  - injection Hs as <-. settle done_with HL. by apply keep_depart.
  - injection Hs as <-. settle done_with HL. apply mv; move_side.
  (* UnlockReturn, PrintDone, UnlockFree, Free *)
  - injection Hs as <-. settle done_with HL. apply mv; move_side.
  - injection Hs as <-. destruct Hpc as (i & Hi & Hr).
    eapply done_with; [done|done|by autorewrite with pcs|by eapply log_ok_grows|].
    apply keep_emit_returned. apply mv; move_side.
  - injection Hs as <-. settle done_with HL. apply mv; move_side.
  - injection Hs as <-. by split.
Qed.

Lemma exec_inv l c c' : sync_inv n c -> exec l c = Next c' -> sync_inv n c'.
Proof.
  intros HI. destruct l as [t|t|t|t]; simpl; intros Hs.
  1-2: destruct (threads c !! t) as [[p r]|] eqn:Ht; [|done]; destruct p; try done;
    injection Hs as <-; destruct HI as [HL HI]; split; [done|]; intros b Hb; autorewrite with pcs;
    specialize (HI b Hb); apply pcs_lookup in Ht; eapply keep_move; eauto; move_side.
  - destruct (threads c !! t) as [th|] eqn:Ht; [|done]. by eapply thread_step_inv.
  - destruct (threads c !! t) as [th|] eqn:Ht; [|done]. injection Hs as <-.
    destruct HI as [HL HI]. split; [done|]. intros b Hb. unfold pcs; simpl.
    rewrite (pcs_signal _ _ _ Ht). by apply HI.
Qed.

Lemma start_inv b ts :
  count b = n -> total b = BARRIER_FLAG -> lock_total b = None -> sync_inv n (start b ts).
Proof.
  intros Hc Ht Hl. split; [done|]. intros b' Hb'. injection Hb' as <-.
  assert (forall t p, pcs (start b ts) !! t = Some p -> p = Idle) as Hidle.
  { intros t p. unfold pcs; simpl. rewrite lookup_fmap, lookup_gset_to_gmap.
    intros Hp. destruct (guard _) in Hp; by simplify_option_eq. }
  assert (msum counted (pcs (start b ts)) = 0%nat) as Hz.
  { apply msum_zero. intros t p Hp. by rewrite (Hidle t p Hp). }
  split; [done|..].
  - intros t p Hp. rewrite (Hidle t p Hp), Hl. by split.
  - rewrite Hl. done.
  - exists 0. split; [lia|]. right. unfold closing. rewrite Hz, Ht. simpl.
    split; [lia|]. intros t p Hp. by rewrite (Hidle t p Hp).
  - lia.
  - intros t p Hp. by rewrite (Hidle t p Hp).
Qed.

Lemma reachable_inv b ts c :
  count b = n -> total b = BARRIER_FLAG -> lock_total b = None ->
  reachable (start b ts) c -> sync_inv n c.
Proof.
  intros ??? Hr. induction Hr; [by apply start_inv|]. by eapply exec_inv.
Qed.
End preserve.

(** Program counters of [barrier_wait], and of [barrier_destroy]. *)

Definition waiting (p : pc) : bool :=
  match p with
  | Lock Destroy | Test Destroy | Unlock Destroy | Prepare Destroy | Schedule Destroy | Finish Destroy
  | UnlockFree | Free => false
  | _ => true
  end.

Definition destroying (p : pc) : bool :=
  match p with
  | Idle | Lock Destroy | Test Destroy | Unlock Destroy | Prepare Destroy | Schedule Destroy | Finish Destroy
  | UnlockFree | Free => true
  | _ => false
  end.

(** A thread only fails on a freed barrier. *)

Lemma step_faults t th c f : thread_step t th c = Fault f -> bar c = None /\ th_pc th <> Idle.
Proof.
  unfold thread_step. destruct (bar c) as [b|]; [|by destruct (th_pc th)].
  intros H. exfalso. by destruct (th_pc th); repeat case_match.
Qed.
