(* ===== verification/BarrierProgress.v ===== *)
(** * Progress of the barrier: what always moves on, and what gets stuck

    Critical sections are short and never block; a released and woken thread
    returns.  The wait queue is the weak point: [sleep_here] does not look at
    the condition again after [prepare_to_wait], so a wake-up that falls
    between the [spin_unlock] and [prepare_to_wait] is lost. *)

From S2P Require Import Prelude BarrierData BarrierSync BarrierSyncProofs BarrierSyncSpec.

(** [t], running alone, gives the lock back in at most [k] steps. *)

Definition releases_within (k : nat) (t : Z) (c : config) : Prop :=
  exists j c' b', (j <= k)%nat /\ run (replicate j (Run t)) c = Next c' /\
  bar c' = Some b' /\ lock_total b' = None.

(** [t], running alone, returns from its call in at most [k] steps. *)

Definition returns_within (k : nat) (t : Z) (c : config) : Prop :=
  exists j c', (j <= k)%nat /\ run (replicate j (Run t)) c = Next c' /\ log c' = Returned t :: log c.

(** ** Running one thread *)

Section alone.
Context (t : Z).

Lemma releases_step k c c' :
  exec (Run t) c = Next c' -> releases_within k t c' -> releases_within (S k) t c.
Proof.
  intros Hs (j & c1 & b1 & Hj & Hr & Hb). exists (S j), c1, b1.
  split; [lia|]. split; [|done]. change (replicate (S j) (Run t)) with (Run t :: replicate j (Run t)).
  cbn [run]. by rewrite Hs.
Qed.

Lemma releases_now k c b : bar c = Some b -> lock_total b = None -> releases_within k t c.
Proof. intros. exists 0%nat, c, b. split_and!; [lia|done..]. Qed.

Lemma releases_weaken k k' c : (k <= k')%nat -> releases_within k t c -> releases_within k' t c.
Proof. intros ? (j & c1 & b1 & ? & ?). exists j, c1, b1. split; [lia|done]. Qed.

Lemma returns_step k c c' :
  exec (Run t) c = Next c' -> log c' = log c -> returns_within k t c' -> returns_within (S k) t c.
Proof.
  intros Hs Hl (j & c1 & Hj & Hr & Hb). exists (S j), c1.
  split; [lia|]. rewrite <- Hl. split; [|done].
  change (replicate (S j) (Run t)) with (Run t :: replicate j (Run t)). cbn [run]. by rewrite Hs.
Qed.

(** The step taken at a program counter, with the bookkeeping done. *)

Definition at_pc (p : pc) (b : barrier_struct) (c : config) : Prop :=
  bar c = Some b /\ exists r, threads c !! t = Some {| th_pc := p; th_run := r |}.

Lemma exec_at p b c :
  at_pc p b c -> exists r, exec (Run t) c = thread_step t {| th_pc := p; th_run := r |} c.
Proof. intros [Hb [r Ht]]. exists r. simpl. by rewrite Ht. Qed.

Lemma at_goto_set p b c : at_pc p b (goto t p (set_bar b c)).
Proof. split; [done|]. exists Running. apply lookup_insert_eq. Qed.

Lemma at_goto p b c : bar c = Some b -> at_pc p b (goto t p c).
Proof. intros Hb. split; [done|]. exists Running. apply lookup_insert_eq. Qed.

Lemma at_wake_up p b c : at_pc p b c -> at_pc p b (wake_up_here c).
Proof.
  intros [Hb [r Ht]]. split; [done|]. simpl. rewrite map_lookup_imap, Ht. simpl.
  destruct (decide _); by eexists.
Qed.

Lemma wake_up_log c : log (wake_up_here c) = log c.
Proof. done. Qed.
End alone.

Ltac step_at H :=
  let r := fresh "r" in let E := fresh "E" in let Hb := fresh "Hb" in
  destruct (exec_at _ _ _ _ H) as [r E]; destruct H as [Hb ?]; unfold thread_step in E;
  rewrite Hb in E; cbn [th_pc th_run] in E.

Lemma unlock_return_releases t b c : at_pc t UnlockReturn b c -> releases_within 1 t c.
Proof. intros H. step_at H. eapply releases_step; [done|]. by eapply releases_now. Qed.

Lemma wake_up_releases t b c : at_pc t WakeUp b c -> releases_within 2 t c.
Proof.
  intros H. step_at H. eapply releases_step; [done|].
  apply (unlock_return_releases t b). by apply at_goto.
Qed.

Lemma depart_releases t b c : at_pc t Depart b c -> releases_within 3 t c.
Proof.
  intros H. step_at H. eapply releases_step; [done|]. case_match.
  - eapply wake_up_releases, at_goto_set.
  - eapply releases_weaken; [|eapply unlock_return_releases, at_goto_set]. lia.
Qed.

Lemma unlock_releases t k b c : at_pc t (Unlock k) b c -> releases_within 1 t c.
Proof. intros H. step_at H. eapply releases_step; [done|]. by eapply releases_now. Qed.

Lemma unlock_free_releases t b c : at_pc t UnlockFree b c -> releases_within 1 t c.
Proof. intros H. step_at H. eapply releases_step; [done|]. by eapply releases_now. Qed.

Lemma test_leave_releases t b c : at_pc t (Test Leave) b c -> releases_within 4 t c.
Proof.
  intros H. step_at H. destruct (keep_waiting _ _); (eapply releases_step; [done|]).
  - eapply releases_weaken; [|by eapply unlock_releases, at_goto]. lia.
  - by eapply depart_releases, at_goto.
Qed.

Lemma compare_releases t b c : at_pc t Compare b c -> releases_within 5 t c.
Proof.
  intros H. step_at H. destruct (_ =? _); (eapply releases_step; [done|]).
  - eapply releases_weaken; [|eapply wake_up_releases, at_goto_set]. lia.
  - by eapply test_leave_releases, at_goto.
Qed.

Lemma arrive_releases t b c : at_pc t Arrive b c -> releases_within 6 t c.
Proof.
  intros H. step_at H. eapply releases_step; [done|].
  eapply compare_releases. split; [done|]. exists Running. apply lookup_insert_eq.
Qed.

Lemma test_releases t k b c : at_pc t (Test k) b c -> releases_within 7 t c.
Proof.
  intros H. destruct k; [|by eapply releases_weaken, test_leave_releases; [lia|]|];
    step_at H; destruct (keep_waiting _ _); (eapply releases_step; [done|]).
  1, 3: eapply releases_weaken; [|by eapply unlock_releases, at_goto]; lia.
  - by eapply arrive_releases, at_goto.
  - eapply releases_weaken; [|by eapply unlock_free_releases, at_goto]. lia.
Qed.

(** A thread that owns the lock gives it back. *)

Lemma holder_releases t p b c : at_pc t p b c -> holds_lock p = true -> releases_within 7 t c.
Proof.
  intros H Hp. destruct p; try done.
  - by eapply test_releases.
  - eapply releases_weaken; [|by eapply unlock_releases]. lia.
  - eapply releases_weaken; [|by eapply arrive_releases]. lia.
  - eapply releases_weaken; [|by eapply compare_releases]. lia.
  - eapply releases_weaken; [|by eapply depart_releases]. lia.
  - eapply releases_weaken; [|by eapply wake_up_releases]. lia.
  - eapply releases_weaken; [|by eapply unlock_return_releases]. lia.
  - eapply releases_weaken; [|by eapply unlock_free_releases]. lia.
Qed.

(** A thread that has been woken in a closed round returns. *)

Lemma print_done_returns t b c : at_pc t PrintDone b c -> returns_within 1 t c.
Proof.
  intros H. step_at H. eexists 1%nat, _. split; [lia|].
  split; [cbn [replicate run]; by rewrite E|done].
Qed.

Lemma unlock_return_returns t b c : at_pc t UnlockReturn b c -> returns_within 2 t c.
Proof.
  intros H. step_at H. eapply returns_step; [done|done|]. eapply print_done_returns, at_goto_set.
Qed.

Lemma wake_up_returns t b c : at_pc t WakeUp b c -> returns_within 3 t c.
Proof.
  intros H. step_at H. eapply returns_step; [done|done|]. by eapply unlock_return_returns, at_goto.
Qed.

Lemma depart_returns t b c : at_pc t Depart b c -> returns_within 4 t c.
Proof.
  intros H. step_at H. eapply returns_step; [done|done|]. case_match.
  - eapply wake_up_returns, at_goto_set.
  - destruct (unlock_return_returns t _ _ (at_goto_set t UnlockReturn
      (set_total b (u64 (total b - 1))) c)) as (j & c' & ? & ?).
    exists j, c'. split; [lia|done].
Qed.

Lemma released_returns t b c :
  bar c = Some b -> BARRIER_FLAG <= total b -> lock_total b = None ->
  threads c !! t = Some {| th_pc := Schedule Leave; th_run := Running |} ->
  returns_within 8 t c.
Proof.
  intros Hb Ht Hl Hth.
  eapply returns_step; [simpl; rewrite Hth; unfold thread_step; by rewrite Hb|done|].
  eapply returns_step; [simpl; rewrite lookup_insert_eq; unfold thread_step; simpl; by rewrite Hb|done|].
  eapply returns_step; [simpl; rewrite lookup_insert_eq; unfold thread_step; simpl; rewrite Hb;
    simpl; by rewrite Hl|done|].
  assert (keep_waiting Leave (total b) = false) as Hk by (simpl; lia).
  eapply returns_step; [simpl; rewrite lookup_insert_eq; unfold thread_step; cbn -[keep_waiting];
    by rewrite Hk|done|].
  eapply depart_returns. split; [done|]. eexists. simpl. apply lookup_insert_eq.
Qed.

(** ** The lost wake-up *)

(** Thread 1 is counted, releases the lock and is overtaken before
    [prepare_to_wait]; thread 2 completes the round, wakes an empty queue and
    returns; thread 1 then goes to sleep. *)

Definition lost_wakeup_schedule : list label :=
  CallWait 1 :: replicate 6 (Run 1) ++ CallWait 2 :: replicate 7 (Run 2) ++ [Run 1].

(** Everything that can still happen without a signal to thread 1. *)

Definition outside_or_queueing (p : pc) : bool :=
  match p with
  | Idle => true
  | Lock k | Test k | Unlock k | Prepare k | Schedule k | Finish k =>
      match k with Leave => false | _ => true end
  | _ => false
  end.

Definition lost (c : config) : Prop :=
  exists b th2, bar c = Some b /\ total b = BARRIER_FLAG + 1 /\
  threads c = {[ 1 := {| th_pc := Schedule Leave; th_run := Interruptible |}; 2 := th2 ]} /\
  outside_or_queueing (th_pc th2) = true /\
  log c = [Returned 2; Arrived 2; Arrived 1].

Lemma lost_update c c' b' th2 :
  lost c -> bar c' = Some b' -> total b' = BARRIER_FLAG + 1 ->
  threads c' = <[2 := th2]> (threads c) -> outside_or_queueing (th_pc th2) = true ->
  log c' = log c -> lost c'.
Proof.
  intros (b & th & Hb & Ht & Hth & Hp & Hl) ?? E ? El. exists b', th2.
  rewrite E, Hth, El. split_and!; done.
Qed.

Lemma lost_lookup c t th :
  lost c -> threads c !! t = Some th ->
  (t = 1 /\ th = {| th_pc := Schedule Leave; th_run := Interruptible |}) \/
  (t = 2 /\ outside_or_queueing (th_pc th) = true).
Proof.
  intros (b & th2 & Hb & Ht & E & Hp & Hl). rewrite E, lookup_insert_Some, lookup_singleton_Some.
  intros [[<- <-]|(_ & <- & <-)]; [by left|by right].
Qed.

Lemma lost_exec l c c' : lost c -> l <> Signal 1 -> exec l c = Next c' -> lost c'.
Proof.
  intros HL Hl Hs. pose proof HL as (b & _ & Hb & Ht & _).
  destruct l as [t|t|t|t]; simpl in Hs; (destruct (threads c !! t) as [th|] eqn:Hth; [|done]);
    destruct (lost_lookup _ _ _ HL Hth) as [[-> ->]|[-> Hp]]; try done.
  - destruct th as [[] ?]; try done. simplify_eq. by eapply lost_update.
  - destruct th as [[] ?]; try done. simplify_eq. by eapply lost_update.
  - unfold thread_step in Hs. by rewrite Hb in Hs.
  - assert (forall k, k <> Leave -> keep_waiting k (total b) = true) as Hk.
    { intros [] ?; simpl; try done; lia. }
    unfold thread_step in Hs. rewrite Hb in Hs.
    destruct (th_pc th) as [|k|k|k|k|k|k| | | | | | | |]; try done;
      (assert (k <> Leave) by (intros ->; done)); rewrite ?Hk in Hs by done;
      repeat case_match; simplify_eq; eapply lost_update; try done; by destruct k.
  - simplify_eq. by eapply lost_update.
Qed.

Lemma lost_forever ls c c' : lost c -> Signal 1 ∉ ls -> run ls c = Next c' -> lost c'.
Proof.
  revert c. induction ls as [|l ls IH]; intros c HL Hn Hr; simpl in Hr; [by simplify_eq|].
  apply not_elem_of_cons in Hn as [Hn1 Hn2].
  destruct (exec l c) as [c1| |] eqn:E; [|done..]. eapply IH; [|done|done].
  eapply lost_exec; eauto.
Qed.

(** ** A barrier for zero threads *)

Definition zero_pc (l : list event) (p : pc) : Prop :=
  match p with
  | WakeUp | Depart | UnlockReturn | PrintDone => False
  | _ => counted p = 1%nat -> 1 <= arrivals l
  end.

Definition zero_inv (c : config) : Prop :=
  (forall t, Returned t ∉ log c) /\
  forall b, bar c = Some b ->
  count b = 0 /\ total b = (if arrivals (log c) =? 0 then BARRIER_FLAG else arrivals (log c)) /\
  forall t p, pcs c !! t = Some p -> zero_pc (log c) p.

Lemma zero_pc_grows e l p : zero_pc l p -> zero_pc (e :: l) p.
Proof. destruct e, p; simpl; try done; intros H ?; specialize (H ltac:(done)); lia. Qed.

Lemma zero_update c c' b' t p :
  zero_inv c -> bar c' = Some b' -> log c' = log c -> count b' = 0 ->
  total b' = (if arrivals (log c) =? 0 then BARRIER_FLAG else arrivals (log c)) ->
  pcs c' = <[t := p]> (pcs c) -> zero_pc (log c) p -> is_Some (bar c) -> zero_inv c'.
Proof.
  intros [Hn HI] Hb' Hl Hc Ht Hp Hz [b Hb]. rewrite <- Hl in *. split; [done|].
  intros b'' E. rewrite Hb' in E. simplify_eq. split_and!; [done|done|].
  intros u q. rewrite Hp. destruct (decide (t = u)) as [->|Hne].
  - rewrite lookup_insert_eq. by intros [= <-].
  - rewrite lookup_insert_ne by done. destruct (HI _ Hb) as (_ & _ & H). apply H.
Qed.

Ltac split_on H :=
  repeat match type of H with context [match ?x with _ => _ end] => destruct x eqn:? end.

Lemma zero_thread_step t th c c' :
  zero_inv c -> threads c !! t = Some th -> thread_step t th c = Next c' ->
  arrivals (log c') < BARRIER_FLAG -> zero_inv c'.
Proof.
  intros HZ Ht Hs Hlt. pose proof HZ as [Hn HI]. apply pcs_lookup in Ht.
  unfold thread_step in Hs. destruct (bar c) as [b|] eqn:Hb; [|by destruct (th_pc th)].
  destruct (HI b eq_refl) as (Hc & Htot & Hpc). specialize (Hpc _ _ Ht).
  pose proof (arrivals_nonneg (log c)) as Hnn.
  destruct (th_pc th) as [|k|k|k|k|k|k| | | | | | | |]; simpl in Hpc; try done.
  1-6: destruct k; split_on Hs; simplify_eq;
    try (eapply zero_update; [done|done|done|done|done|by autorewrite with pcs|done|by eexists]).
  - simpl in *. specialize (Hpc eq_refl). destruct (Z.eqb_spec (arrivals (log c)) 0); lia.
  - injection Hs as <-. simpl in Hlt. split.
    { intros u. simpl. rewrite elem_of_cons. intros [?|?]; [done|by eapply Hn]. }
    intros b' [= <-]. simpl.
    assert (u64 ((if total b =? BARRIER_FLAG then 0 else total b) + 1) = arrivals (log c) + 1) as ->.
    { rewrite Htot. rewrite BARRIER_FLAG_val in *.
      destruct (Z.eqb_spec (arrivals (log c)) 0) as [E|E].
      - rewrite E. reflexivity.
      - destruct (Z.eqb_spec (arrivals (log c)) (2 ^ 63)); [lia|]. rewrite wrap_small; lia. }
    destruct (Z.eqb_spec (arrivals (log c) + 1) 0); [lia|]. split_and!; [done|done|].
    intros u p. autorewrite with pcs. destruct (decide (t = u)) as [->|Hne].
    + rewrite lookup_insert_eq. intros [= <-]. simpl. lia.
    + rewrite lookup_insert_ne by done. intros Hu.
      destruct (HI _ eq_refl) as (_ & _ & H). by apply (zero_pc_grows (Arrived t)), (H u).
  - rewrite Hc in Hs. specialize (Hpc eq_refl).
    destruct (Z.eqb_spec (total b) 0); [destruct (Z.eqb_spec (arrivals (log c)) 0); lia|].
    injection Hs as <-.
    eapply zero_update; [done|done|done|done|done|by autorewrite with pcs|by intros _|by eexists].
  - injection Hs as <-.
    eapply zero_update; [done|done|done|done|done|by autorewrite with pcs|done|by eexists].
  - injection Hs as <-. by split.
Qed.

Lemma zero_exec l c c' :
  zero_inv c -> exec l c = Next c' -> arrivals (log c') < BARRIER_FLAG -> zero_inv c'.
Proof.
  intros HZ Hs Hlt. destruct l as [t|t|t|t]; simpl in Hs;
    (destruct (threads c !! t) as [th|] eqn:Ht; [|done]).
  3: by eapply zero_thread_step.
  1-2: destruct th as [[] ?]; try done; injection Hs as <-; pose proof HZ as [Hn HI];
    (split; [done|]); intros b Hb; destruct (HI b Hb) as (Hc & Htot & Hpc);
    split_and!; [done|done|]; intros u p; autorewrite with pcs;
    (destruct (decide (t = u)) as [->|Hne];
      [rewrite lookup_insert_eq; by intros [= <-]|rewrite lookup_insert_ne by done; apply Hpc]).
  injection Hs as <-. destruct HZ as [Hn HI]. split; [done|]. intros b Hb. unfold pcs; simpl.
  rewrite (pcs_signal _ _ _ Ht). by apply HI.
Qed.

Lemma exec_arrivals l c c' : exec l c = Next c' -> arrivals (log c) <= arrivals (log c').
Proof.
  destruct l as [t|t|t|t]; simpl; intros Hs;
    (destruct (threads c !! t) as [th|] eqn:Ht; [|done]); unfold thread_step in *;
    repeat case_match; simplify_eq; simpl; lia.
Qed.

(** ** Destroying *)

(** A counted thread sleeps; [barrier_destroy] does not wait for it. *)

Definition early_destroy_schedule : list label :=
  CallWait 1 :: replicate 7 (Run 1) ++ CallDestroy 2 :: replicate 4 (Run 2) ++ [Signal 1; Run 1].

(** ** Theorems *)

Section barrier.
Context (current : task) (n bid : Z) (ts : gset Z).
Context (n_pos : 1 <= n) (n_int : n < 2 ^ 31).

Abbreviation b0 := (init_barrier_struct current n bid).

(** the spin lock is always given back: from any reachable state its
    holder, running alone, never blocks and releases it in at most 7 steps. *)

Theorem lock_is_released c b t :
  reachable (start b0 ts) c -> bar c = Some b -> lock_total b = Some t ->
  exists j c' b', (j <= 7)%nat /\ run (replicate j (Run t)) c = Next c' /\
  bar c' = Some b' /\ lock_total b' = None.
Proof.
  intros Hr Hb Hl. pose proof (reachable_live_inv _ _ _ _ n_pos n_int _ _ Hr Hb) as I.
  destruct (inv_holder _ _ _ _ I t Hl) as [p Hp]. pose proof Hp as Hh.
  apply (inv_lock _ _ _ _ I) in Hh. apply Hh in Hl.
  unfold pcs in Hp. rewrite lookup_fmap in Hp.
  destruct (threads c !! t) as [[q r]|] eqn:Ht; simplify_option_eq.
  eapply holder_releases; [|done]. split; [done|]. by exists r.
Qed.

(** when no thread is inside a call, [barrier_destroy] passes its wait
    without sleeping and frees the barrier, and no thread is left holding the
    freed barrier. *)

Theorem destroy_when_idle c t :
  reachable (start b0 ts) c -> is_Some (bar c) ->
  (forall u p, pcs c !! u = Some p -> p = Idle) -> is_Some (threads c !! t) ->
  exists c', run (CallDestroy t :: replicate 4 (Run t)) c = Next c' /\ bar c' = None /\
  forall u p, pcs c' !! u = Some p -> p = Idle.
Proof.
  intros Hr [b Hb] Hidle [[p r] Ht].
  pose proof (reachable_live_inv _ _ _ _ n_pos n_int _ _ Hr Hb) as I.
  pose proof (pcs_lookup _ _ _ Ht) as Hp. apply Hidle in Hp. simpl in Hp. subst p.
  assert (lock_total b = None) as Hl.
  { destruct (lock_total b) as [u|] eqn:E; [|done].
    destruct (inv_holder _ _ _ _ I u E) as [p Hu]. apply (inv_lock _ _ _ _ I _ _ Hu) in E.
    rewrite (Hidle _ _ Hu) in E. done. }
  assert (msum counted (pcs c) = 0%nat) as Hz.
  { apply msum_zero. intros u p Hu. by rewrite (Hidle _ _ Hu). }
  assert (total b = BARRIER_FLAG) as Htot.
  { destruct (inv_counter _ _ _ _ I) as (q & _ & [[(?&?&?) _]|[(?&?&?) _]]); lia. }
  cbn [replicate run exec]. rewrite Ht. cbn [th_pc].
  unfold thread_step; simpl; repeat (rewrite ?lookup_insert_eq, ?Hb, ?Hl, ?Htot; simpl).
  eexists. split; [reflexivity|]. split; [done|].
  intros u p. unfold pcs; simpl. rewrite !fmap_insert.
  destruct (decide (t = u)) as [->|]; [rewrite lookup_insert_eq; by intros [= <-]|].
  rewrite !lookup_insert_ne by done. apply Hidle.
Qed.
End barrier.

(** once a round is closed, a counted thread that has been woken returns
    from [barrier_wait] in at most 8 of its own steps, given the lock. *)

Theorem woken_thread_returns c b t :
  bar c = Some b -> BARRIER_FLAG <= total b -> lock_total b = None ->
  threads c !! t = Some {| th_pc := Schedule Leave; th_run := Running |} ->
  exists j c' , (j <= 8)%nat /\ run (replicate j (Run t)) c = Next c' /\ log c' = Returned t :: log c.
Proof. intros. by eapply released_returns. Qed.

(** [barrier_init] accepts a count of 0, and no call of [barrier_wait] on
    such a barrier ever returns (short of 2^63 arrivals). *)

Theorem zero_barrier_never_returns current bid ts c t :
  reachable (start (init_barrier_struct current 0 bid) ts) c ->
  arrivals (log c) < BARRIER_FLAG -> Returned t ∉ log c.
Proof.
  intros Hr Hlt. cut (zero_inv c); [by intros [? _]|].
  induction Hr as [|c l c' Hr IH Hs].
  - split; [intros u; apply not_elem_of_nil|]. intros b [= <-]. split_and!; [done|done|].
    intros u p. unfold pcs; simpl. rewrite lookup_fmap, lookup_gset_to_gmap.
    intros Hp. destruct (guard _) in Hp; by simplify_option_eq.
  - pose proof (exec_arrivals _ _ _ Hs). eapply zero_exec; [|done|done]. apply IH. lia.
Qed.

(** C25: a wake-up can be lost.  There is a schedule of two threads on a barrier
    of two after which both have arrived and one has returned, while the other
    sleeps for good: whatever happens next, short of a signal to it, the
    history does not change. *)

Theorem wakeup_can_be_lost :
  exists ls c, run ls two_threads = Next c /\
  log c = [Returned 2; Arrived 2; Arrived 1] /\
  forall ls' c', Signal 1 ∉ ls' -> run ls' c = Next c' -> log c' = log c.
Proof.
  exists lost_wakeup_schedule. eexists. split; [vm_compute; reflexivity|]. split; [done|].
  intros ls' c' Hn Hr. eapply lost_forever in Hr as (?&?&?&?&?&?&->); [done| |done].
  eexists _, _. split_and!; [done|done| | |done]; vm_compute; reflexivity.
Qed.

(** [barrier_destroy] does not wait for the threads of a round that is
    still filling: a counted thread that is woken afterwards uses the freed
    barrier. *)

Theorem early_destroy_use_after_free :
  run early_destroy_schedule two_threads = Fault UseAfterFree.
Proof. vm_compute. reflexivity. Qed.

(** ** Witnesses *)

Lemma lock_is_released_witness :
  exists j c' b', (j <= 7)%nat /\ run (replicate j (Run 1)) (after (take 3 full_round)) = Next c' /\
  bar c' = Some b' /\ lock_total b' = None.
Proof.
  apply (lock_is_released {| task_tgid := 1; task_tid := 1 |} 2 0 {[1; 2]} ltac:(lia) ltac:(lia)
    (after (take 3 full_round)) (bar_of (after (take 3 full_round))) 1).
  - apply after_reachable. eexists. vm_compute. reflexivity.
  - vm_compute. reflexivity.
  - vm_compute. reflexivity.
Defined.

Lemma woken_thread_returns_witness :
  exists j c', (j <= 8)%nat /\ run (replicate j (Run 1)) (after (take 15 full_round)) = Next c' /\
  log c' = Returned 1 :: log (after (take 15 full_round)).
Proof.
  apply (woken_thread_returns (after (take 15 full_round)) (bar_of (after (take 15 full_round))) 1).
  - vm_compute. reflexivity.
  - vm_compute. discriminate.
  - vm_compute. reflexivity.
  - vm_compute. reflexivity.
Defined.

Lemma idle_after_full_round u p : pcs (after full_round) !! u = Some p -> p = Idle.
Proof.
  assert (pcs (after full_round) = {[1 := Idle; 2 := Idle]}) as -> by (vm_compute; reflexivity).
  rewrite lookup_insert_Some, lookup_singleton_Some. by intros [[_ <-]|(_ & _ & <-)].
Qed.

Lemma destroy_when_idle_witness :
  exists c', run (CallDestroy 1 :: replicate 4 (Run 1)) (after full_round) = Next c' /\ bar c' = None /\
  forall u p, pcs c' !! u = Some p -> p = Idle.
Proof.
  apply (destroy_when_idle {| task_tgid := 1; task_tid := 1 |} 2 0 {[1; 2]} ltac:(lia) ltac:(lia)
    (after full_round) 1).
  - apply after_reachable. eexists. vm_compute. reflexivity.
  - eexists. vm_compute. reflexivity.
  - apply idle_after_full_round.
  - eexists. vm_compute. reflexivity.
Defined.

Lemma zero_barrier_never_returns_witness : Returned 1 ∉ [].
Proof.
  apply (zero_barrier_never_returns {| task_tgid := 1; task_tid := 1 |} 0 {[1]}
    (start (new_barrier 0) {[1]}) 1).
  - constructor.
  - vm_compute. reflexivity.
Defined.
