(* ===== verification/BarrierQuiet.v ===== *)
(** * Where the barrier comes to rest

    Without new calls and without signals, every schedule of the machine ends
    after a bounded number of steps ([runs_end]); and where it cannot go on,
    either a wake-up was lost or the round still lacks threads
    ([rest_is_gathering_or_lost_wakeup]). *)

From S2P Require Import Prelude BarrierData BarrierSync BarrierSyncProofs BarrierSyncSpec.

(** ** A bound on the steps *)

(** The steps a thread can still make before it sleeps or is outside, when
    nobody wakes it. *)

Definition rank (th : thread) : nat :=
  match th_pc th, th_run th with
  | Idle, _ => 0
  | Schedule _, Interruptible => 0
  | Schedule Entry, Running => 11
  | Schedule Leave, Running => 8
  | Schedule Destroy, Running => 6
  | Finish Entry, _ => 10
  | Finish Leave, _ => 7
  | Finish Destroy, _ => 5
  | Lock Entry, _ => 9
  | Lock Leave, _ => 6
  | Lock Destroy, _ => 4
  | Test Entry, _ => 8
  | Test Leave, _ => 5
  | Test Destroy, _ => 3
  | Unlock _, _ => 2
  | Prepare _, _ => 1
  | Arrive, _ => 7
  | Compare, _ => 6
  | Depart, _ => 4
  | WakeUp, _ => 3
  | UnlockReturn, _ => 2
  | PrintDone, _ => 1
  | UnlockFree, _ => 2
  | Free, _ => 1
  end.

(** 1 for a thread that may still call [wake_up_here]. *)

Definition may_wake (p : pc) : nat :=
  match p with
  | Idle | UnlockReturn | PrintDone | UnlockFree | Free => 0
  | Lock Destroy | Test Destroy | Unlock Destroy | Prepare Destroy | Schedule Destroy | Finish Destroy => 0
  | _ => 1
  end.

Definition steps_left (c : config) : nat :=
  (11 * size (pcs c) * msum may_wake (pcs c) + msum rank (threads c))%nat.

Lemma rank_bound th : (rank th <= 11)%nat.
Proof. destruct th as [[] []]; cbn; repeat case_match; lia. Qed.

Lemma msum_bound {A} (f : A -> nat) (k : nat) (m : gmap Z A) :
  (forall a, f a <= k)%nat -> (msum f m <= k * size m)%nat.
Proof.
  intros Hf. induction m as [|i a m Hi IH] using map_ind; [rewrite msum_empty; lia|].
  rewrite msum_insert_None, map_size_insert_None by done. specialize (Hf a). lia.
Qed.

(** A step of [t] that leaves the other threads alone. *)

Lemma own_step_decreases c c' t th th' :
  threads c !! t = Some th -> threads c' = <[t := th']> (threads c) ->
  (rank th' < rank th)%nat -> (may_wake (th_pc th') <= may_wake (th_pc th))%nat ->
  (steps_left c' < steps_left c)%nat.
Proof.
  intros Ht E Hr Hw. unfold steps_left.
  assert (pcs c' = <[t := th_pc th']> (pcs c)) as -> by (unfold pcs; by rewrite E, fmap_insert).
  pose proof (msum_insert may_wake (pcs c) t _ (th_pc th') (pcs_lookup _ _ _ Ht)) as Ew.
  pose proof (msum_insert rank (threads c) t _ th' Ht) as Er. rewrite E.
  rewrite map_size_insert_Some by (eexists; by apply pcs_lookup).
  assert (msum may_wake (<[t := th_pc th']> (pcs c)) <= msum may_wake (pcs c))%nat by lia.
  pose proof (Nat.mul_le_mono_l _ _ (11 * size (pcs c)) H). lia.
Qed.

(** A wake-up spends the waker's own. *)

Lemma waking_decreases c t r :
  threads c !! t = Some {| th_pc := WakeUp; th_run := r |} ->
  (steps_left (goto t UnlockReturn (wake_up_here c)) < steps_left c)%nat.
Proof.
  intros Ht. unfold steps_left. autorewrite with pcs.
  pose proof (msum_insert may_wake (pcs c) t _ UnlockReturn (pcs_lookup _ _ _ Ht)) as Ew. cbn in Ew.
  pose proof (msum_ge rank (threads c) t _ Ht) as Hown. cbn in Hown.
  rewrite map_size_insert_Some by (eexists; by apply pcs_lookup).
  pose proof (msum_bound rank 11 (threads (goto t UnlockReturn (wake_up_here c))) rank_bound) as Hr.
  replace (size (threads (goto t UnlockReturn (wake_up_here c)))) with (size (pcs c)) in Hr.
  2: { transitivity (size (pcs (goto t UnlockReturn (wake_up_here c)))); [|unfold pcs; apply map_size_fmap].
       autorewrite with pcs. rewrite map_size_insert_Some; [done|]. eexists. by apply pcs_lookup. }
  assert (size (pcs c) <> 0%nat) as Hn.
  { intros Hz. apply map_size_empty_inv in Hz. pose proof (pcs_lookup _ _ _ Ht) as H. by rewrite Hz in H. }
  remember (msum may_wake (<[t := UnlockReturn]> (pcs c))) as W eqn:HW. clear HW.
  replace (msum may_wake (pcs c)) with (S W) by lia. lia.
Qed.

Lemma step_decreases c c' t : exec (Run t) c = Next c' -> (steps_left c' < steps_left c)%nat.
Proof.
  cbn [exec]. destruct (threads c !! t) as [[p r]|] eqn:Ht; [|done]. intros Hs.
  unfold thread_step in Hs. destruct (bar c) as [b|]; [|by destruct p]. cbn [th_pc th_run] in Hs.
  destruct p as [|k|k|k|k|k|k| | | | | | | |].
  1: done.
  10: { injection Hs as <-. by eapply waking_decreases. }
  9: { injection Hs as <-. destruct (u64 (total b - 1) =? BARRIER_FLAG).
    all: by eapply own_step_decreases; [exact Ht|reflexivity|cbn; lia..]. }
  all: repeat case_match; simplify_eq; (eapply own_step_decreases; [exact Ht|reflexivity|..]).
  all: try destruct k; try destruct r; cbn; try lia.
Qed.

Lemma run_decreases us c c' :
  run (Run <$> us) c = Next c' -> (length us + steps_left c' <= steps_left c)%nat.
Proof.
  revert c. induction us as [|t us IH]; intros c; cbn [fmap list_fmap run length].
  - intros [= ->]. lia.
  - destruct (exec (Run t) c) as [c1| |] eqn:E1; [|done..]. intros H.
    apply step_decreases in E1. apply IH in H. lia.
Qed.

(** ** Where nobody can move *)

Lemma msum_pos {A} (f : A -> nat) (m : gmap Z A) :
  msum f m <> 0%nat -> exists k a, m !! k = Some a /\ f a <> 0%nat.
Proof.
  intros H. destruct (decide (map_Exists (fun _ a => f a <> 0%nat) m)) as [(k & a & Hk)|Hno]; [by exists k, a|].
  destruct H. apply msum_zero. intros k a Hk. destruct (decide (f a = 0%nat)); [done|].
  destruct Hno. by exists k, a.
Qed.

Definition asleep (c : config) (t : Z) (k : loop) : Prop :=
  threads c !! t = Some {| th_pc := Schedule k; th_run := Interruptible |}.

(** A sleeper whose loop would let it go. *)

Definition wakeup_lost (c : config) (b : barrier_struct) : Prop :=
  exists t k, asleep c t k /\ keep_waiting k (total b) = false.

(** A round that lacks threads: those counted sleep, the others are outside. *)

Definition gathering (n : Z) (c : config) (b : barrier_struct) : Prop :=
  (total b = BARRIER_FLAG \/ 1 <= total b < n) /\
  inside (pcs c) = (if total b =? BARRIER_FLAG then 0 else total b) /\
  forall t th, threads c !! t = Some th -> th_pc th = Idle \/ asleep c t Leave.

Definition at_rest (c : config) : Prop := forall t, exec (Run t) c = Stuck.

Section rest.
Context (n : Z) (c : config) (b : barrier_struct).
Context (n_pos : 1 <= n) (n_small : n < BARRIER_FLAG).
Context (Hb : bar c = Some b) (I : live_inv n b (pcs c) (log c)) (R : at_rest c).

Lemma rest_stuck t th : threads c !! t = Some th -> thread_step t th c = Stuck.
Proof. intros Ht. specialize (R t). cbn [exec] in R. by rewrite Ht in R. Qed.

Lemma rest_unlocked : lock_total b = None.
Proof.
  destruct (lock_total b) as [t|] eqn:Hl; [|done]. exfalso.
  destruct (inv_holder _ _ _ _ I t Hl) as [p Hp].
  pose proof (proj2 (inv_lock _ _ _ _ I t p Hp) Hl) as Hh.
  unfold pcs in Hp. rewrite lookup_fmap in Hp. destruct (threads c !! t) as [th|] eqn:Ht; [|done].
  injection Hp as <-. pose proof (rest_stuck t th Ht) as Hs. unfold thread_step in Hs. rewrite Hb in Hs.
  destruct (th_pc th); cbn in Hh; try done.
  - by destruct (keep_waiting _ _) in Hs.
  - by destruct (_ =? _) in Hs.
Qed.

Lemma rest_threads t th : threads c !! t = Some th -> th_pc th = Idle \/ exists k, asleep c t k.
Proof.
  intros Ht. pose proof (rest_stuck t th Ht) as Hs. unfold thread_step in Hs. rewrite Hb, rest_unlocked in Hs.
  destruct th as [p r]. cbn [th_pc th_run] in *. destruct p as [|k|k|k|k|k|k| | | | | | | |]; try done.
  - by left.
  - by destruct (keep_waiting _ _).
  - right. exists k. by destruct r.
  - by destruct (_ =? _).
Qed.

Lemma counted_asleep t p : pcs c !! t = Some p -> counted p <> 0%nat -> asleep c t Leave.
Proof.
  unfold pcs. rewrite lookup_fmap. destruct (threads c !! t) as [th|] eqn:Ht; [|done]. intros [= <-] Hc.
  destruct (rest_threads t th Ht) as [E|[k Hk]]; [by rewrite E in Hc|].
  unfold asleep in Hk. rewrite Ht in Hk. injection Hk as ->. by destruct k.
Qed.

(** Sleepers at an entry loop are let go unless a round is being left. *)

Definition sleeps_at_entry (p : pc) : bool :=
  match p with Schedule Entry | Schedule Destroy => true | _ => false end.

Lemma entry_sleepers :
  total b <= BARRIER_FLAG ->
  wakeup_lost c b \/ forall t th, threads c !! t = Some th -> th_pc th = Idle \/ asleep c t Leave.
Proof.
  intros Hle.
  destruct (decide (map_Exists (fun _ th => sleeps_at_entry (th_pc th) = true) (threads c))) as [(t & th & Ht & Hs)|Hno].
  - left. exists t. destruct (rest_threads t th Ht) as [E|[k Hk]]; [by rewrite E in Hs|]. exists k.
    split; [done|]. unfold asleep in Hk. rewrite Ht in Hk. injection Hk as ->.
    destruct k; [|done|]; by apply Z.ltb_ge.
  - right. intros t th Ht. destruct (rest_threads t th Ht) as [E|[k Hk]]; [by left|right].
    destruct k; [|done|]; destruct Hno; exists t, th; (split; [done|]); unfold asleep in Hk; rewrite Ht in Hk;
      by injection Hk as ->.
Qed.

Lemma rest_case : wakeup_lost c b \/ gathering n c b.
Proof.
  destruct (inv_counter _ _ _ _ I) as (q & _ & [[(Hr & Hi & _) _]|[(Ht & Hi & _) _]]).
  - destruct (entry_sleepers ltac:(lia)) as [?|Hall]; [by left|right].
    assert (total b <> n) as Hn.
    { intros E. destruct (inv_full _ _ _ _ I E) as [t Hc].
      pose proof (counted_asleep t Compare Hc ltac:(done)) as Ha. apply pcs_lookup in Ha.
      rewrite Hc in Ha. done. }
    split; [right; lia|]. split; [|done]. destruct (Z.eqb_spec (total b) BARRIER_FLAG); lia.
  - destruct (decide (msum counted (pcs c) = 0%nat)) as [Hz|Hz].
    + destruct (entry_sleepers ltac:(lia)) as [?|Hall]; [by left|right].
      split; [left; lia|]. split; [|done]. rewrite (proj2 (Z.eqb_eq _ _)); lia.
    + left. destruct (msum_pos _ _ Hz) as (t & p & Hp & Hc). exists t, Leave.
      split; [by eapply counted_asleep|]. apply Z.ltb_ge. lia.
Qed.
End rest.

(** ** The theorems *)

Section theorems.
Context (current : task) (n bid : Z) (ts : gset Z).
Context (n_pos : 1 <= n) (n_int : n < 2 ^ 31).

(** C35: without new calls and signals the threads of a barrier come to rest:
    however they are scheduled, [N] of them make at most [11 N (N + 1)] steps
    together, from any configuration. *)

Theorem runs_end c us c' :
  run (Run <$> us) c = Next c' -> (length us <= 11 * size (threads c) * (size (threads c) + 1))%nat.
Proof.
  intros H. apply run_decreases in H. unfold steps_left in H.
  pose proof (msum_bound may_wake 1 (pcs c) ltac:(intros []; cbn; repeat case_match; lia)) as Hw.
  pose proof (msum_bound rank 11 (threads c) rank_bound) as Hr.
  replace (size (pcs c)) with (size (threads c)) in * by (unfold pcs; by rewrite map_size_fmap).
  pose proof (Nat.mul_le_mono_l _ _ (11 * size (threads c)) Hw). lia.
Qed.

(** where no thread can move, either some thread sleeps although its loop
    would let it go (its wake-up was lost), or all is as it should be: the
    barrier is idle, or fewer than [n] threads are counted, all of them asleep
    in their wait, and every other thread is outside the calls. *)

Theorem rest_is_gathering_or_lost_wakeup c b :
  reachable (start (init_barrier_struct current n bid) ts) c -> bar c = Some b -> at_rest c ->
  wakeup_lost c b \/ gathering n c b.
Proof.
  intros Hr Hb R. apply rest_case; [rewrite BARRIER_FLAG_val; lia|done| |done].
  by eapply (reachable_live_inv current n bid ts).
Qed.
End theorems.

(** ** One thread of two *)

Definition two_threads : config := start (new_barrier 2) {[1; 2]}.

Definition alone_schedule : list label := CallWait 1 :: (Run <$> replicate 7 1).

Definition alone_config : config :=
  match run alone_schedule two_threads with Next c => c | _ => two_threads end.

Lemma runs_end_witness :
  exists c', run (Run <$> replicate 7 1)
    (match exec (CallWait 1) two_threads with Next c => c | _ => two_threads end) = Next c' /\ (7 <= 66)%nat.
Proof.
  eexists. assert (run (Run <$> replicate 7 1)
    (match exec (CallWait 1) two_threads with Next c => c | _ => two_threads end) = Next alone_config) as H
    by (vm_compute; reflexivity).
  split; [exact H|]. exact (runs_end _ _ _ H).
Defined.

Lemma rest_is_gathering_or_lost_wakeup_witness :
  exists b, bar alone_config = Some b /\ (wakeup_lost alone_config b \/ gathering 2 alone_config b).
Proof.
  eexists. split; [vm_compute; reflexivity|].
  apply (rest_is_gathering_or_lost_wakeup {| task_tgid := 1; task_tid := 1 |} 2 0 {[1; 2]}); [lia|lia| | |].
  - apply (run_reachable two_threads alone_schedule two_threads); [constructor|vm_compute; reflexivity].
  - vm_compute. reflexivity.
  - intros t. destruct (decide (t = 1)) as [->|]; [vm_compute; reflexivity|].
    destruct (decide (t = 2)) as [->|]; [vm_compute; reflexivity|].
    assert (threads alone_config !! t = None) as Hn; [|unfold exec; by rewrite Hn].
    assert (dom (threads alone_config) = {[1; 2]}) as Hd by (vm_compute; reflexivity).
    apply not_elem_of_dom. rewrite Hd. set_solver.
Defined.
