(* ===== verification/BarrierTest.v ===== *)
(** * The barrier's test program, on the machine of its threads

    [run_barriers] of barrier_test/barrier_user_sys.c: a main thread makes a
    barrier for its workers, starts them, joins them all and destroys the
    barrier; each worker ([pfunction]) waits SYNC_ROUNS times.  Whatever the
    scheduler and signals do, no thread touches the freed barrier, and the
    barrier that is destroyed is idle. *)

From S2P Require Import Prelude BarrierData BarrierSync BarrierSyncProofs BarrierSyncSpec.

Definition SYNC_ROUNS : Z := 100.

(** Where [run_barriers] stands: in the join loop, in [barrier_destroy], after
    it.  The barrier is made and the workers are started before the joins. *)

Inductive main_pc := Joining | Destroying | Finished.

(** [cnt] is each worker's own counter; [exited] are the workers that returned. *)

Record client := {
  mach : config;
  cnt : gmap Z Z;
  exited : gset Z;
  main : main_pc
}.

Definition with_mach (c : config) (p : client) : client :=
  {| mach := c; cnt := cnt p; exited := exited p; main := main p |}.

Inductive client_label :=
  | Worker (t : Z)      (* pfunction, up to the call of barrier_wait or the return *)
  | Inside (t : Z)      (* a step inside a call *)
  | Interrupted (t : Z) (* a signal *)
  | Join                (* all joined: barrier_destroy is called *)
  | Return.             (* barrier_destroy returned *)

Inductive client_result := Goes (p : client) | Waits | Faults (f : fault).

Definition lifted (p : client) (r : result) (k : config -> client) : client_result :=
  match r with Next c => Goes (k c) | Stuck => Waits | Fault f => Faults f end.

Section client.
Context (ts : gset Z) (m : Z).

(** Lines 23-28 of [pfunction]: outside the calls. *)

Definition pfunction (t : Z) (p : client) : client_result :=
  match cnt p !! t with
  | None => Waits
  | Some k =>
      if k =? SYNC_ROUNS then
        Goes {| mach := mach p; cnt := cnt p; exited := {[t]} ∪ exited p; main := main p |}
      else
        lifted p (exec (CallWait t) (mach p))
          (fun c => {| mach := c; cnt := <[t := k + 1]> (cnt p); exited := exited p; main := main p |})
  end.

Definition outside (t : Z) (p : client) : bool :=
  match threads (mach p) !! t with Some {| th_pc := Idle |} => true | _ => false end.

Definition client_exec (l : client_label) (p : client) : client_result :=
  match l with
  | Worker t =>
      if bool_decide (t ∈ ts) && negb (bool_decide (t ∈ exited p)) && outside t p then pfunction t p else Waits
  | Inside t => lifted p (exec (Run t) (mach p)) (fun c => with_mach c p)
  | Interrupted t => lifted p (exec (Signal t) (mach p)) (fun c => with_mach c p)
  | Join =>
      match main p with
      | Joining =>
          if bool_decide (exited p = ts) then
            lifted p (exec (CallDestroy m) (mach p))
              (fun c => {| mach := c; cnt := cnt p; exited := exited p; main := Destroying |})
          else Waits
      | _ => Waits
      end
  | Return =>
      match main p with
      | Destroying =>
          if outside m p then Goes {| mach := mach p; cnt := cnt p; exited := exited p; main := Finished |} else Waits
      | _ => Waits
      end
  end.

Inductive client_reachable (p0 : client) : client -> Prop :=
  | client_refl : client_reachable p0 p0
  | client_step p l p' : client_reachable p0 p -> client_exec l p = Goes p' -> client_reachable p0 p'.

(** [barrier_init(num_threads, &barrier_id)], then the threads. *)

Definition run_barriers (current : task) (bid : Z) : client :=
  {| mach := start (init_barrier_struct current (Z.of_nat (size ts)) bid) ({[m]} ∪ ts);
     cnt := gset_to_gmap 0 ts; exited := ∅; main := Joining |}.
End client.
