(* ===== verification/BarrierTestSpec.v ===== *)
(** * The barrier's test program never uses a freed barrier *)

From S2P Require Import Prelude BarrierData BarrierSync BarrierSyncProofs BarrierSyncSpec BarrierTest.

(** How often [t]'s call of [barrier_wait] has returned. *)

Fixpoint returned (t : Z) (l : list event) : Z :=
  match l with
  | [] => 0
  | Returned u :: l => (if decide (u = t) then 1 else 0) + returned t l
  | Arrived _ :: l => returned t l
  end.

Definition in_call (p : pc) : Z := match p with Idle => 0 | _ => 1 end.

Lemma wait_step t th c c' b :
  bar c = Some b -> waiting (th_pc th) = true -> thread_step t th c = Next c' ->
  exists p', pcs c' = <[t := p']> (pcs c) /\ waiting p' = true /\ is_Some (bar c') /\
    forall u, returned u (log c') + (if decide (u = t) then in_call p' else 0) =
              returned u (log c) + (if decide (u = t) then in_call (th_pc th) else 0).
Proof.
  intros Hb Hw Hs. unfold thread_step in Hs. rewrite Hb in Hs.
  destruct th as [p r]. cbn [th_pc th_run] in *.
  destruct p as [|k|k|k|k|k|k| | | | | | | |]; try done; try (destruct k; try done).
  all: repeat case_match; simplify_eq; (eexists; split; [autorewrite with pcs; reflexivity|]).
  all: split; [done|]; split; [by first [exact (mk_is_Some _ _ Hb)|eexists]|].
  all: intros u; cbn; repeat case_decide; subst; cbn; lia || done.
Qed.

Lemma destroy_step t th c c' b :
  bar c = Some b -> destroying (th_pc th) = true -> thread_step t th c = Next c' ->
  exists p', pcs c' = <[t := p']> (pcs c) /\ destroying p' = true /\ log c' = log c /\
    (is_Some (bar c') \/ th_pc th = Free /\ p' = Idle).
Proof.
  intros Hb Hw Hs. unfold thread_step in Hs. rewrite Hb in Hs.
  destruct th as [p r]. cbn [th_pc th_run] in *.
  destruct p as [|k|k|k|k|k|k| | | | | | | |]; try done; try (destruct k; try done).
  all: repeat case_match; simplify_eq; (eexists; split; [autorewrite with pcs; reflexivity|]).
  all: split; [done|]; split; [done|].
  all: first [by right | left; first [exact (mk_is_Some _ _ Hb)|by eexists]].
Qed.

(** ** The invariant of the program *)

Section client.
Context (current : task) (bid : Z) (ts : gset Z) (m : Z).
Context (Hm : m ∉ ts) (Hn : 1 <= Z.of_nat (size ts) < 2 ^ 31).

Abbreviation n := (Z.of_nat (size ts)).

Record client_inv (p : client) : Prop := {
  ci_reach : reachable (start (init_barrier_struct current n bid) ({[m]} ∪ ts)) (mach p);
  ci_worker t : t ∈ ts -> exists q k, pcs (mach p) !! t = Some q /\ waiting q = true /\
    cnt p !! t = Some k /\ returned t (log (mach p)) + in_call q = k /\ k <= SYNC_ROUNS;
  ci_main : exists q, pcs (mach p) !! m = Some q /\ destroying q = true /\ (main p = Joining -> q = Idle);
  ci_others t : is_Some (pcs (mach p) !! t) -> t = m \/ t ∈ ts;
  ci_exited t : t ∈ exited p -> t ∈ ts /\ pcs (mach p) !! t = Some Idle /\ cnt p !! t = Some SYNC_ROUNS;
  ci_joined : main p <> Joining -> exited p = ts;
  ci_bar : bar (mach p) = None -> main p <> Joining /\ pcs (mach p) !! m = Some Idle
}.

Lemma outside_pc t p : outside t p = true -> pcs (mach p) !! t = Some Idle.
Proof.
  unfold outside, pcs. rewrite lookup_fmap. destruct (threads (mach p) !! t) as [[[] r]|]; done.
Qed.

Lemma start_client_inv : client_inv (run_barriers ts m current bid).
Proof.
  assert (pcs (mach (run_barriers ts m current bid)) = gset_to_gmap Idle ({[m]} ∪ ts)) as Hp.
  { unfold pcs. cbn. by rewrite fmap_gset_to_gmap. }
  split; rewrite ?Hp.
  - constructor.
  - intros t Ht. exists Idle, 0. unfold run_barriers. cbn [cnt].
    rewrite !lookup_gset_to_gmap, !option_guard_True by set_solver. by split_and!.
  - exists Idle. rewrite lookup_gset_to_gmap, option_guard_True by set_solver. by split_and!.
  - intros t. rewrite <- elem_of_dom, dom_gset_to_gmap. set_solver.
  - done.
  - done.
  - done.
Qed.
(** Who is inside a call, and on which barrier. *)

Lemma moved_lookup (c c' : config) t (p' : pc) u :
  pcs c' = <[t := p']> (pcs c) -> u <> t -> pcs c' !! u = pcs c !! u.
Proof. intros -> Hne. by rewrite lookup_insert_ne. Qed.

Lemma main_is_not_worker t : t ∈ ts -> t <> m.
Proof. by intros Ht ->. Qed.

(** A step inside [barrier_wait]. *)

Lemma inside_worker p t c' :
  client_inv p -> t ∈ ts -> exec (Run t) (mach p) = Next c' -> client_inv (with_mach c' p).
Proof.
  intros I Ht He. pose proof (reachable_step _ _ _ _ (ci_reach _ I) He) as Hr. cbn [exec] in He.
  destruct (threads (mach p) !! t) as [th|] eqn:Hth; [|done].
  destruct (ci_worker _ I t Ht) as (q & k & Hq & Hw & Hk & Hret & Hle). pose proof (pcs_lookup _ _ _ Hth) as Hq'.
  rewrite Hq in Hq'. injection Hq' as Hq'.
  destruct (bar (mach p)) as [b|] eqn:Hb; [|unfold thread_step in He; rewrite Hb in He; by destruct (th_pc th)].
  rewrite Hq' in Hw.
  destruct (wait_step t th _ _ b Hb Hw He) as (p' & Hp & Hw' & Hb' & Hc).
  assert (th_pc th <> Idle) as Hbusy by (intros E; unfold thread_step in He; by rewrite Hb, E in He).
  split; cbn [mach cnt exited main with_mach].
  - exact Hr.
  - intros u Hu. destruct (ci_worker _ I u Hu) as (q' & k' & ? & ? & ? & ? & ?). specialize (Hc u).
    destruct (decide (u = t)) as [->|Hne].
    + exists p', k'. rewrite Hp, lookup_insert_eq. simplify_eq. split_and!; done || lia.
    + exists q', k'. rewrite (moved_lookup _ _ _ _ _ Hp Hne). split_and!; done || lia.
  - destruct (ci_main _ I) as (q' & ? & ? & ?). exists q'.
    rewrite (moved_lookup _ _ _ _ _ Hp); [done|]. intros <-. by apply Hm.
  - intros u. rewrite Hp, lookup_insert_is_Some'. intros [<-|?]; [by right|by apply (ci_others _ I)].
  - intros u Hu. destruct (ci_exited _ I u Hu) as (? & Hi & ?). split; [done|]. split; [|done].
    rewrite (moved_lookup _ _ _ _ _ Hp); [done|]. intros ->. congruence.
  - apply (ci_joined _ I).
  - intros E. rewrite E in Hb'. by destruct Hb'.
Qed.

(** A step inside [barrier_destroy]. *)

Lemma inside_main p c' :
  client_inv p -> exec (Run m) (mach p) = Next c' -> client_inv (with_mach c' p).
Proof.
  intros I He. pose proof (reachable_step _ _ _ _ (ci_reach _ I) He) as Hr. cbn [exec] in He.
  destruct (threads (mach p) !! m) as [th|] eqn:Hth; [|done].
  destruct (ci_main _ I) as (q & Hq & Hd & Hj). pose proof (pcs_lookup _ _ _ Hth) as Hq'.
  rewrite Hq in Hq'. injection Hq' as ->.
  destruct (bar (mach p)) as [b|] eqn:Hb; [|unfold thread_step in He; rewrite Hb in He; by destruct (th_pc th)].
  assert (th_pc th <> Idle) as Hbusy by (intros E; unfold thread_step in He; by rewrite Hb, E in He).
  destruct (destroy_step m th _ _ b Hb Hd He) as (p' & Hp & Hd' & Hl & Hb').
  assert (main p <> Joining) as Hmain by (intros E; by apply Hbusy, Hj).
  split; cbn [mach cnt exited main with_mach].
  - exact Hr.
  - intros u Hu. destruct (ci_worker _ I u Hu) as (q' & k' & ? & ? & ? & ? & ?). exists q', k'.
    rewrite (moved_lookup _ _ _ _ _ Hp), Hl by (by apply main_is_not_worker). done.
  - exists p'. rewrite Hp, lookup_insert_eq. done.
  - intros u. rewrite Hp, lookup_insert_is_Some'. intros [<-|?]; [by left|by apply (ci_others _ I)].
  - intros u Hu. destruct (ci_exited _ I u Hu) as (Hin & ? & ?). split; [done|].
    by rewrite (moved_lookup _ _ _ _ _ Hp) by (by apply main_is_not_worker).
  - apply (ci_joined _ I).
  - intros E. split; [done|]. rewrite E in Hb'. destruct Hb' as [[? [=]]|[_ ->]]. by rewrite Hp, lookup_insert_eq.
Qed.
(** Moves that leave the machine's threads where they are. *)

Lemma same_pcs_inv p c' :
  client_inv p -> reachable (start (init_barrier_struct current n bid) ({[m]} ∪ ts)) c' ->
  pcs c' = pcs (mach p) -> log c' = log (mach p) -> bar c' = bar (mach p) -> client_inv (with_mach c' p).
Proof. intros I Hr Hp Hl Hb. split; cbn [mach cnt exited main with_mach]; rewrite ?Hp, ?Hl, ?Hb; try done; apply I. Qed.

Lemma signal_inv p t c' : client_inv p -> exec (Signal t) (mach p) = Next c' -> client_inv (with_mach c' p).
Proof.
  intros I He. pose proof (reachable_step _ _ _ _ (ci_reach _ I) He) as Hr. cbn [exec] in He.
  destruct (threads (mach p) !! t) as [th|] eqn:Ht; [|done]. injection He as <-.
  apply same_pcs_inv; try done. unfold pcs; cbn. by apply pcs_signal.
Qed.

(** A worker that is outside calls once more, or returns. *)

Lemma worker_inv p t p' :
  client_inv p -> t ∈ ts -> t ∉ exited p -> pcs (mach p) !! t = Some Idle -> pfunction t p = Goes p' -> client_inv p'.
Proof.
  intros I Ht Hx Hidle Hf. unfold pfunction in Hf.
  destruct (ci_worker _ I t Ht) as (q & k & Hq & Hw & Hk & Hret & Hle). rewrite Hidle in Hq. injection Hq as <-.
  rewrite Hk in Hf. destruct (Z.eqb_spec k SYNC_ROUNS) as [Ek|Hne].
  - injection Hf as <-. split; cbn [mach cnt exited main]; try apply I.
    + intros u [->%elem_of_singleton|Hu]%elem_of_union; [by rewrite <- Ek|by apply (ci_exited _ I)].
    + intros Hmain. rewrite (ci_joined _ I Hmain). set_solver.
  - destruct (exec (CallWait t) (mach p)) as [c'| |] eqn:He; cbn [lifted] in Hf; [|done..]. injection Hf as <-.
    pose proof (reachable_step _ _ _ _ (ci_reach _ I) He) as Hr. cbn [exec] in He.
    destruct (threads (mach p) !! t) as [[q r]|]; [|done]. destruct q; try done. injection He as <-.
    assert (pcs (goto t (Lock Entry) (mach p)) = <[t := Lock Entry]> (pcs (mach p))) as Hp by apply pcs_goto.
    split; cbn [mach cnt exited main]; rewrite ?Hp.
    + exact Hr.
    + intros u Hu. destruct (decide (u = t)) as [->|Hut].
      * exists (Lock Entry), (k + 1). rewrite !lookup_insert_eq. cbn in *. split_and!; done || lia.
      * rewrite !lookup_insert_ne by done. by apply (ci_worker _ I).
    + rewrite lookup_insert_ne by (by apply main_is_not_worker). apply I.
    + intros u. rewrite lookup_insert_is_Some'. intros [<-|?]; [by right|by apply (ci_others _ I)].
    + intros u Hu. assert (u <> t) by (by intros ->). rewrite !lookup_insert_ne by done. by apply (ci_exited _ I).
    + apply I.
    + rewrite lookup_insert_ne by (by apply main_is_not_worker). apply I.
Qed.

Lemma join_inv p p' : client_inv p -> client_exec ts m Join p = Goes p' -> client_inv p'.
Proof.
  intros I He. cbn [client_exec] in He. destruct (main p) eqn:Hmain; [|done..].
  destruct (bool_decide_reflect (exited p = ts)) as [Hx|]; [|done].
  destruct (exec (CallDestroy m) (mach p)) as [c'| |] eqn:Hc; cbn [lifted] in He; [|done..]. injection He as <-.
  pose proof (reachable_step _ _ _ _ (ci_reach _ I) Hc) as Hr. cbn [exec] in Hc.
  destruct (threads (mach p) !! m) as [[q r]|]; [|done]. destruct q; try done. injection Hc as <-.
  assert (pcs (goto m (Lock Destroy) (mach p)) = <[m := Lock Destroy]> (pcs (mach p))) as Hp by apply pcs_goto.
  split; cbn [mach cnt exited main]; rewrite ?Hp.
  - exact Hr.
  - intros u Hu. rewrite lookup_insert_ne by (intros ->; by apply Hm). by apply (ci_worker _ I).
  - exists (Lock Destroy). by rewrite lookup_insert_eq.
  - intros u. rewrite lookup_insert_is_Some'. intros [<-|?]; [by left|by apply (ci_others _ I)].
  - intros u Hu. destruct (ci_exited _ I u Hu) as (Hin & ? & ?). rewrite lookup_insert_ne by (intros ->; by apply Hm). done.
  - done.
  - intros Hb. by destruct (ci_bar _ I Hb).
Qed.

Lemma client_step_inv p l p' : client_inv p -> client_exec ts m l p = Goes p' -> client_inv p'.
Proof.
  intros I He. destruct l as [t|t|t| |].
  - cbn [client_exec] in He. destruct (bool_decide_reflect (t ∈ ts)) as [Ht|]; [|done].
    destruct (bool_decide_reflect (t ∈ exited p)) as [|Hx]; [done|]. cbn [andb negb] in He.
    destruct (outside t p) eqn:Ho; [|done]. by eapply worker_inv, He; try apply outside_pc.
  - cbn [client_exec] in He. destruct (exec (Run t) (mach p)) as [c'| |] eqn:Hc; cbn [lifted] in He; [|done..].
    injection He as <-. assert (is_Some (pcs (mach p) !! t)) as Hs.
    { cbn [exec] in Hc. destruct (threads (mach p) !! t) as [th|] eqn:Hth; [|done].
      eexists. by apply pcs_lookup. }
    destruct (ci_others _ I t Hs) as [->|Ht]; [by apply inside_main|by apply (inside_worker p t)].
  - cbn [client_exec] in He. destruct (exec (Signal t) (mach p)) as [c'| |] eqn:Hc; cbn [lifted] in He; [|done..].
    injection He as <-. by apply (signal_inv p t).
  - by apply join_inv with (p := p).
  - cbn [client_exec] in He. destruct (main p) eqn:Hmain; [done| |done]. destruct (outside m p); [|done].
    injection He as <-. split; cbn [mach cnt exited main]; try apply I.
    + destruct (ci_main _ I) as (q & ? & ? & _). by exists q.
    + intros _. apply (ci_joined _ I). by rewrite Hmain.
    + intros Hb. destruct (ci_bar _ I Hb). done.
Qed.

Lemma client_reachable_inv p : client_reachable ts m (run_barriers ts m current bid) p -> client_inv p.
Proof. intros H. induction H; [apply start_client_inv|by eapply client_step_inv]. Qed.

(** ** What the program relies on *)

Lemma exec_faults p t f : client_inv p -> exec (Run t) (mach p) = Fault f -> False.
Proof.
  intros I He. cbn [exec] in He. destruct (threads (mach p) !! t) as [th|] eqn:Hth; [|done].
  destruct (step_faults _ _ _ _ He) as [Hb Hbusy]. destruct (ci_bar _ I Hb) as [Hj Hmi].
  pose proof (pcs_lookup _ _ _ Hth) as Hp. apply Hbusy.
  destruct (ci_others _ I t) as [->|Ht]; [by eexists|congruence|].
  rewrite <- (ci_joined _ I Hj) in Ht. destruct (ci_exited _ I t Ht) as (_ & ? & _). congruence.
Qed.

Lemma client_faults p l f : client_inv p -> client_exec ts m l p = Faults f -> False.
Proof.
  intros I He. destruct l as [t|t|t| |]; cbn [client_exec] in He.
  - destruct (_ && _ && _); [|done]. unfold pfunction in He. destruct (cnt p !! t) as [k|]; [|done].
    destruct (k =? SYNC_ROUNS); [done|]. cbn [exec] in He.
    by destruct (threads (mach p) !! t) as [[[] ?]|].
  - destruct (exec (Run t) (mach p)) as [| |g] eqn:Hc; cbn [lifted] in He; [done..|]. by eapply exec_faults.
  - cbn [exec] in He. by destruct (threads (mach p) !! t).
  - destruct (main p); [|done..]. destruct (bool_decide _); [|done]. cbn [exec] in He.
    by destruct (threads (mach p) !! m) as [[[] ?]|].
  - destruct (main p); [done| |done]. by destruct (outside m p).
Qed.

Lemma joined_idle p b :
  client_inv p -> main p <> Joining -> bar (mach p) = Some b -> total b = BARRIER_FLAG.
Proof.
  intros I Hj Hb. assert (live_inv n b (pcs (mach p)) (log (mach p))) as L.
  { by eapply (reachable_live_inv current n bid), Hb; [lia..|apply (ci_reach _ I)]. }
  assert (msum counted (pcs (mach p)) = 0%nat) as Hz.
  { apply msum_zero. intros t q Hq. destruct (ci_others _ I t) as [->|Ht]; [by eexists| |].
    - destruct (ci_main _ I) as (q' & Hq' & Hd & _). rewrite Hq in Hq'. injection Hq' as <-.
      by destruct q as [|[]|[]|[]|[]|[]|[]| | | | | | | |].
    - rewrite <- (ci_joined _ I Hj) in Ht. destruct (ci_exited _ I t Ht) as (_ & ? & _). by simplify_eq. }
  destruct (inv_counter _ _ _ _ L) as (q & _ & [[(?&?&?) _]|[(?&?&?) _]]); lia.
Qed.

(** the test program is safe under every schedule and any signals: no
    thread ever touches a freed barrier; and once the main thread has joined
    its workers and gone on to destroy the barrier, each of them has returned
    from [barrier_wait] exactly SYNC_ROUNS times and the barrier is idle. *)

Theorem test_program_is_safe p :
  client_reachable ts m (run_barriers ts m current bid) p ->
  (forall l f, client_exec ts m l p <> Faults f) /\
  (main p <> Joining ->
     (forall t, t ∈ ts -> returned t (log (mach p)) = SYNC_ROUNS) /\
     (forall b, bar (mach p) = Some b -> total b = BARRIER_FLAG)).
Proof.
  intros Hr. pose proof (client_reachable_inv p Hr) as I. split; [intros l f He; by eapply client_faults|].
  intros Hj. split; [|intros b Hb; by apply (joined_idle p)].
  intros t Ht. destruct (ci_worker _ I t Ht) as (q & k & Hq & _ & Hk & Hret & _).
  rewrite <- (ci_joined _ I Hj) in Ht. destruct (ci_exited _ I t Ht) as (_ & Hi & Hx).
  rewrite Hi in Hq. injection Hq as <-. rewrite Hx in Hk. injection Hk as <-. cbn in Hret. lia.
Qed.
End client.

(** ** A complete run with two workers *)

Fixpoint client_run (ts : gset Z) (m : Z) (ls : list client_label) (p : client) : option client :=
  match ls with
  | [] => Some p
  | l :: ls => match client_exec ts m l p with Goes p' => client_run ts m ls p' | _ => None end
  end.

Lemma client_run_reachable ts m ls p0 p p' :
  client_reachable ts m p0 p -> client_run ts m ls p = Some p' -> client_reachable ts m p0 p'.
Proof.
  revert p. induction ls as [|l ls IH]; intros p Hr H; cbn [client_run] in H; [by simplify_eq|].
  destruct (client_exec ts m l p) as [p1| |] eqn:He; [|done..]. eapply IH; [|done]. by econstructor.
Qed.

(** One round: the first worker sleeps, the second opens the barrier. *)

Definition one_round : list client_label :=
  Worker 1 :: replicate 7 (Inside 1) ++ Worker 2 :: replicate 7 (Inside 2) ++ replicate 8 (Inside 1).

Definition whole_run : list client_label :=
  concat (replicate 100 one_round) ++ [Worker 1; Worker 2; Join] ++ replicate 4 (Inside 9) ++ [Return].

Definition two_workers : client := run_barriers {[1; 2]} 9 {| task_tgid := 1; task_tid := 9 |} 0.

Definition ends_well (p : client) : bool :=
  match main p, bar (mach p) with Finished, None => true | _, _ => false end.

Lemma ends_well_inv (o : option client) :
  match o with Some p => ends_well p | None => false end = true ->
  exists p, o = Some p /\ main p = Finished /\ bar (mach p) = None.
Proof.
  destruct o as [p|]; [|done]. unfold ends_well. intros H. exists p.
  destruct (main p); [done..|]. by destruct (bar (mach p)).
Qed.

Lemma test_program_is_safe_witness :
  exists p, client_reachable {[1; 2]} 9 two_workers p /\ main p = Finished /\ bar (mach p) = None /\
    returned 1 (log (mach p)) = SYNC_ROUNS /\ returned 2 (log (mach p)) = SYNC_ROUNS.
Proof.
  assert (9 ∉ ({[1; 2]} : gset Z)) as H9 by set_solver.
  assert (1 <= Z.of_nat (size ({[1; 2]} : gset Z)) < 2 ^ 31) as Hs by (vm_compute; by split).
  assert (1 ∈ ({[1; 2]} : gset Z) /\ 2 ∈ ({[1; 2]} : gset Z)) as [H1 H2] by set_solver.
  destruct (ends_well_inv (client_run {[1; 2]} 9 whole_run two_workers)) as (p & Hp & Hmain & Hb).
  { vm_compute. reflexivity. }
  pose proof (client_run_reachable _ _ _ _ _ _ (client_refl {[1; 2]} 9 two_workers) Hp) as Hr.
  destruct (test_program_is_safe {| task_tgid := 1; task_tid := 9 |} 0 {[1; 2]} 9 H9 Hs p Hr) as [_ HJ].
  destruct HJ as [Hret _]; [by rewrite Hmain|].
  exists p. refine (conj Hr (conj Hmain (conj Hb (conj (Hret 1 H1) (Hret 2 H2))))).
Defined.
