(* ===== verification/BarrierRegistry.v ===== *)
(** * The barrier registry: [barrier_init], the look-ups and [barrier_destroy]

    The global list of processes ([tgid_list]), each with its list of
    barriers, as linked objects in a heap: an object that was [kfree]d is
    absent from its map and touching it is [UseAfterFree].  Each call runs by
    itself here; the interleaving of the waits is [BarrierSync].
    Source: 04_barrier_driver_module/eosi_barrier.c. *)

From S2P Require Import Prelude Kernel BarrierData.

Record per_tgid (L : Type) := {
  tgid : Z;
  bid_count : Z;
  barrier_size : Z;
  barrier_head_lock : bool;
  barrier_head : L
}.
Arguments tgid {L}.
Arguments bid_count {L}.
Arguments barrier_size {L}.
Arguments barrier_head_lock {L}.
Arguments barrier_head {L}.

Record registry (L : Type) := {
  tgid_list : L;
  g_tgid_list_lock : bool;
  ptgids : gmap loc (per_tgid L);
  barriers : gmap loc barrier_struct
}.
Arguments tgid_list {L}.
Arguments g_tgid_list_lock {L}.
Arguments ptgids {L}.
Arguments barriers {L}.

Section registry.
Context {L : Type} {KL : KList L} {KM : Kmalloc}.
Implicit Types (r : registry L) (pt : per_tgid L) (p q : loc).

Definition set_tgid_list (l : L) (r : registry L) : registry L :=
  {| tgid_list := l; g_tgid_list_lock := g_tgid_list_lock r; ptgids := ptgids r; barriers := barriers r |}.

Definition set_g_lock (b : bool) (r : registry L) : registry L :=
  {| tgid_list := tgid_list r; g_tgid_list_lock := b; ptgids := ptgids r; barriers := barriers r |}.

Definition set_ptgids (m : gmap loc (per_tgid L)) (r : registry L) : registry L :=
  {| tgid_list := tgid_list r; g_tgid_list_lock := g_tgid_list_lock r; ptgids := m; barriers := barriers r |}.

Definition set_barriers (m : gmap loc barrier_struct) (r : registry L) : registry L :=
  {| tgid_list := tgid_list r; g_tgid_list_lock := g_tgid_list_lock r; ptgids := ptgids r; barriers := m |}.

(** Access through a pointer. *)

Definition read_ptgid p : M (registry L) (per_tgid L) := deref (fun r => ptgids r !! p) UseAfterFree.

Definition read_barrier p : M (registry L) barrier_struct := deref (fun r => barriers r !! p) UseAfterFree.

Definition write_ptgid p pt : M (registry L) unit :=
  read_ptgid p ;; modify (fun r => set_ptgids (<[p := pt]> (ptgids r)) r).

Definition write_barrier p b : M (registry L) unit :=
  read_barrier p ;; modify (fun r => set_barriers (<[p := b]> (barriers r)) r).

(** The three spin locks: [g_tgid_list_lock], a process's
    [barrier_head_lock], a barrier's [lock_total]. *)

Definition lock_g : M (registry L) unit :=
  held ← gets g_tgid_list_lock;
  if (held : bool) then crash SelfDeadlock else modify (set_g_lock true).

Definition unlock_g : M (registry L) unit :=
  held ← gets g_tgid_list_lock;
  if (held : bool) then modify (set_g_lock false) else crash BadUnlock.

Definition with_head_lock (v : bool) pt : per_tgid L :=
  {| tgid := tgid pt; bid_count := bid_count pt; barrier_size := barrier_size pt;
     barrier_head_lock := v; barrier_head := barrier_head pt |}.

Definition lock_head p : M (registry L) unit :=
  pt ← read_ptgid p;
  if barrier_head_lock pt then crash SelfDeadlock else write_ptgid p (with_head_lock true pt).

Definition unlock_head p : M (registry L) unit :=
  pt ← read_ptgid p;
  if barrier_head_lock pt then write_ptgid p (with_head_lock false pt) else crash BadUnlock.

Definition lock_barrier (t : Z) p : M (registry L) unit :=
  b ← read_barrier p;
  match lock_total b with
  | Some _ => crash SelfDeadlock
  | None => write_barrier p (set_lock b (Some t))
  end.

Definition unlock_barrier p : M (registry L) unit :=
  b ← read_barrier p;
  match lock_total b with
  | Some _ => write_barrier p (set_lock b None)
  | None => crash BadUnlock
  end.

(** ** Look-ups *)

Fixpoint scan_tgids (tg : Z) (ps : list loc) : M (registry L) (option loc) :=
  match ps with
  | [] => mret None
  | p :: ps =>
      pt ← read_ptgid p;
      if tgid pt =? tg then mret (Some p) else scan_tgids tg ps
  end.

Definition get_ptgid_without_lock (tg : Z) : M (registry L) (option loc) :=
  ps ← gets (fun r => knodes (tgid_list r));
  scan_tgids tg ps.

Definition get_ptgid (tg : Z) : M (registry L) (option loc) :=
  lock_g ;;
  ps ← gets (fun r => knodes (tgid_list r));
  found ← scan_tgids tg ps;
  unlock_g ;;
  mret found.

(** [barrier->id == barrier_id] compares an [unsigned int] with an [int]. *)

Fixpoint scan_barriers (barrier_id : Z) (qs : list loc) : M (registry L) (option loc) :=
  match qs with
  | [] => mret None
  | q :: qs =>
      b ← read_barrier q;
      if id b =? u32 barrier_id then mret (Some q) else scan_barriers barrier_id qs
  end.

Definition get_barrier_from_ptgid (ptgid : option loc) (barrier_id : Z) : M (registry L) (option loc) :=
  match ptgid with
  | None => mret None
  | Some p =>
      lock_head p ;;
      pt ← read_ptgid p;
      found ← scan_barriers barrier_id (knodes (barrier_head pt));
      unlock_head p ;;
      mret found
  end.

Definition get_barrier_only_from_id (current : task) (barrier_id : Z) : M (registry L) (option loc) :=
  ptgid ← get_ptgid (task_tgid current);
  get_barrier_from_ptgid ptgid (s32 barrier_id).

(** ** [kmalloc] of the two structures; the result is used unchecked *)

Definition allocated r : gset loc := dom (ptgids r) ∪ dom (barriers r).

Definition kmalloc_unchecked : M (registry L) loc := deref (fun r => kmalloc (allocated r)) NullDeref.

(** ** [barrier_init] *)

Definition new_ptgid (tg : Z) : per_tgid L :=
  {| tgid := tg; bid_count := 0; barrier_size := 0; barrier_head_lock := false; barrier_head := kempty |}.

(** Lines 143-159: find the process or link a new one. *)

Definition find_or_add_ptgid (tg : Z) : M (registry L) loc :=
  lock_g ;;
  found ← get_ptgid_without_lock tg;
  p ← match found with
      | Some p => mret p
      | None =>
          p ← kmalloc_unchecked;
          modify (fun r => set_ptgids (<[p := new_ptgid tg]> (ptgids r)) r) ;;
          modify (fun r => set_tgid_list (kadd p (tgid_list r)) r) ;;
          mret p
      end;
  unlock_g ;;
  mret p.

Definition barrier_init (current : task) (binfo : barrier_info) : M (registry L) (Z * barrier_info) :=
  if bi_count binfo <? 0 then mret (-1, binfo) else
  p ← find_or_add_ptgid (task_tgid current);
  pt ← read_ptgid p;
  dup ← get_barrier_from_ptgid (Some p) (s32 (bid_count pt));
  match dup with
  | Some _ => mret (-1, binfo)
  | None =>
      q ← kmalloc_unchecked;
      lock_head p ;;
      pt ← read_ptgid p;
      let new_id := bid_count pt in
      modify (fun r => set_barriers
        (<[q := init_barrier_struct current (bi_count binfo) new_id]> (barriers r)) r) ;;
      write_ptgid p {| tgid := tgid pt; bid_count := u32 (bid_count pt + 1);
                       barrier_size := s32 (barrier_size pt + 1);
                       barrier_head_lock := barrier_head_lock pt;
                       barrier_head := kadd q (barrier_head pt) |} ;;
      unlock_head p ;;
      mret (0, {| bi_count := bi_count binfo; bi_barrier_id := new_id |})
  end.

(** ** [barrier_wait] up to its synchronisation: the pointer is used unchecked *)

Definition barrier_wait_lookup (current : task) (barrier_id : Z) : M (registry L) loc :=
  found ← get_barrier_only_from_id current barrier_id;
  match found with
  | None => crash NullDeref                       (* printSYNC_start(s, barrier), line 239 *)
  | Some q => read_barrier q ;; mret q
  end.

(** ** [barrier_destroy] *)

(** Lines 312-327. *)

Definition recycle p q : M (registry L) unit :=
  lock_head p ;;
  read_barrier q ;;
  pt ← read_ptgid p;
  modify (fun r => set_barriers (delete q (barriers r)) r) ;;
  let size := s32 (barrier_size pt - 1) in
  write_ptgid p {| tgid := tgid pt; bid_count := bid_count pt; barrier_size := size;
                   barrier_head_lock := barrier_head_lock pt;
                   barrier_head := kdel q (barrier_head pt) |} ;;
  when (size =? 0)
    (lock_g ;;
     modify (fun r => set_tgid_list (kdel p (tgid_list r)) r) ;;
     unlock_g ;;
     modify (fun r => set_ptgids (delete p (ptgids r)) r)) ;;
  unlock_head p.

Definition barrier_destroy (current : task) (barrier_id : Z) : M (registry L) Z :=
  ptgid ← get_ptgid (task_tgid current);
  match ptgid with
  | None => mret (-1)
  | Some p =>
      found ← get_barrier_from_ptgid (Some p) (s32 barrier_id);
      match found with
      | None => mret (-1)
      | Some q =>
          read_barrier q ;;
          lock_barrier (task_tid current) q ;;
          b ← read_barrier q;
          unlock_barrier q ;;
          if BARRIER_FLAG <? total b then blocked else        (* sleep_here, 303-307 *)
          recycle p q ;;
          mret 0
      end
  end.

Definition empty_registry : registry L :=
  {| tgid_list := kempty; g_tgid_list_lock := false; ptgids := ∅; barriers := ∅ |}.
End registry.
