(* ===== verification/BarrierRegistryProofs.v ===== *)
(** * Well-formedness of the barrier registry, and the calls that keep it *)

From S2P Require Import Prelude Kernel BarrierData BarrierRegistry.

Section proofs.
Context {L : Type} {KL : KList L} {KM : Kmalloc}.
Implicit Types (r : registry L) (pt : per_tgid L) (p q : loc).

Definition node_of pt q : Prop := q ∈ knodes (barrier_head pt).

Record pt_inv r pt : Prop := {
  pi_lock : barrier_head_lock pt = false;
  pi_nodup : NoDup (knodes (barrier_head pt));
  pi_bid : 0 <= bid_count pt < 2 ^ 32;
  pi_size : barrier_size pt = s32 (Z.of_nat (length (knodes (barrier_head pt))));
  pi_live q : node_of pt q -> exists b, barriers r !! q = Some b /\ b_tgid b = tgid pt /\
    0 <= id b < 2 ^ 32 /\ lock_total b = None;
  pi_ids q q' b b' : node_of pt q -> node_of pt q' ->
    barriers r !! q = Some b -> barriers r !! q' = Some b' -> id b = id b' -> q = q'
}.

Record reg_inv r : Prop := {
  ri_lock : g_tgid_list_lock r = false;
  ri_nodup : NoDup (knodes (tgid_list r));
  ri_live p : p ∈ knodes (tgid_list r) <-> is_Some (ptgids r !! p);
  ri_tgid p p' pt pt' : ptgids r !! p = Some pt -> ptgids r !! p' = Some pt' ->
    tgid pt = tgid pt' -> p = p';
  ri_pt p pt : ptgids r !! p = Some pt -> pt_inv r pt;
  ri_owner q b : barriers r !! q = Some b -> exists p pt, ptgids r !! p = Some pt /\ node_of pt q
}.

(** The barrier a process [tg] knows under the number [i]. *)

Definition has_barrier r (tg i : Z) (b : barrier_struct) : Prop :=
  exists p pt q, ptgids r !! p = Some pt /\ tgid pt = tg /\ node_of pt q /\
  barriers r !! q = Some b /\ id b = i.

(** ** Look-ups *)

Lemma read_ptgid_ok r p pt : ptgids r !! p = Some pt -> read_ptgid p r = Ok pt r.
Proof. intros. by apply deref_ok. Qed.

Lemma read_barrier_ok r q b : barriers r !! q = Some b -> read_barrier q r = Ok b r.
Proof. intros. by apply deref_ok. Qed.

Lemma write_ptgid_ok r p pt pt' :
  ptgids r !! p = Some pt -> write_ptgid p pt' r = Ok tt (set_ptgids (<[p := pt']> (ptgids r)) r).
Proof. intros H. unfold write_ptgid. by rewrite (bind_ok _ _ _ _ _ (read_ptgid_ok _ _ _ H)). Qed.

Lemma write_barrier_ok r q b b' :
  barriers r !! q = Some b -> write_barrier q b' r = Ok tt (set_barriers (<[q := b']> (barriers r)) r).
Proof. intros H. unfold write_barrier. by rewrite (bind_ok _ _ _ _ _ (read_barrier_ok _ _ _ H)). Qed.

Lemma lock_g_ok r : g_tgid_list_lock r = false -> lock_g r = Ok tt (set_g_lock true r).
Proof. intros H. unfold lock_g. rewrite (bind_ok _ _ _ _ _ (gets_ok _ _)). by rewrite H. Qed.

Lemma unlock_g_ok r : g_tgid_list_lock r = true -> unlock_g r = Ok tt (set_g_lock false r).
Proof. intros H. unfold unlock_g. rewrite (bind_ok _ _ _ _ _ (gets_ok _ _)). by rewrite H. Qed.

Lemma lock_head_ok r p pt :
  ptgids r !! p = Some pt -> barrier_head_lock pt = false ->
  lock_head p r = Ok tt (set_ptgids (<[p := with_head_lock true pt]> (ptgids r)) r).
Proof.
  intros H Hl. unfold lock_head. rewrite (bind_ok _ _ _ _ _ (read_ptgid_ok _ _ _ H)), Hl.
  by eapply write_ptgid_ok.
Qed.

Lemma unlock_head_ok r p pt :
  ptgids r !! p = Some pt -> barrier_head_lock pt = true ->
  unlock_head p r = Ok tt (set_ptgids (<[p := with_head_lock false pt]> (ptgids r)) r).
Proof.
  intros H Hl. unfold unlock_head. rewrite (bind_ok _ _ _ _ _ (read_ptgid_ok _ _ _ H)), Hl.
  by eapply write_ptgid_ok.
Qed.

Lemma set_g_lock_id r : g_tgid_list_lock r = false -> set_g_lock false (set_g_lock true r) = r.
Proof. destruct r; simpl. by intros ->. Qed.

Lemma set_ptgids_id r m : m = ptgids r -> set_ptgids m r = r.
Proof. intros ->. by destruct r. Qed.

Lemma relock_head pt : barrier_head_lock pt = false -> with_head_lock false (with_head_lock true pt) = pt.
Proof. destruct pt; simpl. by intros ->. Qed.

Lemma scan_tgids_ok r tg ps :
  (forall p, p ∈ ps -> is_Some (ptgids r !! p)) ->
  exists o, scan_tgids tg ps r = Ok o r /\
  match o with
  | Some p => p ∈ ps /\ exists pt, ptgids r !! p = Some pt /\ tgid pt = tg
  | None => forall p pt, p ∈ ps -> ptgids r !! p = Some pt -> tgid pt <> tg
  end.
Proof.
  induction ps as [|p ps IH]; intros Hl.
  - exists None. split; [done|]. intros p pt Hp. by apply elem_of_nil in Hp.
  - destruct (Hl p) as [pt Hpt]; [by left|]. cbn [scan_tgids].
    rewrite (bind_ok _ _ _ _ _ (read_ptgid_ok _ _ _ Hpt)).
    destruct (Z.eqb_spec (tgid pt) tg) as [E|E].
    + exists (Some p). split; [done|]. split; [by left|]. by exists pt.
    + destruct IH as (o & Ho & HP); [intros; apply Hl; by right|]. exists o. split; [done|].
      destruct o as [p'|].
      * destruct HP as [? ?]. split; [by right|done].
      * intros p' pt' Hp' Hpt'. apply elem_of_cons in Hp' as [->|Hp']; [congruence|].
        by eapply HP.
Qed.

Definition found_ptgid r (tg : Z) (o : option loc) : Prop :=
  match o with
  | Some p => exists pt, ptgids r !! p = Some pt /\ tgid pt = tg
  | None => forall p pt, ptgids r !! p = Some pt -> tgid pt <> tg
  end.

Lemma get_ptgid_without_lock_ok r tg :
  (forall p, p ∈ knodes (tgid_list r) <-> is_Some (ptgids r !! p)) ->
  exists o, get_ptgid_without_lock tg r = Ok o r /\ found_ptgid r tg o.
Proof.
  intros Hl. unfold get_ptgid_without_lock. rewrite (bind_ok _ _ _ _ _ (gets_ok _ _)).
  destruct (scan_tgids_ok r tg (knodes (tgid_list r))) as (o & Ho & HP); [apply Hl|].
  exists o. split; [done|]. destruct o as [p|]; simpl.
  - by destruct HP.
  - intros p pt Hp. apply (HP p); [apply Hl; by eexists|done].
Qed.

Lemma get_ptgid_ok r tg : reg_inv r -> exists o, get_ptgid tg r = Ok o r /\ found_ptgid r tg o.
Proof.
  intros I. unfold get_ptgid.
  rewrite (bind_ok _ _ _ _ _ (lock_g_ok _ (ri_lock _ I))).
  destruct (get_ptgid_without_lock_ok (set_g_lock true r) tg) as (o & Ho & HP); [apply I|].
  unfold get_ptgid_without_lock in Ho. rewrite (bind_ok _ _ _ _ _ (gets_ok _ _)) in Ho.
  rewrite (bind_ok _ _ _ _ _ (gets_ok _ _)).
  rewrite (bind_ok _ _ _ _ _ Ho).
  rewrite (bind_ok _ _ _ _ _ (unlock_g_ok (set_g_lock true r) eq_refl)).
  rewrite (set_g_lock_id _ (ri_lock _ I)). by exists o.
Qed.

Lemma scan_barriers_ok r i qs :
  (forall q, q ∈ qs -> is_Some (barriers r !! q)) ->
  exists o, scan_barriers i qs r = Ok o r /\
  match o with
  | Some q => q ∈ qs /\ exists b, barriers r !! q = Some b /\ id b = u32 i
  | None => forall q b, q ∈ qs -> barriers r !! q = Some b -> id b <> u32 i
  end.
Proof.
  induction qs as [|q qs IH]; intros Hl.
  - exists None. split; [done|]. intros q b Hq. by apply elem_of_nil in Hq.
  - destruct (Hl q) as [b Hb]; [by left|]. cbn [scan_barriers].
    rewrite (bind_ok _ _ _ _ _ (read_barrier_ok _ _ _ Hb)).
    destruct (Z.eqb_spec (id b) (u32 i)) as [E|E].
    + exists (Some q). split; [done|]. split; [by left|]. by exists b.
    + destruct IH as (o & Ho & HP); [intros; apply Hl; by right|]. exists o. split; [done|].
      destruct o as [q'|].
      * destruct HP as [? ?]. split; [by right|done].
      * intros q' b' Hq' Hb'. apply elem_of_cons in Hq' as [->|Hq']; [congruence|].
        by eapply HP.
Qed.

Definition found_barrier r pt (i : Z) (o : option loc) : Prop :=
  match o with
  | Some q => node_of pt q /\ exists b, barriers r !! q = Some b /\ id b = i
  | None => forall q b, node_of pt q -> barriers r !! q = Some b -> id b <> i
  end.

Lemma get_barrier_from_ptgid_ok r p pt i :
  ptgids r !! p = Some pt -> pt_inv r pt ->
  exists o, get_barrier_from_ptgid (Some p) i r = Ok o r /\ found_barrier r pt (u32 i) o.
Proof.
  intros Hp I. unfold get_barrier_from_ptgid.
  rewrite (bind_ok _ _ _ _ _ (lock_head_ok _ _ _ Hp (pi_lock _ _ I))).
  set (r1 := set_ptgids _ _).
  assert (ptgids r1 !! p = Some (with_head_lock true pt)) as Hp1 by apply lookup_insert_eq.
  rewrite (bind_ok _ _ _ _ _ (read_ptgid_ok _ _ _ Hp1)).
  destruct (scan_barriers_ok r1 i (knodes (barrier_head pt))) as (o & Ho & HP).
  { intros q Hq. destruct (pi_live _ _ I q Hq) as (b & Hb & _). by exists b. }
  cbn [barrier_head with_head_lock]. rewrite (bind_ok _ _ _ _ _ Ho).
  rewrite (bind_ok _ _ _ _ _ (unlock_head_ok _ _ _ Hp1 eq_refl)).
  rewrite relock_head by apply I. exists o. split; [|by destruct o].
  rewrite mret_ok. f_equal. unfold r1, set_ptgids; simpl. rewrite insert_insert_eq, insert_id by done.
  by destruct r.
Qed.

(** No memory: the result of [kmalloc] is followed all the same. *)

Definition out_of_memory : Prop := exists d : gset loc, kmalloc d = None.

Lemma kmalloc_unchecked_cases r :
  (out_of_memory /\ kmalloc_unchecked r = Crash NullDeref r) \/
  exists q, kmalloc_unchecked r = Ok q r /\ ptgids r !! q = None /\ barriers r !! q = None.
Proof.
  unfold kmalloc_unchecked, deref. destruct (kmalloc (allocated r)) as [q|] eqn:Hq.
  - right. exists q. split; [done|]. apply kmalloc_fresh in Hq. unfold allocated in Hq.
    apply not_elem_of_union in Hq as [H1 H2]. split; by apply not_elem_of_dom.
  - left. split; [by eexists|done].
Qed.

(** ** Linking a process *)

Lemma new_ptgid_inv r tg : pt_inv r (new_ptgid tg).
Proof.
  assert (forall q, ~ node_of (new_ptgid tg) q) as Hn.
  { intros q. unfold node_of. simpl. rewrite knodes_empty. apply not_elem_of_nil. }
  split; simpl; rewrite ?knodes_empty; [done|constructor|lia|done|..].
  - intros q Hq. by destruct (Hn q).
  - intros q q' b b' Hq. by destruct (Hn q).
Qed.

Lemma pt_inv_mono r r' pt :
  (forall q b, barriers r !! q = Some b -> barriers r' !! q = Some b) -> pt_inv r pt -> pt_inv r' pt.
Proof.
  intros Hm I. split; try apply I.
  - intros q Hq. destruct (pi_live _ _ I q Hq) as (b & Hb & ?). exists b. split; [by apply Hm|done].
  - intros q q' b b' Hq Hq' Hb Hb'.
    destruct (pi_live _ _ I q Hq) as (b1 & Hb1 & _), (pi_live _ _ I q' Hq') as (b2 & Hb2 & _).
    apply (pi_ids _ _ I q q' b b' Hq Hq'); [pose proof (Hm _ _ Hb1)|pose proof (Hm _ _ Hb2)]; congruence.
Qed.

Definition add_ptgid p (tg : Z) r : registry L :=
  set_tgid_list (kadd p (tgid_list r)) (set_ptgids (<[p := new_ptgid tg]> (ptgids r)) r).

Lemma add_ptgid_inv r p tg :
  reg_inv r -> ptgids r !! p = None -> found_ptgid r tg None -> reg_inv (add_ptgid p tg r).
Proof.
  intros I Hp Hnf. pose proof (knodes_add p (tgid_list r)) as HA.
  assert (p ∉ knodes (tgid_list r)) as Hn.
  { rewrite (ri_live _ I), Hp. by intros [? [=]]. }
  specialize (HA Hn). split; simpl; rewrite ?HA.
  - apply I.
  - constructor; [done|apply I].
  - intros p'. rewrite elem_of_cons, lookup_insert_is_Some, <- (ri_live _ I).
    destruct (decide (p = p')) as [->|]; [split; by left|].
    split; intros [?|Hin]; [done|by right|done|right]. by apply Hin.
  - intros p1 p2 pt1 pt2 H1 H2. apply lookup_insert_Some in H1, H2.
    destruct H1 as [[<- <-]|[? H1]], H2 as [[<- <-]|[? H2]]; simpl; try done.
    + intros E. by destruct (Hnf _ _ H2).
    + intros E. by destruct (Hnf _ _ H1).
    + by eapply ri_tgid.
  - intros p' pt' H'. apply lookup_insert_Some in H' as [[<- <-]|[? H']]; [apply new_ptgid_inv|].
    eapply pt_inv_mono; [|by eapply ri_pt]. done.
  - intros q b Hq. destruct (ri_owner _ I _ _ Hq) as (p' & pt' & H' & ?). exists p', pt'.
    split; [|done]. rewrite lookup_insert_ne; [done|]. intros ->. congruence.
Qed.

Lemma add_ptgid_has r p tg tg' i b :
  ptgids r !! p = None -> has_barrier (add_ptgid p tg r) tg' i b <-> has_barrier r tg' i b.
Proof.
  intros Hp. unfold has_barrier; simpl. split.
  - intros (p' & pt & q & H' & ? & Hn & ?). apply lookup_insert_Some in H' as [[<- <-]|[? H']].
    + unfold node_of in Hn. simpl in Hn. rewrite knodes_empty in Hn. by apply elem_of_nil in Hn.
    + by exists p', pt, q.
  - intros (p' & pt & q & H' & ?). exists p', pt, q. rewrite lookup_insert_ne; [done|congruence].
Qed.

Lemma find_or_add_ptgid_ok r tg :
  reg_inv r ->
  (out_of_memory /\ exists r1, find_or_add_ptgid tg r = Crash NullDeref r1) \/
  exists p pt r1, find_or_add_ptgid tg r = Ok p r1 /\ reg_inv r1 /\ ptgids r1 !! p = Some pt /\
  tgid pt = tg /\ (r1 = r \/ knodes (barrier_head pt) = []) /\
  (forall tg' i b, has_barrier r1 tg' i b <-> has_barrier r tg' i b).
Proof.
  intros I. unfold find_or_add_ptgid.
  rewrite (bind_ok _ _ _ _ _ (lock_g_ok _ (ri_lock _ I))).
  destruct (get_ptgid_without_lock_ok (set_g_lock true r) tg) as (o & Ho & HP); [apply I|].
  rewrite (bind_ok _ _ _ _ _ Ho). destruct o as [p|].
  - destruct HP as (pt & Hpt & Htg). rewrite (bind_ok _ _ _ _ _ (mret_ok _ _)).
    rewrite (bind_ok _ _ _ _ _ (unlock_g_ok (set_g_lock true r) eq_refl)), mret_ok.
    rewrite (set_g_lock_id _ (ri_lock _ I)). right. exists p, pt, r. split_and!; try done. by left.
  - destruct (kmalloc_unchecked_cases (set_g_lock true r)) as [[Hm Hq]|(p & Hq & Hp & _)].
    { left. split; [done|]. eexists. apply bind_crash. by rewrite (bind_crash _ _ _ _ _ Hq). }
    simpl in Hp. right.
    assert ((p ← kmalloc_unchecked; modify (fun r => set_ptgids (<[p := new_ptgid tg]> (ptgids r)) r) ;;
      modify (fun r => set_tgid_list (kadd p (tgid_list r)) r) ;; mret p) (set_g_lock true r)
      = Ok p (set_g_lock true (add_ptgid p tg r))) as E.
    { rewrite (bind_ok _ _ _ _ _ Hq). done. }
    rewrite (bind_ok _ _ _ _ _ E).
    rewrite (bind_ok _ _ _ _ _ (unlock_g_ok (set_g_lock true _) eq_refl)), mret_ok.
    rewrite set_g_lock_id by apply I.
    exists p, (new_ptgid tg), (add_ptgid p tg r). split_and!; try done.
    + by apply add_ptgid_inv.
    + apply lookup_insert_eq.
    + right. apply knodes_empty.
    + intros. by apply add_ptgid_has.
Qed.

(** ** Linking a barrier *)

Definition with_barrier q pt : per_tgid L :=
  {| tgid := tgid pt; bid_count := u32 (bid_count pt + 1); barrier_size := s32 (barrier_size pt + 1);
     barrier_head_lock := barrier_head_lock pt; barrier_head := kadd q (barrier_head pt) |}.

Definition link_barrier p pt q b r : registry L :=
  set_ptgids (<[p := with_barrier q pt]> (ptgids r)) (set_barriers (<[q := b]> (barriers r)) r).

Lemma with_barrier_nodes r pt q :
  pt_inv r pt -> barriers r !! q = None -> knodes (barrier_head (with_barrier q pt)) = q :: knodes (barrier_head pt).
Proof.
  intros I Hq. simpl. apply knodes_add. intros Hn. destruct (pi_live _ _ I q Hn) as (b & ? & _). congruence.
Qed.

Lemma s32_succ z : s32 (s32 z + 1) = s32 (z + 1).
Proof.
  unfold s32. replace ((z + 2 ^ 31) mod 2 ^ 32 - 2 ^ 31 + 1 + 2 ^ 31) with ((z + 2 ^ 31) mod 2 ^ 32 + 1) by lia.
  rewrite Zplus_mod_idemp_l. do 2 f_equal. lia.
Qed.

Lemma with_barrier_inv r p pt q b :
  pt_inv r pt -> barriers r !! q = None -> b_tgid b = tgid pt -> lock_total b = None ->
  0 <= id b < 2 ^ 32 -> found_barrier r pt (id b) None -> pt_inv (link_barrier p pt q b r) (with_barrier q pt).
Proof.
  intros I Hq Hbt Hbl Hbi Hnf. pose proof (with_barrier_nodes _ _ _ I Hq) as HN.
  assert (forall q', node_of pt q' -> q' <> q) as Hne.
  { intros q' Hn ->. destruct (pi_live _ _ I q Hn) as (? & ? & _). congruence. }
  split.
  - apply I.
  - rewrite HN. constructor; [|apply I]. intros Hn. by apply (Hne q).
  - cbn [bid_count with_barrier]. by apply (wrap_range 32).
  - rewrite HN. cbn [barrier_size with_barrier length]. rewrite (pi_size _ _ I), s32_succ. f_equal. lia.
  - intros q' Hn. unfold node_of in Hn. rewrite HN in Hn. simpl. apply elem_of_cons in Hn as [->|Hn].
    + rewrite lookup_insert_eq. by exists b.
    + rewrite lookup_insert_ne by (intros ->; by apply (Hne q')). by apply (pi_live _ _ I).
  - intros q1 q2 b1 b2 Hn1 Hn2. unfold node_of in Hn1, Hn2. rewrite HN in Hn1, Hn2. simpl.
    apply elem_of_cons in Hn1, Hn2. intros Hb1 Hb2.
    apply lookup_insert_Some in Hb1, Hb2.
    destruct Hn1 as [->|Hn1], Hn2 as [->|Hn2]; [done|..];
      destruct Hb1 as [[E1 <-]|[E1 Hb1]], Hb2 as [[E2 <-]|[E2 Hb2]]; try done;
      try (by destruct (Hne q1)); try (by destruct (Hne q2)); intros E.
    + by destruct (Hnf _ _ Hn2 Hb2).
    + by destruct (Hnf _ _ Hn1 Hb1).
    + by apply (pi_ids _ _ I q1 q2 b1 b2).
Qed.

Lemma link_barrier_inv r p pt q b :
  reg_inv r -> ptgids r !! p = Some pt -> barriers r !! q = None ->
  b_tgid b = tgid pt -> lock_total b = None -> 0 <= id b < 2 ^ 32 -> found_barrier r pt (id b) None ->
  reg_inv (link_barrier p pt q b r).
Proof.
  intros I Hp Hq Hbt Hbl Hbi Hnf. pose proof (ri_pt _ I _ _ Hp) as IP.
  pose proof (with_barrier_nodes _ _ _ IP Hq) as HN. split; simpl.
  - apply I.
  - apply I.
  - intros p'. rewrite (ri_live _ I), lookup_insert_is_Some.
    destruct (decide (p = p')) as [<-|]; [split; [by left|by eexists]|].
    split; [by right|]. by intros [?|[_ ?]].
  - intros p1 p2 pt1 pt2 H1 H2. apply lookup_insert_Some in H1, H2.
    destruct H1 as [[<- <-]|[? H1]], H2 as [[<- <-]|[? H2]]; simpl; try done; by eapply (ri_tgid _ I).
  - intros p' pt' H'. apply lookup_insert_Some in H' as [[<- <-]|[? H']].
    + by apply with_barrier_inv.
    + eapply pt_inv_mono; [|by eapply (ri_pt _ I)]. intros q' b' Hb'. simpl.
      rewrite lookup_insert_ne; [done|congruence].
  - intros q' b' Hb'. apply lookup_insert_Some in Hb' as [[<- <-]|[? Hb']].
    + exists p, (with_barrier q pt). rewrite lookup_insert_eq. split; [done|].
      unfold node_of. rewrite HN. by left.
    + destruct (ri_owner _ I _ _ Hb') as (p' & pt' & H' & Hn).
      destruct (decide (p = p')) as [<-|].
      * exists p, (with_barrier q pt). rewrite lookup_insert_eq. split; [done|].
        unfold node_of. rewrite HN. right. by simplify_eq.
      * exists p', pt'. by rewrite lookup_insert_ne.
Qed.

Lemma link_barrier_has r p pt q b tg i b' :
  reg_inv r -> ptgids r !! p = Some pt -> barriers r !! q = None ->
  has_barrier (link_barrier p pt q b r) tg i b' <->
  (tg = tgid pt /\ i = id b /\ b' = b) \/ has_barrier r tg i b'.
Proof.
  intros I Hp Hq. pose proof (ri_pt _ I _ _ Hp) as IP.
  pose proof (with_barrier_nodes _ _ _ IP Hq) as HN. unfold has_barrier; simpl. split.
  - intros (p' & pt' & q' & H' & <- & Hn & Hb' & <-).
    apply lookup_insert_Some in H' as [[<- <-]|[? H']].
    + unfold node_of in Hn. rewrite HN in Hn. apply elem_of_cons in Hn as [->|Hn].
      * rewrite lookup_insert_eq in Hb'. simplify_eq. by left.
      * right. destruct (pi_live _ _ IP _ Hn) as (b1 & Hb1 & _).
        rewrite lookup_insert_ne in Hb' by congruence. by exists p, pt, q'.
    + right. destruct (pi_live _ _ (ri_pt _ I _ _ H') _ Hn) as (b1 & Hb1 & _).
      rewrite lookup_insert_ne in Hb' by congruence. by exists p', pt', q'.
  - intros [(-> & -> & ->)|(p' & pt' & q' & H' & <- & Hn & Hb' & <-)].
    + exists p, (with_barrier q pt), q. rewrite !lookup_insert_eq. split_and!; try done.
      unfold node_of. rewrite HN. by left.
    + destruct (decide (p = p')) as [<-|].
      * exists p, (with_barrier q pt), q'. simplify_eq. rewrite lookup_insert_eq.
        rewrite lookup_insert_ne by congruence. split_and!; try done.
        unfold node_of. rewrite HN. by right.
      * exists p', pt', q'. rewrite !lookup_insert_ne by congruence. done.
Qed.
(** ** Unlinking a barrier that is not the last of its process *)

Definition without_barrier q pt : per_tgid L :=
  {| tgid := tgid pt; bid_count := bid_count pt; barrier_size := s32 (barrier_size pt - 1);
     barrier_head_lock := barrier_head_lock pt; barrier_head := kdel q (barrier_head pt) |}.

Definition unlink_barrier p pt q r : registry L :=
  set_ptgids (<[p := without_barrier q pt]> (ptgids r)) (set_barriers (delete q (barriers r)) r).

Lemma s32_pred z : s32 (s32 z - 1) = s32 (z - 1).
Proof.
  unfold s32. replace ((z + 2 ^ 31) mod 2 ^ 32 - 2 ^ 31 - 1 + 2 ^ 31) with ((z + 2 ^ 31) mod 2 ^ 32 - 1) by lia.
  rewrite Zminus_mod_idemp_l. do 2 f_equal. lia.
Qed.

Lemma without_barrier_node r pt q q' :
  pt_inv r pt -> node_of (without_barrier q pt) q' <-> q' <> q /\ node_of pt q'.
Proof.
  intros I. unfold node_of. simpl. rewrite (knodes_del _ _ (pi_nodup _ _ I)).
  by rewrite list_elem_of_filter.
Qed.

(** No process has two barriers at one address: the owner is recorded in it. *)

Lemma owner_unique r p p' pt pt' q :
  reg_inv r -> ptgids r !! p = Some pt -> ptgids r !! p' = Some pt' ->
  node_of pt q -> node_of pt' q -> p = p'.
Proof.
  intros I Hp Hp' Hn Hn'. apply (ri_tgid _ I p p' pt pt' Hp Hp').
  destruct (pi_live _ _ (ri_pt _ I _ _ Hp) _ Hn) as (b & Hb & Ht & _).
  destruct (pi_live _ _ (ri_pt _ I _ _ Hp') _ Hn') as (b' & Hb' & Ht' & _). congruence.
Qed.

Lemma without_barrier_inv r p pt q :
  reg_inv r -> ptgids r !! p = Some pt -> node_of pt q ->
  pt_inv (unlink_barrier p pt q r) (without_barrier q pt).
Proof.
  intros I Hp Hq. pose proof (ri_pt _ I _ _ Hp) as IP.
  pose proof (fun q' => without_barrier_node r pt q q' IP) as HN. split.
  - apply IP.
  - simpl. rewrite (knodes_del _ _ (pi_nodup _ _ IP)). apply NoDup_filter, IP.
  - apply IP.
  - simpl. rewrite (knodes_del _ _ (pi_nodup _ _ IP)), (pi_size _ _ IP), s32_pred. f_equal.
    pose proof (length_filter_ne _ q (pi_nodup _ _ IP) Hq). lia.
  - intros q' Hn. apply HN in Hn as [Hne Hn]. simpl. rewrite lookup_delete_ne by done.
    by apply IP.
  - intros q1 q2 b1 b2 Hn1 Hn2. apply HN in Hn1 as [? ?], Hn2 as [? ?]. simpl.
    rewrite !lookup_delete_ne by done. by apply IP.
Qed.

Lemma pt_inv_delete r p' pt' q m :
  pt_inv r pt' -> ~ node_of pt' q -> pt_inv (set_ptgids m (set_barriers (delete q (barriers r)) r)) pt'.
Proof.
  intros I Hn. split; try apply I; simpl.
  - intros q' Hq'. rewrite lookup_delete_ne by (intros ->; done). by apply I.
  - intros q1 q2 b1 b2 H1 H2. rewrite !lookup_delete_ne by (intros ->; done). by apply I.
Qed.

Lemma unlink_barrier_inv r p pt q :
  reg_inv r -> ptgids r !! p = Some pt -> node_of pt q -> reg_inv (unlink_barrier p pt q r).
Proof.
  intros I Hp Hq. pose proof (ri_pt _ I _ _ Hp) as IP. split; simpl.
  - apply I.
  - apply I.
  - intros p'. rewrite (ri_live _ I), lookup_insert_is_Some.
    destruct (decide (p = p')) as [<-|]; [split; [by left|by eexists]|].
    split; [by right|]. by intros [?|[_ ?]].
  - intros p1 p2 pt1 pt2 H1 H2. apply lookup_insert_Some in H1, H2.
    destruct H1 as [[<- <-]|[? H1]], H2 as [[<- <-]|[? H2]]; simpl; try done; by eapply (ri_tgid _ I).
  - intros p' pt' H'. apply lookup_insert_Some in H' as [[<- <-]|[? H']].
    + by apply without_barrier_inv.
    + apply (pt_inv_delete r p'); [by eapply (ri_pt _ I)|]. intros Hn.
      assert (p = p') by (eapply owner_unique; eauto). done.
  - intros q' b' Hb'. apply lookup_delete_Some in Hb' as [Hne Hb'].
    destruct (ri_owner _ I _ _ Hb') as (p' & pt' & H' & Hn).
    destruct (decide (p = p')) as [<-|].
    + exists p, (without_barrier q pt). rewrite lookup_insert_eq. split; [done|].
      apply (without_barrier_node r _ q _ IP). split; [done|]. by simplify_eq.
    + exists p', pt'. by rewrite lookup_insert_ne.
Qed.

Lemma unlink_barrier_has r p pt q b tg i b' :
  reg_inv r -> ptgids r !! p = Some pt -> node_of pt q -> barriers r !! q = Some b ->
  has_barrier (unlink_barrier p pt q r) tg i b' <->
  has_barrier r tg i b' /\ ~ (tg = tgid pt /\ i = id b).
Proof.
  intros I Hp Hq Hb. pose proof (ri_pt _ I _ _ Hp) as IP. unfold has_barrier; simpl. split.
  - intros (p' & pt' & q' & H' & <- & Hn & Hb' & <-). apply lookup_delete_Some in Hb' as [Hne Hb'].
    apply lookup_insert_Some in H' as [[<- <-]|[? H']].
    + apply (without_barrier_node r _ q _ IP) in Hn as [_ Hn]. split; [by exists p, pt, q'|].
      intros [_ E]. apply Hne. by apply (pi_ids _ _ IP q q' b b').
    + split; [by exists p', pt', q'|]. intros [E _].
      assert (p = p') by (symmetry; by eapply (ri_tgid _ I)). done.
  - intros [(p' & pt' & q' & H' & <- & Hn & Hb' & <-) Hnot].
    assert (q <> q') as Hne.
    { intros <-. apply Hnot. assert (p = p') as <- by (eapply owner_unique; eauto).
      split; congruence. }
    destruct (decide (p = p')) as [<-|].
    + exists p, (without_barrier q pt), q'. simplify_eq. rewrite lookup_insert_eq, lookup_delete_ne by done.
      split_and!; try done. by apply (without_barrier_node r _ q _ IP).
    + exists p', pt', q'. rewrite lookup_insert_ne, lookup_delete_ne by done. done.
Qed.

(** ** [recycle] *)

Lemma recycle_shared r p pt q b :
  reg_inv r -> ptgids r !! p = Some pt -> node_of pt q -> barriers r !! q = Some b ->
  s32 (barrier_size pt - 1) <> 0 -> recycle p q r = Ok tt (unlink_barrier p pt q r).
Proof.
  intros I Hp Hn Hb Hs. pose proof (ri_pt _ I _ _ Hp) as IP. unfold recycle.
  rewrite (bind_ok _ _ _ _ _ (lock_head_ok _ _ _ Hp (pi_lock _ _ IP))).
  set (r1 := set_ptgids _ _). assert (ptgids r1 !! p = Some (with_head_lock true pt)) as Hp1 by apply lookup_insert_eq.
  rewrite (bind_ok _ _ _ _ _ (read_barrier_ok r1 q b Hb)).
  rewrite (bind_ok _ _ _ _ _ (read_ptgid_ok _ _ _ Hp1)).
  rewrite (bind_ok _ _ _ _ _ (modify_ok _ _)).
  set (r2 := set_barriers _ _). assert (ptgids r2 !! p = Some (with_head_lock true pt)) as Hp2 by done.
  rewrite (bind_ok _ _ _ _ _ (write_ptgid_ok _ _ _ _ Hp2)).
  cbn [barrier_size with_head_lock]. destruct (Z.eqb_spec (s32 (barrier_size pt - 1)) 0); [done|].
  cbn [when]. rewrite (bind_ok _ _ _ _ _ (mret_ok _ _)).
  erewrite unlock_head_ok; [|apply lookup_insert_eq|done].
  unfold unlink_barrier, r2, r1, set_ptgids, set_barriers; simpl. rewrite !insert_insert_eq.
  unfold without_barrier, with_head_lock; simpl. by rewrite (pi_lock _ _ IP).
Qed.

Lemma recycle_last r p pt q b :
  reg_inv r -> ptgids r !! p = Some pt -> barriers r !! q = Some b ->
  s32 (barrier_size pt - 1) = 0 -> exists r', recycle p q r = Crash UseAfterFree r'.
Proof.
  intros I Hp Hb Hs. pose proof (ri_pt _ I _ _ Hp) as IP. unfold recycle.
  rewrite (bind_ok _ _ _ _ _ (lock_head_ok _ _ _ Hp (pi_lock _ _ IP))).
  set (r1 := set_ptgids _ _). assert (ptgids r1 !! p = Some (with_head_lock true pt)) as Hp1 by apply lookup_insert_eq.
  rewrite (bind_ok _ _ _ _ _ (read_barrier_ok r1 q b Hb)).
  rewrite (bind_ok _ _ _ _ _ (read_ptgid_ok _ _ _ Hp1)).
  rewrite (bind_ok _ _ _ _ _ (modify_ok _ _)).
  set (r2 := set_barriers _ _). assert (ptgids r2 !! p = Some (with_head_lock true pt)) as Hp2 by done.
  rewrite (bind_ok _ _ _ _ _ (write_ptgid_ok _ _ _ _ Hp2)).
  cbn [barrier_size with_head_lock]. rewrite Hs. cbn [when Z.eqb].
  set (r3 := set_ptgids _ _). assert (g_tgid_list_lock r3 = false) as Hg by apply I.
  eexists. erewrite bind_ok; [|rewrite (bind_ok _ _ _ _ _ (lock_g_ok _ Hg)); reflexivity].
  apply bind_crash. unfold read_ptgid, deref. simpl. by rewrite lookup_delete_eq.
Qed.
(** A process's counter of barriers is 1 exactly when the barrier is its only one. *)

Lemma nodes_bounded r pt : pt_inv r pt -> Z.of_nat (length (knodes (barrier_head pt))) <= 2 ^ 32.
Proof.
  intros I. set (bid q := default 0 (id <$> barriers r !! q)).
  assert (forall q, node_of pt q -> exists b, barriers r !! q = Some b /\ bid q = id b /\ 0 <= id b < 2 ^ 32) as Hb.
  { intros q Hq. destruct (pi_live _ _ I q Hq) as (b & E & _ & ? & _). exists b.
    unfold bid. by rewrite E. }
  rewrite <- (length_map bid). apply NoDup_bounded; [|intros z Hz|lia].
  - apply NoDup_fmap_2_strong; [|apply I]. intros q q' Hq Hq' E.
    destruct (Hb q Hq) as (b & E1 & E2 & _), (Hb q' Hq') as (b' & E3 & E4 & _).
    apply (pi_ids _ _ I q q' b b'); try done. congruence.
  - apply list_elem_of_fmap in Hz as (q & -> & Hq). destruct (Hb q Hq) as (b & _ & -> & ?). done.
Qed.

Lemma size_one r pt q :
  pt_inv r pt -> node_of pt q ->
  s32 (barrier_size pt - 1) = 0 <-> (forall q', node_of pt q' -> q' = q).
Proof.
  intros I Hn. rewrite (pi_size _ _ I), s32_pred. pose proof (nodes_bounded _ _ I) as Hlen.
  pose proof (pi_nodup _ _ I) as Hd. unfold node_of in *.
  destruct (knodes (barrier_head pt)) as [|q1 [|q2 qs]] eqn:E; [by apply elem_of_nil in Hn|..].
  - split; [|done]. intros _ q' Hq'. apply list_elem_of_singleton in Hn, Hq'. congruence.
  - split.
    + intros Hs. apply s32_zero in Hs; cbn [length] in *; lia.
    + intros Hall. apply NoDup_cons in Hd as [Hd _]. destruct Hd.
      rewrite (Hall q1), <- (Hall q2); [by left|by right; left|by left].
Qed.

End proofs.
