(* ===== verification/BarrierRegistrySpec.v ===== *)
(** * What the barrier registry promises

    The abstract state is a book of barriers indexed by (process, number);
    [barrier_init] and [barrier_destroy] refine its steps.  Destroying the
    last barrier of a process and waiting on an unknown number crash. *)

From S2P Require Import Prelude Kernel BarrierData BarrierRegistry BarrierRegistryProofs.

Abbreviation book := (gmap (Z * Z) barrier_struct).

(** The two calls of the registry and the pair they return: the value, and
    for [barrier_init] the number handed out. *)

Inductive call := Init (k : Z) | DestroyId (i : Z).

Inductive book_step (cur : task) : call -> book -> Z * Z -> book -> Prop :=
  | book_init (m : book) k i :
      0 <= k -> m !! (task_tgid cur, i) = None ->
      book_step cur (Init k) m (0, i) (<[(task_tgid cur, i) := init_barrier_struct cur k i]> m)
  | book_init_negative m k i : k < 0 -> book_step cur (Init k) m (-1, i) m
  | book_init_taken (m : book) k i j :
      is_Some (m !! (task_tgid cur, j)) -> book_step cur (Init k) m (-1, i) m
  | book_destroy (m : book) i b :
      m !! (task_tgid cur, u32 i) = Some b -> total b <= BARRIER_FLAG ->
      book_step cur (DestroyId i) m (0, i) (delete (task_tgid cur, u32 i) m)
  | book_destroy_unknown (m : book) i :
      m !! (task_tgid cur, u32 i) = None -> book_step cur (DestroyId i) m (-1, i) m.

Section spec.
Context {L : Type} {KL : KList L} {KM : Kmalloc}.
Implicit Types (r : registry L) (pt : per_tgid L) (p q : loc).

Definition represents r (m : book) : Prop :=
  forall tg i b, m !! (tg, i) = Some b <-> has_barrier r tg i b.

Definition exec_call (cur : task) (c : call) : M (registry L) (Z * Z) :=
  match c with
  | Init k =>
      '(ret, binfo) ← barrier_init cur {| bi_count := k; bi_barrier_id := 0 |};
      mret (ret, bi_barrier_id binfo)
  | DestroyId i => ret ← barrier_destroy cur i; mret (ret, i)
  end.

(** The only barrier the process has. *)

Definition last_barrier r (tg i : Z) : Prop :=
  (exists b, has_barrier r tg i b) /\ forall i' b, has_barrier r tg i' b -> i' = i.

(** ** [barrier_init] *)

Lemma barrier_init_negative r cur binfo :
  bi_count binfo < 0 -> barrier_init cur binfo r = Ok (-1, binfo) r.
Proof. intros H. unfold barrier_init. by destruct (Z.ltb_spec (bi_count binfo) 0); [|lia]. Qed.

(** The whole call on a registry where the process is known. *)

Lemma barrier_init_known r p pt cur binfo :
  reg_inv r -> 0 <= bi_count binfo ->
  find_or_add_ptgid (task_tgid cur) r = Ok p r -> ptgids r !! p = Some pt ->
  (out_of_memory /\ barrier_init cur binfo r = Crash NullDeref r) \/
  (exists q b, node_of pt q /\ barriers r !! q = Some b /\ id b = bid_count pt /\
     barrier_init cur binfo r = Ok (-1, binfo) r) \/
  (exists q, found_barrier r pt (bid_count pt) None /\ barriers r !! q = None /\
     barrier_init cur binfo r =
     Ok (0, {| bi_count := bi_count binfo; bi_barrier_id := bid_count pt |})
       (link_barrier p pt q (init_barrier_struct cur (bi_count binfo) (bid_count pt)) r)).
Proof.
  intros I Hk Hf Hp. pose proof (ri_pt _ I _ _ Hp) as IP. unfold barrier_init.
  destruct (Z.ltb_spec (bi_count binfo) 0); [lia|].
  rewrite (bind_ok _ _ _ _ _ Hf), (bind_ok _ _ _ _ _ (read_ptgid_ok _ _ _ Hp)).
  destruct (get_barrier_from_ptgid_ok r p pt (s32 (bid_count pt)) Hp IP) as (o & Ho & HF).
  rewrite u32_s32, (wrap_small 32 (bid_count pt)) in HF by apply IP.
  rewrite (bind_ok _ _ _ _ _ Ho). destruct o as [q|].
  - right; left. destruct HF as (Hn & b & Hb & Hi). by exists q, b.
  - destruct (kmalloc_unchecked_cases r) as [[Hm Hq]|(q & Hq & _ & Hqn)].
    { left. split; [done|]. by apply bind_crash. }
    right; right. exists q. split; [done|]. split; [done|]. rewrite (bind_ok _ _ _ _ _ Hq).
    rewrite (bind_ok _ _ _ _ _ (lock_head_ok _ _ _ Hp (pi_lock _ _ IP))).
    set (r1 := set_ptgids _ _).
    assert (ptgids r1 !! p = Some (with_head_lock true pt)) as Hp1 by apply lookup_insert_eq.
    rewrite (bind_ok _ _ _ _ _ (read_ptgid_ok _ _ _ Hp1)), (bind_ok _ _ _ _ _ (modify_ok _ _)).
    set (r2 := set_barriers _ _).
    assert (ptgids r2 !! p = Some (with_head_lock true pt)) as Hp2 by done.
    rewrite (bind_ok _ _ _ _ _ (write_ptgid_ok _ _ _ _ Hp2)).
    erewrite bind_ok; [|eapply unlock_head_ok; [apply lookup_insert_eq|done]].
    rewrite mret_ok. f_equal. unfold link_barrier, r2, r1, set_ptgids, set_barriers; simpl.
    rewrite !insert_insert_eq. unfold with_barrier, with_head_lock; simpl. by rewrite (pi_lock _ _ IP).
Qed.

Lemma barrier_init_after_add r p r1 cur binfo :
  0 <= bi_count binfo -> find_or_add_ptgid (task_tgid cur) r = Ok p r1 ->
  find_or_add_ptgid (task_tgid cur) r1 = Ok p r1 -> barrier_init cur binfo r = barrier_init cur binfo r1.
Proof.
  intros Hk H1 H2. unfold barrier_init. destruct (Z.ltb_spec (bi_count binfo) 0); [lia|].
  by rewrite (bind_ok _ _ _ _ _ H1), (bind_ok _ _ _ _ _ H2).
Qed.

Lemma find_known r p pt tg :
  reg_inv r -> ptgids r !! p = Some pt -> tgid pt = tg -> find_or_add_ptgid tg r = Ok p r.
Proof.
  intros I Hp Ht. unfold find_or_add_ptgid.
  rewrite (bind_ok _ _ _ _ _ (lock_g_ok _ (ri_lock _ I))).
  destruct (get_ptgid_without_lock_ok (set_g_lock true r) tg) as (o & Ho & HP); [apply I|].
  rewrite (bind_ok _ _ _ _ _ Ho). destruct o as [p'|]; [|by destruct (HP p pt)].
  destruct HP as (pt' & Hpt' & Htg). assert (p' = p) as -> by (eapply (ri_tgid _ I); eauto; congruence).
  rewrite (bind_ok _ _ _ _ _ (mret_ok _ _)).
  by rewrite (bind_ok _ _ _ _ _ (unlock_g_ok (set_g_lock true r) eq_refl)), set_g_lock_id by apply I.
Qed.

(** The number the process's next barrier is to get. *)

Definition next_number r (tg i : Z) : Prop :=
  exists p pt, ptgids r !! p = Some pt /\ tgid pt = tg /\ bid_count pt = i.

(** A count that is not negative: no memory; the next number is in use; or a
    new barrier. *)

Lemma barrier_init_ok r cur binfo :
  reg_inv r -> 0 <= bi_count binfo ->
  (out_of_memory /\ exists r', barrier_init cur binfo r = Crash NullDeref r') \/
  (exists i b, next_number r (task_tgid cur) i /\ has_barrier r (task_tgid cur) i b /\
     barrier_init cur binfo r = Ok (-1, binfo) r) \/
  (exists i r', barrier_init cur binfo r = Ok (0, {| bi_count := bi_count binfo; bi_barrier_id := i |}) r' /\
     reg_inv r' /\ (forall b, ~ has_barrier r (task_tgid cur) i b) /\
     forall tg' i' b, has_barrier r' tg' i' b <->
       (tg' = task_tgid cur /\ i' = i /\ b = init_barrier_struct cur (bi_count binfo) i) \/
       has_barrier r tg' i' b).
Proof.
  intros I Hk.
  destruct (find_or_add_ptgid_ok r (task_tgid cur) I) as [[Hm [r1 Hf]]|(p & pt & r1 & Hf & I1 & Hp & Ht & Hcase & Hhas)].
  { left. split; [done|]. exists r1. unfold barrier_init. destruct (Z.ltb_spec (bi_count binfo) 0); [lia|]. by apply bind_crash. }
  rewrite (barrier_init_after_add r p r1) by (done || by eapply find_known).
  destruct (barrier_init_known r1 p pt cur binfo) as [[Hm E]|[(q & b & Hn & Hb & Hi & E)|(q & Hnf & Hq & E)]];
    [done|done|by eapply find_known|done|..].
  - left. split; [done|by eexists].
  - right; left. destruct Hcase as [->|Hnil]; [|unfold node_of in Hn; rewrite Hnil in Hn; by apply elem_of_nil in Hn].
    exists (id b), b. split; [by exists p, pt|]. split; [|done]. by exists p, pt, q.
  - right; right. eexists _, _. split; [exact E|]. split_and!.
    + apply link_barrier_inv; try done; simpl. by apply (ri_pt _ I1 _ _ Hp).
    + intros b. rewrite <- Hhas. intros (p' & pt' & q' & H' & Ht' & Hn & Hb & Hi).
      assert (p' = p) as -> by (eapply (ri_tgid _ I1); eauto; congruence). simplify_eq.
      by eapply Hnf.
    + intros tg' i' b. rewrite link_barrier_has, Hhas by done. simpl. by rewrite Ht.
Qed.

(** ** [barrier_destroy] *)

Lemma destroy_lookup r cur i :
  reg_inv r -> (forall b, ~ has_barrier r (task_tgid cur) (u32 i) b) ->
  barrier_destroy cur i r = Ok (-1) r.
Proof.
  intros I Hno. unfold barrier_destroy.
  destruct (get_ptgid_ok r (task_tgid cur) I) as (o & Ho & HP). rewrite (bind_ok _ _ _ _ _ Ho).
  destruct o as [p|]; [|done]. destruct HP as (pt & Hp & Ht).
  destruct (get_barrier_from_ptgid_ok r p pt (s32 i) Hp (ri_pt _ I _ _ Hp)) as (o & Ho' & HF).
  rewrite (bind_ok _ _ _ _ _ Ho'). destruct o as [q|]; [|done].
  destruct HF as (Hn & b & Hb & Hi). rewrite u32_s32 in Hi. destruct (Hno b). by exists p, pt, q.
Qed.

Lemma relock_barrier b t : lock_total b = None -> set_lock (set_lock b (Some t)) None = b.
Proof. destruct b; simpl. by intros ->. Qed.

Lemma barrier_destroy_known r cur i p pt q b :
  reg_inv r -> ptgids r !! p = Some pt -> tgid pt = task_tgid cur -> node_of pt q ->
  barriers r !! q = Some b -> id b = u32 i ->
  barrier_destroy cur i r =
  if BARRIER_FLAG <? total b then Blocked r else (recycle p q ;; mret 0) r.
Proof.
  intros I Hp Ht Hn Hb Hi. unfold barrier_destroy.
  destruct (get_ptgid_ok r (task_tgid cur) I) as (o & Ho & HP). rewrite (bind_ok _ _ _ _ _ Ho).
  destruct o as [p'|]; [|by destruct (HP p pt)]. destruct HP as (pt' & Hp' & Ht').
  assert (p' = p) as -> by (eapply (ri_tgid _ I); eauto; congruence). simplify_eq.
  pose proof (ri_pt _ I _ _ Hp) as IP.
  destruct (get_barrier_from_ptgid_ok r p pt (s32 i) Hp IP) as (o & Ho' & HF).
  rewrite (bind_ok _ _ _ _ _ Ho'). rewrite u32_s32 in HF.
  destruct o as [q'|]; [|by destruct (HF q b)]. destruct HF as (Hn' & b' & Hb' & Hi').
  assert (q' = q) as -> by (apply (pi_ids _ _ IP q' q b' b); congruence). simplify_eq.
  destruct (pi_live _ _ IP q Hn) as (b1 & Hb1 & _ & _ & Hl). simplify_eq.
  rewrite (bind_ok _ _ _ _ _ (read_barrier_ok _ _ _ Hb)).
  assert (lock_barrier (task_tid cur) q r =
    Ok tt (set_barriers (<[q := set_lock b (Some (task_tid cur))]> (barriers r)) r)) as E.
  { unfold lock_barrier. rewrite (bind_ok _ _ _ _ _ (read_barrier_ok _ _ _ Hb)), Hl.
    by eapply write_barrier_ok. }
  rewrite (bind_ok _ _ _ _ _ E). set (r1 := set_barriers _ _).
  assert (barriers r1 !! q = Some (set_lock b (Some (task_tid cur)))) as Hb1' by apply lookup_insert_eq.
  rewrite (bind_ok _ _ _ _ _ (read_barrier_ok _ _ _ Hb1')).
  assert (unlock_barrier q r1 = Ok tt r) as E2.
  { unfold unlock_barrier. rewrite (bind_ok _ _ _ _ _ (read_barrier_ok _ _ _ Hb1')). simpl.
    erewrite write_barrier_ok by done. unfold r1, set_barriers; simpl.
    rewrite insert_insert_eq, relock_barrier, insert_id by done. by destruct r. }
  rewrite (bind_ok _ _ _ _ _ E2). simpl. by destruct (BARRIER_FLAG <? total b).
Qed.

Lemma represents_unique r m tg i b b' :
  represents r m -> has_barrier r tg i b -> has_barrier r tg i b' -> b = b'.
Proof. intros HR H H'. apply HR in H, H'. congruence. Qed.

Lemma last_nodes r p pt q b :
  reg_inv r -> ptgids r !! p = Some pt -> node_of pt q -> barriers r !! q = Some b ->
  (forall q', node_of pt q' -> q' = q) <-> last_barrier r (tgid pt) (id b).
Proof.
  intros I Hp Hn Hb. split.
  - intros Hall. split; [exists b; by exists p, pt, q|].
    intros i' b' (p' & pt' & q' & H' & Ht & Hn' & Hb' & <-).
    assert (p' = p) as -> by (eapply (ri_tgid _ I); eauto). simplify_eq.
    rewrite (Hall q' Hn') in Hb'. by simplify_eq.
  - intros [_ Hall] q' Hn'. pose proof (ri_pt _ I _ _ Hp) as IP.
    destruct (pi_live _ _ IP q' Hn') as (b' & Hb' & _).
    apply (pi_ids _ _ IP q' q b' b); try done. apply (Hall _ b'). by exists p, pt, q'.
Qed.

Lemma barrier_destroy_ok r cur i b :
  reg_inv r -> has_barrier r (task_tgid cur) (u32 i) b ->
  (BARRIER_FLAG < total b /\ barrier_destroy cur i r = Blocked r) \/
  (total b <= BARRIER_FLAG /\ last_barrier r (task_tgid cur) (u32 i) /\
     exists r', barrier_destroy cur i r = Crash UseAfterFree r') \/
  (total b <= BARRIER_FLAG /\ ~ last_barrier r (task_tgid cur) (u32 i) /\
     exists r', barrier_destroy cur i r = Ok 0 r' /\ reg_inv r' /\
     forall tg' i' b', has_barrier r' tg' i' b' <->
       has_barrier r tg' i' b' /\ ~ (tg' = task_tgid cur /\ i' = u32 i)).
Proof.
  intros I (p & pt & q & Hp & Ht & Hn & Hb & Hi). pose proof (ri_pt _ I _ _ Hp) as IP.
  rewrite (barrier_destroy_known r cur i p pt q b) by done.
  destruct (Z.ltb_spec BARRIER_FLAG (total b)) as [Hf|Hf]; [by left|right].
  rewrite <- Ht, <- Hi. rewrite <- (last_nodes r p pt q b) by done. rewrite <- (size_one r) by done.
  destruct (Z.eq_dec (s32 (barrier_size pt - 1)) 0) as [Hs|Hs]; [left|right]; (split; [done|]); (split; [done|]).
  - destruct (recycle_last r p pt q b I Hp Hb Hs) as [r' Hr]. exists r'. by apply bind_crash.
  - exists (unlink_barrier p pt q r).
    rewrite (bind_ok _ _ _ _ _ (recycle_shared r p pt q b I Hp Hn Hb Hs)). split; [done|].
    split; [by apply unlink_barrier_inv|]. intros. by apply unlink_barrier_has.
Qed.

(** ** Waiting: the look-up *)

Lemma wait_lookup_at r cur i p pt q b :
  reg_inv r -> ptgids r !! p = Some pt -> tgid pt = task_tgid cur -> node_of pt q ->
  barriers r !! q = Some b -> id b = u32 i -> barrier_wait_lookup cur i r = Ok q r.
Proof.
  intros I Hp Ht Hn Hb Hi. pose proof (ri_pt _ I _ _ Hp) as IP.
  unfold barrier_wait_lookup, get_barrier_only_from_id.
  destruct (get_ptgid_ok r (task_tgid cur) I) as (o & Ho & HP).
  destruct o as [p'|]; [|by destruct (HP p pt)]. destruct HP as (pt' & Hp' & Ht').
  assert (p' = p) as -> by (eapply (ri_tgid _ I); eauto; congruence). simplify_eq.
  destruct (get_barrier_from_ptgid_ok r p pt (s32 i) Hp IP) as (o & Ho' & HF). rewrite u32_s32 in HF.
  destruct o as [q'|]; [|by destruct (HF q b)]. destruct HF as (Hn' & b' & Hb' & Hi').
  assert (q' = q) as -> by (apply (pi_ids _ _ IP q' q b' b); congruence).
  erewrite bind_ok; [|by rewrite (bind_ok _ _ _ _ _ Ho)].
  cbn beta iota. by rewrite (bind_ok _ _ _ _ _ (read_barrier_ok _ _ _ Hb)).
Qed.

Lemma wait_lookup_ok r cur i b :
  reg_inv r -> has_barrier r (task_tgid cur) (u32 i) b ->
  exists q, barrier_wait_lookup cur i r = Ok q r /\ barriers r !! q = Some b.
Proof.
  intros I (p & pt & q & Hp & Ht & Hn & Hb & Hi). exists q. split; [|done].
  by apply (wait_lookup_at r cur i p pt q b).
Qed.

Lemma wait_lookup_unknown r cur i :
  reg_inv r -> (forall b, ~ has_barrier r (task_tgid cur) (u32 i) b) ->
  barrier_wait_lookup cur i r = Crash NullDeref r.
Proof.
  intros I Hno. unfold barrier_wait_lookup, get_barrier_only_from_id.
  destruct (get_ptgid_ok r (task_tgid cur) I) as (o & Ho & HP).
  destruct o as [p|].
  - destruct HP as (pt & Hp & Ht).
    destruct (get_barrier_from_ptgid_ok r p pt (s32 i) Hp (ri_pt _ I _ _ Hp)) as (o & Ho' & HF).
    destruct o as [q|].
    + destruct HF as (Hn & b & Hb & Hi). rewrite u32_s32 in Hi. destruct (Hno b). by exists p, pt, q.
    + erewrite bind_ok; [|by rewrite (bind_ok _ _ _ _ _ Ho)]. done.
  - erewrite bind_ok; [|by rewrite (bind_ok _ _ _ _ _ Ho)]. done.
Qed.

Lemma empty_inv : reg_inv (empty_registry : registry L).
Proof.
  split; simpl; rewrite ?knodes_empty; try done.
  - constructor.
  - intros p. rewrite lookup_empty. split; [intros Hp; by apply elem_of_nil in Hp|by intros [? ?]].
Qed.
End spec.

(** ** The theorems *)

Section theorems.
Context {L : Type} {KL : KList L} {KM : Kmalloc}.
Implicit Types (r : registry L).

Lemma represents_insert r r' m cur k i :
  represents r m -> (forall b, ~ has_barrier r (task_tgid cur) i b) ->
  (forall tg' i' b, has_barrier r' tg' i' b <->
     (tg' = task_tgid cur /\ i' = i /\ b = init_barrier_struct cur k i) \/ has_barrier r tg' i' b) ->
  represents r' (<[(task_tgid cur, i) := init_barrier_struct cur k i]> m).
Proof.
  unfold represents. intros HR Hno Hhas tg' i' b. rewrite Hhas, lookup_insert_Some, HR. split.
  - intros [[[= <- <-] <-]|[_ ?]]; [by left|by right].
  - intros [(-> & -> & ->)|H]; [by left|right]. split; [|done]. intros [= <- <-]. by apply (Hno b).
Qed.

Lemma represents_delete r r' m (tg i : Z) :
  represents r m ->
  (forall tg' i' b, has_barrier r' tg' i' b <-> has_barrier r tg' i' b /\ ~ (tg' = tg /\ i' = i)) ->
  represents r' (delete (tg, i) m).
Proof.
  unfold represents. intros HR Hhas tg' i' b. rewrite Hhas, lookup_delete_Some, HR. split.
  - intros [Hne ?]. split; [done|]. intros [-> ->]. done.
  - intros [? Hne]. split; [|done]. intros [= <- <-]. by apply Hne.
Qed.

(** [barrier_init] and [barrier_destroy] on the linked registry implement
    the abstract book: a returned call is a step of the book (a new barrier
    gets a number its process does not use, even after the 32-bit counter has
    wrapped; other processes and barriers are untouched; every error path
    leaves the book alone) and keeps the registry well formed; the crashes
    are destroying a process's last barrier and a [barrier_init] for which
    kmalloc has no memory, and the one wait is destroying a barrier whose
    threads are still leaving. *)

Theorem barrier_calls_refine_book r m cur c :
  reg_inv r -> represents r m ->
  match exec_call cur c r with
  | Ok a r' => reg_inv r' /\ exists m', represents r' m' /\ book_step cur c m a m'
  | Crash f _ =>
      (f = UseAfterFree /\ exists i, c = DestroyId i /\ last_barrier r (task_tgid cur) (u32 i)) \/
      (f = NullDeref /\ out_of_memory /\ exists k, c = Init k)
  | Blocked r' => r' = r /\ exists i b, c = DestroyId i /\
      m !! (task_tgid cur, u32 i) = Some b /\ BARRIER_FLAG < total b
  end.
Proof.
  intros I HR. destruct c as [k|i]; unfold exec_call.
  - destruct (Z.ltb_spec k 0) as [Hk|Hk].
    { rewrite (bind_ok _ _ _ _ _ (barrier_init_negative r cur {| bi_count := k; bi_barrier_id := 0 |} Hk)).
      split; [done|]. exists m. split; [done|by constructor]. }
    destruct (barrier_init_ok r cur {| bi_count := k; bi_barrier_id := 0 |} I Hk)
      as [(Hm & r' & E)|[(i & b & _ & Hb & E)|(i & r' & E & I' & Hno & Hhas)]];
      [rewrite (bind_crash _ _ _ _ _ E)|rewrite (bind_ok _ _ _ _ _ E)..].
    + right. split; [done|]. split; [done|]. by exists k.
    + split; [done|]. exists m. split; [done|]. apply (book_init_taken _ _ _ _ i).
      exists b. by apply HR.
    + split; [done|]. eexists. split; [by eapply represents_insert|]. constructor; [done|].
      apply eq_None_not_Some. intros [b Hb]. apply HR in Hb. by apply (Hno b).
  - destruct (m !! (task_tgid cur, u32 i)) as [b|] eqn:Hmi.
    + pose proof Hmi as Hb. apply HR in Hb.
      destruct (barrier_destroy_ok r cur i b I Hb) as [[Hf E]|[(Hf & Hlast & r' & E)|(Hf & _ & r' & E & I' & Hhas)]].
      * unfold mbind, M_bind. rewrite E. split; [done|]. by exists i, b.
      * rewrite (bind_crash _ _ _ _ _ E). left. split; [done|]. by exists i.
      * rewrite (bind_ok _ _ _ _ _ E). split; [done|]. eexists.
        split; [by eapply represents_delete|by econstructor].
    + assert (forall b, ~ has_barrier r (task_tgid cur) (u32 i) b) as Hno.
      { intros b Hb. apply HR in Hb. congruence. }
      rewrite (bind_ok _ _ _ _ _ (destroy_lookup r cur i I Hno)).
      split; [done|]. exists m. split; [done|by constructor].
Qed.

(** destroying the last barrier of a process always touches freed memory:
    [barrier_destroy] frees the process's block and then unlocks the spin lock
    inside it. *)

Theorem destroying_last_barrier_crashes r cur i b :
  reg_inv r -> has_barrier r (task_tgid cur) (u32 i) b -> total b <= BARRIER_FLAG ->
  last_barrier r (task_tgid cur) (u32 i) -> exists r', barrier_destroy cur i r = Crash UseAfterFree r'.
Proof.
  intros I Hb Hf Hl. destruct (barrier_destroy_ok r cur i b I Hb) as [[? _]|[(_ & _ & E)|(_ & ? & _)]];
    [lia|exact E|done].
Qed.

(** [barrier_wait] finds exactly the barrier its own process has under the
    number, and follows a NULL pointer when there is none. *)

Theorem waiting_reaches_own_barrier_or_crashes r cur i :
  reg_inv r ->
  (forall b, has_barrier r (task_tgid cur) (u32 i) b ->
     exists q, barrier_wait_lookup cur i r = Ok q r /\ barriers r !! q = Some b) /\
  ((forall b, ~ has_barrier r (task_tgid cur) (u32 i) b) ->
     barrier_wait_lookup cur i r = Crash NullDeref r).
Proof. intros I. split; intros; [by apply wait_lookup_ok|by apply wait_lookup_unknown]. Qed.
End theorems.

(** ** A concrete registry *)

Definition first_task : task := {| task_tgid := 100; task_tid := 101 |}.

Definition one_barrier : registry (list loc) :=
  match barrier_init first_task {| bi_count := 5; bi_barrier_id := 0 |} empty_registry with
  | Ok _ r => r | Crash _ r => r | Blocked r => r
  end.

Lemma one_barrier_inv : reg_inv one_barrier.
Proof.
  destruct (barrier_init_ok empty_registry first_task {| bi_count := 5; bi_barrier_id := 0 |})
    as [[[d Hd] _]|[(i & b & (p & pt & Hp & _) & _)|(i & r' & E & I & _)]]; [apply empty_inv|done|done|done|].
  - unfold one_barrier. by rewrite E.
Qed.

Lemma one_barrier_has tg i b :
  has_barrier one_barrier tg i b <-> tg = 100 /\ i = 0 /\ b = init_barrier_struct first_task 5 0.
Proof.
  assert (ptgids one_barrier = {[1%positive := {| tgid := 100; bid_count := 1; barrier_size := 1;
    barrier_head_lock := false; barrier_head := [2%positive] |}]}) as Hp by (vm_compute; reflexivity).
  assert (barriers one_barrier = {[2%positive := init_barrier_struct first_task 5 0]}) as Hb
    by (vm_compute; reflexivity).
  unfold has_barrier. rewrite Hp, Hb. split.
  - intros (p & pt & q & H1 & H2 & H3 & H4 & H5).
    apply lookup_singleton_Some in H1 as [<- <-], H4 as [<- <-]. done.
  - intros (-> & -> & ->). eexists 1%positive, _, 2%positive. rewrite !lookup_singleton_eq.
    split_and!; [done|done|by left|done|done].
Qed.

Lemma empty_represents : represents (empty_registry : registry (list loc)) ∅.
Proof. intros tg i b. split; [done|]. by intros (p & pt & q & H & _). Qed.

Lemma barrier_calls_refine_book_witness :
  match exec_call first_task (Init 5) (empty_registry : registry (list loc)) with
  | Ok a r' => reg_inv r' /\ exists m', represents r' m' /\ book_step first_task (Init 5) ∅ a m'
  | Crash f _ =>
      (f = UseAfterFree /\ exists i, Init 5 = DestroyId i /\ last_barrier empty_registry 100 (u32 i)) \/
      (f = NullDeref /\ out_of_memory /\ exists k, Init 5 = Init k)
  | Blocked r' => r' = empty_registry /\ exists i b, Init 5 = DestroyId i /\
      (∅ : book) !! (100, u32 i) = Some b /\ BARRIER_FLAG < total b
  end.
Proof.
  apply (barrier_calls_refine_book (empty_registry : registry (list loc)) ∅ first_task (Init 5)).
  - apply empty_inv.
  - apply empty_represents.
Defined.

Lemma destroying_last_barrier_crashes_witness :
  exists r', barrier_destroy first_task 0 one_barrier = Crash UseAfterFree r'.
Proof.
  apply (destroying_last_barrier_crashes one_barrier first_task 0 (init_barrier_struct first_task 5 0)).
  - apply one_barrier_inv.
  - by apply one_barrier_has.
  - vm_compute. discriminate.
  - split; [eexists; by apply one_barrier_has|]. intros i' b Hb. by apply one_barrier_has in Hb as (_ & -> & _).
Defined.

Lemma waiting_reaches_own_barrier_or_crashes_witness :
  (forall b, has_barrier one_barrier 100 (u32 7) b ->
     exists q, barrier_wait_lookup first_task 7 one_barrier = Ok q one_barrier /\ barriers one_barrier !! q = Some b) /\
  ((forall b, ~ has_barrier one_barrier 100 (u32 7) b) ->
     barrier_wait_lookup first_task 7 one_barrier = Crash NullDeref one_barrier).
Proof.
  apply (waiting_reaches_own_barrier_or_crashes one_barrier first_task 7). apply one_barrier_inv.
Defined.
