(* ===== verification/BarrierWorld.v ===== *)
(** * The barrier module as a whole: every call of every process, interleaved

    [BarrierRegistry] runs a call by itself and [BarrierSync] interleaves the
    threads on one barrier.  Here the threads of any number of processes make
    any calls, and each statement that takes or gives back a spin lock,
    allocates, frees or follows a pointer that no lock protects is a step of
    its own; what the code does under one lock is one step.  The barriers are
    [BarrierSync]'s machines, one for each [barrier_struct].  An allocation
    that fails is a fault at once; the code follows the NULL a few lines later.
    Source: 04_barrier_driver_module/eosi_barrier.c. *)

From S2P Require Import Prelude Kernel BarrierData BarrierSync BarrierRegistry.

(** The three calls with their arguments; a [barrier_info] by its count.

    Here the [barrier_info] of a [barrier_init] belongs to the call: no other
    thread writes it meanwhile, so that the [count] and [barrier_id] which
    lines 174-176 read back are the count of line 139 and the number just
    stored.  With 05's system calls it is a variable on the kernel's stack; in
    the library of the module it is one on the caller's stack.  What a call
    does with any user memory is in [BarrierCalls]. *)

Inductive call := CInit (n : Z) | CWait (i : Z) | CDestroy (i : Z).

(** Where a thread stands. *)

Inductive control :=
  | Outside
  | GLock (k : call)                            (* spin_lock(&g_tgid_list_lock): get_ptgid, barrier_init 143 *)
  | GScan (k : call)                            (* the search, and 145-158 *)
  | GUnlock (k : call) (o : option loc)
  | ReadCount (k : call) (p : loc)              (* ptgid->bid_count, 161 *)
  | HLock (k : call) (p : loc) (i : Z)          (* get_barrier_from_ptgid *)
  | HScan (k : call) (p : loc) (i : Z)
  | HUnlock (k : call) (p : loc) (o : option loc)
  | Alloc (n : Z) (p : loc)                     (* kmalloc of the barrier, 169 *)
  | LinkLock (n : Z) (p q : loc)                (* 172 *)
  | Link (n : Z) (p q : loc)                    (* 174-178 *)
  | LinkUnlock (p q : loc)                      (* 181 *)
  | PrintLinked (q : loc)                       (* barrier->tgid, 183 *)
  | Start (k : call) (p : option loc) (o : option loc)  (* printSYNC_start(s, barrier), 239 and 299 *)
  | InBarrier (k : call) (p q : loc)            (* 241-276, 301-309 *)
  | RecycleLock (k : call) (p q : loc)          (* 312 *)
  | Recycle (k : call) (p q : loc)              (* 313-317 *)
  | LastLock (p : loc)                          (* 321 *)
  | LastDel (p : loc)                           (* 322 *)
  | LastUnlock (p : loc)                        (* 323 *)
  | LastFree (p : loc)                          (* 325 *)
  | RecycleUnlock (p : loc).                    (* 327 *)

(** [taken]: every address [kmalloc] ever gave out; one that was freed is not
    given out again, so that a dangling pointer is always noticed.  [handed]:
    the process and the number of every successful [barrier_init]. *)

Record world (L : Type) := {
  w_list : L;
  g_lock : bool;
  procs : gmap loc (per_tgid L);
  machines : gmap loc config;
  taken : gset loc;
  control_of : gmap Z control;
  handed : list (Z * Z)
}.
Arguments w_list {L}.
Arguments g_lock {L}.
Arguments procs {L}.
Arguments machines {L}.
Arguments taken {L}.
Arguments control_of {L}.
Arguments handed {L}.

Section world.
Context {L : Type} {KL : KList L} {KM : Kmalloc}.

(** The threads, and the process of each. *)

Context (ts : gset Z) (tgid_of : Z -> Z).

Implicit Types (w : world L) (pt : per_tgid L) (p q : loc) (k : call).

Definition current (t : Z) : task := {| task_tgid := tgid_of t; task_tid := t |}.

Definition moved (t : Z) (c : control) w : world L :=
  {| w_list := w_list w; g_lock := g_lock w; procs := procs w; machines := machines w; taken := taken w;
     control_of := <[t := c]> (control_of w); handed := handed w |}.

Definition with_g (v : bool) w : world L :=
  {| w_list := w_list w; g_lock := v; procs := procs w; machines := machines w; taken := taken w;
     control_of := control_of w; handed := handed w |}.

Definition with_list (l : L) w : world L :=
  {| w_list := l; g_lock := g_lock w; procs := procs w; machines := machines w; taken := taken w;
     control_of := control_of w; handed := handed w |}.

Definition with_procs (m : gmap loc (per_tgid L)) w : world L :=
  {| w_list := w_list w; g_lock := g_lock w; procs := m; machines := machines w; taken := taken w;
     control_of := control_of w; handed := handed w |}.

Definition with_machines (m : gmap loc config) w : world L :=
  {| w_list := w_list w; g_lock := g_lock w; procs := procs w; machines := m; taken := taken w;
     control_of := control_of w; handed := handed w |}.

Definition take (p : loc) w : world L :=
  {| w_list := w_list w; g_lock := g_lock w; procs := procs w; machines := machines w; taken := {[p]} ∪ taken w;
     control_of := control_of w; handed := handed w |}.

Definition hand_out (tg i : Z) w : world L :=
  {| w_list := w_list w; g_lock := g_lock w; procs := procs w; machines := machines w; taken := taken w;
     control_of := control_of w; handed := (tg, i) :: handed w |}.

(** The registry as the look-ups see it. *)

Definition live_barriers w : gmap loc barrier_struct := omap bar (machines w).

Definition reg_of w : registry L :=
  {| tgid_list := w_list w; g_tgid_list_lock := g_lock w; ptgids := procs w; barriers := live_barriers w |}.

Inductive wresult := WNext (w : world L) | WStuck | WFault (f : fault).

(** A look-up under its lock, and an access to a process's structure. *)

Definition looked {A} (m : M (registry L) A) w (next : A -> wresult) : wresult :=
  match m (reg_of w) with
  | Ok a _ => next a
  | Crash f _ => WFault f
  | Blocked _ => WStuck
  end.

Definition proc_at p w (next : per_tgid L -> wresult) : wresult :=
  match procs w !! p with Some pt => next pt | None => WFault UseAfterFree end.

Definition fresh_address w (next : loc -> world L -> wresult) : wresult :=
  match kmalloc (taken w) with Some p => next p (take p w) | None => WFault NullDeref end.

Definition set_proc p pt w : world L := with_procs (<[p := pt]> (procs w)) w.

Definition set_machine q (c : config) w : world L := with_machines (<[q := c]> (machines w)) w.

Definition add_process p (tg : Z) w : world L :=
  with_list (kadd p (w_list w)) (set_proc p (new_ptgid tg) w).

(** After the look-up of the process, and after that of the barrier. *)

Definition after_g k (o : option loc) : control :=
  match k, o with
  | CInit _, Some p => ReadCount k p
  | CInit _, None => Outside
  | CWait i, Some p | CDestroy i, Some p => HLock k p (s32 i)
  | CWait _, None => Start k None None
  | CDestroy _, None => Outside
  end.

Definition after_h k p (o : option loc) : control :=
  match k, o with
  | CInit _, Some _ => Outside
  | CInit n, None => Alloc n p
  | CWait _, _ => Start k (Some p) o
  | CDestroy _, None => Outside
  | CDestroy _, Some _ => Start k (Some p) o
  end.

(** [t] makes a step in the machine at [q]; [next] sees where it then is. *)

Definition in_machine (l : label) q w (next : config -> wresult) : wresult :=
  match machines w !! q with
  | None => WFault UseAfterFree
  | Some c => match exec l c with Next c' => next c' | Stuck => WStuck | Fault f => WFault f end
  end.

Definition after_step (t : Z) k p q (c : config) : control :=
  match threads c !! t with
  | Some {| th_pc := Idle |} | None => Outside
  | Some {| th_pc := Free |} => RecycleLock k p q
  | Some _ => InBarrier k p q
  end.

Definition start_label (t : Z) k : label := match k with CDestroy _ => CallDestroy t | _ => CallWait t end.

Definition counted_proc q pt : per_tgid L :=
  {| tgid := tgid pt; bid_count := u32 (bid_count pt + 1); barrier_size := s32 (barrier_size pt + 1);
     barrier_head_lock := barrier_head_lock pt; barrier_head := kadd q (barrier_head pt) |}.

Definition dropped_proc q pt : per_tgid L :=
  {| tgid := tgid pt; bid_count := bid_count pt; barrier_size := s32 (barrier_size pt - 1);
     barrier_head_lock := barrier_head_lock pt; barrier_head := kdel q (barrier_head pt) |}.

(** One step of thread [t] that stands at [c] in its call. *)

Definition step_at (t : Z) (c : control) w : wresult :=
  match c with
  | Outside => WStuck
  | GLock k => if g_lock w then WStuck else WNext (moved t (GScan k) (with_g true w))
  | GScan k =>
      looked (get_ptgid_without_lock (tgid_of t)) w (fun o =>
        match o, k with
        | None, CInit _ =>
            fresh_address w (fun p w => WNext (moved t (GUnlock k (Some p)) (add_process p (tgid_of t) w)))
        | _, _ => WNext (moved t (GUnlock k o) w)
        end)
  | GUnlock k o => WNext (moved t (after_g k o) (with_g false w))
  | ReadCount k p => proc_at p w (fun pt => WNext (moved t (HLock k p (s32 (bid_count pt))) w))
  | HLock k p i =>
      proc_at p w (fun pt =>
        if barrier_head_lock pt then WStuck
        else WNext (moved t (HScan k p i) (set_proc p (with_head_lock true pt) w)))
  | HScan k p i =>
      proc_at p w (fun pt =>
        looked (scan_barriers i (knodes (barrier_head pt))) w (fun o => WNext (moved t (HUnlock k p o) w)))
  | HUnlock k p o =>
      proc_at p w (fun pt => WNext (moved t (after_h k p o) (set_proc p (with_head_lock false pt) w)))
  | Alloc n p => fresh_address w (fun q w => WNext (moved t (LinkLock n p q) w))
  | LinkLock n p q =>
      proc_at p w (fun pt =>
        if barrier_head_lock pt then WStuck
        else WNext (moved t (Link n p q) (set_proc p (with_head_lock true pt) w)))
  | Link n p q =>
      proc_at p w (fun pt =>
        let b := init_barrier_struct (current t) n (bid_count pt) in
        WNext (moved t (LinkUnlock p q) (hand_out (tgid_of t) (bid_count pt)
          (set_proc p (counted_proc q pt) (set_machine q (start b ts) w)))))
  | LinkUnlock p q =>
      proc_at p w (fun pt => WNext (moved t (PrintLinked q) (set_proc p (with_head_lock false pt) w)))
  | PrintLinked q =>
      match live_barriers w !! q with Some _ => WNext (moved t Outside w) | None => WFault UseAfterFree end
  | Start k (Some p) (Some q) =>
      match live_barriers w !! q with
      | None => WFault UseAfterFree
      | Some _ => in_machine (start_label t k) q w (fun c => WNext (moved t (InBarrier k p q) (set_machine q c w)))
      end
  | Start _ _ _ => WFault NullDeref
  | InBarrier k p q =>
      in_machine (Run t) q w (fun c => WNext (moved t (after_step t k p q c) (set_machine q c w)))
  | RecycleLock k p q =>
      proc_at p w (fun pt =>
        if barrier_head_lock pt then WStuck
        else WNext (moved t (Recycle k p q) (set_proc p (with_head_lock true pt) w)))
  | Recycle k p q =>
      proc_at p w (fun pt =>
        in_machine (Run t) q w (fun c =>
          let pt := dropped_proc q pt in
          WNext (moved t (if barrier_size pt =? 0 then LastLock p else RecycleUnlock p)
            (set_proc p pt (set_machine q c w)))))
  | LastLock p => if g_lock w then WStuck else WNext (moved t (LastDel p) (with_g true w))
  | LastDel p => proc_at p w (fun _ => WNext (moved t (LastUnlock p) (with_list (kdel p (w_list w)) w)))
  | LastUnlock p => WNext (moved t (LastFree p) (with_g false w))
  | LastFree p => proc_at p w (fun _ => WNext (moved t (RecycleUnlock p) (with_procs (delete p (procs w)) w)))
  | RecycleUnlock p =>
      proc_at p w (fun pt => WNext (moved t Outside (set_proc p (with_head_lock false pt) w)))
  end.

Definition step (t : Z) w : wresult :=
  match control_of w !! t with Some c => step_at t c w | None => WStuck end.

(** What can happen: a thread calls, makes a step, or gets a signal. *)

Inductive wlabel := Enter (t : Z) (k : call) | Step (t : Z) | Interrupt (t : Z).

Definition wexec (l : wlabel) w : wresult :=
  match l with
  | Enter t k =>
      match control_of w !! t with
      | Some Outside =>
          match k with
          | CInit n => if n <? 0 then WNext w else WNext (moved t (GLock k) w)
          | _ => WNext (moved t (GLock k) w)
          end
      | _ => WStuck
      end
  | Step t => step t w
  | Interrupt t =>
      match control_of w !! t with
      | Some (InBarrier _ _ q) => in_machine (Signal t) q w (fun c => WNext (set_machine q c w))
      | Some _ => WNext w
      | None => WStuck
      end
  end.

Fixpoint wrun (ls : list wlabel) w : wresult :=
  match ls with
  | [] => WNext w
  | l :: ls => match wexec l w with WNext w' => wrun ls w' | r => r end
  end.

Definition boot : world L :=
  {| w_list := kempty; g_lock := false; procs := ∅; machines := ∅; taken := ∅;
     control_of := gset_to_gmap Outside ts; handed := [] |}.
End world.
