(* ===== verification/BarrierWorldProofs.v ===== *)
(** * The barrier module as a whole: its invariant *)

From S2P Require Import Prelude Kernel BarrierData BarrierSync BarrierSyncProofs.
From S2P Require Import BarrierRegistry BarrierRegistryProofs BarrierWorld.

(** ** One machine moves *)

(** What no step on a barrier changes. *)

Definition fixed (b : barrier_struct) : barrier_struct := set_lock (set_total b 0) None.

Lemma exec_fixed l c c' b b' :
  bar c = Some b -> exec l c = Next c' -> bar c' = Some b' -> fixed b' = fixed b.
Proof.
  intros Hb He Hb'. destruct l as [t|t|t|t]; cbn [exec] in He.
  1-2, 4: repeat case_match; simplify_eq; cbn in Hb'; congruence.
  destruct (threads c !! t) as [th|]; [|done]. unfold thread_step in He. rewrite Hb in He.
  destruct (th_pc th); repeat case_match; simplify_eq; cbn in Hb'; simplify_eq; try (rewrite Hb in Hb'; simplify_eq); done.
Qed.

Lemma exec_freed l c c' : bar c = None -> exec l c = Next c' -> bar c' = None.
Proof.
  intros Hb He. destruct l as [t|t|t|t]; cbn [exec] in He.
  1-2, 4: repeat case_match; by simplify_eq.
  destruct (threads c !! t) as [th|]; [|done]. unfold thread_step in He. rewrite Hb in He. by destruct (th_pc th).
Qed.

(** What a barrier is made with stays. *)

Lemma reachable_fixed b ts c : reachable (start b ts) c -> forall b', bar c = Some b' -> fixed b' = fixed b.
Proof.
  intros Hr. remember (start b ts) as c0. induction Hr as [|c l c' Hr IH He]; intros b' Hb'; [subst; by injection Hb' as <-|].
  destruct (bar c) as [b0|] eqn:Hb0; [|by rewrite (exec_freed l c c' Hb0 He) in Hb'].
  rewrite <- (IH b0 eq_refl). by eapply exec_fixed.
Qed.

(** A call moves its thread only; it keeps to its function, and only the
    recycling frees the barrier. *)

Definition moves (t : Z) (f : pc -> bool) (c c' : config) : Prop :=
  exists x, pcs c' = <[t := x]> (pcs c) /\ f x = true.

Lemma thread_moves t th c c' (f : pc -> bool) b :
  f = waiting \/ f = destroying -> threads c !! t = Some th -> bar c = Some b -> f (th_pc th) = true ->
  thread_step t th c = Next c' -> moves t f c c' /\ (is_Some (bar c') \/ th_pc th = Free).
Proof.
  intros Hf Ht Hb Hk Hs. unfold thread_step in Hs. rewrite Hb in Hs. unfold moves.
  destruct th as [p r]. cbn [th_pc th_run] in *.
  destruct p as [|k|k|k|k|k|k| | | | | | | |]; try done; destruct Hf as [-> | ->]; try done; try (destruct k; try done).
  all: repeat case_match; simplify_eq; (split; [eexists; split; [autorewrite with pcs; reflexivity|done]|]).
  all: first [by right | left; first [exact (mk_is_Some _ _ Hb)|by eexists]].
Qed.

(** ** Who holds a lock *)

Definition excl (flag : bool) (h : control -> bool) (m : gmap Z control) : Prop :=
  exists o : option Z, (flag = true <-> is_Some o) /\ (forall t, o = Some t -> is_Some (m !! t)) /\
    forall t c, m !! t = Some c -> (h c = true <-> o = Some t).

(** A step keeps, gives back or takes the lock. *)

Definition hand_over (h h' flag flag' : bool) : Prop :=
  (h' = h /\ flag' = flag) \/ (h = true /\ h' = false /\ flag' = false) \/ (flag = false /\ h' = true /\ flag' = true).

Lemma excl_move flag flag' h m t c c' :
  excl flag h m -> m !! t = Some c -> hand_over (h c) (h c') flag flag' -> excl flag' h (<[t := c']> m).
Proof.
  intros (o & Hf & Hd & Hh) Ht Hmove. pose proof (Hh t c Ht) as Hc.
  assert (forall u, is_Some (<[t := c']> m !! u) <-> is_Some (m !! u)) as Hdom.
  { intros u. rewrite lookup_insert_is_Some'. split; [intros [<-|]; [by eexists|done]|by right]. }
  destruct Hmove as [[E ->]|[(E & E' & ->)|(-> & E & ->)]].
  - exists o. split; [done|]. split; [intros u; rewrite Hdom; apply Hd|].
    intros u x [[<- <-]|[_ Hx]]%lookup_insert_Some; [by rewrite E|by apply Hh].
  - exists None. split; [split; [done|by intros [? ?]]|]. split; [done|].
    intros u x [[<- <-]|[Hne Hx]]%lookup_insert_Some; [by rewrite E'|].
    rewrite (Hh u x Hx). apply Hc in E. rewrite E. split; congruence.
  - assert (o = None) as -> by (destruct o; [discriminate (proj2 Hf (mk_is_Some _ _ eq_refl))|done]).
    exists (Some t). split; [by split|]. split; [intros u [= <-]; rewrite Hdom; by eexists|].
    intros u x [[<- <-]|[Hne Hx]]%lookup_insert_Some; [by split|].
    rewrite (Hh u x Hx). split; congruence.
Qed.

Lemma excl_empty h (m : gmap Z control) : (forall t c, m !! t = Some c -> h c = false) -> excl false h m.
Proof.
  intros H. exists None. split; [split; [done|by intros [? ?]]|]. split; [done|].
  intros t c Hc. by rewrite (H t c Hc).
Qed.

Definition holds_g (c : control) : bool :=
  match c with GScan _ | GUnlock _ _ | LastDel _ | LastUnlock _ => true | _ => false end.

Definition head_of (c : control) : option loc :=
  match c with
  | HScan _ p _ | HUnlock _ p _ | Link _ p _ | LinkUnlock p _ | Recycle _ p _
  | LastLock p | LastDel p | LastUnlock p | LastFree p | RecycleUnlock p => Some p
  | _ => None
  end.

Definition holds_head (p : loc) (c : control) : bool := bool_decide (head_of c = Some p).

Section invariant.
Context {L : Type} {KL : KList L} {KM : Kmalloc}.
Context (ts : gset Z) (tgid_of : Z -> Z).
Implicit Types (w : world L) (pt : per_tgid L) (p q : loc) (k : call) (c : control).

(** ** The registry with the locks and counters left out *)

Definition calm w : registry L :=
  {| tgid_list := w_list w; g_tgid_list_lock := false; ptgids := with_head_lock false <$> procs w;
     barriers := fixed <$> live_barriers w |}.

(** ** What a thread's place in its call says *)

Definition is_init k : bool := match k with CInit _ => true | _ => false end.

Definition is_destroy k : bool := match k with CDestroy _ => true | _ => false end.

Definition number k : Z := match k with CWait i | CDestroy i => u32 i | CInit _ => -1 end.

Definition body k : pc -> bool := if is_destroy k then destroying else waiting.

Definition mine w (t : Z) p : Prop := exists pt, procs w !! p = Some pt /\ tgid pt = tgid_of t.

(** [t]'s process, at [p], has the barrier number [i] at [q]. *)

Definition owns w (t : Z) p q (i : Z) : Prop := exists pt b,
  procs w !! p = Some pt /\ tgid pt = tgid_of t /\ node_of pt q /\ live_barriers w !! q = Some b /\ id b = i.

Definition at_pc w (t : Z) q (P : pc -> Prop) : Prop :=
  exists m x, machines w !! q = Some m /\ pcs m !! t = Some x /\ P x.

Definition unborn w q : Prop := q ∈ taken w /\ machines w !! q = None /\ procs w !! q = None.

Definition control_ok w (t : Z) c : Prop :=
  match c with
  | Outside | GLock _ | GScan _ => True
  | GUnlock k o => match o with Some p => mine w t p | None => is_init k = false end
  | ReadCount k p => is_init k = true /\ mine w t p
  | HLock k p i | HScan k p i => mine w t p /\ (is_init k = false -> u32 i = number k)
  | HUnlock k p o => mine w t p /\ match o with Some q => is_init k = false -> owns w t p q (number k) | None => True end
  | Alloc _ p => mine w t p
  | LinkLock _ p q | Link _ p q => mine w t p /\ unborn w q
  | LinkUnlock p q => exists i, owns w t p q i
  | PrintLinked q => exists p i, owns w t p q i
  | Start k p o => match p, o with
                   | Some p, Some q => is_init k = false /\ owns w t p q (number k)
                   | None, Some _ => False
                   | _, None => exists i, k = CWait i
                   end
  | InBarrier k p q =>
      is_init k = false /\ owns w t p q (number k) /\ at_pc w t q (fun x => body k x = true /\ x <> Idle /\ x <> Free)
  | RecycleLock k p q | Recycle k p q =>
      is_destroy k = true /\ owns w t p q (number k) /\ at_pc w t q (fun x => x = Free)
  | LastLock _ | LastDel _ | LastUnlock _ | LastFree _ => False
  | RecycleUnlock p => mine w t p
  end.

(** The barrier a thread is in, and the address it has allocated. *)

Definition inside_of c : option loc :=
  match c with InBarrier _ _ q | RecycleLock _ _ q | Recycle _ _ q => Some q | _ => None end.

Definition holding c : option loc := match c with LinkLock _ _ q | Link _ _ q => Some q | _ => None end.

Record world_inv w : Prop := {
  wi_reg : reg_inv (calm w);
  wi_count p pt : procs w !! p = Some pt -> 0 <= bid_count pt <= Z.of_nat (length (handed w));
  wi_ids p pt q b : procs w !! p = Some pt -> node_of pt q -> live_barriers w !! q = Some b -> id b < bid_count pt;
  wi_handed tg i : (tg, i) ∈ handed w -> exists p pt, procs w !! p = Some pt /\ tgid pt = tg /\ i < bid_count pt;
  wi_nodup : NoDup (handed w);
  wi_dom t : is_Some (control_of w !! t) <-> t ∈ ts;
  wi_control t c : control_of w !! t = Some c -> control_ok w t c;
  wi_machine q m : machines w !! q = Some m ->
    exists t n i, reachable (start (init_barrier_struct (current tgid_of t) n i) ts) m;
  wi_inside q m t x : machines w !! q = Some m -> pcs m !! t = Some x -> x <> Idle ->
    exists c, control_of w !! t = Some c /\ inside_of c = Some q;
  wi_taken x : is_Some (procs w !! x) \/ is_Some (machines w !! x) -> x ∈ taken w;
  wi_holding t u c d q : control_of w !! t = Some c -> control_of w !! u = Some d ->
    holding c = Some q -> holding d = Some q -> t = u;
  wi_g : excl (g_lock w) holds_g (control_of w);
  wi_head p pt : procs w !! p = Some pt -> excl (barrier_head_lock pt) (holds_head p) (control_of w)
}.

(** ** The discipline the module asks of its processes

    A barrier is destroyed when no other thread uses its number, the process
    keeps another barrier meanwhile, and 32 bits are enough for the numbers. *)

Definition call_of c : option call :=
  match c with
  | GLock k | GScan k | GUnlock k _ | ReadCount k _ | HLock k _ _ | HScan k _ _ | HUnlock k _ _
  | Start k _ _ | InBarrier k _ _ | RecycleLock k _ _ | Recycle k _ _ => Some k
  | _ => None
  end.

Definition destroys c : option Z := match call_of c with Some (CDestroy i) => Some (u32 i) | _ => None end.

Definition uses w c : option Z :=
  match c with
  | LinkUnlock _ q | PrintLinked q => id <$> live_barriers w !! q
  | _ => match call_of c with Some (CWait i) | Some (CDestroy i) => Some (u32 i) | _ => None end
  end.

Record disciplined w : Prop := {
  di_apart t u c d i : control_of w !! t = Some c -> control_of w !! u = Some d -> t <> u ->
    tgid_of t = tgid_of u -> destroys c = Some i -> uses w d <> Some i;
  di_keeps t c p q i : control_of w !! t = Some c -> destroys c = Some i -> owns w t p q i ->
    exists q' i', owns w t p q' i' /\ q' <> q;
  di_few : Z.of_nat (length (handed w)) + 1 < 2 ^ 32
}.

(** ** What a step leaves to the other threads *)

Record steady (t : Z) (gone : option loc) w w' : Prop := {
  st_procs p pt : procs w !! p = Some pt -> exists pt', procs w' !! p = Some pt' /\ tgid pt' = tgid pt /\
    forall q, node_of pt q -> gone <> Some q -> node_of pt' q;
  st_live q b : live_barriers w !! q = Some b -> gone <> Some q ->
    exists b', live_barriers w' !! q = Some b' /\ id b' = id b;
  st_unborn u c q : u <> t -> control_of w !! u = Some c -> holding c = Some q -> unborn w q -> unborn w' q;
  st_pc u q m x : u <> t -> machines w !! q = Some m -> pcs m !! u = Some x ->
    exists m', machines w' !! q = Some m' /\ pcs m' !! u = Some x
}.

Lemma mine_steady t gone w w' u p : steady t gone w w' -> mine w u p -> mine w' u p.
Proof. intros S (pt & Hp & Ht). destruct (st_procs _ _ _ _ S p pt Hp) as (pt' & ? & ? & _). exists pt'. split; [done|congruence]. Qed.

Lemma owns_steady t gone w w' u p q i : steady t gone w w' -> gone <> Some q -> owns w u p q i -> owns w' u p q i.
Proof.
  intros S Hg (pt & b & Hp & Ht & Hn & Hb & Hi).
  destruct (st_procs _ _ _ _ S p pt Hp) as (pt' & ? & ? & Hnode). destruct (st_live _ _ _ _ S q b Hb Hg) as (b' & ? & ?).
  exists pt', b'. split_and!; try done; [congruence|by apply Hnode|congruence].
Qed.

Lemma at_pc_steady t gone w w' u q P : steady t gone w w' -> u <> t -> at_pc w u q P -> at_pc w' u q P.
Proof.
  intros S Hu (m & x & Hm & Hx & HP). destruct (st_pc _ _ _ _ S u q m x Hu Hm Hx) as (m' & ? & ?). by exists m', x.
Qed.

Lemma uses_number w k c : is_init k = false ->
  match c with LinkUnlock _ _ | PrintLinked _ => False | _ => call_of c = Some k end -> uses w c = Some (number k).
Proof. intros Hk. destruct c; try done; cbn; intros [= ->]; by destruct k. Qed.

Lemma control_ok_steady t gone w w' u c :
  steady t gone w w' -> u <> t -> control_of w !! u = Some c ->
  (forall p q i, owns w u p q i -> uses w c = Some i -> gone <> Some q) ->
  control_ok w u c -> control_ok w' u c.
Proof.
  intros S Hu Hc Hg Hok.
  assert (forall p, mine w u p -> mine w' u p) as Hm by (intros; by eapply mine_steady).
  assert (forall p q i, owns w u p q i -> uses w c = Some i -> owns w' u p q i) as Ho.
  { intros p q i H1 H2. eapply owns_steady; [done| |done]. by eapply Hg. }
  assert (forall q P, at_pc w u q P -> at_pc w' u q P) as Hp by (intros; by eapply at_pc_steady).
  destruct c as [|k|k|k o|k p|k p i|k p i|k p o|n p|n p q|n p q|p q|q|k [p|] [q|]|k p q|k p q|k p q|p|p|p|p|p];
    cbn [control_ok] in *; try done.
  - destruct o; [by apply Hm|done].
  - destruct Hok. split; [done|by apply Hm].
  - destruct Hok. split; [by apply Hm|done].
  - destruct Hok. split; [by apply Hm|done].
  - destruct Hok as [H1 H2]. split; [by apply Hm|]. destruct o as [q|]; [|done]. intros Hk. apply Ho; [by apply H2|by apply uses_number].
  - by apply Hm.
  - destruct Hok as [H1 H2]. split; [by apply Hm|by eapply (st_unborn _ _ _ _ S)].
  - destruct Hok as [H1 H2]. split; [by apply Hm|by eapply (st_unborn _ _ _ _ S)].
  - destruct Hok as [i Hi]. exists i. apply Ho; [done|]. destruct Hi as (pt & b & _ & _ & _ & Hb & Hi). cbn. by rewrite Hb, <- Hi.
  - destruct Hok as (p & i & Hi). exists p, i. apply Ho; [done|]. destruct Hi as (pt & b & _ & _ & _ & Hb & Hi). cbn. by rewrite Hb, <- Hi.
  - destruct Hok as [H1 H2]. split; [done|]. apply Ho; [done|by apply uses_number].
  - destruct Hok as (H1 & H2 & H3). split; [done|]. split; [|by apply Hp]. apply Ho; [done|by apply uses_number].
  - destruct Hok as (H1 & H2 & H3). split; [done|]. split; [|by apply Hp]. apply Ho; [done|]. apply uses_number; [by destruct k|done].
  - destruct Hok as (H1 & H2 & H3). split; [done|]. split; [|by apply Hp]. apply Ho; [done|]. apply uses_number; [by destruct k|done].
  - by apply Hm.
Qed.

(** The parts of the invariant about the registry alone. *)

Record lists_ok w : Prop := {
  lo_reg : reg_inv (calm w);
  lo_count p pt : procs w !! p = Some pt -> 0 <= bid_count pt <= Z.of_nat (length (handed w));
  lo_ids p pt q b : procs w !! p = Some pt -> node_of pt q -> live_barriers w !! q = Some b -> id b < bid_count pt;
  lo_handed tg i : (tg, i) ∈ handed w -> exists p pt, procs w !! p = Some pt /\ tgid pt = tg /\ i < bid_count pt;
  lo_nodup : NoDup (handed w);
  lo_taken x : is_Some (procs w !! x) \/ is_Some (machines w !! x) -> x ∈ taken w
}.

Record machines_ok w : Prop := {
  mo_machine q m : machines w !! q = Some m ->
    exists t n i, reachable (start (init_barrier_struct (current tgid_of t) n i) ts) m;
  mo_inside q m t x : machines w !! q = Some m -> pcs m !! t = Some x -> x <> Idle ->
    exists c, control_of w !! t = Some c /\ inside_of c = Some q
}.

Lemma rebuild w w' t gone c c' :
  world_inv w -> control_of w !! t = Some c -> control_of w' = <[t := c']> (control_of w) ->
  steady t gone w w' ->
  (forall u d p q i, u <> t -> control_of w !! u = Some d -> owns w u p q i -> uses w d = Some i -> gone <> Some q) ->
  control_ok w' t c' -> lists_ok w' -> machines_ok w' ->
  (forall q, holding c' = Some q -> holding c = Some q \/ q ∉ taken w) ->
  hand_over (holds_g c) (holds_g c') (g_lock w) (g_lock w') ->
  (forall p pt', procs w' !! p = Some pt' ->
     (exists pt, procs w !! p = Some pt /\
        hand_over (holds_head p c) (holds_head p c') (barrier_head_lock pt) (barrier_head_lock pt')) \/
     (barrier_head_lock pt' = false /\ forall u d, control_of w' !! u = Some d -> holds_head p d = false)) ->
  world_inv w'.
Proof.
  intros I Hc Hc' S Hg Hok LO MO Hhold HG HH. destruct LO, MO. split; try done.
  - intros u. rewrite Hc', lookup_insert_is_Some', (wi_dom _ I). split; [|by right].
    intros [<-|]; [|done]. apply (wi_dom _ I). by eexists.
  - intros u d. rewrite Hc'. intros [[<- <-]|[Hne Hd]]%lookup_insert_Some; [done|].
    eapply control_ok_steady; try done; [intros; by eapply (Hg u)|by apply (wi_control _ I)].
  - intros u v d e q. rewrite Hc'.
    assert (forall v e, v <> t -> control_of w !! v = Some e -> holding e = Some q -> q ∈ taken w) as Ht.
    { intros v' e' _ He Hq. pose proof (wi_control _ I _ _ He) as Hok'. destruct e'; try done; injection Hq as ->; apply Hok'. }
    intros [[<- <-]|[Hu Hd]]%lookup_insert_Some [[<- <-]|[Hv He]]%lookup_insert_Some; [done|..].
    + intros H1 H2. destruct (Hhold q H1) as [H1'|Hn]; [by eapply (wi_holding _ I)|]. destruct Hn. by eapply Ht; [symmetry|..].
    + intros H1 H2. destruct (Hhold q H2) as [H2'|Hn]; [by eapply (wi_holding _ I)|]. destruct Hn. by eapply Ht; [symmetry|..].
    + by apply (wi_holding _ I).
  - rewrite Hc'. by eapply excl_move, HG; [apply I|].
  - intros p pt' Hp'. destruct (HH p pt' Hp') as [(pt & Hp & Hho)|[-> Hno]].
    + rewrite Hc'. by eapply excl_move, Hho; [eapply (wi_head _ I)|].
    + by apply excl_empty.
Qed.
End invariant.
