(* ===== verification/BarrierWorldKeep.v ===== *)
(** * The barrier module as a whole: every step keeps the invariant *)

From S2P Require Import Prelude Kernel BarrierData BarrierSync BarrierSyncProofs.
From S2P Require Import BarrierRegistry BarrierRegistryProofs BarrierWorld BarrierWorldProofs.

Section keep.
Context {L : Type} {KL : KList L} {KM : Kmalloc}.
Context (ts : gset Z) (tgid_of : Z -> Z).
Implicit Types (w : world L) (pt : per_tgid L) (p q : loc) (k : call) (c : control).

Local Abbreviation control_ok := (control_ok tgid_of).
Local Abbreviation world_inv := (world_inv ts tgid_of).
Local Abbreviation lists_ok := (lists_ok (L := L)).
Local Abbreviation machines_ok := (machines_ok ts tgid_of).
Local Abbreviation mine := (mine tgid_of).
Local Abbreviation owns := (owns tgid_of).

(** ** Steps that only take or give back a spin lock *)

Record quiet w w' : Prop := {
  qt_list : w_list w' = w_list w;
  qt_machines : machines w' = machines w;
  qt_taken : taken w' = taken w;
  qt_handed : handed w' = handed w;
  qt_procs : with_head_lock false <$> procs w' = with_head_lock false <$> procs w
}.

Lemma quiet_sym w w' : quiet w w' -> quiet w' w.
Proof. intros []. by split. Qed.

Lemma quiet_proc w w' p pt : quiet w w' -> procs w !! p = Some pt ->
  exists v, procs w' !! p = Some (with_head_lock v pt).
Proof.
  intros Q Hp. pose proof (f_equal (lookup p) (qt_procs _ _ Q)) as E. rewrite !lookup_fmap, Hp in E.
  destruct (procs w' !! p) as [pt'|]; [|done]. exists (barrier_head_lock pt'). destruct pt, pt'. by simplify_eq/=.
Qed.

Lemma quiet_live w w' : quiet w w' -> live_barriers w' = live_barriers w.
Proof. intros Q. unfold live_barriers. by rewrite (qt_machines _ _ Q). Qed.

Lemma quiet_calm w w' : quiet w w' -> calm w' = calm w.
Proof. intros Q. unfold calm. by rewrite (quiet_live _ _ Q), (qt_procs _ _ Q), (qt_list _ _ Q). Qed.

Lemma quiet_steady w w' t : quiet w w' -> steady t None w w'.
Proof.
  intros Q. split.
  - intros p pt Hp. destruct (quiet_proc _ _ p pt Q Hp) as [v Hv]. by eexists.
  - intros q b Hb _. rewrite (quiet_live _ _ Q). by eexists.
  - intros u c q _ _ _ (H1 & H2 & H3). unfold unborn. rewrite (qt_taken _ _ Q), (qt_machines _ _ Q). split_and!; try done.
    apply eq_None_not_Some. intros [pt Hp]. destruct (quiet_proc _ _ q pt (quiet_sym _ _ Q) Hp). congruence.
  - intros u q m x _ Hm Hx. rewrite (qt_machines _ _ Q). by eexists.
Qed.

Lemma quiet_unborn w w' q : quiet w w' -> unborn w q -> unborn w' q.
Proof.
  intros Q (H1 & H2 & H3). unfold unborn. rewrite (qt_taken _ _ Q), (qt_machines _ _ Q). split_and!; try done.
  apply eq_None_not_Some. intros [pt Hp]. destruct (quiet_proc _ _ q pt (quiet_sym _ _ Q) Hp). congruence.
Qed.

Lemma quiet_control_ok w w' t c : quiet w w' -> control_ok w t c -> control_ok w' t c.
Proof.
  intros Q. pose proof (quiet_steady w w' (t + 1) Q) as S.
  assert (forall p, mine w t p -> mine w' t p) as Hm by (intros; by eapply mine_steady).
  assert (forall p q i, owns w t p q i -> owns w' t p q i) as Ho by (intros; by eapply owns_steady).
  assert (forall q P, at_pc w t q P -> at_pc w' t q P) as Hp by (intros; eapply at_pc_steady; [done|lia|done]).
  assert (forall q, unborn w q -> unborn w' q) as Hu by (intros; by eapply quiet_unborn).
  destruct c as [|k|k|k [p|]|k p|k p i|k p i|k p [q|]|n p|n p q|n p q|p q|q|k [p|] [q|]|k p q|k p q|k p q|p|p|p|p|p];
    cbn [BarrierWorldProofs.control_ok]; naive_solver.
Qed.

Lemma quiet_lists_ok w w' : quiet w w' -> world_inv w -> lists_ok w'.
Proof.
  intros Q I.
  assert (forall p pt, procs w' !! p = Some pt -> procs w !! p = Some (with_head_lock (barrier_head_lock pt) pt) \/
    exists v, procs w !! p = Some (with_head_lock v pt)) as Hp.
  { intros p pt H. right. by apply (quiet_proc w' w p pt (quiet_sym _ _ Q)). }
  split.
  - rewrite (quiet_calm _ _ Q). apply I.
  - intros p pt H. destruct (quiet_proc _ _ _ _ (quiet_sym _ _ Q) H) as [v Hv].
    rewrite (qt_handed _ _ Q). exact (wi_count _ _ _ I _ _ Hv).
  - intros p pt q b H Hn. rewrite (quiet_live _ _ Q). destruct (quiet_proc _ _ _ _ (quiet_sym _ _ Q) H) as [v Hv].
    exact (wi_ids _ _ _ I _ _ q b Hv Hn).
  - intros tg i. rewrite (qt_handed _ _ Q). intros Hi. destruct (wi_handed _ _ _ I tg i Hi) as (p & pt & H & Ht & Hl).
    destruct (quiet_proc _ _ _ _ Q H) as [v Hv]. by eexists _, _.
  - rewrite (qt_handed _ _ Q). apply I.
  - intros x. rewrite (qt_taken _ _ Q), (qt_machines _ _ Q). intros [[pt H]|H]; apply (wi_taken _ _ _ I); [left|by right].
    destruct (quiet_proc _ _ _ _ (quiet_sym _ _ Q) H) as [v Hv]. by eexists.
Qed.

(** Nobody enters or leaves a barrier. *)

Lemma outside_machines w w' t c c' :
  machines w' = machines w -> world_inv w -> control_of w !! t = Some c ->
  control_of w' = <[t := c']> (control_of w) -> inside_of c' = inside_of c -> machines_ok w'.
Proof.
  intros Hm I Hc Hc' Hin. split; rewrite Hm; [apply I|].
  intros q m u x H1 H2 H3. destruct (wi_inside _ _ _ I q m u x H1 H2 H3) as (d & Hd & Hq). rewrite Hc'.
  destruct (decide (u = t)) as [->|]; [|rewrite lookup_insert_ne by done; by exists d].
  rewrite lookup_insert_eq. exists c'. split; [done|]. congruence.
Qed.

Lemma keep_quiet w w' t c c' :
  world_inv w -> control_of w !! t = Some c -> quiet w w' -> control_of w' = <[t := c']> (control_of w) ->
  control_ok w t c' -> inside_of c' = inside_of c -> (holding c' = holding c \/ holding c' = None) ->
  hand_over (holds_g c) (holds_g c') (g_lock w) (g_lock w') ->
  (forall p pt pt', procs w !! p = Some pt -> procs w' !! p = Some pt' ->
     hand_over (holds_head p c) (holds_head p c') (barrier_head_lock pt) (barrier_head_lock pt')) ->
  world_inv w'.
Proof.
  intros I Hc Q Hc' Hok Hin Hh HG HP. apply (rebuild ts tgid_of w w' t None c c'); try done.
  - by apply quiet_steady.
  - by eapply quiet_control_ok.
  - by eapply quiet_lists_ok.
  - by eapply outside_machines; [apply Q|..].
  - intros q Hq. left. destruct Hh; congruence.
  - intros p pt' Hp'. left. destruct (quiet_proc _ _ _ _ (quiet_sym _ _ Q) Hp') as [v Hv]. eexists. split; [done|by eapply HP].
Qed.

(** The list's lock changes hands, or no lock does. *)

Lemma keep_plain w w' t c c' :
  world_inv w -> control_of w !! t = Some c -> quiet w w' -> procs w' = procs w ->
  control_of w' = <[t := c']> (control_of w) ->
  control_ok w t c' -> inside_of c' = inside_of c -> (holding c' = holding c \/ holding c' = None) ->
  head_of c' = head_of c -> hand_over (holds_g c) (holds_g c') (g_lock w) (g_lock w') -> world_inv w'.
Proof.
  intros I Hc Q HP Hc' Hok Hin Hh Hhd HG. apply (keep_quiet w w' t c c'); try done.
  intros p pt pt' H H'. rewrite HP in H'. simplify_eq. left. split; [|done]. unfold holds_head. by rewrite Hhd.
Qed.

(** A process's lock changes hands. *)

Lemma quiet_head w t c p pt v : procs w !! p = Some pt ->
  quiet w (moved t c (set_proc p (with_head_lock v pt) w)).
Proof.
  intros Hp. split; try done. cbn. rewrite fmap_insert. apply insert_id. by rewrite lookup_fmap, Hp.
Qed.

Lemma keep_head w t c c' p pt v :
  world_inv w -> control_of w !! t = Some c -> procs w !! p = Some pt ->
  control_ok w t c' -> inside_of c' = inside_of c -> (holding c' = holding c \/ holding c' = None) ->
  holds_g c' = holds_g c ->
  match v with
  | true => barrier_head_lock pt = false /\ head_of c = None /\ head_of c' = Some p
  | false => head_of c = Some p /\ head_of c' = None
  end -> world_inv (moved t c' (set_proc p (with_head_lock v pt) w)).
Proof.
  intros I Hc Hp Hok Hin Hh HG Hv. apply (keep_quiet w _ t c c'); try done.
  - by apply quiet_head.
  - by left.
  - intros p' pt1 pt2 H1. cbn. unfold holds_head. intros [[<- <-]|[Hne H2]]%lookup_insert_Some.
    + simplify_eq. cbn. destruct v; [destruct Hv as (E1 & E2 & E3)|destruct Hv as (E2 & E3)]; rewrite E2, E3;
        [right; right|right; left]; by rewrite bool_decide_true by done.
    + simplify_eq. left. split; [|done].
      destruct v; destruct_and!; repeat case_bool_decide; congruence.
Qed.

(** ** Look-ups *)

Lemma world_listed w p : world_inv w -> p ∈ knodes (w_list w) <-> is_Some (procs w !! p).
Proof. intros I. rewrite (ri_live _ (wi_reg _ _ _ I) p). cbn. by rewrite lookup_fmap, fmap_is_Some. Qed.

Lemma world_pt w p pt : world_inv w -> procs w !! p = Some pt -> pt_inv (calm w) (with_head_lock false pt).
Proof. intros I Hp. apply (ri_pt _ (wi_reg _ _ _ I) p). cbn. by rewrite lookup_fmap, Hp. Qed.

Lemma world_node w p pt q : world_inv w -> procs w !! p = Some pt -> node_of pt q ->
  exists b, live_barriers w !! q = Some b /\ b_tgid b = tgid pt /\ 0 <= id b < 2 ^ 32.
Proof.
  intros I Hp Hq. destruct (pi_live _ _ (world_pt w p pt I Hp) q Hq) as (b & Hb & H1 & H2 & _).
  cbn in Hb. rewrite lookup_fmap in Hb. destruct (live_barriers w !! q) as [b'|]; [|done]. simplify_eq/=. by exists b'.
Qed.

Lemma looked_process w tg next : world_inv w ->
  exists o, looked (get_ptgid_without_lock tg) w next = next o /\ found_ptgid (reg_of w) tg o.
Proof.
  intros I. destruct (get_ptgid_without_lock_ok (reg_of w) tg) as (o & E & H).
  { intros p. by apply world_listed. }
  exists o. unfold looked. by rewrite E.
Qed.

Lemma looked_barrier w p pt i next : world_inv w -> procs w !! p = Some pt ->
  exists o, looked (scan_barriers i (knodes (barrier_head pt))) w next = next o /\ found_barrier (reg_of w) pt (u32 i) o.
Proof.
  intros I Hp. destruct (scan_barriers_ok (reg_of w) i (knodes (barrier_head pt))) as (o & E & H).
  { intros q Hq. destruct (world_node w p pt q I Hp Hq) as (b & Hb & _). by exists b. }
  exists o. unfold looked. rewrite E. split; [done|]. destruct o; cbn in *; [naive_solver|exact H].
Qed.

Lemma at_proc w p pt next : procs w !! p = Some pt -> proc_at p w next = next pt.
Proof. intros H. unfold proc_at. by rewrite H. Qed.

(** ** The steps of the look-ups *)

Lemma keep_enter w w' t k : world_inv w -> wexec ts tgid_of (Enter t k) w = WNext w' -> world_inv w'.
Proof.
  intros I. cbn [wexec]. destruct (control_of w !! t) as [[]|] eqn:Hc; try done.
  assert (world_inv (moved t (GLock k) w)) as Hm by (apply (keep_plain w _ t Outside (GLock k)); try done; by left).
  destruct k; repeat case_match; naive_solver.
Qed.

Lemma keep_g_steps w w' t c : world_inv w -> control_of w !! t = Some c ->
  match c with GLock _ | GUnlock _ _ | ReadCount _ _ => True | _ => False end ->
  step_at ts tgid_of t c w = WNext w' -> world_inv w'.
Proof.
  intros I Hc HP. pose proof (wi_control _ _ _ I t c Hc) as Hok.
  destruct c as [|k|k|k o|k p| | | | | | | | | | | | | | | | |]; try done; cbn in Hok; cbn [step_at].
  - destruct (g_lock w) eqn:Hg; [done|]. intros [= <-]. apply (keep_plain w _ t (GLock k) (GScan k)); try done; [by left|right; right; done].
  - intros [= <-]. apply (keep_plain w _ t (GUnlock k o) (after_g k o)); try done.
    + destruct k, o; cbn in *; try done; try by split; [|intros _; apply u32_s32]. by eexists.
    + by destruct k, o.
    + right. by destruct k, o.
    + by destruct k, o.
    + right. left. by destruct k, o.
  - destruct Hok as (Hk & pt & Hp & Ht). rewrite (at_proc _ _ _ _ Hp). intros [= <-].
    apply (keep_plain w _ t (ReadCount k p) (HLock k p (s32 (bid_count pt)))); try done; [|by left|by left].
    split; [by exists pt|]. by rewrite Hk.
Qed.
Lemma keep_scan w w' t k p i : world_inv w -> control_of w !! t = Some (HScan k p i) ->
  step_at ts tgid_of t (HScan k p i) w = WNext w' -> world_inv w'.
Proof.
  intros I Hc. destruct (wi_control _ _ _ I t _ Hc) as [(pt & Hp & Ht) Hk]. cbn [step_at]. rewrite (at_proc _ _ _ _ Hp).
  destruct (looked_barrier w p pt i (fun o => WNext (moved t (HUnlock k p o) w)) I Hp) as (o & -> & Ho). intros [= <-].
  apply (keep_plain w _ t (HScan k p i) (HUnlock k p o)); try done; [|by left|by left].
  split; [by exists pt|]. destruct o as [q|]; [|done]. intros Hi. destruct Ho as (Hn & b & Hb & Hid).
  exists pt, b. split_and!; try done. by rewrite Hid, Hk.
Qed.

Lemma keep_lock_steps w w' t c : world_inv w -> control_of w !! t = Some c ->
  match c with HLock _ _ _ | LinkLock _ _ _ | RecycleLock _ _ _ => True | _ => False end ->
  step_at ts tgid_of t c w = WNext w' -> world_inv w'.
Proof.
  intros I Hc HP. pose proof (wi_control _ _ _ I t c Hc) as Hok.
  destruct c as [| | | | |k p i| | | |n p q| | | | | |k p q| | | | | |]; try done; cbn in Hok; cbn [step_at].
  - destruct Hok as [(pt & Hp & Ht) Hk]. rewrite (at_proc _ _ _ _ Hp). destruct (barrier_head_lock pt) eqn:Hl; [done|].
    intros [= <-]. apply (keep_head w t (HLock k p i)); try done; [|by left]. split; [by exists pt|done].
  - destruct Hok as [(pt & Hp & Ht) Hk]. rewrite (at_proc _ _ _ _ Hp). destruct (barrier_head_lock pt) eqn:Hl; [done|].
    intros [= <-]. apply (keep_head w t (LinkLock n p q)); try done; [|by left]. split; [by exists pt|done].
  - destruct Hok as (Hd & Ho & Ha). pose proof Ho as (pt & b & Hp & _). rewrite (at_proc _ _ _ _ Hp).
    destruct (barrier_head_lock pt) eqn:Hl; [done|]. intros [= <-]. apply (keep_head w t (RecycleLock k p q)); try done. by left.
Qed.

Lemma keep_unlock_steps w w' t c : world_inv w -> control_of w !! t = Some c ->
  match c with HUnlock _ _ _ | LinkUnlock _ _ | RecycleUnlock _ => True | _ => False end ->
  step_at ts tgid_of t c w = WNext w' -> world_inv w'.
Proof.
  intros I Hc HP. pose proof (wi_control _ _ _ I t c Hc) as Hok.
  destruct c as [| | | | | | |k p o| | | |p q| | | | | | | | | |p]; try done; cbn in Hok; cbn [step_at].
  - destruct Hok as [Hm Ho]. pose proof Hm as (pt & Hp & Ht). rewrite (at_proc _ _ _ _ Hp). intros [= <-].
    apply (keep_head w t (HUnlock k p o)); try done.
    + destruct k, o; cbn in *; try done; [split; [done|by apply Ho]|by eexists|split; [done|by apply Ho]].
    + by destruct k, o.
    + right. by destruct k, o.
    + by destruct k, o.
    + split; [done|]. by destruct k, o.
  - destruct Hok as [i Ho]. pose proof Ho as (pt & b & Hp & _). rewrite (at_proc _ _ _ _ Hp). intros [= <-].
    apply (keep_head w t (LinkUnlock p q)); try done; [|by left]. by exists p, i.
  - pose proof Hok as (pt & Hp & _). rewrite (at_proc _ _ _ _ Hp). intros [= <-].
    apply (keep_head w t (RecycleUnlock p)); try done. by left.
Qed.

Lemma keep_print w w' t q : world_inv w -> control_of w !! t = Some (PrintLinked q) ->
  step_at ts tgid_of t (PrintLinked q) w = WNext w' -> world_inv w'.
Proof.
  intros I Hc. cbn [step_at]. case_match; [|done]. intros [= <-].
  apply (keep_plain w _ t (PrintLinked q) Outside); try done; by left.
Qed.

(** ** The steps on a barrier *)

Lemma lookup_live w q b : live_barriers w !! q = Some b <-> exists m, machines w !! q = Some m /\ bar m = Some b.
Proof.
  unfold live_barriers. rewrite lookup_omap. destruct (machines w !! q) as [m|]; cbn; [|naive_solver].
  split; [by exists m|]. intros (m' & [= <-] & ?). done.
Qed.

Lemma live_set w q m b : bar m = Some b -> live_barriers (set_machine q m w) = <[q := b]> (live_barriers w).
Proof. intros H. unfold live_barriers. cbn. by rewrite (omap_insert_Some bar _ _ _ _ H). Qed.

Lemma fixed_id b b' : fixed b' = fixed b -> id b' = id b.
Proof. intros E. exact (f_equal id E). Qed.

Lemma machine_calm w q m m' b b' : machines w !! q = Some m -> bar m = Some b -> bar m' = Some b' -> fixed b' = fixed b ->
  calm (set_machine q m' w) = calm w.
Proof.
  intros Hm Hb Hb' Hf. unfold calm. rewrite (live_set w q m' b' Hb'). cbn. f_equal. rewrite fmap_insert, Hf.
  apply insert_id. rewrite lookup_fmap. assert (live_barriers w !! q = Some b) as -> by (apply lookup_live; by exists m). done.
Qed.

Lemma machine_steady w t q m m' b b' l :
  machines w !! q = Some m -> bar m = Some b -> exec l m = Next m' -> bar m' = Some b' ->
  (forall u x, u <> t -> pcs m' !! u = Some x <-> pcs m !! u = Some x) ->
  steady t None w (set_machine q m' w).
Proof.
  intros Hm Hb He Hb' Hoth. pose proof (exec_fixed l m m' b b' Hb He Hb') as Hf.
  assert (live_barriers w !! q = Some b) as Hlive by (apply lookup_live; by exists m). split.
  - intros p pt Hp. by exists pt.
  - intros q' b0 H _. rewrite (live_set _ _ _ _ Hb').
    destruct (decide (q' = q)) as [->|]; [|rewrite lookup_insert_ne by done; by eexists].
    rewrite lookup_insert_eq. exists b'. split; [done|]. assert (b0 = b) as -> by congruence. by apply fixed_id.
  - intros u d q' Hu _ _ (H1 & H2 & H3). split_and!; try done. cbn. rewrite lookup_insert_ne; [done|congruence].
  - intros u q' m0 x Hu H1 H2. cbn. destruct (decide (q' = q)) as [->|]; [|rewrite lookup_insert_ne by done; by eexists].
    rewrite lookup_insert_eq. exists m'. split; [done|]. simplify_eq. by apply Hoth.
Qed.

(** [t] moves in a barrier, or wakes there: [x] is where it then is. *)

Lemma keep_machine w t c c' q m m' b b' l :
  world_inv w -> control_of w !! t = Some c ->
  machines w !! q = Some m -> bar m = Some b -> exec l m = Next m' -> bar m' = Some b' ->
  (forall u x, u <> t -> pcs m' !! u = Some x <-> pcs m !! u = Some x) ->
  (forall x, pcs m' !! t = Some x -> x <> Idle -> inside_of c' = Some q) ->
  (inside_of c = None \/ inside_of c = Some q) ->
  control_ok (set_machine q m' w) t c' ->
  holding c' = None -> holds_g c' = holds_g c -> head_of c' = head_of c ->
  world_inv (moved t c' (set_machine q m' w)).
Proof.
  intros I Hc Hm Hb He Hb' Hoth Hin Hwas Hok Hh HG HP. pose proof (exec_fixed l m m' b b' Hb He Hb') as Hf.
  apply (rebuild ts tgid_of w _ t None c c'); try done.
  - assert (steady t None w (set_machine q m' w)) as [] by (by eapply machine_steady). by split.
  - pose proof (machine_calm w q m m' b b' Hm Hb Hb' Hf) as E. split; try apply I.
    + change (reg_inv (calm (set_machine q m' w))). rewrite E. apply I.
    + intros p pt q' b0 H Hn. change (live_barriers (set_machine q m' w) !! q' = Some b0 -> id b0 < bid_count pt).
      rewrite (live_set _ _ _ _ Hb'). intros [[<- <-]|[_ H1]]%lookup_insert_Some; [|by eapply I].
      rewrite (fixed_id _ _ Hf). eapply I; [done..|]. apply lookup_live. by exists m.
    + intros x [H|H]; apply (wi_taken _ _ _ I); [by left|right]. cbn in H.
      apply lookup_insert_is_Some' in H as [<-|]; [by eexists|done].
  - split; cbn.
    + intros q' m0 [[<- <-]|[_ H]]%lookup_insert_Some; [|by apply (wi_machine _ _ _ I) in H].
      destruct (wi_machine _ _ _ I q m Hm) as (u & n & i & Hr). exists u, n, i. by eapply reachable_step.
    + intros q' m0 u x [[<- <-]|[Hq H]]%lookup_insert_Some Hx Hidle.
      * destruct (decide (u = t)) as [->|Hu]; [rewrite lookup_insert_eq; exists c'; split; [done|by eapply Hin]|].
        rewrite lookup_insert_ne by done. eapply (wi_inside _ _ _ I); [done|by apply Hoth|done].
      * destruct (wi_inside _ _ _ I q' m0 u x H Hx Hidle) as (d & Hd & Hdq).
        destruct (decide (u = t)) as [->|Hu]; [|rewrite lookup_insert_ne by done; by exists d].
        simplify_eq. destruct Hwas; congruence.
  - intros q' Hq. congruence.
  - by left; rewrite HG.
  - intros p pt Hp. left. exists pt. split; [done|]. left. unfold holds_head. by rewrite HP.
Qed.
Lemma machine_bar w q b : live_barriers w !! q = Some b -> exists m, machines w !! q = Some m /\ bar m = Some b.
Proof. apply lookup_live. Qed.

Lemma moves_others t f m m' : moves t f m m' -> forall u x, u <> t -> pcs m' !! u = Some x <-> pcs m !! u = Some x.
Proof. intros (y & E & _) u x Hu. by rewrite E, lookup_insert_ne. Qed.

Lemma moves_self t f m m' : moves t f m m' -> exists x, pcs m' !! t = Some x /\ f x = true.
Proof. intros (y & E & H). exists y. by rewrite E, lookup_insert_eq. Qed.

Lemma pcs_thread m t x : pcs m !! t = Some x -> exists th, threads m !! t = Some th /\ th_pc th = x.
Proof.
  unfold pcs. rewrite lookup_fmap. destruct (threads m !! t) as [th|]; [|done]. intros [= <-]. by exists th.
Qed.

Lemma start_moves t k m m' : is_init k = false -> exec (start_label t k) m = Next m' ->
  bar m' = bar m /\ exists x, pcs m' = <[t := x]> (pcs m) /\ body k x = true /\ x <> Idle /\ x <> Free.
Proof.
  intros Hk. destruct k; try done; cbn [start_label exec]; repeat case_match; try done;
    intros [= <-]; (split; [done|]); eexists; (split; [apply pcs_goto|done]).
Qed.

Lemma keep_start w w' t k (p q : option loc) : world_inv w -> control_of w !! t = Some (Start k p q) ->
  step_at ts tgid_of t (Start k p q) w = WNext w' -> world_inv w'.
Proof.
  intros I Hc. pose proof (wi_control _ _ _ I t _ Hc) as Hok. cbn [step_at].
  destruct p as [p|], q as [q|]; try done. destruct Hok as [Hk Ho].
  destruct (live_barriers w !! q) as [b|] eqn:Hb; [|done]. destruct (machine_bar w q b Hb) as (m & Hm & Hbar).
  unfold in_machine. rewrite Hm. destruct (exec (start_label t k) m) as [m'| |] eqn:He; try done. intros [= <-].
  destruct (start_moves t k m m' Hk He) as (Hb' & x & Hx & Hbody & Hi & Hf). rewrite Hbar in Hb'.
  assert (forall u y, u <> t -> pcs m' !! u = Some y <-> pcs m !! u = Some y) as Hoth.
  { intros u y Hu. by rewrite Hx, lookup_insert_ne. }
  pose proof (machine_steady w t q m m' b b _ Hm Hbar He Hb' Hoth) as S.
  eapply (keep_machine w t); try done; [by left|]. split; [done|]. split; [by eapply owns_steady|].
  exists m', x. cbn. rewrite lookup_insert_eq. split; [done|]. by rewrite Hx, lookup_insert_eq.
Qed.

Lemma keep_interrupt w w' t : world_inv w -> wexec ts tgid_of (Interrupt t) w = WNext w' -> world_inv w'.
Proof.
  intros I. cbn [wexec]. destruct (control_of w !! t) as [c|] eqn:Hc; [|done].
  destruct c; try (by intros [= <-]). pose proof (wi_control _ _ _ I t _ Hc) as (Hk & Ho & Ha).
  pose proof Ho as (pt & b & _ & _ & _ & Hb & _). destruct (machine_bar w _ b Hb) as (m & Hm & Hbar).
  unfold in_machine. rewrite Hm. destruct (exec (Signal t) m) as [m'| |] eqn:He; try done. intros [= <-].
  assert (pcs m' = pcs m /\ bar m' = bar m) as [Hpcs Hb'].
  { cbn in He. destruct (threads m !! t) as [th|] eqn:Ht; [|done]. injection He as <-. split; [by apply pcs_signal|done]. }
  rewrite Hbar in Hb'.
  assert (forall u y, u <> t -> pcs m' !! u = Some y <-> pcs m !! u = Some y) as Hoth by (intros; by rewrite Hpcs).
  pose proof (machine_steady w t _ m m' b b _ Hm Hbar He Hb' Hoth) as S.
  assert (world_inv (moved t (InBarrier k p q) (set_machine q m' w))) as Hw.
  { eapply (keep_machine w t); try done; [by right|]. split; [done|]. split; [by eapply owns_steady|].
    destruct Ha as (m0 & x & Hm0 & Hx & HP). exists m', x. cbn. rewrite lookup_insert_eq, Hpcs.
    by assert (m0 = m) as -> by congruence. }
  assert (moved t (InBarrier k p q) (set_machine q m' w) = set_machine q m' w) as E.
  { unfold moved. cbn. by rewrite (insert_id (control_of w) t) by done. }
  by rewrite <- E.
Qed.

Lemma after_step_ok t k p q m x : pcs m !! t = Some x -> 
  after_step t k p q m = match x with Idle => Outside | Free => RecycleLock k p q | _ => InBarrier k p q end.
Proof.
  intros Hx. destruct (pcs_thread m t x Hx) as (th & Ht & <-). unfold after_step. rewrite Ht. by destruct th as [[] ?].
Qed.

Lemma keep_in_barrier w w' t k p q : world_inv w -> control_of w !! t = Some (InBarrier k p q) ->
  step_at ts tgid_of t (InBarrier k p q) w = WNext w' -> world_inv w'.
Proof.
  intros I Hc. pose proof (wi_control _ _ _ I t _ Hc) as (Hk & Ho & Ha). cbn [step_at].
  pose proof Ho as (pt & b & _ & _ & _ & Hb & _). destruct (machine_bar w _ b Hb) as (m & Hm & Hbar).
  unfold in_machine. rewrite Hm. destruct (exec (Run t) m) as [m'| |] eqn:He; try done. intros [= <-].
  destruct Ha as (m0 & x & Hm0 & Hx & Hbody & Hidle & Hfree). assert (m0 = m) as -> by congruence. clear Hm0.
  destruct (pcs_thread m t x Hx) as (th & Ht & <-).
  assert (thread_step t th m = Next m') as Hstep by (cbn in He; by rewrite Ht in He).
  destruct (thread_moves t th m m' (body k) b) as [Hmv Hlive]; try done.
  { unfold body. destruct (is_destroy k); [by right|by left]. }
  destruct Hlive as [[b' Hb']|]; [|done]. destruct (moves_self _ _ _ _ Hmv) as (y & Hy & Hybody).
  pose proof (moves_others _ _ _ _ Hmv) as Hoth.
  pose proof (machine_steady w t q m m' b b' _ Hm Hbar He Hb' Hoth) as S.
  assert (at_pc (set_machine q m' w) t q (fun z => z = y)) as Hat.
  { exists m', y. cbn. by rewrite lookup_insert_eq. }
  assert (owns (set_machine q m' w) t p q (number k)) as Ho' by (by eapply owns_steady).
  rewrite (after_step_ok t k p q m' y Hy).
  eapply (keep_machine w t); try done.
  - intros z Hz Hzi. rewrite Hy in Hz. injection Hz as <-. by destruct y.
  - by right.
  - destruct y; cbn; try done.
    all: try (split; [done|split; [done|]]; destruct Hat as (? & ? & ? & ? & ->); by eexists _, _).
    split; [|done]. unfold body in Hybody. by destruct (is_destroy k).
  - by destruct y.
  - by destruct y.
  - by destruct y.
Qed.
End keep.
