(* ===== verification/BarrierWorldInv.v ===== *)
(** * The barrier module as a whole: the steps that change the lists *)

From S2P Require Import Prelude Kernel BarrierData BarrierSync BarrierSyncProofs.
From S2P Require Import BarrierRegistry BarrierRegistryProofs BarrierWorld BarrierWorldProofs BarrierWorldKeep.

Section lists.
Context {L : Type} {KL : KList L} {KM : Kmalloc}.
Context (ts : gset Z) (tgid_of : Z -> Z).
Implicit Types (w : world L) (pt : per_tgid L) (p q : loc) (k : call) (c : control).

Local Abbreviation control_ok := (control_ok tgid_of).
Local Abbreviation world_inv := (world_inv ts tgid_of).
Local Abbreviation lists_ok := (lists_ok (L := L)).
Local Abbreviation machines_ok := (machines_ok ts tgid_of).
Local Abbreviation mine := (mine tgid_of).
Local Abbreviation owns := (owns tgid_of).
Local Abbreviation disciplined := (disciplined tgid_of).

(** A structure a thread has locked is there. *)

Lemma head_alive w t c p : control_ok w t c -> head_of c = Some p -> is_Some (procs w !! p).
Proof.
  intros Hok Hp.
  destruct c; try done; injection Hp as ->; cbn in Hok; unfold BarrierWorldProofs.mine, BarrierWorldProofs.owns in Hok; naive_solver.
Qed.

Lemma fresh_proc w p : world_inv w -> p ∉ taken w -> procs w !! p = None.
Proof. intros I Hp. apply eq_None_not_Some. intros H. apply Hp, (wi_taken _ _ _ I). by left. Qed.

Lemma fresh_machine w q : world_inv w -> q ∉ taken w -> machines w !! q = None.
Proof. intros I Hq. apply eq_None_not_Some. intros H. apply Hq, (wi_taken _ _ _ I). by right. Qed.

(** ** [barrier_init] links a process *)

Lemma add_process_steady w t t' c p : world_inv w -> p ∉ taken w ->
  steady t None w (moved t' c (add_process p (tgid_of t) (take p w))).
Proof.
  intros I Hp. pose proof (fresh_proc w p I Hp) as Hn. split.
  - intros p' pt H. exists pt. split_and!; try done. cbn. rewrite lookup_insert_ne; [done|congruence].
  - intros q b Hb _. by exists b.
  - intros u d q _ _ _ (H1 & H2 & H3). split_and!; cbn; [set_solver|done|]. rewrite lookup_insert_ne; [done|congruence].
  - intros u q m x _ Hm Hx. by exists m.
Qed.

Lemma add_process_lists w t c p tg : world_inv w -> p ∉ taken w -> found_ptgid (reg_of w) tg None ->
  lists_ok (moved t c (add_process p tg (take p w))).
Proof.
  intros I Hp Hno. pose proof (fresh_proc w p I Hp) as Hn. split; cbn.
  - assert (calm (moved t c (add_process p tg (take p w))) = add_ptgid p tg (calm w)) as ->.
    { unfold calm, add_ptgid, set_tgid_list, set_ptgids. cbn. by rewrite fmap_insert. }
    apply add_ptgid_inv; [apply I|by cbn; rewrite lookup_fmap, Hn|].
    intros p' pt. cbn. rewrite lookup_fmap. destruct (procs w !! p') as [pt'|] eqn:E; [|done]. intros [= <-]. exact (Hno p' pt' E).
  - intros p' pt [[<- <-]|[_ H]]%lookup_insert_Some; [cbn; lia|by eapply I].
  - intros p' pt q b [[<- <-]|[_ H]]%lookup_insert_Some; [|by eapply I].
    unfold node_of. cbn. rewrite knodes_empty. by intros ?%elem_of_nil.
  - intros tg' i Hi. destruct (wi_handed _ _ _ I tg' i Hi) as (p' & pt & H & ? & ?). exists p', pt.
    split; [|done]. rewrite lookup_insert_ne; [done|congruence].
  - apply I.
  - intros x. pose proof (wi_taken _ _ _ I x). rewrite lookup_insert_is_Some'. set_solver.
Qed.

Lemma keep_g_scan w w' t k : world_inv w -> control_of w !! t = Some (GScan k) ->
  step_at ts tgid_of t (GScan k) w = WNext w' -> world_inv w'.
Proof.
  intros I Hc. cbn [step_at].
  destruct (looked_process ts tgid_of w (tgid_of t) (fun o => match o, k with
     | None, CInit _ => fresh_address w (fun p w => WNext (moved t (GUnlock k (Some p)) (add_process p (tgid_of t) w)))
     | _, _ => WNext (moved t (GUnlock k o) w) end) I) as (o & -> & Ho).
  assert (control_ok w t (GUnlock k o) -> world_inv (moved t (GUnlock k o) w)) as Hplain.
  { intros Hok. apply (keep_plain ts tgid_of w _ t (GScan k) (GUnlock k o)); try done; by left. }
  destruct o as [p|].
  - intros [= <-]. apply Hplain. destruct Ho as (pt & H & Ht). by exists pt.
  - destruct k as [n|i|i]; try (intros [= <-]; by apply Hplain). unfold fresh_address.
    destruct (kmalloc (taken w)) as [p|] eqn:Hk; [|done]. intros [= <-]. pose proof (kmalloc_fresh _ _ Hk) as Hp.
    apply (rebuild ts tgid_of w _ t None (GScan (CInit n)) (GUnlock (CInit n) (Some p))); try done.
    + by apply add_process_steady.
    + exists (new_ptgid (tgid_of t)). cbn. by rewrite lookup_insert_eq.
    + by apply add_process_lists.
    + by apply (outside_machines ts tgid_of w _ t (GScan (CInit n)) (GUnlock (CInit n) (Some p))).
    + by left.
    + intros p' pt'. cbn. intros [[<- <-]|[Hne H]]%lookup_insert_Some.
      * right. split; [done|]. intros u d [[<- <-]|[_ Hd]]%lookup_insert_Some; [done|]. apply bool_decide_eq_false. intros E.
        destruct (head_alive _ _ _ _ (wi_control _ _ _ I u d Hd) E). by rewrite (fresh_proc w p I Hp) in *.
      * left. exists pt'. split; [done|by left].
Qed.

(** ** [kmalloc] of a barrier *)

Lemma keep_alloc w w' t n p : world_inv w -> control_of w !! t = Some (Alloc n p) ->
  step_at ts tgid_of t (Alloc n p) w = WNext w' -> world_inv w'.
Proof.
  intros I Hc. pose proof (wi_control _ _ _ I t _ Hc) as Hm. cbn in Hm. cbn [step_at]. unfold fresh_address.
  destruct (kmalloc (taken w)) as [q|] eqn:Hk; [|done]. intros [= <-]. pose proof (kmalloc_fresh _ _ Hk) as Hq.
  apply (rebuild ts tgid_of w _ t None (Alloc n p) (LinkLock n p q)); try done.
  - split; [intros p' pt H; by exists pt|intros q' b H _; by exists b| |intros u q' m x _ H1 H2; by exists m].
    intros u d q' _ _ _ (H1 & H2 & H3). split_and!; cbn; [set_solver|done|done].
  - cbn. split; [done|]. split_and!; cbn; [set_solver|by apply fresh_machine|by apply fresh_proc].
  - split; try apply I. intros x Hx. cbn. apply union_subseteq_r. by apply (wi_taken _ _ _ I).
  - by apply (outside_machines ts tgid_of w _ t (Alloc n p) (LinkLock n p q)).
  - intros q' [= <-]. by right.
  - by left.
  - intros p' pt' H. left. exists pt'. split; [done|by left].
Qed.

(** ** [barrier_init] links the barrier *)

Section link.
Context (w : world L) (t : Z) (n : Z) (p q : loc) (pt : per_tgid L).
Context (I : world_inv w) (D : disciplined w) (Hc : control_of w !! t = Some (Link n p q)).
Context (Hp : procs w !! p = Some pt) (Ht : tgid pt = tgid_of t) (Hu : unborn w q).

Definition linked_world : world L :=
  moved t (LinkUnlock p q) (hand_out (tgid_of t) (bid_count pt) (set_proc p (counted_proc q pt)
    (set_machine q (start (init_barrier_struct (current tgid_of t) n (bid_count pt)) ts) w))).

Let b := init_barrier_struct (current tgid_of t) n (bid_count pt).

Lemma link_count : u32 (bid_count pt + 1) = bid_count pt + 1 /\ 0 <= bid_count pt < 2 ^ 32.
Proof.
  pose proof (wi_count _ _ _ I p pt Hp). pose proof (di_few _ _ D). split; [apply Z.mod_small|]; lia.
Qed.

Lemma link_not_live : live_barriers w !! q = None.
Proof. destruct (live_barriers w !! q) eqn:E; [|done]. apply lookup_live in E as (m & Hm & _). destruct Hu as (_ & ? & _). congruence. Qed.

Lemma link_new_node p' pt' : procs w !! p' = Some pt' -> ~ node_of pt' q.
Proof.
  intros H Hn. destruct (world_node ts tgid_of w p' pt' q I H Hn) as (b' & Hb' & _). by rewrite link_not_live in Hb'.
Qed.

Lemma link_nodes : knodes (barrier_head (counted_proc q pt)) = q :: knodes (barrier_head pt).
Proof. apply knodes_add. by apply (link_new_node p). Qed.

Lemma link_live : live_barriers linked_world = <[q := b]> (live_barriers w).
Proof. by apply (live_set w q (start b ts) b). Qed.

Lemma link_fresh_id p' pt' : procs w !! p' = Some pt' -> tgid pt' = tgid_of t -> pt' = pt.
Proof.
  intros H E. assert (p' = p) as ->; [|congruence].
  apply (ri_tgid _ (wi_reg _ _ _ I) p' p (with_head_lock false pt') (with_head_lock false pt)); cbn;
    [by rewrite lookup_fmap, H|by rewrite lookup_fmap, Hp|congruence].
Qed.

Lemma link_lists : lists_ok linked_world.
Proof.
  destruct link_count as [Hcount Hrange]. split.
  - assert (calm linked_world = link_barrier p (with_head_lock false pt) q (fixed b) (calm w)) as ->.
    { unfold calm, link_barrier, set_barriers, set_ptgids. rewrite link_live. cbn. by rewrite !fmap_insert. }
    apply link_barrier_inv; try done; [apply I|by cbn; rewrite lookup_fmap, Hp|by cbn; rewrite lookup_fmap, link_not_live|].
    intros q' b' Hn. cbn. rewrite lookup_fmap. destruct (live_barriers w !! q') as [b1|] eqn:E; [|done]. intros [= <-].
    pose proof (wi_ids _ _ _ I p pt q' b1 Hp Hn E). cbn. lia.
  - intros p' pt'. cbn. intros [[<- <-]|[_ H]]%lookup_insert_Some; cbn; [rewrite Hcount; pose proof (wi_count _ _ _ I p pt Hp); lia|].
    pose proof (wi_count _ _ _ I p' pt' H). lia.
  - intros p' pt' q' b'. rewrite link_live. cbn. intros [[<- <-]|[_ H]]%lookup_insert_Some.
    + unfold node_of. rewrite link_nodes. intros Hn. cbn [bid_count counted_proc]. rewrite Hcount.
      intros [[<- <-]|[Hq Hb']]%lookup_insert_Some; [cbn; lia|]. apply elem_of_cons in Hn as [->|Hn]; [done|].
      pose proof (wi_ids _ _ _ I p pt q' b' Hp Hn Hb'). lia.
    + intros Hn [[<- <-]|[Hq Hb']]%lookup_insert_Some; [by destruct (link_new_node p' pt' H)|by eapply I].
  - intros tg i. cbn. intros [[= -> ->]|Hi]%elem_of_cons.
    + exists p, (counted_proc q pt). cbn. rewrite lookup_insert_eq. split_and!; try done. lia.
    + destruct (wi_handed _ _ _ I tg i Hi) as (p' & pt' & H & Htg & Hl). destruct (decide (p' = p)) as [->|Hne].
      * exists p, (counted_proc q pt). cbn. rewrite lookup_insert_eq. assert (pt' = pt) as -> by congruence. split_and!; try done. lia.
      * exists p', pt'. cbn. by rewrite lookup_insert_ne.
  - cbn. apply NoDup_cons. split; [|apply I]. intros Hi. destruct (wi_handed _ _ _ I _ _ Hi) as (p' & pt' & H & Htg & Hl).
    rewrite (link_fresh_id p' pt' H Htg) in Hl. lia.
  - intros x. cbn. intros Hx. destruct (decide (x = q)) as [->|Hq]; [apply Hu|]. apply (wi_taken _ _ _ I).
    rewrite (lookup_insert_ne (machines w)) in Hx by done. destruct Hx as [Hx|Hx]; [left|by right].
    apply lookup_insert_is_Some' in Hx as [<-|]; [by eexists|done].
Qed.

Lemma link_steady : steady t None w linked_world.
Proof.
  split.
  - intros p' pt' H. cbn. destruct (decide (p' = p)) as [->|Hne]; [|rewrite lookup_insert_ne by done; by exists pt'].
    rewrite lookup_insert_eq. exists (counted_proc q pt). assert (pt' = pt) as -> by congruence. split_and!; try done.
    intros q' Hn _. unfold node_of. rewrite link_nodes. by right.
  - intros q' b' H _. rewrite link_live. exists b'. rewrite lookup_insert_ne; [done|]. intros <-. by rewrite link_not_live in H.
  - intros u d q' Hne Hd Hq (H1 & H2 & H3). split_and!; cbn; [done| |].
    + rewrite lookup_insert_ne; [done|]. intros <-. by apply Hne, (wi_holding _ _ _ I u t d (Link n p q) q).
    + rewrite lookup_insert_ne; [done|]. intros <-. congruence.
  - intros u q' m x _ Hm Hx. exists m. split; [|done]. cbn. rewrite lookup_insert_ne; [done|]. intros <-. destruct Hu as (_ & ? & _). congruence.
Qed.

Lemma link_machines : machines_ok linked_world.
Proof.
  split.
  - intros q' m. cbn. intros [[<- <-]|[_ H]]%lookup_insert_Some; [|by eapply I].
    exists t, n, (bid_count pt). apply reachable_refl.
  - intros q' m u x. cbn [machines linked_world moved hand_out set_proc with_procs set_machine with_machines].
    intros [[<- <-]|[_ H]]%lookup_insert_Some Hx Hidle.
    + destruct Hidle. destruct (pcs_thread _ _ _ Hx) as (th & Hth & <-). apply lookup_gset_to_gmap_Some in Hth as [_ <-]. done.
    + destruct (wi_inside _ _ _ I q' m u x H Hx Hidle) as (d & Hd & Hq). exists d. split; [|done]. cbn.
      rewrite lookup_insert_ne; [done|]. intros <-. rewrite Hc in Hd. by injection Hd as <-.
Qed.

Lemma link_inv : world_inv linked_world.
Proof.
  apply (rebuild ts tgid_of w _ t None (Link n p q) (LinkUnlock p q)); try done.
  - apply link_steady.
  - exists (bid_count pt), (counted_proc q pt), b. rewrite link_live. split_and!; try done.
    + cbn. by rewrite lookup_insert_eq.
    + unfold node_of. rewrite link_nodes. by left.
    + by rewrite lookup_insert_eq.
  - apply link_lists.
  - apply link_machines.
  - by left.
  - intros p' pt'. cbn. intros [[<- <-]|[_ H]]%lookup_insert_Some; left; eexists; (split; [done|by left]).
Qed.
End link.

Lemma keep_link w w' t n p q : world_inv w -> disciplined w -> control_of w !! t = Some (Link n p q) ->
  step_at ts tgid_of t (Link n p q) w = WNext w' -> world_inv w'.
Proof.
  intros I D Hc. destruct (wi_control _ _ _ I t _ Hc) as [(pt & Hp & Ht) Hu]. cbn [step_at].
  rewrite (at_proc _ _ _ _ Hp). intros [= <-]. by apply (link_inv w t n p q pt).
Qed.

(** ** [barrier_destroy] recycles the barrier *)

Section unlink.
Context (w : world L) (t : Z) (k : call) (p q : loc) (pt : per_tgid L) (b : barrier_struct) (m : config) (th : thread).
Context (I : world_inv w) (D : disciplined w) (Hc : control_of w !! t = Some (Recycle k p q)).
Context (Hk : is_destroy k = true) (Hp : procs w !! p = Some pt) (Ht : tgid pt = tgid_of t) (Hn : node_of pt q).
Context (Hm : machines w !! q = Some m) (Hb : bar m = Some b) (Hi : id b = number k).
Context (Hth : threads m !! t = Some th) (Hfree : th_pc th = Free).

Definition freed_machine : config :=
  goto t Idle {| bar := None; waitQ := waitQ m; threads := threads m; log := log m |}.

Definition unlinked_world : world L :=
  moved t (RecycleUnlock p) (set_proc p (dropped_proc q pt) (set_machine q freed_machine w)).

Lemma freed_exec : exec (Run t) m = Next freed_machine.
Proof. cbn. rewrite Hth. unfold thread_step. by rewrite Hb, Hfree. Qed.

Lemma freed_pcs : pcs freed_machine = <[t := Idle]> (pcs m).
Proof. unfold freed_machine. by rewrite pcs_goto. Qed.

Lemma unlink_barrier_live : live_barriers w !! q = Some b.
Proof. apply lookup_live. by exists m. Qed.

Lemma unlink_live : live_barriers unlinked_world = delete q (live_barriers w).
Proof.
  unfold live_barriers. cbn [machines unlinked_world moved set_proc with_procs set_machine with_machines].
  by apply omap_insert_None.
Qed.

Lemma unlink_kept q' : node_of (dropped_proc q pt) q' <-> q' <> q /\ node_of pt q'.
Proof. apply (without_barrier_node (calm w) (with_head_lock false pt) q q'). by eapply world_pt. Qed.

Lemma unlink_lists : lists_ok unlinked_world.
Proof.
  split.
  - assert (calm unlinked_world = unlink_barrier p (with_head_lock false pt) q (calm w)) as ->.
    { unfold calm, unlink_barrier, set_barriers, set_ptgids. rewrite unlink_live. cbn. by rewrite fmap_insert, fmap_delete. }
    apply unlink_barrier_inv; [apply I|by cbn; rewrite lookup_fmap, Hp|done].
  - intros p' pt'. cbn. intros [[<- <-]|[_ H]]%lookup_insert_Some; [exact (wi_count _ _ _ I p pt Hp)|by eapply I].
  - intros p' pt' q' b'. rewrite unlink_live. cbn. intros [[<- <-]|[_ H]]%lookup_insert_Some Hq' [_ Hb']%lookup_delete_Some.
    + apply unlink_kept in Hq' as [_ Hq']. exact (wi_ids _ _ _ I p pt q' b' Hp Hq' Hb').
    + by eapply I.
  - intros tg i Hin. destruct (wi_handed _ _ _ I tg i Hin) as (p' & pt' & H & Htg & Hl). cbn. destruct (decide (p' = p)) as [->|Hne].
    + exists p, (dropped_proc q pt). rewrite lookup_insert_eq. by assert (pt' = pt) as -> by congruence.
    + exists p', pt'. by rewrite lookup_insert_ne.
  - apply I.
  - intros x. cbn. intros [[<-|Hx]%lookup_insert_is_Some'|[<-|Hx]%lookup_insert_is_Some']; apply (wi_taken _ _ _ I);
      [left; by eexists|by left|right; by eexists|by right].
Qed.

Lemma unlink_steady : steady t (Some q) w unlinked_world.
Proof.
  split.
  - intros p' pt' H. cbn. destruct (decide (p' = p)) as [->|Hne]; [|rewrite lookup_insert_ne by done; by exists pt'].
    rewrite lookup_insert_eq. exists (dropped_proc q pt). assert (pt' = pt) as -> by congruence. split_and!; try done.
    intros q' Hq' Hg. apply unlink_kept. split; [congruence|done].
  - intros q' b' H Hg. rewrite unlink_live. exists b'. rewrite lookup_delete_ne; [done|congruence].
  - intros u d q' _ _ _ (H1 & H2 & H3). split_and!; cbn; [done| |]; rewrite lookup_insert_ne; try done; congruence.
  - intros u q' m0 x Hu H1 H2. cbn. destruct (decide (q' = q)) as [->|]; [|rewrite lookup_insert_ne by done; by eexists].
    rewrite lookup_insert_eq. exists freed_machine. split; [done|]. rewrite freed_pcs, lookup_insert_ne by done. congruence.
Qed.

Lemma unlink_machines : machines_ok unlinked_world.
Proof.
  split; cbn [machines control_of unlinked_world moved set_proc with_procs set_machine with_machines].
  - intros q' m0 [[<- <-]|[_ H]]%lookup_insert_Some; [|by eapply I].
    destruct (wi_machine _ _ _ I q m Hm) as (u & n & i & Hr). exists u, n, i. eapply reachable_step; [done|apply freed_exec].
  - assert (forall q' m0 u x, machines w !! q' = Some m0 -> pcs m0 !! u = Some x -> x <> Idle -> (u = t -> q' <> q) ->
      exists c, <[t := RecycleUnlock p]> (control_of w) !! u = Some c /\ inside_of c = Some q') as Hold.
    { intros q' m0 u x H Hx Hidle Hq. destruct (wi_inside _ _ _ I q' m0 u x H Hx Hidle) as (d & Hd & Hdq). exists d.
      split; [|done]. rewrite lookup_insert_ne; [done|]. intros <-. rewrite Hc in Hd. injection Hd as <-. injection Hdq as <-. by apply Hq. }
    intros q' m0 u x [[<- <-]|[Hq H]]%lookup_insert_Some; [|intros; eapply Hold; [done..|congruence]].
    rewrite freed_pcs. intros [[<- <-]|[Hu Hx]]%lookup_insert_Some Hidle; [done|]. eapply Hold; [done..|congruence].
Qed.

(** The barrier that goes is used by its destroyer only. *)

Lemma unlink_apart u d p' q' i :
  u <> t -> control_of w !! u = Some d -> owns w u p' q' i -> uses w d = Some i -> Some q <> Some q'.
Proof.
  intros Hu Hd (pt' & b' & Hp' & Ht' & Hn' & Hb' & Hi') Huse [= <-]. pose proof unlink_barrier_live as Hlive.
  assert (p = p') as <-.
  { apply (owner_unique (calm w) p p' (with_head_lock false pt) (with_head_lock false pt') q); try done; [apply I|..];
      cbn; [by rewrite lookup_fmap, Hp|by rewrite lookup_fmap, Hp']. }
  assert (destroys (Recycle k p q) = Some (number k)) as Hdes by (by destruct k).
  apply (di_apart _ _ D t u _ d (number k) Hc Hd); [congruence|congruence|done|]. rewrite Huse. congruence.
Qed.

Lemma unlink_inv : world_inv unlinked_world.
Proof.
  apply (rebuild ts tgid_of w _ t (Some q) (Recycle k p q) (RecycleUnlock p)); try done.
  - apply unlink_steady.
  - intros u d p' q' i. apply unlink_apart.
  - exists (dropped_proc q pt). cbn. by rewrite lookup_insert_eq.
  - apply unlink_lists.
  - apply unlink_machines.
  - by left.
  - intros p' pt'. cbn. intros [[<- <-]|[_ H]]%lookup_insert_Some; left; eexists; (split; [done|by left]).
Qed.

(** It is not the process's last one. *)

Lemma unlink_not_last : (barrier_size (dropped_proc q pt) =? 0) = false.
Proof.
  apply Z.eqb_neq. change (s32 (barrier_size (with_head_lock false pt) - 1) <> 0). intros E.
  pose proof (proj1 (size_one (calm w) (with_head_lock false pt) q (world_pt ts tgid_of w p pt I Hp) Hn) E) as Hall. clear E.
  destruct (di_keeps _ _ D t _ p q (number k) Hc) as (q' & i' & (pt' & b' & Hp' & _ & Hn' & _) & Hne); [by destruct k| |].
  - exists pt, b. split_and!; try done. apply unlink_barrier_live.
  - apply Hne, Hall. by assert (pt' = pt) as -> by congruence.
Qed.
End unlink.

Lemma keep_recycle w w' t k p q : world_inv w -> disciplined w -> control_of w !! t = Some (Recycle k p q) ->
  step_at ts tgid_of t (Recycle k p q) w = WNext w' -> world_inv w'.
Proof.
  intros I D Hc. destruct (wi_control _ _ _ I t _ Hc) as (Hk & (pt & b & Hp & Ht & Hn & Hb & Hi) & (m & x & Hm & Hx & ->)).
  cbn [step_at]. rewrite (at_proc _ _ _ _ Hp). destruct (machine_bar w q b Hb) as (m' & Hm' & Hbar).
  assert (m' = m) as -> by congruence. destruct (pcs_thread m t _ Hx) as (th & Hth & Hfree).
  unfold in_machine. rewrite Hm, (freed_exec t b m th) by done.
  rewrite (unlink_not_last w t k p q pt b m) by done. intros [= <-]. by eapply (unlink_inv w t k p q pt b m th).
Qed.

(** ** Every step of a disciplined world *)

Theorem wexec_keeps l w w' : world_inv w -> disciplined w -> wexec ts tgid_of l w = WNext w' -> world_inv w'.
Proof.
  intros I D. destruct l as [t k|t|t]; [by apply keep_enter| |by apply keep_interrupt]. cbn [wexec]. unfold step.
  destruct (control_of w !! t) as [c|] eqn:Hc; [|done]. pose proof (wi_control _ _ _ I t c Hc) as Hok.
  destruct c; try done; try (by eapply keep_g_steps); try (by eapply keep_lock_steps); try (by eapply keep_unlock_steps).
  - by apply keep_g_scan.
  - by apply keep_scan.
  - by apply keep_alloc.
  - by apply keep_link.
  - by apply keep_print.
  - by apply keep_start.
  - by apply keep_in_barrier.
  - by apply keep_recycle.
Qed.

Lemma boot_inv : world_inv (boot ts).
Proof.
  assert (forall t c, control_of (boot ts) !! t = Some c -> c = Outside) as Hout.
  { intros t c. cbn. intros [_ <-]%lookup_gset_to_gmap_Some. done. }
  split; try done.
  - split; cbn; try done.
    + rewrite knodes_empty. apply NoDup_nil_2.
    + intros p. rewrite knodes_empty, fmap_empty, lookup_empty. split; [by intros ?%elem_of_nil|by intros []].
  - by intros tg i ?%elem_of_nil.
  - apply NoDup_nil_2.
  - intros t. cbn. rewrite lookup_gset_to_gmap. destruct (decide (t ∈ ts)); [rewrite option_guard_True by done|rewrite option_guard_False by done]; naive_solver.
  - intros t c ->%Hout. done.
  - by intros x [[]|[]].
  - by intros t u c d q ->%Hout.
  - apply excl_empty. by intros t c ->%Hout.
Qed.
End lists.
