(* ===== verification/BarrierWorldSpec.v ===== *)
(** * The barrier module as a whole: what holds of every schedule

    [wreach] is every world that calls of a [disciplined] set of processes can
    lead to, in any order of their steps and with any signals. *)

From S2P Require Import Prelude Kernel BarrierData BarrierSync BarrierSyncProofs BarrierQuiet.
From S2P Require Import BarrierRegistry BarrierRegistryProofs BarrierWorld BarrierWorldProofs BarrierWorldKeep BarrierWorldInv.

Section reach.
Context {L : Type} {KL : KList L} {KM : Kmalloc}.
Context (ts : gset Z) (tgid_of : Z -> Z).
Implicit Types (w : world L) (pt : per_tgid L) (q : loc) (k : call) (c : control).

Inductive wreach : world L -> Prop :=
  | wreach_boot : wreach (boot ts)
  | wreach_step l w w' : wreach w -> disciplined tgid_of w -> wexec ts tgid_of l w = WNext w' -> wreach w'.

Lemma wreach_inv w : wreach w -> world_inv ts tgid_of w.
Proof. induction 1; [apply boot_inv|by eapply wexec_keeps]. Qed.

(** ** What can fail *)

Lemma start_no_fault t k m f : exec (start_label t k) m <> Fault f.
Proof. destruct k; cbn [start_label exec]; repeat case_match; done. Qed.

Lemma run_no_fault t m b f : bar m = Some b -> exec (Run t) m <> Fault f.
Proof.
  intros Hb He. cbn in He. destruct (threads m !! t) as [th|]; [|done]. apply step_faults in He as [? _]. congruence.
Qed.

Lemma owned w t p q i : owns tgid_of w t p q i -> exists pt b m,
  procs w !! p = Some pt /\ live_barriers w !! q = Some b /\ machines w !! q = Some m /\ bar m = Some b.
Proof.
  intros (pt & b & Hp & _ & _ & Hb & _). destruct (machine_bar w q b Hb) as (m & ? & ?). by exists pt, b, m.
Qed.

(** A call whose next step is one of the two [kmalloc]s of [barrier_init],
    whose results are used without a test (147 and 169). *)

Definition allocates c : bool :=
  match c with GScan (CInit _) | Alloc _ _ => true | _ => false end.

(** The two ways to fail: a wait on a number that was not found, and memory
    that has run out. *)

Definition excused w c : Prop :=
  (exists i p, c = Start (CWait i) p None) \/ (allocates c = true /\ kmalloc (taken w) = None).

Lemma step_at_faults w t c f :
  world_inv ts tgid_of w -> control_of w !! t = Some c -> step_at ts tgid_of t c w = WFault f ->
  f = NullDeref /\ excused w c.
Proof.
  intros I Hc. pose proof (wi_control _ _ _ I t c Hc) as Hok.
  assert (forall next f, (forall p w' g, next p w' <> WFault g) -> fresh_address w next = WFault f ->
    f = NullDeref /\ kmalloc (taken w) = None) as Hfresh.
  { intros next f0 Hn. unfold fresh_address. destruct (kmalloc (taken w)); [by intros H%Hn|by intros [= <-]]. }
  destruct c as [|k|k|k o|k p|k p i|k p i|k p o|n p|n p q|n p q|p q|q|k p o|k p q|k p q|k p q|p|p|p|p|p]; cbn in Hok; try done; cbn [step_at].
  - by case_match.
  - match goal with |- looked _ _ ?g = _ -> _ => destruct (looked_process ts tgid_of w (tgid_of t) g I) as (o & -> & _) end.
    destruct o; [done|]. destruct k; try done. intros [-> Hn]%Hfresh; [|done]. split; [done|by right].
  - destruct Hok as (_ & pt & Hp & _). by rewrite (at_proc _ _ _ _ Hp).
  - destruct Hok as [(pt & Hp & _) _]. rewrite (at_proc _ _ _ _ Hp). by case_match.
  - destruct Hok as [(pt & Hp & _) _]. rewrite (at_proc _ _ _ _ Hp).
    match goal with |- looked _ _ ?g = _ -> _ => by destruct (looked_barrier ts tgid_of w p pt i g I Hp) as (o & -> & _) end.
  - destruct Hok as [(pt & Hp & _) _]. by rewrite (at_proc _ _ _ _ Hp).
  - intros [-> Hn]%Hfresh; [|done]. split; [done|by right].
  - destruct Hok as [(pt & Hp & _) _]. rewrite (at_proc _ _ _ _ Hp). by case_match.
  - destruct Hok as [(pt & Hp & _) _]. by rewrite (at_proc _ _ _ _ Hp).
  - destruct Hok as [i (pt & b & m & Hp & _)%owned]. by rewrite (at_proc _ _ _ _ Hp).
  - destruct Hok as (p & i & (pt & b & m & _ & Hb & _)%owned). by rewrite Hb.
  - destruct o as [q|]; [|destruct p; intros [= <-]; destruct Hok as [i ->]; (split; [done|left; by eexists _, _])].
    destruct p as [p|]; [|done]. destruct Hok as (_ & (pt & b & m & _ & Hb & Hm & _)%owned). rewrite Hb. unfold in_machine. rewrite Hm.
    destruct (exec (start_label t k) m) eqn:He; try done. by apply start_no_fault in He.
  - destruct Hok as (_ & (pt & b & m & _ & _ & Hm & Hb)%owned & _). unfold in_machine. rewrite Hm.
    destruct (exec (Run t) m) eqn:He; try done. by eapply run_no_fault in He.
  - destruct Hok as (_ & (pt & b & m & Hp & _)%owned & _). rewrite (at_proc _ _ _ _ Hp). by case_match.
  - destruct Hok as (_ & (pt & b & m & Hp & _ & Hm & Hb)%owned & _). rewrite (at_proc _ _ _ _ Hp). unfold in_machine. rewrite Hm.
    destruct (exec (Run t) m) eqn:He; try done. by eapply run_no_fault in He.
  - destruct Hok as (pt & Hp & _). by rewrite (at_proc _ _ _ _ Hp).
Qed.

Lemma interrupt_no_fault w t f : world_inv ts tgid_of w -> wexec ts tgid_of (Interrupt t) w <> WFault f.
Proof.
  intros I. cbn [wexec]. destruct (control_of w !! t) as [c|] eqn:Hc; [|done]. destruct c; try done.
  pose proof (wi_control _ _ _ I t _ Hc) as (_ & (pt & b & m & _ & _ & Hm & Hb)%owned & _).
  unfold in_machine. rewrite Hm. cbn [exec]. by destruct (threads m !! t).
Qed.

(** C2: while the processes keep the discipline (nobody uses a barrier that
    another thread is destroying, no process destroys its last barrier, and
    fewer than 2^32 numbers are given) and pass [barrier_info]s that are valid
    and left alone by other threads, no interleaving makes a thread follow a
    freed or missing pointer, with two exceptions, both through NULL:
    [barrier_wait] on a number its look-up did not find, where
    [printSYNC_start] reads through NULL, and a [barrier_init] for which
    [kmalloc] has no memory, whose result neither line 147 nor line 169
    tests. *)

Theorem disciplined_calls_are_safe w l f :
  wreach w -> wexec ts tgid_of l w = WFault f ->
  f = NullDeref /\ exists t c, l = Step t /\ control_of w !! t = Some c /\
    ((exists i p, c = Start (CWait i) p None) \/ (allocates c = true /\ kmalloc (taken w) = None)).
Proof.
  intros R. pose proof (wreach_inv w R) as I. destruct l as [t k|t|t]; cbn [wexec].
  - repeat case_match; done.
  - unfold step. destruct (control_of w !! t) as [c|] eqn:Hc; [|done].
    intros [-> He]%(step_at_faults w t c f I Hc). split; [done|]. by exists t, c.
  - intros Hf. by apply interrupt_no_fault in Hf.
Qed.

(** ** What the locks protect *)

(** a spin lock of the module has one holder at most: two threads that
    stand between the lock and the unlock of the process list, or of the list
    of the same process, are the same thread. *)

Theorem locked_sections_exclude w t u c d :
  wreach w -> control_of w !! t = Some c -> control_of w !! u = Some d ->
  (holds_g c = true /\ holds_g d = true) \/ (exists p : loc, head_of c = Some p /\ head_of d = Some p) -> t = u.
Proof.
  intros R Hc Hd. pose proof (wreach_inv w R) as I.
  assert (forall fl h, excl fl h (control_of w) -> h c = true -> h d = true -> t = u) as Hex.
  { intros fl h (o & _ & _ & Ho) H1 H2. apply (Ho t c Hc) in H1. apply (Ho u d Hd) in H2. congruence. }
  intros [[H1 H2]|(p & H1 & H2)]; [by eapply Hex; [apply I|..]|].
  destruct (head_alive tgid_of w t c p (wi_control _ _ _ I t c Hc) H1) as [pt Hp].
  eapply (Hex _ (holds_head p)); [by eapply (wi_head _ _ _ I)|by apply bool_decide_eq_true..].
Qed.

(** C19: in every world that disciplined processes reach (nobody uses a barrier
    that another thread is destroying, no process destroys its last barrier,
    fewer than 2^32 numbers are given; a [barrier_info] is left alone by other
    threads during its [barrier_init]) the lists are well formed, whatever
    calls are under way: no process and no barrier is listed twice or lost,
    [barrier_size] is the length of the list, the numbers of a process's
    barriers differ; and no interleaving of [barrier_init]s hands a number out
    twice, even after its barrier was destroyed. *)

Theorem registry_stays_well_formed w : wreach w ->
  reg_inv (calm w) /\ NoDup (handed w) /\
  forall p pt i, procs w !! p = Some pt -> (tgid pt, i) ∈ handed w -> i < bid_count pt.
Proof.
  intros R. pose proof (wreach_inv w R) as I. split; [apply I|]. split; [apply I|].
  intros p pt i Hp Hi. destruct (wi_handed _ _ _ I _ _ Hi) as (p' & pt' & Hp' & Ht & Hl).
  assert (p' = p) as ->; [|by simplify_eq].
  apply (ri_tgid _ (wi_reg _ _ _ I) p' p (with_head_lock false pt') (with_head_lock false pt)); [..|exact Ht];
    cbn; by rewrite lookup_fmap, ?Hp, ?Hp'.
Qed.

Lemma barrier_sync w q m b :
  world_inv ts tgid_of w -> machines w !! q = Some m -> bar m = Some b -> 1 <= count b < 2 ^ 31 -> sync_inv (count b) m.
Proof.
  intros I Hm Hb Hn. destruct (wi_machine _ _ _ I q m Hm) as (t & n & i & Hr).
  assert (count b = u64 n) as E by exact (f_equal count (reachable_fixed _ _ _ Hr b Hb)).
  rewrite E in *. eapply (reachable_inv (u64 n)), Hr; try done; [lia|]. rewrite BARRIER_FLAG_val. lia.
Qed.

(** C18: in every world that disciplined processes reach (nobody uses a barrier
    that another thread is destroying, no process destroys its last barrier,
    fewer than 2^32 numbers are given), every live barrier whose count is in
    1..2^31-1, whatever calls are under way and whatever other barriers there
    are, keeps the invariant of the machine of [BarrierSync]: a thread has
    returned from it only when the round it arrived in was complete. *)

Theorem every_barrier_synchronises w q m b :
  wreach w -> machines w !! q = Some m -> bar m = Some b -> 1 <= count b < 2 ^ 31 ->
  log_ok (count b) (log m) /\ live_inv (count b) b (pcs m) (log m).
Proof.
  intros R Hm Hb Hn. destruct (barrier_sync w q m b (wreach_inv w R) Hm Hb Hn) as [Hlog Hlive].
  split; [done|by apply Hlive].
Qed.

(** ** When nothing moves *)

Definition world_at_rest w : Prop := forall t, wexec ts tgid_of (Step t) w = WStuck.

Lemma exec_threads l m m' t : exec l m = Next m' -> is_Some (threads m' !! t) <-> is_Some (threads m !! t).
Proof.
  assert (forall u th, is_Some (threads m !! u) -> is_Some (<[u := th]> (threads m) !! t) <-> is_Some (threads m !! t)) as Hi.
  { intros u th Hu. rewrite lookup_insert_is_Some'. split; [by intros [<-|]|by right]. }
  destruct l as [u|u|u|u]; cbn [exec]; destruct (threads m !! u) as [th|] eqn:Hu; try done.
  - destruct th as [[] ?]; try done. intros [= <-]. apply Hi. by eexists.
  - destruct th as [[] ?]; try done. intros [= <-]. apply Hi. by eexists.
  - unfold thread_step. intros He. repeat case_match; simplify_eq; cbn; try (apply Hi; by eexists).
    rewrite lookup_insert_is_Some', map_lookup_imap. destruct (threads m !! t) eqn:E; cbn; [split; [by eexists|by right]|].
    split; [intros [<-|[? [=]]]; congruence|by intros []].
  - intros [= <-]. apply Hi. by eexists.
Qed.

Lemma machine_threads w q m t : world_inv ts tgid_of w -> machines w !! q = Some m -> is_Some (threads m !! t) <-> t ∈ ts.
Proof.
  intros I Hm. destruct (wi_machine _ _ _ I q m Hm) as (u & n & i & Hr).
  clear Hm. induction Hr as [|c l c' Hr IH He]; [|by rewrite (exec_threads l c c' t He)].
  unfold is_Some. cbn. setoid_rewrite lookup_gset_to_gmap_Some. naive_solver.
Qed.

Lemma outside_idle w q m t c : world_inv ts tgid_of w -> control_of w !! t = Some c -> inside_of c = None ->
  machines w !! q = Some m -> exists th, threads m !! t = Some th /\ th_pc th = Idle.
Proof.
  intros I Hc Hin Hm. assert (is_Some (threads m !! t)) as [th Hth].
  { apply (machine_threads w q m t I Hm), (wi_dom _ _ _ I). by eexists. }
  exists th. split; [done|]. destruct (decide (th_pc th = Idle)) as [|Hne]; [done|].
  destruct (wi_inside _ _ _ I q m t (th_pc th) Hm) as (d & Hd & Hq); [by apply pcs_lookup|done|]. congruence.
Qed.

(** Who holds a lock, looks up or allocates can go on. *)

Definition may_rest c : bool :=
  match c with Outside | GLock _ | HLock _ _ _ | LinkLock _ _ _ | RecycleLock _ _ _ | InBarrier _ _ _ => true | _ => false end.

Lemma goes_on w t c : world_inv ts tgid_of w -> control_of w !! t = Some c -> may_rest c = false ->
  step_at ts tgid_of t c w <> WStuck.
Proof.
  intros I Hc Hr. pose proof (wi_control _ _ _ I t c Hc) as Hok.
  assert (forall next, (forall p w', next p w' <> WStuck) -> fresh_address w next <> WStuck) as Hfresh.
  { intros next Hn. unfold fresh_address. by destruct (kmalloc (taken w)). }
  destruct c as [|k|k|k o|k p|k p i|k p i|k p o|n p|n p q|n p q|p q|q|k p o|k p q|k p q|k p q|p|p|p|p|p]; cbn in Hok; try done; cbn [step_at].
  - match goal with |- looked _ _ ?g <> _ => destruct (looked_process ts tgid_of w (tgid_of t) g I) as (o & -> & _) end.
    destruct o; [done|]. destruct k; try done. by apply Hfresh.
  - unfold proc_at. by destruct (procs w !! p).
  - destruct Hok as [(pt & Hp & _) _]. rewrite (at_proc _ _ _ _ Hp).
    match goal with |- looked _ _ ?g <> _ => by destruct (looked_barrier ts tgid_of w p pt i g I Hp) as (o & -> & _) end.
  - unfold proc_at. by destruct (procs w !! p).
  - by apply Hfresh.
  - unfold proc_at. by destruct (procs w !! p).
  - unfold proc_at. by destruct (procs w !! p).
  - by case_match.
  - destruct p as [p|], o as [q|]; try done. case_match; [|done]. unfold in_machine.
    destruct (machines w !! q) as [m|] eqn:Hm; [|done].
    destruct (outside_idle w q m t _ I Hc eq_refl Hm) as (th & Hth & Hidle).
    destruct k; cbn [start_label exec]; rewrite Hth; destruct th as [x r]; cbn in Hidle; by subst x.
  - destruct Hok as (_ & _ & (m & x & Hm & Hx & ->)). unfold proc_at. destruct (procs w !! p); [|done]. unfold in_machine. rewrite Hm.
    destruct (pcs_thread m t _ Hx) as (th & Hth & Hfree). cbn [exec]. rewrite Hth. unfold thread_step. rewrite Hfree. by destruct (bar m).
  - unfold proc_at. by destruct (procs w !! p).
Qed.

Section rest.
Context (w : world L) (I : world_inv ts tgid_of w) (R : world_at_rest w).

Lemma rest_step t c : control_of w !! t = Some c -> step_at ts tgid_of t c w = WStuck.
Proof. intros Hc. specialize (R t). cbn [wexec] in R. unfold step in R. by rewrite Hc in R. Qed.

Lemma rest_may t c : control_of w !! t = Some c -> may_rest c = true.
Proof.
  intros Hc. destruct (may_rest c) eqn:E; [done|]. by destruct (goes_on w t c I Hc E (rest_step t c Hc)).
Qed.

Lemma free_at_rest fl h : excl fl h (control_of w) -> (forall c, h c = true -> may_rest c = false) -> fl = false.
Proof.
  intros (o & Hf & Hd & Hh) Hm. destruct fl; [|done]. destruct (proj1 Hf eq_refl) as [t ->].
  destruct (Hd t eq_refl) as [c Hc]. pose proof (Hm c (proj2 (Hh t c Hc) eq_refl)). by rewrite (rest_may t c Hc) in *.
Qed.

Lemma head_free_at_rest p pt : procs w !! p = Some pt -> barrier_head_lock pt = false.
Proof.
  intros Hp. apply (free_at_rest _ (holds_head p)); [by apply (wi_head _ _ _ I)|].
  intros c Hc. unfold holds_head in Hc. apply bool_decide_eq_true in Hc. by destruct c.
Qed.

Lemma rest_control t c : control_of w !! t = Some c -> c = Outside \/ exists k p q, c = InBarrier k p q.
Proof.
  intros Hc. pose proof (rest_may t c Hc) as Hm. pose proof (rest_step t c Hc) as Hs. pose proof (wi_control _ _ _ I t c Hc) as Hok.
  destruct c; try done; try (by left); try (by right; eexists _, _, _); exfalso; cbn in Hok; cbn [step_at] in Hs.
  - by rewrite (free_at_rest _ _ (wi_g _ _ _ I)) in Hs by (by intros []).
  - destruct Hok as [(pt & Hp & _) _]. by rewrite (at_proc _ _ _ _ Hp), (head_free_at_rest _ _ Hp) in Hs.
  - destruct Hok as [(pt & Hp & _) _]. by rewrite (at_proc _ _ _ _ Hp), (head_free_at_rest _ _ Hp) in Hs.
  - destruct Hok as (_ & (pt & b & m & Hp & _)%owned & _). by rewrite (at_proc _ _ _ _ Hp), (head_free_at_rest _ _ Hp) in Hs.
Qed.

Lemma rest_machine q m b : machines w !! q = Some m -> bar m = Some b -> at_rest m.
Proof.
  intros Hm Hb t. cbn [exec]. destruct (threads m !! t) as [th|] eqn:Hth; [|done].
  destruct (decide (th_pc th = Idle)) as [Hi|Hne]; [unfold thread_step; by rewrite Hb, Hi|].
  destruct (wi_inside _ _ _ I q m t (th_pc th) Hm) as (c & Hc & Hq); [by apply pcs_lookup|done|].
  destruct (rest_control t c Hc) as [->|(k & p & q' & ->)]; [done|]. injection Hq as ->.
  pose proof (rest_step t _ Hc) as Hs. cbn [step_at] in Hs. unfold in_machine in Hs. rewrite Hm in Hs. cbn [exec] in Hs.
  rewrite Hth in Hs. by destruct (thread_step t th m).
Qed.
End rest.

(** C17: in every world that disciplined processes reach (nobody uses a barrier
    that another thread is destroying, no process destroys its last barrier,
    fewer than 2^32 numbers are given) and whose live barriers have counts in
    1..2^31-1, the spin locks do not block the module for good: when no thread
    can make a step, every thread is outside its calls or asleep in a barrier;
    and each barrier then lacks threads for its round, or a wake-up was lost
    on it. *)

Theorem only_sleepers_remain w :
  wreach w -> (forall q b, live_barriers w !! q = Some b -> 1 <= count b < 2 ^ 31) -> world_at_rest w ->
  (forall t c, control_of w !! t = Some c ->
     c = Outside \/ exists k p q m l, c = InBarrier k p q /\ machines w !! q = Some m /\ asleep m t l) /\
  (forall q m b, machines w !! q = Some m -> bar m = Some b -> wakeup_lost m b \/ gathering (count b) m b).
Proof.
  intros HR Hn R. pose proof (wreach_inv w HR) as I.
  assert (forall q m b, machines w !! q = Some m -> bar m = Some b -> 
    1 <= count b < BARRIER_FLAG /\ live_inv (count b) b (pcs m) (log m) /\ at_rest m) as Hl.
  { intros q m b Hm Hb. assert (1 <= count b < 2 ^ 31) as Hc by (apply (Hn q); apply lookup_live; by exists m).
    split; [rewrite BARRIER_FLAG_val; lia|]. split; [by eapply (barrier_sync w q m b I Hm Hb Hc)|by eapply rest_machine]. }
  split.
  - intros t c Hc. destruct (rest_control w I R t c Hc) as [->|(k & p & q & ->)]; [by left|right].
    destruct (wi_control _ _ _ I t _ Hc) as (_ & (pt & b & m & _ & _ & Hm & Hb)%owned & (m' & x & Hm' & Hx & _ & Hi & _)).
    assert (m' = m) as -> by congruence. destruct (Hl q m b Hm Hb) as ([? ?] & Hlive & Hrest).
    destruct (pcs_thread m t x Hx) as (th & Hth & <-).
    destruct (rest_threads (count b) m b) with t th as [Hidle|[l Hs]]; try done. by exists k, p, q, m, l.
  - intros q m b Hm Hb. destruct (Hl q m b Hm Hb) as ([? ?] & Hlive & Hrest). by apply rest_case.
Qed.
End reach.
