(* ===== verification/BarrierWorldRefine.v ===== *)
(** * The barrier module as a whole: an abstract specification of it

    What a process may rely on: a map from its numbers to barriers that run
    alone, one step at a time; a number names one barrier ever. *)

From S2P Require Import Prelude Kernel BarrierData BarrierSync BarrierSyncProofs.
From S2P Require Import BarrierRegistry BarrierRegistryProofs BarrierWorld BarrierWorldProofs BarrierWorldKeep BarrierWorldInv BarrierWorldSpec.

Section spec.
Context {L : Type} {KL : KList L} {KM : Kmalloc}.
Context (ts : gset Z) (tgid_of : Z -> Z).
Implicit Types (w : world L) (pt : per_tgid L) (q : loc).

(** ** The specification *)

Record spec := { barrier_at : gmap (Z * Z) config; used : list (Z * Z) }.

Definition own_label (t : Z) (l : label) : Prop :=
  l = CallWait t \/ l = CallDestroy t \/ l = Run t \/ l = Signal t.

Inductive spec_step (t : Z) (s : spec) : spec -> Prop :=
  | spec_stay : spec_step t s s
  | spec_init n i :
      (tgid_of t, i) ∉ used s -> barrier_at s !! (tgid_of t, i) = None ->
      spec_step t s {| barrier_at := <[(tgid_of t, i) := start (init_barrier_struct (current tgid_of t) n i) ts]> (barrier_at s);
                       used := (tgid_of t, i) :: used s |}
  | spec_move i l m m' :
      own_label t l -> barrier_at s !! (tgid_of t, i) = Some m -> exec l m = Next m' -> is_Some (bar m') ->
      spec_step t s {| barrier_at := <[(tgid_of t, i) := m']> (barrier_at s); used := used s |}
  | spec_destroy i m m' :
      barrier_at s !! (tgid_of t, i) = Some m -> exec (Run t) m = Next m' -> bar m' = None ->
      spec_step t s {| barrier_at := delete (tgid_of t, i) (barrier_at s); used := used s |}.

(** ** What a world shows *)

Definition entry w (tg : Z) q : list ((Z * Z) * config) :=
  match machines w !! q with
  | Some m => match bar m with Some b => [((tg, id b), m)] | None => [] end
  | None => []
  end.

Definition entries w : list ((Z * Z) * config) :=
  mbind (M := list) (fun x : loc * per_tgid L => mbind (M := list) (entry w (tgid x.2)) (knodes (barrier_head x.2)))
    (map_to_list (procs w)).

Definition abs w : spec := {| barrier_at := list_to_map (entries w); used := handed w |}.

Definition keyed w q (x : Z * Z) : Prop := exists p pt b,
  procs w !! p = Some pt /\ tgid pt = x.1 /\ node_of pt q /\ live_barriers w !! q = Some b /\ id b = x.2.

Lemma entry_spec w tg q x m : (x, m) ∈ entry w tg q <->
  exists b, machines w !! q = Some m /\ bar m = Some b /\ x = (tg, id b).
Proof.
  unfold entry. destruct (machines w !! q) as [m'|]; [|split; [by intros ?%elem_of_nil|naive_solver]].
  destruct (bar m') as [b|] eqn:Hb; [rewrite list_elem_of_singleton|rewrite elem_of_nil]; naive_solver.
Qed.

Lemma entries_spec w x m : (x, m) ∈ entries w <-> exists q, keyed w q x /\ machines w !! q = Some m.
Proof.
  unfold entries. rewrite list_elem_of_bind. split.
  - intros ([p pt] & (q & (b & Hm & Hb & ->)%entry_spec & Hq)%list_elem_of_bind & Hp%elem_of_map_to_list).
    exists q. split; [|done]. exists p, pt, b. cbn. split_and!; try done. apply lookup_live. by exists m.
  - intros (q & (p & pt & b & Hp & Ht & Hq & Hb & Hi) & Hm). exists (p, pt). rewrite elem_of_map_to_list. split; [|done].
    apply list_elem_of_bind. exists q. split; [|done]. apply entry_spec. apply lookup_live in Hb as (m' & Hm' & Hbar).
    exists b. split; [done|]. destruct x as [tg i]; cbn in *. split; [congruence|by subst].
Qed.

Lemma calm_proc w p pt : procs w !! p = Some pt -> ptgids (calm w) !! p = Some (with_head_lock false pt).
Proof. intros H. cbn. by rewrite lookup_fmap, H. Qed.

Lemma calm_barrier w q b : live_barriers w !! q = Some b -> barriers (calm w) !! q = Some (fixed b).
Proof. intros H. cbn. by rewrite lookup_fmap, H. Qed.

Lemma keyed_key w q x y : world_inv ts tgid_of w -> keyed w q x -> keyed w q y -> x = y.
Proof.
  intros I (p & pt & b & Hp & Ht & Hn & Hb & Hi) (p' & pt' & b' & Hp' & Ht' & Hn' & Hb' & Hi').
  assert (p = p') as <-.
  { apply (owner_unique (calm w) p p' (with_head_lock false pt) (with_head_lock false pt') q); try done; [apply I|by apply calm_proc|by apply calm_proc]. }
  destruct x, y; cbn in *. congruence.
Qed.

Lemma keyed_at w q q' x : world_inv ts tgid_of w -> keyed w q x -> keyed w q' x -> q = q'.
Proof.
  intros I (p & pt & b & Hp & Ht & Hn & Hb & Hi) (p' & pt' & b' & Hp' & Ht' & Hn' & Hb' & Hi').
  assert (p = p') as <-.
  { eapply (ri_tgid _ (wi_reg _ _ _ I) p p'); [by apply calm_proc|by apply calm_proc|]. cbn. congruence. }
  assert (pt' = pt) as -> by congruence.
  apply (pi_ids _ _ (world_pt ts tgid_of w p pt I Hp) q q' (fixed b) (fixed b')); try done; [by apply calm_barrier|by apply calm_barrier|].
  cbn. congruence.
Qed.

Lemma abs_lookup w x m : world_inv ts tgid_of w ->
  barrier_at (abs w) !! x = Some m <-> exists q, keyed w q x /\ machines w !! q = Some m.
Proof.
  intros I. rewrite <- entries_spec. cbn. split; [apply elem_of_list_to_map_2|]. intros Hx.
  apply elem_of_list_to_map_1'; [|done]. intros m' Hm'. apply entries_spec in Hx as (q & Hq & Hm), Hm' as (q' & Hq' & Hm').
  assert (q' = q) as -> by by eapply keyed_at. congruence.
Qed.

(** ** How it changes *)

Lemma abs_same w w' : world_inv ts tgid_of w -> world_inv ts tgid_of w' -> machines w' = machines w ->
  (forall q x, keyed w' q x <-> keyed w q x) -> barrier_at (abs w') = barrier_at (abs w).
Proof.
  intros I I' Hm Hk. apply map_eq. intros x. apply option_eq. intros m. rewrite !abs_lookup by done.
  setoid_rewrite Hk. by rewrite Hm.
Qed.

Lemma abs_insert w w' q x m : world_inv ts tgid_of w -> world_inv ts tgid_of w' ->
  keyed w' q x -> machines w' = <[q := m]> (machines w) ->
  (forall q' y, q' <> q -> keyed w' q' y <-> keyed w q' y) -> (forall y, keyed w q y -> y = x) ->
  barrier_at (abs w') = <[x := m]> (barrier_at (abs w)).
Proof.
  intros I I' Hq Hm Hk Hx. apply map_eq. intros y. apply option_eq. intros m'.
  rewrite abs_lookup, lookup_insert_Some, abs_lookup, Hm by done. split.
  - intros (q' & Hy & [[<- <-]|[Hne H]]%lookup_insert_Some); [left; split; [by eapply keyed_key|done]|right].
    split; [|exists q'; split; [by apply Hk|done]]. intros <-. apply Hne. by eapply keyed_at.
  - intros [[<- <-]|(Hne & q' & Hy & H)]; [exists q; by rewrite lookup_insert_eq|]. exists q'.
    assert (q' <> q) as Hq' by (intros ->; by apply Hne; symmetry; apply Hx). rewrite lookup_insert_ne by done. by rewrite Hk.
Qed.

Lemma abs_delete w w' q x : world_inv ts tgid_of w -> world_inv ts tgid_of w' ->
  keyed w q x -> (forall q', q' <> q -> machines w' !! q' = machines w !! q') ->
  (forall q' y, keyed w' q' y <-> q' <> q /\ keyed w q' y) ->
  barrier_at (abs w') = delete x (barrier_at (abs w)).
Proof.
  intros I I' Hq Hm Hk. apply map_eq. intros y. apply option_eq. intros m'.
  rewrite abs_lookup, lookup_delete_Some, abs_lookup by done. split.
  - intros (q' & [Hne Hy]%Hk & H). split; [|exists q'; split; [done|by rewrite <- Hm]]. intros <-. exact (Hne (keyed_at w q' q x I Hy Hq)).
  - intros (Hne & q' & Hy & H). exists q'. assert (q' <> q) as Hq' by (intros ->; exact (Hne (keyed_key w q x y I Hq Hy))).
    by rewrite Hk, Hm.
Qed.

(** ** Every step is one of the specification *)

Definition thread_of (l : wlabel) : Z := match l with Enter t _ | Step t | Interrupt t => t end.

(** A step that leaves the barriers and what is listed alone. *)

Definition same w w' : Prop :=
  machines w' = machines w /\ handed w' = handed w /\ forall q x, keyed w' q x <-> keyed w q x.

Lemma same_step t w w' : world_inv ts tgid_of w -> world_inv ts tgid_of w' -> same w w' -> spec_step t (abs w) (abs w').
Proof.
  intros I I' (Hm & Hh & Hk). assert (abs w' = abs w) as ->; [|constructor].
  pose proof (abs_same w w' I I' Hm Hk) as E. unfold abs in *. cbn in E. by rewrite E, Hh.
Qed.

Lemma same_of w w' : procs w' = procs w -> machines w' = machines w -> handed w' = handed w -> same w w'.
Proof.
  intros Hp Hm Hh. split_and!; try done. intros q x. unfold keyed, live_barriers. by rewrite Hp, Hm.
Qed.

Lemma same_head w p pt v t c : procs w !! p = Some pt -> same w (moved t c (set_proc p (with_head_lock v pt) w)).
Proof.
  intros Hp. split_and!; try done. intros q x. unfold keyed. cbn. split.
  - intros (p' & pt' & b & [[<- <-]|[_ H]]%lookup_insert_Some & ?); [by exists p, pt, b|by exists p', pt', b].
  - intros (p' & pt' & b & H & ?). destruct (decide (p' = p)) as [->|Hne].
    + exists p, (with_head_lock v pt), b. rewrite lookup_insert_eq. assert (pt' = pt) as -> by congruence. done.
    + exists p', pt', b. by rewrite lookup_insert_ne.
Qed.

Lemma same_process w p tg t c : procs w !! p = None -> same w (moved t c (add_process p tg (take p w))).
Proof.
  intros Hp. split_and!; try done. intros q x. unfold keyed. cbn. split.
  - intros (p' & pt' & b & [[<- <-]|[_ H]]%lookup_insert_Some & Ht & Hn & ?); [|by exists p', pt', b].
    unfold node_of in Hn. cbn in Hn. rewrite knodes_empty in Hn. by apply elem_of_nil in Hn.
  - intros (p' & pt' & b & H & ?). exists p', pt', b. rewrite lookup_insert_ne; [done|congruence].
Qed.

Lemma keyed_owns w t p q i : owns tgid_of w t p q i -> keyed w q (tgid_of t, i).
Proof. intros (pt & b & Hp & Ht & Hn & Hb & Hi). by exists p, pt, b. Qed.

(** A step of a thread in its barrier. *)

Lemma machine_keyed w t c q l m m' :
  machines w !! q = Some m -> exec l m = Next m' -> is_Some (bar m') ->
  forall q' y, keyed (moved t c (set_machine q m' w)) q' y <-> keyed w q' y.
Proof.
  intros Hm He [b' Hb'] q' y. destruct (bar m) as [b|] eqn:Hb; [|by rewrite (exec_freed l m m' Hb He) in Hb'].
  pose proof (fixed_id _ _ (exec_fixed l m m' b b' Hb He Hb')) as Hid.
  assert (live_barriers w !! q = Some b) as Hlive by (apply lookup_live; by exists m).
  unfold keyed. change (live_barriers (moved t c (set_machine q m' w))) with (live_barriers (set_machine q m' w)).
  rewrite (live_set _ _ _ _ Hb'). cbn. split; intros (p & pt & b0 & H1 & H2 & H3 & H4 & H5).
  - apply lookup_insert_Some in H4 as [[<- <-]|[_ H4]]; [exists p, pt, b; by rewrite <- Hid|by exists p, pt, b0].
  - exists p, pt. destruct (decide (q = q')) as [<-|Hne]; [exists b'; rewrite lookup_insert_eq|exists b0; by rewrite lookup_insert_ne].
    assert (b0 = b) as -> by congruence. by rewrite Hid.
Qed.

Lemma machine_step w t c p q i l m m' :
  world_inv ts tgid_of w -> world_inv ts tgid_of (moved t c (set_machine q m' w)) -> owns tgid_of w t p q i ->
  machines w !! q = Some m -> own_label t l -> exec l m = Next m' -> is_Some (bar m') ->
  spec_step t (abs w) (abs (moved t c (set_machine q m' w))).
Proof.
  intros I I' Ho Hm Hl He Hb'. pose proof (machine_keyed w t c q l m m' Hm He Hb') as Hk'.
  set (w' := moved t c (set_machine q m' w)) in *. pose proof (keyed_owns _ _ _ _ _ Ho) as Hk.
  assert (abs w' = {| barrier_at := <[(tgid_of t, i) := m']> (barrier_at (abs w)); used := used (abs w) |}) as ->.
  { pose proof (abs_insert w w' q (tgid_of t, i) m' I I' (proj2 (Hk' _ _) Hk) eq_refl (fun q' y _ => Hk' q' y)
      (fun y Hy => keyed_key w q _ _ I Hy Hk)) as E. unfold abs in *. cbn in E. by rewrite E. }
  apply (spec_move t (abs w) i l m m'); try done. apply abs_lookup; [done|]. by exists q.
Qed.

Lemma link_keyed w t n p q pt :
  world_inv ts tgid_of w -> procs w !! p = Some pt -> tgid pt = tgid_of t -> unborn w q ->
  let w' := linked_world ts tgid_of w t n p q pt in
  (forall y, ~ keyed w q y) /\ keyed w' q (tgid_of t, bid_count pt) /\ forall q' y, q' <> q -> keyed w' q' y <-> keyed w q' y.
Proof.
  intros I Hp Ht Hu w'. pose proof (link_not_live w q Hu) as Hdead.
  pose proof (link_live ts tgid_of w t n p q pt) as Hlive. fold w' in Hlive.
  pose proof (link_nodes ts tgid_of w p q pt I Hp Hu) as Hnodes. split_and!.
  - intros y (p' & pt' & b & _ & _ & _ & Hb & _). congruence.
  - exists p, (counted_proc q pt). eexists. rewrite Hlive, lookup_insert_eq. cbn. rewrite lookup_insert_eq. split_and!; try done.
    unfold node_of. rewrite Hnodes. by left.
  - assert (forall q', q' <> q -> node_of (counted_proc q pt) q' <-> node_of pt q') as Hnode.
    { intros q' Hne. unfold node_of. rewrite Hnodes, elem_of_cons. naive_solver. }
    intros q' y Hne. unfold keyed. rewrite Hlive. setoid_rewrite (lookup_insert_ne (live_barriers w)) at 1; [|done]. cbn. split.
    + intros (p' & pt' & b & [[<- <-]|[_ H]]%lookup_insert_Some & H1 & H2 & ?); [|by exists p', pt', b].
      exists p, pt, b. by rewrite <- Hnode.
    + intros (p' & pt' & b & H & H1 & H2 & ?). destruct (decide (p' = p)) as [->|Hpp].
      * exists p, (counted_proc q pt), b. rewrite lookup_insert_eq. assert (pt' = pt) as -> by congruence. by rewrite Hnode.
      * exists p', pt', b. by rewrite lookup_insert_ne.
Qed.

Lemma link_step w t n p q pt :
  world_inv ts tgid_of w -> disciplined tgid_of w -> control_of w !! t = Some (Link n p q) ->
  procs w !! p = Some pt -> tgid pt = tgid_of t -> unborn w q ->
  spec_step t (abs w) (abs (linked_world ts tgid_of w t n p q pt)).
Proof.
  intros I D Hc Hp Ht Hu. destruct (link_keyed w t n p q pt I Hp Ht Hu) as (Hno & Hk' & Hoth).
  set (w' := linked_world ts tgid_of w t n p q pt) in *. assert (world_inv ts tgid_of w') as I' by (by apply link_inv).
  assert (abs w' = {| barrier_at := <[(tgid_of t, bid_count pt) := start (init_barrier_struct (current tgid_of t) n (bid_count pt)) ts]>
      (barrier_at (abs w)); used := (tgid_of t, bid_count pt) :: used (abs w) |}) as ->.
  { pose proof (abs_insert w w' q _ _ I I' Hk' eq_refl Hoth (fun y Hy => False_ind _ (Hno y Hy))) as E.
    unfold abs in *. cbn in E. by rewrite E. }
  apply (spec_init t (abs w) n (bid_count pt)).
  - pose proof (wi_nodup _ _ _ I') as Hd. cbn in Hd. by apply NoDup_cons in Hd as [? _].
  - destruct (barrier_at (abs w) !! (tgid_of t, bid_count pt)) as [m|] eqn:E; [|done].
    apply abs_lookup in E as (q' & Hk & _); [|done]. destruct Hk as (p' & pt' & b & Hp' & Ht' & Hn & Hb & Hi). cbn in *.
    pose proof (link_fresh_id ts tgid_of w t p pt I Hp Ht p' pt' Hp' Ht') as E. rewrite E in *. clear E.
    pose proof (wi_ids _ _ _ I p' pt q' b Hp' Hn Hb). lia.
Qed.

Lemma unlink_keyed w t p q pt m : world_inv ts tgid_of w -> procs w !! p = Some pt ->
  forall q' y, keyed (unlinked_world w t p q pt m) q' y <-> q' <> q /\ keyed w q' y.
Proof.
  intros I Hp q' y. unfold keyed. rewrite unlink_live. setoid_rewrite lookup_delete_Some. cbn. split.
  - intros (p' & pt' & b' & [[<- <-]|[_ H]]%lookup_insert_Some & H1 & H2 & [H3 H4] & ?); [|split; [done|by exists p', pt', b']].
    split; [done|]. apply (unlink_kept ts tgid_of w p q pt I Hp) in H2 as [_ H2]. by exists p, pt, b'.
  - intros (Hne & p' & pt' & b' & H & H1 & H2 & H3 & ?). destruct (decide (p' = p)) as [->|Hpp].
    + exists p, (dropped_proc q pt), b'. rewrite lookup_insert_eq. assert (pt' = pt) as -> by congruence.
      split_and!; try done. by apply (unlink_kept ts tgid_of w p q pt I Hp).
    + exists p', pt', b'. by rewrite lookup_insert_ne.
Qed.

Lemma unlink_step w t k p q i pt b m th :
  world_inv ts tgid_of w -> world_inv ts tgid_of (unlinked_world w t p q pt m) ->
  procs w !! p = Some pt -> tgid pt = tgid_of t -> node_of pt q -> machines w !! q = Some m -> bar m = Some b -> id b = i ->
  threads m !! t = Some th -> th_pc th = Free -> is_destroy k = true ->
  spec_step t (abs w) (abs (unlinked_world w t p q pt m)).
Proof.
  intros I I' Hp Ht Hn Hm Hb Hi Hth Hfree Hk. pose proof (unlink_keyed w t p q pt m I Hp) as Hoth.
  set (w' := unlinked_world w t p q pt m) in *.
  assert (keyed w q (tgid_of t, i)) as Hkey by (exists p, pt, b; split_and!; try done; apply lookup_live; by exists m).
  assert (abs w' = {| barrier_at := delete (tgid_of t, i) (barrier_at (abs w)); used := used (abs w) |}) as ->.
  { assert (forall q', q' <> q -> machines w' !! q' = machines w !! q') as Hmm by (intros; cbn; by rewrite lookup_insert_ne).
    pose proof (abs_delete w w' q (tgid_of t, i) I I' Hkey Hmm Hoth) as E. unfold abs in *. cbn in E. by rewrite E. }
  apply (spec_destroy t (abs w) i m (freed_machine t m)); [|by eapply freed_exec|done]. apply abs_lookup; [done|]. by exists q.
Qed.

(** The steps of the look-ups, and of the locks. *)

Definition outside_barrier c : bool :=
  match c with Link _ _ _ | Start _ _ _ | InBarrier _ _ _ | Recycle _ _ _ => false | _ => true end.

Lemma quiet_effect w w' t c : world_inv ts tgid_of w -> control_of w !! t = Some c -> outside_barrier c = true ->
  step_at ts tgid_of t c w = WNext w' -> same w w'.
Proof.
  intros I Hc HP. pose proof (wi_control _ _ _ I t c Hc) as Hok. unfold step_at, proc_at.
  destruct c as [|k|k|k o|k p|k p i|k p i|k p o|n p|n p q|n p q|p q|q|k p o|k p q|k p q|k p q|p|p|p|p|p]; cbn in Hok; try done.
  - destruct (g_lock w); [done|]. intros [= <-]. by apply same_of.
  - match goal with |- looked _ _ ?g = _ -> _ => destruct (looked_process ts tgid_of w (tgid_of t) g I) as (o & -> & _) end.
    destruct o; [intros [= <-]; by apply same_of|]. destruct k; try (intros [= <-]; by apply same_of).
    unfold fresh_address. destruct (kmalloc (taken w)) as [p|] eqn:Hk; [|done]. intros [= <-].
    apply same_process. by apply (fresh_proc ts tgid_of), kmalloc_fresh.
  - intros [= <-]. by apply same_of.
  - destruct (procs w !! p) as [pt|]; [|done]. intros [= <-]. by apply same_of.
  - destruct (procs w !! p) as [pt|] eqn:Hp; [|done]. destruct (barrier_head_lock pt); [done|]. intros [= <-]. by apply same_head.
  - destruct (procs w !! p) as [pt|] eqn:Hp; [|done].
    match goal with |- looked _ _ ?g = _ -> _ => destruct (looked_barrier ts tgid_of w p pt i g I Hp) as (o & -> & _) end.
    intros [= <-]. by apply same_of.
  - destruct (procs w !! p) as [pt|] eqn:Hp; [|done]. intros [= <-]. by apply same_head.
  - unfold fresh_address. destruct (kmalloc (taken w)); [|done]. intros [= <-]. by apply same_of.
  - destruct (procs w !! p) as [pt|] eqn:Hp; [|done]. destruct (barrier_head_lock pt); [done|]. intros [= <-]. by apply same_head.
  - destruct (procs w !! p) as [pt|] eqn:Hp; [|done]. intros [= <-]. by apply same_head.
  - destruct (live_barriers w !! q); [|done]. intros [= <-]. by apply same_of.
  - destruct (procs w !! p) as [pt|] eqn:Hp; [|done]. destruct (barrier_head_lock pt); [done|]. intros [= <-]. by apply same_head.
  - destruct (procs w !! p) as [pt|] eqn:Hp; [|done]. intros [= <-]. by apply same_head.
Qed.

Lemma barrier_effect w w' t c : world_inv ts tgid_of w -> world_inv ts tgid_of w' -> disciplined tgid_of w ->
  control_of w !! t = Some c -> outside_barrier c = false -> step_at ts tgid_of t c w = WNext w' ->
  spec_step t (abs w) (abs w').
Proof.
  intros I I' D Hc HP Hs. pose proof (wi_control _ _ _ I t c Hc) as Hok.
  destruct c as [| | | | | | | | | |n p q| | |k [p|] [q|]|k p q| |k p q| | | | |]; try done; cbn in Hok; cbn [step_at] in Hs.
  - destruct Hok as [(pt & Hp & Ht) Hu]. rewrite (at_proc _ _ _ _ Hp) in Hs. injection Hs as <-.
    by apply (link_step w t n p q pt).
  - destruct Hok as [Hk Ho]. pose proof Ho as (pt & b & _ & _ & _ & Hb & _). destruct (machine_bar w q b Hb) as (m & Hm & Hbar).
    rewrite Hb in Hs. unfold in_machine in Hs. rewrite Hm in Hs. destruct (exec (start_label t k) m) as [m'| |] eqn:He; try done.
    injection Hs as <-. eapply (machine_step w t); try done.
    + destruct k; [done|by left|by right; left].
    + destruct (start_moves t k m m' Hk He) as [-> _]. by eexists.
  - destruct Hok as (Hk & Ho & (m & x & Hm & Hx & Hbody & _ & Hf)). pose proof Ho as (pt & b & _ & _ & _ & Hb & _).
    destruct (machine_bar w q b Hb) as (m0 & Hm0 & Hbar). assert (m0 = m) as -> by congruence.
    unfold in_machine in Hs. rewrite Hm in Hs. destruct (exec (Run t) m) as [m'| |] eqn:He; try done.
    injection Hs as <-. eapply (machine_step w t); try done; [by right; right; left|].
    destruct (pcs_thread m t x Hx) as (th & Hth & <-). cbn in He. rewrite Hth in He.
    destruct (thread_moves t th m m' (body k) b) as [_ [?|?]]; try done. unfold body. destruct (is_destroy k); [by right|by left].
  - destruct Hok as (Hk & (pt & b & Hp & Ht & Hn & Hb & Hi) & (m & x & Hm & Hx & ->)).
    destruct (machine_bar w q b Hb) as (m0 & Hm0 & Hbar). assert (m0 = m) as -> by congruence.
    destruct (pcs_thread m t _ Hx) as (th & Hth & Hfree). rewrite (at_proc _ _ _ _ Hp) in Hs. unfold in_machine in Hs.
    rewrite Hm, (freed_exec t b m th), (unlink_not_last ts tgid_of w t k p q pt b m) in Hs by done. injection Hs as <-.
    by apply (unlink_step w t k p q (number k) pt b m th).
Qed.

(** C1: while the processes keep the discipline (in every world up to this
    step nobody uses a barrier that another thread is destroying, no process
    destroys its last barrier, and fewer than 2^32 numbers were given) and a
    [barrier_info] is left alone by other threads while its [barrier_init]
    runs, the module under every interleaving refines the specification: a
    step of a call leaves the map of barriers alone, or gives the process a new barrier
    under a number it never had, or is a step of the calling thread in the
    machine of one of its own process's barriers, or removes that barrier; the
    barriers of the other processes never change.  (Without the discipline
    this is false: see last_destroy_never_returns, and a process whose block
    was freed starts its numbers again.) *)

Theorem barrier_module_refines_spec w l w' :
  wreach ts tgid_of w -> disciplined tgid_of w -> wexec ts tgid_of l w = WNext w' -> spec_step (thread_of l) (abs w) (abs w').
Proof.
  intros R D Hl. pose proof (wreach_inv _ _ w R) as I. pose proof (wexec_keeps _ _ l w w' I D Hl) as I'.
  destruct l as [t k|t|t]; cbn [wexec thread_of] in *.
  - apply same_step; [done..|]. destruct (control_of w !! t) as [[]|]; try done.
    destruct k; repeat case_match; simplify_eq; by apply same_of.
  - unfold step in Hl. destruct (control_of w !! t) as [c|] eqn:Hc; [|done]. destruct (outside_barrier c) eqn:Ho.
    + apply same_step; [done..|]. by eapply quiet_effect.
    + by eapply barrier_effect.
  - destruct (control_of w !! t) as [c|] eqn:Hc; [|done]. destruct c; try (injection Hl as <-; apply spec_stay).
    pose proof (wi_control _ _ _ I t _ Hc) as (_ & Ho & _). pose proof Ho as (pt & b & _ & _ & _ & Hb & _).
    destruct (machine_bar w _ b Hb) as (m & Hm & Hbar). unfold in_machine in Hl. rewrite Hm in Hl.
    destruct (exec (Signal t) m) as [m'| |] eqn:He; try done. injection Hl as <-.
    assert (moved t (InBarrier k p q) (set_machine q m' w) = set_machine q m' w) as E.
    { unfold moved. cbn. by rewrite (insert_id (control_of w) t) by done. }
    rewrite <- E in I' |- *. eapply (machine_step w t); try done; [by right; right; right|].
    cbn in He. destruct (threads m !! t); [|done]. injection He as <-. by exists b.
Qed.
End spec.
