(* ===== verification/BarrierWorldFlow.v ===== *)
(** * The barrier module as a whole: how one thread goes through its call

    First through any call, then through the destruction of the last barrier of
    a process.  There [barrier_destroy] gives the memory of the process's block
    back (line 325) and then unlocks the spin lock inside it (line 327); nothing
    is assumed of the other threads, the worlds are all that any schedule
    reaches. *)

From S2P Require Import Prelude Kernel BarrierData BarrierSync BarrierSyncProofs.
From S2P Require Import BarrierRegistry BarrierRegistryProofs BarrierWorld BarrierWorldProofs BarrierWorldKeep BarrierWorldInv BarrierWorldSpec BarrierWorldRefine.

Section flow.
Context {L : Type} {KL : KList L} {KM : Kmalloc}.
Context (ts : gset Z) (tgid_of : Z -> Z).
Implicit Types (w : world L) (pt : per_tgid L) (p q : loc) (k : call) (c : control).

(** In [barrier_init], with its barrier still to be linked. *)

Definition pre_link c : bool :=
  match c with
  | Alloc _ _ | LinkLock _ _ _ | Link _ _ _ => true
  | _ => match call_of c with Some (CInit _) => true | _ => false end
  end.

Definition is_link c : bool := match c with Link _ _ _ => true | _ => false end.

(** From one place to the next. *)

Definition flow c c' : Prop :=
  match c with
  | Link _ p q => c' = LinkUnlock p q
  | LinkUnlock _ q => c' = PrintLinked q
  | PrintLinked _ | RecycleUnlock _ => c' = Outside
  | Alloc _ _ | LinkLock _ _ _ => pre_link c' = true
  | Recycle _ p _ => c' = RecycleUnlock p
  | HUnlock (CInit _) _ _ => c' = Outside \/ pre_link c' = true
  | _ => c' = Outside \/ call_of c' = call_of c
  end.

Lemma after_step_flow t k p q m : after_step t k p q m = Outside \/ call_of (after_step t k p q m) = Some k.
Proof. unfold after_step. repeat case_match; first [by left|by right]. Qed.

Lemma recycle_flow w w' t k p q :
  world_inv ts tgid_of w -> disciplined tgid_of w -> control_of w !! t = Some (Recycle k p q) ->
  step_at ts tgid_of t (Recycle k p q) w = WNext w' ->
  control_of w' = <[t := RecycleUnlock p]> (control_of w) /\ handed w' = handed w.
Proof.
  intros I D Hc. destruct (wi_control _ _ _ I t _ Hc) as (Hk & (pt & b & Hp & Ht & Hn & Hb & Hi) & (m & x & Hm & Hx & ->)).
  destruct (machine_bar w q b Hb) as (m0 & Hm0 & Hbar). assert (m0 = m) as -> by congruence.
  cbn [step_at]. rewrite (at_proc _ _ _ _ Hp). unfold in_machine. rewrite Hm. destruct (exec (Run t) m); try done.
  rewrite (unlink_not_last ts tgid_of w t k p q pt b m) by done. by intros [= <-].
Qed.

Lemma step_flow w w' t c :
  world_inv ts tgid_of w -> disciplined tgid_of w -> control_of w !! t = Some c -> step_at ts tgid_of t c w = WNext w' ->
  exists c', control_of w' = <[t := c']> (control_of w) /\ flow c c' /\ (is_link c = false -> handed w' = handed w).
Proof.
  intros I D Hc Hs. pose proof (wi_control _ _ _ I t c Hc) as Hok.
  destruct c as [|k|k|k o|k p|k p i|k p i|k p o|n p|n p q|n p q|p q|q|k p o|k p q|k p q|k p q|p|p|p|p|p]; try done.
  all: lazymatch type of Hs with
       | step_at _ _ _ (Recycle _ _ _) _ = _ => destruct (recycle_flow w w' t k p q I D Hc Hs) as [? ?]; by eexists
       | _ => clear Hok end.
  all: revert Hs; unfold step_at, proc_at, looked, fresh_address, in_machine.
  all: repeat case_match; try done; intros [= <-]; (eexists; split; [reflexivity|]; split; [|done]); cbn.
  all: try done; try (by right); try (apply after_step_flow).
  all: repeat match goal with o : option loc |- _ => destruct o | k : call |- _ => destruct k end; cbn; auto.
Qed.

(** A barrier stays under its number until it is recycled. *)

Lemma keyed_step l w w' q x :
  world_inv ts tgid_of w -> disciplined tgid_of w -> wexec ts tgid_of l w = WNext w' -> keyed w q x ->
  (forall t k p, l = Step t -> control_of w !! t <> Some (Recycle k p q)) -> keyed w' q x.
Proof.
  intros I D Hl Hk Hno. destruct l as [t k|t|t]; cbn [wexec] in Hl.
  - assert (same w w') as (_ & _ & H); [|by apply H]. destruct (control_of w !! t) as [[]|]; try done.
    destruct k; repeat case_match; simplify_eq; by apply same_of.
  - unfold step in Hl. destruct (control_of w !! t) as [c|] eqn:Hc; [|done]. destruct (outside_barrier c) eqn:Ho.
    { destruct (quiet_effect ts tgid_of w w' t c I Hc Ho Hl) as (_ & _ & H). by apply H. }
    pose proof (wi_control _ _ _ I t c Hc) as Hok.
    destruct c as [| | | | | | | | | |n p q'| | |k [p|] [q'|]|k p q'| |k p q'| | | | |]; try done; cbn in Hok; cbn [step_at] in Hl.
    + destruct Hok as [(pt & Hp & Ht) Hu]. rewrite (at_proc _ _ _ _ Hp) in Hl. injection Hl as <-.
      destruct (link_keyed ts tgid_of w t n p q' pt I Hp Ht Hu) as (Hnew & _ & H). apply H; [|done]. intros ->. by apply (Hnew x).
    + destruct (live_barriers w !! q') as [b'|]; [|done]. unfold in_machine in Hl. destruct (machines w !! q') as [m|] eqn:Hm; [|done].
      destruct (exec (start_label t k) m) as [m'| |] eqn:He; try done. injection Hl as <-. eapply (machine_keyed w); try done.
      destruct Hok as [Hi (pt & b & m0 & _ & _ & Hm0 & Hb)%owned]. assert (m0 = m) as -> by congruence.
      destruct (start_moves t k m m' Hi He) as [-> _]. by eexists.
    + destruct Hok as (Hi & (pt & b & m0 & _ & _ & Hm0 & Hb)%owned & (m1 & y & Hm1 & Hy & Hbody & _ & Hf)).
      assert (m1 = m0) as -> by congruence. unfold in_machine in Hl. rewrite Hm0 in Hl.
      destruct (exec (Run t) m0) as [m'| |] eqn:He; try done. injection Hl as <-. eapply (machine_keyed w); try done.
      destruct (pcs_thread m0 t y Hy) as (th & Hth & <-). cbn in He. rewrite Hth in He.
      destruct (thread_moves t th m0 m' (body k) b) as [_ [?|?]]; try done. unfold body. destruct (is_destroy k); [by right|by left].
    + destruct Hok as (Hd & (pt & b & Hp & Ht & Hn & Hb & Hi) & (m & y & Hm & Hy & ->)).
      destruct (machine_bar w q' b Hb) as (m0 & Hm0 & Hbar). assert (m0 = m) as -> by congruence.
      destruct (pcs_thread m t _ Hy) as (th & Hth & Hfree). rewrite (at_proc _ _ _ _ Hp) in Hl. unfold in_machine in Hl.
      rewrite Hm, (freed_exec t b m th), (unlink_not_last ts tgid_of w t k p q' pt b m) in Hl by done. injection Hl as <-.
      apply (unlink_keyed ts tgid_of w t p q' pt m I Hp). split; [|done]. intros ->. by eapply (Hno t k p).
  - destruct (control_of w !! t) as [c|] eqn:Hc; [|done]. destruct c; try (by injection Hl as <-).
    unfold in_machine in Hl. destruct (machines w !! q0) as [m|] eqn:Hm; [|done].
    destruct (exec (Signal t) m) as [m'| |] eqn:He; try done. injection Hl as <-.
    pose proof (wi_control _ _ _ I t _ Hc) as (_ & (pt & b & m0 & _ & _ & Hm0 & Hb)%owned & _). assert (m0 = m) as -> by congruence.
    apply (machine_keyed w t (InBarrier k p q0) q0 (Signal t) m m'); try done.
    cbn in He. destruct (threads m !! t); [|done]. injection He as <-. by exists b.
Qed.

(** ** A waiter whose barrier is there finds it *)

Definition missed c : bool :=
  match c with GUnlock _ None | HUnlock _ _ None | Start _ None _ | Start _ _ None => true | _ => false end.

Lemma keyed_mine w t p q i : world_inv ts tgid_of w -> mine tgid_of w t p -> keyed w q (tgid_of t, i) ->
  exists pt b, procs w !! p = Some pt /\ node_of pt q /\ live_barriers w !! q = Some b /\ id b = i.
Proof.
  intros I (pt & Hp & Ht) (p' & pt' & b & Hp' & Ht' & Hn & Hb & Hi). cbn in *.
  assert (p' = p) as -> by (eapply (ri_tgid _ (wi_reg _ _ _ I) p' p); [by apply calm_proc|by apply calm_proc|cbn; congruence]).
  exists pt, b. split_and!; congruence.
Qed.

Lemma waiter_finds w w' t c c' q i :
  world_inv ts tgid_of w -> control_of w !! t = Some c -> call_of c = Some (CWait i) -> missed c = false ->
  keyed w q (tgid_of t, u32 i) -> step_at ts tgid_of t c w = WNext w' -> control_of w' !! t = Some c' -> missed c' = false.
Proof.
  intros I Hc Hcall Hm Hk Hs Hc'. pose proof (wi_control _ _ _ I t c Hc) as Hok.
  destruct c as [|k|k|k o|k p|k p j|k p j|k p o|n p|n p q'|n p q'|p q'|q'|k p o|k p q'|k p q'|k p q'|p|p|p|p|p]; try done;
    cbn in Hcall; injection Hcall as ->; cbn in Hok; cbn [step_at] in Hs.
  - destruct (g_lock w); [done|]. injection Hs as <-. cbn in Hc'. rewrite lookup_insert_eq in Hc'. by injection Hc' as <-.
  - match type of Hs with looked _ _ ?g = _ => destruct (looked_process ts tgid_of w (tgid_of t) g I) as (o & E & Ho) end.
    rewrite E in Hs. destruct Hk as (p & pt & b & Hp & Ht & _). destruct o as [p'|]; [|by destruct (Ho p pt Hp)].
    injection Hs as <-. cbn in Hc'. rewrite lookup_insert_eq in Hc'. by injection Hc' as <-.
  - destruct o as [p|]; [|done]. injection Hs as <-. cbn in Hc'. rewrite lookup_insert_eq in Hc'. by injection Hc' as <-.
  - by destruct Hok.
  - destruct Hok as [(pt & Hp & Ht) _]. rewrite (at_proc _ _ _ _ Hp) in Hs. destruct (barrier_head_lock pt); [done|].
    injection Hs as <-. cbn in Hc'. rewrite lookup_insert_eq in Hc'. by injection Hc' as <-.
  - destruct Hok as [Hmine Hj]. destruct (keyed_mine w t p q _ I Hmine Hk) as (pt & b & Hp & Hn & Hb & Hi).
    rewrite (at_proc _ _ _ _ Hp) in Hs.
    match type of Hs with looked _ _ ?g = _ => destruct (looked_barrier ts tgid_of w p pt j g I Hp) as (o & E & Ho) end.
    rewrite E in Hs. injection Hs as <-. cbn in Hc'. rewrite lookup_insert_eq in Hc'. injection Hc' as <-.
    destruct o as [q'|]; [done|]. destruct (Ho q b Hn Hb). rewrite Hi. by rewrite (Hj eq_refl).
  - destruct Hok as [(pt & Hp & Ht) _]. rewrite (at_proc _ _ _ _ Hp) in Hs. injection Hs as <-. cbn in Hc'.
    rewrite lookup_insert_eq in Hc'. injection Hc' as <-. by destruct o.
  - destruct p as [p|], o as [q'|]; try done. destruct (live_barriers w !! q'); [|done]. unfold in_machine in Hs. repeat case_match; simplify_eq.
    cbn in Hc'. rewrite lookup_insert_eq in Hc'. by injection Hc' as <-.
  - unfold in_machine in Hs. destruct (machines w !! q') as [m|]; [|done]. destruct (exec (Run t) m) as [m'| |]; try done.
    injection Hs as <-. cbn in Hc'. rewrite lookup_insert_eq in Hc'. injection Hc' as <-. unfold after_step. by repeat case_match.
  - by destruct Hok.
  - by destruct Hok.
Qed.
End flow.

(** ** The last barrier of a process *)

#[local] Instance call_eq_dec : EqDecision call.
Proof. solve_decision. Defined.

#[local] Instance wlabel_eq_dec : EqDecision wlabel.
Proof. solve_decision. Defined.

Section last.
Context {L : Type} {KL : KList L} {KM : Kmalloc}.
Context (ts : gset Z) (tgid_of : Z -> Z).
Implicit Types (w : world L) (p : loc).

(** ** Which blocks there are after a step *)

Definition blocks_grow w w' : Prop :=
  taken w ⊆ taken w' /\
  forall p, is_Some (procs w' !! p) -> is_Some (procs w !! p) \/ ((p ∉ taken w) /\ p ∈ taken w').

Lemma grow_same w w' : taken w' = taken w -> procs w' = procs w -> blocks_grow w w'.
Proof. intros Ht Hp. split; rewrite Ht; [done|]. intros p. rewrite Hp. by left. Qed.

Lemma grow_set w w' p pt pt' : procs w !! p = Some pt -> taken w' = taken w -> procs w' = <[p := pt']> (procs w) -> blocks_grow w w'.
Proof.
  intros Hp Ht Hpr. split; rewrite Ht; [done|]. intros p'. rewrite Hpr, lookup_insert_is_Some'.
  intros [<-|]; left; [by eexists|done].
Qed.

Lemma grow_take w p : blocks_grow w (take p w).
Proof. split; cbn; [set_solver|by left]. Qed.

Lemma grow_add w w' p tg : kmalloc (taken w) = Some p -> taken w' = ({[p]} ∪ taken w) ->
  procs w' = <[p := new_ptgid tg]> (procs w) -> blocks_grow w w'.
Proof.
  intros Hk Ht Hpr. apply kmalloc_fresh in Hk. split; rewrite Ht; [set_solver|]. intros p'. rewrite Hpr, lookup_insert_is_Some'.
  intros [<-|]; [right; set_solver|by left].
Qed.

Lemma step_grows t c w w' : step_at ts tgid_of t c w = WNext w' -> blocks_grow w w'.
Proof.
  unfold step_at, proc_at, looked, in_machine, fresh_address. intros H.
  repeat case_match; simplify_eq; first
    [ by apply grow_same | by eapply grow_set | by eapply grow_add | by eapply grow_take | idtac ].
  - split; [done|]. intros p'. cbn. rewrite lookup_delete_is_Some. intros [_ ?]. by left.
Qed.

Lemma wexec_grows l w w' : wexec ts tgid_of l w = WNext w' -> blocks_grow w w'.
Proof.
  destruct l as [t k|t|t]; cbn [wexec]; unfold step, in_machine; intros H.
  - repeat case_match; simplify_eq; by apply grow_same.
  - destruct (control_of w !! t) as [c|]; [by apply step_grows in H|done].
  - repeat case_match; simplify_eq; by apply grow_same.
Qed.

(** A block's address stays with it, and is not given out again. *)

Lemma wrun_taken ls w w' : (forall p, is_Some (procs w !! p) -> p ∈ taken w) -> wrun ts tgid_of ls w = WNext w' ->
  forall p, is_Some (procs w' !! p) -> p ∈ taken w'.
Proof.
  revert w. induction ls as [|l ls IH]; intros w Hw; cbn; [by intros [= <-]|].
  destruct (wexec ts tgid_of l w) as [w1| |] eqn:E; try done. apply IH. apply wexec_grows in E as [Hs Hg].
  intros p [?|[_ ?]]%Hg; [by apply Hs, Hw|done].
Qed.

Lemma stays_gone l w w' p : wexec ts tgid_of l w = WNext w' -> p ∈ taken w -> procs w !! p = None ->
  p ∈ taken w' /\ procs w' !! p = None.
Proof.
  intros [Hs Hg]%wexec_grows Ht Hn. split; [by apply Hs|]. destruct (procs w' !! p) eqn:E; [|done].
  destruct (Hg p) as [[? ?]|[? _]]; [by eexists|congruence|done].
Qed.

(** ** The end of a destroyer of a last barrier *)

Definition ending p c : bool :=
  match c with LastLock p' | LastDel p' | LastUnlock p' | LastFree p' => bool_decide (p' = p) | _ => false end.

(** [t] is on its way to the [kfree] of the block [p], or it is past it and
    about to unlock the lock that was in it. *)

Definition doomed t p w : Prop :=
  exists c, control_of w !! t = Some c /\
    (ending p c = true \/ (c = RecycleUnlock p /\ p ∈ taken w /\ procs w !! p = None)).

Lemma other_control l w w' t c : wexec ts tgid_of l w = WNext w' -> l <> Step t -> control_of w !! t = Some c -> c <> Outside ->
  control_of w' !! t = Some c.
Proof.
  intros H Hl Hc Ho.
  destruct l as [u k|u|u]; cbn [wexec] in H.
  - destruct (decide (u = t)) as [->|Hu]; [by rewrite Hc in H; destruct c|].
    repeat case_match; simplify_eq; cbn; rewrite ?lookup_insert_ne by done; done.
  - assert (u <> t) as Hu by congruence. unfold step in H. destruct (control_of w !! u) as [d|]; [|done].
    unfold step_at, proc_at, looked, in_machine, fresh_address in H.
    repeat case_match; simplify_eq; cbn; rewrite ?lookup_insert_ne by done; done.
  - unfold in_machine in H. repeat case_match; simplify_eq; done.
Qed.

Lemma doomed_step l w w' t p : (forall p, is_Some (procs w !! p) -> p ∈ taken w) ->
  doomed t p w -> wexec ts tgid_of l w = WNext w' -> doomed t p w'.
Proof.
  intros Hw (c & Hc & Hd) H. destruct (decide (l = Step t)) as [->|Hl].
  - cbn [wexec] in H. unfold step in H. rewrite Hc in H. destruct Hd as [He|(-> & _ & Hn)].
    + destruct c as [| | | | | | | | | | | | | | | | |p'|p'|p'|p'|]; try done; cbn [ending] in He; apply bool_decide_eq_true in He as ->;
        cbn [step_at] in H; unfold proc_at in H; repeat case_match; simplify_eq; eexists; cbn; (split; [apply lookup_insert_eq|]);
        try (left; by apply bool_decide_eq_true).
      right. split; [done|]. split; [apply Hw; by eexists|apply lookup_delete_eq].
    + cbn [step_at] in H. unfold proc_at in H. by rewrite Hn in H.
  - exists c. split; [eapply other_control; [done..|]; by destruct c, Hd as [|(?&_)]|].
    destruct Hd as [He|(-> & Ht & Hn)]; [by left|right]. split; [done|]. by eapply stays_gone.
Qed.

Lemma boot_taken p : is_Some (procs (boot (L := L) ts) !! p) -> p ∈ taken (boot (L := L) ts).
Proof. cbn. rewrite lookup_empty. by intros [? [=]]. Qed.

Lemma doomed_stays ls w w' t p : (forall p, is_Some (procs w !! p) -> p ∈ taken w) ->
  doomed t p w -> wrun ts tgid_of ls w = WNext w' -> doomed t p w'.
Proof.
  revert w. induction ls as [|l ls IH]; intros w Hw Hd; cbn; [by intros [= <-]|].
  destruct (wexec ts tgid_of l w) as [w1| |] eqn:E; try done. apply IH; [|by eapply doomed_step].
  apply (wrun_taken [l] w w1 Hw). cbn. by rewrite E.
Qed.

(** Alone, it takes five steps. *)

Lemma alone_ends w t p : control_of w !! t = Some (LastLock p) -> g_lock w = false ->
  wrun ts tgid_of (replicate 5 (Step t)) w = WFault UseAfterFree.
Proof.
  intros Hc Hg. cbn [replicate wrun wexec]. unfold step at 1. rewrite Hc. cbn [step_at]. rewrite Hg.
  unfold step at 1. cbn. rewrite lookup_insert_eq. cbn [step_at]. unfold proc_at. cbn.
  destruct (procs w !! p) as [pt|] eqn:Hp; [|done].
  unfold step at 1. cbn. rewrite lookup_insert_eq. cbn [step_at].
  unfold step at 1. cbn. rewrite lookup_insert_eq. cbn [step_at]. unfold proc_at. cbn. rewrite Hp.
  unfold step at 1. cbn. rewrite lookup_insert_eq. cbn [step_at]. unfold proc_at. cbn. by rewrite lookup_delete_eq.
Qed.

(** C36: destroying the last barrier of a process never comes back, whatever any
    thread did before and does after (no discipline is assumed): once
    [barrier_destroy] has found the process without barriers (lines 318-321),
    its call stands at one of the four steps up to the kfree of the process's
    block, or is past it, and then its next step, the unlock of line 327,
    follows the freed block; run alone with g_tgid_list_lock free it does so
    within five steps. *)

Theorem last_destroy_never_returns ls ls' w w' t p :
  wrun ts tgid_of ls (boot ts) = WNext w -> control_of w !! t = Some (LastLock p) ->
  wrun ts tgid_of ls' w = WNext w' ->
  (exists c, control_of w' !! t = Some c /\
     (ending p c = true \/ (c = RecycleUnlock p /\ wexec ts tgid_of (Step t) w' = WFault UseAfterFree))) /\
  (g_lock w = false -> wrun ts tgid_of (replicate 5 (Step t)) w = WFault UseAfterFree).
Proof.
  intros Hr Hc Hr'. pose proof (wrun_taken ls _ _ boot_taken Hr) as Hw.
  split; [|intros Hg; by eapply alone_ends].
  assert (doomed t p w) as Hd by (exists (LastLock p); split; [done|left; by apply bool_decide_eq_true]).
  destruct (doomed_stays ls' w w' t p Hw Hd Hr') as (c & Hc' & [He|(-> & _ & Hn)]).
  - exists c. split; [done|by left].
  - exists (RecycleUnlock p). split; [done|right]. split; [done|]. cbn [wexec]. unfold step. rewrite Hc'. cbn [step_at].
    unfold proc_at. by rewrite Hn.
Qed.
End last.
