(* ===== verification/BarrierWorldWitness.v ===== *)
(** * The barrier module as a whole: schedules that run

    A decision procedure for the discipline, and a schedule of two processes
    that the theorems apply to. *)

From S2P Require Import Prelude Kernel BarrierData BarrierSync BarrierSyncProofs BarrierQuiet.
From S2P Require Import BarrierRegistry BarrierRegistryProofs BarrierWorld BarrierWorldProofs BarrierWorldInv BarrierWorldSpec BarrierWorldRefine BarrierWorldFlow.

(** ** Is a world disciplined? *)

Section check.
Context {L : Type} {KL : KList L} {KM : Kmalloc}.
Context (ts : gset Z) (tgid_of : Z -> Z).
Implicit Types (w : world L) (pt : per_tgid L) (q : loc).

Definition apart_b w : bool :=
  forallb (fun x : Z * control => forallb (fun y : Z * control =>
    (x.1 =? y.1) || negb (tgid_of x.1 =? tgid_of y.1) ||
    match destroys x.2 with Some i => negb (bool_decide (uses w y.2 = Some i)) | None => true end)
    (map_to_list (control_of w))) (map_to_list (control_of w)).

Definition has_other w pt q : bool :=
  existsb (fun q' => negb (bool_decide (q' = q)) && bool_decide (is_Some (live_barriers w !! q')))
    (knodes (barrier_head pt)).

Definition keeps_b w : bool :=
  forallb (fun x : Z * control =>
    match destroys x.2 with
    | None => true
    | Some _ => forallb (fun y : loc * per_tgid L =>
        negb (tgid y.2 =? tgid_of x.1) || forallb (has_other w y.2) (knodes (barrier_head y.2)))
        (map_to_list (procs w))
    end) (map_to_list (control_of w)).

Definition disciplined_b w : bool :=
  apart_b w && keeps_b w && (Z.of_nat (length (handed w)) + 1 <? 2 ^ 32).

Lemma forallb_map {K A} `{Countable K} (f : K * A -> bool) (m : gmap K A) k a :
  forallb f (map_to_list m) = true -> m !! k = Some a -> f (k, a) = true.
Proof. rewrite forallb_forall. intros Hf Hk. apply Hf, list_elem_of_In. by apply elem_of_map_to_list. Qed.

Lemma keeps_b_sound w : keeps_b w = true -> forall t c p q i,
  control_of w !! t = Some c -> destroys c = Some i -> owns tgid_of w t p q i ->
  exists q' i', owns tgid_of w t p q' i' /\ q' <> q.
Proof.
  intros Hk t c p q i Hc Hi (pt & b & Hp & Ht & Hn & _). pose proof (forallb_map _ _ _ _ Hk Hc) as E. cbn in E. rewrite Hi in E.
  pose proof (forallb_map _ _ _ _ E Hp) as E'. cbn in E'. rewrite Ht, Z.eqb_refl in E'. cbn in E'. rewrite forallb_forall in E'.
  specialize (E' q (proj1 (list_elem_of_In _ _) Hn)). apply existsb_exists in E' as (q' & Hq' & [Hne [b' Hb']%bool_decide_eq_true]%andb_prop).
  exists q', (id b'). split; [|by apply negb_true_iff, bool_decide_eq_false in Hne].
  exists pt, b'. split_and!; try done. by apply list_elem_of_In.
Qed.

Lemma disciplined_b_sound w : disciplined_b w = true -> disciplined tgid_of w.
Proof.
  unfold disciplined_b. intros [[Ha Hk]%andb_prop Hf]%andb_prop. split.
  - intros t u c d i Hc Hd Hne Ht Hi. pose proof (forallb_map _ _ _ _ (forallb_map _ _ _ _ Ha Hc) Hd) as E. cbn in E.
    rewrite Hi, Ht, Z.eqb_refl in E. apply Z.eqb_neq in Hne. rewrite Hne in E. cbn in E. by apply negb_true_iff, bool_decide_eq_false in E.
  - by apply keeps_b_sound.
  - apply Z.ltb_lt in Hf. lia.
Qed.

(** Run a schedule as long as the worlds are disciplined. *)

Fixpoint checked (ls : list wlabel) w : option (world L) :=
  match ls with
  | [] => Some w
  | l :: ls =>
      if disciplined_b w then match wexec ts tgid_of l w with WNext w' => checked ls w' | _ => None end else None
  end.

Definition reached (ls : list wlabel) : world L := default (boot ts) (checked ls (boot ts)).

Lemma checked_reach ls w w' : wreach ts tgid_of w -> checked ls w = Some w' -> wreach ts tgid_of w'.
Proof.
  revert w. induction ls as [|l ls IH]; intros w R; cbn; [by intros [= <-]|].
  destruct (disciplined_b w) eqn:D; [|done]. destruct (wexec ts tgid_of l w) as [w1| |] eqn:E; try done.
  apply IH. eapply wreach_step; [done|by apply disciplined_b_sound|done].
Qed.

Lemma reached_reach ls : wreach ts tgid_of (reached ls).
Proof.
  unfold reached. destruct (checked ls (boot ts)) as [w|] eqn:E; cbn; [|constructor].
  eapply checked_reach, E. constructor.
Qed.
End check.

(** ** Two processes: threads 1 and 2 of process 7, thread 3 of process 8 *)

Definition three : gset Z := {[1; 2; 3]}.

Definition process (t : Z) : Z := if t =? 3 then 8 else 7.

Definition steps (n : nat) (t : Z) : list wlabel := replicate n (Step t).

Definition init_call (t n : Z) : list wlabel := Enter t (CInit n) :: steps 12 t.

(** Thread 1 makes two barriers while thread 3 makes one. *)

Definition two_inits : list wlabel :=
  Enter 3 (CInit 1) :: steps 1 3 ++ [Enter 1 (CInit 2)] ++ steps 2 3 ++ steps 7 1 ++ steps 9 3 ++ steps 5 1 ++ init_call 1 2.

(** Thread 2 waits and sleeps; thread 1 comes and both leave. *)

Definition one_sleeps : list wlabel := two_inits ++ Enter 2 (CWait 0) :: steps 14 2.

Definition full_round : list wlabel :=
  one_sleeps ++ Enter 1 (CWait 0) :: steps 14 1 ++ steps 8 2.

(** Thread 1 destroys the barrier, up to its recycling. *)

Definition recycling : list wlabel := full_round ++ Enter 1 (CDestroy 0) :: steps 11 1.

Definition no_number : list wlabel := two_inits ++ Enter 2 (CWait 5) :: steps 6 2.

Local Abbreviation at_schedule ls := (reached (L := list loc) three process ls).

(** ** Without the discipline *)

(** A [barrier_init] that has yet to print its barrier, and a destroyer. *)

Definition init_meets_destroy : list wlabel :=
  two_inits ++ Enter 1 (CInit 2) :: steps 11 1 ++ Enter 2 (CDestroy 2) :: steps 13 2 ++ [Step 1].

(** The only barrier of process 8 is destroyed. *)

Definition last_destroyed : list wlabel := two_inits ++ Enter 3 (CDestroy 0) :: steps 17 3.

(** While that happens, another thread of process 7 has the process in hand. *)

Definition look_up_meets_last : list wlabel :=
  init_call 1 2 ++ Enter 2 (CInit 2) :: steps 4 2 ++ Enter 1 (CDestroy 0) :: steps 16 1 ++ [Step 2].

(** Thread 2 sleeps in the barrier that thread 1 destroys. *)

Definition sleeper_left : list wlabel :=
  one_sleeps ++ Enter 1 (CDestroy 0) :: steps 13 1 ++ [Interrupt 2; Step 2].

Definition outcome (ls : list wlabel) : wresult := wrun three process ls (boot (L := list loc) three).

(** What the discipline excludes: with a barrier destroyed while its
    [barrier_init] prints it, with the last barrier of a process
    destroyed (alone, or while another thread is between two look-ups), and
    with a barrier destroyed under a sleeper, a freed object is used. *)

Example undisciplined_schedules_fail :
  outcome init_meets_destroy = WFault UseAfterFree /\ outcome last_destroyed = WFault UseAfterFree /\
  outcome look_up_meets_last = WFault UseAfterFree /\ outcome sleeper_left = WFault UseAfterFree.
Proof. vm_compute. by split_and!. Qed.

(** ** The theorems at a schedule *)

Lemma disciplined_calls_are_safe_witness :
  let w := at_schedule no_number in
  NullDeref = NullDeref /\ exists t c, Step 2 = Step t /\ control_of w !! t = Some c /\
    ((exists i p, c = Start (CWait i) p None) \/ (allocates c = true /\ kmalloc (taken w) = None)).
Proof.
  intros w. apply (disciplined_calls_are_safe three process w (Step 2) NullDeref).
  - apply reached_reach.
  - vm_compute. reflexivity.
Defined.

Lemma locked_sections_exclude_witness : 1 = 1.
Proof.
  apply (locked_sections_exclude three process (at_schedule recycling) 1 1 (Recycle (CDestroy 0) 2%positive 4%positive)
    (Recycle (CDestroy 0) 2%positive 4%positive)); [apply reached_reach|vm_compute; reflexivity..|].
  right. by exists 2%positive.
Defined.

Lemma registry_stays_well_formed_witness :
  handed (at_schedule recycling) = [(7, 1); (7, 0); (8, 0)] /\ NoDup (handed (at_schedule recycling)).
Proof.
  split; [vm_compute; reflexivity|].
  apply (registry_stays_well_formed three process (at_schedule recycling)). apply reached_reach.
Defined.

Lemma every_barrier_synchronises_witness : exists m b,
  machines (at_schedule full_round) !! 4%positive = Some m /\ bar m = Some b /\
  log m = [Returned 2; Returned 1; Arrived 1; Arrived 2] /\ log_ok 2 (log m) /\ live_inv 2 b (pcs m) (log m).
Proof.
  destruct (machines (at_schedule full_round) !! 4%positive) as [m|] eqn:Hm; [|vm_compute in Hm; discriminate].
  destruct (bar m) as [b|] eqn:Hb; [|vm_compute in Hm; injection Hm as <-; discriminate].
  assert (count b = 2 /\ log m = [Returned 2; Returned 1; Arrived 1; Arrived 2]) as [Hc Hl].
  { vm_compute in Hm. injection Hm as <-. cbn in Hb. injection Hb as <-. by split. }
  assert (1 <= count b < 2 ^ 31) as Hn by (rewrite Hc; clear; lia).
  exists m, b. split; [exact eq_refl|]. split; [exact Hb|]. split; [exact Hl|]. rewrite <- Hc.
  exact (every_barrier_synchronises three process (at_schedule full_round) 4%positive m b (reached_reach _ _ _) Hm Hb Hn).
Defined.

Lemma only_sleepers_remain_witness : exists m b,
  machines (at_schedule one_sleeps) !! 4%positive = Some m /\ bar m = Some b /\ asleep m 2 Leave /\
  (wakeup_lost m b \/ gathering (count b) m b).
Proof.
  set (w := at_schedule one_sleeps).
  destruct (machines w !! 4%positive) as [m|] eqn:Hm; [|vm_compute in Hm; discriminate].
  destruct (bar m) as [b|] eqn:Hb; [|vm_compute in Hm; injection Hm as <-; discriminate].
  exists m, b. split; [exact eq_refl|]. split; [exact Hb|]. split.
  - vm_compute in Hm. injection Hm as <-. reflexivity.
  - apply (only_sleepers_remain three process w) with 4%positive; [..|exact Hm|exact Hb].
    + apply reached_reach.
    + intros q b' Hq. assert (forallb (fun x => (1 <=? count x.2) && (count x.2 <? 2 ^ 31)) (map_to_list (live_barriers w)) = true) as E
        by (vm_compute; reflexivity).
      pose proof (forallb_map _ _ _ _ E Hq) as H. cbn [snd] in H.
      apply andb_prop in H as [H1 H2]. split; [by apply Z.leb_le|by apply Z.ltb_lt].
    + intros t. cbn [wexec]. unfold step. destruct (control_of w !! t) as [c|] eqn:Hc; [|done].
      apply elem_of_map_to_list in Hc as Hin.
      assert (map_to_list (control_of w) = [(3, Outside); (2, InBarrier (CWait 0) 2%positive 4%positive); (1, Outside)]) as E by (vm_compute; reflexivity).
      rewrite E in Hin. repeat (apply elem_of_cons in Hin as [[= -> ->]|Hin]; [vm_compute; reflexivity|]).
      apply elem_of_nil in Hin. destruct Hin.
Defined.

Lemma barrier_module_refines_spec_witness : exists w',
  wexec three process (Step 1) (at_schedule recycling) = WNext w' /\
  barrier_at (abs (at_schedule recycling)) !! (7, 0) <> None /\ barrier_at (abs w') !! (7, 0) = None /\
  spec_step three process 1 (abs (at_schedule recycling)) (abs w').
Proof.
  destruct (wexec three process (Step 1) (at_schedule recycling)) as [w'| |] eqn:E; [|vm_compute in E; discriminate..].
  exists w'. split_and!; [done|vm_compute; discriminate|vm_compute in E; injection E as <-; reflexivity|].
  apply (barrier_module_refines_spec three process (at_schedule recycling) (Step 1) w'); [apply reached_reach| |done].
  apply disciplined_b_sound. vm_compute. reflexivity.
Defined.

(** ** A schedule: the only barrier of process 8 *)

Definition at_last_lock : world (list loc) :=
  match wrun three process (two_inits ++ Enter 3 (CDestroy 0) :: steps 12 3) (boot three) with WNext w => w | _ => boot three end.

Lemma last_destroy_never_returns_witness :
  control_of at_last_lock !! 3 = Some (LastLock 1%positive) /\
  wrun three process (replicate 5 (Step 3)) at_last_lock = WFault UseAfterFree.
Proof.
  assert (wrun three process (two_inits ++ Enter 3 (CDestroy 0) :: steps 12 3) (boot three) = WNext at_last_lock) as Hr
    by (vm_compute; reflexivity).
  assert (control_of at_last_lock !! 3 = Some (LastLock 1%positive)) as Hc by (vm_compute; reflexivity).
  split; [exact Hc|].
  apply (last_destroy_never_returns three process _ [] at_last_lock at_last_lock 3 1%positive Hr Hc eq_refl).
  vm_compute. reflexivity.
Defined.
