(* ===== verification/BarrierTeams.v ===== *)
(** * The barrier's test program on the whole module

    main of barrier_test/barrier_user_sys.c forks two processes; each starts
    two threads ([fork_run]) that make a barrier, start workers, join them
    and destroy the barrier ([run_barriers]).  [BarrierTest] runs one such
    team on its barrier; here all teams of all processes run at once, and
    every call is one of [BarrierWorld].  Each pthread_create of a team counts
    as done when its barrier_init has returned: a worker that was not created
    yet is one that was not scheduled yet. *)

From S2P Require Import Prelude Kernel BarrierData BarrierSync BarrierRegistry BarrierTest BarrierWorld.

(** A call of [run_barriers]: its thread, the process it is in, its workers. *)

Record team := { runner : Z; pid : Z; crew : gset Z }.

Definition run_team (pid t num_threads : Z) : team :=
  {| runner := t; pid := pid; crew := list_to_set (seqZ (t + 1) num_threads) |}.

(** The threads are numbered from [t]. *)

Definition fork_run (pid t : Z) : list team := [run_team pid t 5; run_team pid (t + 6) 20].

Definition dev_run (pid t : Z) : list team := [run_team pid t 3].

Definition dev_run2 (pid t : Z) : list team := [run_team pid t 2].

Definition dev_run3 (pid t : Z) : list team := [run_team pid t 2; run_team pid (t + 3) 2].

(** The two children of main. *)

Definition main_run : list team := fork_run 1 100 ++ fork_run 2 200.

Definition in_team (t : Z) (m : team) : bool := (t =? runner m) || bool_decide (t ∈ crew m).

Definition process_of (teams : list team) (t : Z) : Z :=
  match List.find (in_team t) teams with Some m => pid m | None => 0 end.

Definition threads_of (teams : list team) : gset Z := ⋃ ((fun m => {[runner m]} ∪ crew m) <$> teams).

Definition team_run_by (teams : list team) (r : Z) : option team := List.find (fun m => runner m =? r) teams.

Definition team_worked_by (teams : list team) (t : Z) : option team := List.find (fun m => bool_decide (t ∈ crew m)) teams.

(** Where [run_barriers] stands: before, in and after [barrier_init] (line
    40), in the joins, in [barrier_destroy], after it. *)

Inductive stage := BeforeInit | InInit | InJoin | InDestroy | Ended.

(** [barrier_id] is the variable of line 37, [counter] that of line 18.
    [refused]: the threads whose [barrier_init] was refused; the variable then
    has what was there before. *)

Record program (L : Type) := {
  module : world L;
  stage_of : gmap Z stage;
  barrier_id : gmap Z Z;
  counter : gmap Z Z;
  left : gset Z;
  refused : gset Z
}.
Arguments module {L}.
Arguments stage_of {L}.
Arguments barrier_id {L}.
Arguments counter {L}.
Arguments left {L}.
Arguments refused {L}.

Inductive program_label :=
  | Begin (r : Z)      (* run_barriers calls barrier_init *)
  | Made (r : Z)       (* it returned; the workers start *)
  | Work (t : Z)       (* a worker calls barrier_wait, or returns *)
  | Go (t : Z)         (* a step inside a call *)
  | Signalled (t : Z)
  | Joined (r : Z)     (* all workers are joined; barrier_destroy is called *)
  | Leave (r : Z).     (* it returned *)

Section program.
Context {L : Type} {KL : KList L} {KM : Kmalloc}.
Context (teams : list team) (garbage : Z -> Z).

Inductive program_result := PNext (p : program L) | PStuck | PFault (f : fault).

Implicit Types (p : program L).

Abbreviation ts := (threads_of teams).
Abbreviation tgids := (process_of teams).

(** What follows a step of the module. *)

Definition after (r : wresult) (next : world L -> program L) : program_result :=
  match r with WNext w => PNext (next w) | WStuck => PStuck | WFault f => PFault f end.

Definition with_module (w : world L) p : program L :=
  {| module := w; stage_of := stage_of p; barrier_id := barrier_id p; counter := counter p; left := left p; refused := refused p |}.

Definition with_stage (r : Z) (s : stage) p : program L :=
  {| module := module p; stage_of := <[r := s]> (stage_of p); barrier_id := barrier_id p; counter := counter p;
     left := left p; refused := refused p |}.

Definition with_id (r i : Z) p : program L :=
  {| module := module p; stage_of := stage_of p; barrier_id := <[r := i]> (barrier_id p); counter := counter p;
     left := left p; refused := refused p |}.

Definition with_refused (r : Z) p : program L :=
  {| module := module p; stage_of := stage_of p; barrier_id := barrier_id p; counter := counter p;
     left := left p; refused := {[r]} ∪ refused p |}.

Definition with_counter (t k : Z) p : program L :=
  {| module := module p; stage_of := stage_of p; barrier_id := barrier_id p; counter := <[t := k]> (counter p);
     left := left p; refused := refused p |}.

Definition with_left (t : Z) p : program L :=
  {| module := module p; stage_of := stage_of p; barrier_id := barrier_id p; counter := counter p;
     left := {[t]} ∪ left p; refused := refused p |}.

Definition is_outside (t : Z) p : bool :=
  match control_of (module p) !! t with Some Outside => true | _ => false end.

Definition enter (t : Z) (k : call) p (next : world L -> program L) : program_result :=
  after (wexec ts tgids (Enter t k) (module p)) next.

(** Lines 40 to 44: [barrier_init], then the workers. *)

Definition begin (m : team) p : program_result :=
  match stage_of p !! runner m with
  | Some BeforeInit =>
      enter (runner m) (CInit (Z.of_nat (size (crew m)))) p (fun w => with_stage (runner m) InInit (with_module w p))
  | _ => PStuck
  end.

Definition made (m : team) p : program_result :=
  let r := runner m in
  match stage_of p !! r with
  | Some InInit =>
      if is_outside r p then
        match barrier_id p !! r with
        | Some _ => PNext (with_stage r InJoin p)
        | None => PNext (with_stage r InJoin (with_id r (garbage r) (with_refused r p)))
        end
      else PStuck
  | _ => PStuck
  end.

(** Lines 23 to 28, once the team has started. *)

Definition work (t : Z) (m : team) p : program_result :=
  match stage_of p !! runner m, barrier_id p !! runner m, counter p !! t with
  | Some InJoin, Some i, Some k =>
      if bool_decide (t ∈ left p) || negb (is_outside t p) then PStuck
      else if k =? SYNC_ROUNS then PNext (with_left t p)
      else enter t (CWait i) p (fun w => with_counter t (k + 1) (with_module w p))
  | _, _, _ => PStuck
  end.

(** [binfo->barrier_id] is written where the barrier is linked. *)

Definition store_id (t : Z) (w : world L) p : program L :=
  match control_of (module p) !! t, handed w with
  | Some (Link _ _ _), (_, i) :: _ => with_id t i p
  | _, _ => p
  end.

(** Lines 46 to 50. *)

Definition joined (m : team) p : program_result :=
  let r := runner m in
  match stage_of p !! r, barrier_id p !! r with
  | Some InJoin, Some i =>
      if bool_decide (crew m ⊆ left p) then
        enter r (CDestroy i) p (fun w => with_stage r InDestroy (with_module w p))
      else PStuck
  | _, _ => PStuck
  end.

Definition program_exec (l : program_label) p : program_result :=
  let by_runner r (f : team -> program_result) := match team_run_by teams r with Some m => f m | None => PStuck end in
  match l with
  | Begin r => by_runner r (fun m => begin m p)
  | Made r => by_runner r (fun m => made m p)
  | Joined r => by_runner r (fun m => joined m p)
  | Work t => match team_worked_by teams t with Some m => work t m p | None => PStuck end
  | Go t => after (wexec ts tgids (Step t) (module p)) (fun w => with_module w (store_id t w p))
  | Signalled t => after (wexec ts tgids (Interrupt t) (module p)) (fun w => with_module w p)
  | Leave r =>
      match stage_of p !! r with
      | Some InDestroy => if is_outside r p then PNext (with_stage r Ended p) else PStuck
      | _ => PStuck
      end
  end.

(** All teams before their [barrier_init]. *)

Definition launched : program L :=
  {| module := boot ts; stage_of := list_to_map ((fun m => (runner m, BeforeInit)) <$> teams); barrier_id := ∅;
     counter := gset_to_gmap 0 (⋃ (crew <$> teams)); left := ∅; refused := ∅ |}.

Fixpoint program_run (ls : list program_label) p : program_result :=
  match ls with
  | [] => PNext p
  | l :: ls => match program_exec l p with PNext p' => program_run ls p' | r => r end
  end.
End program.
