(* ===== verification/BarrierTeamsProofs.v ===== *)
(** * The test program's teams keep the module's discipline *)

From S2P Require Import Prelude Kernel BarrierData BarrierSync BarrierSyncProofs.
From S2P Require Import BarrierRegistry BarrierRegistryProofs BarrierTest BarrierWorld BarrierWorldProofs BarrierWorldKeep BarrierWorldInv.
From S2P Require Import BarrierWorldSpec BarrierWorldRefine BarrierWorldFlow BarrierTeams.

(** ** Teams of distinct threads *)

Record teams_ok (teams : list team) : Prop := {
  to_runner m m' : m ∈ teams -> m' ∈ teams -> runner m = runner m' -> m = m';
  to_crew m m' t : m ∈ teams -> m' ∈ teams -> t ∈ crew m -> t ∈ crew m' -> m = m';
  to_apart m m' : m ∈ teams -> m' ∈ teams -> runner m ∉ crew m';
  to_few : Z.of_nat (length teams) + 1 < 2 ^ 32
}.

Lemma find_team (f : team -> bool) teams m :
  m ∈ teams -> f m = true -> (forall m', m' ∈ teams -> f m' = true -> m' = m) -> List.find f teams = Some m.
Proof.
  intros Hm Hf Hu. destruct (List.find f teams) as [m'|] eqn:E.
  - apply find_some in E as [Hin Hf']. f_equal. apply Hu; [by apply list_elem_of_In|done].
  - apply list_elem_of_In in Hm. pose proof (find_none _ _ E m Hm). congruence.
Qed.

Lemma u32_id j : 0 <= j < 2 ^ 32 -> u32 j = j.
Proof. intros. by apply Z.mod_small. Qed.

Lemma list_to_set_size (l : list Z) : (size (list_to_set l : gset Z) <= length l)%nat.
Proof.
  induction l as [|x l IH]; [cbn; rewrite size_empty; lia|]. cbn [list_to_set length]. rewrite size_union_alt, size_singleton.
  pose proof (subseteq_size (list_to_set l ∖ {[x]} : gset Z) (list_to_set l) ltac:(set_solver)). lia.
Qed.

Section teams.
Context {L : Type} {KL : KList L} {KM : Kmalloc}.
Context (teams : list team) (OK : teams_ok teams).
Implicit Types (w : world L) (p : program L) (m : team) (c : control).

Local Abbreviation ts := (threads_of teams).
Local Abbreviation tgids := (process_of teams).

Lemma run_by_some r m : team_run_by teams r = Some m -> m ∈ teams /\ runner m = r.
Proof. intros [Hin Hr%Z.eqb_eq]%find_some. split; [by apply list_elem_of_In|done]. Qed.

Lemma worked_by_some t m : team_worked_by teams t = Some m -> m ∈ teams /\ t ∈ crew m.
Proof. intros [Hin Hr%bool_decide_eq_true]%find_some. split; [by apply list_elem_of_In|done]. Qed.

Lemma process_found t m : m ∈ teams -> t = runner m \/ t ∈ crew m -> tgids t = pid m.
Proof.
  intros Hm Ht. unfold process_of. rewrite (find_team _ teams m Hm); [done|..].
  - unfold in_team. apply orb_true_iff. destruct Ht as [->|Ht]; [left; apply Z.eqb_refl|right; by apply bool_decide_eq_true].
  - intros m' Hm' [Hr%Z.eqb_eq|Hr%bool_decide_eq_true]%orb_true_iff; destruct Ht as [->|Ht].
    + by apply (to_runner _ OK).
    + subst. by destruct (to_apart _ OK m' m).
    + by destruct (to_apart _ OK m m').
    + by apply (to_crew _ OK m' m t).
Qed.

Lemma thread_team t : t ∈ ts <-> exists m, m ∈ teams /\ (t = runner m \/ t ∈ crew m).
Proof.
  unfold threads_of. rewrite elem_of_union_list. split.
  - intros (X & (m & -> & Hm)%list_elem_of_fmap & Ht). exists m. set_solver.
  - intros (m & Hm & Ht). exists ({[runner m]} ∪ crew m). split; [|set_solver].
    apply list_elem_of_fmap. by exists m.
Qed.

(** ** The invariant of the program *)

Definition worker_ok p m (t : Z) c : Prop :=
  c = Outside \/ exists i, barrier_id p !! runner m = Some i /\ stage_of p !! runner m = Some InJoin /\
    (t ∉ left p) /\ call_of c = Some (CWait i) /\ missed c = false.

Definition runner_ok p m (s : stage) c : Prop :=
  match s with
  | BeforeInit => c = Outside /\ barrier_id p !! runner m = None
  | InInit =>
      c = Outside \/ (pre_link c = true /\ barrier_id p !! runner m = None) \/
      exists q i, (c = PrintLinked q \/ exists a, c = LinkUnlock a q) /\ barrier_id p !! runner m = Some i /\
        keyed (module p) q (pid m, i)
  | InJoin => c = Outside /\ is_Some (barrier_id p !! runner m)
  | InDestroy =>
      crew m ⊆ left p /\ exists i, barrier_id p !! runner m = Some i /\
        (c = Outside \/ (exists a, c = RecycleUnlock a) \/ call_of c = Some (CDestroy i))
  | Ended => c = Outside
  end.

Definition needs_barrier (s : stage) : bool := match s with InInit | InJoin => true | _ => false end.

Record team_inv p : Prop := {
  tv_world : wreach ts tgids (module p);
  tv_runner m s c : m ∈ teams -> stage_of p !! runner m = Some s -> control_of (module p) !! runner m = Some c ->
    runner_ok p m s c;
  tv_worker m t c : m ∈ teams -> t ∈ crew m -> control_of (module p) !! t = Some c -> worker_ok p m t c;
  tv_stage m : m ∈ teams -> is_Some (stage_of p !! runner m);
  tv_ids r i : barrier_id p !! r = Some i -> 0 <= i < 2 ^ 32 /\
    exists m, m ∈ teams /\ runner m = r /\ (pid m, i) ∈ handed (module p);
  tv_inj m m' i : m ∈ teams -> m' ∈ teams -> pid m = pid m' -> barrier_id p !! runner m = Some i ->
    barrier_id p !! runner m' = Some i -> m = m';
  tv_few : length (handed (module p)) = size (barrier_id p);
  tv_live m s i : m ∈ teams -> stage_of p !! runner m = Some s -> needs_barrier s = true ->
    barrier_id p !! runner m = Some i -> exists q, keyed (module p) q (pid m, i)
}.

(** What the program leaves to luck: no [barrier_init] is refused, and no
    barrier that is destroyed is the only one of its process. *)

Definition lucky p : Prop :=
  refused p = ∅ /\
  forall t c a q i, control_of (module p) !! t = Some c -> destroys c = Some i -> owns tgids (module p) t a q i ->
    exists q' i', owns tgids (module p) t a q' i' /\ q' <> q.

Inductive lucky_run (garbage : Z -> Z) : program L -> Prop :=
  | lucky_start : lucky_run garbage (launched teams)
  | lucky_step p l p' :
      lucky_run garbage p -> program_exec teams garbage l p = PNext p' -> lucky p' -> lucky_run garbage p'.

(** ** It is disciplined *)

Lemma pre_link_uses w c : pre_link c = true -> uses w c = None /\ destroys c = None.
Proof. by destruct c as [|k|k|k|k|k|k|k| | | | | |k|k|k|k| | | | |]; try destruct k. Qed.

Lemma control_team p t c : team_inv p -> control_of (module p) !! t = Some c ->
  exists m, m ∈ teams /\ (t = runner m \/ t ∈ crew m).
Proof. intros I Hc. apply thread_team, (wi_dom _ _ _ (wreach_inv _ _ _ (tv_world _ I))). by eexists. Qed.

Lemma call_uses w c k : call_of c = Some k -> is_init k = false -> uses w c = Some (number k).
Proof. destruct c as [|j|j|j|j|j|j|j| | | | | |j|j|j|j| | | | |]; try done; cbn; intros [= ->]; by destruct k. Qed.

(** Who has a number in its hands: the worker of its team, or the runner. *)

Lemma user_team p t c i : team_inv p -> control_of (module p) !! t = Some c -> uses (module p) c = Some i ->
  exists m, m ∈ teams /\ barrier_id p !! runner m = Some i /\ tgids t = pid m /\
    ((t ∈ crew m /\ stage_of p !! runner m = Some InJoin /\ destroys c = None) \/
     (t = runner m /\ stage_of p !! t = Some InInit /\ destroys c = None) \/ (t = runner m /\ stage_of p !! t = Some InDestroy)).
Proof.
  intros I Hc Hu. destruct (control_team p t c I Hc) as (m & Hm & Ht). pose proof (process_found t m Hm Ht) as Hpid.
  exists m. split; [done|]. destruct Ht as [->|Ht].
  - destruct (tv_stage _ I m Hm) as [s Hs]. pose proof (tv_runner _ I m s c Hm Hs Hc) as R. destruct s; cbn in R.
    + by destruct R as [-> _].
    + destruct R as [->|[[Hp _]|(q & j & Hq & Hj & Hk)]]; [done|pose proof (proj1 (pre_link_uses (module p) c Hp)); congruence|].
      destruct Hk as (a & pt & b & _ & _ & _ & Hb & Hid). cbn in Hid.
      assert (uses (module p) c = Some j /\ destroys c = None) as [E ?].
      { destruct Hq as [->|[a' ->]]; cbn; by rewrite Hb, <- Hid. }
      assert (j = i) as -> by congruence. split_and!; try done. by right; left.
    + by destruct R as [-> _].
    + destruct R as [_ (j & Hj & [->|[[a ->]|Hcall]])]; [done..|].
      rewrite (call_uses _ _ _ Hcall eq_refl) in Hu. destruct (tv_ids _ I _ _ Hj) as [Hr _].
      cbn [number] in Hu. rewrite (u32_id j Hr) in Hu. injection Hu as <-. split_and!; try done. by right; right.
    + by rewrite R in Hu.
  - destruct (tv_worker _ I m t c Hm Ht Hc) as [->|(j & Hj & Hs & _ & Hcall & _)]; [done|].
    rewrite (call_uses _ _ _ Hcall eq_refl) in Hu. destruct (tv_ids _ I _ _ Hj) as [Hr _].
    cbn [number] in Hu. rewrite (u32_id j Hr) in Hu. injection Hu as <-. split_and!; try done. left. split_and!; try done. unfold destroys. by rewrite Hcall.
Qed.

Lemma destroys_uses w c i : destroys c = Some i -> uses w c = Some i.
Proof. unfold destroys. destruct c as [|k|k|k|k|k|k|k| | | | | |k|k|k|k| | | | |]; try done; by destruct k. Qed.

Lemma team_disciplined p : team_inv p -> lucky p -> disciplined tgids (module p).
Proof.
  intros I [_ Hkeep]. split.
  - intros t u c d i Hc Hd Hne Hpid Hi Hu.
    destruct (user_team p t c i I Hc (destroys_uses _ _ _ Hi)) as (m & Hm & Hid & Ht & [(_ & _ & E)|[(_ & _ & E)|[-> Hs]]]); [congruence..|].
    destruct (user_team p u d i I Hd Hu) as (m' & Hm' & Hid' & Ht' & Hcase).
    assert (m = m') as <- by (eapply (tv_inj _ I m m' i); congruence).
    destruct Hcase as [(_ & Hs' & _)|[(-> & Hs' & _)|[-> _]]]; congruence.
  - exact Hkeep.
  - rewrite (tv_few _ I). pose proof (to_few _ OK).
    assert (size (barrier_id p) <= length teams)%nat; [|lia].
    rewrite <- (length_fmap runner teams), <- size_dom. etrans; [|apply list_to_set_size].
    apply subseteq_size. intros r [i Hi]%elem_of_dom. destruct (tv_ids _ I r i Hi) as (_ & m & Hm & <- & _).
    apply elem_of_list_to_set, list_elem_of_fmap. by exists m.
Qed.

(** ** What one thread's move leaves to the others *)

Lemma team_rebuild p p' a :
  team_inv p -> wreach ts tgids (module p') ->
  (forall u, u <> a -> control_of (module p') !! u = control_of (module p) !! u) ->
  (forall r, r <> a -> stage_of p' !! r = stage_of p !! r) ->
  (forall r, r <> a -> barrier_id p' !! r = barrier_id p !! r) ->
  left p ⊆ left p' -> (forall u, u <> a -> u ∈ left p' -> u ∈ left p) ->
  (forall m s i q, m ∈ teams -> runner m <> a -> stage_of p !! runner m = Some s -> needs_barrier s = true ->
     barrier_id p !! runner m = Some i -> keyed (module p) q (pid m, i) -> keyed (module p') q (pid m, i)) ->
  (forall x, x ∈ handed (module p) -> x ∈ handed (module p')) ->
  (forall m s c, m ∈ teams -> runner m = a -> stage_of p' !! a = Some s -> control_of (module p') !! a = Some c ->
     runner_ok p' m s c) ->
  (forall m c, m ∈ teams -> a ∈ crew m -> control_of (module p') !! a = Some c -> worker_ok p' m a c) ->
  (forall m t c, m ∈ teams -> runner m = a -> t ∈ crew m -> worker_ok p m t c -> worker_ok p' m t c) ->
  (forall i, barrier_id p' !! a = Some i -> barrier_id p !! a = Some i \/
     (0 <= i < 2 ^ 32 /\ exists m, m ∈ teams /\ runner m = a /\ (pid m, i) ∈ handed (module p') /\ (pid m, i) ∉ handed (module p))) ->
  length (handed (module p')) = size (barrier_id p') ->
  (forall m s i, m ∈ teams -> runner m = a -> stage_of p' !! a = Some s -> needs_barrier s = true ->
     barrier_id p' !! a = Some i -> exists q, keyed (module p') q (pid m, i)) ->
  (is_Some (stage_of p !! a) -> is_Some (stage_of p' !! a)) ->
  team_inv p'.
Proof.
  intros I Hw Hc Hs Hi Hl Hl' Hk Hh Hrun Hwork Hcrew Hid Hfew Hlive Hst.
  assert (forall m, m ∈ teams -> barrier_id p' !! runner m = barrier_id p !! runner m \/ runner m = a) as Hold.
  { intros m Hm. destruct (decide (runner m = a)); [by right|left; by apply Hi]. }
  assert (forall m m' i, m ∈ teams -> m' ∈ teams -> runner m = a -> runner m' <> a -> pid m = pid m' ->
    barrier_id p' !! runner m = Some i -> barrier_id p' !! runner m' = Some i -> m = m') as Hinj.
  { intros m m' i Hm Hm' Ha Hne Hpid H1 H2. rewrite (Hi _ Hne) in H2. rewrite Ha in H1.
    destruct (Hid i H1) as [H|(_ & m0 & Hm0 & Hr0 & _ & Hnew)]; [apply (tv_inj _ I m m' i); try done; by rewrite Ha|].
    assert (m0 = m) as -> by (apply (to_runner _ OK); congruence). destruct (tv_ids _ I _ _ H2) as (_ & m1 & Hm1 & Hr1 & Hh1).
    assert (m1 = m') as -> by (by apply (to_runner _ OK)). rewrite <- Hpid in Hh1. done. }
  split; try done.
  - intros m s c Hm. destruct (decide (runner m = a)) as [Ha|Hne]; [rewrite Ha; by apply Hrun|].
    rewrite (Hs _ Hne), (Hc _ Hne). intros Hsm Hcm. pose proof (tv_runner _ I m s c Hm Hsm Hcm) as R.
    unfold runner_ok in *. rewrite (Hi _ Hne). destruct s; try done.
    + destruct R as [?|[?|(q & i & H1 & H2 & H3)]]; [by left|by right; left|right; right]. exists q, i. split_and!; try done.
      by eapply Hk.
    + destruct R as [H1 H2]. split; [set_solver|done].
  - intros m t c Hm Ht Hct. destruct (decide (t = a)) as [->|Hta]; [by apply Hwork|]. rewrite (Hc _ Hta) in Hct.
    pose proof (tv_worker _ I m t c Hm Ht Hct) as W. destruct (decide (runner m = a)) as [Ha|Hne]; [by eapply Hcrew|].
    destruct W as [?|(i & H1 & H2 & H3 & H4 & H5)]; [by left|right]. exists i. rewrite (Hi _ Hne), (Hs _ Hne). split_and!; try done.
    intros Hin. by apply H3, Hl'.
  - intros m Hm. destruct (decide (runner m = a)) as [Ha|Hne]; [rewrite Ha; apply Hst; rewrite <- Ha|rewrite (Hs _ Hne)]; by apply (tv_stage _ I).
  - intros r i Hr. destruct (decide (r = a)) as [->|Hne].
    + destruct (Hid i Hr) as [H|(Hrange & m & Hm & Hrm & Hin & _)]; [|split; [done|by exists m]].
      destruct (tv_ids _ I a i H) as (Hrange & m & Hm & Hrm & Hin). split; [done|]. exists m. split_and!; auto.
    + rewrite (Hi _ Hne) in Hr. destruct (tv_ids _ I r i Hr) as (Hrange & m & Hm & Hrm & Hin). split; [done|]. exists m. split_and!; auto.
  - intros m m' i Hm Hm' Hpid H1 H2.
    destruct (decide (runner m = a)) as [Ha|Hne], (decide (runner m' = a)) as [Ha'|Hne'].
    + apply (to_runner _ OK); congruence.
    + by apply (Hinj m m' i).
    + symmetry. by apply (Hinj m' m i).
    + rewrite (Hi _ Hne) in H1. rewrite (Hi _ Hne') in H2. by apply (tv_inj _ I m m' i).
  - intros m s i Hm Hsm Hn Him. destruct (decide (runner m = a)) as [Ha|Hne]; [rewrite Ha in *; by eapply Hlive|].
    rewrite (Hs _ Hne) in Hsm. rewrite (Hi _ Hne) in Him. destruct (tv_live _ I m s i Hm Hsm Hn Him) as [q Hq]. exists q. by eapply Hk.
Qed.
End teams.
