(* ===== verification/BarrierTeamsSpec.v ===== *)
(** * The test program on the whole module: what its teams can rely on *)

From S2P Require Import Prelude Kernel BarrierData BarrierSync BarrierSyncProofs.
From S2P Require Import BarrierRegistry BarrierRegistryProofs BarrierTest BarrierWorld BarrierWorldProofs BarrierWorldKeep BarrierWorldInv.
From S2P Require Import BarrierWorldSpec BarrierWorldRefine BarrierWorldFlow BarrierTeams BarrierTeamsProofs.

Section teams.
Context {L : Type} {KL : KList L} {KM : Kmalloc}.
Context (teams : list team) (garbage : Z -> Z) (OK : teams_ok teams).
Implicit Types (w : world L) (p : program L) (m : team) (c : control).

Local Abbreviation ts := (threads_of teams).
Local Abbreviation tgids := (process_of teams).
Local Abbreviation team_inv := (team_inv teams).
Local Abbreviation lucky := (lucky teams).

(** ** Calls that begin *)

Lemma entered w w' t k : wexec ts tgids (Enter t k) w = WNext w' -> match k with CInit n => 0 <= n | _ => True end ->
  control_of w !! t = Some Outside /\ w' = moved t (GLock k) w.
Proof.
  cbn [wexec]. destruct (control_of w !! t) as [[]|]; try done. destruct k as [n|i|i]; try (by intros [= <-]).
  destruct (Z.ltb_spec n 0); [intros _ ?; lia|by intros [= <-]].
Qed.

Lemma moved_keyed w t c q x : keyed (moved t c w) q x <-> keyed w q x.
Proof. by apply same_of. Qed.

Lemma enter_reach p t k w' : team_inv p -> lucky p -> wexec ts tgids (Enter t k) (module p) = WNext w' -> wreach ts tgids w'.
Proof. intros I Hl He. eapply wreach_step; [apply I|by apply team_disciplined|done]. Qed.

Lemma begin_inv m p p' : m ∈ teams -> team_inv p -> lucky p -> begin teams m p = PNext p' -> team_inv p'.
Proof.
  intros Hm I Hl. unfold begin, enter. destruct (stage_of p !! runner m) as [[]|] eqn:Hs; try done.
  destruct (wexec _ _ _ _) as [w'| |] eqn:He; try done. intros [= <-].
  destruct (entered _ _ _ _ He ltac:(cbn; lia)) as [Hc E]. pose proof (enter_reach p _ _ _ I Hl He) as Hr. subst w'.
  destruct (tv_runner _ _ I m _ _ Hm Hs Hc) as [_ Hid].
  apply (team_rebuild teams OK p _ (runner m)); try done; cbn.
  - intros u Hu. by rewrite lookup_insert_ne.
  - intros r Hne. by rewrite lookup_insert_ne.
  - intros m' s c Hm' E. rewrite !lookup_insert_eq. intros [= <-] [= <-]. right. left. rewrite E. done.
  - intros m' c Hm' Hin. by destruct (to_apart _ OK m m').
  - intros m' t c Hm' E Ht [->|(i & H & _)]; [by left|]. congruence.
  - intros i Hi. by left.
  - apply I.
  - intros m' s i Hm' E. cbn. rewrite Hid. done.
  - intros _. rewrite lookup_insert_eq. by eexists.
Qed.

Lemma outside_control t p : is_outside t p = true -> control_of (module p) !! t = Some Outside.
Proof. unfold is_outside. by destruct (control_of (module p) !! t) as [[]|]. Qed.

Lemma made_inv m p p' : m ∈ teams -> team_inv p -> made garbage m p = PNext p' -> lucky p' -> team_inv p'.
Proof.
  intros Hm I. unfold made. destruct (stage_of p !! runner m) as [[]|] eqn:Hs; try done.
  destruct (is_outside (runner m) p) eqn:Ho; [|done]. apply outside_control in Ho.
  destruct (barrier_id p !! runner m) as [i|] eqn:Hid.
  2: { intros [= <-] [Hl _]. cbn in Hl. set_solver. }
  intros [= <-] _. apply (team_rebuild teams OK p _ (runner m)); try done; cbn; try apply I.
  - intros r Hne. by rewrite lookup_insert_ne.
  - intros m' s c Hm' E. rewrite lookup_insert_eq, Ho. intros [= <-] [= <-]. split; [done|]. cbn. rewrite E, Hid. by eexists.
  - intros m' c Hm' Hin. by destruct (to_apart _ OK m m').
  - intros m' t c Hm' E Ht [->|(j & H1 & H2 & _)]; [by left|]. congruence.
  - intros j Hj. by left.
  - intros m' s j Hm' E Hsm Hn Hj. rewrite <- E in *. by apply (tv_live _ _ I m' InInit j).
  - intros _. rewrite lookup_insert_eq. by eexists.
Qed.

Lemma work_inv t m p p' : m ∈ teams -> t ∈ crew m -> team_inv p -> lucky p -> work teams t m p = PNext p' -> team_inv p'.
Proof.
  intros Hm Ht I Hl. unfold work. destruct (stage_of p !! runner m) as [[]|] eqn:Hs; try done.
  destruct (barrier_id p !! runner m) as [i|] eqn:Hid; [|done]. destruct (counter p !! t) as [k|] eqn:Hk; [|done].
  destruct (bool_decide (t ∈ left p)) eqn:Hleft; [done|]. cbn [orb]. apply bool_decide_eq_false in Hleft.
  destruct (is_outside t p) eqn:Ho; [|done]. apply outside_control in Ho. cbn [negb].
  assert (forall m', m' ∈ teams -> runner m' <> t) as Hnot by (intros m' Hm' <-; by destruct (to_apart _ OK m' m)).
  assert (forall m' c, m' ∈ teams -> runner m' = t -> False) as Hno by (intros; by eapply Hnot).
  destruct (k =? SYNC_ROUNS).
  - intros [= <-]. apply (team_rebuild teams OK p _ t); try done; cbn; try apply I; try (intros; exfalso; by eapply Hnot).
    + set_solver.
    + set_solver.
    + intros m' c Hm' Hin. rewrite Ho. intros [= <-]. by left.
    + intros j Hj. by left.
  - unfold enter. destruct (wexec _ _ _ _) as [w'| |] eqn:He; try done. intros [= <-].
    destruct (entered _ _ _ _ He Logic.I) as [Hc E]. pose proof (enter_reach p _ _ _ I Hl He) as Hr. subst w'.
    apply (team_rebuild teams OK p _ t); try done; cbn; try apply I; try (intros; exfalso; by eapply Hnot).
    + intros u Hu. by rewrite lookup_insert_ne.
    + intros m' c Hm' Hin. rewrite lookup_insert_eq. intros [= <-]. right. exists i.
      assert (m' = m) as -> by (by apply (to_crew _ OK m' m t)). done.
    + intros j Hj. by left.
Qed.

Lemma joined_inv m p p' : m ∈ teams -> team_inv p -> lucky p -> joined teams m p = PNext p' -> team_inv p'.
Proof.
  intros Hm I Hl. unfold joined. destruct (stage_of p !! runner m) as [[]|] eqn:Hs; try done.
  destruct (barrier_id p !! runner m) as [i|] eqn:Hid; [|done]. destruct (bool_decide (crew m ⊆ left p)) eqn:Hleft; [|done].
  apply bool_decide_eq_true in Hleft. unfold enter. destruct (wexec _ _ _ _) as [w'| |] eqn:He; try done. intros [= <-].
  destruct (entered _ _ _ _ He Logic.I) as [Hc E]. pose proof (enter_reach p _ _ _ I Hl He) as Hr. subst w'.
  apply (team_rebuild teams OK p _ (runner m)); try done; cbn; try apply I.
  - intros u Hu. by rewrite lookup_insert_ne.
  - intros r Hne. by rewrite lookup_insert_ne.
  - intros m' s c Hm' E. rewrite !lookup_insert_eq. intros [= <-] [= <-].
    assert (m' = m) as -> by (by apply (to_runner _ OK)). split; [done|]. exists i. split; [done|by right; right].
  - intros m' c Hm' Hin. by destruct (to_apart _ OK m m').
  - intros m' t c Hm' E Ht [->|(j & H1 & H2 & H3 & _)]; [by left|]. assert (m' = m) as -> by (by apply (to_runner _ OK)). set_solver.
  - intros j Hj. by left.
  - intros m' s j Hm' E. rewrite lookup_insert_eq. by intros [= <-].
  - intros _. rewrite lookup_insert_eq. by eexists.
Qed.

Lemma runner_leave_inv r p p' : team_inv p ->
  program_exec teams garbage (Leave r) p = PNext p' -> team_inv p'.
Proof.
  intros I. cbn. destruct (stage_of p !! r) as [[]|] eqn:Hs; try done. destruct (is_outside r p) eqn:Ho; [|done].
  apply outside_control in Ho. intros [= <-]. apply (team_rebuild teams OK p _ r); try done; cbn; try apply I.
  - intros r' Hne. by rewrite lookup_insert_ne.
  - intros m s c Hm E. rewrite lookup_insert_eq, Ho. by intros [= <-] [= <-].
  - intros m c Hm Hin Hc. rewrite Ho in Hc. injection Hc as <-. by left.
  - intros m t c Hm E Ht [->|(j & H1 & H2 & _)]; [by left|]. congruence.
  - intros j Hj. by left.
  - intros m s j Hm E. rewrite lookup_insert_eq. by intros [= <-].
  - intros _. rewrite lookup_insert_eq. by eexists.
Qed.

(** ** Steps inside the calls *)

(** Only its own runner takes a team's barrier away. *)

Lemma others_keyed p a w' m i q :
  team_inv p -> lucky p -> wexec ts tgids (Step a) (module p) = WNext w' -> m ∈ teams -> runner m <> a ->
  barrier_id p !! runner m = Some i -> keyed (module p) q (pid m, i) -> keyed w' q (pid m, i).
Proof.
  intros I Hl He Hm Hne Hi Hk. pose proof (wreach_inv _ _ _ (tv_world _ _ I)) as W.
  apply (keyed_step ts tgids (Step a) (module p)); try done; [by apply team_disciplined|].
  intros t k b [= <-] Hc. destruct (wi_control _ _ _ W a _ Hc) as (Hd & Ho & _). destruct k as [|?|j]; try done.
  destruct (user_team teams OK p a _ (u32 j) I Hc eq_refl) as (m0 & Hm0 & Hi0 & Hpid & [(_ & _ & ?)|[(_ & _ & ?)|[Ha _]]]); [done..|].
  pose proof (keyed_key _ _ _ _ _ _ W Hk (keyed_owns _ _ _ _ _ _ Ho)) as [= E1 E2].
  assert (m = m0) as -> by (eapply (tv_inj _ _ I m m0 i); congruence). congruence.
Qed.

Definition stepped p p' (a : Z) c : Prop :=
  wexec ts tgids (Step a) (module p) = WNext (module p') /\ control_of (module p) !! a = Some c /\
  stage_of p' = stage_of p /\ left p' = left p.

(** The rest of the invariant, when [a] steps and keeps its number. *)

Lemma step_keeps p p' a c c' :
  team_inv p -> lucky p -> stepped p p' a c -> barrier_id p' = barrier_id p -> handed (module p') = handed (module p) ->
  control_of (module p') = <[a := c']> (control_of (module p)) ->
  (forall m s, m ∈ teams -> runner m = a -> stage_of p !! a = Some s -> runner_ok p' m s c' /\
     (needs_barrier s = true -> forall k b q, c <> Recycle k b q)) ->
  (forall m, m ∈ teams -> a ∈ crew m -> worker_ok p' m a c') ->
  team_inv p'.
Proof.
  intros I Hl (He & Hc & Hs & Hleft) Hid Hh Hctl Hrun Hwork. pose proof (wreach_inv _ _ _ (tv_world _ _ I)) as W.
  pose proof (team_disciplined teams OK p I Hl) as D.
  apply (team_rebuild teams OK p p' a); try done; rewrite ?Hs, ?Hleft, ?Hid, ?Hh, ?Hctl; try done.
  - eapply wreach_step; [apply I|done|done].
  - intros u Hu. by rewrite lookup_insert_ne.
  - intros m s i q Hm Hne _ _. by apply (others_keyed p a).
  - intros m s c0 Hm Ha Hsm. rewrite lookup_insert_eq. intros [= <-]. by apply (Hrun m s Hm Ha).
  - intros m c0 Hm Hin. rewrite lookup_insert_eq. intros [= <-]. by apply Hwork.
  - intros m t c0 Hm Ha Ht Hw. unfold worker_ok in *. by rewrite Hs, Hleft, Hid.
  - intros i Hi. by left.
  - apply I.
  - intros m s i Hm Ha Hsm Hn Hi. rewrite <- Ha in Hsm, Hi. destruct (tv_live _ _ I m s i Hm Hsm Hn Hi) as [q Hq]. exists q.
    apply (keyed_step ts tgids (Step a) (module p)); try done. intros t k b [= <-] Hr. rewrite Hr in Hc. injection Hc as <-.
    rewrite Ha in Hsm. by apply (proj2 (Hrun m s Hm Ha Hsm) Hn k b q).
Qed.

Lemma wait_flow w t c c' i : world_inv ts tgids w -> control_of w !! t = Some c -> call_of c = Some (CWait i) -> flow c c' ->
  is_link c = false /\ (c' = Outside \/ call_of c' = Some (CWait i)).
Proof.
  intros W Hc Hcall Hf. pose proof (wi_control _ _ _ W t c Hc) as Hok.
  destruct c; try done; cbn in Hcall; injection Hcall as ->; cbn in Hf; try done. by destruct Hok.
Qed.

Lemma go_worker p a m w' : team_inv p -> lucky p -> m ∈ teams -> a ∈ crew m -> 
  wexec ts tgids (Step a) (module p) = WNext w' -> team_inv (with_module w' (store_id a w' p)).
Proof.
  intros I Hl Hm Ha He. pose proof (wreach_inv _ _ _ (tv_world _ _ I)) as W. pose proof (team_disciplined teams OK p I Hl) as D.
  pose proof He as Hs. cbn [wexec] in Hs. unfold step in Hs. destruct (control_of (module p) !! a) as [c|] eqn:Hc; [|done].
  destruct (tv_worker _ _ I m a c Hm Ha Hc) as [->|(i & Hi & Hst & Hleft & Hcall & Hmiss)]; [done|].
  destruct (step_flow ts tgids _ w' a c W D Hc Hs) as (c' & Hctl & Hf & Hh).
  destruct (wait_flow (module p) a c c' i W Hc Hcall Hf) as [Hlk Hnext].
  assert (store_id a w' p = p) as -> by (unfold store_id; rewrite Hc; by destruct c).
  apply (step_keeps p _ a c c'); try done; [by apply Hh|..].
  - intros m' s Hm' <-. by destruct (to_apart _ OK m' m).
  - intros m' Hm' Ha'. assert (m' = m) as -> by (by apply (to_crew _ OK m' m a)).
    destruct Hnext as [->|Hcall']; [by left|]. right. exists i. split_and!; try done.
    destruct (tv_live _ _ I m InJoin i Hm Hst eq_refl Hi) as [q Hq].
    apply (waiter_finds ts tgids (module p) w' a c c' q i); try done.
    + rewrite (process_found teams OK a m Hm) by (by right). destruct (tv_ids _ _ I _ _ Hi) as [Hr _]. by rewrite u32_id.
    + by rewrite Hctl, lookup_insert_eq.
Qed.

(** [barrier_init] links the barrier. *)

Lemma link_result w w' t c : world_inv ts tgids w -> is_link c = true -> control_of w !! t = Some c -> 
  step_at ts tgids t c w = WNext w' ->
  exists a q i, control_of w' = <[t := LinkUnlock a q]> (control_of w) /\ handed w' = (tgids t, i) :: handed w /\
    keyed w' q (tgids t, i).
Proof.
  intros W Hl Hc. destruct c as [| | | | | | | | | |n a q| | | | | | | | | | |]; try done.
  destruct (wi_control _ _ _ W t _ Hc) as [(pt & Hp & Ht) Hu]. cbn [step_at]. rewrite (at_proc _ _ _ _ Hp). intros [= <-].
  destruct (link_keyed ts tgids w t n a q pt W Hp Ht Hu) as (_ & Hk & _). by exists a, q, (bid_count pt).
Qed.

Lemma keyed_range w q x : world_inv ts tgids w -> keyed w q x -> 0 <= x.2 < 2 ^ 32.
Proof.
  intros W (a & pt & b & Hp & _ & Hn & Hb & <-). destruct (world_node ts tgids w a pt q W Hp Hn) as (b' & Hb' & _ & Hr). congruence.
Qed.

Lemma go_link p m c w' : team_inv p -> lucky p -> m ∈ teams -> stage_of p !! runner m = Some InInit ->
  barrier_id p !! runner m = None -> control_of (module p) !! runner m = Some c -> is_link c = true ->
  wexec ts tgids (Step (runner m)) (module p) = WNext w' -> team_inv (with_module w' (store_id (runner m) w' p)).
Proof.
  intros I Hl Hm Hst Hid Hc Hlk He. pose proof (wreach_inv _ _ _ (tv_world _ _ I)) as W.
  pose proof (team_disciplined teams OK p I Hl) as D. pose proof (wexec_keeps _ _ _ _ _ W D He) as W'.
  pose proof He as Hs. cbn [wexec] in Hs. unfold step in Hs. rewrite Hc in Hs.
  destruct (link_result (module p) w' (runner m) c W Hlk Hc Hs) as (a & q & i & Hctl & Hh & Hk).
  rewrite (process_found teams OK (runner m) m Hm) in Hh, Hk by (by left).
  assert (store_id (runner m) w' p = with_id (runner m) i p) as -> by (unfold store_id; rewrite Hc, Hh; by destruct c).
  assert ((pid m, i) ∉ handed (module p)) as Hnew.
  { pose proof (wi_nodup _ _ _ W') as Hn. rewrite Hh in Hn. by apply NoDup_cons in Hn as [? _]. }
  apply (team_rebuild teams OK p _ (runner m)); try done; cbn; rewrite ?Hctl, ?Hh.
  - eapply wreach_step; [apply I|done|done].
  - intros u Hu. by rewrite lookup_insert_ne.
  - intros r Hr. by rewrite lookup_insert_ne.
  - intros m' s j q' Hm' Hne _ _. by apply (others_keyed p (runner m)).
  - intros x Hx. by right.
  - intros m' s c0 Hm' E. rewrite Hst, lookup_insert_eq. intros [= <-] [= <-].
    assert (m' = m) as -> by (by apply (to_runner _ OK)). right. right. exists q, i. cbn. rewrite lookup_insert_eq.
    split_and!; try done. right. by exists a.
  - intros m' c0 Hm' Hin. by destruct (to_apart _ OK m m').
  - intros m' t c0 Hm' E Ht [->|(j & H1 & _)]; [by left|]. congruence.
  - intros j. rewrite lookup_insert_eq. intros [= <-]. right. split; [by apply (keyed_range w' q (pid m, i))|].
    exists m. split_and!; try done. by left.
  - cbn. rewrite map_size_insert_None by done. f_equal. apply I.
  - intros m' s j Hm' E _ _. rewrite lookup_insert_eq. intros [= <-].
    assert (m' = m) as -> by (by apply (to_runner _ OK)). by exists q.
Qed.

Lemma init_flow w t c c' : world_inv ts tgids w -> control_of w !! t = Some c -> pre_link c = true -> is_link c = false ->
  flow c c' -> (c' = Outside \/ pre_link c' = true) /\ forall k a q, c <> Recycle k a q.
Proof.
  intros W Hc Hp Hl Hf. pose proof (wi_control _ _ _ W t c Hc) as Hok.
  assert (forall d n, call_of d = Some (CInit n) -> pre_link d = true) as Hcall by (intros d n E; unfold pre_link; rewrite E; by destruct d).
  destruct c as [|k|k|k o|k a|k a j|k a j|k a o|n a|n a q|n a q|a q|q|k a o|k a q|k a q|k a q|a|a|a|a|a]; try done; cbn in Hf.
  all: try (split; [by right|done]).
  all: destruct k; try done; try (by destruct Hok); split; try done.
  all: destruct Hf as [->|Hf]; [by left|right]; try done; by eapply Hcall.
Qed.

Lemma destroy_flow c c' i : call_of c = Some (CDestroy i) -> flow c c' ->
  c' = Outside \/ (exists a, c' = RecycleUnlock a) \/ call_of c' = Some (CDestroy i).
Proof.
  intros Hc Hf. destruct c; try done; cbn in Hc; injection Hc as ->; cbn in Hf; try (by right; left; eexists);
    destruct Hf as [->|Hf]; auto.
Qed.

Lemma go_runner p m w' : team_inv p -> lucky p -> m ∈ teams ->
  wexec ts tgids (Step (runner m)) (module p) = WNext w' -> team_inv (with_module w' (store_id (runner m) w' p)).
Proof.
  intros I Hl Hm He. pose proof (wreach_inv _ _ _ (tv_world _ _ I)) as W. pose proof (team_disciplined teams OK p I Hl) as D.
  pose proof He as Hs. cbn [wexec] in Hs. unfold step in Hs.
  destruct (control_of (module p) !! runner m) as [c|] eqn:Hc; [|done].
  destruct (tv_stage _ _ I m Hm) as [s Hst]. pose proof (tv_runner _ _ I m s c Hm Hst Hc) as R.
  destruct (step_flow ts tgids _ w' (runner m) c W D Hc Hs) as (c' & Hctl & Hf & Hh).
  assert (c <> Outside) as Hout by (by intros ->).
  assert (is_link c = true -> s = InInit /\ barrier_id p !! runner m = None) as Hlink.
  { intros Hlk. destruct c; try done. destruct s; cbn in R; naive_solver. }
  destruct (is_link c) eqn:Hlk; [destruct (Hlink eq_refl) as [-> Hid]; by eapply go_link|].
  assert (store_id (runner m) w' p = p) as -> by (unfold store_id; rewrite Hc; by destruct c).
  apply (step_keeps p _ (runner m) c c'); try done; [by apply Hh| |intros m' Hm' Hin; by destruct (to_apart _ OK m m')].
  intros m' s' Hm' E Hs'. assert (m' = m) as -> by (by apply (to_runner _ OK)). assert (s' = s) as -> by congruence.
  assert (forall q x, (forall k a q', c <> Recycle k a q') -> keyed (module p) q x -> keyed w' q x) as Hkeep.
  { intros q x Hno Hk. apply (keyed_step ts tgids (Step (runner m)) (module p)); try done. intros t k a [= <-] Hr. rewrite Hc in Hr.
    injection Hr as ->. by eapply Hno. }
  destruct s; cbn in R; try (by destruct R); try done.
  - destruct R as [?|[[Hp Hid]|(q & i & Hq & Hid & Hk)]]; [done|..].
    + destruct (init_flow (module p) (runner m) c c' W Hc Hp Hlk Hf) as [Hn Hno]. split; [|by intros].
      destruct Hn as [->|Hp']; [by left|by right; left].
    + destruct Hq as [->|[a ->]]; cbn in Hf; subst c'; (split; [|done]); [by left|]. right. right. exists q, i.
      split_and!; try done; [by left|]. by apply Hkeep.
  - destruct R as [Hleft (i & Hi & Hcase)]. split; [|done]. split; [done|]. exists i. split; [done|].
    destruct Hcase as [?|[[a ->]|Hcall]]; [done|cbn in Hf; by left|by eapply destroy_flow].
Qed.

Lemma program_signal_inv p t w' : team_inv p -> lucky p -> wexec ts tgids (Interrupt t) (module p) = WNext w' ->
  team_inv (with_module w' p).
Proof.
  intros I Hl He. pose proof (wreach_inv _ _ _ (tv_world _ _ I)) as W. pose proof (team_disciplined teams OK p I Hl) as D.
  assert (control_of w' = control_of (module p) /\ handed w' = handed (module p)) as [Hctl Hh].
  { cbn [wexec] in He. destruct (control_of (module p) !! t) as [[]|]; try (by injection He as <-); try done.
    unfold in_machine in He. repeat case_match; try done. by injection He as <-. }
  assert (forall q x, keyed (module p) q x -> keyed w' q x) as Hk.
  { intros q x Hq. by apply (keyed_step ts tgids (Interrupt t) (module p)). }
  apply (team_rebuild teams OK p _ t); try done; cbn; rewrite ?Hctl, ?Hh; try done.
  - eapply wreach_step; [apply I|done|done].
  - intros m s i q _ _ _ _ _. apply Hk.
  - intros m s c Hm Ht Hs Hc. rewrite <- Ht in Hs, Hc. pose proof (tv_runner _ _ I m s c Hm Hs Hc) as R.
    destruct s; try done. destruct R as [?|[?|(q & i & H1 & H2 & H3)]]; [by left|by right; left|right; right].
    exists q, i. split_and!; try done. by apply Hk.
  - intros m c Hm Hin Hc. exact (tv_worker _ _ I m t c Hm Hin Hc).
  - intros i Hi. by left.
  - apply I.
  - intros m s i Hm Ht Hs Hn Hi. rewrite <- Ht in Hs, Hi. destruct (tv_live _ _ I m s i Hm Hs Hn Hi) as [q Hq]. exists q. by apply Hk.
Qed.

(** ** The whole program *)

Lemma launched_inv : team_inv (launched teams).
Proof.
  assert (forall t c, control_of (boot (L := L) ts) !! t = Some c -> c = Outside) as Hout.
  { intros t c. cbn. by intros [_ <-]%lookup_gset_to_gmap_Some. }
  assert (forall r s, stage_of (launched (L := L) teams) !! r = Some s -> s = BeforeInit) as Hst.
  { intros r s H. apply elem_of_list_to_map_2 in H. apply list_elem_of_fmap in H as (m & [= -> ->] & _). done. }
  split; try done.
  - constructor.
  - intros m s c Hm ->%Hst ->%Hout. by split.
  - intros m t c _ _ ->%Hout. by left.
  - intros m Hm. cbn. destruct (list_to_map ((λ m, (runner m, BeforeInit)) <$> teams) !! runner m) eqn:E; [by eexists|].
    apply not_elem_of_list_to_map_2 in E. destruct E. rewrite <- list_fmap_compose. apply list_elem_of_fmap. by exists m.
Qed.

Lemma program_exec_inv p l p' : team_inv p -> lucky p -> program_exec teams garbage l p = PNext p' -> lucky p' -> team_inv p'.
Proof.
  intros I Hl He Hl'. destruct l as [r|r|t|t|t|r|r]; cbn [program_exec] in He.
  - destruct (team_run_by teams r) as [m|] eqn:E; [|done]. apply run_by_some in E as [Hm _]. by eapply begin_inv.
  - destruct (team_run_by teams r) as [m|] eqn:E; [|done]. apply run_by_some in E as [Hm _]. by eapply made_inv.
  - destruct (team_worked_by teams t) as [m|] eqn:E; [|done]. apply worked_by_some in E as [Hm Ht]. by eapply work_inv.
  - unfold after in He. destruct (wexec ts tgids (Step t) (module p)) as [w'| |] eqn:Hs; try done. injection He as <-.
    destruct (control_of (module p) !! t) as [c|] eqn:Hc; [|cbn in Hs; unfold step in Hs; by rewrite Hc in Hs].
    destruct (control_team teams OK p t c I Hc) as (m & Hm & [->|Ht]); [by apply go_runner|by eapply go_worker].
  - unfold after in He. destruct (wexec ts tgids (Interrupt t) (module p)) as [w'| |] eqn:Hs; try done. injection He as <-.
    by eapply program_signal_inv.
  - destruct (team_run_by teams r) as [m|] eqn:E; [|done]. apply run_by_some in E as [Hm _]. by eapply joined_inv.
  - by eapply runner_leave_inv.
Qed.

Lemma lucky_inv p : lucky_run teams garbage p -> team_inv p /\ lucky p.
Proof.
  induction 1 as [|p l p' _ [I Hl] He Hl']; [|split; [by eapply program_exec_inv|done]].
  split; [apply launched_inv|]. split; [done|]. intros t c a q i. cbn. by intros [_ <-]%lookup_gset_to_gmap_Some.
Qed.

(** Who left has made all its calls. *)

Lemma left_counter p : lucky_run teams garbage p -> forall t, t ∈ left p -> counter p !! t = Some SYNC_ROUNS.
Proof.
  induction 1 as [|p l p' _ IH He _]; [by intros t ?%elem_of_empty|].
  destruct l as [r|r|t|t|t|r|r]; cbn [program_exec] in He; unfold begin, made, joined, enter, after in He;
    try (repeat case_match; simplify_eq; exact IH).
  - destruct (team_worked_by teams t) as [m|]; [|done]. unfold work, enter, after in He.
    destruct (stage_of p !! runner m) as [[]|]; try done. destruct (barrier_id p !! runner m); [|done].
    destruct (counter p !! t) as [k|] eqn:Hk; [|done]. destruct (bool_decide (t ∈ left p)) eqn:Hl; [done|].
    apply bool_decide_eq_false in Hl. cbn [orb] in He. destruct (is_outside t p); [|done]. cbn [negb] in He.
    destruct (Z.eqb_spec k SYNC_ROUNS) as [->|]; [injection He as <-; cbn; intros u [->%elem_of_singleton|Hu]%elem_of_union; auto|].
    destruct (wexec _ _ _ _); try done. injection He as <-. cbn. intros u Hu. rewrite lookup_insert_ne; [by apply IH|congruence].
  - destruct (wexec _ _ _ _) as [w'| |]; try done. injection He as <-. unfold store_id. cbn.
    repeat case_match; exact IH.
Qed.

(** C11: any number of teams, below 2^32 - 1 and with threads of their own, of
    the test program (two in each process of main) on the whole module,
    whatever the scheduler and signals do: as long as no barrier_init is
    refused and no process destroys its only barrier, no thread ever follows
    a bad pointer, unless kmalloc has no memory for a barrier_init, which
    does not test its result; and when a runner is in barrier_destroy all
    its workers have returned from their SYNC_ROUNS waits. *)

Theorem teams_are_safe p l f :
  lucky_run teams garbage p ->
  (program_exec teams garbage l p = PFault f -> f = NullDeref /\ kmalloc (taken (module p)) = None) /\
  forall m t, m ∈ teams -> stage_of p !! runner m = Some InDestroy -> t ∈ crew m ->
    counter p !! t = Some SYNC_ROUNS /\ control_of (module p) !! t = Some Outside.
Proof.
  intros Hp. destruct (lucky_inv p Hp) as [I Hl]. pose proof (wreach_inv _ _ _ (tv_world _ _ I)) as W. split.
  - assert (forall t k next, after (wexec ts tgids (Enter t k) (module p)) next <> PFault f) as Henter.
    { intros t k next. cbn [wexec]. destruct (control_of (module p) !! t) as [[]|]; try done. destruct k as [n|i|i]; [by destruct (n <? 0)|done|done]. }
    intros He. destruct l as [r|r|t|t|t|r|r]; cbn [program_exec] in He; unfold begin, made, work, joined, enter in He.
    1-3, 6-7: exfalso; revert He; repeat first [done|apply Henter|match goal with |- context [match ?x with _ => _ end] => destruct x end].
    + destruct (wexec ts tgids (Step t) (module p)) as [| |g] eqn:Hs; try done. injection He as ->. cbn [wexec] in Hs. unfold step in Hs.
      destruct (control_of (module p) !! t) as [c|] eqn:Hc; [|done].
      apply (step_at_faults ts tgids _ t c f W Hc) in Hs as [-> [(i & a & ->)|[_ Hn]]]; [|by split]. exfalso.
      destruct (control_team teams OK p t _ I Hc) as (m & Hm & [->|Ht]).
      * destruct (tv_stage _ _ I m Hm) as [s Hs]. pose proof (tv_runner _ _ I m s _ Hm Hs Hc) as R. destruct s; cbn in R; naive_solver.
      * destruct (tv_worker _ _ I m t _ Hm Ht Hc) as [?|(j & _ & _ & _ & _ & Hmiss)]; [done|]. by destruct a.
    + unfold after in He. destruct (wexec ts tgids (Interrupt t) (module p)) as [| |g] eqn:Hs; try done. by apply interrupt_no_fault in Hs.
  - intros m t Hm Hs Ht. assert (is_Some (control_of (module p) !! runner m)) as [c Hc].
    { apply (wi_dom _ _ _ W), (thread_team teams OK). exists m. split; [done|by left]. }
    assert (is_Some (control_of (module p) !! t)) as [d Hd].
    { apply (wi_dom _ _ _ W), (thread_team teams OK). exists m. split; [done|by right]. }
    destruct (tv_runner _ _ I m _ c Hm Hs Hc) as [Hleft _]. split; [by apply left_counter, Hleft|].
    destruct (tv_worker _ _ I m t d Hm Ht Hd) as [->|(i & _ & H & _)]; [done|congruence].
Qed.
End teams.
