(* ===== verification/BarrierTeamsWitness.v ===== *)
(** * The test program on the whole module: schedules that run *)

From S2P Require Import Prelude Kernel BarrierData BarrierSync BarrierSyncProofs.
From S2P Require Import BarrierRegistry BarrierRegistryProofs BarrierTest BarrierWorld BarrierWorldProofs BarrierWorldInv.
From S2P Require Import BarrierWorldSpec BarrierWorldRefine BarrierWorldWitness BarrierTeams BarrierTeamsProofs BarrierTeamsSpec.

(** ** A scheduler: the first label of a list that can fire *)

Section scheduler.
Context (teams : list team) (garbage : Z -> Z).

Definition labels : list program_label :=
  let runners := runner <$> teams in
  let workers := mbind (M := list) (fun m => elements (crew m)) teams in
  (Go <$> (runners ++ workers)) ++ (Work <$> workers) ++ (Begin <$> runners) ++ (Made <$> runners) ++
  (Joined <$> runners) ++ (Leave <$> runners).

Fixpoint first_step (ls : list program_label) (p : program (list loc)) : option (program_label * program_result) :=
  match ls with
  | [] => None
  | l :: ls => match program_exec teams garbage l p with PStuck => first_step ls p | r => Some (l, r) end
  end.

(** At most [n] steps: what happened, newest last, and where it led. *)

Fixpoint schedule (n : nat) (p : program (list loc)) : list program_label :=
  match n with
  | O => []
  | S n =>
      match first_step labels p with
      | Some (l, PNext p') => l :: schedule n p'
      | Some (l, _) => [l]
      | None => []
      end
  end.
End scheduler.

Definition failed (r : program_result (L := list loc)) : option fault := match r with PFault f => Some f | _ => None end.

Definition refusals (r : program_result (L := list loc)) : list Z := match r with PNext p => elements (refused p) | _ => [] end.

(** ** One team, to its end *)

Definition lone : list team := dev_run2 1 100.

Definition lone_schedule : list program_label := schedule lone (fun _ => 0) (Z.to_nat 4000) (launched lone).

(** ** Two [barrier_init]s of a process at once *)

Definition pair : list team := fork_run 1 100.

Definition colliding : list program_label :=
  [Begin 100; Begin 106] ++ replicate 4 (Go 100) ++ replicate 4 (Go 106) ++ replicate 8 (Go 100) ++ replicate 3 (Go 106) ++ [Made 106].

(** The test program does not always have that luck: a team that is alone
    in its process ends in barrier_destroy with a use of the freed ptgid; and
    of the two teams of [fork_run] one can be refused its barrier, because it
    read [bid_count] before the other one linked its barrier and looked for
    that number after. *)

Example test_program_can_break :
  (exists ls, program_run lone (fun _ => 0) ls (launched (L := list loc) lone) = PFault UseAfterFree) /\
  (exists p, program_run pair (fun _ => 0) colliding (launched (L := list loc) pair) = PNext p /\
     refused p = {[106]} /\ barrier_id p !! 100 = Some 0 /\ handed (module p) = [(1, 0)]).
Proof.
  split; [exists lone_schedule; vm_compute; reflexivity|]. eexists. split; [vm_compute; reflexivity|]. by split_and!.
Qed.

(** ** The theorem at a schedule *)

Definition twins : list team := dev_run3 1 100.

Lemma crew_range a t n u : u ∈ crew (run_team a t n) <-> t + 1 <= u < t + 1 + n.
Proof. cbn. by rewrite elem_of_list_to_set, elem_of_seqZ. Qed.

(** Teams on ranges of threads that do not meet. *)

Ltac distinct_teams :=
  repeat match goal with
         | H : _ ∈ _ :: _ |- _ => apply elem_of_cons in H as [->|H]
         | H : _ ∈ [] |- _ => by apply elem_of_nil in H
         | H : _ ∈ crew _ |- _ => rewrite crew_range in H
         | |- _ ∉ crew _ => rewrite crew_range
         end; cbn in *; lia || done.

Lemma twins_ok : teams_ok twins.
Proof. split; [intros m m' H H' E|intros m m' t H H' E E'|intros m m' H H'|done]; unfold twins, dev_run3 in *; distinct_teams. Qed.

Lemma main_run_ok : teams_ok main_run.
Proof.
  split; [intros m m' H H' E|intros m m' t H H' E E'|intros m m' H H'|done]; unfold main_run, fork_run in *; cbn [app] in *; distinct_teams.
Qed.

Definition lucky_b (p : program (list loc)) : bool :=
  bool_decide (refused p = ∅) && keeps_b (process_of twins) (module p).

Fixpoint lucky_reached (ls : list program_label) (p : program (list loc)) : option (program (list loc)) :=
  match ls with
  | [] => Some p
  | l :: ls =>
      match program_exec twins (fun _ => 0) l p with
      | PNext p' => if lucky_b p' then lucky_reached ls p' else None
      | _ => None
      end
  end.

Lemma lucky_reached_run ls p p' :
  lucky_run twins (fun _ => 0) p -> lucky_reached ls p = Some p' -> lucky_run twins (fun _ => 0) p'.
Proof.
  revert p. induction ls as [|l ls IH]; intros p R; cbn; [by intros [= <-]|].
  destruct (program_exec twins (fun _ => 0) l p) as [p1| |] eqn:E; try done. destruct (lucky_b p1) eqn:Hl; [|done].
  apply IH. eapply lucky_step; [done|done|]. unfold lucky_b in Hl. apply andb_prop in Hl as [H1 H2].
  split; [by apply bool_decide_eq_true in H1|]. by apply keeps_b_sound.
Qed.

(** The first team's runner is about to unlink its barrier. *)

Definition first_joined : program (list loc) :=
  default (launched twins) (lucky_reached
    (schedule twins (fun _ => 0) (Z.to_nat 3900) (launched twins) ++ Joined 100 :: replicate 11 (Go 100)) (launched twins)).

Lemma first_joined_run : lucky_run twins (fun _ => 0) first_joined.
Proof.
  unfold first_joined. destruct (lucky_reached _ (launched twins)) as [p|] eqn:E; cbn; [|constructor].
  eapply lucky_reached_run, E. constructor.
Qed.

Lemma teams_are_safe_witness :
  control_of (module first_joined) !! 100 = Some (Recycle (CDestroy 0) 1%positive 2%positive) /\
  (program_exec twins (fun _ => 0) (Go 100) first_joined = PFault UseAfterFree ->
     UseAfterFree = NullDeref /\ kmalloc (taken (module first_joined)) = None) /\
  counter first_joined !! 101 = Some SYNC_ROUNS.
Proof.
  assert (run_team 1 100 2 ∈ twins) as Hin by (by left).
  assert (101 ∈ crew (run_team 1 100 2)) as Hcrew by (apply crew_range; lia).
  assert (control_of (module first_joined) !! 100 = Some (Recycle (CDestroy 0) 1%positive 2%positive) /\
    stage_of first_joined !! 100 = Some InDestroy) as [Hc Hs] by (vm_compute; split; reflexivity).
  destruct (teams_are_safe twins (fun _ => 0) twins_ok first_joined (Go 100) UseAfterFree first_joined_run) as [Hf Hd].
  exact (conj Hc (conj Hf (proj1 (Hd (run_team 1 100 2) 101 Hin Hs Hcrew)))).
Defined.
