(* ===== verification/UserMemory.v ===== *)
(** * The memory of user processes

    What [copy_from_user] and [copy_to_user] promise, and the layout of C
    integers and structures as little-endian bytes. *)

From S2P Require Import Prelude Kernel.

(** ** Little-endian integers *)

Fixpoint le_bytes (n : nat) (z : Z) : list Z :=
  match n with
  | O => []
  | S n => z mod 256 :: le_bytes n (z / 256)
  end.

Fixpoint le_value (bs : list Z) : Z :=
  match bs with
  | [] => 0
  | b :: bs => b + 256 * le_value bs
  end.

Lemma length_le_bytes n z : length (le_bytes n z) = n.
Proof. revert z. induction n; intros z; simpl; [done|by f_equal]. Qed.

Lemma le_value_bytes n z : le_value (le_bytes n z) = z mod 2 ^ (8 * Z.of_nat n).
Proof.
  revert z. induction n as [|n IH]; intros z; cbn [le_bytes le_value]; [by rewrite Z.mod_1_r|].
  rewrite IH. replace (8 * Z.of_nat (S n)) with (8 + 8 * Z.of_nat n) by lia.
  rewrite Z.pow_add_r by lia. change (2 ^ 8) with 256.
  rewrite Z.rem_mul_r by (pose proof (pow2_pos (8 * Z.of_nat n)); lia). lia.
Qed.

(** [int], [unsigned int], [unsigned long long] and pointers as stored. *)

Definition put_int (z : Z) : list Z := le_bytes 4 z.

Definition get_int (bs : list Z) : Z := s32 (le_value (take 4 bs)).

Definition put_u64 (z : Z) : list Z := le_bytes 8 z.

Definition get_u64 (bs : list Z) : Z := le_value (take 8 bs).

Lemma get_put_int z bs : get_int (put_int z ++ bs) = s32 z.
Proof.
  unfold get_int, put_int. rewrite take_app_length' by (by rewrite length_le_bytes).
  rewrite le_value_bytes. change (2 ^ (8 * Z.of_nat 4)) with (2 ^ 32).
  unfold s32. rewrite Zplus_mod_idemp_l. done.
Qed.

Lemma get_put_u64 z bs : get_u64 (put_u64 z ++ bs) = u64 z.
Proof.
  unfold get_u64, put_u64. rewrite take_app_length' by (by rewrite length_le_bytes).
  by rewrite le_value_bytes.
Qed.

(** ** The interface

    [fetch u a n] is [copy_from_user(_, a, n)]: the bytes now in the
    destination and the number of bytes that could not be copied.  [store u a
    bs] is [copy_to_user(a, bs, _)].  Only addresses below the kernel's pass
    [access_ok]. *)

Class UserMemory (U : Type) := {
  access_ok : Z -> bool;
  fetch : U -> Z -> nat -> list Z * Z;
  store : U -> Z -> list Z -> U * Z;
  fetch_length u a n : length (fetch u a n).1 = n;
  fetch_left u a n : 0 <= (fetch u a n).2 <= Z.of_nat n;
  store_left u a bs : 0 <= (store u a bs).2 <= Z.of_nat (length bs);
  store_refused u a bs : access_ok a = false -> store u a bs = (u, Z.of_nat (length bs));
  fetch_store u a bs u' : Forall (fun b => 0 <= b < 256) bs -> store u a bs = (u', 0) ->
    fetch u' a (length bs) = (bs, 0);
  fetch_store_ne u a bs u' r a' n : store u a bs = (u', r) ->
    (a' + Z.of_nat n <= a \/ a + Z.of_nat (length bs) <= a') -> fetch u' a' n = fetch u a' n;
  store_keeps u a bs a' cs : (store (store u a bs).1 a' cs).2 = (store u a' cs).2;
  fetch_app u a n m bs cs : fetch u a n = (bs, 0) -> fetch u (a + Z.of_nat n) m = (cs, 0) ->
    fetch u a (n + m) = (bs ++ cs, 0)
}.

(** Every copy of [n] bytes to [a] succeeds. *)

Definition writable {U} `{UserMemory U} (u : U) (a : Z) (n : nat) : Prop :=
  forall bs, length bs = n -> (store u a bs).2 = 0.

Lemma writable_store {U} `{UserMemory U} (u : U) a bs a' n :
  writable u a' n -> writable (store u a bs).1 a' n.
Proof. intros Hw cs Hl. rewrite store_keeps. by apply Hw. Qed.

Lemma fetch_not_negative {U} `{UserMemory U} (u : U) a n : ((fetch u a n).2 <? 0) = false.
Proof. apply Z.ltb_ge. apply fetch_left. Qed.

Lemma store_not_negative {U} `{UserMemory U} (u : U) a bs : ((store u a bs).2 <? 0) = false.
Proof. apply Z.ltb_ge. apply store_left. Qed.

Section copies.
Context {U S : Type} `{UserMemory U}.
Implicit Types (w : sys U S).

Definition with_user (u : U) w : sys U S := {| st := st w; requests := requests w; user := u |}.

(** The results are the numbers the kernel functions return. *)

Definition copy_from_user (a : Z) (n : nat) : M (sys U S) (list Z * Z) := fun w =>
  Ok (fetch (user w) a n) w.

Definition copy_to_user (a : Z) (bs : list Z) : M (sys U S) Z := fun w =>
  let r := store (user w) a bs in Ok r.2 (with_user r.1 w).

(** Reading or writing through a user pointer without the copy functions:
    only a mapped address survives. *)

Definition load_user (a : Z) (n : nat) : M (sys U S) (list Z) := fun w =>
  let r := fetch (user w) a n in if r.2 =? 0 then Ok r.1 w else Crash BadUserAccess w.

Definition write_user (a : Z) (bs : list Z) : M (sys U S) unit := fun w =>
  let r := store (user w) a bs in
  if r.2 =? 0 then Ok tt (with_user r.1 w) else Crash BadUserAccess w.

Lemma copy_from_user_ok a n w : copy_from_user a n w = Ok (fetch (user w) a n) w.
Proof. done. Qed.

Lemma load_user_ok a n w bs : fetch (user w) a n = (bs, 0) -> load_user a n w = Ok bs w.
Proof. intros E. unfold load_user. by rewrite E. Qed.
End copies.

Lemma put_int_bytes z : Forall (fun b => 0 <= b < 256) (put_int z).
Proof. repeat (apply Forall_cons; split; [apply Z.mod_pos_bound; lia|]). by apply Forall_nil. Qed.

Lemma put_u64_bytes z : Forall (fun b => 0 <= b < 256) (put_u64 z).
Proof. repeat (apply Forall_cons; split; [apply Z.mod_pos_bound; lia|]). by apply Forall_nil. Qed.

(** ** An instance: the mapped bytes as a finite map

    A copy stops at the first unmapped byte; the rest of the destination of
    [copy_from_user] is zeroed. *)

Section instance.
Implicit Types (u : gmap Z Z).

Definition user_top : Z := 2 ^ 47.

Fixpoint map_fetch u (a : Z) (n : nat) : list Z * Z :=
  match n with
  | O => ([], 0)
  | S n =>
      match u !! a with
      | Some b => let r := map_fetch u (a + 1) n in (b :: r.1, r.2)
      | None => (replicate (S n) 0, Z.of_nat (S n))
      end
  end.

Fixpoint map_store u (a : Z) (bs : list Z) : gmap Z Z * Z :=
  match bs with
  | [] => (u, 0)
  | b :: bs' =>
      match u !! a with
      | Some _ => map_store (<[a := b]> u) (a + 1) bs'
      | None => (u, Z.of_nat (length bs))
      end
  end.

Definition map_access_ok (a : Z) : bool := (0 <=? a) && (a <? user_top).

Definition map_store' u (a : Z) (bs : list Z) : gmap Z Z * Z :=
  if map_access_ok a then map_store u a bs else (u, Z.of_nat (length bs)).

Lemma map_fetch_left u a n : 0 <= (map_fetch u a n).2 <= Z.of_nat n.
Proof.
  revert a. induction n as [|n IH]; intros a; simpl; [lia|].
  destruct (u !! a); simpl; [|lia]. specialize (IH (a + 1)). lia.
Qed.

Lemma map_store_left u a bs : 0 <= (map_store u a bs).2 <= Z.of_nat (length bs).
Proof.
  revert u a. induction bs as [|b bs IH]; intros u a; simpl; [lia|].
  destruct (u !! a); simpl; [|lia]. specialize (IH (<[a := b]> u) (a + 1)). lia.
Qed.

Lemma map_store_below u a bs k : k < a -> (map_store u a bs).1 !! k = u !! k.
Proof.
  revert u a. induction bs as [|b bs IH]; intros u a Hk; simpl; [done|].
  destruct (u !! a); [|done]. rewrite IH by lia. by rewrite lookup_insert_ne by lia.
Qed.

Lemma map_store_above u a bs k : a + Z.of_nat (length bs) <= k -> (map_store u a bs).1 !! k = u !! k.
Proof.
  revert u a. induction bs as [|b bs IH]; intros u a Hk; simpl in *; [done|].
  destruct (u !! a); [|done]. rewrite IH by lia. by rewrite lookup_insert_ne by lia.
Qed.

Lemma map_fetch_agree u u' a n :
  (forall k, a <= k < a + Z.of_nat n -> u !! k = u' !! k) -> map_fetch u a n = map_fetch u' a n.
Proof.
  revert a. induction n as [|n IH]; intros a E; cbn [map_fetch]; [done|].
  rewrite (E a) by lia. destruct (u' !! a); [|done]. rewrite (IH (a + 1)); [done|].
  intros k Hk. apply E. lia.
Qed.

Lemma map_fetch_store u a bs u' :
  map_store u a bs = (u', 0) -> map_fetch u' a (length bs) = (bs, 0).
Proof.
  revert u a. induction bs as [|b bs IH]; intros u a E; cbn [map_store map_fetch length] in *; [done|].
  destruct (u !! a); [|by injection E; lia].
  assert (u' !! a = Some b) as ->.
  { pose proof (map_store_below (<[a := b]> u) (a + 1) bs a ltac:(lia)) as Hb.
    rewrite E in Hb. simpl in Hb. by rewrite Hb, lookup_insert_eq. }
  by rewrite (IH _ _ E).
Qed.

Lemma map_fetch_app u a n m bs cs :
  map_fetch u a n = (bs, 0) -> map_fetch u (a + Z.of_nat n) m = (cs, 0) ->
  map_fetch u a (n + m) = (bs ++ cs, 0).
Proof.
  revert a bs. induction n as [|n IH]; intros a bs E1 E2; cbn [map_fetch Nat.add] in *.
  - injection E1 as <-. replace (a + Z.of_nat 0) with a in E2 by lia. done.
  - destruct (u !! a); [|by injection E1; lia].
    destruct (map_fetch u (a + 1) n) as [r k] eqn:Er. simpl in E1. injection E1 as <- ->.
    replace (a + Z.of_nat (S n)) with (a + 1 + Z.of_nat n) in E2 by lia.
    by rewrite (IH _ _ Er E2).
Qed.

Lemma map_store_dom u a bs k : is_Some ((map_store u a bs).1 !! k) <-> is_Some (u !! k).
Proof.
  revert u a. induction bs as [|b bs IH]; intros u a; simpl; [done|].
  destruct (u !! a) as [v|] eqn:Ea; [|done]. rewrite IH, lookup_insert_is_Some'.
  split; [intros [<-|?]; [by eexists|done]|by right].
Qed.

Lemma map_store_left_agree u u' a bs :
  (forall k, is_Some (u !! k) <-> is_Some (u' !! k)) -> (map_store u a bs).2 = (map_store u' a bs).2.
Proof.
  revert u u' a. induction bs as [|b bs IH]; intros u u' a E; simpl; [done|].
  destruct (u !! a) eqn:Eu, (u' !! a) eqn:Eu'.
  - apply IH. intros k. by rewrite !lookup_insert_is_Some', E.
  - destruct (proj1 (E a)) as [? ?]; [by eexists|congruence].
  - destruct (proj2 (E a)) as [? ?]; [by eexists|congruence].
  - done.
Qed.

#[export] Instance map_UserMemory : UserMemory (gmap Z Z).
Proof.
  refine {| access_ok := map_access_ok; fetch := map_fetch; store := map_store' |}.
  - intros u a n. revert a. induction n as [|n IH]; intros a; simpl; [done|].
    destruct (u !! a); simpl; [by rewrite IH|]. by rewrite length_replicate.
  - apply map_fetch_left.
  - intros u a bs. unfold map_store'. destruct (map_access_ok a); [apply map_store_left|simpl; lia].
  - intros u a bs E. unfold map_store'. by rewrite E.
  - intros u a bs u' _ E. unfold map_store' in E. destruct (map_access_ok a); [by eapply map_fetch_store|].
    injection E as <- E. destruct bs; [done|simpl in E; lia].
  - intros u a bs u' r a' n E Hd. unfold map_store' in E. destruct (map_access_ok a); [|by injection E as <- _].
    apply map_fetch_agree. intros k Hk. replace u' with (map_store u a bs).1 by by rewrite E.
    destruct Hd; [apply map_store_below|apply map_store_above]; lia.
  - intros u a bs a' cs. unfold map_store'. destruct (map_access_ok a'); [|done].
    apply map_store_left_agree. intros k. destruct (map_access_ok a); [apply map_store_dom|done].
  - apply map_fetch_app.
Defined.

(** [n] mapped bytes from [a] on, all zero. *)

Fixpoint mapped (a : Z) (n : nat) : gmap Z Z :=
  match n with
  | O => ∅
  | S n => <[a := 0]> (mapped (a + 1) n)
  end.

Lemma mapped_is_Some a n j : 0 <= j < Z.of_nat n -> is_Some (mapped a n !! (a + j)).
Proof.
  revert a j. induction n as [|n IH]; intros a j Hj; [lia|]. cbn [mapped].
  apply lookup_insert_is_Some'. destruct (decide (j = 0)) as [->|]; [left; lia|right].
  replace (a + j) with (a + 1 + (j - 1)) by lia. apply IH. lia.
Qed.

Lemma writable_map (u : gmap Z Z) a n :
  (forall i, 0 <= i < Z.of_nat n -> is_Some (u !! (a + i))) -> map_access_ok a = true -> writable u a n.
Proof.
  intros Hm Ha bs <-. cbn [store map_UserMemory]. unfold map_store'. rewrite Ha. clear Ha.
  revert u a Hm. induction bs as [|b bs IH]; intros u a Hm; [done|]. cbn [map_store].
  destruct (Hm 0) as [v Hv]; [simpl; lia|]. rewrite Z.add_0_r in Hv. rewrite Hv.
  apply IH. intros i Hi. apply lookup_insert_is_Some'. right.
  replace (a + 1 + i) with (a + (i + 1)) by lia. apply Hm. simpl. lia.
Qed.
End instance.
