(* ===== verification/BarrierCalls.v ===== *)
(** * The barrier device: ioctls, module entry points, user library

    The calls a process makes reach the registry of [BarrierRegistry] through
    a user pointer, in the module of 04_barrier_driver_module/eosi_barrier.c;
    programs make them through barrier_test/barrier_user_sys.h.  [current] is
    the calling thread everywhere.  A call that sleeps is [Blocked] in the
    state it leaves to the other threads; how it goes on is [BarrierSync]. *)

From S2P Require Import Prelude Kernel BarrierData BarrierRegistry UserMemory.

(** ** The ioctl numbers *)

Section codes.
Context {IC : IoctlCode}.

(** ['B'] *)

Definition BARRIER_W_MAGIC : Z := 66.

Definition BARRIER_INIT : Z := ioc IOC_W BARRIER_W_MAGIC 1.

Definition BARRIER_WAIT : Z := ioc IOC_R BARRIER_W_MAGIC 2.

Definition BARRIER_DESTROY : Z := ioc IOC_W BARRIER_W_MAGIC 3.
End codes.

(** ** [barrier_wait] until it sleeps *)

Section wait.
Context {L : Type} {KL : KList L}.

(** The body from [spin_lock(&barrier->lock_total)] on, for the barrier at
    [q].  A thread goes to sleep without the lock. *)

Definition wait_on (t : Z) (q : loc) : M (registry L) Z :=
  lock_barrier t q ;;
  b ← read_barrier q;
  if BARRIER_FLAG <? total b then unlock_barrier q ;; blocked else      (* 243-247 *)
  let tot := if total b =? BARRIER_FLAG then 0 else total b in
  write_barrier q (set_total b (u64 (tot + 1))) ;;
  b ← read_barrier q;
  if total b =? count b then
    write_barrier q (set_total b (u64 (total b + (BARRIER_FLAG - 1)))) ;;
    unlock_barrier q ;; mret 0
  else if total b <? BARRIER_FLAG then unlock_barrier q ;; blocked      (* 259-263 *)
  else
    write_barrier q (set_total b (u64 (total b - 1))) ;;
    unlock_barrier q ;; mret 0.

Definition barrier_wait (current : task) (barrier_id : Z) : M (registry L) Z :=
  q ← barrier_wait_lookup current barrier_id;
  wait_on (task_tid current) q.
End wait.

(** ** The ioctls of the module *)

Section calls.
Context {U L : Type} {UM : UserMemory U} {KL : KList L} {KM : Kmalloc} {IC : IoctlCode} {E : Environment}.
Implicit Types (w : sys U (registry L)).

(** The two fields of [struct barrier_info] at a user address: [int count]
    and, four bytes on, [unsigned int barrier_id]. *)

Definition get_uint (bs : list Z) : Z := le_value (take 4 bs).

Definition load_count (binfo : Z) : M (sys U (registry L)) Z :=
  bs ← load_user binfo 4; mret (get_int bs).

Definition load_barrier_id (binfo : Z) : M (sys U (registry L)) Z :=
  bs ← load_user (binfo + 4) 4; mret (get_uint bs).

(** The kernel itself writes through the pointer: nothing checks that it is
    one of the process's own addresses.  On an address of the kernel the write
    succeeds, and the kernel's own data is lost; nothing is said of a kernel
    after that. *)

Definition store_barrier_id (binfo i : Z) : M (sys U (registry L)) unit := fun w =>
  if access_ok (binfo + 4) then write_user (binfo + 4) (put_int i) w
  else if (fetch (user w) (binfo + 4) 4).2 =? 0 then Crash KernelOverwrite w
  else Crash BadUserAccess w.

Definition next_bid (pt : per_tgid L) : per_tgid L :=
  {| tgid := tgid pt; bid_count := u32 (bid_count pt + 1); barrier_size := barrier_size pt;
     barrier_head_lock := barrier_head_lock pt; barrier_head := barrier_head pt |}.

Definition one_more (q : loc) (pt : per_tgid L) : per_tgid L :=
  {| tgid := tgid pt; bid_count := bid_count pt; barrier_size := s32 (barrier_size pt + 1);
     barrier_head_lock := barrier_head_lock pt; barrier_head := kadd q (barrier_head pt) |}.

(** [barrier_init((barrier_info* )arg)]: every access to [*binfo] follows the
    user's pointer.  From line 161 on, with the process at [p]: *)

Definition link_at (current : task) (binfo : Z) (p : loc) : M (sys U (registry L)) Z :=
  pt ← lift (read_ptgid p);
  dup ← lift (get_barrier_from_ptgid (Some p) (s32 (bid_count pt)));
  match dup with
  | Some _ => mret (-1)
  | None =>
      q ← lift kmalloc_unchecked;
      lift (lock_head p) ;;
      pt ← lift (read_ptgid p);
      store_barrier_id binfo (bid_count pt) ;;
      lift (write_ptgid p (next_bid pt)) ;;
      count ← load_count binfo;
      barrier_id ← load_barrier_id binfo;
      modify_st (fun r => set_barriers (<[q := init_barrier_struct current count barrier_id]> (barriers r)) r) ;;
      pt ← lift (read_ptgid p);
      lift (write_ptgid p (one_more q pt)) ;;
      lift (unlock_head p) ;;
      mret 0
  end.

Definition barrier_init_at (current : task) (binfo : Z) : M (sys U (registry L)) Z :=
  count ← load_count binfo;
  if count <? 0 then mret (-1) else
  p ← lift (find_or_add_ptgid (task_tgid current));
  link_at current binfo p.

Definition eosi_barrier_ioctl (current : task) (cmd arg : Z) : M (sys U (registry L)) Z :=
  if cmd =? BARRIER_INIT then barrier_init_at current arg
  else if cmd =? BARRIER_WAIT then lift (barrier_wait current (u32 arg))
  else if cmd =? BARRIER_DESTROY then lift (barrier_destroy current (u32 arg))
  else mret (- EINVAL).

(** [open] and [release] do nothing. *)

Definition eosi_barrier_open : M (sys U (registry L)) Z := mret 0.

Definition eosi_barrier_release : M (sys U (registry L)) Z := mret 0.

(** ** Loading and unloading *)

Definition eosi_barrier_A : string := "eosi_barrier_1".

Definition eosi_barrier_B : string := "eosi_barrier_2".

Definition reg_misc (md : string) : M (sys U (registry L)) Z := kcall (Misc_register md).

Definition dereg_misc (md : string) : M (sys U (registry L)) unit := kcall_ (Misc_deregister md).

Definition eosi_barrier_init : M (sys U (registry L)) Z :=
  error ← reg_misc eosi_barrier_A;
  if negb (error =? 0) then mret 0 else
  error ← reg_misc eosi_barrier_B;
  mret 0.

Definition eosi_barrier_exit : M (sys U (registry L)) unit :=
  dereg_misc eosi_barrier_A ;;
  dereg_misc eosi_barrier_B.

(** ** The user library, built for the module

    [b1info] is the address of the variable on the caller's stack.  The
    results of [ioctl] are dropped. *)

Definition lib_barrier_init (current : task) (b1info count barrier_id : Z) : M (sys U (registry L)) Z :=
  write_user b1info (put_int count) ;;
  eosi_barrier_ioctl current BARRIER_INIT b1info ;;
  bs ← load_user (b1info + 4) 4;
  write_user barrier_id bs ;;
  mret 0.

Definition lib_barrier_wait (current : task) (barrier_id : Z) : M (sys U (registry L)) Z :=
  eosi_barrier_ioctl current BARRIER_WAIT barrier_id ;; mret 0.

Definition lib_barrier_destroy (current : task) (barrier_id : Z) : M (sys U (registry L)) Z :=
  eosi_barrier_ioctl current BARRIER_DESTROY barrier_id ;; mret 0.
End calls.
