(* ===== verification/BarrierKern.v ===== *)
(** * The system calls of the barrier (04_barrier_driver_module/kern_backup/barrier.c)

    The file repeats the functions of eosi_barrier.c, some under other names
    and with fewer messages; each is here the definition its text repeats.
    Its own are the three system calls; their numbers (syscall_32.tbl) and the
    functions of barrier_user_sys.h that call them are at the end. *)

From S2P Require Import Prelude Kernel BarrierData BarrierSync BarrierRegistry UserMemory BarrierCalls.

Section functions.
Context {L : Type} {KL : KList L} {KM : Kmalloc}.

Definition get_ptgid_without_lock : Z -> M (registry L) (option loc) := BarrierRegistry.get_ptgid_without_lock.

Definition get_ptgid : Z -> M (registry L) (option loc) := BarrierRegistry.get_ptgid.

Definition get_barrier_from_ptgid : option loc -> Z -> M (registry L) (option loc) :=
  BarrierRegistry.get_barrier_from_ptgid.

Definition get_barrier_only_from_id : task -> Z -> M (registry L) (option loc) :=
  BarrierRegistry.get_barrier_only_from_id.

Definition init_barrier_struct : task -> Z -> Z -> barrier_struct := BarrierData.init_barrier_struct.

(** [wake_up_here] and [sleep_here], which queues and sleeps in one step of its
    own and leaves the queue in another. *)

Definition kern_wake_up : config -> config := wake_up_here.

Definition kern_prepare_to_wait : Z -> pc -> config -> config := prepare_to_wait.

Definition do_barrier_init : task -> barrier_info -> M (registry L) (Z * barrier_info) := barrier_init.

Definition do_barrier_wait : task -> Z -> M (registry L) Z := barrier_wait.

Definition do_barrier_destroy : task -> Z -> M (registry L) Z := barrier_destroy.
End functions.

Section calls.
Context {U L : Type} {UM : UserMemory U} {KL : KList L} {KM : Kmalloc}.

(** [garbage] is what [binfo.barrier_id] holds before it is set.  The last
    [printk] follows the user's pointer. *)

Definition sys_barrier_init (current : task) (garbage count barrier_id : Z) : M (sys U (registry L)) Z :=
  '(ret, binfo) ← lift (do_barrier_init current {| bi_count := count; bi_barrier_id := garbage |});
  if ret <? 0 then mret ret else
  ret ← copy_to_user barrier_id (put_int (bi_barrier_id binfo));
  if ret <? 0 then mret ret else
  load_user barrier_id 4 ;;
  mret ret.

Definition sys_barrier_wait (current : task) (barrier_id : Z) : M (sys U (registry L)) Z :=
  lift (do_barrier_wait current barrier_id).

Definition sys_barrier_destroy (current : task) (barrier_id : Z) : M (sys U (registry L)) Z :=
  lift (do_barrier_destroy current barrier_id).

(** ** The caller's side *)

Definition BARRIER_INIT_SYS : Z := 351.

Definition BARRIER_WAIT_SYS : Z := 352.

Definition BARRIER_DESTROY_SYS : Z := 353.

Definition ENOSYS : Z := 38.

(** The kernel's table, for these numbers. *)

Definition sys_call (current : task) (garbage nr a1 a2 : Z) : M (sys U (registry L)) Z :=
  if nr =? 351 then sys_barrier_init current garbage (s32 a1) a2
  else if nr =? 352 then sys_barrier_wait current (u32 a1)
  else if nr =? 353 then sys_barrier_destroy current (u32 a1)
  else mret (- ENOSYS).

(** [syscall] of the C library: an error number becomes -1. *)

Definition syscall (current : task) (garbage nr a1 a2 : Z) : M (sys U (registry L)) Z :=
  r ← sys_call current garbage nr a1 a2;
  mret (if (-4095 <=? r) && (r <? 0) then -1 else r).

Definition usr_barrier_init (current : task) (garbage count barrier_id : Z) : M (sys U (registry L)) Z :=
  syscall current garbage BARRIER_INIT_SYS count barrier_id.

Definition usr_barrier_wait (current : task) (garbage barrier_id : Z) : M (sys U (registry L)) Z :=
  syscall current garbage BARRIER_WAIT_SYS barrier_id 0.

Definition usr_barrier_destroy (current : task) (garbage barrier_id : Z) : M (sys U (registry L)) Z :=
  syscall current garbage BARRIER_DESTROY_SYS barrier_id 0.
End calls.
