(* ===== verification/BarrierCallsSpec.v ===== *)
(** * What the calls of the barrier device promise

    [ioctl_refines_book]: every ioctl is a step on the book of barriers of
    [BarrierRegistrySpec], with the user's memory beside it.
    [lone_wait_follows_machine]: [barrier_wait] as one call is the run of the
    machine of [BarrierSync] in which only the caller moves. *)

From S2P Require Import Prelude Kernel BarrierData BarrierSync BarrierSyncProofs.
From S2P Require Import BarrierProgress BarrierRegistry BarrierRegistryProofs BarrierRegistrySpec.
From S2P Require Import UserMemory BarrierCalls.

(** ** What a wait does to a barrier *)

(** The threads counted_in once the caller is in. *)

Definition counted_in (b : barrier_struct) : Z :=
  u64 ((if total b =? BARRIER_FLAG then 0 else total b) + 1).

(** [Some 0]: the call returns; [None]: the caller sleeps. *)

Inductive waits (b : barrier_struct) : option Z -> barrier_struct -> Prop :=
  | waits_closed : BARRIER_FLAG < total b -> waits b None b
  | waits_last :
      total b <= BARRIER_FLAG -> counted_in b = count b ->
      waits b (Some 0) (set_total b (u64 (count b + (BARRIER_FLAG - 1))))
  | waits_joins :
      total b <= BARRIER_FLAG -> counted_in b <> count b -> counted_in b < BARRIER_FLAG ->
      waits b None (set_total b (counted_in b))
  | waits_flooded :
      total b <= BARRIER_FLAG -> counted_in b <> count b -> BARRIER_FLAG <= counted_in b ->
      waits b (Some 0) (set_total b (u64 (counted_in b - 1))).

Section wait.
Context {L : Type} {KL : KList L}.
Implicit Types (r : registry L) (q : loc).

Definition put_barrier q b r : registry L := set_barriers (<[q := b]> (barriers r)) r.

Lemma put_put q b b' r : put_barrier q b' (put_barrier q b r) = put_barrier q b' r.
Proof. unfold put_barrier, set_barriers; simpl. by rewrite insert_insert_eq. Qed.

Lemma put_same q b r : barriers r !! q = Some b -> put_barrier q b r = r.
Proof.
  intros H. unfold put_barrier, set_barriers. rewrite insert_id by done. by destruct r.
Qed.

Lemma put_lookup q b r : barriers (put_barrier q b r) !! q = Some b.
Proof. apply lookup_insert_eq. Qed.

Lemma read_put q b r : read_barrier q (put_barrier q b r) = Ok b (put_barrier q b r).
Proof. apply read_barrier_ok, put_lookup. Qed.

Lemma write_put q b b' r : write_barrier q b' (put_barrier q b r) = Ok tt (put_barrier q b' r).
Proof. rewrite (write_barrier_ok _ _ _ _ (put_lookup q b r)). f_equal. apply put_put. Qed.

Lemma lock_put t q b r :
  barriers r !! q = Some b -> lock_total b = None ->
  lock_barrier t q r = Ok tt (put_barrier q (set_lock b (Some t)) r).
Proof.
  intros Hb Hl. unfold lock_barrier. rewrite (bind_ok _ _ _ _ _ (read_barrier_ok _ _ _ Hb)), Hl.
  by apply (write_barrier_ok r q b).
Qed.

Lemma unlock_put t q b r :
  lock_total b = Some t -> unlock_barrier q (put_barrier q b r) = Ok tt (put_barrier q (set_lock b None) r).
Proof.
  intros Hl. unfold unlock_barrier. rewrite (bind_ok _ _ _ _ _ (read_put q b r)), Hl. apply write_put.
Qed.

(** The call on the barrier at [q]. *)

Definition ends_with (o : option Z) (r : registry L) : outcome (registry L) Z :=
  match o with Some a => Ok a r | None => Blocked r end.

Lemma blocked_after {S A B} (m : M S A) (s s' : S) a :
  m s = Ok a s' -> (m ;; (blocked : M S B)) s = Blocked s'.
Proof. intros H. by rewrite (bind_ok _ _ _ _ _ H). Qed.

Lemma wait_on_ok t q b r :
  barriers r !! q = Some b -> lock_total b = None ->
  exists o b', waits b o b' /\ wait_on t q r = ends_with o (put_barrier q b' r).
Proof.
  intros Hb Hl. unfold wait_on. rewrite (bind_ok _ _ _ _ _ (lock_put t q b r Hb Hl)).
  rewrite (bind_ok _ _ _ _ _ (read_put _ _ _)). cbn [total set_lock].
  destruct (Z.ltb_spec BARRIER_FLAG (total b)) as [Hc|Hc].
  { exists None, b. split; [by constructor|]. apply (blocked_after _ _ _ tt).
    rewrite (unlock_put t) by done. by rewrite relock_barrier. }
  rewrite (bind_ok _ _ _ _ _ (write_put _ _ _ _)), (bind_ok _ _ _ _ _ (read_put _ _ _)).
  cbn [total count set_total set_lock]. fold (counted_in b).
  destruct (Z.eqb_spec (counted_in b) (count b)) as [E|E].
  { eexists _, _. split; [by apply waits_last|].
    rewrite (bind_ok _ _ _ _ _ (write_put _ _ _ _)). rewrite E.
    erewrite bind_ok by (by apply (unlock_put t)). rewrite mret_ok. destruct b; simpl in *. by subst. }
  destruct (Z.ltb_spec (counted_in b) BARRIER_FLAG).
  - eexists _, _. split; [by apply waits_joins|]. apply (blocked_after _ _ _ tt).
    rewrite (unlock_put t) by done. destruct b; simpl in *. by subst.
  - eexists _, _. split; [by apply waits_flooded|].
    rewrite (bind_ok _ _ _ _ _ (write_put _ _ _ _)).
    erewrite bind_ok by (by apply (unlock_put t)). rewrite mret_ok. destruct b; simpl in *. by subst.
Qed.

Lemma waits_fields b o b' :
  waits b o b' -> id b' = id b /\ b_tgid b' = b_tgid b /\ count b' = count b /\ lock_total b' = lock_total b.
Proof. by destruct 1. Qed.

(** Only the counter of the barrier moves. *)

Lemma put_inv r q b b' :
  reg_inv r -> barriers r !! q = Some b ->
  id b' = id b -> b_tgid b' = b_tgid b -> lock_total b' = lock_total b -> reg_inv (put_barrier q b' r).
Proof.
  intros I Hb Hi Ht Hl.
  assert (forall q' x, barriers (put_barrier q b' r) !! q' = Some x ->
    exists y, barriers r !! q' = Some y /\ id x = id y) as Hold.
  { intros q' x. simpl. rewrite lookup_insert_Some. intros [[<- <-]|[_ ?]]; by eexists. }
  split; try apply I.
  - intros p pt Hp. pose proof (ri_pt _ I _ _ Hp) as IP. split; try apply IP.
    + intros q' Hn. destruct (pi_live _ _ IP q' Hn) as (x & Hx & Hx'). simpl.
      destruct (decide (q = q')) as [<-|]; [|rewrite lookup_insert_ne by done; by exists x].
      exists b'. rewrite lookup_insert_eq. simplify_eq. by rewrite Hi, Ht, Hl.
    + intros q1 q2 x y Hn1 Hn2 Hx Hy. apply Hold in Hx as (x' & Hx & ->), Hy as (y' & Hy & ->).
      by apply (pi_ids _ _ IP).
  - intros q' x Hx. apply Hold in Hx as (y & Hy & _). by apply (ri_owner _ I q' y).
Qed.

Lemma put_has r p pt q b b' tg i x :
  reg_inv r -> ptgids r !! p = Some pt -> node_of pt q -> barriers r !! q = Some b -> id b' = id b ->
  has_barrier (put_barrier q b' r) tg i x <->
  (tg = tgid pt /\ i = id b /\ x = b') \/ (has_barrier r tg i x /\ ~ (tg = tgid pt /\ i = id b)).
Proof.
  intros I Hp Hn Hb Hi. pose proof (ri_pt _ I _ _ Hp) as IP. unfold has_barrier; simpl. split.
  - intros (p' & pt' & q' & Hp' & <- & Hn' & Hx & <-). apply lookup_insert_Some in Hx as [[<- <-]|[Hne Hx]].
    + left. assert (p' = p) as -> by (by eapply owner_unique). by simplify_eq.
    + right. split; [by exists p', pt', q'|]. intros [Ht E].
      assert (p' = p) as -> by (by eapply (ri_tgid _ I)). simplify_eq.
      apply Hne. by apply (pi_ids _ _ IP q q' b x).
  - intros [(-> & -> & ->)|[(p' & pt' & q' & Hp' & <- & Hn' & Hx & <-) Hno]].
    + exists p, pt, q. by rewrite lookup_insert_eq.
    + exists p', pt', q'. split_and!; try done. rewrite lookup_insert_ne; [done|]. intros <-.
      apply Hno. assert (p' = p) as -> by (by eapply owner_unique). by simplify_eq.
Qed.

(** The whole call, on a registry that knows the number. *)

Lemma barrier_wait_ok r cur i b :
  reg_inv r -> has_barrier r (task_tgid cur) (u32 i) b ->
  exists o b' r', waits b o b' /\ barrier_wait cur i r = ends_with o r' /\ reg_inv r' /\
  forall tg' i' x, has_barrier r' tg' i' x <->
    (tg' = task_tgid cur /\ i' = u32 i /\ x = b') \/
    (has_barrier r tg' i' x /\ ~ (tg' = task_tgid cur /\ i' = u32 i)).
Proof.
  intros I (p & pt & q & Hp & Ht & Hn & Hb & Hi). pose proof (ri_pt _ I _ _ Hp) as IP.
  assert (lock_total b = None) as Hl by (destruct (pi_live _ _ IP q Hn) as (x & ? & _ & _ & ?); by simplify_eq).
  unfold barrier_wait. rewrite (bind_ok _ _ _ _ _ (wait_lookup_at r cur i p pt q b I Hp Ht Hn Hb Hi)).
  destruct (wait_on_ok (task_tid cur) q b r Hb Hl) as (o & b' & W & E).
  destruct (waits_fields b o b' W) as (Hi' & Ht' & _ & Hl').
  exists o, b', (put_barrier q b' r). split_and!; [done|done|by apply (put_inv r q b)|].
  intros tg' i' x. rewrite (put_has r p pt q b b') by done. by rewrite Ht, Hi.
Qed.
End wait.

(** ** The same wait on the machine *)

(** [t], running alone, gets from [c] to a configuration that satisfies [P]. *)

Definition alone_to (t : Z) (c : config) (P : config -> Prop) : Prop :=
  exists n c', run (replicate n (Run t)) c = Next c' /\ P c'.

Lemma alone_now t c (P : config -> Prop) : P c -> alone_to t c P.
Proof. by exists 0%nat, c. Qed.

Lemma alone_step t c c' (P : config -> Prop) : exec (Run t) c = Next c' -> alone_to t c' P -> alone_to t c P.
Proof. intros Hs (n & c1 & Hr & HP). exists (S n), c1. cbn [replicate run]. by rewrite Hs. Qed.

(** How a call stands that returned ([Some _]) or sleeps ([None]); [l] is the
    history when the caller stopped counting. *)

Definition stands (t : Z) (b : barrier_struct) (o : option Z) (l : list event) (c : config) : Prop :=
  bar c = Some b /\
  match o with
  | Some _ => threads c !! t = Some idle_thread /\ log c = Returned t :: l
  | None => (exists k, threads c !! t = Some {| th_pc := Schedule k; th_run := Interruptible |}) /\
            t ∈ waitQ c /\ log c = l
  end.

Definition locked (t : Z) (b : barrier_struct) : barrier_struct := set_lock b (Some t).

Section machine.
Context (t : Z).
Implicit Types (b : barrier_struct) (c : config).

Lemma unlock_locked b : lock_total b = None -> set_lock (locked t b) None = b.
Proof. apply relock_barrier. Qed.

Lemma lone_sleep k b c :
  at_pc t (Unlock k) (locked t b) c -> lock_total b = None ->
  alone_to t c (stands t b None (log c)).
Proof.
  intros H Hl. step_at H. rewrite unlock_locked in E by done. eapply alone_step; [exact E|].
  pose proof (at_goto_set t (Prepare k) b c) as H1. step_at H1. eapply alone_step; [exact E0|].
  apply alone_now. split; [done|]. split; [|split; [|done]].
  - exists k. apply lookup_insert_eq.
  - simpl. destruct (decide _); [done|by left].
Qed.

Lemma lone_return b c :
  at_pc t UnlockReturn (locked t b) c -> lock_total b = None ->
  alone_to t c (stands t b (Some 0) (log c)).
Proof.
  intros H Hl. step_at H. rewrite unlock_locked in E by done. eapply alone_step; [exact E|].
  pose proof (at_goto_set t PrintDone b c) as H1. step_at H1. eapply alone_step; [exact E0|].
  apply alone_now. split; [done|]. split; [apply lookup_insert_eq|done].
Qed.

Lemma lone_wake b c :
  at_pc t WakeUp (locked t b) c -> lock_total b = None ->
  alone_to t c (stands t b (Some 0) (log c)).
Proof.
  intros H Hl. step_at H. eapply alone_step; [exact E|].
  apply (lone_return b (goto t UnlockReturn (wake_up_here c))); [by apply at_goto|done].
Qed.

Lemma lone_depart b c :
  at_pc t Depart (locked t b) c -> lock_total b = None ->
  alone_to t c (stands t (set_total b (u64 (total b - 1))) (Some 0) (log c)).
Proof.
  intros H Hl. step_at H. eapply alone_step; [exact E|]. clear E.
  change (total (locked t b)) with (total b). destruct (u64 (total b - 1) =? BARRIER_FLAG).
  - exact (lone_wake (set_total b _) _ (at_goto_set _ _ _ _) Hl).
  - exact (lone_return (set_total b _) _ (at_goto_set _ _ _ _) Hl).
Qed.

(** From the increment on, for a barrier that takes the caller in. *)

Lemma lone_arrive b c o b' :
  at_pc t Arrive (locked t b) c -> lock_total b = None -> total b <= BARRIER_FLAG -> waits b o b' ->
  alone_to t c (stands t b' o (Arrived t :: log c)).
Proof.
  intros H Hl Hf W. step_at H. eapply alone_step; [exact E|]. clear E. cbn [total locked set_lock].
  fold (counted_in b). set (c1 := emit _ _).
  assert (at_pc t Compare (locked t (set_total b (counted_in b))) c1) as H1.
  { split; [done|]. exists Running. apply lookup_insert_eq. }
  change (Arrived t :: log c) with (log c1). clearbody c1. step_at H1.
  change (count (locked t (set_total b (counted_in b)))) with (count b) in E.
  change (total (locked t (set_total b (counted_in b)))) with (counted_in b) in E.
  destruct W as [|_ Ec|_ Ec Hn|_ Ec Hn]; [lia|..].
  - rewrite Ec, Z.eqb_refl in E. eapply alone_step; [exact E|].
    exact (lone_wake (set_total b (u64 (count b + (BARRIER_FLAG - 1)))) _ (at_goto_set _ _ _ _) Hl).
  - rewrite (proj2 (Z.eqb_neq _ _) Ec) in E. eapply alone_step; [exact E|].
    pose proof (at_goto t (Test Leave) _ _ Hb0) as H2. step_at H2. cbn [keep_waiting] in E0.
    change (total (locked t (set_total b (counted_in b)))) with (counted_in b) in E0.
    rewrite (proj2 (Z.ltb_lt _ _) Hn) in E0. eapply alone_step; [exact E0|].
    exact (lone_sleep Leave (set_total b _) _ (at_goto t (Unlock Leave) _ _ Hb1) Hl).
  - rewrite (proj2 (Z.eqb_neq _ _) Ec) in E. eapply alone_step; [exact E|].
    pose proof (at_goto t (Test Leave) _ _ Hb0) as H2. step_at H2. cbn [keep_waiting] in E0.
    change (total (locked t (set_total b (counted_in b)))) with (counted_in b) in E0.
    rewrite (proj2 (Z.ltb_ge _ _) Hn) in E0. eapply alone_step; [exact E0|].
    exact (lone_depart (set_total b _) _ (at_goto t Depart _ _ Hb1) Hl).
Qed.

(** The whole call. *)

Lemma lone_wait b c o b' :
  at_pc t (Lock Entry) b c -> lock_total b = None -> waits b o b' ->
  alone_to t c (stands t b' o (if total b <=? BARRIER_FLAG then Arrived t :: log c else log c)).
Proof.
  intros H Hl W. step_at H. rewrite Hl in E. eapply alone_step; [exact E|]. fold (locked t b).
  pose proof (at_goto_set t (Test Entry) (locked t b) c) as H1.
  step_at H1. cbn [keep_waiting] in E0. change (total (locked t b)) with (total b) in E0.
  destruct (Z.leb_spec (total b) BARRIER_FLAG) as [Hf|Hf].
  - rewrite (proj2 (Z.ltb_ge _ _) Hf) in E0. eapply alone_step; [exact E0|].
    exact (lone_arrive b _ o b' (at_goto t Arrive _ _ Hb0) Hl Hf W).
  - rewrite (proj2 (Z.ltb_lt _ _) Hf) in E0. eapply alone_step; [exact E0|].
    destruct W; [|lia..]. exact (lone_sleep Entry b _ (at_goto t (Unlock Entry) _ _ Hb0) Hl).
Qed.
End machine.

(** ** The theorems *)

Section theorems.
Context {L : Type} {KL : KList L}.
Implicit Types (r : registry L).

(** C8: a call of [barrier_wait] does to the registry what the machine of the
    interleaved threads does to the barrier when only the caller moves: the
    caller returns (or goes to sleep on the queue, its thread state set) at
    the same counter, counted_in once if the barrier is open; no other barrier
    is touched. *)

Theorem lone_wait_follows_machine r cur i b c :
  reg_inv r -> has_barrier r (task_tgid cur) (u32 i) b ->
  bar c = Some b -> threads c !! task_tid cur = Some idle_thread ->
  exists o b' r' n c', barrier_wait cur i r = ends_with o r' /\
    run (CallWait (task_tid cur) :: replicate n (Run (task_tid cur))) c = Next c' /\
    stands (task_tid cur) b' o
      (if total b <=? BARRIER_FLAG then Arrived (task_tid cur) :: log c else log c) c' /\
    reg_inv r' /\
    forall tg' i' x, has_barrier r' tg' i' x <->
      (tg' = task_tgid cur /\ i' = u32 i /\ x = b') \/
      (has_barrier r tg' i' x /\ ~ (tg' = task_tgid cur /\ i' = u32 i)).
Proof.
  intros I Hb Hc Ht. destruct (barrier_wait_ok r cur i b I Hb) as (o & b' & r' & W & E & I' & Hhas).
  destruct (lone_wait (task_tid cur) b (goto (task_tid cur) (Lock Entry) c) o b') as (n & c' & Hr & Hs).
  { by apply at_goto. }
  { destruct Hb as (p & pt & q & Hp & _ & Hn & Hb & _).
    destruct (pi_live _ _ (ri_pt _ I _ _ Hp) q Hn) as (x & ? & _ & _ & ?). by simplify_eq. }
  { done. }
  exists o, b', r', n, c'. split_and!; try done. cbn [run exec]. by rewrite Ht.
Qed.
End theorems.
