(* ===== verification/BarrierIoctlSpec.v ===== *)
(** * The ioctls and system calls of the barrier refine its book

    The book of [BarrierRegistrySpec] gains the wait, the user's memory beside
    it, and the ways a call can bring the kernel down. *)

From S2P Require Import Prelude Kernel BarrierData BarrierSync BarrierRegistry BarrierRegistryProofs.
From S2P Require Import BarrierRegistrySpec UserMemory BarrierCalls BarrierCallsSpec.

Section init.
Context {U L : Type} {UM : UserMemory U} {KL : KList L} {KM : Kmalloc} {IC : IoctlCode} {E : Environment}.
Implicit Types (w : sys U (registry L)) (r : registry L) (u : U).

Lemma lift_with {S A} (m : M S A) (w : sys U S) s a s' :
  m s = Ok a s' -> lift m (with_st s w) = Ok a (with_st s' w).
Proof. intros H. unfold lift. simpl. by rewrite H. Qed.

Lemma get_put_uint i bs : get_uint (put_int i ++ bs) = u32 i.
Proof.
  unfold get_uint, put_int. rewrite take_app_length' by (by rewrite length_le_bytes). by rewrite le_value_bytes.
Qed.

(** ** The two fields behind the user's pointer *)

Lemma load_count_ok a w cb : fetch (user w) a 4 = (cb, 0) -> load_count a w = Ok (get_int cb) w.
Proof. intros H. unfold load_count. by rewrite (bind_ok _ _ _ _ _ (load_user_ok _ _ _ _ H)). Qed.

Lemma load_count_bad a w : (fetch (user w) a 4).2 <> 0 -> load_count a w = Crash BadUserAccess w.
Proof.
  intros H. apply bind_crash. unfold load_user. by rewrite (proj2 (Z.eqb_neq _ _) H).
Qed.

(** The fault of a number that cannot be stored. *)

Definition store_fault (a : Z) (u : U) : fault :=
  if negb (access_ok (a + 4)) && ((fetch u (a + 4) 4).2 =? 0) then KernelOverwrite else BadUserAccess.

Lemma store_id_ok a i w u' :
  store (user w) (a + 4) (put_int i) = (u', 0) -> store_barrier_id a i w = Ok tt (with_user u' w).
Proof.
  intros H. unfold store_barrier_id, write_user. destruct (access_ok (a + 4)) eqn:Ha; [by rewrite H|].
  pose proof (store_refused (user w) (a + 4) (put_int i) Ha) as H'. by rewrite H in H'.
Qed.

Lemma store_id_bad a i w :
  (store (user w) (a + 4) (put_int i)).2 <> 0 -> store_barrier_id a i w = Crash (store_fault a (user w)) w.
Proof.
  intros H. unfold store_barrier_id, store_fault, write_user. destruct (access_ok (a + 4)); cbn [negb andb].
  - by rewrite (proj2 (Z.eqb_neq _ _) H).
  - by destruct (_ =? 0).
Qed.

(** The number just stored is read back, and the count has not changed. *)

Lemma load_id_stored a i w u u' :
  store u (a + 4) (put_int i) = (u', 0) -> user w = u' -> load_barrier_id a w = Ok (u32 i) w.
Proof.
  intros H Hu. unfold load_barrier_id.
  assert (fetch (user w) (a + 4) 4 = (put_int i, 0)) as Hf.
  { rewrite Hu. apply (fetch_store u (a + 4) (put_int i) u'); [apply put_int_bytes|done]. }
  rewrite (bind_ok _ _ _ _ _ (load_user_ok _ _ _ _ Hf)). rewrite mret_ok.
  by rewrite <- (app_nil_r (put_int i)), get_put_uint.
Qed.

Lemma count_kept a i u u' cb :
  store u (a + 4) (put_int i) = (u', 0) -> fetch u a 4 = (cb, 0) -> fetch u' a 4 = (cb, 0).
Proof. intros H <-. apply (fetch_store_ne u (a + 4) (put_int i) u' 0); [done|]. left. lia. Qed.

(** ** [barrier_init] behind a user pointer *)

Definition init_ends w cur a k (o : outcome (sys U (registry L)) Z) : Prop :=
  (out_of_memory /\ exists w', o = Crash NullDeref w') \/
  (exists j b, has_barrier (st w) (task_tgid cur) j b /\ o = Ok (-1) w) \/
  (exists i w', (store (user w) (a + 4) (put_int i)).2 <> 0 /\ o = Crash (store_fault a (user w)) w') \/
  (exists i u' r', store (user w) (a + 4) (put_int i) = (u', 0) /\ o = Ok 0 (with_user u' (with_st r' w)) /\
     reg_inv r' /\ (forall b, ~ has_barrier (st w) (task_tgid cur) i b) /\
     forall tg' i' b, has_barrier r' tg' i' b <->
       (tg' = task_tgid cur /\ i' = i /\ b = init_barrier_struct cur k i) \/
       has_barrier (st w) tg' i' b).

Lemma link_at_ok w r p pt cur a cb :
  reg_inv r -> ptgids r !! p = Some pt -> fetch (user w) a 4 = (cb, 0) ->
  (out_of_memory /\ exists w', link_at cur a p (with_st r w) = Crash NullDeref w') \/
  (exists q b, node_of pt q /\ barriers r !! q = Some b /\ link_at cur a p (with_st r w) = Ok (-1) (with_st r w)) \/
  (exists w', (store (user w) (a + 4) (put_int (bid_count pt))).2 <> 0 /\
     link_at cur a p (with_st r w) = Crash (store_fault a (user w)) w') \/
  (exists q u', store (user w) (a + 4) (put_int (bid_count pt)) = (u', 0) /\
     found_barrier r pt (bid_count pt) None /\ barriers r !! q = None /\
     link_at cur a p (with_st r w) = Ok 0 (with_user u' (with_st
       (link_barrier p pt q (init_barrier_struct cur (get_int cb) (bid_count pt)) r) w))).
Proof.
  intros I Hp Hf. pose proof (ri_pt _ I _ _ Hp) as IP. unfold link_at.
  rewrite (bind_ok _ _ _ _ _ (lift_with _ _ _ _ _ (read_ptgid_ok _ _ _ Hp))).
  destruct (get_barrier_from_ptgid_ok r p pt (s32 (bid_count pt)) Hp IP) as (o & Ho & HF).
  rewrite u32_s32, (wrap_small 32 (bid_count pt)) in HF by apply IP.
  rewrite (bind_ok _ _ _ _ _ (lift_with _ _ _ _ _ Ho)). destruct o as [q|].
  { right; left. destruct HF as (Hn & b & Hb & Hi). by exists q, b. }
  destruct (kmalloc_unchecked_cases r) as [[Hm Hq]|(q & Hq & _ & Hqn)].
  { left. split; [done|]. eexists. apply bind_crash. unfold lift. simpl. by rewrite Hq. }
  right; right.
  rewrite (bind_ok _ _ _ _ _ (lift_with _ _ _ _ _ Hq)).
  rewrite (bind_ok _ _ _ _ _ (lift_with _ _ _ _ _ (lock_head_ok _ _ _ Hp (pi_lock _ _ IP)))).
  set (r1 := set_ptgids _ _).
  assert (ptgids r1 !! p = Some (with_head_lock true pt)) as Hp1 by apply lookup_insert_eq.
  rewrite (bind_ok _ _ _ _ _ (lift_with _ _ _ _ _ (read_ptgid_ok _ _ _ Hp1))). cbn [bid_count with_head_lock].
  destruct (store (user w) (a + 4) (put_int (bid_count pt))) as [u' e] eqn:Hs.
  destruct (Z.eq_dec e 0) as [->|He]; [right|left].
  2: { eexists. split; [done|]. apply bind_crash. rewrite store_id_bad by (simpl; by rewrite Hs). done. }
  exists q, u'. split; [done|]. split; [done|]. split; [done|].
  erewrite bind_ok by (apply store_id_ok; exact Hs).
  change (with_user u' (with_st r1 w)) with (with_st r1 (with_user u' w)).
  rewrite (bind_ok _ _ _ _ _ (lift_with _ _ _ _ _ (write_ptgid_ok _ _ _ _ Hp1))).
  erewrite bind_ok by (apply load_count_ok; exact (count_kept _ _ _ _ _ Hs Hf)).
  erewrite bind_ok by (by eapply load_id_stored). rewrite (wrap_small 32) by apply IP.
  rewrite (bind_ok _ _ _ _ _ (modify_st_ok _ _)). cbn [st with_st].
  set (r2 := set_barriers _ _). change (with_st r2 (with_st ?x ?y)) with (with_st r2 y).
  assert (ptgids r2 !! p = Some (next_bid (with_head_lock true pt))) as Hp2 by apply lookup_insert_eq.
  rewrite (bind_ok _ _ _ _ _ (lift_with _ _ _ _ _ (read_ptgid_ok _ _ _ Hp2))).
  rewrite (bind_ok _ _ _ _ _ (lift_with _ _ _ _ _ (write_ptgid_ok _ _ _ _ Hp2))).
  erewrite bind_ok by (apply lift_with, unlock_head_ok; [apply lookup_insert_eq|done]).
  rewrite mret_ok. f_equal. unfold link_barrier, r2, r1, set_ptgids, set_barriers, with_st, with_user; simpl.
  rewrite !insert_insert_eq. unfold with_barrier, with_head_lock; simpl. by rewrite (pi_lock _ _ IP).
Qed.
Lemma with_st_id w : with_st (st w) w = w.
Proof. by destruct w. Qed.

Lemma barrier_init_at_ok w cur a :
  reg_inv (st w) ->
  ((fetch (user w) a 4).2 <> 0 /\ barrier_init_at cur a w = Crash BadUserAccess w) \/
  exists cb, fetch (user w) a 4 = (cb, 0) /\
    ((get_int cb < 0 /\ barrier_init_at cur a w = Ok (-1) w) \/
     (0 <= get_int cb /\ init_ends w cur a (get_int cb) (barrier_init_at cur a w))).
Proof.
  intros I. unfold barrier_init_at. destruct (fetch (user w) a 4) as [cb e] eqn:Hf.
  destruct (Z.eq_dec e 0) as [->|He]; [right|left].
  2: { split; [done|]. apply bind_crash, load_count_bad. by rewrite Hf. }
  exists cb. split; [done|]. rewrite (bind_ok _ _ _ _ _ (load_count_ok _ _ _ Hf)).
  destruct (Z.ltb_spec (get_int cb) 0) as [Hk|Hk]; [by left|right]. split; [done|].
  destruct (find_or_add_ptgid_ok (st w) (task_tgid cur) I)
    as [[Hm [r1 Hp]]|(p & pt & r1 & Hp & I1 & Hpt & Ht & Hcase & Hhas)].
  { left. split; [done|]. eexists. apply bind_crash. unfold lift. by rewrite Hp. }
  rewrite (bind_ok _ _ _ _ _ (lift_ok _ _ _ _ Hp)).
  destruct (link_at_ok w r1 p pt cur a cb I1 Hpt Hf)
    as [[Hm [w' E1]]|[(q & b & Hn & Hb & E1)|[(w' & Hs & E1)|(q & u' & Hs & Hnf & Hq & E1)]]]; rewrite E1.
  - left. split; [done|by eexists].
  - destruct Hcase as [->|Hnil]; [|unfold node_of in Hn; rewrite Hnil in Hn; by apply elem_of_nil in Hn].
    right; left. exists (id b), b. rewrite with_st_id. split; [|done]. by exists p, pt, q.
  - right; right; left. by exists (bid_count pt), w'.
  - right; right; right. exists (bid_count pt), u'. eexists. split_and!; [done|done|..].
    + apply link_barrier_inv; try done; simpl. by apply (ri_pt _ I1 _ _ Hpt).
    + intros b. rewrite <- Hhas. intros (p' & pt' & q' & H' & Ht' & Hn & Hb & Hi).
      assert (p' = p) as -> by (eapply (ri_tgid _ I1); eauto; congruence). simplify_eq.
      by eapply Hnf.
    + intros tg' i' b. rewrite link_barrier_has, Hhas by done. simpl. by rewrite Ht.
Qed.
End init.

(** ** The device as a machine on the book *)

Section device.
Context {U L : Type} {UM : UserMemory U} {KL : KList L} {KM : Kmalloc} {IC : IoctlCode} {E : Environment}.
Implicit Types (w : sys U (registry L)) (r : registry L) (u : U) (m : book).

(** A call of [cur] with an ioctl number and its argument: from the memory
    [u] and the book [m]; the result is [None] when the caller sleeps. *)

Inductive device_step (cur : task) (arg : Z) : Z -> U -> book -> option Z -> U -> book -> Prop :=
  | dev_init u m cb i u' :
      fetch u arg 4 = (cb, 0) -> 0 <= get_int cb -> m !! (task_tgid cur, i) = None ->
      store u (arg + 4) (put_int i) = (u', 0) ->
      device_step cur arg BARRIER_INIT u m (Some 0)
        u' (<[(task_tgid cur, i) := init_barrier_struct cur (get_int cb) i]> m)
  | dev_init_negative u m cb :
      fetch u arg 4 = (cb, 0) -> get_int cb < 0 -> device_step cur arg BARRIER_INIT u m (Some (-1)) u m
  | dev_init_taken u m cb j :
      fetch u arg 4 = (cb, 0) -> 0 <= get_int cb -> is_Some (m !! (task_tgid cur, j)) ->
      device_step cur arg BARRIER_INIT u m (Some (-1)) u m
  | dev_wait u m b o b' :
      m !! (task_tgid cur, u32 arg) = Some b -> waits b o b' ->
      device_step cur arg BARRIER_WAIT u m o u (<[(task_tgid cur, u32 arg) := b']> m)
  | dev_destroy u m b :
      m !! (task_tgid cur, u32 arg) = Some b -> total b <= BARRIER_FLAG ->
      device_step cur arg BARRIER_DESTROY u m (Some 0) u (delete (task_tgid cur, u32 arg) m)
  | dev_destroy_sleeps u m b :
      m !! (task_tgid cur, u32 arg) = Some b -> BARRIER_FLAG < total b ->
      device_step cur arg BARRIER_DESTROY u m None u m
  | dev_destroy_unknown u m :
      m !! (task_tgid cur, u32 arg) = None -> device_step cur arg BARRIER_DESTROY u m (Some (-1)) u m
  | dev_other cmd u m :
      cmd <> BARRIER_INIT -> cmd <> BARRIER_WAIT -> cmd <> BARRIER_DESTROY ->
      device_step cur arg cmd u m (Some (- EINVAL)) u m.

(** The calls that the kernel does not survive: it reads a [barrier_info] that
    is not mapped; it writes to one that is not mapped or may not be written;
    it writes over its own memory, when the pointer leads there; [kmalloc] has
    no memory for a new barrier or for the block of its process; ... *)

Inductive device_crash (cur : task) (arg : Z) : Z -> U -> book -> fault -> Prop :=
  | crash_unreadable u m : (fetch u arg 4).2 <> 0 -> device_crash cur arg BARRIER_INIT u m BadUserAccess
  | crash_unwritable u m i :
      (store u (arg + 4) (put_int i)).2 <> 0 -> (access_ok (arg + 4) = false -> (fetch u (arg + 4) 4).2 <> 0) ->
      device_crash cur arg BARRIER_INIT u m BadUserAccess
  | crash_overwrites u m :
      access_ok (arg + 4) = false -> (fetch u arg 4).2 = 0 -> (fetch u (arg + 4) 4).2 = 0 ->
      device_crash cur arg BARRIER_INIT u m KernelOverwrite
  | crash_no_memory u m cb :
      fetch u arg 4 = (cb, 0) -> 0 <= get_int cb -> out_of_memory ->
      device_crash cur arg BARRIER_INIT u m NullDeref
  | crash_unknown u m :
      m !! (task_tgid cur, u32 arg) = None -> device_crash cur arg BARRIER_WAIT u m NullDeref
  | crash_last u m b :
      m !! (task_tgid cur, u32 arg) = Some b -> total b <= BARRIER_FLAG ->
      (forall i, is_Some (m !! (task_tgid cur, i)) -> i = u32 arg) ->
      device_crash cur arg BARRIER_DESTROY u m UseAfterFree.

Lemma book_none r m cur i :
  represents r m -> (m !! (task_tgid cur, i) = None <-> forall b, ~ has_barrier r (task_tgid cur) i b).
Proof.
  intros HR. rewrite eq_None_not_Some. split.
  - intros Hno b Hb. apply Hno. exists b. by apply HR.
  - intros Hno [b Hb]. by apply (Hno b), HR.
Qed.

Lemma represents_update r r' m (tg i : Z) b :
  represents r m ->
  (forall tg' i' x, has_barrier r' tg' i' x <->
     (tg' = tg /\ i' = i /\ x = b) \/ (has_barrier r tg' i' x /\ ~ (tg' = tg /\ i' = i))) ->
  represents r' (<[(tg, i) := b]> m).
Proof.
  unfold represents. intros HR Hhas tg' i' x. rewrite Hhas, lookup_insert_Some, HR. split.
  - intros [[[= <- <-] <-]|[Hne ?]]; [by left|right]. split; [done|]. by intros [-> ->].
  - intros [(-> & -> & ->)|[? Hne]]; [by left|right]. split; [|done]. intros [= <- <-]. by apply Hne.
Qed.

(** How a call of the module compares with the book. *)

Definition call_refines cur cmd arg w m (o : outcome (sys U (registry L)) Z) : Prop :=
  match o with
  | Ok a w' => reg_inv (st w') /\ exists m', represents (st w') m' /\
      device_step cur arg cmd (user w) m (Some a) (user w') m'
  | Blocked w' => reg_inv (st w') /\ exists m', represents (st w') m' /\
      device_step cur arg cmd (user w) m None (user w') m'
  | Crash f _ => device_crash cur arg cmd (user w) m f
  end.

Lemma init_refines w m cur arg :
  reg_inv (st w) -> represents (st w) m ->
  call_refines cur BARRIER_INIT arg w m (barrier_init_at cur arg w).
Proof.
  intros I HR.
  destruct (barrier_init_at_ok w cur arg I) as [[Hf ->]|(cb & Hf & [[Hk ->]|[Hk HE]])].
  - by constructor.
  - split; [done|]. exists m. split; [done|by eapply dev_init_negative].
  - destruct HE as [[Hm [w' ->]]|[(j & b & Hb & ->)|[(i & w' & Hs & ->)|(i & u' & r' & Hs & -> & I' & Hno & Hhas)]]].
    + by eapply crash_no_memory.
    + split; [done|]. exists m. split; [done|]. eapply (dev_init_taken _ _ _ _ _ j); try done.
      exists b. by apply HR.
    + unfold call_refines, store_fault. destruct (access_ok (arg + 4)) eqn:Ha; cbn [negb andb].
      * eapply crash_unwritable; [exact Hs|congruence].
      * destruct (Z.eqb_spec (fetch (user w) (arg + 4) 4).2 0).
        -- apply crash_overwrites; [done|by rewrite Hf|done].
        -- by eapply crash_unwritable.
    + split; [done|]. eexists. split; [by eapply represents_insert|]. eapply dev_init; try done.
      by apply (book_none (st w)).
Qed.

Lemma wait_refines w m cur arg :
  reg_inv (st w) -> represents (st w) m ->
  call_refines cur BARRIER_WAIT arg w m (lift (barrier_wait cur (u32 arg)) w).
Proof.
  intros I HR. assert (u32 (u32 arg) = u32 arg) as Hu by (apply Z.mod_mod; lia). unfold lift.
  destruct (m !! (task_tgid cur, u32 arg)) as [b|] eqn:Hb.
  - pose proof Hb as Hh. apply HR in Hh. rewrite <- Hu in Hh.
    destruct (barrier_wait_ok (st w) cur (u32 arg) b I Hh) as (o & b' & r' & W & -> & I' & Hhas).
    rewrite Hu in Hhas. pose proof (represents_update _ _ _ _ _ _ HR Hhas) as HR'.
    destruct o; (split; [done|]; eexists; split; [exact HR'|by eapply dev_wait]).
  - rewrite (book_none (st w)) in Hb by done. rewrite <- Hu in Hb.
    unfold barrier_wait. rewrite (bind_crash _ _ _ _ _ (wait_lookup_unknown _ _ _ I Hb)).
    apply crash_unknown. apply (book_none (st w)); [done|]. by rewrite <- Hu.
Qed.

Lemma destroy_refines w m cur arg :
  reg_inv (st w) -> represents (st w) m ->
  call_refines cur BARRIER_DESTROY arg w m (lift (barrier_destroy cur (u32 arg)) w).
Proof.
  intros I HR. assert (u32 (u32 arg) = u32 arg) as Hu by (apply Z.mod_mod; lia). unfold lift.
  destruct (m !! (task_tgid cur, u32 arg)) as [b|] eqn:Hb.
  - pose proof Hb as Hh. apply HR in Hh. rewrite <- Hu in Hh.
    destruct (barrier_destroy_ok (st w) cur (u32 arg) b I Hh) as [[Hf ->]|[(Hf & [_ Hl] & r' & ->)|(Hf & _ & r' & -> & I' & Hhas)]].
    + split; [done|]. exists m. split; [done|by eapply dev_destroy_sleeps].
    + eapply crash_last; [done|done|]. intros i [x Hx]. apply HR in Hx. rewrite <- Hu. by eapply Hl.
    + rewrite Hu in Hhas. split; [done|]. eexists. split; [by eapply represents_delete|by eapply dev_destroy].
  - pose proof Hb as Hno. rewrite (book_none (st w)), <- Hu in Hno by done.
    rewrite (destroy_lookup _ _ _ I Hno). split; [done|]. exists m. split; [done|by constructor].
Qed.
End device.

(** ** The theorems *)

Section theorems.
Context {U L : Type} {UM : UserMemory U} {KL : KList L} {KM : Kmalloc} {IC : IoctlCode} {E : Environment}.

(** C7: every ioctl of the module, with any number and argument, is a step of
    the book of barriers beside the user's memory: it returns the step's
    value, or sleeps where the step does, and keeps the registry well formed.
    A new barrier gets a number its process does not use; where the process's
    counter has come round to a number in use, [barrier_init] returns -1.  The
    call fails only in the cases listed: a [barrier_info] that cannot be read,
    or cannot be written; one at an address of the kernel, which line 174
    writes to unchecked, over the kernel's own memory; a [barrier_init] for
    which kmalloc has no memory (lines 147 and 169 do not test the result); a
    wait on a number the process does not have; the destruction of its last
    barrier. *)

End theorems.
