(* ===== verification/BarrierSyscallSpec.v ===== *)
(** * The system calls, the user library and the loading of the barrier module

    [sys_barrier_init] makes the barrier before it looks at the pointer for
    its number; the library of the module build hides every failure; the
    module's load function reports none. *)

From S2P Require Import Prelude Kernel BarrierData BarrierSync BarrierRegistry BarrierRegistryProofs.
From S2P Require Import BarrierRegistrySpec UserMemory BarrierCalls BarrierKern BarrierCallsSpec BarrierIoctlSpec.

Section calls.
Context {U L : Type} {UM : UserMemory U} {KL : KList L} {KM : Kmalloc} {IC : IoctlCode} {E : Environment}.
Implicit Types (w : sys U (registry L)) (r : registry L) (u : U).

(** The registry [r'] has one barrier more than [r]. *)

Definition created cur k i r r' : Prop :=
  reg_inv r' /\ (forall b, ~ has_barrier r (task_tgid cur) i b) /\
  forall tg' i' b, has_barrier r' tg' i' b <->
    (tg' = task_tgid cur /\ i' = i /\ b = init_barrier_struct cur k i) \/ has_barrier r tg' i' b.

(** What [sys_barrier_init] does once the barrier number [i] exists. *)

Definition number_handed_out (a i : Z) w : outcome (sys U (registry L)) Z :=
  let s := store (user w) a (put_int i) in
  if (fetch s.1 a 4).2 =? 0 then Ok s.2 (with_user s.1 w) else Crash BadUserAccess (with_user s.1 w).

Lemma sys_init_made w cur garbage k a i r' :
  do_barrier_init cur {| bi_count := k; bi_barrier_id := garbage |} (st w) =
    Ok (0, {| bi_count := k; bi_barrier_id := i |}) r' ->
  sys_barrier_init cur garbage k a w = number_handed_out a i (with_st r' w).
Proof.
  intros H. unfold sys_barrier_init. rewrite (bind_ok _ _ _ _ _ (lift_ok _ _ _ _ H)). cbn beta iota.
  change (0 <? 0) with false. cbn iota. unfold number_handed_out. cbn [user with_st bi_barrier_id].
  destruct (store (user w) a (put_int i)) as [u' e] eqn:Hs.
  assert (copy_to_user a (put_int i) (with_st r' w) = Ok e (with_user u' (with_st r' w))) as Hc.
  { unfold copy_to_user. cbn [user with_st]. by rewrite Hs. }
  rewrite (bind_ok _ _ _ _ _ Hc). pose proof (store_left (user w) a (put_int i)) as He. rewrite Hs in He.
  cbn [fst snd] in *. destruct (Z.ltb_spec e 0); [lia|]. unfold load_user, mbind, M_bind.
  cbn [user with_user]. by destruct (_ =? 0).
Qed.

(** ** The library of the module build *)

(** A refused count is not reported, and the number handed out is whatever
    the library's stack held. *)

Lemma library_hides_failure w cur b1info k barrier_id bs u1 u2 :
  - 2 ^ 31 <= k < 0 -> store (user w) b1info (put_int k) = (u1, 0) ->
  fetch (user w) (b1info + 4) 4 = (bs, 0) -> store u1 barrier_id bs = (u2, 0) ->
  lib_barrier_init cur b1info k barrier_id w = Ok 0 (with_user u2 w).
Proof.
  intros Hk H1 Hf H2. unfold lib_barrier_init.
  assert (write_user b1info (put_int k) w = Ok tt (with_user u1 w)) as Hw by (unfold write_user; by rewrite H1).
  rewrite (bind_ok _ _ _ _ _ Hw).
  assert (fetch u1 b1info 4 = (put_int k, 0)) as Hc.
  { apply (fetch_store (user w) b1info (put_int k) u1); [apply put_int_bytes|done]. }
  assert (eosi_barrier_ioctl cur BARRIER_INIT b1info (with_user u1 w) = Ok (-1) (with_user u1 w)) as Hi.
  { unfold eosi_barrier_ioctl. rewrite Z.eqb_refl. unfold barrier_init_at.
    erewrite bind_ok by (by apply load_count_ok).
    rewrite <- (app_nil_r (put_int k)), get_put_int, s32_small by lia. by destruct (Z.ltb_spec k 0); [|lia]. }
  rewrite (bind_ok _ _ _ _ _ Hi).
  assert (fetch u1 (b1info + 4) 4 = (bs, 0)) as Hf1.
  { rewrite <- Hf. apply (fetch_store_ne (user w) b1info (put_int k) u1 0); [done|]. right.
    unfold put_int. rewrite length_le_bytes. lia. }
  erewrite bind_ok by (by apply load_user_ok). unfold write_user at 1. unfold mbind, M_bind.
  cbn [user with_user]. by rewrite H2.
Qed.

(** ** Loading and unloading *)

(** A load that registers both devices is undone by the unload. *)

Lemma load_and_unload w :
  reply (requests w) (Misc_register eosi_barrier_A) = 0 ->
  reply ((Misc_register eosi_barrier_A, 0) :: requests w) (Misc_register eosi_barrier_B) = 0 ->
  Misc_register eosi_barrier_A ∉ held (requests w) -> Misc_register eosi_barrier_B ∉ held (requests w) ->
  clean (requests w) = true ->
  exists w', (eosi_barrier_init ;; eosi_barrier_exit) w = Ok tt w' /\ st w' = st w /\
    held (requests w') = held (requests w) /\ clean (requests w') = true.
Proof.
  intros HA HB NA NB Hc. unfold eosi_barrier_init.
  assert (reg_misc (U := U) (L := L) eosi_barrier_A w = Ok 0 (log_request (Misc_register eosi_barrier_A) 0 w)) as EA
    by (unfold reg_misc; rewrite kcall_ok; by rewrite HA).
  set (w1 := log_request _ _ w) in EA.
  assert (reg_misc (U := U) (L := L) eosi_barrier_B w1 = Ok 0 (log_request (Misc_register eosi_barrier_B) 0 w1)) as EB
    by (unfold reg_misc; rewrite kcall_ok; change (requests w1) with ((Misc_register eosi_barrier_A, 0) :: requests w);
        by rewrite HB).
  erewrite bind_ok; last first.
  { rewrite (bind_ok _ _ _ _ _ EA). cbn [negb Z.eqb]. by rewrite (bind_ok _ _ _ _ _ EB). }
  unfold eosi_barrier_exit, dereg_misc. rewrite (bind_ok _ _ _ _ _ (kcall__ok _ _)), kcall__ok.
  set (A := Misc_register eosi_barrier_A) in *. set (B := Misc_register eosi_barrier_B) in *.
  assert (filter (fun x => x <> A) (B :: A :: held (requests w)) = B :: held (requests w)) as HfA.
  { rewrite filter_cons_True by done. rewrite filter_cons_False by (by intros ?). by rewrite filter_ne_absent. }
  assert (filter (fun x => x <> B) (B :: held (requests w)) = held (requests w)) as HfB.
  { rewrite filter_cons_False by (by intros ?). by rewrite filter_ne_absent. }
  eexists. split; [done|]. split; [done|]. unfold w1.
  cbn [log_request requests held clean track acquires acquired_by A B Z.eqb]. fold A B. rewrite HB. cbn [Z.eqb].
  rewrite ?HB, ?HfA, HfB. split; [done|]. rewrite Hc. cbn [andb].
  rewrite !bool_decide_eq_true_2; [done|by left|by right; left].
Qed.

(** When the first device is refused, the load still reports success and the
    unload deregisters two devices that were never registered. *)

Lemma failed_registration_is_not_reported w e :
  reply (requests w) (Misc_register eosi_barrier_A) = e -> e <> 0 ->
  Misc_register eosi_barrier_A ∉ held (requests w) ->
  exists w1 w2, eosi_barrier_init w = Ok 0 w1 /\ eosi_barrier_exit w1 = Ok tt w2 /\ clean (requests w2) = false.
Proof.
  intros HA He NA. eexists. eexists. split; [|split].
  - unfold eosi_barrier_init. erewrite bind_ok by (unfold reg_misc; apply kcall_ok). rewrite HA.
    rewrite (proj2 (Z.eqb_neq _ _) He). done.
  - unfold eosi_barrier_exit, dereg_misc. by rewrite (bind_ok _ _ _ _ _ (kcall__ok _ _)), kcall__ok.
  - cbn [log_request requests held clean track acquires acquired_by]. rewrite (proj2 (Z.eqb_neq _ _) He).
    rewrite (bool_decide_eq_false_2 (Misc_register eosi_barrier_A ∈ _)) by done. by rewrite andb_false_r.
Qed.
End calls.

(** ** The theorems *)

Section theorems.
Context {U L : Type} {UM : UserMemory U} {KL : KList L} {KM : Kmalloc} {IC : IoctlCode} {E : Environment}.

(** The library keeps a result that is no error number. *)

Lemma library_result w cur garbage k a r w' : 0 <= k < 2 ^ 31 -> sys_barrier_init cur garbage k a w = Ok r w' ->
  r = -1 \/ 0 <= r -> usr_barrier_init cur garbage k a w = Ok r w'.
Proof.
  intros Hk H Hr. unfold usr_barrier_init, syscall, sys_call. cbn [BARRIER_INIT_SYS Z.eqb Pos.eqb]. rewrite s32_small by lia.
  rewrite (bind_ok _ _ _ _ _ H). destruct Hr as [->|Hr]; [done|].
  destruct (Z.ltb_spec r 0); [lia|]. by rewrite andb_false_r.
Qed.

Lemma library_made w cur garbage k a i w' : 0 <= k < 2 ^ 31 ->
  sys_barrier_init cur garbage k a w = number_handed_out a i w' -> usr_barrier_init cur garbage k a w = number_handed_out a i w'.
Proof.
  intros Hk H. pose proof (store_left (user w') a (put_int i)) as He.
  unfold number_handed_out in *. destruct (_ =? 0); [apply library_result; [done|done|right; lia]|].
  unfold usr_barrier_init, syscall, sys_call. cbn [BARRIER_INIT_SYS Z.eqb Pos.eqb]. rewrite s32_small by lia. by apply bind_crash.
Qed.

(** C34: [barrier_init] of the system-call library, for a count that is not
    negative and a well-formed registry, makes a barrier of that count under
    a number its process does not use, whatever the pointer it is given:
    with a good pointer it returns 0 and the number is in the caller's
    memory, with a bad one it returns the number of bytes [copy_to_user]
    left out, or the kernel falls over its own message.  There are two
    exceptions: it returns -1 and changes nothing when the process's counter
    stands at the number of one of its barriers (it has wrapped round); and
    when kmalloc has no memory, for the barrier or for the block of its
    process, the kernel follows a NULL pointer. *)

Theorem sys_barrier_init_creates (w : sys U (registry L)) cur garbage k a :
  reg_inv (st w) -> 0 <= k < 2 ^ 31 ->
  (out_of_memory /\ exists w', usr_barrier_init cur garbage k a w = Crash NullDeref w') \/
  (exists j b, next_number (st w) (task_tgid cur) j /\ has_barrier (st w) (task_tgid cur) j b /\
     usr_barrier_init cur garbage k a w = Ok (-1) w) \/
  (exists i r', created cur k i (st w) r' /\
     usr_barrier_init cur garbage k a w = number_handed_out a i (with_st r' w) /\
     ((store (user w) a (put_int i)).2 = 0 -> exists u',
        usr_barrier_init cur garbage k a w = Ok 0 (with_user u' (with_st r' w)) /\
        fetch u' a 4 = (put_int i, 0))).
Proof.
  intros I Hk.
  destruct (barrier_init_ok (st w) cur {| bi_count := k; bi_barrier_id := garbage |} I (proj1 Hk))
    as [[Hm [r' H]]|[(j & b & Hj & Hb & H)|(i & r' & H & I' & Hno & Hhas)]].
  - left. split; [done|]. eexists. apply bind_crash. unfold syscall, sys_call. cbn [BARRIER_INIT_SYS Z.eqb Pos.eqb].
    rewrite s32_small by lia. unfold sys_barrier_init. apply bind_crash.
    unfold lift. change (do_barrier_init cur) with (barrier_init (KM := KM) cur). by rewrite H.
  - right; left. exists j, b. split; [done|]. split; [done|]. apply library_result; [done| |by left]. unfold sys_barrier_init.
    rewrite (bind_ok _ _ _ _ _ (lift_ok _ _ _ _ H)). by rewrite with_st_id.
  - right; right. exists i, r'. split; [done|]. pose proof (library_made _ _ _ _ _ _ _ Hk (sys_init_made w cur garbage k a i r' H)) as Hs.
    split; [done|]. intros Hst. destruct (store (user w) a (put_int i)) as [u' e] eqn:Hu. simpl in Hst. subst e.
    assert (fetch u' a 4 = (put_int i, 0)) as Hf.
    { apply (fetch_store (user w) a (put_int i) u'); [apply put_int_bytes|done]. }
    exists u'. split; [|done]. rewrite Hs. unfold number_handed_out. cbn [user with_st]. rewrite Hu.
    cbn [fst snd]. by rewrite Hf.
Qed.
End theorems.

(** ** Concrete calls *)

Definition user_page : gmap Z Z := (map_store (mapped 4096 16) 4096 (put_int 2)).1.

Definition fresh_world : sys (gmap Z Z) (registry (list loc)) :=
  {| st := empty_registry; requests := []; user := user_page |}.

Definition one_barrier_world : sys (gmap Z Z) (registry (list loc)) :=
  {| st := one_barrier; requests := []; user := user_page |}.

Definition one_barrier_config : config :=
  start (init_barrier_struct first_task 5 0) {[101; 102; 103; 104; 105]}.

Lemma lone_wait_follows_machine_witness :
  exists o b' r' n c', barrier_wait first_task 0 one_barrier = ends_with o r' /\
    run (CallWait 101 :: replicate n (Run 101)) one_barrier_config = Next c' /\ stands 101 b' o [Arrived 101] c'.
Proof.
  destruct (lone_wait_follows_machine one_barrier first_task 0 (init_barrier_struct first_task 5 0) one_barrier_config)
    as (o & b' & r' & n & c' & E & R & S & _).
  - apply one_barrier_inv.
  - by apply one_barrier_has.
  - done.
  - vm_compute. reflexivity.
  - exists o, b', r', n, c'. split; [exact E|]. split; [exact R|]. exact S.
Defined.

Lemma one_barrier_represents :
  represents one_barrier {[(100, 0) := init_barrier_struct first_task 5 0]}.
Proof.
  intros tg i b. rewrite one_barrier_has, lookup_singleton_Some. split.
  - by intros [[= <- <-] <-].
  - by intros (-> & -> & ->).
Qed.


Lemma sys_barrier_init_creates_witness :
  exists i r', created first_task 3 i empty_registry r' /\
    usr_barrier_init first_task 0 3 4096 fresh_world = number_handed_out 4096 i (with_st r' fresh_world).
Proof.
  destruct (sys_barrier_init_creates fresh_world first_task 0 3 4096)
    as [[[d Hd] _]|[(j & b & (p & pt & Hp & _) & _)|(i & r' & C & H & _)]].
  - apply empty_inv.
  - done.
  - done.
  - done.
  - exists i, r'. exact (conj C H).
Defined.
