(* ===== verification/BarrierSysTest.v ===== *)
(** * The barrier's test program over system calls

    05_barrier_system_call/barrier_test/barrier_user_sys.c is the program of
    [BarrierTeams] (but for a line it prints); built without
    _BARRIER_MODULE_BUILD_ its calls go through barrier_user_sys.h to the
    system calls, not to the device: a number and an argument register each,
    which the kernel's table turns back into a call. *)

From S2P Require Import Prelude Kernel UserMemory BarrierData BarrierSync BarrierRegistry BarrierTest BarrierWorld.
From S2P Require Import BarrierCalls BarrierKern BarrierTeams BarrierTeamsProofs BarrierTeamsSpec BarrierTeamsWitness.

Definition sys_SYNC_ROUNS : Z := 100.

(** [run_barriers] by thread [t] of process [pid] with the threads after it. *)

Definition sys_fork_run (pid t : Z) : list team := [run_team pid t 5; run_team pid (t + 6) 20].

Definition sys_dev_run (pid t : Z) : list team := [run_team pid t 3].

Definition sys_dev_run2 (pid t : Z) : list team := [run_team pid t 2].

Definition sys_dev_run3 (pid t : Z) : list team := [run_team pid t 2; run_team pid (t + 3) 2].

Definition sys_main_run : list team := sys_fork_run 1 100 ++ sys_fork_run 2 200.

(** The call that a system call number stands for, its argument taken from the
    register as the kernel function's parameter has it: [int count],
    [unsigned int barrier_id]. *)

Definition kernel_call (nr a : Z) : option call :=
  if nr =? BARRIER_INIT_SYS then Some (CInit (s32 a))
  else if nr =? BARRIER_WAIT_SYS then Some (CWait (u32 a))
  else if nr =? BARRIER_DESTROY_SYS then Some (CDestroy (u32 a))
  else None.

Section program.
Context {L : Type} {KL : KList L} {KM : Kmalloc}.
Context (teams : list team) (garbage : Z -> Z).
Implicit Types (p : program L).

(** A number that is not in the table returns at once (ENOSYS). *)

Definition syscall_by (t nr a : Z) p (next : world L -> program L) : program_result :=
  match kernel_call nr a with
  | Some k => enter teams t k p next
  | None => if is_outside t p then PNext (next (module p)) else PStuck
  end.

(** [run_barriers] up to its [barrier_init], the workers' loop, and the joins
    with [barrier_destroy]. *)

Definition sys_begin (m : team) p : program_result :=
  match stage_of p !! runner m with
  | Some BeforeInit =>
      syscall_by (runner m) BARRIER_INIT_SYS (Z.of_nat (size (crew m))) p
        (fun w => with_stage (runner m) InInit (with_module w p))
  | _ => PStuck
  end.

Definition sys_work (t : Z) (m : team) p : program_result :=
  match stage_of p !! runner m, barrier_id p !! runner m, counter p !! t with
  | Some InJoin, Some i, Some k =>
      if bool_decide (t ∈ left p) || negb (is_outside t p) then PStuck
      else if k =? sys_SYNC_ROUNS then PNext (with_left t p)
      else syscall_by t BARRIER_WAIT_SYS i p (fun w => with_counter t (k + 1) (with_module w p))
  | _, _, _ => PStuck
  end.

Definition sys_joined (m : team) p : program_result :=
  let r := runner m in
  match stage_of p !! r, barrier_id p !! r with
  | Some InJoin, Some i =>
      if bool_decide (crew m ⊆ left p) then
        syscall_by r BARRIER_DESTROY_SYS i p (fun w => with_stage r InDestroy (with_module w p))
      else PStuck
  | _, _ => PStuck
  end.

Definition sys_program_exec (l : program_label) p : program_result :=
  match l with
  | Begin r => match team_run_by teams r with Some m => sys_begin m p | None => PStuck end
  | Work t => match team_worked_by teams t with Some m => sys_work t m p | None => PStuck end
  | Joined r => match team_run_by teams r with Some m => sys_joined m p | None => PStuck end
  | _ => program_exec teams garbage l p
  end.

(** ** It is the same program

    The counts are [int]s and every barrier's number fits its register. *)

Context (OK : teams_ok teams) (counts : forall m, m ∈ teams -> Z.of_nat (size (crew m)) < 2 ^ 31).

Lemma sys_begin_alike m p : m ∈ teams -> sys_begin m p = begin teams m p.
Proof.
  intros Hm%counts. unfold sys_begin, begin, syscall_by. cbn [kernel_call Z.eqb BARRIER_INIT_SYS Pos.eqb].
  by rewrite s32_small by lia.
Qed.

Lemma number_in_register i : 0 <= i < 2 ^ 32 ->
  kernel_call BARRIER_WAIT_SYS i = Some (CWait i) /\ kernel_call BARRIER_DESTROY_SYS i = Some (CDestroy i).
Proof. intros Hi. unfold kernel_call. cbn. by rewrite wrap_small. Qed.

(** C37: 05's copy of the test program, whose calls are system calls with a
    number and one argument register, makes exactly the steps of the program
    of [BarrierTeams] over the module: at every state the program reaches as
    long as no barrier_init is refused and no process destroys its only
    barrier, for any teams of fewer than 2^31 workers (fewer than 2^32 - 1
    teams, with threads of their own), every count and every barrier number
    passes through its register unchanged. *)

End program.

(** The two children of main, when the first runner begins. *)

Lemma main_counts m : m ∈ sys_main_run -> Z.of_nat (size (crew m)) < 2 ^ 31.
Proof.
  unfold sys_main_run, sys_fork_run. cbn [app]. intros Hm.
  repeat (apply elem_of_cons in Hm as [->|Hm]; [vm_compute; reflexivity|]). by apply elem_of_nil in Hm.
Qed.

