(* ===== verification/Ht530.v ===== *)
(** * The hash table driver

    The character device [ht530_drv]: a table of 128 chains of (key, data)
    pairs that processes update with [write], query with [read] and dump with
    [ioctl].  The driver takes no lock; a call runs by itself here, and
    [ht530_write] is the composition of a look-up and a commit so that two
    writers can also be interleaved.
    Source: 01_mprobe_debugger_and_generanl_driver_module/general_driver/ht530.c,
    ht530_kernel.h, ht530_common.h (built for a 64-bit kernel). *)

From S2P Require Import Prelude Kernel UserMemory.

Definition HT530_HT_BITS : Z := 7.

Definition BUCKET_SIZE : Z := Z.shiftl 1 HT530_HT_BITS.

Definition MAX_DUMP : Z := 8.

Definition DUMP_MAGIC : Z := 68.

(** [hash_min(key, HT530_HT_BITS)] of linux/hashtable.h. *)

Class HashMin := {
  hash_min : Z -> Z;
  hash_min_range k : 0 <= hash_min k < 128
}.

Record ht_object := { key : Z; data : Z }.

Definition sizeof_ht_object : nat := 8.

Definition sizeof_dump_org : nat := 68.

Definition put_object (o : ht_object) : list Z := put_int (key o) ++ put_int (data o).

Definition get_object (bs : list Z) : ht_object := {| key := get_int bs; data := get_int (drop 4 bs) |}.

(** The nodes are heap objects; a node whose pair nobody has written yet is
    [None]. *)

Record ht530 (L : Type) := {
  ht530_tbl : list L;
  nodes : gmap loc (option ht_object);
  cur_size : Z;
  for_mprobe_test1 : Z;
  for_mprobe_test2 : Z
}.
Arguments ht530_tbl {L}.
Arguments nodes {L}.
Arguments cur_size {L}.
Arguments for_mprobe_test1 {L}.
Arguments for_mprobe_test2 {L}.

(** [bzero]: the memory at [sl] as far as its object reaches. *)

Fixpoint bzero (sl : list Z) (n : nat) : option (list Z) :=
  match n with
  | O => Some sl
  | S n =>
      match sl with
      | [] => None
      | _ :: t => option_map (cons 0) (bzero t n)
      end
  end.

Section ht530.
Context {L U : Type} {KL : KList L} {KM : Kmalloc} {UM : UserMemory U} {HM : HashMin}
  {IC : IoctlCode} {E : Environment}.
Implicit Types (s : ht530 L) (p : loc).

Definition set_tbl (t : list L) s : ht530 L :=
  {| ht530_tbl := t; nodes := nodes s; cur_size := cur_size s;
     for_mprobe_test1 := for_mprobe_test1 s; for_mprobe_test2 := for_mprobe_test2 s |}.

Definition set_nodes (m : gmap loc (option ht_object)) s : ht530 L :=
  {| ht530_tbl := ht530_tbl s; nodes := m; cur_size := cur_size s;
     for_mprobe_test1 := for_mprobe_test1 s; for_mprobe_test2 := for_mprobe_test2 s |}.

Definition set_cur_size (n : Z) s : ht530 L :=
  {| ht530_tbl := ht530_tbl s; nodes := nodes s; cur_size := n;
     for_mprobe_test1 := for_mprobe_test1 s; for_mprobe_test2 := for_mprobe_test2 s |}.

(** [ht530_tbl[i]]. *)

Definition bucket (i : Z) : M (sys U (ht530 L)) L :=
  deref (fun w => if i <? 0 then None else ht530_tbl (st w) !! Z.to_nat i) OutOfBounds.

(** [node->pair]. *)

Definition pair p : M (sys U (ht530 L)) ht_object :=
  o ← deref (fun w => nodes (st w) !! p) UseAfterFree;
  match o with Some x => mret x | None => crash UninitRead end.

Definition set_pair p (x : ht_object) : M (sys U (ht530 L)) unit :=
  deref (fun w => nodes (st w) !! p) UseAfterFree ;;
  modify_st (fun s => set_nodes (<[p := Some x]> (nodes s)) s).

Definition hlist_empty (h : L) : bool := match knodes h with [] => true | _ => false end.

(** The order in which [hash_for_each] visits. *)

Definition hash_nodes (t : list L) : list loc := concat (map knodes t).

Definition hash_add p (k : Z) : M (sys U (ht530 L)) unit :=
  bucket (hash_min k) ;;
  modify_st (fun s => set_tbl (alter (kadd p) (Z.to_nat (hash_min k)) (ht530_tbl s)) s).

(** [hash_del] unlinks the node from the chain it is on. *)

Definition hash_del p : M (sys U (ht530 L)) unit :=
  modify_st (fun s => set_tbl (map (fun h => if decide (p ∈ knodes h) then kdel p h else h) (ht530_tbl s)) s).

Definition find_the_bucket (k : Z) : M (sys U (ht530 L)) (option Z) :=
  h ← bucket (hash_min k);
  if hlist_empty h then mret None else mret (Some (hash_min k)).

Fixpoint scan_chain (k : Z) (ps : list loc) : M (sys U (ht530 L)) (option loc) :=
  match ps with
  | [] => mret None
  | p :: ps => x ← pair p; if key x =? k then mret (Some p) else scan_chain k ps
  end.

Definition find_the_node (k : Z) (bkt : option Z) : M (sys U (ht530 L)) (option loc) :=
  bkt ← match bkt with
        | Some i => mret (Some i)
        | None => find_the_bucket k
        end;
  match bkt with
  | None => mret None
  | Some i => h ← bucket i; scan_chain k (knodes h)
  end.

(** ** [read] *)

Definition ht530_read (buf : Z) (count : nat) : M (sys U (ht530 L)) Z :=
  c ← copy_from_user buf sizeof_ht_object;
  let '(bytes, failed_copy) := c in
  if failed_copy <? 0 then mret (- EINVAL) else
  kitem ← find_the_node (key (get_object bytes)) None;
  match kitem with
  | None => mret (- EINVAL)
  | Some p =>
      x ← pair p;
      (* [count] bytes from the pair on: beyond its 8 is other memory *)
      if (sizeof_ht_object <? count)%nat then crash OutOfBounds else
      failed_copy ← copy_to_user buf (take count (put_object x));
      if failed_copy <? 0 then mret (- EINVAL) else
      mret (Z.of_nat count - failed_copy)
  end.

(** ** [write] after the copy, from the look-up on *)

Definition kmalloc_node : M (sys U (ht530 L)) loc :=
  p ← deref (fun w => kmalloc (dom (nodes (st w)))) NullDeref;
  modify_st (fun s => set_nodes (<[p := None]> (nodes s)) s) ;;
  mret p.

Definition write_commit (uitem : ht_object) (kitem : option loc) : M (sys U (ht530 L)) Z :=
  match kitem, data uitem =? 0 with
  | None, true => mret 0
  | _, _ =>
      p ← match kitem with
          | Some p => mret p
          | None =>
              p ← kmalloc_node;
              hash_add p (key uitem) ;;
              modify_st (fun s => set_cur_size (u64 (cur_size s + 1)) s) ;;
              mret p
          end;
      if negb (data uitem =? 0) then
        set_pair p uitem ;;
        mret 0
      else
        pair p ;;                                               (* the printk *)
        hash_del p ;;
        modify_st (fun s => set_cur_size (u64 (cur_size s - 1)) s) ;;
        modify_st (fun s => set_nodes (delete p (nodes s)) s) ;;
        mret 0
  end.

Definition ht530_write (buf : Z) : M (sys U (ht530 L)) Z :=
  c ← copy_from_user buf sizeof_ht_object;
  let '(bytes, failed_copy) := c in
  if failed_copy <? 0 then mret (- EINVAL) else
  let uitem := get_object bytes in
  kitem ← find_the_node (key uitem) None;
  write_commit uitem kitem.

(** ** [ioctl] *)

Definition ALL_DUMP : Z := ioc IOC_WR DUMP_MAGIC 1.

Definition HASH_DUMP : Z := ioc IOC_WR DUMP_MAGIC 2.

Definition RET_CUR_SIZE : Z := ioc IOC_WR DUMP_MAGIC 3.

(** The loop of HASH_DUMP: [dump_set] is the address of the structure on the
    kernel stack, whose [object_array] starts at offset 4. *)

Fixpoint hash_dump (dump_set acc_n : Z) (ps : list loc) : M (sys U (ht530 L)) unit :=
  match ps with
  | [] => mret tt
  | p :: ps =>
      x ← pair p;
      copy_to_user (dump_set + 4 + 8 * acc_n) (put_object x) ;;
      if MAX_DUMP <=? acc_n + 1 then mret tt else hash_dump dump_set (acc_n + 1) ps
  end.

(** The loop of ALL_DUMP. *)

Fixpoint all_dump (back_storage : Z) (ps : list loc) : M (sys U (ht530 L)) unit :=
  match ps with
  | [] => mret tt
  | p :: ps =>
      x ← pair p;
      copy_to_user back_storage (put_object x) ;;
      all_dump (back_storage + 8) ps
  end.

Definition ht530_unlocked_ioctl (dump_set req1 req2 : Z) : M (sys U (ht530 L)) Z :=
  c ← copy_from_user req2 sizeof_dump_org;
  let '(bytes, failed_copy) := c in
  if failed_copy <? 0 then mret (- EINVAL) else
  let n := get_int bytes in
  if (req1 =? HASH_DUMP) && (BUCKET_SIZE <=? n) then mret (- EINVAL) else
  when (req1 =? HASH_DUMP)
    (match bzero bytes sizeof_dump_org with Some _ => mret tt | None => crash OutOfBounds end ;;
     h ← bucket n;
     hash_dump dump_set 0 (knodes h)) ;;
  when (req1 =? RET_CUR_SIZE)
    (s ← get_st; copy_to_user req2 (put_u64 (cur_size s)) ;; mret tt) ;;
  when (req1 =? ALL_DUMP)
    (s ← get_st; all_dump req2 (hash_nodes (ht530_tbl s))) ;;
  mret 0.

(** ** The other file operations *)

Definition ht530_open : M (sys U (ht530 L)) Z :=
  modify_st (fun s => {| ht530_tbl := ht530_tbl s; nodes := nodes s; cur_size := cur_size s;
                         for_mprobe_test1 := 0x12345; for_mprobe_test2 := 0x54321 |}) ;;
  mret 0.

Definition ht530_release : M (sys U (ht530 L)) Z := mret 0.

Definition ht530_fsync : M (sys U (ht530 L)) Z := mret 0.

Definition ht530_flock : M (sys U (ht530 L)) Z := mret 0.

(** ** Loading and unloading *)

Definition MODULE_NAME : string := "ht530".

Definition DEVICE_NAME : string := "ht530_drv".

Definition hash_init : M (sys U (ht530 L)) unit :=
  modify_st (set_tbl (replicate (Z.to_nat BUCKET_SIZE) kempty)).

Definition ht530_init : M (sys U (ht530 L)) Z :=
  hash_init ;;
  modify_st (set_cur_size 0) ;;
  ret ← kcall (Alloc_chrdev_region MODULE_NAME);
  if ret <? 0 then mret (- EINVAL) else
  kcall_ (Class_create MODULE_NAME) ;;
  dev_ptr ← kcall (Kmalloc_of "ht530_dev");
  if negb (dev_ptr =? 0) then crash NullDeref else            (* cdev_init(&dev_ptr->cdev) *)
  ret ← kcall (Cdev_add MODULE_NAME);
  if negb (ret =? 0) then mret ret else
  kcall_ (Device_create DEVICE_NAME) ;;
  mret 0.

Fixpoint free_nodes (ps : list loc) : M (sys U (ht530 L)) unit :=
  match ps with
  | [] => mret tt
  | p :: ps =>
      hash_del p ;;
      pair p ;;
      modify_st (fun s => set_nodes (delete p (nodes s)) s) ;;
      free_nodes ps
  end.

Definition ht530_exit : M (sys U (ht530 L)) unit :=
  s ← get_st;
  free_nodes (hash_nodes (ht530_tbl s)) ;;
  kcall_ (Unregister_chrdev_region MODULE_NAME) ;;
  kcall_ (Device_destroy DEVICE_NAME) ;;
  kcall_ (Cdev_del MODULE_NAME) ;;
  kcall_ (Kfree_of "ht530_dev") ;;
  kcall_ (Class_destroy MODULE_NAME).

(** The state before [ht530_init]: static storage is zero. *)

Definition ht530_static : ht530 L :=
  {| ht530_tbl := replicate (Z.to_nat BUCKET_SIZE) kempty; nodes := ∅; cur_size := 0; for_mprobe_test1 := 0; for_mprobe_test2 := 0 |}.
End ht530.
