(* ===== verification/Ht530Proofs.v ===== *)
(** * Hash table driver: the table as a finite map, and the lemmas on it *)

From S2P Require Import Prelude Kernel UserMemory Ht530.

(** [put d k m] is what a write means: data 0 deletes. *)

Definition put (o : ht_object) (m : gmap Z Z) : gmap Z Z :=
  if data o =? 0 then delete (key o) m else <[key o := data o]> m.

Definition is_int (z : Z) : Prop := - 2 ^ 31 <= z < 2 ^ 31.

Section inv.
Context {L U : Type} {KL : KList L} {KM : Kmalloc} {UM : UserMemory U} {HM : HashMin}.
Implicit Types (s : ht530 L) (p : loc) (o : ht_object) (w : sys U (ht530 L)).

Definition has_pair s p o : Prop := nodes s !! p = Some (Some o).

Record represents s (m : gmap Z Z) : Prop := {
  re_len : length (ht530_tbl s) = 128%nat;
  re_nodup i h : ht530_tbl s !! i = Some h -> NoDup (knodes h);
  re_chain i h p : ht530_tbl s !! i = Some h -> p ∈ knodes h ->
    exists o, has_pair s p o /\ hash_min (key o) = Z.of_nat i;
  re_live p : is_Some (nodes s !! p) -> p ∈ hash_nodes (ht530_tbl s);
  re_map k d : m !! k = Some d <-> exists p, has_pair s p {| key := k; data := d |};
  re_inj p p' o o' : has_pair s p o -> has_pair s p' o' -> key o = key o' -> p = p';
  re_data p o : has_pair s p o -> data o <> 0 /\ is_int (key o) /\ is_int (data o);
  re_size : cur_size s = u64 (Z.of_nat (size m))
}.

Lemma elem_of_hash_nodes (t : list L) p :
  p ∈ hash_nodes t <-> exists i h, t !! i = Some h /\ p ∈ knodes h.
Proof.
  unfold hash_nodes. rewrite list_elem_of_In, in_concat. split.
  - intros (l & Hl & Hp). apply in_map_iff in Hl as (h & <- & Hh).
    apply list_elem_of_In, list_elem_of_lookup in Hh as [i Hi].
    exists i, h. split; [done|]. by apply list_elem_of_In.
  - intros (i & h & Hi & Hp). exists (knodes h). split; [|by apply list_elem_of_In].
    apply in_map, list_elem_of_In. by eapply list_elem_of_lookup_2.
Qed.

Lemma live_pair s m p : represents s m -> is_Some (nodes s !! p) ->
  exists o i h, has_pair s p o /\ ht530_tbl s !! i = Some h /\ p ∈ knodes h /\ hash_min (key o) = Z.of_nat i.
Proof.
  intros R Hp. apply (re_live _ _ R), elem_of_hash_nodes in Hp as (i & h & Hi & Hp).
  destruct (re_chain _ _ R i h p) as (o & Ho & Hk); [done..|]. eauto 10.
Qed.

(** The chains are disjoint: together they list every node once. *)

Lemma hash_nodes_nodup s m : represents s m -> NoDup (hash_nodes (ht530_tbl s)).
Proof.
  intros R. unfold hash_nodes.
  assert (forall j t, (forall i h, t !! i = Some h -> ht530_tbl s !! (j + i)%nat = Some h) ->
    NoDup (concat (map knodes t))) as G.
  2: { apply (G 0%nat). done. }
  intros j t. revert j. induction t as [|h t IH]; intros j Ht; simpl; [constructor|].
  assert (ht530_tbl s !! j = Some h) as Hj.
  { replace j with (j + 0)%nat by lia. by apply Ht. }
  apply NoDup_app. split_and!.
  - by eapply (re_nodup _ _ R).
  - intros p Hp Hp'. apply (elem_of_hash_nodes t) in Hp' as (i & h' & Hi & Hp').
    destruct (re_chain _ _ R _ _ _ Hj Hp) as (o & Ho & Hk).
    destruct (re_chain _ _ R (j + S i) h' p) as (o' & Ho' & Hk'); [by apply Ht|done|].
    unfold has_pair in *. assert (o = o') by congruence. subst. lia.
  - apply (IH (S j)). intros i h' Hi. replace (S j + i)%nat with (j + S i)%nat by lia. by apply Ht.
Qed.

(** ** Symbolic execution *)

Lemma bucket_ok w k :
  length (ht530_tbl (st w)) = 128%nat ->
  exists h, ht530_tbl (st w) !! Z.to_nat (hash_min k) = Some h /\ bucket (hash_min k) w = Ok h w.
Proof.
  intros Hl. pose proof (hash_min_range k) as Hk.
  destruct (lookup_lt_is_Some_2 (ht530_tbl (st w)) (Z.to_nat (hash_min k))) as [h Hh]; [lia|].
  exists h. split; [done|]. apply deref_ok. by rewrite (proj2 (Z.ltb_ge _ _)) by lia.
Qed.

Lemma pair_ok w p o : has_pair (st w) p o -> pair p w = Ok o w.
Proof. intros H. unfold pair. by rewrite (bind_ok _ _ _ _ _ (deref_ok (fun w => nodes (st w) !! p) UseAfterFree w _ H)). Qed.

Lemma set_pair_ok w p x o :
  nodes (st w) !! p = Some x ->
  set_pair p o w = Ok tt (with_st (set_nodes (<[p := Some o]> (nodes (st w))) (st w)) w).
Proof. intros H. unfold set_pair. by rewrite (bind_ok _ _ _ _ _ (deref_ok (fun w => nodes (st w) !! p) UseAfterFree w _ H)). Qed.

Lemma scan_chain_ok w k ps :
  (forall p, p ∈ ps -> exists o, has_pair (st w) p o) ->
  exists r, scan_chain k ps w = Ok r w /\
  match r with
  | Some p => p ∈ ps /\ exists d, has_pair (st w) p {| key := k; data := d |}
  | None => forall p o, p ∈ ps -> has_pair (st w) p o -> key o <> k
  end.
Proof.
  induction ps as [|p ps IH]; intros Hps.
  - exists None. split; [done|]. intros p o Hp. by apply elem_of_nil in Hp.
  - destruct (Hps p) as [o Ho]; [by left|]. cbn [scan_chain].
    rewrite (bind_ok _ _ _ _ _ (pair_ok _ _ _ Ho)).
    destruct (Z.eqb_spec (key o) k) as [<-|Hk].
    + exists (Some p). split; [done|]. split; [by left|]. exists (data o). by destruct o.
    + destruct IH as (r & Hr & HP); [intros; apply Hps; by right|]. exists r. split; [done|].
      destruct r as [q|]; [destruct HP; split; [by right|done]|].
      intros q o' Hq Ho'. apply elem_of_cons in Hq as [->|Hq]; [|by eapply HP].
      unfold has_pair in *. congruence.
Qed.

Lemma hlist_empty_spec (h : L) : hlist_empty h = true <-> knodes h = [].
Proof. unfold hlist_empty. by destruct (knodes h). Qed.

(** The look-up finds exactly the keys of the map. *)

Lemma find_the_node_ok w m k :
  represents (st w) m ->
  exists r, find_the_node k None w = Ok r w /\
  match r with
  | Some p => exists d, has_pair (st w) p {| key := k; data := d |} /\ m !! k = Some d
  | None => m !! k = None
  end.
Proof.
  intros R. destruct (bucket_ok w k (re_len _ _ R)) as (h & Hh & Hb).
  assert (forall d, m !! k = Some d -> exists p, p ∈ knodes h /\ has_pair (st w) p {| key := k; data := d |}) as Hin.
  { intros d Hd. apply (re_map _ _ R) in Hd as [p Hp]. exists p. split; [|done].
    destruct (live_pair _ _ p R) as (o & i & h' & Ho & Hi & Hph & Hk); [by eexists|].
    unfold has_pair in *. assert (o = {| key := k; data := d |}) by congruence. subst o. simpl in Hk.
    rewrite Hk, Nat2Z.id in Hh. congruence. }
  assert (find_the_bucket k w = Ok (if hlist_empty h then None else Some (hash_min k)) w) as Hf.
  { unfold find_the_bucket. rewrite (bind_ok _ _ _ _ _ Hb). by destruct (hlist_empty h). }
  unfold find_the_node. rewrite (bind_ok _ _ _ _ _ Hf). destruct (hlist_empty h) eqn:He.
  - exists None. split; [done|]. destruct (m !! k) as [d|] eqn:Hd; [|done].
    destruct (Hin d eq_refl) as (p & Hp & _). apply hlist_empty_spec in He. rewrite He in Hp.
    by apply elem_of_nil in Hp.
  - rewrite (bind_ok _ _ _ _ _ Hb).
    destruct (scan_chain_ok w k (knodes h)) as (r & Hr & HP).
    { intros p Hp. destruct (re_chain _ _ R _ _ _ Hh Hp) as (o & ? & _). by exists o. }
    exists r. split; [done|]. destruct r as [p|].
    + destruct HP as (_ & d & Hd). exists d. split; [done|]. apply (re_map _ _ R). by exists p.
    + destruct (m !! k) as [d|] eqn:Hd; [|done]. destruct (Hin d eq_refl) as (p & Hp & Ho).
      by destruct (HP p _ Hp Ho).
Qed.

(** ** The three updates of the table *)

Definition updated s p o : ht530 L := set_nodes (<[p := Some o]> (nodes s)) s.

Definition inserted s p o : ht530 L :=
  set_cur_size (u64 (cur_size s + 1))
    (set_tbl (alter (kadd p) (Z.to_nat (hash_min (key o))) (ht530_tbl s))
      (set_nodes (<[p := Some o]> (nodes s)) s)).

Definition unlinked p (h : L) : L := if decide (p ∈ knodes h) then kdel p h else h.

Definition deleted s p : ht530 L :=
  set_nodes (delete p (nodes s)) (set_cur_size (u64 (cur_size s - 1))
    (set_tbl (map (unlinked p) (ht530_tbl s)) s)).

Lemma updated_represents s m p d o :
  represents s m -> has_pair s p {| key := key o; data := d |} ->
  data o <> 0 -> is_int (key o) -> is_int (data o) ->
  represents (updated s p o) (<[key o := data o]> m).
Proof.
  intros R Hp Hd Hk Hi.
  assert (forall q x, has_pair (updated s p o) q x <-> q = p /\ x = o \/ q <> p /\ has_pair s q x) as Hq.
  { intros q x. unfold has_pair, updated. cbn [nodes set_nodes].
    destruct (decide (q = p)) as [->|]; [rewrite lookup_insert_eq|rewrite lookup_insert_ne by done];
      naive_solver. }
  assert (m !! key o = Some d) as Hm by (apply (re_map _ _ R); by exists p).
  constructor; try apply R.
  - intros i h q Hh Hin. destruct (re_chain _ _ R _ _ _ Hh Hin) as (x & Hx & Hkx).
    destruct (decide (q = p)) as [->|Hne].
    + exists o. split; [apply Hq; by left|]. unfold has_pair in *.
      assert (x = {| key := key o; data := d |}) by congruence. by subst.
    + exists x. split; [apply Hq; by right|done].
  - intros q [x Hx]. apply (re_live _ _ R). unfold updated in Hx. cbn [nodes set_nodes] in Hx.
    destruct (decide (q = p)) as [->|]; [by eexists|].
    rewrite lookup_insert_ne in Hx by done. by eexists.
  - intros k e. destruct (decide (k = key o)) as [->|Hne].
    + rewrite lookup_insert_eq. split.
      * intros [= <-]. exists p. apply Hq. left. by destruct o.
      * intros (q & [[_ <-]|[Hqp Hx]]%Hq); [done|]. by destruct (Hqp (re_inj _ _ R _ _ _ _ Hx Hp eq_refl)).
    + rewrite lookup_insert_ne by done. rewrite (re_map _ _ R). split; intros [q Hx]; exists q.
      * apply Hq. right. split; [|done]. intros ->. unfold has_pair in *. congruence.
      * apply Hq in Hx as [[_ <-]|[_ ?]]; [done|done].
  - intros q q' x x' [[-> ->]|[? Hx]]%Hq [[-> ->]|[? Hx']]%Hq E; [done| | |by eapply (re_inj _ _ R)].
    + symmetry. by eapply (re_inj _ _ R).
    + by eapply (re_inj _ _ R).
  - intros q x [[_ ->]|[_ Hx]]%Hq; [done|]. by eapply (re_data _ _ R).
  - rewrite map_size_insert, Hm. apply R.
Qed.

Lemma lookup_inserted s p o i h :
  ht530_tbl (inserted s p o) !! i = Some h ->
  exists h', ht530_tbl s !! i = Some h' /\
    h = if decide (i = Z.to_nat (hash_min (key o))) then kadd p h' else h'.
Proof.
  unfold inserted. cbn [ht530_tbl set_cur_size set_tbl set_nodes]. destruct (decide _) as [->|Hne].
  - rewrite list_lookup_alter_eq. intros (h' & ? & ->)%fmap_Some. by exists h'.
  - rewrite list_lookup_alter_ne by done. by exists h.
Qed.

Lemma fresh_unlinked s m p : represents s m -> nodes s !! p = None ->
  forall i h, ht530_tbl s !! i = Some h -> p ∉ knodes h.
Proof. intros R Hp i h Hh Hin. destruct (re_chain _ _ R _ _ _ Hh Hin) as (x & Hx & _). unfold has_pair in Hx. congruence. Qed.

Lemma inserted_pair s p o q x : nodes s !! p = None ->
  has_pair (inserted s p o) q x <-> q = p /\ x = o \/ has_pair s q x.
Proof.
  intros Hp. unfold has_pair, inserted. cbn [nodes set_nodes set_tbl set_cur_size].
  destruct (decide (q = p)) as [->|]; [rewrite lookup_insert_eq|rewrite lookup_insert_ne by done];
    rewrite ?Hp; naive_solver.
Qed.

Lemma inserted_live s m p o q : represents s m -> nodes s !! p = None ->
  is_Some (nodes (inserted s p o) !! q) -> q ∈ hash_nodes (ht530_tbl (inserted s p o)).
Proof.
  intros R Hp Hlive. apply elem_of_hash_nodes. pose proof (hash_min_range (key o)) as Hr.
  pose proof (fresh_unlinked s m p R Hp) as Hfresh.
  destruct (lookup_lt_is_Some_2 (ht530_tbl s) (Z.to_nat (hash_min (key o)))) as [h Hh];
    [rewrite (re_len _ _ R); lia|].
  destruct (decide (q = p)) as [->|Hne].
  + exists (Z.to_nat (hash_min (key o))), (kadd p h). split.
    * unfold inserted. cbn. by rewrite list_lookup_alter_eq, Hh.
    * rewrite knodes_add by eauto. by left.
  + unfold inserted in Hlive. cbn in Hlive. rewrite lookup_insert_ne in Hlive by done.
    apply (re_live _ _ R), elem_of_hash_nodes in Hlive as (i & h' & Hi' & Hin).
    exists i. destruct (decide (i = Z.to_nat (hash_min (key o)))) as [->|].
    * exists (kadd p h'). split; [unfold inserted; cbn; by rewrite list_lookup_alter_eq, Hi'|].
      rewrite knodes_add by eauto. by right.
    * exists h'. split; [unfold inserted; cbn; by rewrite list_lookup_alter_ne|done].
Qed.

Lemma inserted_represents s m p o :
  represents s m -> nodes s !! p = None -> m !! key o = None ->
  data o <> 0 -> is_int (key o) -> is_int (data o) ->
  represents (inserted s p o) (<[key o := data o]> m).
Proof.
  intros R Hp Hm Hd Hk Hi. pose proof (hash_min_range (key o)) as Hr.
  pose proof (fresh_unlinked s m p R Hp) as Hfresh.
  assert (forall q x, has_pair (inserted s p o) q x <-> q = p /\ x = o \/ has_pair s q x) as Hq by (intros; by apply inserted_pair).
  assert (forall q x, has_pair s q x -> key x <> key o) as Hnew.
  { intros q x Hx E. rewrite <- E in Hm. rewrite (proj2 (re_map _ _ R (key x) (data x))) in Hm; [done|].
    exists q. by destruct x. }
  constructor.
  - unfold inserted. cbn. rewrite length_alter. apply R.
  - intros i h (h' & Hh' & ->)%lookup_inserted. pose proof (re_nodup _ _ R _ _ Hh').
    destruct (decide _); [|done]. rewrite knodes_add by eauto. constructor; eauto.
  - intros i h q (h' & Hh' & ->)%lookup_inserted Hin. destruct (decide _) as [->|].
    + rewrite knodes_add in Hin by eauto. apply elem_of_cons in Hin as [->|Hin].
      * exists o. split; [apply Hq; by left|]. lia.
      * destruct (re_chain _ _ R _ _ _ Hh' Hin) as (x & Hx & ?). exists x. split; [apply Hq; by right|done].
    + destruct (re_chain _ _ R _ _ _ Hh' Hin) as (x & Hx & ?). exists x. split; [apply Hq; by right|done].
  - intros q. by apply (inserted_live s m).
  - intros k d. destruct (decide (k = key o)) as [->|Hne].
    + rewrite lookup_insert_eq. split.
      * intros [= <-]. exists p. apply Hq. left. by destruct o.
      * intros (q & [[_ <-]|Hx]%Hq); [done|]. by destruct (Hnew _ _ Hx).
    + rewrite lookup_insert_ne by done. rewrite (re_map _ _ R). split; intros [q Hx]; exists q.
      * apply Hq. by right.
      * apply Hq in Hx as [[_ <-]|?]; done.
  - intros q q' x x' [[-> ->]|Hx]%Hq [[-> ->]|Hx']%Hq E; [done| | |by eapply (re_inj _ _ R)].
    + by destruct (Hnew _ _ Hx').
    + by destruct (Hnew _ _ Hx).
  - intros q x [[_ ->]|Hx]%Hq; [done|]. by eapply (re_data _ _ R).
  - rewrite map_size_insert, Hm. unfold inserted. cbn. rewrite (re_size _ _ R).
    unfold wrap. rewrite Zplus_mod_idemp_l. f_equal. lia.
Qed.

Lemma knodes_unlinked p (h : L) : NoDup (knodes h) -> knodes (unlinked p h) = filter (fun q => q <> p) (knodes h).
Proof.
  intros Hd. unfold unlinked. destruct (decide _); [by apply knodes_del|]. by rewrite filter_ne_absent.
Qed.

Lemma elem_of_unlinked p q (h : L) : NoDup (knodes h) -> q ∈ knodes (unlinked p h) <-> q <> p /\ q ∈ knodes h.
Proof. intros. by rewrite knodes_unlinked, list_elem_of_filter. Qed.

Lemma deleted_represents s m p o :
  represents s m -> has_pair s p o -> represents (deleted s p) (delete (key o) m).
Proof.
  intros R Hp.
  assert (forall q x, has_pair (deleted s p) q x <-> q <> p /\ has_pair s q x) as Hq.
  { intros q x. unfold has_pair, deleted. cbn [nodes set_nodes].
    destruct (decide (q = p)) as [->|]; [rewrite lookup_delete_eq|rewrite lookup_delete_ne by done]; naive_solver. }
  assert (m !! key o = Some (data o)) as Hm by (apply (re_map _ _ R); exists p; by destruct o).
  assert (forall i h, ht530_tbl (deleted s p) !! i = Some h ->
    exists h', ht530_tbl s !! i = Some h' /\ h = unlinked p h') as Ht.
  { intros i h Hh. unfold deleted in Hh. cbn in Hh.
    apply list_lookup_fmap_Some in Hh as (h' & ? & ?). by exists h'. }
  constructor.
  - unfold deleted. cbn. rewrite length_map. apply R.
  - intros i h (h' & Hh' & ->)%Ht. rewrite knodes_unlinked by (by eapply (re_nodup _ _ R)).
    apply NoDup_filter. by eapply (re_nodup _ _ R).
  - intros i h q (h' & Hh' & ->)%Ht [Hne Hin]%elem_of_unlinked; [|by eapply (re_nodup _ _ R)].
    destruct (re_chain _ _ R _ _ _ Hh' Hin) as (x & Hx & Hk). exists x. split; [by apply Hq|done].
  - intros q Hlive. unfold deleted in Hlive. cbn in Hlive.
    destruct (decide (q = p)) as [->|Hne]; [rewrite lookup_delete_eq in Hlive; by destruct Hlive|].
    rewrite lookup_delete_ne in Hlive by done.
    apply (re_live _ _ R), elem_of_hash_nodes in Hlive as (i & h & Hi & Hin).
    apply elem_of_hash_nodes. exists i, (unlinked p h). split.
    + unfold deleted. cbn. apply list_lookup_fmap_Some. by exists h.
    + apply elem_of_unlinked; [by eapply (re_nodup _ _ R)|done].
  - intros k d. destruct (decide (k = key o)) as [->|Hne].
    + rewrite lookup_delete_eq. split; [done|]. intros (q & [Hqp Hx]%Hq).
      by destruct (Hqp (re_inj _ _ R _ _ _ _ Hx Hp eq_refl)).
    + rewrite lookup_delete_ne by done. rewrite (re_map _ _ R). split; intros [q Hx]; exists q.
      * apply Hq. split; [|done]. intros ->. unfold has_pair in *. assert (o = {| key := k; data := d |}) by congruence.
        by subst.
      * by apply Hq in Hx as [_ ?].
  - intros q q' x x' [_ Hx]%Hq [_ Hx']%Hq. by eapply (re_inj _ _ R).
  - intros q x [_ Hx]%Hq. by eapply (re_data _ _ R).
  - rewrite map_size_delete, Hm. unfold deleted. cbn. rewrite (re_size _ _ R).
    assert (size m <> 0%nat) by (intros E%map_size_empty_inv; by subst).
    unfold wrap. rewrite Zminus_mod_idemp_l. f_equal. lia.
Qed.
End inv.
