(* ===== verification/Ht530Spec.v ===== *)
(** * Hash table driver: what its calls promise *)

From S2P Require Import Prelude Kernel UserMemory Ht530 Ht530Proofs.

Section calls.
Context {L U : Type} {KL : KList L} {KM : Kmalloc} {UM : UserMemory U} {HM : HashMin}
  {IC : IoctlCode} {E : Environment}.
Implicit Types (s : ht530 L) (p : loc) (o : ht_object) (w : sys U (ht530 L)) (m : gmap Z Z).

(** The object a call finds at the user address [buf]; a partial copy leaves
    whatever [copy_from_user] put there. *)

Definition object_at (u : U) (buf : Z) : ht_object := get_object (fetch u buf sizeof_ht_object).1.

Definition can_allocate s : Prop := is_Some (kmalloc (dom (nodes s))).

Lemma object_at_int (u : U) buf : is_int (key (object_at u buf)) /\ is_int (data (object_at u buf)).
Proof. split; apply s32_range. Qed.

Lemma bucket_add_ok w k p :
  length (ht530_tbl (st w)) = 128%nat ->
  hash_add p k w = Ok tt (with_st (set_tbl (alter (kadd p) (Z.to_nat (hash_min k)) (ht530_tbl (st w))) (st w)) w).
Proof.
  intros Hl. destruct (bucket_ok w k Hl) as (h & _ & Hb). unfold hash_add. by rewrite (bind_ok _ _ _ _ _ Hb).
Qed.

Lemma kmalloc_node_ok w p :
  kmalloc (dom (nodes (st w))) = Some p ->
  kmalloc_node w = Ok p (with_st (set_nodes (<[p := None]> (nodes (st w))) (st w)) w).
Proof.
  intros Hp. unfold kmalloc_node.
  by rewrite (bind_ok _ _ _ _ _ (deref_ok (fun w => kmalloc (dom (nodes (st w)))) NullDeref w p Hp)).
Qed.

Lemma insert_new_ok w m o p :
  represents (st w) m -> kmalloc (dom (nodes (st w))) = Some p -> data o <> 0 ->
  write_commit o None w = Ok 0 (with_st (inserted (st w) p o) w).
Proof.
  intros R Hp Hd. unfold write_commit. rewrite (proj2 (Z.eqb_neq _ _) Hd).
  erewrite bind_ok; last first.
  { rewrite (bind_ok _ _ _ _ _ (kmalloc_node_ok _ _ Hp)).
    erewrite bind_ok by (apply bucket_add_ok; apply R). reflexivity. }
  cbn [negb]. erewrite bind_ok by (eapply set_pair_ok; cbn; apply lookup_insert_eq).
  rewrite mret_ok. f_equal. unfold inserted, set_nodes, set_tbl, set_cur_size, with_st. cbn.
  by rewrite insert_insert_eq.
Qed.

Lemma overwrite_ok w m o p d :
  has_pair (st w) p {| key := key o; data := d |} -> data o <> 0 ->
  write_commit o (Some p) w = Ok 0 (with_st (updated (st w) p o) w).
Proof.
  intros Hp Hd. unfold write_commit. rewrite (proj2 (Z.eqb_neq _ _) Hd).
  rewrite (bind_ok _ _ _ _ _ (mret_ok p w)). cbn [negb].
  by rewrite (bind_ok _ _ _ _ _ (set_pair_ok _ _ _ _ Hp)).
Qed.

Lemma delete_ok w o p x :
  has_pair (st w) p x -> data o = 0 ->
  write_commit o (Some p) w = Ok 0 (with_st (deleted (st w) p) w).
Proof.
  intros Hp Hd. unfold write_commit. rewrite Hd. cbn [Z.eqb negb].
  rewrite (bind_ok _ _ _ _ _ (mret_ok p w)). by rewrite (bind_ok _ _ _ _ _ (pair_ok _ _ _ Hp)).
Qed.

(** What the look-up of a key found, against the map. *)

Definition found s m (k : Z) (r : option loc) : Prop :=
  match r with
  | Some p => exists d, has_pair s p {| key := k; data := d |} /\ m !! k = Some d
  | None => m !! k = None
  end.

Lemma commit_ok w m o r :
  represents (st w) m -> found (st w) m (key o) r -> is_int (key o) -> is_int (data o) -> can_allocate (st w) ->
  exists s, write_commit o r w = Ok 0 (with_st s w) /\ represents s (put o m).
Proof.
  intros R HP Hk Hd [p Hp]. unfold put. destruct (Z.eqb_spec (data o) 0) as [Hz|Hz], r as [q|].
  - destruct HP as (d & Hq & _). exists (deleted (st w) q). split; [by eapply delete_ok|].
    by apply (deleted_represents _ _ _ _ R Hq).
  - exists (st w). split; [unfold write_commit; rewrite Hz; by destruct w|].
    by rewrite delete_id.
  - destruct HP as (d & Hq & _). exists (updated (st w) q o). split; [by eapply overwrite_ok|].
    by eapply updated_represents.
  - exists (inserted (st w) p o). split; [by eapply insert_new_ok|].
    apply inserted_represents; try done. apply not_elem_of_dom. by apply kmalloc_fresh.
Qed.

(** The only commit that fails: a new pair, and no memory for its node. *)

Definition no_node s m o : Prop := m !! key o = None /\ data o <> 0 /\ kmalloc (dom (nodes s)) = None.

Lemma commit_cases w m o r :
  represents (st w) m -> found (st w) m (key o) r -> is_int (key o) -> is_int (data o) ->
  (no_node (st w) m o /\ write_commit o r w = Crash NullDeref w) \/
  exists s, write_commit o r w = Ok 0 (with_st s w) /\ represents s (put o m).
Proof.
  intros R HP Hk Hd. destruct (kmalloc (dom (nodes (st w)))) as [p|] eqn:Hp; [right; apply commit_ok; [done..|by exists p]|].
  unfold put. destruct (Z.eqb_spec (data o) 0) as [Hz|Hz], r as [q|].
  - right. destruct HP as (d & Hq & _). exists (deleted (st w) q). split; [by eapply delete_ok|].
    by apply (deleted_represents _ _ _ _ R Hq).
  - right. exists (st w). split; [unfold write_commit; rewrite Hz; by destruct w|].
    by rewrite delete_id.
  - right. destruct HP as (d & Hq & _). exists (updated (st w) q o). split; [by eapply overwrite_ok|].
    by eapply updated_represents.
  - left. split; [done|]. unfold write_commit. rewrite (proj2 (Z.eqb_neq _ _) Hz).
    apply bind_crash, bind_crash. unfold kmalloc_node. apply bind_crash. unfold deref. by rewrite Hp.
Qed.

(** A lookup followed by the commit, for the object [o]. *)

Lemma find_commit_ok w m o :
  represents (st w) m -> is_int (key o) -> is_int (data o) -> can_allocate (st w) ->
  exists s, (kitem ← find_the_node (key o) None; write_commit o kitem) w = Ok 0 (with_st s w) /\
    represents s (put o m).
Proof.
  intros R Hk Hd Hm. destruct (find_the_node_ok w m (key o) R) as (r & Hr & HP).
  rewrite (bind_ok _ _ _ _ _ Hr). by apply commit_ok.
Qed.

Lemma ht530_write_ok w m buf :
  represents (st w) m -> can_allocate (st w) ->
  exists s, ht530_write buf w = Ok 0 (with_st s w) /\ represents s (put (object_at (user w) buf) m).
Proof.
  intros R Hm. destruct (object_at_int (user w) buf) as [Hk Hd].
  destruct (find_commit_ok w m (object_at (user w) buf) R Hk Hd Hm) as (s & Hs & HR).
  exists s. split; [|done]. unfold ht530_write. rewrite (bind_ok _ _ _ _ _ (copy_from_user_ok _ _ _)).
  pose proof (fetch_not_negative (user w) buf sizeof_ht_object) as Hf. unfold object_at in *.
  destruct (fetch _ _ _) as [bs left]. simpl in Hf. by rewrite Hf.
Qed.

(** C15: A write of (key, data) stores the pair, or deletes the key when data
    is 0: the table represents the updated finite map, which also fixes
    [cur_size]; it returns 0, even when the copy from the user failed and the
    object is whatever the copy left, and touches no process's memory.  The
    one exception is a new key for which kmalloc has no memory: lines 171-172
    follow the NULL. *)

Theorem write_updates_map w m buf :
  represents (st w) m ->
  let o := object_at (user w) buf in
  (m !! key o = None /\ data o <> 0 /\ kmalloc (dom (nodes (st w))) = None /\ ht530_write buf w = Crash NullDeref w) \/
  (exists s, ht530_write buf w = Ok 0 (with_st s w) /\ represents s (put o m)).
Proof.
  intros R o. destruct (object_at_int (user w) buf) as [Hk Hd]. fold o in Hk, Hd.
  destruct (find_the_node_ok w m (key o) R) as (r & Hr & HP).
  assert (ht530_write buf w = write_commit o r w) as ->.
  { unfold ht530_write. rewrite (bind_ok _ _ _ _ _ (copy_from_user_ok _ _ _)).
    pose proof (fetch_not_negative (user w) buf sizeof_ht_object) as Hf. unfold o, object_at in *.
    destruct (fetch _ _ _) as [bs left]. simpl in Hf. rewrite Hf. by rewrite (bind_ok _ _ _ _ _ Hr). }
  destruct (commit_cases w m o r R HP Hk Hd) as [[(? & ? & ?) ?]|?]; [by left|by right].
Qed.

(** ** [read] *)

Lemma ht530_read_ok w m buf count :
  represents (st w) m -> (count <= 8)%nat ->
  ht530_read buf count w =
    match m !! key (object_at (user w) buf) with
    | None => Ok (- EINVAL) w
    | Some d =>
        let r := store (user w) buf (take count (put_object {| key := key (object_at (user w) buf); data := d |})) in
        Ok (Z.of_nat count - r.2) (with_user r.1 w)
    end.
Proof.
  intros R Hc. unfold ht530_read. rewrite (bind_ok _ _ _ _ _ (copy_from_user_ok _ _ _)).
  pose proof (fetch_not_negative (user w) buf sizeof_ht_object) as Hf. unfold object_at.
  destruct (fetch _ _ _) as [bs left]. simpl in Hf. rewrite Hf. cbn [fst].
  destruct (find_the_node_ok w m (key (get_object bs)) R) as (r & Hr & HP).
  rewrite (bind_ok _ _ _ _ _ Hr). destruct r as [p|]; [|by rewrite HP].
  destruct HP as (d & Hp & ->). rewrite (bind_ok _ _ _ _ _ (pair_ok _ _ _ Hp)).
  rewrite (proj2 (Nat.ltb_ge _ _)) by (unfold sizeof_ht_object; lia).
  erewrite bind_ok by reflexivity. by rewrite store_not_negative.
Qed.

(** A read of at most 8 bytes finds exactly the keys of the map: an
    unknown key is refused with -EINVAL and nothing is copied; a known one is
    copied to the caller's buffer, and the result is the number of bytes that
    arrived. *)

Theorem read_finds_map w m buf count :
  represents (st w) m -> (count <= 8)%nat ->
  ht530_read buf count w =
    match m !! key (object_at (user w) buf) with
    | None => Ok (- EINVAL) w
    | Some d =>
        let r := store (user w) buf (take count (put_object {| key := key (object_at (user w) buf); data := d |})) in
        Ok (Z.of_nat count - r.2) (with_user r.1 w)
    end.
Proof. apply ht530_read_ok. Qed.

(** A larger count reads kernel memory beyond the node's pair as soon as
    the key is known. *)

Theorem long_read_overruns w m buf count d :
  represents (st w) m -> (8 < count)%nat -> m !! key (object_at (user w) buf) = Some d ->
  ht530_read buf count w = Crash OutOfBounds w.
Proof.
  intros R Hc Hd. unfold ht530_read. rewrite (bind_ok _ _ _ _ _ (copy_from_user_ok _ _ _)).
  pose proof (fetch_not_negative (user w) buf sizeof_ht_object) as Hf. unfold object_at in *.
  destruct (fetch _ _ _) as [bs left]. simpl in Hf. rewrite Hf. cbn [fst] in Hd.
  destruct (find_the_node_ok w m (key (get_object bs)) R) as (r & Hr & HP).
  rewrite (bind_ok _ _ _ _ _ Hr). destruct r as [p|]; [|congruence].
  destruct HP as (d' & Hp & _). rewrite (bind_ok _ _ _ _ _ (pair_ok _ _ _ Hp)).
  by rewrite (proj2 (Nat.ltb_lt _ _)) by (unfold sizeof_ht_object; lia).
Qed.

Lemma put_object_bytes o : Forall (fun b => 0 <= b < 256) (put_object o).
Proof. apply Forall_app. split; apply put_int_bytes. Qed.

Lemma length_put_object o : length (put_object o) = 8%nat.
Proof. done. Qed.

Lemma get_put_object o bs : is_int (key o) -> is_int (data o) -> get_object (put_object o ++ bs) = o.
Proof.
  intros Hk Hd. unfold get_object, put_object. rewrite <- !app_assoc, get_put_int.
  rewrite drop_app_length' by (unfold put_int; by rewrite length_le_bytes).
  rewrite get_put_int, !s32_small by done. by destruct o.
Qed.

(** C30: What was written is read back: after a write of a non-zero datum, a
    read of the same key into any writable buffer returns 8 and leaves the
    written pair there. *)

Theorem read_after_write w m buf buf' u' :
  represents (st w) m -> can_allocate (st w) ->
  data (object_at (user w) buf) <> 0 ->
  key (object_at u' buf') = key (object_at (user w) buf) -> writable u' buf' 8 ->
  exists w', (ht530_write buf ;; modify (with_user u') ;; ht530_read buf' 8) w = Ok 8 w' /\
    object_at (user w') buf' = object_at (user w) buf.
Proof.
  intros R Hm Hd Hk Hw. destruct (ht530_write_ok w m buf R Hm) as (s & Hs & HR).
  rewrite (bind_ok _ _ _ _ _ Hs), (bind_ok _ _ _ _ _ (modify_ok _ _)).
  rewrite (ht530_read_ok (with_user u' (with_st s w)) _ buf' 8 HR) by lia. unfold put.
  rewrite (proj2 (Z.eqb_neq _ _) Hd). cbn [with_st with_user user].
  rewrite Hk, lookup_insert_eq, take_ge by done.
  set (o := object_at (user w) buf) in *.
  replace {| key := key o; data := data o |} with o by (by destruct o).
  specialize (Hw (put_object o) eq_refl). destruct (store u' buf' (put_object o)) as [u2 r] eqn:Es.
  simpl in Hw. subst r. eexists. split; [done|]. cbn [with_user user fst].
  unfold object_at at 1. change sizeof_ht_object with (length (put_object o)).
  rewrite (fetch_store _ _ _ _ (put_object_bytes o) Es). cbn [fst].
  rewrite <- (app_nil_r (put_object o)). apply get_put_object; apply object_at_int.
Qed.
End calls.
