(* ===== verification/Ht530Dump.v ===== *)
(** * Hash table driver: the dumps of [ioctl] *)

From S2P Require Import Prelude Kernel UserMemory Ht530 Ht530Proofs Ht530Spec.

Section dumps.
Context {L U : Type} {KL : KList L} {KM : Kmalloc} {UM : UserMemory U} {HM : HashMin}
  {IC : IoctlCode} {E : Environment}.
Implicit Types (s : ht530 L) (p : loc) (o : ht_object) (w : sys U (ht530 L)) (m : gmap Z Z).

Lemma codes_differ : ALL_DUMP <> HASH_DUMP /\ ALL_DUMP <> RET_CUR_SIZE /\ HASH_DUMP <> RET_CUR_SIZE.
Proof. split_and!; intros (_ & _ & H)%ioc_inj; unfold DUMP_MAGIC in *; lia. Qed.

Lemma bzero_ok sl n : (n <= length sl)%nat -> bzero sl n = Some (replicate n 0 ++ drop n sl).
Proof.
  revert sl. induction n as [|n IH]; intros sl Hn; [by destruct sl|].
  destruct sl as [|b sl]; simpl in *; [lia|]. by rewrite IH by lia.
Qed.

Lemma fetch_nil (u : U) a : fetch u a 0 = ([], 0).
Proof.
  pose proof (fetch_length u a 0) as Hl. pose proof (fetch_left u a 0) as Hr.
  destruct (fetch u a 0) as [l r]. simpl in *. destruct l; [|done]. f_equal. lia.
Qed.

(** The nodes of the table and their objects, in the order of the dump. *)

Lemma dump_order s m : represents s m ->
  exists os, Forall2 (has_pair s) (hash_nodes (ht530_tbl s)) os /\
    os ≡ₚ map (fun kd => {| key := kd.1; data := kd.2 |}) (map_to_list m).
Proof.
  intros R. pose proof (hash_nodes_nodup _ _ R) as Hd.
  assert (forall p, p ∈ hash_nodes (ht530_tbl s) -> exists o, has_pair s p o) as Hex.
  { intros p (i & h & Hi & Hp)%elem_of_hash_nodes. destruct (re_chain _ _ R _ _ _ Hi Hp) as (o & ? & _). by exists o. }
  assert (exists os, Forall2 (has_pair s) (hash_nodes (ht530_tbl s)) os) as [os Hos].
  { clear Hd. induction (hash_nodes (ht530_tbl s)) as [|p ps IH]; [exists []; constructor|].
    destruct IH as [os Hos]; [intros; apply Hex; by right|].
    destruct (Hex p) as [o Ho]; [by left|]. exists (o :: os). by constructor. }
  exists os. split; [done|]. apply NoDup_Permutation.
  - apply NoDup_alt. intros i j o Hi Hj.
    destruct (Forall2_lookup_r _ _ _ _ _ Hos Hi) as (p & Hp & Hpo).
    destruct (Forall2_lookup_r _ _ _ _ _ Hos Hj) as (q & Hq & Hqo).
    assert (p = q) as -> by (by eapply (re_inj _ _ R)). by eapply NoDup_lookup.
  - assert (Inj (=) (=) (fun kd : Z * Z => {| key := kd.1; data := kd.2 |})) by (by intros [? ?] [? ?] [= -> ->]).
    apply (NoDup_fmap_2 _), NoDup_map_to_list.
  - intros o. rewrite (list_elem_of_In (map _ _)), in_map_iff. split.
    + intros [i Hi]%list_elem_of_lookup.
      destruct (Forall2_lookup_r _ _ _ _ _ Hos Hi) as (p & Hp & Hpo).
      exists (key o, data o). split; [by destruct o|]. apply list_elem_of_In, elem_of_map_to_list.
      apply (re_map _ _ R). exists p. by destruct o.
    + intros ([k d] & <- & Hkd%list_elem_of_In%elem_of_map_to_list).
      apply (re_map _ _ R) in Hkd as [p Hp].
      assert (p ∈ hash_nodes (ht530_tbl s)) as [i Hi]%list_elem_of_lookup by (apply (re_live _ _ R); by eexists).
      destruct (Forall2_lookup_l _ _ _ _ _ Hos Hi) as (o & Ho & Hpo).
      unfold has_pair in *. assert (o = {| key := k; data := d |}) by congruence. subst o.
      by eapply list_elem_of_lookup_2.
Qed.

(** What [all_dump] stores: the objects, each in its place; nothing else
    changes. *)

Record dumped (u u' : U) (a : Z) (os : list ht_object) : Prop := {
  du_all : fetch u' a (8 * length os) = (concat (map put_object os), 0);
  du_each i o : os !! i = Some o -> fetch u' (a + 8 * Z.of_nat i) 8 = (put_object o, 0);
  du_apart a' n : a' + Z.of_nat n <= a \/ a + 8 * Z.of_nat (length os) <= a' -> fetch u' a' n = fetch u a' n;
  du_writable a' n : writable u a' n -> writable u' a' n
}.

Lemma dumped_cons (u u1 u' : U) a o os :
  store u a (put_object o) = (u1, 0) -> dumped u1 u' (a + 8) os -> dumped u u' a (o :: os).
Proof.
  intros Es D.
  assert (fetch u' a 8 = (put_object o, 0)) as Hhd.
  { rewrite (du_apart _ _ _ _ D) by (left; lia). by apply (fetch_store _ _ (put_object o) _ (put_object_bytes o)) in Es. }
  split.
  - replace (8 * length (o :: os))%nat with (8 + 8 * length os)%nat by (simpl; lia).
    cbn [map concat]. apply fetch_app; [done|]. replace (a + Z.of_nat 8) with (a + 8) by lia. apply D.
  - intros [|i] o'; [intros [= <-]; by rewrite Z.add_0_r|]. intros Ho. apply (du_each _ _ _ _ D) in Ho.
    by replace (a + 8 * Z.of_nat (S i)) with (a + 8 + 8 * Z.of_nat i) by lia.
  - intros a' n Hn. cbn [length] in Hn. rewrite (du_apart _ _ _ _ D) by lia.
    eapply fetch_store_ne; [done|]. rewrite length_put_object. lia.
  - intros a' n Hn. apply (du_writable _ _ _ _ D). replace u1 with (store u a (put_object o)).1 by by rewrite Es.
    by apply writable_store.
Qed.

Lemma all_dump_ok ps os w a :
  Forall2 (has_pair (st w)) ps os ->
  (forall i, (i < length ps)%nat -> writable (user w) (a + 8 * Z.of_nat i) 8) ->
  exists u', all_dump a ps w = Ok tt (with_user u' w) /\ dumped (user w) u' a os.
Proof.
  intros H. revert w a H. revert os. induction ps as [|p ps IH]; intros os w a Hos Hw; inversion Hos as [|? o ? os' Hpo Hos']; subst.
  - exists (user w). split; [by destruct w|]. split; [apply fetch_nil|done..].
  - cbn [all_dump]. rewrite (bind_ok _ _ _ _ _ (pair_ok _ _ _ Hpo)).
    erewrite bind_ok by reflexivity. pose proof (Hw 0%nat ltac:(simpl; lia)) as Hw0.
    rewrite Z.add_0_r in Hw0. specialize (Hw0 (put_object o) eq_refl).
    destruct (store (user w) a (put_object o)) as [u1 r] eqn:Es. simpl in Hw0. subst r. cbn [fst].
    destruct (IH os' (with_user u1 w) (a + 8)) as (u' & Hu' & D).
    + done.
    + intros i Hi. replace u1 with (store (user w) a (put_object o)).1 by by rewrite Es.
      apply writable_store. replace (a + 8 + 8 * Z.of_nat i) with (a + 8 * Z.of_nat (S i)) by lia.
      apply Hw. simpl. lia.
    + exists u'. split; [by rewrite Hu'|]. by eapply dumped_cons.
Qed.

Lemma dump_all_stored w m ds req2 :
  represents (st w) m ->
  (forall i, (i < size m)%nat -> writable (user w) (req2 + 8 * Z.of_nat i) 8) ->
  exists u' os, ht530_unlocked_ioctl ds ALL_DUMP req2 w = Ok 0 (with_user u' w) /\
    dumped (user w) u' req2 os /\
    os ≡ₚ map (fun kd => {| key := kd.1; data := kd.2 |}) (map_to_list m).
Proof.
  intros R Hw. destruct (dump_order _ _ R) as (os & Hos & Hperm).
  assert (length (hash_nodes (ht530_tbl (st w))) = size m) as Hlen.
  { rewrite (Forall2_length _ _ _ Hos), Hperm, length_map. apply length_map_to_list. }
  destruct (all_dump_ok _ _ w req2 Hos) as (u' & Hu' & D); [by rewrite Hlen|].
  exists u', os. split_and!; [|done..].
  destruct codes_differ as (H1 & H2 & H3).
  unfold ht530_unlocked_ioctl. rewrite (bind_ok _ _ _ _ _ (copy_from_user_ok _ _ _)).
  pose proof (fetch_not_negative (user w) req2 sizeof_dump_org) as Hn.
  destruct (fetch (user w) req2 sizeof_dump_org) as [bs left]. simpl in Hn. rewrite Hn.
  rewrite (proj2 (Z.eqb_neq _ _) H1), (proj2 (Z.eqb_neq _ _) H2), Z.eqb_refl.
  cbn [andb when]. erewrite bind_ok by reflexivity. erewrite bind_ok by reflexivity.
  erewrite bind_ok; last first.
  { rewrite (bind_ok _ _ _ _ _ (get_st_ok w)). apply Hu'. }
  done.
Qed.

Lemma dump_all_ok w m ds req2 :
  represents (st w) m ->
  (forall i, (i < size m)%nat -> writable (user w) (req2 + 8 * Z.of_nat i) 8) ->
  exists u' os, ht530_unlocked_ioctl ds ALL_DUMP req2 w = Ok 0 (with_user u' w) /\
    fetch u' req2 (8 * size m) = (concat (map put_object os), 0) /\
    os ≡ₚ map (fun kd => {| key := kd.1; data := kd.2 |}) (map_to_list m).
Proof.
  intros R Hw. destruct (dump_all_stored w m ds req2 R Hw) as (u' & os & Hu' & D & Hperm).
  exists u', os. split_and!; [done| |done]. rewrite <- (du_all _ _ _ _ D).
  by rewrite Hperm, length_map, length_map_to_list.
Qed.

(** C31: ALL_DUMP hands the caller the whole table: into a buffer with room for
    [cur_size] objects it copies every pair of the map exactly once. *)

Theorem all_dump_returns_table w m ds req2 :
  represents (st w) m ->
  (forall i, (i < size m)%nat -> writable (user w) (req2 + 8 * Z.of_nat i) 8) ->
  exists u' os, ht530_unlocked_ioctl ds ALL_DUMP req2 w = Ok 0 (with_user u' w) /\
    fetch u' req2 (8 * size m) = (concat (map put_object os), 0) /\
    os ≡ₚ map (fun kd => {| key := kd.1; data := kd.2 |}) (map_to_list m).
Proof. apply dump_all_ok. Qed.

Lemma cur_size_stored w m ds req2 :
  represents (st w) m -> writable (user w) req2 8 ->
  exists u', ht530_unlocked_ioctl ds RET_CUR_SIZE req2 w = Ok 0 (with_user u' w) /\
    (exists bs, fetch u' req2 8 = (bs, 0) /\ get_u64 bs = u64 (Z.of_nat (size m))) /\
    (forall a n, writable (user w) a n -> writable u' a n).
Proof.
  intros R Hw. destruct codes_differ as (H1 & H2 & H3).
  specialize (Hw (put_u64 (cur_size (st w))) eq_refl).
  destruct (store (user w) req2 (put_u64 (cur_size (st w)))) as [u' r] eqn:Es. simpl in Hw. subst r.
  exists u'. split_and!; [| |intros a n Ha; replace u' with (store (user w) req2 (put_u64 (cur_size (st w)))).1 by (by rewrite Es);
    by apply writable_store].
  - unfold ht530_unlocked_ioctl. rewrite (bind_ok _ _ _ _ _ (copy_from_user_ok _ _ _)).
    pose proof (fetch_not_negative (user w) req2 sizeof_dump_org) as Hn.
    destruct (fetch (user w) req2 sizeof_dump_org) as [bs left]. simpl in Hn. rewrite Hn.
    rewrite (proj2 (Z.eqb_neq _ _) (not_eq_sym H3)), (proj2 (Z.eqb_neq _ _) (not_eq_sym H2)), Z.eqb_refl.
    cbn [andb when]. erewrite bind_ok by reflexivity.
    erewrite bind_ok; last first.
    { rewrite (bind_ok _ _ _ _ _ (get_st_ok w)). erewrite bind_ok by reflexivity. by rewrite Es. }
    done.
  - change 8%nat with (length (put_u64 (cur_size (st w)))).
    exists (put_u64 (cur_size (st w))). split; [by apply (fetch_store _ _ _ _ (put_u64_bytes _)) in Es|].
    rewrite <- (app_nil_r (put_u64 _)), get_put_u64, (re_size _ _ R).
    unfold wrap. by rewrite Zmod_mod.
Qed.

(** RET_CUR_SIZE stores the number of keys (64 bits) in the caller's
    variable, the room ALL_DUMP needs. *)

Theorem cur_size_is_key_count w m ds req2 :
  represents (st w) m -> writable (user w) req2 8 ->
  exists u', ht530_unlocked_ioctl ds RET_CUR_SIZE req2 w = Ok 0 (with_user u' w) /\
    get_u64 (fetch u' req2 8).1 = u64 (Z.of_nat (size m)).
Proof.
  intros R Hw. destruct (cur_size_stored w m ds req2 R Hw) as (u' & ? & (bs & Hf & Hb) & _).
  exists u'. by rewrite Hf.
Qed.

(** HASH_DUMP copies to its own stack, which [copy_to_user] refuses. *)

Lemma hash_dump_ok ps w ds acc :
  (forall a, 0 <= a < 68 -> access_ok (ds + a) = false) -> 0 <= acc < MAX_DUMP ->
  (forall p, p ∈ ps -> exists o, has_pair (st w) p o) ->
  hash_dump ds acc ps w = Ok tt w.
Proof.
  intros Hk. revert acc. unfold MAX_DUMP. induction ps as [|p ps IH]; intros acc Hacc Hps; [done|].
  destruct (Hps p) as [o Ho]; [by left|]. cbn [hash_dump].
  rewrite (bind_ok _ _ _ _ _ (pair_ok _ _ _ Ho)).
  erewrite bind_ok by reflexivity. rewrite store_refused by (rewrite <- Z.add_assoc; apply Hk; lia). cbn [fst].
  replace (with_user (user w) w) with w by by destruct w.
  unfold MAX_DUMP. destruct (Z.leb_spec 8 (acc + 1)); [done|]. apply IH; [lia|]. intros q Hq. apply Hps. by right.
Qed.

(** HASH_DUMP never gives the caller anything: for a bucket number in
    range it returns 0 with the caller's memory as it was, for one of 128 or
    more -EINVAL, and for a negative one it walks a chain outside the table. *)

Theorem hash_dump_copies_nothing w m ds req2 :
  represents (st w) m -> (forall a, 0 <= a < 68 -> access_ok (ds + a) = false) ->
  let n := get_int (fetch (user w) req2 sizeof_dump_org).1 in
  ht530_unlocked_ioctl ds HASH_DUMP req2 w =
    if n <? 0 then Crash OutOfBounds w
    else if n <? BUCKET_SIZE then Ok 0 w
    else Ok (- EINVAL) w.
Proof.
  intros R Hk n. destruct codes_differ as (H1 & H2 & H3).
  unfold ht530_unlocked_ioctl. rewrite (bind_ok _ _ _ _ _ (copy_from_user_ok _ _ _)). subst n.
  pose proof (fetch_not_negative (user w) req2 sizeof_dump_org) as Hn.
  pose proof (fetch_length (user w) req2 sizeof_dump_org) as Hl.
  destruct (fetch (user w) req2 sizeof_dump_org) as [bs left]. simpl in Hn. rewrite Hn. cbn [fst] in *.
  rewrite Z.eqb_refl. change BUCKET_SIZE with 128. cbn [andb].
  destruct (Z.leb_spec 128 (get_int bs)) as [Hge|Hlt].
  { by rewrite (proj2 (Z.ltb_ge _ _)), (proj2 (Z.ltb_ge (get_int bs) 128)) by lia. }
  rewrite (proj2 (Z.ltb_lt _ 128)) by lia. cbn [when].
  rewrite bzero_ok by lia. destruct (Z.ltb_spec (get_int bs) 0) as [Hneg|Hpos].
  - apply bind_crash. erewrite bind_ok by reflexivity. apply bind_crash.
    unfold bucket, deref. by rewrite (proj2 (Z.ltb_lt _ _)).
  - destruct (lookup_lt_is_Some_2 (ht530_tbl (st w)) (Z.to_nat (get_int bs))) as [h Hh];
      [rewrite (re_len _ _ R); lia|].
    erewrite bind_ok; last first.
    { erewrite bind_ok by reflexivity. erewrite bind_ok; last first.
      - apply (deref_ok (fun w => if get_int bs <? 0 then None else ht530_tbl (st w) !! Z.to_nat (get_int bs))).
        rewrite (proj2 (Z.ltb_ge _ _)) by lia. apply Hh.
      - apply hash_dump_ok; [done|done|]. intros p Hp.
        destruct (re_chain _ _ R _ _ _ Hh Hp) as (o & Ho & _). by exists o. }
    rewrite (proj2 (Z.eqb_neq _ _) H3), (proj2 (Z.eqb_neq _ _) (not_eq_sym H1)).
    by erewrite bind_ok by reflexivity.
Qed.
End dumps.
