(* ===== verification/Ht530Load.v ===== *)
(** * Hash table driver: loading, any sequence of calls, unloading

    Also: two writers that are not serialised by their processes, and the
    concrete runs of the theorems on this driver. *)

From S2P Require Import Prelude Kernel UserMemory Ht530 Ht530Proofs Ht530Spec Ht530Dump.

Section load.
Context {L U : Type} {KL : KList L} {KM : Kmalloc} {UM : UserMemory U} {HM : HashMin}
  {IC : IoctlCode} {E : Environment}.
Implicit Types (s : ht530 L) (p : loc) (o : ht_object) (w : sys U (ht530 L)) (m : gmap Z Z).

(** One system call on the device, or the processes changing their memory. *)

Inductive call :=
  | C_open | C_release | C_fsync | C_flock
  | C_write (buf : Z)
  | C_read (buf : Z) (count : nat)
  | C_ioctl (ds req1 req2 : Z)
  | C_processes (u : U).

Definition run_call (c : call) : M (sys U (ht530 L)) Z :=
  match c with
  | C_open => ht530_open
  | C_release => ht530_release
  | C_fsync => ht530_fsync
  | C_flock => ht530_flock
  | C_write buf => ht530_write buf
  | C_read buf count => ht530_read buf count
  | C_ioctl ds req1 req2 => ht530_unlocked_ioctl ds req1 req2
  | C_processes u => modify (with_user u) ;; mret 0
  end.

(** What a call does to the map. *)

Definition effect (c : call) (u : U) m : gmap Z Z :=
  match c with
  | C_write buf => put (object_at u buf) m
  | _ => m
  end.

Inductive history : sys U (ht530 L) -> gmap Z Z -> Prop :=
  | h_init u w : ht530_init {| st := ht530_static; requests := []; user := u |} = Ok 0 w -> history w ∅
  | h_call c w m r w' : history w m -> run_call c w = Ok r w' -> history w' (effect c (user w) m).

(** ** A call that only looks keeps the table and the trace *)

Definition quiet {A} (f : M (sys U (ht530 L)) A) : Prop :=
  forall w a w', f w = Ok a w' -> st w' = st w /\ requests w' = requests w.

Lemma quiet_bind {A B} (f : M (sys U (ht530 L)) A) (k : A -> M (sys U (ht530 L)) B) :
  quiet f -> (forall a, quiet (k a)) -> quiet (f ≫= k).
Proof.
  intros Hf Hk w b w' (a & w1 & H1 & H2)%bind_ok_inv.
  apply Hf in H1 as [E1 E2]. apply Hk in H2 as [E3 E4]. by rewrite E3, E4.
Qed.

Lemma quiet_ret {A} (a : A) : quiet (mret a : M (sys U (ht530 L)) A).
Proof. intros w b w' [= <- <-]. done. Qed.

Lemma quiet_crash {A} e : quiet (crash e : M (sys U (ht530 L)) A).
Proof. done. Qed.

Lemma quiet_deref {A} (f : sys U (ht530 L) -> option A) e : quiet (deref f e).
Proof. intros w b w'. unfold deref. destruct (f w); [|done]. by intros [= <- <-]. Qed.

Lemma quiet_gets {A} (f : sys U (ht530 L) -> A) : quiet (gets f).
Proof. by intros w b w' [= <- <-]. Qed.

Lemma quiet_from a n : quiet (copy_from_user a n).
Proof. by intros w b w' [= <- <-]. Qed.

Lemma quiet_to a bs : quiet (copy_to_user a bs).
Proof. by intros w b w' [= <- <-]. Qed.

Lemma quiet_pair p : quiet (pair p).
Proof. apply quiet_bind; [apply quiet_deref|]. intros [o|]; [apply quiet_ret|apply quiet_crash]. Qed.

Lemma quiet_scan k ps : quiet (scan_chain k ps).
Proof.
  induction ps as [|p ps IH]; [apply quiet_ret|]. apply quiet_bind; [apply quiet_pair|].
  intros o. destruct (key o =? k); [apply quiet_ret|done].
Qed.

Lemma quiet_find k b : quiet (find_the_node k b).
Proof.
  apply quiet_bind.
  - destruct b; [apply quiet_ret|]. apply quiet_bind; [apply quiet_deref|].
    intros h. destruct (hlist_empty h); apply quiet_ret.
  - intros [i|]; [|apply quiet_ret]. apply quiet_bind; [apply quiet_deref|]. intros h. apply quiet_scan.
Qed.

Lemma quiet_read buf count : quiet (ht530_read buf count).
Proof.
  apply quiet_bind; [apply quiet_from|]. intros [bs left]. destruct (left <? 0); [apply quiet_ret|].
  apply quiet_bind; [apply quiet_find|]. intros [p|]; [|apply quiet_ret].
  apply quiet_bind; [apply quiet_pair|]. intros o. destruct (_ <? _)%nat; [apply quiet_crash|].
  apply quiet_bind; [apply quiet_to|]. intros z. destruct (z <? 0); apply quiet_ret.
Qed.

Lemma quiet_hash_dump ds acc ps : quiet (hash_dump ds acc ps).
Proof.
  revert acc. induction ps as [|p ps IH]; intros acc; [apply quiet_ret|].
  apply quiet_bind; [apply quiet_pair|]. intros o. apply quiet_bind; [apply quiet_to|].
  intros _. destruct (_ <=? _); [apply quiet_ret|apply IH].
Qed.

Lemma quiet_all_dump a ps : quiet (all_dump a ps).
Proof.
  revert a. induction ps as [|p ps IH]; intros a; [apply quiet_ret|].
  apply quiet_bind; [apply quiet_pair|]. intros o. apply quiet_bind; [apply quiet_to|]. intros _. apply IH.
Qed.

Lemma quiet_when b f : quiet f -> quiet (when b f).
Proof. intros Hf. destruct b; [done|apply quiet_ret]. Qed.

Lemma quiet_ioctl ds req1 req2 : quiet (ht530_unlocked_ioctl ds req1 req2).
Proof.
  apply quiet_bind; [apply quiet_from|]. intros [bs left]. destruct (left <? 0); [apply quiet_ret|].
  cbn zeta. destruct (andb _ _); [apply quiet_ret|]. apply quiet_bind.
  { apply quiet_when, quiet_bind; [destruct (bzero bs _); [apply quiet_ret|apply quiet_crash]|].
    intros _. apply quiet_bind; [apply quiet_deref|]. intros h. apply quiet_hash_dump. }
  intros _. apply quiet_bind.
  { apply quiet_when, quiet_bind; [apply quiet_gets|]. intros s.
    apply quiet_bind; [apply quiet_to|]. intros _. apply quiet_ret. }
  intros _. apply quiet_bind; [|intros _; apply quiet_ret].
  apply quiet_when, quiet_bind; [apply quiet_gets|]. intros s. apply quiet_all_dump.
Qed.

(** ** Every call keeps the table a map *)

Lemma represents_open s m : represents s m ->
  represents {| ht530_tbl := ht530_tbl s; nodes := nodes s; cur_size := cur_size s;
                for_mprobe_test1 := 0x12345; for_mprobe_test2 := 0x54321 |} m.
Proof. intros []. by constructor. Qed.

Lemma write_ok_inv w m buf r w' :
  represents (st w) m -> ht530_write buf w = Ok r w' ->
  represents (st w') (put (object_at (user w) buf) m) /\ requests w' = requests w.
Proof.
  intros R H. destruct (kmalloc (dom (nodes (st w)))) as [p|] eqn:Hp.
  - destruct (ht530_write_ok w m buf R) as (s & Hs & HR); [by exists p|].
    rewrite Hs in H. injection H as <- <-. done.
  - unfold ht530_write in H. rewrite (bind_ok _ _ _ _ _ (copy_from_user_ok _ _ _)) in H.
    pose proof (object_at_int (user w) buf) as [Hk Hd].
    pose proof (fetch_not_negative (user w) buf sizeof_ht_object) as Hf. unfold object_at in *.
    destruct (fetch _ _ _) as [bs left]. simpl in Hf. rewrite Hf in H. cbn [fst] in *.
    set (o := get_object bs) in *. destruct (find_the_node_ok w m (key o) R) as (q & Hq & HP).
    rewrite (bind_ok _ _ _ _ _ Hq) in H. unfold put.
    destruct (Z.eqb_spec (data o) 0) as [Hz|Hz], q as [q|].
    + destruct HP as (d & Hd' & _). rewrite (delete_ok _ _ _ _ Hd' Hz) in H. injection H as <- <-.
      split; [|done]. by apply (deleted_represents _ _ _ _ R Hd').
    + unfold write_commit in H. rewrite Hz in H. injection H as <- <-. by rewrite delete_id.
    + destruct HP as (d & Hd' & _). erewrite overwrite_ok in H by done. injection H as <- <-.
      split; [|done]. by eapply updated_represents.
    + unfold write_commit in H. rewrite (proj2 (Z.eqb_neq _ _) Hz) in H.
      erewrite bind_crash in H; [done|]. apply bind_crash.
      apply bind_crash. unfold deref. by rewrite Hp.
Qed.

Lemma run_call_keeps c w m r w' :
  represents (st w) m -> run_call c w = Ok r w' ->
  represents (st w') (effect c (user w) m) /\ requests w' = requests w.
Proof.
  intros R H. assert (st w' = st w /\ requests w' = requests w ->
    represents (st w') m /\ requests w' = requests w) as Hquiet by (intros [-> ->]; done).
  destruct c; cbn [run_call effect] in *.
  1: { injection H as <- <-. split; [by apply represents_open|done]. }
  1-3: by injection H as <- <-.
  - by eapply write_ok_inv.
  - by apply Hquiet, (quiet_read _ _ _ _ _ H).
  - by apply Hquiet, (quiet_ioctl _ _ _ _ _ _ H).
  - by injection H as <- <-.
Qed.

(** ** Loading *)

Lemma static_represents : represents (ht530_static (L := L)) ∅.
Proof.
  assert (forall i h, ht530_tbl (ht530_static (L := L)) !! i = Some h -> h = kempty) as Hh.
  { intros i h Hi. by apply lookup_replicate_1 in Hi as [-> _]. }
  constructor; cbn [nodes cur_size ht530_static]; unfold has_pair; cbn [nodes ht530_static].
  - apply length_replicate.
  - intros i h ->%Hh. rewrite knodes_empty. constructor.
  - intros i h p ->%Hh Hp. rewrite knodes_empty in Hp. by apply elem_of_nil in Hp.
  - intros p [x Hx]. by rewrite lookup_empty in Hx.
  - intros k d. split; [done|]. intros [p Hp]. by rewrite lookup_empty in Hp.
  - intros p p' o o' Hp. by rewrite lookup_empty in Hp.
  - intros p o Hp. by rewrite lookup_empty in Hp.
  - done.
Qed.

(** What a loaded driver holds of the kernel. *)

Definition loaded : list request :=
  [Device_create DEVICE_NAME; Cdev_add MODULE_NAME; Kmalloc_of "ht530_dev"; Class_create MODULE_NAME;
   Alloc_chrdev_region MODULE_NAME].

(** [init] does not look at the results of the first two; the third is 0 or a
    negative error number. *)

Record usual_replies : Prop := {
  ur_class t : reply t (Class_create MODULE_NAME) = 0;
  ur_device t : reply t (Device_create DEVICE_NAME) = 0;
  ur_region t : reply t (Alloc_chrdev_region MODULE_NAME) <= 0
}.

Definition before_init (u : U) : sys U (ht530 L) := {| st := ht530_static; requests := []; user := u |}.

Lemma init_outcome u :
  let t0 : trace := [(Alloc_chrdev_region MODULE_NAME, reply [] (Alloc_chrdev_region MODULE_NAME))] in
  let t1 := (Class_create MODULE_NAME, reply t0 (Class_create MODULE_NAME)) :: t0 in
  let t2 := (Kmalloc_of "ht530_dev", reply t1 (Kmalloc_of "ht530_dev")) :: t1 in
  let t3 := (Cdev_add MODULE_NAME, reply t2 (Cdev_add MODULE_NAME)) :: t2 in
  let t4 := (Device_create DEVICE_NAME, reply t3 (Device_create DEVICE_NAME)) :: t3 in
  let after t := {| st := ht530_static; requests := t; user := u |} in
  ht530_init (before_init u) =
    if reply [] (Alloc_chrdev_region MODULE_NAME) <? 0 then Ok (- EINVAL) (after t0)
    else if negb (reply t1 (Kmalloc_of "ht530_dev") =? 0) then Crash NullDeref (after t2)
    else if negb (reply t2 (Cdev_add MODULE_NAME) =? 0) then Ok (reply t2 (Cdev_add MODULE_NAME)) (after t3)
    else Ok 0 (after t4).
Proof.
  cbn zeta. cbv [ht530_init hash_init kcall kcall_ mbind M_bind mret M_ret modify_st modify crash before_init
    requests st user with_st log_request set_tbl set_cur_size ht530_static nodes ht530_tbl cur_size
    for_mprobe_test1 for_mprobe_test2].
  destruct (reply [] (Alloc_chrdev_region MODULE_NAME) <? 0); [done|].
  destruct (negb (reply _ (Kmalloc_of _) =? 0)); [done|].
  by destruct (negb (reply _ (Cdev_add _) =? 0)).
Qed.

(** A successful [init] leaves an empty table and holds all it asked for. *)

Lemma init_ok u w :
  ht530_init (before_init u) = Ok 0 w -> usual_replies ->
  st w = ht530_static /\ held (requests w) = loaded /\ clean (requests w) = true.
Proof.
  intros H [Hc Hd Hr]. rewrite init_outcome in H. cbn zeta in H.
  destruct (Z.ltb_spec (reply [] (Alloc_chrdev_region MODULE_NAME)) 0) as [|Hge]; [done|].
  destruct (negb _) eqn:Ek in H; [done|].
  destruct (negb (reply _ (Cdev_add _) =? 0)) eqn:Ed in H; [injection H as Ez _; by rewrite Ez in Ed|].
  injection H as <-. apply negb_false_iff, Z.eqb_eq in Ek, Ed. cbn [st requests].
  rewrite Ek in Ed |- *. rewrite Ed, Hd. rewrite Hc.
  rewrite (Z.le_antisymm _ _ (Hr []) Hge). done.
Qed.

(** ** Unloading *)

Lemma hash_del_represents s m p o :
  represents s m -> has_pair s p o ->
  represents (deleted s p) (delete (key o) m) /\
  hash_nodes (ht530_tbl (deleted s p)) = filter (fun q => q <> p) (hash_nodes (ht530_tbl s)).
Proof.
  intros R Hp. split; [by eapply deleted_represents|].
  unfold deleted. cbn [ht530_tbl set_nodes set_cur_size set_tbl].
  assert (forall h, h ∈ ht530_tbl s -> NoDup (knodes h)) as Hd.
  { intros h [i Hi]%list_elem_of_lookup. by eapply (re_nodup _ _ R). }
  unfold hash_nodes. induction (ht530_tbl s) as [|h t IH]; [done|]. cbn [map concat].
  rewrite filter_app, knodes_unlinked by (apply Hd; by left). f_equal. apply IH.
  intros h' Hh. apply Hd. by right.
Qed.

(** The nodes that are still in the table are the ones the loop has left. *)

Lemma free_nodes_ok ps w :
  NoDup ps -> (forall p, p ∈ ps -> exists o, has_pair (st w) p o) ->
  (forall p, is_Some (nodes (st w) !! p) -> p ∈ ps) ->
  exists s, free_nodes ps w = Ok tt (with_st s w) /\ nodes s = ∅.
Proof.
  revert w. induction ps as [|p ps IH]; intros w Hnd Hps Hl.
  - exists (st w). split; [by destruct w|]. apply map_empty. intros p.
    destruct (nodes (st w) !! p) eqn:Hp; [|done]. specialize (Hl p ltac:(by eexists)). by apply elem_of_nil in Hl.
  - apply NoDup_cons in Hnd as [Hp Hnd]. destruct (Hps p) as [o Ho]; [by left|].
    cbn [free_nodes]. erewrite bind_ok by reflexivity. erewrite bind_ok by (by apply pair_ok).
    erewrite bind_ok by reflexivity. cbn [with_st st].
    edestruct (IH (with_st (set_nodes (delete p (nodes (st w)))
      (set_tbl (map (unlinked p) (ht530_tbl (st w))) (st w))) w)) as (s & Hs & Hn); [done| | |].
    + intros q Hq. destruct (Hps q) as [x Hx]; [by right|]. exists x. unfold has_pair. cbn.
      rewrite lookup_delete_ne; [done|]. by intros ->.
    + intros q Hq. cbn in Hq. destruct (decide (q = p)) as [->|]; [by rewrite lookup_delete_eq in Hq; destruct Hq|].
      rewrite lookup_delete_ne in Hq by done. apply Hl, elem_of_cons in Hq. naive_solver.
    + exists s. split; [|done]. apply Hs.
Qed.

Lemma exit_ok w m :
  represents (st w) m -> held (requests w) = loaded -> clean (requests w) = true ->
  exists w', ht530_exit w = Ok tt w' /\ nodes (st w') = ∅ /\ held (requests w') = [] /\ clean (requests w') = true.
Proof.
  intros R Hh Hc. destruct (free_nodes_ok (hash_nodes (ht530_tbl (st w))) w) as (s & Hs & Hn).
  - by eapply hash_nodes_nodup.
  - intros p (i & h & Hi & Hp)%elem_of_hash_nodes. destruct (re_chain _ _ R _ _ _ Hi Hp) as (o & ? & _). by exists o.
  - apply R.
  - unfold ht530_exit. erewrite bind_ok by reflexivity. rewrite (bind_ok _ _ _ _ _ Hs).
    repeat erewrite bind_ok by apply kcall__ok. eexists. split; [apply kcall__ok|].
    split; [done|]. cbn [log_request requests with_st held clean]. rewrite Hh, Hc. done.
Qed.

Lemma history_represents w m :
  usual_replies -> history w m ->
  represents (st w) m /\ held (requests w) = loaded /\ clean (requests w) = true.
Proof.
  intros Hu. induction 1 as [u w H|c w m r w' _ (R & Hh & Hc) H].
  - destruct (init_ok _ _ H Hu) as (-> & ? & ?). split; [apply static_represents|done].
  - destruct (run_call_keeps _ _ _ _ _ R H) as [? ->]. done.
Qed.

(** C5: From a successful load on, whatever the calls and their order: the
    table represents the map the writes describe, so keys are unique, every
    node is on the chain of its hash and [cur_size] counts them; and at any
    point unloading frees every node, undoes every request of the load exactly
    once and leaves nothing behind. *)

Theorem any_history_is_a_map_and_unloads w m :
  usual_replies -> history w m ->
  represents (st w) m /\
  exists w', ht530_exit w = Ok tt w' /\ nodes (st w') = ∅ /\ held (requests w') = [] /\ clean (requests w') = true.
Proof. intros Hu (R & Hh & Hc)%history_represents; [|done]. split; [done|by eapply exit_ok]. Qed.

(** When [cdev_add] fails, [ht530_init] returns its error but keeps the
    device structure, the class and the device numbers; nothing will release
    them, since a module whose init failed is not unloaded through exit. *)

Theorem failed_load_leaks u e :
  e < 0 -> usual_replies ->
  (forall t, reply t (Kmalloc_of "ht530_dev") = 0) ->
  (forall t, reply t (Alloc_chrdev_region MODULE_NAME) = 0) ->
  (forall t, reply t (Cdev_add MODULE_NAME) = e) ->
  exists w', ht530_init (before_init u) = Ok e w' /\
    held (requests w') = [Kmalloc_of "ht530_dev"; Class_create MODULE_NAME; Alloc_chrdev_region MODULE_NAME].
Proof.
  intros He [Hc _ _] Hk Ha Hd. rewrite init_outcome. cbn zeta. rewrite Ha, Hk, Hd, Hc.
  rewrite (proj2 (Z.eqb_neq e 0)) by lia. cbn [negb Z.ltb Z.compare Z.eqb].
  eexists. split; [done|]. cbn. by rewrite (proj2 (Z.eqb_neq e 0)) by lia.
Qed.

(** ** Two writers that do not serialise their calls

    [ht530_write] looks the key up and then commits; "here is protected by
    user".  Without that protection both look-ups can come first. *)

Definition racing_writers o1 o2 : M (sys U (ht530 L)) unit :=
  k1 ← find_the_node (key o1) None;
  k2 ← find_the_node (key o2) None;
  write_commit o1 k1 ;;
  write_commit o2 k2 ;;
  mret tt.

(** Two unserialised writers of one new key both insert it: two nodes
    carry the key, [cur_size] counts both, and the table represents no map. *)

Theorem unserialised_writers_duplicate w m o1 o2 p q :
  represents (st w) m -> m !! key o1 = None -> key o2 = key o1 -> data o1 <> 0 -> data o2 <> 0 ->
  is_int (key o1) -> is_int (data o1) ->
  kmalloc (dom (nodes (st w))) = Some p -> kmalloc ({[p]} ∪ dom (nodes (st w))) = Some q ->
  exists s, racing_writers o1 o2 w = Ok tt (with_st s w) /\
    p <> q /\ has_pair s p o1 /\ has_pair s q o2 /\ cur_size s = u64 (Z.of_nat (size m) + 2) /\
    (forall m', ~ represents s m').
Proof.
  intros R Hm Hk Hd1 Hd2 Hki Hdi Hp Hq.
  assert (nodes (st w) !! p = None) as Hfp by (by apply not_elem_of_dom, kmalloc_fresh).
  assert (p <> q) as Hne by (intros <-; apply kmalloc_fresh in Hq; set_solver).
  assert (represents (inserted (st w) p o1) (<[key o1 := data o1]> m)) as R1 by (by apply inserted_represents).
  assert (find_the_node (key o1) None w = Ok None w) as Hf.
  { destruct (find_the_node_ok w m (key o1) R) as ([x|] & Hx & HP); [|done].
    destruct HP as (d & _ & HP). congruence. }
  exists (inserted (inserted (st w) p o1) q o2).
  assert (has_pair (inserted (inserted (st w) p o1) q o2) p o1) as Hp1.
  { unfold has_pair, inserted. cbn. by rewrite lookup_insert_ne, lookup_insert_eq. }
  assert (has_pair (inserted (inserted (st w) p o1) q o2) q o2) as Hq2.
  { unfold has_pair, inserted. cbn. by rewrite lookup_insert_eq. }
  split_and!; [|done..| |].
  - unfold racing_writers. rewrite (bind_ok _ _ _ _ _ Hf), Hk, (bind_ok _ _ _ _ _ Hf).
    erewrite bind_ok by (eapply insert_new_ok; [apply R|done|done]).
    erewrite bind_ok; last first.
    { eapply (insert_new_ok _ _ _ q); [apply R1| |done]. unfold inserted. cbn. by rewrite dom_insert_L. }
    done.
  - unfold inserted. cbn. rewrite (re_size _ _ R). unfold wrap.
    rewrite Zplus_mod_idemp_l, <- Z.add_assoc, Zplus_mod_idemp_l. done.
  - intros m' R'. apply Hne. by eapply (re_inj _ _ R').
Qed.
End load.

(** ** Concrete runs

    128 chains selected by the key modulo 128, one process whose memory is
    mapped from 4096 on. *)

#[local] Instance mod_hash : HashMin.
Proof. refine {| hash_min k := k mod 128 |}. intros k. by apply Z.mod_pos_bound. Defined.

#[local] Instance succeed : Environment := all_succeed.

Abbreviation world := (sys (gmap Z Z) (ht530 (list loc))).

Definition user_with (bs : list Z) : gmap Z Z := (map_store (mapped 4096 80) 4096 bs).1.

Definition pair_5_7 : ht_object := {| key := 5; data := 7 |}.

Definition one_pair (u : gmap Z Z) : world :=
  {| st := inserted ht530_static 1%positive pair_5_7; requests := []; user := u |}.

Lemma one_pair_represents u : represents (st (one_pair u)) {[5 := 7]}.
Proof.
  apply (inserted_represents ht530_static ∅ 1%positive pair_5_7); [apply static_represents|done..].
Qed.

Lemma user_with_mapped bs i : 0 <= i < 80 -> is_Some (user_with bs !! (4096 + i)).
Proof.
  intros Hi. apply map_store_dom, mapped_is_Some. lia.
Qed.

Lemma user_with_writable bs i n : 0 <= i -> i + Z.of_nat n <= 80 -> writable (user_with bs) (4096 + i) n.
Proof.
  intros Hi Hn. apply writable_map.
  - intros j Hj. rewrite <- Z.add_assoc. apply user_with_mapped. lia.
  - unfold map_access_ok, user_top. destruct (Z.leb_spec 0 (4096 + i)), (Z.ltb_spec (4096 + i) (2 ^ 47)); lia || done.
Qed.

Lemma write_updates_map_witness :
  exists s, ht530_write 4096 (one_pair (user_with (put_object {| key := 9; data := 3 |}))) =
      Ok 0 (with_st s (one_pair (user_with (put_object {| key := 9; data := 3 |})))) /\
    represents s (<[9 := 3]> {[5 := 7]}).
Proof.
  destruct (write_updates_map (one_pair (user_with (put_object {| key := 9; data := 3 |}))) {[5 := 7]} 4096)
    as [(_ & _ & Hn & _)|(s & Hs & HR)].
  - apply one_pair_represents.
  - vm_compute in Hn. discriminate.
  - exists s. split; [done|].
    replace (object_at _ _) with {| key := 9; data := 3 |} in HR by (vm_compute; reflexivity). apply HR.
Defined.

Lemma read_finds_map_witness :
  exists w', ht530_read 4096 8 (one_pair (user_with (put_object {| key := 5; data := 0 |}))) = Ok 8 w' /\
    fetch (user w') 4096 8 = (put_object pair_5_7, 0).
Proof.
  pose proof (read_finds_map (one_pair (user_with (put_object {| key := 5; data := 0 |}))) {[5 := 7]} 4096 8
    (one_pair_represents _) ltac:(lia)) as H.
  destruct (returns_inv (fun r w' => (r =? 8) && bool_decide (fetch (user w') 4096 8 = (put_object pair_5_7, 0)))
    (ht530_read 4096 8 (one_pair (user_with (put_object {| key := 5; data := 0 |}))))) as (r & w' & Hw & Hf).
  - rewrite H. vm_compute. reflexivity.
  - apply andb_true_iff in Hf as [->%Z.eqb_eq Hf%bool_decide_eq_true]. exists w'. exact (conj Hw Hf).
Defined.

Lemma long_read_overruns_witness :
  ht530_read 4096 9 (one_pair (user_with (put_object {| key := 5; data := 0 |}))) =
  Crash OutOfBounds (one_pair (user_with (put_object {| key := 5; data := 0 |}))).
Proof.
  apply (long_read_overruns _ {[5 := 7]} _ _ 7); [apply one_pair_represents|lia|vm_compute; reflexivity].
Defined.

Lemma read_after_write_witness :
  exists w', (ht530_write 4096 ;; modify (with_user (user_with (put_object {| key := 9; data := 0 |}))) ;;
      ht530_read 4096 8) (one_pair (user_with (put_object {| key := 9; data := 3 |}))) = Ok 8 w' /\
    object_at (user w') 4096 = {| key := 9; data := 3 |}.
Proof.
  destruct (read_after_write (one_pair (user_with (put_object {| key := 9; data := 3 |}))) {[5 := 7]} 4096 4096
    (user_with (put_object {| key := 9; data := 0 |}))) as (w' & Hw & Ho).
  - apply one_pair_represents.
  - vm_compute. by eexists.
  - vm_compute. done.
  - vm_compute. done.
  - apply (user_with_writable _ 0); lia.
  - exists w'. split; [exact Hw|]. rewrite Ho. vm_compute. reflexivity.
Defined.

Lemma all_dump_returns_table_witness :
  exists u' os, ht530_unlocked_ioctl (2 ^ 63) ALL_DUMP 4096 (one_pair (user_with [])) =
      Ok 0 (with_user u' (one_pair (user_with []))) /\
    fetch u' 4096 8 = (concat (map put_object os), 0) /\ os ≡ₚ [pair_5_7].
Proof.
  destruct (all_dump_returns_table (one_pair (user_with [])) {[5 := 7]} (2 ^ 63) 4096) as (u' & os & H1 & H2 & H3).
  - apply one_pair_represents.
  - intros i Hi. rewrite map_size_singleton in Hi. apply user_with_writable; lia.
  - rewrite map_size_singleton in H2. rewrite map_to_list_singleton in H3. exists u', os. exact (conj H1 (conj H2 H3)).
Defined.

Lemma cur_size_is_key_count_witness :
  exists u', ht530_unlocked_ioctl (2 ^ 63) RET_CUR_SIZE 4096 (one_pair (user_with [])) =
      Ok 0 (with_user u' (one_pair (user_with []))) /\ get_u64 (fetch u' 4096 8).1 = 1.
Proof.
  destruct (cur_size_is_key_count (one_pair (user_with [])) {[5 := 7]} (2 ^ 63) 4096) as (u' & H1 & H2).
  - apply one_pair_represents.
  - apply (user_with_writable _ 0); lia.
  - rewrite map_size_singleton in H2. exists u'. exact (conj H1 H2).
Defined.

Lemma hash_dump_copies_nothing_witness :
  ht530_unlocked_ioctl (2 ^ 63) HASH_DUMP 4096 (one_pair (user_with (put_int (-1)))) =
    Crash OutOfBounds (one_pair (user_with (put_int (-1)))) /\
  ht530_unlocked_ioctl (2 ^ 63) HASH_DUMP 4096 (one_pair (user_with (put_int 5))) =
    Ok 0 (one_pair (user_with (put_int 5))).
Proof.
  assert (forall a, 0 <= a < 68 -> access_ok (2 ^ 63 + a) = false) as Hk.
  { intros a Ha. cbn. unfold map_access_ok, user_top. destruct (Z.leb_spec 0 (2 ^ 63 + a)), (Z.ltb_spec (2 ^ 63 + a) (2 ^ 47)); lia || done. }
  split.
  - apply (hash_dump_copies_nothing (one_pair (user_with (put_int (-1)))) {[5 := 7]} _ 4096 (one_pair_represents _) Hk).
  - apply (hash_dump_copies_nothing (one_pair (user_with (put_int 5))) {[5 := 7]} _ 4096 (one_pair_represents _) Hk).
Defined.

Lemma succeed_usual : usual_replies.
Proof. by constructor. Qed.

Definition after_init (u : gmap Z Z) : world :=
  match ht530_init (before_init u) with Ok _ w => w | Crash _ w => w | Blocked w => w end.

Definition after_write (w : world) : world :=
  match ht530_write 4096 w with Ok _ w => w | Crash _ w => w | Blocked w => w end.

Lemma any_history_is_a_map_and_unloads_witness :
  let w := after_write (after_init (user_with (put_object pair_5_7))) in
  represents (st w) {[5 := 7]} /\
  exists w', ht530_exit w = Ok tt w' /\ nodes (st w') = ∅ /\ held (requests w') = [] /\ clean (requests w') = true.
Proof.
  cbn zeta. apply any_history_is_a_map_and_unloads; [apply succeed_usual|].
  set (w := after_init (user_with (put_object pair_5_7))).
  replace {[5 := 7]} with (effect (C_write 4096) (user w) ∅) by (vm_compute; reflexivity).
  apply (h_call (C_write 4096) w ∅ 0).
  - apply (h_init (user_with (put_object pair_5_7))). vm_compute. reflexivity.
  - vm_compute. reflexivity.
Defined.

Lemma failed_load_leaks_witness :
  let fails : Environment := fails_at (Cdev_add MODULE_NAME) (-16) in
  exists w' : world, ht530_init (before_init ∅) = Ok (-16) w' /\
    held (requests w') = [Kmalloc_of "ht530_dev"; Class_create MODULE_NAME; Alloc_chrdev_region MODULE_NAME].
Proof.
  apply (failed_load_leaks (E := fails_at (Cdev_add MODULE_NAME) (-16)) ∅ (-16)); [lia| |done..].
  by constructor.
Defined.

Lemma unserialised_writers_duplicate_witness :
  exists s p q, racing_writers pair_5_7 {| key := 5; data := 8 |}
      {| st := ht530_static; requests := []; user := (∅ : gmap Z Z) |} =
      Ok tt (with_st s {| st := ht530_static; requests := []; user := ∅ |}) /\
    p <> q /\ has_pair s p pair_5_7 /\ has_pair s q {| key := 5; data := 8 |} /\ cur_size s = 2.
Proof.
  destruct (unserialised_writers_duplicate (L := list loc) {| st := ht530_static; requests := []; user := (∅ : gmap Z Z) |} ∅
    pair_5_7 {| key := 5; data := 8 |} (fresh []) (fresh [fresh []])) as (s & H1 & H2 & H3 & H4 & H5 & _).
  1: apply static_represents.
  all: try (unfold is_int; simpl; lia).
  all: try (vm_compute; reflexivity).
  exists s, (fresh []), (fresh [fresh []]). split_and!; done.
Defined.
