(* ===== verification/Ht530Test.v ===== *)
(** * The hash table's test program: threads that share the device

    general_driver/ht530-test.c: ThreadNum threads fill the table and then
    add, delete and search pairs at random; each call on the device is made
    under one mutex.  The driver itself takes no lock: a [write] stands between
    its look-up and its commit for one step here, so that any other thread's
    step could fall between the two.  What [rand] returns is part of the step's
    label. *)

From S2P Require Import Prelude Kernel UserMemory Ht530.

(** [RAND_SCALE(MIN, MAX)] of ht530_user.h. *)

Definition RAND_SCALE (min max r : Z) : Z := r mod (max + 1 - min) + min.

Definition DO_ADD : Z := 1.

Definition DO_DELETE : Z := 2.

Definition DO_SEARCH : Z := 3.

(** The two loops of [thread_exec]. *)

Inductive part := Fill | Later.

Inductive action := Write | Read.

Inductive tpc :=
  | Top (l : part)                                            (* the counter of the loop is next *)
  | Enter (l : part) (a : action)                             (* pthread_mutex_lock(&mtx) *)
  | Calling (l : part) (a : action)                           (* the system call, with the mutex *)
  | Commit (l : part) (uitem : ht_object) (kitem : option loc) (* ht530_write, after its look-up *)
  | Leave (l : part)                                          (* pthread_mutex_unlock(&mtx) *)
  | Exited.

Record tester (U L : Type) := {
  dev : sys U (ht530 L);
  fill_cnt : Z;
  later_cnt : Z;
  mtx : option Z;
  thr : gmap Z tpc
}.
Arguments dev {U L}.
Arguments fill_cnt {U L}.
Arguments later_cnt {U L}.
Arguments mtx {U L}.
Arguments thr {U L}.

Section test.
Context {L U : Type} {KL : KList L} {KM : Kmalloc} {UM : UserMemory U} {HM : HashMin}.

(** The address of a thread's variable [obj]. *)

Context (obj : Z -> Z).

Implicit Types (s : tester U L).

Definition with_dev (w : sys U (ht530 L)) s : tester U L :=
  {| dev := w; fill_cnt := fill_cnt s; later_cnt := later_cnt s; mtx := mtx s; thr := thr s |}.

Definition with_fill_cnt (n : Z) s : tester U L :=
  {| dev := dev s; fill_cnt := n; later_cnt := later_cnt s; mtx := mtx s; thr := thr s |}.

Definition with_later_cnt (n : Z) s : tester U L :=
  {| dev := dev s; fill_cnt := fill_cnt s; later_cnt := n; mtx := mtx s; thr := thr s |}.

Definition with_mtx (o : option Z) s : tester U L :=
  {| dev := dev s; fill_cnt := fill_cnt s; later_cnt := later_cnt s; mtx := o; thr := thr s |}.

Definition at_pc (t : Z) (p : tpc) s : tester U L :=
  {| dev := dev s; fill_cnt := fill_cnt s; later_cnt := later_cnt s; mtx := mtx s; thr := <[t := p]> (thr s) |}.

Definition goto (t : Z) (p : tpc) : M (tester U L) unit := modify (at_pc t p).

(** A call on the device, or an access to the thread's own memory. *)

Definition on_dev {A} (f : M (sys U (ht530 L)) A) : M (tester U L) A := fun s =>
  match f (dev s) with
  | Ok a w => Ok a (with_dev w s)
  | Crash e w => Crash e (with_dev w s)
  | Blocked w => Blocked (with_dev w s)
  end.

(** [write_hash_atomic(key, data)] and [read_hash(key)] up to their lock. *)

Definition write_hash_atomic (t : Z) (l : part) (k d : Z) : M (tester U L) unit :=
  on_dev (write_user (obj t) (put_object {| key := k; data := d |})) ;;
  goto t (Enter l Write).

Definition read_hash (t : Z) (l : part) (k : Z) : M (tester U L) unit :=
  on_dev (write_user (obj t) (put_object {| key := k; data := 0 |})) ;;
  goto t (Enter l Read).

(** [ht530_write] up to its commit. *)

Definition write_lookup (buf : Z) : M (sys U (ht530 L)) (ht_object * option loc) :=
  c ← copy_from_user buf sizeof_ht_object;
  let uitem := get_object c.1 in
  kitem ← find_the_node (key uitem) None;
  mret (uitem, kitem).

(** One step of thread [t]; [r1], [r2], [r3] are the next numbers of [rand]. *)

Definition thread_exec (t r1 r2 r3 : Z) : M (tester U L) unit :=
  p ← gets (fun s => thr s !! t);
  match p with
  | None | Some Exited => blocked
  | Some (Top Fill) =>
      n ← gets fill_cnt;
      if 200 <=? n then goto t (Top Later) else
      modify (with_fill_cnt (n + 1)) ;;
      write_hash_atomic t Fill (RAND_SCALE 1 200 r1) (RAND_SCALE 1 200 r2)
  | Some (Top Later) =>
      n ← gets later_cnt;
      if 100 <=? n then goto t Exited else
      modify (with_later_cnt (n + 1)) ;;
      let act := RAND_SCALE DO_ADD DO_SEARCH r1 in
      if act =? DO_ADD then write_hash_atomic t Later (RAND_SCALE 1 200 r2) (RAND_SCALE 1 200 r3)
      else if act =? DO_DELETE then write_hash_atomic t Later (RAND_SCALE 1 200 r2) 0
      else if act =? DO_SEARCH then read_hash t Later (RAND_SCALE 1 200 r2)
      else goto t (Top Later)
  | Some (Enter l a) =>
      o ← gets mtx;
      match o with
      | Some _ => blocked
      | None => modify (with_mtx (Some t)) ;; goto t (Calling l a)
      end
  | Some (Calling l Write) =>
      x ← on_dev (write_lookup (obj t));
      goto t (Commit l x.1 x.2)
  | Some (Calling l Read) =>
      on_dev (ht530_read (obj t) sizeof_ht_object) ;;
      goto t (Leave l)
  | Some (Commit l uitem kitem) =>
      on_dev (write_commit uitem kitem) ;;
      goto t (Leave l)
  | Some (Leave l) =>
      modify (with_mtx None) ;;
      goto t (Top l)
  end.

(** The states of the program after [n] steps of its threads. *)

Inductive test_reachable (s0 : tester U L) : nat -> tester U L -> Prop :=
  | test_refl : test_reachable s0 0 s0
  | test_step n s t r1 r2 r3 s' :
      test_reachable s0 n s -> thread_exec t r1 r2 r3 s = Ok tt s' -> test_reachable s0 (S n) s'.

(** [part1_execute] has created the threads [ts]. *)

Definition part1_execute (w : sys U (ht530 L)) (ts : gset Z) : tester U L :=
  {| dev := w; fill_cnt := 0; later_cnt := 0; mtx := None; thr := gset_to_gmap (Top Fill) ts |}.

(** The end of [main], once all threads are joined: the table's size into
    [hash_cur_size], then the pairs into the [dump_record] of that size. *)

Definition dump_table {IC : IoctlCode} (dump_set hash_cur_size dump_record : Z) : M (sys U (ht530 L)) Z :=
  ht530_unlocked_ioctl dump_set RET_CUR_SIZE hash_cur_size ;;
  ht530_unlocked_ioctl dump_set ALL_DUMP dump_record.
End test.
