(* ===== verification/Ht530TestSpec.v ===== *)
(** * The test program's mutex makes the hash table driver safe

    Every interleaving of the threads' look-ups and commits leaves a table that
    represents a map of the keys and data the threads draw; the final dump
    returns it whole. *)

From S2P Require Import Prelude Kernel UserMemory Ht530 Ht530Proofs Ht530Spec Ht530Dump Ht530Load Ht530Test.

Section test.
Context {L U : Type} {KL : KList L} {KM : Kmalloc} {UM : UserMemory U} {HM : HashMin}.
Context (obj : Z -> Z) (ts : gset Z).

(** The threads' variables do not overlap, and memory does not run out. *)

Context (obj_apart : forall t u, t <> u -> obj t + 8 <= obj u \/ obj u + 8 <= obj t).
Context (memory : forall d, is_Some (kmalloc d)).

Implicit Types (s : tester U L) (w : sys U (ht530 L)) (m : gmap Z Z) (o : ht_object).

Definition obj_ok o : Prop := 1 <= key o <= 200 /\ 0 <= data o <= 200.

Definition map_ok m : Prop := forall k d, m !! k = Some d -> 1 <= k <= 200 /\ 1 <= d <= 200.

Definition holds_mtx (p : tpc) : bool :=
  match p with Calling _ _ | Commit _ _ _ | Leave _ => true | _ => false end.

Definition in_later (p : tpc) : bool :=
  match p with Top Later | Enter Later _ | Calling Later _ | Commit Later _ _ | Leave Later | Exited => true | _ => false end.

(** What holds of a thread at [p], for the device [w]. *)

Definition pc_ok (t : Z) (p : tpc) w m : Prop :=
  match p with
  | Enter _ _ | Calling _ _ => obj_ok (object_at (user w) (obj t))
  | Commit _ o k => obj_ok o /\ found (st w) m (key o) k
  | _ => True
  end.

Record test_inv s m : Prop := {
  ti_map : represents (st (dev s)) m;
  ti_range : map_ok m;
  ti_dom t : is_Some (thr s !! t) <-> t ∈ ts;
  ti_pc t p : thr s !! t = Some p -> pc_ok t p (dev s) m;
  ti_mtx t p : thr s !! t = Some p -> (holds_mtx p = true <-> mtx s = Some t);
  ti_owner t : mtx s = Some t -> t ∈ ts;
  ti_obj t : t ∈ ts -> writable (user (dev s)) (obj t) 8;
  ti_fill : 0 <= fill_cnt s <= 200 /\ forall t p, thr s !! t = Some p -> in_later p = true -> fill_cnt s = 200;
  ti_later : 0 <= later_cnt s <= 100 /\ forall t, thr s !! t = Some Exited -> later_cnt s = 100
}.

Lemma rand_range min max r : min <= max -> min <= RAND_SCALE min max r <= max.
Proof. intros H. unfold RAND_SCALE. pose proof (Z.mod_pos_bound r (max + 1 - min)). lia. Qed.

Lemma write_in_two buf w :
  ht530_write buf w = (x ← write_lookup buf; write_commit x.1 x.2) w.
Proof.
  unfold ht530_write, write_lookup. rewrite (bind_ok _ _ _ _ _ (copy_from_user_ok _ _ _)).
  pose proof (fetch_not_negative (user w) buf sizeof_ht_object) as Hf.
  destruct (fetch (user w) buf sizeof_ht_object) as [bs left] eqn:E1. simpl in Hf. rewrite Hf.
  unfold mbind at 2, M_bind at 2. unfold mbind at 2, M_bind at 2. rewrite copy_from_user_ok, E1.
  unfold mbind, M_bind. cbn [fst]. by destruct (find_the_node _ _ w).
Qed.

Lemma put_ok o m : obj_ok o -> map_ok m -> map_ok (put o m).
Proof.
  intros [Hk Hd] Hm k d. unfold put. destruct (Z.eqb_spec (data o) 0).
  - rewrite lookup_delete_Some. intros [_ H]. by apply Hm in H.
  - rewrite lookup_insert_Some. intros [[<- <-]|[_ H]]; [lia|by apply Hm in H].
Qed.

Lemma on_dev_ok {A} (f : M (sys U (ht530 L)) A) s a w :
  f (dev s) = Ok a w -> on_dev f s = Ok a (with_dev w s).
Proof. intros H. unfold on_dev. by rewrite H. Qed.

Lemma write_user_ok a bs w :
  writable (user w) a (length bs) -> write_user a bs w = Ok tt (with_user (store (user w) a bs).1 w).
Proof. intros H. unfold write_user. by rewrite (H bs eq_refl). Qed.
(** ** One thread moves *)

Definition mtx_move (t : Z) (p p' : tpc) (o o' : option Z) : Prop :=
  (holds_mtx p = holds_mtx p' /\ o' = o) \/
  (holds_mtx p = true /\ holds_mtx p' = false /\ o' = None) \/
  (o = None /\ holds_mtx p' = true /\ o' = Some t).

(** What the invariant itself gives of a step that changes little. *)

Ltac from_inv I := try exact (ti_map _ _ I); try exact (ti_range _ _ I); try exact (ti_obj _ _ I).

Lemma keep s m s' m' t p p' :
  test_inv s m -> thr s !! t = Some p -> thr s' = <[t := p']> (thr s) ->
  represents (st (dev s')) m' -> map_ok m' -> pc_ok t p' (dev s') m' ->
  (forall u q, u <> t -> thr s !! u = Some q -> pc_ok u q (dev s') m') ->
  mtx_move t p p' (mtx s) (mtx s') -> (forall u, u ∈ ts -> writable (user (dev s')) (obj u) 8) ->
  fill_cnt s <= fill_cnt s' <= 200 -> (in_later p' = true -> fill_cnt s' = 200) ->
  later_cnt s <= later_cnt s' <= 100 -> (p' = Exited -> later_cnt s' = 100) -> test_inv s' m'.
Proof.
  intros I Ht Hthr HR Hrange Hpc Hothers Hmtx Hobj Hf Hl Hl1 Hl2.
  assert (forall u q, thr s' !! u = Some q -> (u = t /\ q = p') \/ (u <> t /\ thr s !! u = Some q)) as Hcase.
  { intros u q. rewrite Hthr, lookup_insert_Some. intros [[-> ->]|[? ?]]; [by left|by right]. }
  assert (t ∈ ts) as Hin by (apply (ti_dom _ _ I); by eexists).
  pose proof (ti_mtx _ _ I t p Ht) as Hmt. split; try done.
  - intros u. rewrite Hthr, lookup_insert_is_Some'. rewrite (ti_dom _ _ I). split; [by intros [<-|?]|by right].
  - intros u q [[-> ->]|[? ?]]%Hcase; [done|by apply Hothers].
  - intros u q [[-> ->]|[Hne Hq]]%Hcase.
    + destruct Hmtx as [[<- ->]|[(_ & -> & ->)|(_ & -> & ->)]]; done.
    + rewrite (ti_mtx _ _ I u q Hq). destruct Hmtx as [[_ ->]|[(E1 & _ & ->)|(E1 & _ & ->)]]; [done|..].
      * apply Hmt in E1. rewrite E1. split; congruence.
      * rewrite E1. split; congruence.
  - intros u. destruct Hmtx as [[_ ->]|[(_ & _ & ->)|(_ & _ & ->)]]; [apply (ti_owner _ _ I)|done|by intros [= <-]].
  - destruct (ti_fill _ _ I) as [Hb Hall]. split; [lia|].
    intros u q [[-> ->]|[_ Hq]]%Hcase Hq'; [by apply Hl|]. specialize (Hall u q Hq Hq'). lia.
  - destruct (ti_later _ _ I) as [Hb Hall]. split; [lia|].
    intros u [[-> ?]|[_ Hq]]%Hcase; [by apply Hl2|]. specialize (Hall u Hq). lia.
Qed.

(** A store to [t]'s variable leaves the others' alone. *)

Lemma others_objects t u (x : U) bs :
  t <> u -> length bs = 8%nat -> object_at (store x (obj t) bs).1 (obj u) = object_at x (obj u).
Proof.
  intros Hne Hl. unfold object_at. destruct (store x (obj t) bs) as [x' r] eqn:Hs. cbn [fst].
  rewrite (fetch_store_ne _ _ _ _ _ (obj u) sizeof_ht_object Hs); [done|]. unfold sizeof_ht_object.
  rewrite Hl. destruct (obj_apart t u Hne); [right|left]; lia.
Qed.

Lemma others_stored s m t u q bs :
  test_inv s m -> length bs = 8%nat -> u <> t -> thr s !! u = Some q ->
  pc_ok u q (with_user (store (user (dev s)) (obj t) bs).1 (dev s)) m.
Proof.
  intros I Hl Hne Hq. pose proof (ti_pc _ _ I u q Hq) as H. destruct q; try done; cbn [pc_ok user with_user] in *.
  all: by rewrite others_objects.
Qed.

Lemma own_object (x : U) t o :
  writable x (obj t) 8 -> is_int (key o) -> is_int (data o) -> object_at (store x (obj t) (put_object o)).1 (obj t) = o.
Proof.
  intros Hw Hk Hd. specialize (Hw (put_object o) eq_refl).
  destruct (store x (obj t) (put_object o)) as [x' r] eqn:Hs. simpl in Hw. subst r. unfold object_at. cbn [fst].
  change sizeof_ht_object with (length (put_object o)). rewrite (fetch_store _ _ _ _ (put_object_bytes o) Hs).
  cbn [fst]. rewrite <- (app_nil_r (put_object o)). by apply get_put_object.
Qed.

(** What a step may do. *)

Definition waits (t : Z) s : Prop :=
  match thr s !! t with
  | None | Some Exited => True
  | Some (Enter _ _) => mtx s <> None
  | _ => False
  end.

Definition goes_on (o : outcome (tester U L) unit) (t : Z) s : Prop :=
  match o with
  | Ok _ s' => exists m', test_inv s' m'
  | Crash _ _ => False
  | Blocked _ => waits t s
  end.

Lemma goto_inv s m t p p' :
  test_inv s m -> thr s !! t = Some p -> holds_mtx p = holds_mtx p' -> pc_ok t p' (dev s) m ->
  (in_later p' = true -> fill_cnt s = 200) -> (p' = Exited -> later_cnt s = 100) -> goes_on (goto t p' s) t s.
Proof.
  intros I Ht Hh Hpc Hl He. exists m. pose proof (ti_fill _ _ I) as [? _]. pose proof (ti_later _ _ I) as [? _].
  apply (keep s m _ m t p p'); try done; cbn [dev mtx fill_cnt later_cnt at_pc]; try lia; from_inv I.
  - intros u q _ Hq. by apply (ti_pc _ _ I).
  - by left.
Qed.

(** A thread prepares its variable for a call. *)

Lemma prepare_inv s s0 m t l a o :
  test_inv s m -> thr s !! t = Some (Top l) -> obj_ok o ->
  dev s0 = dev s -> mtx s0 = mtx s -> thr s0 = thr s ->
  fill_cnt s <= fill_cnt s0 <= 200 -> later_cnt s <= later_cnt s0 <= 100 ->
  (l = Later -> fill_cnt s0 = 200) ->
  goes_on ((on_dev (write_user (obj t) (put_object o)) ;; goto t (Enter l a)) s0) t s.
Proof.
  intros I Ht Ho Hd Hm Hthr Hf Hl Hfill.
  assert (t ∈ ts) as Hin by (apply (ti_dom _ _ I); by eexists).
  pose proof (ti_obj _ _ I t Hin) as Hw. rewrite <- Hd in Hw.
  erewrite bind_ok by (apply on_dev_ok, write_user_ok; exact Hw).
  exists m. apply (keep s m _ m t (Top l) (Enter l a)); cbn [dev mtx fill_cnt later_cnt thr at_pc with_dev st with_user user];
    rewrite ?Hd, ?Hthr, ?Hm; try done; from_inv I.
  - rewrite Hd in Hw. destruct Ho as [Hk Hdata]. cbn [pc_ok user with_user].
    rewrite own_object; [done|done|unfold is_int; lia..].
  - intros u q Hne Hq. by apply others_stored.
  - by left.
  - intros u Hu. apply writable_store. by apply (ti_obj _ _ I).
  - cbn. destruct l; [done|]. intros _. by apply Hfill.
Qed.
Lemma top_inv s m t r1 r2 r3 l :
  test_inv s m -> thr s !! t = Some (Top l) -> goes_on (thread_exec obj t r1 r2 r3 s) t s.
Proof.
  intros I Ht. pose proof (ti_fill _ _ I) as [Hf HfL]. pose proof (ti_later _ _ I) as [Hl _].
  unfold thread_exec. rewrite (bind_ok _ _ _ _ _ (gets_ok _ _)), Ht.
  assert (forall k d, 1 <= k <= 200 -> 0 <= d <= 200 -> obj_ok {| key := k; data := d |}) as Hok by done.
  destruct l; rewrite (bind_ok _ _ _ _ _ (gets_ok _ _)).
  - destruct (Z.leb_spec 200 (fill_cnt s)).
    + eapply goto_inv; try done. intros _. lia.
    + rewrite (bind_ok _ _ _ _ _ (modify_ok _ _)). unfold write_hash_atomic.
      eapply prepare_inv; try done; cbn [fill_cnt with_fill_cnt later_cnt]; try lia.
      pose proof (rand_range 1 200 r1). pose proof (rand_range 1 200 r2). apply Hok; lia.
  - pose proof (HfL t _ Ht eq_refl) as Hfill. destruct (Z.leb_spec 100 (later_cnt s)).
    + eapply goto_inv; try done. intros _. lia.
    + rewrite (bind_ok _ _ _ _ _ (modify_ok _ _)).
      pose proof (rand_range 1 200 r2). pose proof (rand_range 1 200 r3).
      pose proof (rand_range DO_ADD DO_SEARCH r1). unfold DO_ADD, DO_DELETE, DO_SEARCH in *.
      destruct (Z.eqb_spec (RAND_SCALE 1 3 r1) 1); [|destruct (Z.eqb_spec (RAND_SCALE 1 3 r1) 2);
        [|destruct (Z.eqb_spec (RAND_SCALE 1 3 r1) 3); [|lia]]].
      all: unfold write_hash_atomic, read_hash; eapply prepare_inv; try done; cbn [fill_cnt with_later_cnt later_cnt]; try lia.
      all: apply Hok; lia.
Qed.

Lemma enter_inv s m t r1 r2 r3 l a :
  test_inv s m -> thr s !! t = Some (Enter l a) -> goes_on (thread_exec obj t r1 r2 r3 s) t s.
Proof.
  intros I Ht. pose proof (ti_fill _ _ I) as [Hf HfL]. pose proof (ti_later _ _ I) as [Hl _].
  unfold thread_exec. rewrite (bind_ok _ _ _ _ _ (gets_ok _ _)), Ht, (bind_ok _ _ _ _ _ (gets_ok _ _)).
  destruct (mtx s) as [u|] eqn:Hm; [unfold goes_on, blocked, waits; by rewrite Ht, Hm|]. rewrite (bind_ok _ _ _ _ _ (modify_ok _ _)).
  exists m. apply (keep s m _ m t (Enter l a) (Calling l a)); try done;
    cbn [dev mtx fill_cnt later_cnt at_pc with_mtx]; try lia; from_inv I.
  - exact (ti_pc _ _ I t _ Ht).
  - intros u q _ Hq. by apply (ti_pc _ _ I).
  - right; right. done.
  - intros Hq. apply (HfL t _ Ht). by destruct l.
Qed.

(** The mutex's holder is the only thread between look-up and commit. *)

Lemma others_outside s m t u q w' m' p :
  test_inv s m -> thr s !! t = Some p -> holds_mtx p = true -> u <> t -> thr s !! u = Some q ->
  user w' = user (dev s) -> pc_ok u q w' m'.
Proof.
  intros I Ht Hp Hne Hq Hu. pose proof (ti_pc _ _ I u q Hq) as H.
  destruct q; try done; cbn [pc_ok] in *; try by rewrite Hu.
  apply (ti_mtx _ _ I t p Ht) in Hp. pose proof (proj1 (ti_mtx _ _ I u _ Hq) eq_refl) as Hu'. congruence.
Qed.

Lemma write_lookup_inv s m t r1 r2 r3 l :
  test_inv s m -> thr s !! t = Some (Calling l Write) -> goes_on (thread_exec obj t r1 r2 r3 s) t s.
Proof.
  intros I Ht. unfold thread_exec. rewrite (bind_ok _ _ _ _ _ (gets_ok _ _)), Ht.
  destruct (find_the_node_ok (dev s) m (key (object_at (user (dev s)) (obj t))) (ti_map _ _ I)) as (r & Hr & HP).
  assert (write_lookup (obj t) (dev s) = Ok (object_at (user (dev s)) (obj t), r) (dev s)) as Hl.
  { unfold write_lookup. rewrite (bind_ok _ _ _ _ _ (copy_from_user_ok _ _ _)).
    by rewrite (bind_ok _ _ _ _ _ Hr). }
  rewrite (bind_ok _ _ _ _ _ (on_dev_ok _ _ _ _ Hl)). cbn [fst snd].
  replace (with_dev (dev s) s) with s by by destruct s.
  eapply goto_inv; try done.
  - split; [apply (ti_pc _ _ I _ _ Ht)|exact HP].
  - intros Hq. apply (proj2 (ti_fill _ _ I) t _ Ht). by destruct l.
Qed.

Lemma commit_inv s m t r1 r2 r3 l o k :
  test_inv s m -> thr s !! t = Some (Commit l o k) -> goes_on (thread_exec obj t r1 r2 r3 s) t s.
Proof.
  intros I Ht. pose proof (ti_fill _ _ I) as [Hf HfL]. pose proof (ti_later _ _ I) as [Hl _].
  unfold thread_exec. rewrite (bind_ok _ _ _ _ _ (gets_ok _ _)), Ht.
  destruct (ti_pc _ _ I _ _ Ht) as [Ho HF]. pose proof Ho as [Hk Hd].
  destruct (commit_ok (dev s) m o k (ti_map _ _ I) HF) as (s' & Hs & HR); [unfold is_int; lia..|apply memory|].
  rewrite (bind_ok _ _ _ _ _ (on_dev_ok _ _ _ _ Hs)).
  exists (put o m). apply (keep s m _ (put o m) t (Commit l o k) (Leave l)); try done;
    cbn [dev mtx fill_cnt later_cnt at_pc with_dev st with_st user]; try lia; from_inv I.
  - apply put_ok; [done|apply I].
  - intros u q Hne Hq. eapply (others_outside s m t u q); done.
  - by left.
  - intros Hq. apply (HfL t _ Ht). by destruct l.
Qed.

Lemma read_inv s m t r1 r2 r3 l :
  test_inv s m -> thr s !! t = Some (Calling l Read) -> goes_on (thread_exec obj t r1 r2 r3 s) t s.
Proof.
  intros I Ht. pose proof (ti_fill _ _ I) as [Hf HfL]. pose proof (ti_later _ _ I) as [Hl _].
  unfold thread_exec. rewrite (bind_ok _ _ _ _ _ (gets_ok _ _)), Ht.
  pose proof (ht530_read_ok (dev s) m (obj t) sizeof_ht_object (ti_map _ _ I) ltac:(done)) as Hr.
  assert (in_later (Leave l) = true -> fill_cnt s = 200) as Hfill.
  { intros Hq. apply (HfL t _ Ht). by destruct l. }
  destruct (m !! key (object_at (user (dev s)) (obj t))) as [d|].
  - rewrite (bind_ok _ _ _ _ _ (on_dev_ok _ _ _ _ Hr)).
    set (bs := take _ _). exists m. apply (keep s m _ m t (Calling l Read) (Leave l)); try done;
      cbn [dev mtx fill_cnt later_cnt at_pc with_dev st with_user user]; try lia; from_inv I.
    + intros u q Hne Hq. by apply others_stored.
    + by left.
    + intros u Hu. apply writable_store. by apply (ti_obj _ _ I).
  - rewrite (bind_ok _ _ _ _ _ (on_dev_ok _ _ _ _ Hr)). replace (with_dev (dev s) s) with s by by destruct s.
    by eapply goto_inv.
Qed.

Lemma leave_inv s m t r1 r2 r3 l :
  test_inv s m -> thr s !! t = Some (Leave l) -> goes_on (thread_exec obj t r1 r2 r3 s) t s.
Proof.
  intros I Ht. pose proof (ti_fill _ _ I) as [Hf HfL]. pose proof (ti_later _ _ I) as [Hl _].
  unfold thread_exec. rewrite (bind_ok _ _ _ _ _ (gets_ok _ _)), Ht, (bind_ok _ _ _ _ _ (modify_ok _ _)).
  exists m. apply (keep s m _ m t (Leave l) (Top l)); try done;
    cbn [dev mtx fill_cnt later_cnt at_pc with_mtx]; try lia; from_inv I.
  - intros u q _ Hq. by apply (ti_pc _ _ I).
  - right; left. done.
  - intros Hq. apply (HfL t _ Ht). by destruct l.
Qed.

Lemma step_inv s m t r1 r2 r3 : test_inv s m -> goes_on (thread_exec obj t r1 r2 r3 s) t s.
Proof.
  intros I. destruct (thr s !! t) as [p|] eqn:Ht.
  - destruct p as [l|l a|l []|l o k|l|].
    + by eapply top_inv.
    + by eapply enter_inv.
    + by eapply write_lookup_inv.
    + by eapply read_inv.
    + by eapply commit_inv.
    + by eapply leave_inv.
    + unfold thread_exec. rewrite (bind_ok _ _ _ _ _ (gets_ok _ _)), Ht. unfold goes_on, blocked, waits. by rewrite Ht.
  - unfold thread_exec. rewrite (bind_ok _ _ _ _ _ (gets_ok _ _)), Ht. unfold goes_on, blocked, waits. by rewrite Ht.
Qed.

Lemma start_test_inv w m :
  represents (st w) m -> map_ok m -> (forall t, t ∈ ts -> writable (user w) (obj t) 8) ->
  test_inv (part1_execute w ts) m.
Proof.
  intros HR Hm Hobj. assert (forall t p, thr (part1_execute w ts) !! t = Some p -> p = Top Fill) as Hall.
  { intros t p. unfold part1_execute. cbn [thr]. rewrite lookup_gset_to_gmap_Some. by intros [_ ?]. }
  split; try done.
  - intros t. unfold part1_execute. cbn [thr]. rewrite <- elem_of_dom, dom_gset_to_gmap. done.
  - intros t p Hp. by rewrite (Hall t p Hp).
  - intros t p Hp. by rewrite (Hall t p Hp).
  - split; [done|]. intros t p Hp. by rewrite (Hall t p Hp).
  - split; [done|]. intros t Hp. by apply Hall in Hp.
Qed.

Lemma test_reachable_inv w m n s :
  represents (st w) m -> map_ok m -> (forall t, t ∈ ts -> writable (user w) (obj t) 8) ->
  test_reachable obj (part1_execute w ts) n s -> exists m', test_inv s m'.
Proof.
  intros HR Hm Hobj H. induction H as [|n s t r1 r2 r3 s' _ [m1 I] He]; [exists m; by apply start_test_inv|].
  pose proof (step_inv s m1 t r1 r2 r3 I) as G. by rewrite He in G.
Qed.

(** ** The program comes to its end *)

(** The steps left to a thread in its present round of its loop, and to the
    program: five for each round not begun, and what its threads are in. *)

Definition rank (p : tpc) : nat :=
  match p with
  | Exited => 0
  | Top Later => 1
  | Leave Later | Top Fill => 2
  | Commit Later _ _ | Leave Fill => 3
  | Calling Later _ | Commit Fill _ _ => 4
  | Enter Later _ | Calling Fill _ => 5
  | Enter Fill _ => 6
  end.

Definition rounds (f l : Z) : nat := (5 * Z.to_nat (200 - f) + 5 * Z.to_nat (100 - l))%nat.

Definition ranks (g : gmap Z tpc) : nat := map_fold (fun _ p n => (rank p + n)%nat) 0%nat g.

Definition work s : nat := (rounds (fill_cnt s) (later_cnt s) + ranks (thr s))%nat.

Lemma ranks_insert g t p p' :
  g !! t = Some p -> (ranks (<[t := p']> g) + rank p = ranks g + rank p')%nat.
Proof.
  intros Hp. unfold ranks.
  rewrite (map_fold_delete_L _ _ t p g) by (done || intros; lia).
  rewrite <- insert_delete_eq, map_fold_insert_L by (apply lookup_delete_eq || intros; lia). lia.
Qed.

Lemma ranks_start (g : gset Z) : ranks (gset_to_gmap (Top Fill) g) = (2 * size g)%nat.
Proof.
  clear obj_apart memory. induction g as [|t g Ht IH] using set_ind_L; [done|]. unfold ranks in *.
  rewrite gset_to_gmap_union_singleton, map_fold_insert_L.
  - rewrite IH, size_union, size_singleton by set_solver. cbn [rank]. lia.
  - intros; lia.
  - by apply lookup_gset_to_gmap_None.
Qed.

Lemma on_dev_ok_inv {A} (f : M (sys U (ht530 L)) A) s a s' :
  on_dev f s = Ok a s' -> thr s' = thr s /\ fill_cnt s' = fill_cnt s /\ later_cnt s' = later_cnt s.
Proof. unfold on_dev. destruct (f (dev s)); [|done..]. by intros [= <- <-]. Qed.

Definition works (t : Z) s s' : Prop := exists p p' : tpc,
  thr s !! t = Some p /\ thr s' = <[t := p']> (thr s) /\
  (rounds (fill_cnt s') (later_cnt s') + rank p' < rounds (fill_cnt s) (later_cnt s) + rank p)%nat.

(** The step's last statement: from [s0], with [s]'s threads still, to [p']. *)

Lemma goto_works t s s0 s' p p' :
  goto t p' s0 = Ok tt s' -> thr s !! t = Some p -> thr s0 = thr s ->
  (rounds (fill_cnt s0) (later_cnt s0) + rank p' < rounds (fill_cnt s) (later_cnt s) + rank p)%nat ->
  works t s s'.
Proof. intros [= <-] Hp E Hw. exists p, p'. split_and!; [done|cbn; by rewrite E|done]. Qed.

Lemma enter_works t s s0 s' l p p' o :
  (on_dev (write_user (obj t) (put_object o)) ;; goto t p' : M (tester U L) unit) s0 = Ok tt s' ->
  thr s !! t = Some (Top l) -> p = Top l -> thr s0 = thr s -> rank p' = rank (Enter l Write) ->
  (5 + rounds (fill_cnt s0) (later_cnt s0) <= rounds (fill_cnt s) (later_cnt s))%nat -> works t s s'.
Proof.
  intros (? & s1 & (E1 & E2 & E3)%on_dev_ok_inv & G)%bind_ok_inv Hp -> E Hr Hw.
  eapply goto_works; [done..|by rewrite E1|rewrite E2, E3, Hr; destruct l; cbn [rank]; lia].
Qed.

Lemma call_works {A} (f : M (sys U (ht530 L)) A) t s s' p (k : A -> tpc) :
  (x ← on_dev f; goto t (k x)) s = Ok tt s' -> thr s !! t = Some p ->
  (forall x, (rank (k x) < rank p)%nat) -> works t s s'.
Proof.
  intros (x & s1 & (E1 & E2 & E3)%on_dev_ok_inv & G)%bind_ok_inv Hp Hr.
  eapply goto_works; [done..|]. rewrite E2, E3. specialize (Hr x). lia.
Qed.

Lemma top_works t r1 r2 r3 s s' l :
  thr s !! t = Some (Top l) -> thread_exec obj t r1 r2 r3 s = Ok tt s' -> works t s s'.
Proof.
  unfold thread_exec. intros Ht. rewrite (bind_ok _ _ _ _ _ (gets_ok _ _)), Ht.
  destruct l; rewrite (bind_ok _ _ _ _ _ (gets_ok _ _)).
  - destruct (Z.leb_spec 200 (fill_cnt s)); [intros G; eapply goto_works; [done..|cbn [rank]; lia]|].
    rewrite (bind_ok _ _ _ _ _ (modify_ok _ _)). intros H'. eapply enter_works; [apply H'|done..|].
    unfold rounds. cbn. lia.
  - destruct (Z.leb_spec 100 (later_cnt s)); [intros G; eapply goto_works; [done..|cbn [rank]; lia]|].
    rewrite (bind_ok _ _ _ _ _ (modify_ok _ _)).
    assert (5 + rounds (fill_cnt s) (later_cnt s + 1) <= rounds (fill_cnt s) (later_cnt s))%nat by (unfold rounds; lia).
    repeat case_match; intros H'.
    1-3: by eapply enter_works; [apply H'|..].
    eapply goto_works; [apply H'|done..|cbn [fill_cnt later_cnt with_later_cnt]; lia].
Qed.

Lemma thread_works t r1 r2 r3 s s' : thread_exec obj t r1 r2 r3 s = Ok tt s' -> works t s s'.
Proof.
  destruct (thr s !! t) as [[l|l a|l []|l o k|l|]|] eqn:Ht; [by apply (top_works _ r1 r2 r3 _ _ l)|..].
  all: unfold thread_exec; rewrite (bind_ok _ _ _ _ _ (gets_ok _ _)), Ht; try done.
  - rewrite (bind_ok _ _ _ _ _ (gets_ok _ _)). destruct (mtx s); [done|].
    rewrite (bind_ok _ _ _ _ _ (modify_ok _ _)). intros H. eapply goto_works; [done..|destruct l; cbn; lia].
  - intros H. eapply call_works; [apply H|done|]. intros x. destruct l; cbn; lia.
  - intros H. eapply (call_works _ _ _ _ _ (fun _ => _)); [apply H|done|]. intros x. destruct l; cbn; lia.
  - intros H. eapply (call_works _ _ _ _ _ (fun _ => _)); [apply H|done|]. intros x. destruct l; cbn; lia.
  - rewrite (bind_ok _ _ _ _ _ (modify_ok _ _)). intros H. eapply goto_works; [done..|destruct l; cbn; lia].
Qed.

Lemma test_work w n s :
  test_reachable obj (part1_execute w ts) n s -> (n + work s <= 1500 + 2 * size ts)%nat.
Proof.
  induction 1 as [|n s t r1 r2 r3 s' _ IH (p & p' & Hp & Ht & Hw)%thread_works].
  - unfold work, part1_execute. cbn [fill_cnt later_cnt thr]. rewrite ranks_start. unfold rounds. lia.
  - unfold work in *. rewrite Ht. pose proof (ranks_insert _ _ _ p' Hp). lia.
Qed.

(** While some thread is not done, one can take a step: the mutex's owner is
    never waiting. *)

Lemma some_thread_runs s m :
  test_inv s m -> ts <> ∅ ->
  (exists t s', thread_exec obj t 0 0 0 s = Ok tt s') \/
  (forall t p, thr s !! t = Some p -> p = Exited).
Proof.
  intros I Hne.
  assert (forall t, waits t s \/ exists t s', thread_exec obj t 0 0 0 s = Ok tt s') as Hstep.
  { intros t. pose proof (step_inv s m t 0 0 0 I) as G. destruct (thread_exec obj t 0 0 0 s) as [[] s'| |] eqn:E; [|done|by left].
    right. by exists t, s'. }
  destruct (mtx s) as [t|] eqn:Hm.
  - left. destruct (Hstep t) as [Hw|H]; [|done]. exfalso.
    apply (ti_owner _ _ I) in Hm as Hin. apply (ti_dom _ _ I) in Hin as [p Hp].
    apply (ti_mtx _ _ I t p Hp) in Hm. unfold waits in Hw. rewrite Hp in Hw. by destruct p.
  - destruct (decide (map_Forall (fun _ p => rank p = 0%nat) (thr s))) as [H|H].
    + right. intros t p Hp. specialize (H t p Hp). simpl in H. destruct p as [[]|[]|[]|[]|[]|]; done.
    + left. apply map_not_Forall in H; [|apply _]. destruct H as (t & p & Hp & Hr). destruct (Hstep t) as [Hw|H]; [|done]. unfold waits in Hw.
      rewrite Hp, Hm in Hw. by destruct p.
Qed.

Lemma range_size m : map_ok m -> (size m <= 200)%nat.
Proof.
  intros Hm. rewrite <- size_dom. transitivity (size (list_to_set (seqZ 1 200) : gset Z)).
  - apply subseteq_size. intros k Hk. apply elem_of_dom in Hk as [d Hd].
    apply elem_of_list_to_set, elem_of_seqZ. apply Hm in Hd. lia.
  - rewrite size_list_to_set by apply NoDup_seqZ. by rewrite length_seqZ.
Qed.

Lemma dump_table_ok {IC : IoctlCode} w m ds req1 req2 :
  represents (st w) m -> map_ok m -> writable (user w) req1 8 ->
  (forall i, 0 <= i < 200 -> writable (user w) (req2 + 8 * i) 8) ->
  exists u1 u2 os,
    ht530_unlocked_ioctl ds RET_CUR_SIZE req1 w = Ok 0 (with_user u1 w) /\
    get_u64 (fetch u1 req1 8).1 = Z.of_nat (size m) /\
    dump_table ds req1 req2 w = Ok 0 (with_user u2 w) /\
    fetch u2 req2 (8 * size m) = (concat (map put_object os), 0) /\
    os ≡ₚ map (fun kd => {| key := kd.1; data := kd.2 |}) (map_to_list m).
Proof.
  intros R Hm H1 H2. pose proof (range_size m Hm) as Hs.
  destruct (cur_size_stored w m ds req1 R H1) as (u1 & Hu1 & (bs & Hf1 & Hsize) & Hkeep).
  destruct (dump_all_ok (with_user u1 w) m ds req2 R) as (u2 & os & Hu2 & Hf & Hperm).
  { intros i Hi. apply Hkeep, H2. lia. }
  exists u1, u2, os. split_and!; [done| |unfold dump_table; rewrite (bind_ok _ _ _ _ _ Hu1); exact Hu2|done..].
  rewrite Hf1. cbn [fst]. rewrite Hsize. unfold u64, wrap. apply Z.mod_small. lia.
Qed.

(** The test program stresses the driver safely, whatever its threads'
    order and the random numbers.  From a table that represents a map of keys
    and data in 1..200, no thread's step crashes; the program takes at most
    1500 steps and two per thread; until every thread has returned some thread
    can move.  Then 200 pairs were written, 100 random calls made, the table
    represents a map (of at most 200 pairs), and the final dump reports its
    size and hands over each pair once. *)

Theorem test_program_stresses_safely {IC : IoctlCode} w m n s :
  ts <> ∅ -> represents (st w) m -> map_ok m -> (forall t, t ∈ ts -> writable (user w) (obj t) 8) ->
  test_reachable obj (part1_execute w ts) n s ->
  (n <= 1500 + 2 * size ts)%nat /\
  (forall t r1 r2 r3 e s', thread_exec obj t r1 r2 r3 s <> Crash e s') /\
  ((exists t s', thread_exec obj t 0 0 0 s = Ok tt s') \/
   (forall t, t ∈ ts -> thr s !! t = Some Exited) /\ fill_cnt s = 200 /\ later_cnt s = 100 /\
   exists m', represents (st (dev s)) m' /\ map_ok m' /\ (size m' <= 200)%nat /\
     forall ds req1 req2, writable (user (dev s)) req1 8 ->
       (forall i, 0 <= i < 200 -> writable (user (dev s)) (req2 + 8 * i) 8) ->
       exists u1 u2 os,
         ht530_unlocked_ioctl ds RET_CUR_SIZE req1 (dev s) = Ok 0 (with_user u1 (dev s)) /\
         get_u64 (fetch u1 req1 8).1 = Z.of_nat (size m') /\
         dump_table ds req1 req2 (dev s) = Ok 0 (with_user u2 (dev s)) /\
         fetch u2 req2 (8 * size m') = (concat (map put_object os), 0) /\
         os ≡ₚ map (fun kd => {| key := kd.1; data := kd.2 |}) (map_to_list m')).
Proof.
  intros Hne HR Hm Hobj H. pose proof (test_work _ _ _ H) as Hn.
  destruct (test_reachable_inv _ _ _ _ HR Hm Hobj H) as [m' I]. split_and!; [lia| |].
  - intros t r1 r2 r3 e s' E. pose proof (step_inv s m' t r1 r2 r3 I) as G. by rewrite E in G.
  - destruct (some_thread_runs s m' I Hne) as [?|Hall]; [by left|right].
    assert (forall t, t ∈ ts -> thr s !! t = Some Exited) as Hex.
    { intros t [p Hp]%(ti_dom _ _ I). by rewrite <- (Hall t p Hp). }
    destruct (set_choose_L ts Hne) as [t Ht]. specialize (Hex t Ht) as He.
    split_and!; [done|by apply (proj2 (ti_fill _ _ I) t _ He)|by apply (proj2 (ti_later _ _ I) t)|].
    exists m'. split_and!; [apply I|apply I|apply range_size, I|]. intros ds req1 req2. apply dump_table_ok; apply I.
Qed.
End test.

(** ** A run to the end

    Threads 0 and 1 take turns, a waiting thread losing its turn; their
    variables are at 4096 and 4104, and [rand] counts the turns. *)

#[local] Instance mod_hash : HashMin.
Proof. refine {| hash_min k := k mod 128 |}. intros k. by apply Z.mod_pos_bound. Defined.

Definition variable (t : Z) : Z := 4096 + 8 * t.

Definition empty_table : sys (gmap Z Z) (ht530 (list loc)) :=
  {| st := ht530_static; requests := []; user := mapped 4096 16 |}.

Fixpoint turns (k : nat) (r : Z) (n : nat) (s : tester (gmap Z Z) (list loc)) : nat * tester (gmap Z Z) (list loc) :=
  match k with
  | O => (n, s)
  | S k =>
      match thread_exec variable (r mod 2) r (r + 1) (r / 3) s with
      | Ok _ s' => turns k (r + 1) (S n) s'
      | _ => turns k (r + 1) n s
      end
  end.

Lemma turns_reachable s0 k r n s :
  test_reachable variable s0 n s -> test_reachable variable s0 (turns k r n s).1 (turns k r n s).2.
Proof.
  revert r n s. induction k as [|k IH]; intros r n s H; [done|]. cbn [turns].
  destruct (thread_exec variable (r mod 2) r (r + 1) (r / 3) s) as [[] s'|e s'|s'] eqn:E; apply IH; [|done..].
  by eapply test_step.
Qed.

Definition all_returned (s : tester (gmap Z Z) (list loc)) : bool :=
  forallb (fun tp => match tp.2 with Exited => true | _ => false end) (map_to_list (thr s)).

Lemma all_returned_stuck s t r1 r2 r3 s' :
  all_returned s = true -> thread_exec variable t r1 r2 r3 s <> Ok tt s'.
Proof.
  unfold all_returned. rewrite forallb_forall. intros H. unfold thread_exec. rewrite (bind_ok _ _ _ _ _ (gets_ok _ _)).
  destruct (thr s !! t) as [p|] eqn:Hp; [|done].
  specialize (H (t, p)). rewrite <- list_elem_of_In, elem_of_map_to_list in H. specialize (H Hp). by destruct p.
Qed.

Lemma variable_writable t : t ∈ ({[0; 1]} : gset Z) -> writable (user empty_table) (variable t) 8.
Proof.
  intros Ht. assert (t = 0 \/ t = 1) as Ht' by set_solver. clear Ht. unfold variable. apply writable_map.
  - intros i Hi. rewrite <- Z.add_assoc. apply mapped_is_Some. lia.
  - by destruct Ht' as [-> | ->].
Qed.

Lemma test_program_stresses_safely_witness : exists n s,
  test_reachable variable (part1_execute empty_table {[0; 1]}) n s /\ (n <= 1504)%nat /\
  fill_cnt s = 200 /\ later_cnt s = 100 /\ exists m, represents (st (dev s)) m /\ (size m <= 200)%nat.
Proof.
  set (s0 := part1_execute empty_table {[0; 1]}).
  pose proof (turns_reachable s0 3000 0 0 s0 (test_refl _ _)) as H.
  assert (all_returned (turns 3000 0 0 s0).2 = true) as Hr by (vm_compute; reflexivity).
  generalize dependent (turns 3000 0 0 s0). intros [n s] H Hr. cbn [fst snd] in *.
  destruct (test_program_stresses_safely variable {[0; 1]} ltac:(unfold variable; lia) ltac:(by eexists)
    empty_table ∅ n s) as (Hn & _ & [(t & s' & Hs)|(_ & Hf & Hl & m & Hm & _ & Hsize & _)]).
  - done.
  - apply static_represents.
  - intros k d Hk. by rewrite lookup_empty in Hk.
  - apply variable_writable.
  - exact H.
  - by apply all_returned_stuck in Hs.
  - exists n, s. split_and!; [exact H|exact Hn|exact Hf|exact Hl|]. exists m. exact (conj Hm Hsize).
Defined.
