(* ===== verification/Ht530Main.v ===== *)
(** * The hash table's test program from its first statement to its last

    [main] and [part1_execute] of general_driver/ht530-test.c over the threads
    of [Ht530Test]: open the device, create the threads, join them, ask the
    table's size, dump it and print the dump.  The threads run from the moment
    they are created.  Where the C library and the kernel decide, the step's
    label does: what [open] and [pthread_create] return; where [malloc] puts a
    block is a parameter. *)

From S2P Require Import Prelude Kernel UserMemory Ht530 Ht530Test.

Definition ThreadNum : Z := 4.

(** Where [main] is.  [Failed i] is [handle_error_en] in round [i] of the loop
    that creates the threads: the process is about to be killed, and until
    then the threads it has go on. *)

Inductive mpc :=
  | Open                                (* open, hash_cur_size = 0 *)
  | Create (i : Z)                      (* part1_execute, lines 110-118 *)
  | Join (i : Z)                        (* part1_execute, lines 120-122 *)
  | Size                                (* ioctl(RET_CUR_SIZE) *)
  | Dump                                (* malloc, ioctl(ALL_DUMP) *)
  | Print (dump_record i : Z)           (* the loop of lines 147-149 *)
  | Done
  | Failed (i : Z).

Record process (U L : Type) := {
  threads : tester U L;
  at_main : mpc;
  dev_fd : Z;
  printed : list ht_object
}.
Arguments threads {U L}.
Arguments at_main {U L}.
Arguments dev_fd {U L}.
Arguments printed {U L}.

Section main.
Context {L U : Type} {KL : KList L} {KM : Kmalloc} {UM : UserMemory U} {HM : HashMin} {IC : IoctlCode}.

(** The addresses of the threads' variables [obj], of [dump_set] on the kernel
    stack and of [hash_cur_size], and [malloc]. *)

Context (obj : Z -> Z) (dump_set hash_cur_size : Z) (malloc : Z -> Z).

Implicit Types (p : process U L).

Definition with_threads (s : tester U L) p : process U L :=
  {| threads := s; at_main := at_main p; dev_fd := dev_fd p; printed := printed p |}.

Definition with_dev_fd (fd : Z) p : process U L :=
  {| threads := threads p; at_main := at_main p; dev_fd := fd; printed := printed p |}.

Definition printf_pair (o : ht_object) p : process U L :=
  {| threads := threads p; at_main := at_main p; dev_fd := dev_fd p; printed := printed p ++ [o] |}.

Definition main_at (q : mpc) p : process U L :=
  {| threads := threads p; at_main := q; dev_fd := dev_fd p; printed := printed p |}.

Definition jump (q : mpc) : M (process U L) unit := modify (main_at q).

Definition on_threads {A} (f : M (tester U L) A) : M (process U L) A := fun p =>
  match f (threads p) with
  | Ok a s => Ok a (with_threads s p)
  | Crash e s => Crash e (with_threads s p)
  | Blocked s => Blocked (with_threads s p)
  end.

(** A system call on a file that could not be opened is refused (EBADF). *)

Definition ioctl (req1 req2 : Z) : M (process U L) unit :=
  fd ← gets dev_fd;
  when (negb (fd <? 0)) (on_threads (on_dev (ht530_unlocked_ioctl dump_set req1 req2)) ;; mret tt).

Definition cur_size_var : M (process U L) Z :=
  bs ← on_threads (on_dev (load_user hash_cur_size 8));
  mret (get_u64 bs).

(** One step of [main]: [fd] is what [open] returns if this step calls it,
    [ret] what [pthread_create] returns. *)

Definition main (fd ret : Z) : M (process U L) unit :=
  q ← gets at_main;
  match q with
  | Open =>
      modify (with_dev_fd fd) ;;
      when (negb (fd <? 0)) (on_threads (on_dev ht530_open) ;; mret tt) ;;
      on_threads (on_dev (write_user hash_cur_size (put_u64 0))) ;;
      jump (Create 0)
  | Create i =>
      if ThreadNum <=? i then jump (Join 0) else
      if ret =? 0 then
        on_threads (goto i (Top Fill)) ;;
        jump (Create (i + 1))
      else jump (Failed i)
  | Join i =>
      if ThreadNum <=? i then jump Size else
      s ← gets threads;
      match thr s !! i with
      | Some Exited => jump (Join (i + 1))
      | _ => blocked
      end
  | Size =>
      ioctl RET_CUR_SIZE hash_cur_size ;;
      jump Dump
  | Dump =>
      n ← cur_size_var;
      let dump_record := malloc (u64 (8 * n)) in
      ioctl ALL_DUMP dump_record ;;
      jump (Print dump_record 0)
  | Print dump_record i =>
      n ← cur_size_var;
      if n <=? u64 i then jump Done else
      bs ← on_threads (on_dev (load_user (dump_record + 8 * i) sizeof_ht_object));
      modify (printf_pair (get_object bs)) ;;
      jump (Print dump_record (s32 (i + 1)))
  | Done | Failed _ => blocked
  end.

(** One step of thread [t]: [read] and [write] on a file that could not be
    opened return at once. *)

Definition thread (t r1 r2 r3 : Z) : M (process U L) unit :=
  fd ← gets dev_fd;
  s ← gets threads;
  match thr s !! t with
  | Some (Calling l _) => if fd <? 0 then on_threads (goto t (Leave l)) else on_threads (thread_exec obj t r1 r2 r3)
  | _ => on_threads (thread_exec obj t r1 r2 r3)
  end.

Inductive moves p p' : Prop :=
  | main_moves fd ret : main fd ret p = Ok tt p' -> moves p p'
  | thread_moves t r1 r2 r3 : thread t r1 r2 r3 p = Ok tt p' -> moves p p'.

Inductive process_runs (p0 : process U L) : nat -> process U L -> Prop :=
  | runs_refl : process_runs p0 0 p0
  | runs_step n p p' : process_runs p0 n p -> moves p p' -> process_runs p0 (S n) p'.

(** The process as it starts, on the device and with the memory of [w]. *)

Definition process_start (w : sys U (ht530 L)) : process U L :=
  {| threads := part1_execute w ∅; at_main := Open; dev_fd := 0; printed := [] |}.
End main.
