(* ===== verification/Ht530MainFrame.v ===== *)
(** * The hash table's test program: what a thread's step leaves alone

    A step stores into the thread's own variable at most; a thread that is
    created joins the invariant of [Ht530TestSpec]. *)

From S2P Require Import Prelude Kernel UserMemory Ht530 Ht530Proofs Ht530Spec Ht530Test Ht530TestSpec.

Create HintDb user_kept discriminated.

(** ** A thread writes to its own variable at most *)

Section frame.
Context {L U : Type} {KL : KList L} {KM : Kmalloc} {UM : UserMemory U} {HM : HashMin}.
Context (obj : Z -> Z).
Implicit Types (s : tester U L) (w : sys U (ht530 L)).

Definition stores_at (a : Z) (u u' : U) : Prop :=
  u' = u \/ exists bs, length bs = 8%nat /\ u' = (store u a bs).1.

Definition keeps_user {A} (f : M (sys U (ht530 L)) A) : Prop :=
  forall w a w', f w = Ok a w' -> user w' = user w.

Lemma user_bind {A B} (f : M (sys U (ht530 L)) A) (k : A -> M (sys U (ht530 L)) B) :
  keeps_user f -> (forall a, keeps_user (k a)) -> keeps_user (f ≫= k).
Proof.
  intros Hf Hk w b w' (a & w1 & H1 & H2)%bind_ok_inv.
  apply Hf in H1. apply Hk in H2. congruence.
Qed.

Lemma user_ret {A} (a : A) : keeps_user (mret a).
Proof. by intros w b w' [= <- <-]. Qed.

Lemma user_crash {A} e : keeps_user (crash e : M (sys U (ht530 L)) A).
Proof. done. Qed.

Lemma user_deref {A} (f : sys U (ht530 L) -> option A) e : keeps_user (deref f e).
Proof. intros w b w'. unfold deref. destruct (f w); [|done]. by intros [= <- <-]. Qed.

Lemma user_modify (f : ht530 L -> ht530 L) : keeps_user (modify_st f).
Proof. by intros w b w' [= <- <-]. Qed.

Lemma user_from a n : keeps_user (copy_from_user a n).
Proof. by intros w b w' [= <- <-]. Qed.

Hint Resolve user_ret user_crash user_deref user_modify user_from : user_kept.

Ltac user_kept :=
  repeat (intros; first [solve [eauto with user_kept] | apply user_bind | progress case_match]).

Lemma user_pair p : keeps_user (pair p).
Proof. unfold pair. user_kept. Qed.

Lemma user_scan k ps : keeps_user (scan_chain k ps).
Proof.
  induction ps as [|p ps IH]; [apply user_ret|]. apply user_bind; [apply user_pair|].
  intros o. destruct (key o =? k); [apply user_ret|done].
Qed.

Hint Resolve user_pair user_scan : user_kept.

Lemma user_find k b : keeps_user (find_the_node k b).
Proof. unfold find_the_node, find_the_bucket, bucket. user_kept. Qed.

Hint Resolve user_find : user_kept.

Lemma user_lookup a : keeps_user (write_lookup a).
Proof. unfold write_lookup. user_kept. Qed.

Lemma user_commit o k : keeps_user (write_commit o k).
Proof.
  unfold write_commit, kmalloc_node, hash_add, hash_del, set_pair, bucket. user_kept.
Qed.

Lemma read_stores a w r w' : ht530_read a sizeof_ht_object w = Ok r w' -> stores_at a (user w) (user w').
Proof.
  unfold ht530_read. intros ([bs left] & w1 & E1%user_from & H)%bind_ok_inv.
  destruct (left <? 0); [injection H as <- <-; left; congruence|].
  apply bind_ok_inv in H as (k & w2 & E2%user_find & H). destruct k as [p|]; [|injection H as <- <-; left; congruence].
  apply bind_ok_inv in H as (o & w3 & E3%user_pair & H). change (sizeof_ht_object <? sizeof_ht_object)%nat with false in H.
  apply bind_ok_inv in H as (n & w4 & E4 & H). right. exists (take sizeof_ht_object (put_object o)).
  split; [by rewrite length_take, length_put_object|].
  assert (user w4 = (store (user w3) a (take sizeof_ht_object (put_object o))).1) as E by by injection E4 as _ <-.
  assert (w' = w4) as -> by (destruct (n <? 0); by injection H as _ <-). congruence.
Qed.

Lemma on_dev_stores {A} (f : M (sys U (ht530 L)) A) a s x s' :
  (forall w b w', f w = Ok b w' -> stores_at a (user w) (user w')) ->
  on_dev f s = Ok x s' -> stores_at a (user (dev s)) (user (dev s')).
Proof.
  intros Hf. unfold on_dev. destruct (f (dev s)) eqn:E; [|done..]. intros [= <- <-]. by eapply Hf.
Qed.

Lemma user_stores {A} (f : M (sys U (ht530 L)) A) a :
  keeps_user f -> forall w b w', f w = Ok b w' -> stores_at a (user w) (user w').
Proof. intros Hf w b w' E. left. by eapply Hf. Qed.

Lemma write_user_stores a bs w r w' :
  length bs = 8%nat -> write_user a bs w = Ok r w' -> stores_at a (user w) (user w').
Proof.
  intros Hl. unfold write_user. destruct (_ =? 0); [|done]. intros [= _ <-]. right. by exists bs.
Qed.

Lemma prepare_stores t s s' o p :
  (on_dev (write_user (obj t) (put_object o)) ;; goto t p : M (tester U L) unit) s = Ok tt s' ->
  stores_at (obj t) (user (dev s)) (user (dev s')).
Proof.
  intros ([] & s1 & E & [= <-])%bind_ok_inv. cbn [dev at_pc]. revert E. apply on_dev_stores. intros w b w'. by apply write_user_stores.
Qed.

Lemma call_stores {A} (f : M (sys U (ht530 L)) A) t (k : A -> tpc) s s' :
  (forall w b w', f w = Ok b w' -> stores_at (obj t) (user w) (user w')) ->
  (x ← on_dev f; goto t (k x)) s = Ok tt s' -> stores_at (obj t) (user (dev s)) (user (dev s')).
Proof. intros Hf (x & s1 & E & [= <-])%bind_ok_inv. cbn [dev at_pc]. revert E. by apply on_dev_stores. Qed.

Lemma thread_stores t r1 r2 r3 s s' :
  thread_exec obj t r1 r2 r3 s = Ok tt s' -> stores_at (obj t) (user (dev s)) (user (dev s')).
Proof.
  unfold thread_exec. rewrite (bind_ok _ _ _ _ _ (gets_ok _ _)).
  destruct (thr s !! t) as [[[]|l a|l []|l o k|l|]|]; try done; rewrite ?(bind_ok _ _ _ _ _ (gets_ok _ _)).
  - destruct (200 <=? _); [intros [= <-]; by left|]. rewrite (bind_ok _ _ _ _ _ (modify_ok _ _)). apply prepare_stores.
  - destruct (100 <=? _); [intros [= <-]; by left|]. rewrite (bind_ok _ _ _ _ _ (modify_ok _ _)). cbn zeta.
    repeat case_match; try apply prepare_stores. intros [= <-]. by left.
  - destruct (mtx s); [done|]. rewrite (bind_ok _ _ _ _ _ (modify_ok _ _)). intros [= <-]. by left.
  - apply (call_stores _ t), user_stores, user_lookup.
  - apply (call_stores _ t (fun _ => _)). apply read_stores.
  - apply (call_stores _ t (fun _ => _)), user_stores, user_commit.
  - rewrite (bind_ok _ _ _ _ _ (modify_ok _ _)). intros [= <-]. by left.
Qed.

Lemma stores_writable a u u' a' n : stores_at a u u' -> writable u a' n -> writable u' a' n.
Proof. intros [->|(bs & _ & ->)]; [done|]. apply writable_store. Qed.

Lemma stores_fetch a u u' a' n :
  stores_at a u u' -> a' + Z.of_nat n <= a \/ a + 8 <= a' -> fetch u' a' n = fetch u a' n.
Proof.
  intros [->|(bs & Hl & ->)] Ha; [done|]. destruct (store u a bs) as [u1 r] eqn:E.
  eapply fetch_store_ne; [done|]. by rewrite Hl.
Qed.
End frame.

(** ** The threads so far *)

Section threads.
Context {L U : Type} {KL : KList L} {KM : Kmalloc} {UM : UserMemory U} {HM : HashMin}.
Context (obj : Z -> Z).
Implicit Types (s : tester U L) (w : sys U (ht530 L)) (m : gmap Z Z) (ts : gset Z).

Lemma spawn_inv ts s m t :
  test_inv obj ts s m -> t ∉ ts -> writable (user (dev s)) (obj t) 8 ->
  test_inv obj ({[t]} ∪ ts) (at_pc t (Top Fill) s) m.
Proof.
  intros I Ht Hw.
  assert (forall u q, thr (at_pc t (Top Fill) s) !! u = Some q -> (u = t /\ q = Top Fill) \/ (u <> t /\ thr s !! u = Some q)) as Hcase.
  { intros u q. cbn [thr at_pc]. rewrite lookup_insert_Some. intros [[-> ->]|[? ?]]; [by left|by right]. }
  split; try apply I.
  - intros u. cbn [thr at_pc]. rewrite lookup_insert_is_Some', (ti_dom _ _ _ _ I). set_solver.
  - intros u q [[-> ->]|[_ Hq]]%Hcase; [done|]. by apply (ti_pc _ _ _ _ I).
  - intros u q [[-> ->]|[_ Hq]]%Hcase; [|by apply (ti_mtx _ _ _ _ I)].
    split; [done|]. intros Hm. by apply (ti_owner _ _ _ _ I) in Hm.
  - intros u Hu%(ti_owner _ _ _ _ I). set_solver.
  - intros u [->%elem_of_singleton|Hu]%elem_of_union; [done|]. by apply (ti_obj _ _ _ _ I).
  - split; [apply I|]. intros u q [[-> ->]|[_ Hq]]%Hcase; [done|]. by apply (proj2 (ti_fill _ _ _ _ I) u).
  - split; [apply I|]. intros u [[_ ?]|[_ Hq]]%Hcase; [done|]. by apply (proj2 (ti_later _ _ _ _ I) u).
Qed.

Lemma spawn_work s t : thr s !! t = None -> work (at_pc t (Top Fill) s) = (2 + work s)%nat.
Proof.
  intros Ht. unfold work, ranks. cbn [thr fill_cnt later_cnt at_pc].
  rewrite map_fold_insert_L by (done || intros; lia). cbn [rank]. lia.
Qed.

Definition all_exited s : Prop := forall t p, thr s !! t = Some p -> p = Exited.

(** Once no thread is on the device, other calls may use it. *)

Lemma replace_dev_inv ts s m w :
  test_inv obj ts s m -> all_exited s -> represents (st w) m ->
  (forall a n, writable (user (dev s)) a n -> writable (user w) a n) ->
  test_inv obj ts (with_dev w s) m.
Proof.
  intros I He Hr Hw. split; try apply I; [done|..].
  - intros t p Hp. by rewrite (He t p Hp).
  - intros t Ht. by apply Hw, (ti_obj _ _ _ _ I).
Qed.

(** What a step of one thread does to the threads. *)

Definition one_moves (t : Z) s s' : Prop :=
  stores_at (obj t) (user (dev s)) (user (dev s')) /\ works t s s' /\ thr s !! t <> Some Exited.

Lemma exec_moves t r1 r2 r3 s s' : thread_exec obj t r1 r2 r3 s = Ok tt s' -> one_moves t s s'.
Proof.
  intros E. split_and!; [by eapply thread_stores|by eapply thread_works|].
  intros He. unfold thread_exec in E. by rewrite (bind_ok _ _ _ _ _ (gets_ok _ _)), He in E.
Qed.

Lemma refused_moves t l a s : thr s !! t = Some (Calling l a) -> one_moves t s (at_pc t (Leave l) s).
Proof.
  intros Ht. split_and!; [by left|eexists _, _; split_and!; [done..|]|congruence].
  cbn [fill_cnt later_cnt at_pc]. destruct l; cbn [rank]; lia.
Qed.

Lemma one_moves_work t s s' : one_moves t s s' -> (work s' < work s)%nat.
Proof.
  intros (_ & (p & p' & Hp & E & Hw) & _). unfold work. rewrite E. pose proof (ranks_insert _ _ _ p' Hp). lia.
Qed.

Lemma one_moves_exited t s s' u : one_moves t s s' -> thr s !! u = Some Exited -> thr s' !! u = Some Exited.
Proof.
  intros (_ & (p & p' & Hp & E & _) & Hne) Hu. rewrite E, lookup_insert_ne; [done|]. congruence.
Qed.
End threads.
