(* ===== verification/Ht530MainSpec.v ===== *)
(** * The hash table's test program prints the table

    The invariant ties the threads that exist so far to where [main] is; what
    is left to do shrinks with every step. *)

From S2P Require Import Prelude Kernel UserMemory Ht530 Ht530Proofs Ht530Spec Ht530Dump Ht530Load.
From S2P Require Import Ht530Test Ht530TestSpec Ht530Main Ht530MainFrame.

(** The threads 0 .. i-1, and how many there are when [main] is at [q]. *)

Definition created (i : Z) : gset Z := list_to_set (seqZ 0 i).

Definition created_at (q : mpc) : Z :=
  match q with Open => 0 | Create i | Failed i => i | _ => ThreadNum end.

Lemma elem_of_created i t : t ∈ created i <-> 0 <= t < i.
Proof. unfold created. rewrite elem_of_list_to_set, elem_of_seqZ. lia. Qed.

Lemma created_succ i : 0 <= i -> created (i + 1) = {[i]} ∪ created i.
Proof. intros Hi. apply set_eq. intros t. rewrite elem_of_union, elem_of_singleton, !elem_of_created. lia. Qed.

(** What [main] has left to do, each thread it will create included. *)

Definition main_left (q : mpc) : nat :=
  match q with
  | Open => 222
  | Create i => 209 + 3 * Z.to_nat (ThreadNum - i)
  | Join i => 204 + Z.to_nat (ThreadNum - i)
  | Size => 203
  | Dump => 202
  | Print _ i => 1 + Z.to_nat (200 - i)
  | Done | Failed _ => 0
  end.

Section main.
Context {L U : Type} {KL : KList L} {KM : Kmalloc} {UM : UserMemory U} {HM : HashMin} {IC : IoctlCode}.
Context (obj : Z -> Z) (dump_set hash_cur_size : Z) (malloc : Z -> Z).

(** The program's variables and what [malloc] returns do not overlap. *)

Context (obj_apart : forall t u, t <> u -> obj t + 8 <= obj u \/ obj u + 8 <= obj t).
Context (size_apart : forall t, hash_cur_size + 8 <= obj t \/ obj t + 8 <= hash_cur_size).
Context (record_apart : forall n, 0 <= n <= 200 ->
  hash_cur_size + 8 <= malloc (8 * n) \/ malloc (8 * n) + 8 * n <= hash_cur_size).
Context (memory : forall d, is_Some (kmalloc d)).

Implicit Types (s : tester U L) (w : sys U (ht530 L)) (m : gmap Z Z) (p : process U L) (q : mpc) (u : U).

Definition room u : Prop :=
  (forall t, 0 <= t < ThreadNum -> writable u (obj t) 8) /\ writable u hash_cur_size 8 /\
  (forall n i, 0 <= i < n -> n <= 200 -> writable u (malloc (8 * n) + 8 * i) 8).

Definition size_is u (n : nat) : Prop :=
  exists bs, fetch u hash_cur_size 8 = (bs, 0) /\ get_u64 bs = Z.of_nat n.

(** The lines the program prints: the table, unless it could not be opened. *)

Definition pairs (fd : Z) m : list ht_object :=
  if fd <? 0 then [] else map (fun kd => {| key := kd.1; data := kd.2 |}) (map_to_list m).

Definition memory_of p : U := user (dev (threads p)).

Definition main_ok p m : Prop :=
  let exited := all_exited (threads p) in
  match at_main p with
  | Open => printed p = []
  | Create i => 0 <= i <= ThreadNum /\ printed p = [] /\ size_is (memory_of p) 0
  | Join i =>
      0 <= i <= ThreadNum /\ printed p = [] /\ size_is (memory_of p) 0 /\
      forall j, 0 <= j < i -> thr (threads p) !! j = Some Exited
  | Size => printed p = [] /\ size_is (memory_of p) 0 /\ exited
  | Dump => printed p = [] /\ size_is (memory_of p) (length (pairs (dev_fd p) m)) /\ exited
  | Print rec i =>
      exited /\ exists os, os ≡ₚ pairs (dev_fd p) m /\ size_is (memory_of p) (length os) /\
        (forall j o, os !! j = Some o -> fetch (memory_of p) (rec + 8 * Z.of_nat j) 8 = (put_object o, 0)) /\
        0 <= i <= Z.of_nat (length os) /\ printed p = take (Z.to_nat i) os
  | Done => exited /\ printed p ≡ₚ pairs (dev_fd p) m
  | Failed i => 0 <= i < ThreadNum /\ printed p = []
  end.

Record process_inv p m : Prop := {
  pi_threads : test_inv obj (created (created_at (at_main p))) (threads p) m;
  pi_room : room (memory_of p);
  pi_main : main_ok p m
}.

Definition left p : nat := (work (threads p) + main_left (at_main p))%nat.

(** A step keeps the invariant and brings the end nearer, or it waits, where
    it may. *)

Definition proceeds (may_wait : Prop) p (o : outcome (process U L) unit) : Prop :=
  match o with
  | Ok _ p' => (exists m', process_inv p' m') /\ (left p' < left p)%nat
  | Crash _ _ => False
  | Blocked _ => may_wait
  end.

Definition main_waits p : Prop :=
  match at_main p with
  | Join i => 0 <= i < ThreadNum /\ thr (threads p) !! i <> Some Exited
  | Done | Failed _ => True
  | _ => False
  end.

Lemma room_stores a u u' : stores_at a u u' -> room u -> room u'.
Proof.
  intros Hs (H1 & H2 & H3). split_and!; intros; eapply stores_writable; eauto.
Qed.

Lemma room_kept u u' : (forall a n, writable u a n -> writable u' a n) -> room u -> room u'.
Proof. intros Hw (H1 & H2 & H3). split_and!; intros; apply Hw; auto. Qed.

Lemma size_stores t u u' n : stores_at (obj t) u u' -> size_is u n -> size_is u' n.
Proof.
  intros Hs (bs & Hf & Hb). exists bs. split; [|done]. rewrite <- Hf. eapply stores_fetch; [done|].
  pose proof (size_apart t). lia.
Qed.

Lemma length_pairs fd m : map_ok m -> (length (pairs fd m) <= 200)%nat.
Proof.
  intros Hm. unfold pairs. destruct (fd <? 0); [simpl; lia|]. rewrite length_map, length_map_to_list. by apply range_size.
Qed.

(** ** A thread's step *)

Lemma thread_keeps p m t s' m' :
  process_inv p m -> one_moves obj t (threads p) s' ->
  test_inv obj (created (created_at (at_main p))) s' m' ->
  proceeds True p (Ok tt (with_threads s' p)).
Proof.
  intros [I R P] Hmove I'. pose proof Hmove as (Hs & Hw & Hne).
  split; [exists m'|unfold left; cbn [threads at_main with_threads]; apply one_moves_work in Hmove; lia].
  assert (all_exited (threads p) -> False) as Hsome.
  { intros He. destruct Hw as (pc & _ & Hpc & _). rewrite (He _ _ Hpc) in Hpc. done. }
  split; [done|by eapply room_stores|]. unfold main_ok, memory_of in *. cbn [at_main threads with_threads printed].
  destruct (at_main p); try done.
  - destruct P as (Hi & Hp & Hsize). split; [done|split; [done|by eapply size_stores]].
  - destruct P as (Hi & Hp & Hsize & Hex). split; [done|split; [done|split; [by eapply size_stores|]]].
    intros j Hj. eapply one_moves_exited; [done|by apply Hex].
  - by destruct P as (_ & _ & ?).
  - by destruct P as (_ & _ & ?).
  - by destruct P.
  - by destruct P.
Qed.

Lemma on_threads_outcome {A} (f : M (tester U L) A) p :
  on_threads f p = match f (threads p) with
                   | Ok a s => Ok a (with_threads s p)
                   | Crash e s => Crash e (with_threads s p)
                   | Blocked s => Blocked (with_threads s p)
                   end.
Proof. done. Qed.

Lemma exec_proceeds p m t r1 r2 r3 :
  process_inv p m -> proceeds True p (on_threads (thread_exec obj t r1 r2 r3) p).
Proof.
  intros I. rewrite on_threads_outcome.
  pose proof (step_inv obj _ obj_apart memory _ _ t r1 r2 r3 (pi_threads _ _ I)) as G.
  destruct (thread_exec obj t r1 r2 r3 (threads p)) as [[] s'|e s'|s'] eqn:E; [|done..].
  destruct G as [m' I']. eapply thread_keeps; [done|by eapply exec_moves|done].
Qed.

Lemma thread_proceeds p m t r1 r2 r3 : process_inv p m -> proceeds True p (thread obj t r1 r2 r3 p).
Proof.
  intros I. unfold thread. rewrite (bind_ok _ _ _ _ _ (gets_ok _ _)), (bind_ok _ _ _ _ _ (gets_ok _ _)).
  destruct (thr (threads p) !! t) as [pc|] eqn:Ht; [|by eapply exec_proceeds].
  destruct pc; try (by eapply exec_proceeds). destruct (dev_fd p <? 0); [|by eapply exec_proceeds].
  pose proof (pi_threads _ _ I) as I'.
  destruct (goto_inv obj _ _ _ t _ (Leave l) I' Ht eq_refl Logic.I) as [m' I2]; [|done|].
  { intros Hl. apply (proj2 (ti_fill _ _ _ _ I') t _ Ht). by destruct l. }
  rewrite on_threads_outcome. cbn [goto modify]. eapply thread_keeps; [done|by eapply refused_moves|done].
Qed.

(** ** A step of [main] *)

Ltac main_left Hq := rewrite Hq; cbn [main_left at_main main_at]; unfold ThreadNum in *; lia.

Lemma device_ok {A} (f : M (sys U (ht530 L)) A) p a w :
  f (dev (threads p)) = Ok a w -> on_threads (on_dev f) p = Ok a (with_threads (with_dev w (threads p)) p).
Proof. intros H. rewrite on_threads_outcome. by rewrite (on_dev_ok _ _ _ _ H). Qed.

Lemma at_ok p q : at_main p = q -> gets at_main p = Ok q p.
Proof. by intros <-. Qed.

Lemma same_threads_proceeds b p m p' :
  process_inv p m -> threads p' = threads p -> created_at (at_main p') = created_at (at_main p) ->
  (main_left (at_main p') < main_left (at_main p))%nat -> main_ok p' m -> proceeds b p (Ok tt p').
Proof.
  intros [I R P] Ht Hc Hl Hok. split; [|unfold left; rewrite Ht; lia].
  exists m. split; [by rewrite Ht, Hc|by unfold memory_of; rewrite Ht|done].
Qed.

Lemma device_proceeds b p m w p' :
  process_inv p m -> all_exited (threads p) -> represents (st w) m ->
  (forall a n, writable (memory_of p) a n -> writable (user w) a n) ->
  threads p' = with_dev w (threads p) -> created_at (at_main p') = created_at (at_main p) ->
  (main_left (at_main p') < main_left (at_main p))%nat -> main_ok p' m -> proceeds b p (Ok tt p').
Proof.
  intros [I R P] He Hr Hw Ht Hc Hl Hok. split; [|unfold left, work; rewrite Ht; cbn; lia].
  exists m. split; [|by unfold memory_of; rewrite Ht; eapply room_kept|done].
  rewrite Ht, Hc. by apply replace_dev_inv.
Qed.

Lemma open_proceeds p m fd ret :
  process_inv p m -> at_main p = Open ->
  proceeds (main_waits p) p (main dump_set hash_cur_size malloc fd ret p).
Proof.
  intros I Hq. pose proof I as [T R P]. unfold main_ok in P. rewrite Hq in P, T.
  assert (all_exited (threads p)) as He.
  { intros t pc Hpc. assert (t ∈ created 0) as Ht%elem_of_created by (apply (ti_dom _ _ _ _ T); by eexists). lia. }
  unfold main. rewrite (bind_ok _ _ _ _ _ (at_ok _ _ Hq)), (bind_ok _ _ _ _ _ (modify_ok _ _)).
  set (p1 := with_dev_fd fd p).
  assert (exists w, when (negb (fd <? 0)) (on_threads (on_dev ht530_open) ;; mret tt) p1 =
      Ok tt (with_threads (with_dev w (threads p)) p1) /\ represents (st w) m /\ user w = memory_of p) as (w & Hw & Hr & Hu).
  { destruct (fd <? 0); cbn [when negb].
    - exists (dev (threads p)). split_and!; [by destruct p as [[] ? ? ?]|apply T|done].
    - eexists. split_and!; [by erewrite bind_ok by (apply device_ok; reflexivity)|apply represents_open, T|done]. }
  rewrite (bind_ok _ _ _ _ _ Hw). destruct R as (R1 & R2 & R3).
  assert (writable (user w) hash_cur_size 8) as Hc by by rewrite Hu.
  erewrite bind_ok by (apply device_ok, write_user_ok; exact Hc).
  cbn [jump modify].
  apply (device_proceeds _ p m (with_user (store (user w) hash_cur_size (put_u64 0)).1 w)); try done.
  - intros a n Ha. cbn [user with_user]. apply writable_store. by rewrite Hu.
  - by rewrite Hq.
  - main_left Hq.
  - split; [done|split; [done|]]. exists (put_u64 0). split; [|done].
    specialize (Hc (put_u64 0) eq_refl). unfold memory_of. cbn.
    destruct (store (user w) hash_cur_size _) as [u' r] eqn:Es. cbn in Hc. subst r.
    by apply (fetch_store _ _ _ _ (put_u64_bytes 0)) in Es.
Qed.

Lemma create_proceeds p m fd ret i :
  process_inv p m -> at_main p = Create i ->
  proceeds (main_waits p) p (main dump_set hash_cur_size malloc fd ret p).
Proof.
  intros I Hq. pose proof I as [T R P]. unfold main_ok in P. rewrite Hq in P, T. destruct P as (Hi & Hp & Hsize).
  unfold main. rewrite (bind_ok _ _ _ _ _ (at_ok _ _ Hq)). destruct (Z.leb_spec ThreadNum i).
  - assert (i = ThreadNum) as -> by lia. eapply same_threads_proceeds; [done..|by rewrite Hq|main_left Hq|].
    split; [done|split; [done|split; [done|intros; lia]]].
  - destruct (ret =? 0).
    + erewrite bind_ok by (rewrite on_threads_outcome; reflexivity). cbn [jump modify created_at] in *.
      assert (i ∉ created i) as Hni by (rewrite elem_of_created; lia).
      assert (thr (threads p) !! i = None) as Hnone.
      { apply eq_None_not_Some. by rewrite (ti_dom _ _ _ _ T). }
      pose proof R as (Hobj & _). specialize (Hobj i ltac:(lia)). split.
      * exists m. split; [|exact R|split; [cbn [at_main main_at]; lia|split; done]].
        cbn [at_main main_at created_at threads with_threads]. rewrite created_succ by lia. by apply spawn_inv.
      * unfold left. cbn [threads with_threads main_at at_main]. rewrite spawn_work, Hq by done.
        cbn [main_left]. lia.
    + eapply same_threads_proceeds; [done..|by rewrite Hq|main_left Hq|]. split; [lia|done].
Qed.

Lemma join_proceeds p m fd ret i :
  process_inv p m -> at_main p = Join i ->
  proceeds (main_waits p) p (main dump_set hash_cur_size malloc fd ret p).
Proof.
  intros I Hq. pose proof I as [T R P]. unfold main_ok in P. rewrite Hq in P, T. destruct P as (Hi & Hp & Hsize & Hex).
  unfold main. rewrite (bind_ok _ _ _ _ _ (at_ok _ _ Hq)). destruct (Z.leb_spec ThreadNum i).
  - eapply same_threads_proceeds; [done..|by rewrite Hq|main_left Hq|]. split; [done|split; [done|]].
    intros t pc Hpc. assert (t ∈ created ThreadNum) as Ht%elem_of_created by (apply (ti_dom _ _ _ _ T); by eexists).
    cbn [threads main_at] in Hpc. rewrite Hex in Hpc by lia. congruence.
  - rewrite (bind_ok _ _ _ _ _ (gets_ok _ _)). assert (thr (threads p) !! i = Some Exited \/ thr (threads p) !! i <> Some Exited) as [Ht|Ht].
    { destruct (thr (threads p) !! i) as [[]|]; by first [left; done | right; done]. }
    2: { assert (main_waits p) as Hwait by (unfold main_waits; rewrite Hq; split; [lia|done]).
      by destruct (thr (threads p) !! i) as [[]|]. }
    rewrite Ht.
    eapply same_threads_proceeds; [done..|by rewrite Hq|main_left Hq|].
    split; [cbn; lia|split; [done|split; [done|]]]. intros j Hj. cbn [threads main_at].
    destruct (decide (j = i)) as [->|]; [done|]. apply Hex. lia.
Qed.

Lemma ioctl_refused req1 req2 p : (dev_fd p <? 0) = true -> ioctl dump_set req1 req2 p = Ok tt p.
Proof. intros Hf. unfold ioctl. by rewrite (bind_ok _ _ _ _ _ (gets_ok _ _)), Hf. Qed.

Lemma ioctl_ok req1 req2 p r w :
  (dev_fd p <? 0) = false -> ht530_unlocked_ioctl dump_set req1 req2 (dev (threads p)) = Ok r w ->
  ioctl dump_set req1 req2 p = Ok tt (with_threads (with_dev w (threads p)) p).
Proof.
  intros Hf Hw. unfold ioctl. rewrite (bind_ok _ _ _ _ _ (gets_ok _ _)), Hf. cbn [when negb].
  by erewrite bind_ok by (apply device_ok; exact Hw).
Qed.

Lemma cur_size_var_ok p n : size_is (memory_of p) n -> cur_size_var hash_cur_size p = Ok (Z.of_nat n) p.
Proof.
  intros (bs & Hf & Hb). unfold cur_size_var.
  erewrite bind_ok by (apply device_ok, load_user_ok; exact Hf). rewrite Hb. by destruct p as [[] ? ? ?].
Qed.

Lemma pairs_refused p m : (dev_fd p <? 0) = true -> pairs (dev_fd p) m = [].
Proof. unfold pairs. by intros ->. Qed.

Lemma pairs_dumped p m :
  (dev_fd p <? 0) = false ->
  pairs (dev_fd p) m = map (fun kd => {| key := kd.1; data := kd.2 |}) (map_to_list m).
Proof. unfold pairs. by intros ->. Qed.

Lemma length_pairs_dumped p m : (dev_fd p <? 0) = false -> length (pairs (dev_fd p) m) = size m.
Proof. intros Hf. rewrite pairs_dumped by done. by rewrite length_map, length_map_to_list. Qed.

Lemma small_u64 z : 0 <= z <= 1600 -> u64 z = z.
Proof. intros Hz. apply wrap_small. lia. Qed.

Lemma size_proceeds p m fd ret :
  process_inv p m -> at_main p = Size ->
  proceeds (main_waits p) p (main dump_set hash_cur_size malloc fd ret p).
Proof.
  intros I Hq. pose proof I as [T R P]. unfold main_ok in P. rewrite Hq in P. destruct P as (Hp & Hsize & He).
  unfold main. rewrite (bind_ok _ _ _ _ _ (at_ok _ _ Hq)). destruct (dev_fd p <? 0) eqn:Hf.
  - rewrite (bind_ok _ _ _ _ _ (ioctl_refused _ _ _ Hf)).
    eapply same_threads_proceeds; [done..|by rewrite Hq|main_left Hq|].
    split; [done|split; [|done]]. cbn [dev_fd main_at]. by rewrite pairs_refused.
  - pose proof R as (_ & Hc & _).
    destruct (cur_size_stored (dev (threads p)) m dump_set hash_cur_size (ti_map _ _ _ _ T) Hc) as (u' & Hu & Hbs & Hw).
    rewrite (bind_ok _ _ _ _ _ (ioctl_ok _ _ _ _ _ Hf Hu)).
    eapply (device_proceeds _ p m (with_user u' (dev (threads p)))); try done; [apply T|by rewrite Hq|main_left Hq|].
    split; [done|split; [|done]]. cbn [dev_fd main_at with_threads]. rewrite length_pairs_dumped by done.
    pose proof (range_size m (ti_range _ _ _ _ T)). rewrite small_u64 in Hbs by lia. done.
Qed.

Lemma dump_proceeds p m fd ret :
  process_inv p m -> at_main p = Dump ->
  proceeds (main_waits p) p (main dump_set hash_cur_size malloc fd ret p).
Proof.
  intros I Hq. pose proof I as [T R P]. unfold main_ok in P. rewrite Hq in P. destruct P as (Hp & Hsize & He).
  pose proof (length_pairs (dev_fd p) m (ti_range _ _ _ _ T)) as Hlen.
  unfold main. rewrite (bind_ok _ _ _ _ _ (at_ok _ _ Hq)), (bind_ok _ _ _ _ _ (cur_size_var_ok _ _ Hsize)).
  cbn zeta. rewrite small_u64 by lia. destruct (dev_fd p <? 0) eqn:Hf.
  - rewrite (bind_ok _ _ _ _ _ (ioctl_refused _ _ _ Hf)).
    eapply same_threads_proceeds; [done..|by rewrite Hq|main_left Hq|].
    split; [done|]. cbn [dev_fd main_at]. rewrite pairs_refused in * by done. exists [].
    split; [done|split; [done|split; [done|split; [cbn; lia|done]]]].
  - rewrite length_pairs_dumped in * by done. set (rec := malloc _). pose proof R as (_ & _ & Hrec).
    destruct (dump_all_stored (dev (threads p)) m dump_set rec (ti_map _ _ _ _ T)) as (u' & os & Hu & D & Hperm).
    { intros i Hi. apply (Hrec (Z.of_nat (size m)) (Z.of_nat i)); lia. }
    rewrite (bind_ok _ _ _ _ _ (ioctl_ok _ _ _ _ _ Hf Hu)).
    eapply (device_proceeds _ p m (with_user u' (dev (threads p)))); try done; [apply T|apply D|by rewrite Hq|main_left Hq|].
    split; [done|]. exists os. cbn [dev_fd main_at with_threads]. rewrite pairs_dumped by done.
    assert (length os = size m) as Hos by by rewrite Hperm, length_map, length_map_to_list.
    split; [done|split; [|split; [apply D|split; [lia|done]]]]. rewrite Hos.
    destruct Hsize as (bs & Hbs & Hb). exists bs. split; [|done]. rewrite <- Hbs. apply (du_apart _ _ _ _ D).
    rewrite Hos. pose proof (record_apart (Z.of_nat (size m))). subst rec. lia.
Qed.

Lemma pairs_int fd m o : map_ok m -> o ∈ pairs fd m -> is_int (key o) /\ is_int (data o).
Proof.
  intros Hm. unfold pairs. destruct (fd <? 0); [by intros ?%elem_of_nil|].
  rewrite list_elem_of_In, in_map_iff. intros ([k d] & <- & Hkd%list_elem_of_In%elem_of_map_to_list).
  apply Hm in Hkd. unfold is_int. cbn. lia.
Qed.

Lemma print_proceeds p m fd ret rec i :
  process_inv p m -> at_main p = Print rec i ->
  proceeds (main_waits p) p (main dump_set hash_cur_size malloc fd ret p).
Proof.
  intros I Hq. pose proof I as [T R P]. unfold main_ok in P. rewrite Hq in P.
  destruct P as (He & os & Hos & Hsize & Hrec & Hi & Hp).
  pose proof (length_pairs (dev_fd p) m (ti_range _ _ _ _ T)) as Hlen. rewrite <- Hos in Hlen.
  unfold main. rewrite (bind_ok _ _ _ _ _ (at_ok _ _ Hq)), (bind_ok _ _ _ _ _ (cur_size_var_ok _ _ Hsize)).
  rewrite small_u64 by lia. destruct (Z.leb_spec (Z.of_nat (length os)) i).
  - eapply same_threads_proceeds; [done..|by rewrite Hq|main_left Hq|]. split; [done|].
    cbn [printed main_at dev_fd]. by rewrite Hp, take_ge by lia.
  - destruct (lookup_lt_is_Some_2 os (Z.to_nat i)) as [o Ho]; [lia|].
    pose proof (Hrec _ _ Ho) as Hfetch. rewrite Z2Nat.id in Hfetch by lia.
    erewrite bind_ok by (apply device_ok, load_user_ok; exact Hfetch).
    rewrite (bind_ok _ _ _ _ _ (modify_ok _ _)).
    replace (with_dev (dev (threads p)) (threads p)) with (threads p) by by destruct (threads p).
    assert (o ∈ pairs (dev_fd p) m) as Hin by (rewrite <- Hos; by eapply list_elem_of_lookup_2).
    destruct (pairs_int _ _ _ (ti_range _ _ _ _ T) Hin) as [Hk Hd].
    assert (get_object (put_object o) = o) as -> by (rewrite <- (app_nil_r (put_object o)); by apply get_put_object).
    rewrite s32_small by lia. eapply same_threads_proceeds; [done..|by rewrite Hq|main_left Hq|].
    split; [done|]. exists os. cbn [printed main_at printf_pair dev_fd with_threads]. split; [done|split; [done|split; [done|split; [lia|]]]].
    rewrite Hp. replace (Z.to_nat (i + 1)) with (S (Z.to_nat i)) by lia. by rewrite (take_S_r _ _ o).
Qed.

Lemma main_proceeds p m fd ret :
  process_inv p m -> proceeds (main_waits p) p (main dump_set hash_cur_size malloc fd ret p).
Proof.
  intros I. destruct (at_main p) as [|i|i| | |rec i| |i] eqn:Hq.
  - by eapply open_proceeds.
  - by eapply create_proceeds.
  - by eapply join_proceeds.
  - by eapply size_proceeds.
  - by eapply dump_proceeds.
  - by eapply print_proceeds.
  - unfold main. rewrite (bind_ok _ _ _ _ _ (at_ok _ _ Hq)). unfold proceeds, blocked, main_waits. by rewrite Hq.
  - unfold main. rewrite (bind_ok _ _ _ _ _ (at_ok _ _ Hq)). unfold proceeds, blocked, main_waits. by rewrite Hq.
Qed.

(** ** Every run *)

Lemma start_process_inv w m :
  represents (st w) m -> map_ok m -> room (user w) -> process_inv (process_start w) m.
Proof.
  intros Hr Hm R. split; [|done|done]. change (created (created_at (at_main (process_start w)))) with (∅ : gset Z).
  apply start_test_inv; [done..|]. intros t Ht. by apply elem_of_empty in Ht.
Qed.

Lemma runs_inv w m n p :
  represents (st w) m -> map_ok m -> room (user w) ->
  process_runs obj dump_set hash_cur_size malloc (process_start w) n p ->
  (exists m', process_inv p m') /\ (n + left p <= 1722)%nat.
Proof.
  intros Hr Hm R. induction 1 as [|n p p' _ [[m1 I] Hn] Hmove].
  - split; [exists m; by apply start_process_inv|]. unfold left, work, rounds, process_start, part1_execute.
    cbn [threads fill_cnt later_cnt thr at_main main_left]. rewrite ranks_start, size_empty. lia.
  - destruct Hmove as [fd ret E|t r1 r2 r3 E].
    + pose proof (main_proceeds p m1 fd ret I) as G. rewrite E in G. destruct G. split; [done|lia].
    + pose proof (thread_proceeds p m1 t r1 r2 r3 I) as G. rewrite E in G. destruct G. split; [done|lia].
Qed.

Lemma thread_can_move p t s' :
  thread_exec obj t 0 0 0 (threads p) = Ok tt s' -> exists p', thread obj t 0 0 0 p = Ok tt p'.
Proof.
  intros E. unfold thread. rewrite (bind_ok _ _ _ _ _ (gets_ok _ _)), (bind_ok _ _ _ _ _ (gets_ok _ _)).
  repeat case_match; rewrite on_threads_outcome; cbn [goto modify]; rewrite ?E; by eexists.
Qed.

Lemma some_move p m :
  process_inv p m -> at_main p <> Done -> (forall i, at_main p <> Failed i) ->
  exists p', moves obj dump_set hash_cur_size malloc p p'.
Proof.
  intros I Hd Hf. pose proof (main_proceeds p m 0 0 I) as G.
  destruct (main dump_set hash_cur_size malloc 0 0 p) as [[] p'| |] eqn:E; [exists p'; by eapply main_moves|done|].
  unfold proceeds, main_waits in G. destruct (at_main p) as [|i|i| | |rec i| |i] eqn:Hq; try done; [|by destruct (Hf i)].
  destruct G as [Hi Hne]. pose proof (pi_threads _ _ I) as T. rewrite Hq in T.
  assert (i ∈ created ThreadNum) as Hin by by apply elem_of_created.
  destruct (some_thread_runs obj _ obj_apart memory _ _ T) as [(t & s' & Es)|Hall].
  - intros Hempty. change (created ThreadNum = ∅) in Hempty. by rewrite Hempty in Hin.
  - destruct (thread_can_move p t s' Es) as [p' Hp']. exists p'. by eapply thread_moves.
  - apply (ti_dom _ _ _ _ T) in Hin as [pc Hpc]. by rewrite (Hall _ _ Hpc) in Hpc.
Qed.

Lemma done_counts p m t :
  process_inv p m -> all_exited (threads p) -> created_at (at_main p) = ThreadNum -> 0 <= t < ThreadNum ->
  thr (threads p) !! t = Some Exited /\ fill_cnt (threads p) = 200 /\ later_cnt (threads p) = 100.
Proof.
  intros [T _ _] He Hc Ht. rewrite Hc in T. apply elem_of_created, (ti_dom _ _ _ _ T) in Ht as [pc Hpc].
  rewrite (He _ _ Hpc) in Hpc. split_and!; [done|by apply (proj2 (ti_fill _ _ _ _ T) t _ Hpc)|by apply (proj2 (ti_later _ _ _ _ T) t)].
Qed.

(** C12: The whole test program, on a table of keys and data in 1..200, as long
    as kmalloc has memory for the nodes and the program's variables and its
    malloc block are writable memory, apart from one another: whatever the
    order of [main] and its threads, the random numbers, and what open and
    pthread_create return, no step crashes, a run has at most 1722 steps,
    and some step can be taken until [main] is done or pthread_create has
    failed.  When [main] is done every thread has returned, the counters of
    the two loops stand at 200 writes and 100 random calls (which are all
    refused when the device could not be opened), and the lines printed are
    the table, each pair once (none when the device could not be opened). *)

Theorem test_program_prints_table w m n p :
  represents (st w) m -> map_ok m -> room (user w) ->
  process_runs obj dump_set hash_cur_size malloc (process_start w) n p ->
  (n <= 1722)%nat /\
  (forall fd ret e p', main dump_set hash_cur_size malloc fd ret p <> Crash e p') /\
  (forall t r1 r2 r3 e p', thread obj t r1 r2 r3 p <> Crash e p') /\
  match at_main p with
  | Done =>
      (forall t, 0 <= t < ThreadNum -> thr (threads p) !! t = Some Exited) /\
      fill_cnt (threads p) = 200 /\ later_cnt (threads p) = 100 /\
      exists m', represents (st (dev (threads p))) m' /\ map_ok m' /\ printed p ≡ₚ pairs (dev_fd p) m'
  | Failed i => 0 <= i < ThreadNum /\ printed p = []
  | _ => exists p', moves obj dump_set hash_cur_size malloc p p'
  end.
Proof.
  intros Hr Hm R H. destruct (runs_inv _ _ _ _ Hr Hm R H) as [[m' I] Hn]. split_and!; [lia|..].
  - intros fd ret e p' E. pose proof (main_proceeds p m' fd ret I) as G. by rewrite E in G.
  - intros t r1 r2 r3 e p' E. pose proof (thread_proceeds p m' t r1 r2 r3 I) as G. by rewrite E in G.
  - pose proof (some_move p m' I) as Hsome. pose proof (pi_main _ _ I) as Hok. unfold main_ok in Hok.
    destruct (at_main p) as [|i|i| | |rec i| |i] eqn:Hq; try (by apply Hsome); [|done].
    destruct Hok as [He Hp]. assert (created_at (at_main p) = ThreadNum) as Hc by by rewrite Hq.
    split_and!.
    + intros t Ht. by apply (done_counts p m' t I He Hc Ht).
    + by apply (done_counts p m' 0 I He Hc ltac:(done)).
    + by apply (done_counts p m' 0 I He Hc ltac:(done)).
    + pose proof (pi_threads _ _ I) as T. exists m'. split_and!; [apply T|apply T|done].
Qed.
End main.
