(* ===== verification/Ht530MainWitness.v ===== *)
(** * The hash table's test program: a run to the end

    The four threads take turns from the moment they are created, another one
    moving for a thread that waits; [main] moves whenever it can.  [rand] counts
    the steps. *)

From S2P Require Import Prelude Kernel UserMemory Ht530 Ht530Proofs Ht530Load Ht530Test Ht530TestSpec.
From S2P Require Import Ht530Main Ht530MainSpec.

#[local] Existing Instance mod_hash.

(** Four variables with [hash_cur_size] between the first two, then the
    block that [malloc] returns. *)

Definition variable_of (t : Z) : Z := 4096 + 16 * t.

Definition size_variable : Z := 4104.

Definition heap_block (n : Z) : Z := 4160.

Definition new_table : sys (gmap Z Z) (ht530 (list loc)) :=
  {| st := ht530_static; requests := []; user := mapped 4096 1664 |}.

Abbreviation test_process := (process (gmap Z Z) (list loc)).

Abbreviation test_steps := (process_runs variable_of 0 size_variable heap_block).

Abbreviation test_move := (moves variable_of 0 size_variable heap_block).

(** The first of the steps that does not wait. *)

Definition first_main_step (p : test_process) : option test_process :=
  match main 0 size_variable heap_block 3 0 p with Ok _ p' => Some p' | _ => None end.

Fixpoint first_thread_step (ts : list Z) (r : Z) (p : test_process) : option test_process :=
  match ts with
  | [] => None
  | t :: ts =>
      match thread variable_of t r (r + 1) (r / 3) p with Ok _ p' => Some p' | _ => first_thread_step ts r p end
  end.

Definition next_step (r : Z) (p : test_process) : option test_process :=
  match first_main_step p with
  | Some p' => Some p'
  | None => first_thread_step [r mod 4; (r + 1) mod 4; (r + 2) mod 4; (r + 3) mod 4] r p
  end.

Fixpoint run_test (k : nat) (r : Z) (p : test_process) : nat * test_process :=
  match k with
  | O => (O, p)
  | S k =>
      match next_step r p with
      | Some p' => let x := run_test k (r + 1) p' in (S x.1, x.2)
      | None => (O, p)
      end
  end.

Lemma next_step_moves r p p' : next_step r p = Some p' -> test_move p p'.
Proof.
  unfold next_step, first_main_step. destruct (main 0 size_variable heap_block 3 0 p) as [[] q|e q|q] eqn:E.
  1: by intros [= <-]; eapply main_moves.
  all: generalize [r mod 4; (r + 1) mod 4; (r + 2) mod 4; (r + 3) mod 4]; intros ts; induction ts as [|t ts IH]; [done|];
    cbn [first_thread_step]; destruct (thread variable_of t r (r + 1) (r / 3) p) as [[] q'| |] eqn:E'; try done;
    intros [= <-]; by eapply thread_moves.
Qed.

Lemma run_test_runs p0 k r n p :
  test_steps p0 n p -> test_steps p0 ((run_test k r p).1 + n) (run_test k r p).2.
Proof.
  revert r n p. induction k as [|k IH]; intros r n p H; [done|]. cbn [run_test].
  destruct (next_step r p) as [p'|] eqn:E; [|done]. cbn [fst snd].
  replace (S (run_test k (r + 1) p').1 + n)%nat with ((run_test k (r + 1) p').1 + S n)%nat by lia.
  apply IH. eapply runs_step; [done|by eapply next_step_moves].
Qed.

Definition is_done (p : test_process) : bool :=
  match at_main p with Done => negb (dev_fd p <? 0) && (0 <? length (printed p))%nat | _ => false end.

Lemma room_at a n : 4096 <= a -> a + Z.of_nat n <= 5760 -> writable (mapped 4096 1664) a n.
Proof.
  intros Ha Hn. apply writable_map.
  - intros i Hi. replace (a + i) with (4096 + (a - 4096 + i)) by lia. apply mapped_is_Some. lia.
  - unfold map_access_ok, user_top. apply andb_true_iff. split; [apply Z.leb_le|apply Z.ltb_lt]; lia.
Qed.

Lemma new_table_room : room variable_of size_variable heap_block (user new_table).
Proof.
  unfold room, variable_of, size_variable, heap_block, ThreadNum. cbn [user new_table].
  split_and!; intros; apply room_at; lia.
Qed.

Lemma test_program_prints_table_witness : exists n p,
  test_steps (process_start new_table) n p /\ (n <= 1722)%nat /\ at_main p = Done /\
  later_cnt (threads p) = 100 /\ printed p <> [] /\
  exists m, represents (st (dev (threads p))) m /\
    printed p ≡ₚ map (fun kd => {| key := kd.1; data := kd.2 |}) (map_to_list m).
Proof.
  pose proof (run_test_runs (process_start new_table) 1800 0 0 (process_start new_table) (runs_refl _ _ _ _ _)) as H.
  assert (is_done (run_test 1800 0 (process_start new_table)).2 = true) as Hd by (vm_compute; reflexivity).
  generalize dependent (run_test 1800 0 (process_start new_table)). intros [n p] H Hd. cbn [fst snd] in *.
  destruct (test_program_prints_table variable_of 0 size_variable heap_block
    ltac:(unfold variable_of; lia) ltac:(unfold variable_of, size_variable; lia)
    ltac:(unfold size_variable, heap_block; lia) ltac:(by eexists) new_table ∅ (n + 0) p) as (Hn & _ & _ & G).
  - apply static_represents.
  - intros k d Hk. by rewrite lookup_empty in Hk.
  - apply new_table_room.
  - exact H.
  - exists (n + 0)%nat, p. unfold is_done in Hd. destruct (at_main p); try discriminate Hd.
    apply andb_true_iff in Hd as [Hf Hl]. destruct G as (_ & _ & Hlater & m & Hm & _ & Hp).
    unfold pairs in Hp. destruct (dev_fd p <? 0); [discriminate Hf|].
    split; [exact H|]. split; [exact Hn|]. split; [reflexivity|]. split; [exact Hlater|].
    split; [intros E; rewrite E in Hl; discriminate Hl|]. exists m. exact (conj Hm Hp).
Defined.
