(* ===== verification/Text.v ===== *)
(** * Decimal text: what [sscanf(buf, "%d", &x)] and [snprintf(buf, 10,
    "%d\n", x)] of the kernel do

    Text is a list of character codes.  The kernel's "%d" skips white space,
    takes an optional minus sign, needs a digit, reads digits and stores the
    value reduced to an [int]; the count it returns is 0 or 1.  [snprintf]
    writes at most 9 characters and the terminating NUL, and returns the length
    the whole text would have had. *)

From S2P Require Import Prelude.

Definition NEWLINE : Z := 10.

Definition MINUS : Z := 45.

Definition is_space (c : Z) : bool := (c =? 32) || ((9 <=? c) && (c <=? 13)).

Definition is_digit (c : Z) : bool := (48 <=? c) && (c <=? 57).

Fixpoint skip_spaces (s : list Z) : list Z :=
  match s with
  | c :: s' => if is_space c then skip_spaces s' else s
  | [] => []
  end.

Fixpoint scan_digits (acc : Z) (s : list Z) : Z :=
  match s with
  | c :: s' => if is_digit c then scan_digits (10 * acc + (c - 48)) s' else acc
  | [] => acc
  end.

Definition scan_nat (s : list Z) : option Z :=
  match s with
  | c :: _ => if is_digit c then Some (scan_digits 0 s) else None
  | [] => None
  end.

(** [None]: [sscanf] returned 0 and stored nothing. *)

Definition scan_int (s : list Z) : option Z :=
  match skip_spaces s with
  | c :: s' =>
      if c =? MINUS then option_map (fun n => s32 (- n)) (scan_nat s') else option_map s32 (scan_nat (c :: s'))
  | [] => None
  end.

(** Twenty digits are enough for every [int]. *)

Fixpoint print_nat (fuel : nat) (n : Z) : list Z :=
  match fuel with
  | O => []
  | S fuel => if n <? 10 then [48 + n] else print_nat fuel (n / 10) ++ [48 + n mod 10]
  end.

Definition print_int (v : Z) : list Z :=
  if v <? 0 then MINUS :: print_nat 20 (- v) else print_nat 20 v.

Definition snprintf10 (v : Z) : Z * list Z :=
  let text := print_int v ++ [NEWLINE] in
  (Z.of_nat (length text), take 9 text).

(** ** What is printed is scanned back *)

Definition digit_value (acc c : Z) : Z := 10 * acc + (c - 48).

Lemma scan_digits_app acc s t :
  Forall (fun c => is_digit c = true) s -> scan_digits acc (s ++ t) = scan_digits (foldl digit_value acc s) t.
Proof.
  revert acc. induction s as [|c s IH]; intros acc Hs; [done|]. apply Forall_cons in Hs as [Hc Hs].
  cbn [app scan_digits foldl]. rewrite Hc. by apply IH.
Qed.

Lemma is_digit_range c : is_digit c = true <-> 48 <= c <= 57.
Proof. unfold is_digit. rewrite andb_true_iff, !Z.leb_le. lia. Qed.

Lemma print_nat_digits fuel n : 0 <= n -> Forall (fun c => is_digit c = true) (print_nat fuel n).
Proof.
  revert n. induction fuel as [|fuel IH]; intros n Hn; cbn [print_nat]; [constructor|].
  destruct (Z.ltb_spec n 10).
  - constructor; [|constructor]. apply is_digit_range. lia.
  - apply Forall_app. split; [apply IH, Z.div_pos; lia|]. constructor; [|constructor].
    apply is_digit_range. pose proof (Z.mod_pos_bound n 10). lia.
Qed.

Lemma print_nat_nonempty fuel n : (0 < fuel)%nat -> exists c s, print_nat fuel n = c :: s.
Proof.
  intros Hf. destruct fuel as [|fuel]; [lia|]. cbn [print_nat]. destruct (n <? 10); [eauto|].
  destruct (print_nat fuel (n / 10)) as [|c s]; cbn [app]; eauto.
Qed.

Lemma print_nat_value fuel n acc : 0 <= n < 10 ^ Z.of_nat fuel ->
  foldl digit_value acc (print_nat fuel n) = acc * 10 ^ Z.of_nat (length (print_nat fuel n)) + n.
Proof.
  revert n acc. induction fuel as [|fuel IH]; intros n acc Hn; cbn [print_nat].
  - cbn in *. lia.
  - destruct (Z.ltb_spec n 10).
    + cbn. unfold digit_value. lia.
    + rewrite foldl_app, IH, length_app; [|split; [apply Z.div_pos; lia|]].
      * cbn [foldl length]. unfold digit_value. rewrite Nat2Z.inj_add, Z.pow_add_r by lia.
        pose proof (Z.div_mod n 10). change (10 ^ Z.of_nat 1) with 10. lia.
      * apply Z.div_lt_upper_bound; [lia|]. rewrite <- Z.pow_succ_r by lia. replace (Z.succ (Z.of_nat fuel)) with (Z.of_nat (S fuel)) by lia. lia.
Qed.

Lemma scan_print_nat n t : 0 <= n < 10 ^ 20 ->
  (forall c t', t = c :: t' -> is_digit c = false) -> scan_nat (print_nat 20 n ++ t) = Some n.
Proof.
  intros Hn Ht. unfold scan_nat. destruct (print_nat_nonempty 20 n ltac:(lia)) as (c & s & E).
  pose proof (print_nat_digits 20 n ltac:(lia)) as Hd.
  assert (is_digit c = true) as Hc by (rewrite E in Hd; by apply Forall_cons in Hd as [? _]).
  rewrite E. cbn [app]. rewrite Hc. f_equal. change (c :: s ++ t) with ((c :: s) ++ t). rewrite <- E.
  rewrite scan_digits_app, print_nat_value by done.
  destruct t as [|d t]; cbn [scan_digits]; [lia|]. rewrite (Ht d t eq_refl). lia.
Qed.

Lemma digit_not_space c : is_digit c = true -> is_space c = false /\ (c =? MINUS) = false.
Proof.
  rewrite is_digit_range. intros Hc. unfold is_space, MINUS. split.
  - rewrite orb_false_iff, andb_false_iff, Z.eqb_neq, !Z.leb_gt. lia.
  - apply Z.eqb_neq. lia.
Qed.

Lemma scan_print_int v t : - 2 ^ 31 <= v < 2 ^ 31 ->
  (forall c t', t = c :: t' -> is_digit c = false) -> scan_int (print_int v ++ t) = Some v.
Proof.
  intros Hv Ht. unfold print_int. destruct (Z.ltb_spec v 0).
  - cbn [app scan_int]. unfold scan_int. cbn [skip_spaces]. change (is_space MINUS) with false. cbn iota.
    rewrite Z.eqb_refl, scan_print_nat by (done || lia). cbn [option_map]. rewrite s32_small by lia. f_equal. lia.
  - pose proof (scan_print_nat v t ltac:(lia) Ht) as Hs.
    pose proof (print_nat_digits 20 v ltac:(lia)) as Hd. destruct (print_nat_nonempty 20 v ltac:(lia)) as (c & s & E).
    rewrite E in *. apply Forall_cons in Hd as [Hc _]. destruct (digit_not_space c Hc) as [H1 H2].
    unfold scan_int. cbn [app skip_spaces] in *. rewrite H1, H2, Hs. cbn [option_map]. by rewrite s32_small by lia.
Qed.

(** Nine characters are enough. *)

Lemma snprintf10_scan v : - 2 ^ 31 <= v < 2 ^ 31 -> (length (print_int v) <= 9)%nat ->
  scan_int (snprintf10 v).2 = Some v.
Proof.
  intros Hv Hl. unfold snprintf10. cbn [snd]. rewrite take_app.
  rewrite take_ge by lia. apply scan_print_int; [done|].
  intros c t Ht. destruct (9 - length (print_int v))%nat as [|n]; [done|]. cbn in Ht. injection Ht as <- _. done.
Qed.

(** The last digit of a ten-digit value is lost. *)

Lemma print_nat_step n : 10 <= n -> print_nat 20 n = print_nat 19 (n / 10) ++ [48 + n mod 10].
Proof. intros Hn. cbn [print_nat]. by rewrite (proj2 (Z.ltb_ge _ _)). Qed.

Lemma print_nat_fuel f g n : 0 <= n < 10 ^ Z.of_nat f -> (f <= g)%nat -> (0 < f)%nat -> print_nat g n = print_nat f n.
Proof.
  revert g n. induction f as [|f IH]; intros g n Hn Hg Hf; [lia|]. destruct g as [|g]; [lia|]. cbn [print_nat].
  destruct (Z.ltb_spec n 10); [done|]. destruct f as [|f']; [cbn in Hn; lia|].
  f_equal. apply IH; [|lia..]. split; [apply Z.div_pos; lia|]. apply Z.div_lt_upper_bound; [lia|].
  rewrite <- Z.pow_succ_r by lia. replace (Z.succ (Z.of_nat (S f'))) with (Z.of_nat (S (S f'))) by lia. lia.
Qed.

Lemma print_nat_length f n : 10 ^ Z.of_nat f <= n < 10 ^ Z.of_nat (S f) -> length (print_nat (S f) n) = S f.
Proof.
  revert n. induction f as [|f IH]; intros n Hn; cbn [print_nat].
  - cbn in Hn. by rewrite (proj2 (Z.ltb_lt _ _)) by lia.
  - replace (Z.of_nat (S f)) with (Z.succ (Z.of_nat f)) in Hn by lia.
    replace (Z.of_nat (S (S f))) with (Z.succ (Z.of_nat (S f))) in Hn by lia. rewrite !Z.pow_succ_r in Hn by lia.
    assert (0 < 10 ^ Z.of_nat f) by (apply Z.pow_pos_nonneg; lia).
    rewrite (proj2 (Z.ltb_ge _ _)) by lia. rewrite length_app. cbn [length].
    pose proof (IH (n / 10)) as IH'. cbn [print_nat] in IH'. rewrite IH'; [lia|].
    split; [apply Z.div_le_lower_bound; lia|]. apply Z.div_lt_upper_bound; lia.
Qed.

Lemma snprintf10_truncates v : 10 ^ 9 <= v < 2 ^ 31 -> scan_int (snprintf10 v).2 = Some (v / 10).
Proof.
  intros Hv. unfold snprintf10. cbn [snd]. unfold print_int. rewrite (proj2 (Z.ltb_ge _ _)) by lia.
  rewrite print_nat_step by lia. assert (10 ^ 8 <= v / 10 < 10 ^ 9) as Hd.
  { split; [apply Z.div_le_lower_bound|apply Z.div_lt_upper_bound]; lia. }
  rewrite (print_nat_fuel 9 19) by (lia || done). rewrite <- app_assoc.
  pose proof (print_nat_length 8 (v / 10) Hd) as Hl. rewrite take_app, take_ge, Hl by (rewrite Hl; lia). cbn [Nat.sub take].
  rewrite <- (print_nat_fuel 9 20) by (lia || done).
  assert (print_nat 20 (v / 10) = print_int (v / 10)) as ->.
  { unfold print_int. by rewrite (proj2 (Z.ltb_ge _ _)) by lia. }
  by apply scan_print_int; [lia|].
Qed.
