(* ===== verification/Mprobe.v ===== *)
(** * The mprobe driver: a kprobe at a requested line, its hits in a ring

    [write] installs the probe the process asks for, every hit of it records
    a local and a global variable in a ring of ten results, [read] returns the
    results so far.
    Source: 01_mprobe_debugger_and_generanl_driver_module/mprobe/mprobe.c,
    mprobe_kernel.h, mprobe_common.h (built for a 64-bit kernel). *)

From S2P Require Import Prelude Kernel UserMemory.

Definition RING_SIZE : Z := 10.

Record module_sections := { bss : Z; text : Z }.

Record debug_request := {
  of_line : Z;
  of_local : Z;
  of_gbl : Z;
  sect : module_sections
}.

Record debug_result := {
  r_addr : Z;
  r_pid : Z;
  xtc : Z;
  g_var : Z;
  local_var : Z
}.

Definition sizeof_debug_request : nat := 32.

Definition sizeof_debug_result : nat := 32.

(** The two structures as bytes. *)

Definition get_u32 (bs : list Z) : Z := le_value (take 4 bs).

Definition get_request (bs : list Z) : debug_request :=
  {| of_line := get_u64 bs; of_local := get_u32 (drop 8 bs); of_gbl := get_u32 (drop 12 bs);
     sect := {| bss := get_u64 (drop 16 bs); text := get_u64 (drop 24 bs) |} |}.

Definition put_result (r : debug_result) : list Z :=
  put_u64 (r_addr r) ++ put_u64 (r_pid r) ++ put_u64 (xtc r) ++ put_int (g_var r) ++ put_int (local_var r).

Record ringbuffer := {
  idx : Z;
  req : debug_request;
  rst : list debug_result
}.

(** [symbol_name] points to a copy the driver allocated; the handlers are the
    four functions below or not set. *)

Record kprobe := {
  kp_addr : Z;
  symbol_name : option loc;
  handlers_set : bool
}.

(** Objects from [kmalloc] that nobody wrote are [None]. *)

Record mprobe := {
  kp : option loc;
  kprobes : gmap loc (option kprobe);
  names : gmap loc (list Z);
  rbf : ringbuffer;
  g_rbf_lock : bool
}.

(** What a trap brings: registers, the current process, the cycle counter. *)

Record hit := {
  h_ip : Z;
  h_sp : Z;
  h_bp : Z;
  h_pid : Z;
  h_cycles : Z
}.

Definition set_kp (k : option loc) (s : mprobe) : mprobe :=
  {| kp := k; kprobes := kprobes s; names := names s; rbf := rbf s; g_rbf_lock := g_rbf_lock s |}.

Definition set_kprobes (m : gmap loc (option kprobe)) (s : mprobe) : mprobe :=
  {| kp := kp s; kprobes := m; names := names s; rbf := rbf s; g_rbf_lock := g_rbf_lock s |}.

Definition set_names (m : gmap loc (list Z)) (s : mprobe) : mprobe :=
  {| kp := kp s; kprobes := kprobes s; names := m; rbf := rbf s; g_rbf_lock := g_rbf_lock s |}.

Definition set_rbf (r : ringbuffer) (s : mprobe) : mprobe :=
  {| kp := kp s; kprobes := kprobes s; names := names s; rbf := r; g_rbf_lock := g_rbf_lock s |}.

Definition set_rbf_lock (b : bool) (s : mprobe) : mprobe :=
  {| kp := kp s; kprobes := kprobes s; names := names s; rbf := rbf s; g_rbf_lock := b |}.

(** ** The driver's own [strlen] and [strcpy]

    A string is the bytes from its address to the end of its object; running
    out of them is [None]. *)

Fixpoint strlen (s : list Z) : option Z :=
  match s with
  | [] => None
  | c :: s => if c =? 0 then Some 0 else option_map Z.succ (strlen s)
  end.

Fixpoint mprobe_strcpy (dst src : list Z) : option (list Z) :=
  match src, dst with
  | c :: src, _ :: dst =>
      if c =? 0 then Some (c :: dst) else option_map (cons c) (mprobe_strcpy dst src)
  | _, _ => None
  end.

Section mprobe.
Context {U : Type} {KM : Kmalloc} {UM : UserMemory U} {E : Environment}.

(** The [int] at a kernel address; [None] where nothing is mapped. *)

Context (mem : Z -> option Z).

Implicit Types (s : mprobe) (p : loc).

Definition lock_rbf : M (sys U mprobe) unit := spin_lock g_rbf_lock set_rbf_lock.

Definition unlock_rbf : M (sys U mprobe) unit := spin_unlock g_rbf_lock set_rbf_lock.

Definition modify_rbf (f : ringbuffer -> ringbuffer) : M (sys U mprobe) unit :=
  modify_st (fun s => set_rbf (f (rbf s)) s).

Definition load_kernel (a : Z) : M (sys U mprobe) Z := deref (fun _ => mem a) BadUserAccess.

(** ** The handlers *)

(** [drst = &rbf.rst[i]] and a store to one of its members. *)

Definition update_result (i : Z) (f : debug_result -> debug_result) : M (sys U mprobe) unit :=
  s ← get_st;
  match rst (rbf s) !! Z.to_nat i with
  | None => crash OutOfBounds
  | Some r => modify_rbf (fun b => {| idx := idx b; req := req b; rst := <[Z.to_nat i := f r]> (rst b) |})
  end.

Definition handler_pre (h : hit) : M (sys U mprobe) Z :=
  lock_rbf ;;
  s ← get_st;
  let local_addr := u64 (h_sp h + of_local (req (rbf s))) in
  let g_addr := u64 (bss (sect (req (rbf s))) + of_gbl (req (rbf s))) in
  let i := idx (rbf s) in
  modify_rbf (fun b => {| idx := u32 (idx b + 1); req := req b; rst := rst b |}) ;;
  modify_rbf (fun b => {| idx := idx b mod RING_SIZE; req := req b; rst := rst b |}) ;;
  update_result i (fun r => {| r_addr := h_ip h; r_pid := r_pid r; xtc := xtc r; g_var := g_var r; local_var := local_var r |}) ;;
  update_result i (fun r => {| r_addr := r_addr r; r_pid := h_pid h; xtc := xtc r; g_var := g_var r; local_var := local_var r |}) ;;
  update_result i (fun r => {| r_addr := r_addr r; r_pid := r_pid r; xtc := h_cycles h; g_var := g_var r; local_var := local_var r |}) ;;
  l ← load_kernel local_addr;
  update_result i (fun r => {| r_addr := r_addr r; r_pid := r_pid r; xtc := xtc r; g_var := g_var r; local_var := l |}) ;;
  g ← load_kernel g_addr;
  update_result i (fun r => {| r_addr := r_addr r; r_pid := r_pid r; xtc := xtc r; g_var := g; local_var := local_var r |}) ;;
  load_kernel (h_bp h) ;;                                     (* the printk of line 58 *)
  unlock_rbf ;;
  mret 0.

Definition handler_fault : M (sys U mprobe) Z := mret 0.

Definition handler_break : M (sys U mprobe) Z := mret 0.

Definition handler_post : M (sys U mprobe) unit := mret tt.

(** ** The probe *)

Definition destroy_kp : M (sys U mprobe) Z :=
  s ← get_st;
  match kp s with
  | None => mret (- EINVAL)
  | Some p =>
      o ← deref (fun w => kprobes (st w) !! p) UseAfterFree;
      match o with
      | None => crash UninitRead
      | Some k =>
          match symbol_name k with
          | None => mret tt
          | Some n => modify_st (fun s => set_names (delete n (names s)) s)
          end ;;
          modify_st (set_kp None) ;;
          mret 0
      end
  end.

(** A store to the structure; the pointer may be NULL. *)

Definition update_kprobe (kp : option loc) (f : kprobe -> kprobe) : M (sys U mprobe) unit :=
  match kp with
  | None => crash NullDeref
  | Some p =>
      o ← deref (fun w => kprobes (st w) !! p) UseAfterFree;
      modify_st (fun s => set_kprobes
        (<[p := Some (f (default {| kp_addr := 0; symbol_name := None; handlers_set := false |} o))]> (kprobes s)) s)
  end.

Definition allocated s : gset loc := dom (kprobes s) ∪ dom (names s).

(** [kmalloc(len + 1)] and the copy of a symbol name. *)

Definition copy_name (symbol : list Z) : M (sys U mprobe) loc :=
  len ← deref (fun _ => strlen symbol) OutOfBounds;
  n ← deref (fun w => kmalloc (allocated (st w))) NullDeref;
  name ← deref (fun _ => mprobe_strcpy (replicate (Z.to_nat (len + 1)) 0) symbol) OutOfBounds;
  modify_st (fun s => set_names (<[n := name]> (names s)) s) ;;
  mret n.

Definition init_kp (kp : option loc) (addr : Z) (symbol : option (list Z)) : M (sys U mprobe) Z :=
  if (addr =? 0) && bool_decide (symbol = None) then mret (- EINVAL) else
  update_kprobe kp (fun k => {| kp_addr := 0; symbol_name := symbol_name k; handlers_set := handlers_set k |}) ;;
  update_kprobe kp (fun k => {| kp_addr := kp_addr k; symbol_name := None; handlers_set := handlers_set k |}) ;;
  when (negb (addr =? 0))
    (update_kprobe kp (fun k => {| kp_addr := addr; symbol_name := symbol_name k; handlers_set := handlers_set k |})) ;;
  match symbol with
  | None => mret tt
  | Some name =>
      n ← copy_name name;
      update_kprobe kp (fun k => {| kp_addr := kp_addr k; symbol_name := Some n; handlers_set := handlers_set k |})
  end ;;
  update_kprobe kp (fun k => {| kp_addr := kp_addr k; symbol_name := symbol_name k; handlers_set := true |}) ;;
  mret 0.

(** [register_kprobe] reads the structure. *)

Definition register_kprobe (kp : option loc) : M (sys U mprobe) Z :=
  match kp with
  | None => crash NullDeref
  | Some p =>
      o ← deref (fun w => kprobes (st w) !! p) UseAfterFree;
      match o with
      | None => crash UninitRead
      | Some _ => kcall (Register_kprobe p)
      end
  end.

(** ** File operations *)

Definition mprobe_open : M (sys U mprobe) Z := mret 0.

Definition mprobe_release : M (sys U mprobe) Z := mret 0.

Definition mprobe_unlocked_ioctl : M (sys U mprobe) Z := mret 0.

(** The loop of lines 154-156: results before the first with no cycle count. *)

Fixpoint count_results (rs : list debug_result) : nat :=
  match rs with
  | [] => 0%nat
  | r :: rs => if xtc r =? 0 then 0%nat else S (count_results rs)
  end.

Definition mprobe_read (buf : Z) : M (sys U mprobe) Z :=
  lock_rbf ;;
  s ← get_st;
  match rst (rbf s) with
  | [] => crash OutOfBounds
  | r0 :: _ =>
      if xtc r0 =? 0 then
        unlock_rbf ;;
        mret (- EINVAL)
      else
        let i := count_results (rst (rbf s)) in
        unlock_rbf ;;
        failed_copy ← copy_to_user buf (concat (map put_result (take i (rst (rbf s)))));
        if failed_copy <? 0 then mret (- EINVAL) else
        mret (Z.of_nat (sizeof_debug_result * i))
  end.

(** [req->...] reads the process's memory directly. *)

Definition load_request (buf : Z) : M (sys U mprobe) debug_request :=
  bs ← load_user buf sizeof_debug_request; mret (get_request bs).

Definition line_address (r : debug_request) : Z := u64 (of_line r + text (sect r)).

(** Lines 174-178 and 180-181. *)

Definition drop_old_probe : M (sys U mprobe) unit :=
  s ← get_st;
  match kp s with
  | None => mret tt
  | Some p => kcall_ (Unregister_kprobe p) ;; destroy_kp ;; mret tt
  end.

Definition kmalloc_kprobe : M (sys U mprobe) (option loc) :=
  s ← get_st;
  let new := kmalloc (allocated s) in
  match new with
  | Some p => modify_st (fun s => set_kprobes (<[p := None]> (kprobes s)) s)
  | None => mret tt
  end ;;
  modify_st (set_kp new) ;;
  mret new.

Definition mprobe_write (buf : Z) : M (sys U mprobe) Z :=
  drop_old_probe ;;
  load_request buf ;;                                         (* the printk of line 179 *)
  new ← kmalloc_kprobe;
  r ← load_request buf;
  init_kp new (line_address r) None ;;
  lock_rbf ;;
  r ← load_request buf;
  modify_rbf (fun b => {| idx := idx b; req := r; rst := rst b |}) ;;
  unlock_rbf ;;
  register_kprobe new ;;
  mret 0.

(** ** Loading and unloading *)

Definition MODULE_NAME : string := "mprobe".

Definition mprobe_init : M (sys U mprobe) Z :=
  ret ← kcall (Alloc_chrdev_region MODULE_NAME);
  if ret <? 0 then mret (- EINVAL) else
  kcall_ (Class_create MODULE_NAME) ;;
  dev_ptr ← kcall (Kmalloc_of "mprobe_dev");
  if negb (dev_ptr =? 0) then crash NullDeref else            (* cdev_init(&dev_ptr->cdev) *)
  ret ← kcall (Cdev_add MODULE_NAME);
  if negb (ret =? 0) then mret ret else
  kcall_ (Device_create MODULE_NAME) ;;
  mret 0.

Definition mprobe_exit : M (sys U mprobe) unit :=
  s ← get_st;
  match kp s with
  | None => mret tt
  | Some p =>
      o ← deref (fun w => kprobes (st w) !! p) UseAfterFree;
      match o with
      | None => crash UninitRead
      | Some k =>
          when (negb (kp_addr k =? 0) || bool_decide (symbol_name k <> None))
            (kcall_ (Unregister_kprobe p) ;; destroy_kp ;; mret tt)
      end
  end ;;
  kcall_ (Unregister_chrdev_region MODULE_NAME) ;;
  kcall_ (Device_destroy MODULE_NAME) ;;
  kcall_ (Cdev_del MODULE_NAME) ;;
  kcall_ (Kfree_of "mprobe_dev") ;;
  kcall_ (Class_destroy MODULE_NAME).
End mprobe.

(** ** The test programs: what they print of a read that returned [ret]

    mprobe-test1.c and mprobe-test2.c, lines 69-71: [ret_val/sizeof(...)]
    items of the buffer. *)

Definition get_result (bs : list Z) : debug_result :=
  {| r_addr := get_u64 bs; r_pid := get_u64 (drop 8 bs); xtc := get_u64 (drop 16 bs);
     g_var := get_int (drop 24 bs); local_var := get_int (drop 28 bs) |}.

Definition printed_items (ret : Z) (items : list Z) : list debug_result :=
  map (fun i => get_result (drop (i * sizeof_debug_result) items))
    (seq 0 (Z.to_nat (ret / Z.of_nat sizeof_debug_request))).

Definition zero_result : debug_result := {| r_addr := 0; r_pid := 0; xtc := 0; g_var := 0; local_var := 0 |}.

Definition zero_request : debug_request :=
  {| of_line := 0; of_local := 0; of_gbl := 0; sect := {| bss := 0; text := 0 |} |}.

(** Static storage when the module is loaded. *)

Definition mprobe_static : mprobe :=
  {| kp := None; kprobes := ∅; names := ∅;
     rbf := {| idx := 0; req := zero_request; rst := replicate (Z.to_nat RING_SIZE) zero_result |};
     g_rbf_lock := false |}.
