(* ===== verification/MprobeProofs.v ===== *)
(** * The mprobe driver: the ring of hits and the calls, executed *)

From S2P Require Import Prelude Ring Kernel UserMemory Mprobe.

(** ** The ring as the last ten results *)

Definition results_ring : list debug_result -> list debug_result := ring (Z.to_nat RING_SIZE) zero_result.

Definition ring_holds (b : ringbuffer) (rs : list debug_result) : Prop :=
  idx b = Z.of_nat (length rs mod 10) /\ rst b = results_ring rs.

Lemma ring_length b rs : ring_holds b rs -> length (rst b) = 10%nat.
Proof. intros [_ ->]. apply length_ring. Qed.

(** Recording a result in slot [idx] and advancing [idx]. *)

Lemma record_result b rs r rq :
  ring_holds b rs ->
  ring_holds {| idx := (idx b + 1) mod RING_SIZE; req := rq; rst := <[Z.to_nat (idx b) := r]> (rst b) |} (rs ++ [r]).
Proof.
  intros [Hi Hr]. split; cbn [idx rst].
  - rewrite Hi, length_app, Nat.add_1_r, (mod_succ 10) by lia. change RING_SIZE with 10.
    pose proof (Nat.mod_upper_bound (length rs) 10 ltac:(lia)).
    destruct (decide _) as [E|E]; [replace (length rs mod 10)%nat with 9%nat by lia; done|].
    rewrite Z.mod_small; lia.
  - rewrite Hi, Hr, Nat2Z.id. apply (ring_step 10). lia.
Qed.

Lemma count_results_app rs n :
  Forall (fun r => xtc r <> 0) rs -> count_results (rs ++ replicate n zero_result) = length rs.
Proof.
  induction 1 as [|r rs Hr _ IH]; [by destruct n|]. cbn [count_results app length].
  rewrite (proj2 (Z.eqb_neq _ _) Hr). by rewrite IH.
Qed.

(** What [read] copies. *)

Lemma ring_read b rs :
  ring_holds b rs -> Forall (fun r => xtc r <> 0) rs ->
  let items := take (count_results (rst b)) (rst b) in
  items ≡ₚ drop (length rs - 10) rs /\ ((length rs <= 10)%nat -> items = rs) /\
  count_results (rst b) = length items.
Proof.
  intros Hb Hx. destruct (decide (length rs <= 10)%nat) as [Hl|Hl].
  - rewrite (proj2 Hb). unfold results_ring. rewrite ring_few, count_results_app, take_app_length by done.
    replace (length rs - 10)%nat with 0%nat by lia. done.
  - assert (Forall (fun r => xtc r <> 0) (rst b)) as Hf.
    { rewrite (proj2 Hb). unfold results_ring. rewrite ring_many by (change (Z.to_nat RING_SIZE) with 10%nat; lia). by apply Forall_drop. }
    pose proof (count_results_app (rst b) 0 Hf) as Hc. rewrite app_nil_r in Hc.
    rewrite Hc, take_ge by done. split; [rewrite (proj2 Hb); apply ring_many; change (Z.to_nat RING_SIZE) with 10%nat; lia|]. split; [lia|done].
Qed.

(** ** Strings *)

Definition c_string (s : list Z) : list Z := s ++ [0].

Lemma strlen_ok s rest : Forall (fun c => c <> 0) s -> strlen (c_string s ++ rest) = Some (Z.of_nat (length s)).
Proof.
  induction 1 as [|c s Hc _ IH]; [done|]. cbn [strlen c_string app]. rewrite (proj2 (Z.eqb_neq _ _) Hc).
  unfold c_string in IH. rewrite IH. simpl. f_equal. lia.
Qed.

Lemma strcpy_ok s rest dst :
  Forall (fun c => c <> 0) s -> (length s < length dst)%nat ->
  mprobe_strcpy dst (c_string s ++ rest) = Some (c_string s ++ drop (S (length s)) dst).
Proof.
  intros Hs. revert dst. induction Hs as [|c s Hc _ IH]; intros dst Hd; (destruct dst as [|d dst]; [simpl in Hd; lia|]).
  - done.
  - cbn [mprobe_strcpy c_string app]. rewrite (proj2 (Z.eqb_neq _ _) Hc). unfold c_string in IH.
    rewrite IH by (simpl in Hd; lia). done.
Qed.

(** A string with no terminator in its object is read past its end. *)

Lemma strlen_unterminated s : Forall (fun c => c <> 0) s -> strlen s = None.
Proof. induction 1 as [|c s Hc _ IH]; [done|]. cbn [strlen]. by rewrite (proj2 (Z.eqb_neq _ _) Hc), IH. Qed.

(** ** Encodings *)

Definition put_request (r : debug_request) : list Z :=
  put_u64 (of_line r) ++ le_bytes 4 (of_local r) ++ le_bytes 4 (of_gbl r) ++
  put_u64 (bss (sect r)) ++ put_u64 (text (sect r)).

Definition is_u64 (z : Z) : Prop := 0 <= z < 2 ^ 64.

Definition result_ok (r : debug_result) : Prop :=
  is_u64 (r_addr r) /\ is_u64 (r_pid r) /\ is_u64 (xtc r) /\
  - 2 ^ 31 <= g_var r < 2 ^ 31 /\ - 2 ^ 31 <= local_var r < 2 ^ 31.

Definition request_ok (r : debug_request) : Prop :=
  is_u64 (of_line r) /\ 0 <= of_local r < 2 ^ 32 /\ 0 <= of_gbl r < 2 ^ 32 /\
  is_u64 (bss (sect r)) /\ is_u64 (text (sect r)).

Lemma get_put_result r rest : result_ok r -> get_result (put_result r ++ rest) = r.
Proof.
  intros (H1 & H2 & H3 & H4 & H5). unfold get_result, put_result. rewrite <- !app_assoc.
  change (drop 16) with (fun l : list Z => drop (8 + 8) l). change (drop 24) with (fun l : list Z => drop (8 + (8 + 8)) l).
  change (drop 28) with (fun l : list Z => drop (8 + (8 + (8 + 4))) l). cbn beta.
  rewrite <- !drop_drop, !(drop_app_length' (put_u64 _)) by done.
  rewrite (drop_app_length' (put_int _)) by done.
  rewrite !get_put_u64, !get_put_int, !s32_small by done.
  rewrite !wrap_small by done. by destruct r.
Qed.

Lemma get_put_u32 z bs : get_u32 (le_bytes 4 z ++ bs) = u32 z.
Proof. unfold get_u32. rewrite take_app_length' by done. by rewrite le_value_bytes. Qed.

Lemma get_put_request r rest : request_ok r -> get_request (put_request r ++ rest) = r.
Proof.
  intros (H1 & H2 & H3 & H4 & H5). unfold get_request, put_request. rewrite <- !app_assoc.
  change (drop 12) with (fun l : list Z => drop (8 + 4) l). change (drop 16) with (fun l : list Z => drop (8 + (4 + 4)) l).
  change (drop 24) with (fun l : list Z => drop (8 + (4 + (4 + 8))) l). cbn beta.
  rewrite <- !drop_drop, !(drop_app_length' (put_u64 _)) by done.
  rewrite !(drop_app_length' (le_bytes 4 _)) by done.
  rewrite !(drop_app_length' (put_u64 _)) by done.
  rewrite !get_put_u64, !get_put_u32, !wrap_small by done. destruct r as [? ? ? []]. done.
Qed.

Lemma length_put_result r : length (put_result r) = sizeof_debug_result.
Proof. done. Qed.

Lemma drop_results rs i : drop (i * sizeof_debug_result) (concat (map put_result rs)) = concat (map put_result (drop i rs)).
Proof.
  revert i. induction rs as [|r rs IH]; intros i; [rewrite drop_nil; apply drop_nil|].
  destruct i as [|i]; [done|]. cbn [map concat drop]. rewrite <- IH.
  replace (S i * sizeof_debug_result)%nat with (length (put_result r) + i * sizeof_debug_result)%nat
    by (rewrite length_put_result; lia).
  by rewrite <- drop_drop, drop_app_length.
Qed.

(** The test programs print the results the bytes encode. *)

Lemma printed_items_ok rs :
  Forall result_ok rs ->
  printed_items (Z.of_nat (sizeof_debug_result * length rs)) (concat (map put_result rs)) = rs.
Proof.
  intros Hok. unfold printed_items.
  replace (Z.to_nat (Z.of_nat (sizeof_debug_result * length rs) / Z.of_nat sizeof_debug_request)) with (length rs).
  2: { rewrite Nat2Z.inj_mul, Z.mul_comm. change sizeof_debug_result with 32%nat. change sizeof_debug_request with 32%nat.
       rewrite Z.div_mul by lia. lia. }
  apply list_eq. intros i. rewrite list_lookup_fmap. destruct (rs !! i) as [r|] eqn:Hi.
  - rewrite lookup_seq_lt by (by eapply lookup_lt_Some). cbn [fmap option_fmap option_map Nat.add].
    rewrite drop_results. rewrite (drop_S _ _ _ Hi). cbn [map concat]. rewrite get_put_result; [done|].
    by eapply (Forall_lookup_1 _ _ _ _ Hok).
  - rewrite lookup_seq_ge; [done|]. by apply lookup_ge_None_1.
Qed.

Lemma concat_results_bytes rs : Forall (fun b => 0 <= b < 256) (concat (map put_result rs)).
Proof.
  induction rs as [|r rs IH]; [constructor|]. cbn [map concat]. unfold put_result.
  repeat (apply Forall_app_2); [apply put_u64_bytes..|apply put_int_bytes|apply put_int_bytes|done].
Qed.

Lemma length_concat_results rs : length (concat (map put_result rs)) = (sizeof_debug_result * length rs)%nat.
Proof.
  induction rs as [|r rs IH]; [done|]. cbn [map concat length].
  rewrite length_app, length_put_result, IH. lia.
Qed.
