(* ===== verification/MprobeSpec.v ===== *)
(** * The mprobe driver: what probing promises *)

From S2P Require Import Prelude Ring Kernel UserMemory Mprobe MprobeProofs.

Section mprobe.
Context {U : Type} {KM : Kmalloc} {UM : UserMemory U} {E : Environment}.
Implicit Types (s : mprobe) (p : loc) (w : sys U mprobe) (h : hit) (rs : list debug_result).

(** ** A hit *)

Definition slot (i : Z) w : option debug_result := rst (rbf (st w)) !! Z.to_nat i.

Definition put_slot (i : Z) (r : debug_result) w : sys U mprobe :=
  with_st (set_rbf {| idx := idx (rbf (st w)); req := req (rbf (st w));
                      rst := <[Z.to_nat i := r]> (rst (rbf (st w))) |} (st w)) w.

Lemma update_result_ok i f r w :
  slot i w = Some r -> update_result i f w = Ok tt (put_slot i (f r) w).
Proof. intros H. unfold update_result. erewrite bind_ok by reflexivity. unfold slot in H. by rewrite H. Qed.

Lemma slot_put_slot i r r' w : slot i w = Some r -> slot i (put_slot i r' w) = Some r'.
Proof. intros H%lookup_lt_Some. unfold slot, put_slot. cbn. by apply list_lookup_insert_eq. Qed.

Lemma put_slot_twice i r r' w : put_slot i r (put_slot i r' w) = put_slot i r w.
Proof. unfold put_slot, with_st, set_rbf. cbn. by rewrite list_insert_insert_eq. Qed.

Lemma update_twice {A} i f g r w (k : M (sys U mprobe) A) :
  slot i w = Some r ->
  (update_result i f ;; (update_result i g ;; k)) w = k (put_slot i (g (f r)) w).
Proof.
  intros H. rewrite (bind_ok _ _ _ _ _ (update_result_ok _ _ _ _ H)).
  rewrite (bind_ok _ _ _ _ _ (update_result_ok _ _ _ _ (slot_put_slot _ _ _ _ H))). by rewrite put_slot_twice.
Qed.

(** The addresses a hit reads, and the result it leaves. *)

Definition local_address (rq : debug_request) h : Z := u64 (h_sp h + of_local rq).

Definition global_address (rq : debug_request) : Z := u64 (bss (sect rq) + of_gbl rq).

Definition result_of h (l g : Z) : debug_result :=
  {| r_addr := h_ip h; r_pid := h_pid h; xtc := h_cycles h; g_var := g; local_var := l |}.

Definition after_hit (r : debug_result) s : mprobe :=
  set_rbf {| idx := (idx (rbf s) + 1) mod RING_SIZE; req := req (rbf s);
             rst := <[Z.to_nat (idx (rbf s)) := r]> (rst (rbf s)) |} s.

Lemma handler_pre_run (mem : Z -> option Z) h w l g fp r0 :
  g_rbf_lock (st w) = false -> 0 <= idx (rbf (st w)) < RING_SIZE ->
  slot (idx (rbf (st w))) w = Some r0 ->
  mem (local_address (req (rbf (st w))) h) = Some l -> mem (global_address (req (rbf (st w)))) = Some g ->
  mem (h_bp h) = Some fp ->
  handler_pre mem h w = Ok 0 (with_st (after_hit (result_of h l g) (st w)) w).
Proof.
  intros Hlk Hi Hs Hl Hg Hf. unfold handler_pre.
  rewrite (bind_ok _ _ _ _ _ (spin_lock_ok _ set_rbf_lock _ Hlk)). erewrite bind_ok by reflexivity. cbn zeta.
  cbn [st with_st set_rbf_lock rbf]. set (i := idx (rbf (st w))) in *.
  erewrite bind_ok by reflexivity. erewrite bind_ok by reflexivity.
  set (w1 := with_st _ (with_st _ _)).
  assert (slot i w1 = Some r0) as H1 by done.
  rewrite (bind_ok _ _ _ _ _ (update_result_ok _ _ _ _ H1)).
  rewrite (update_twice i _ _ _ _ _ (slot_put_slot _ _ _ _ H1)), put_slot_twice.
  erewrite bind_ok by (apply deref_ok, Hl).
  rewrite (bind_ok _ _ _ _ _ (update_result_ok _ _ _ _ (slot_put_slot _ _ _ _ H1))), put_slot_twice.
  erewrite bind_ok by (apply deref_ok, Hg).
  rewrite (bind_ok _ _ _ _ _ (update_result_ok _ _ _ _ (slot_put_slot _ _ _ _ H1))), put_slot_twice.
  erewrite bind_ok by (apply deref_ok, Hf).
  erewrite bind_ok by (by apply spin_unlock_ok). rewrite mret_ok. f_equal.
  unfold put_slot, w1, with_st, after_hit, set_rbf, set_rbf_lock, result_of. cbn.
  rewrite Hlk. change RING_SIZE with 10 in *. rewrite (wrap_small 32 (idx (rbf (st w)) + 1)); [done|].
  subst i. lia.
Qed.

(** ** The state between calls *)

(** What a loaded driver holds of the kernel beside its probe. *)

Definition loaded : list request :=
  [Device_create MODULE_NAME; Cdev_add MODULE_NAME; Kmalloc_of "mprobe_dev"; Class_create MODULE_NAME;
   Alloc_chrdev_region MODULE_NAME].

Definition probe_of s : list request :=
  match kp s with Some p => [Register_kprobe p] | None => [] end.

(** What [register_kprobe] answered: the last time, and every time.  The driver
    does not look. *)

Fixpoint last_accepted (l : trace) : bool :=
  match l with
  | [] => true
  | (Register_kprobe _, e) :: _ => e =? 0
  | _ :: l => last_accepted l
  end.

Fixpoint all_accepted (l : trace) : bool :=
  match l with
  | [] => true
  | (Register_kprobe _, e) :: l => (e =? 0) && all_accepted l
  | _ :: l => all_accepted l
  end.

Lemma all_last l : last_accepted l = false -> all_accepted l = false.
Proof. induction l as [|[[] e] l IH]; cbn; try done. by intros ->. Qed.

(** The probe that is installed. *)

Definition installed w : list request := if last_accepted (requests w) then probe_of (st w) else [].

Record mprobe_inv w rs (writes : nat) : Prop := {
  mi_lock : g_rbf_lock (st w) = false;
  mi_ring : ring_holds (rbf (st w)) rs;
  mi_names : names (st w) = ∅;
  mi_count : size (kprobes (st w)) = writes;
  mi_probe p : kp (st w) = Some p ->
    kprobes (st w) !! p = Some (Some {| kp_addr := line_address (req (rbf (st w))); symbol_name := None; handlers_set := true |})
    /\ line_address (req (rbf (st w))) <> 0;
  mi_held : held (requests w) = installed w ++ loaded;
  mi_clean : kp (st w) = None \/ last_accepted (requests w) = true -> clean (requests w) = all_accepted (requests w)
}.

Lemma inv_slot w rs n : mprobe_inv w rs n ->
  0 <= idx (rbf (st w)) < RING_SIZE /\ exists r0, slot (idx (rbf (st w))) w = Some r0.
Proof.
  intros I. pose proof (ring_length _ _ (mi_ring _ _ _ I)) as Hl. destruct (mi_ring _ _ _ I) as [Hi _].
  pose proof (Nat.mod_upper_bound (length rs) 10 ltac:(done)) as Hb. rewrite Hi.
  change RING_SIZE with 10. split; [lia|]. unfold slot. rewrite Nat2Z.id. apply lookup_lt_is_Some_2. lia.
Qed.

Lemma hit_keeps (mem : Z -> option Z) h w rs n l g fp :
  mprobe_inv w rs n ->
  mem (local_address (req (rbf (st w))) h) = Some l -> mem (global_address (req (rbf (st w)))) = Some g ->
  mem (h_bp h) = Some fp ->
  exists s, handler_pre mem h w = Ok 0 (with_st s w) /\ mprobe_inv (with_st s w) (rs ++ [result_of h l g]) n /\
    kp s = kp (st w) /\ req (rbf s) = req (rbf (st w)).
Proof.
  intros I Hl Hg Hf. destruct (inv_slot _ _ _ I) as [Hi [r0 Hr]].
  exists (after_hit (result_of h l g) (st w)).
  split; [by apply (handler_pre_run mem h w l g fp r0); try done; apply I|]. split; [|done].
  destruct I. constructor; try done. cbn [st with_st after_hit rbf set_rbf]. by apply record_result.
Qed.

(** ** [write] *)

Definition request_at (u : U) (buf : Z) : debug_request := get_request (fetch u buf sizeof_debug_request).1.

Lemma load_request_ok buf w bs : fetch (user w) buf sizeof_debug_request = (bs, 0) ->
  load_request buf w = Ok (request_at (user w) buf) w.
Proof.
  intros H. unfold load_request. rewrite (bind_ok _ _ _ _ _ (load_user_ok _ _ _ _ H)).
  unfold request_at. by rewrite H.
Qed.

Definition register_replies : Prop := forall t p, reply t (Register_kprobe p) = 0.

Lemma destroy_kp_ok w p k :
  kp (st w) = Some p -> kprobes (st w) !! p = Some (Some k) -> symbol_name k = None ->
  destroy_kp w = Ok 0 (with_st (set_kp None (st w)) w).
Proof.
  intros Hp Hk Hn. unfold destroy_kp. erewrite bind_ok by reflexivity. rewrite Hp.
  rewrite (bind_ok _ _ _ _ _ (deref_ok (fun w => kprobes (st w) !! p) UseAfterFree w _ Hk)), Hn. done.
Qed.

(** Unregistering the standing probe; one that was refused was never
    registered. *)

Lemma unregister_ok w p :
  kp (st w) = Some p -> held (requests w) = installed w ++ loaded ->
  (kp (st w) = None \/ last_accepted (requests w) = true -> clean (requests w) = all_accepted (requests w)) ->
  let w' := log_request (Unregister_kprobe p) (reply (requests w) (Unregister_kprobe p)) w in
  held (requests w') = loaded /\ clean (requests w') = all_accepted (requests w').
Proof.
  intros Hp Hheld Hclean. unfold installed, probe_of in Hheld. rewrite Hp in Hheld.
  cbn [requests log_request held clean track acquires acquired_by all_accepted]. rewrite Hheld.
  destruct (last_accepted (requests w)) eqn:Hl; cbn [app].
  - rewrite filter_cons_False by (by intros ?). split; [done|]. rewrite Hclean by (by right).
    rewrite bool_decide_eq_true_2 by (by left). apply andb_true_r.
  - split; [done|]. rewrite bool_decide_eq_false_2 by (unfold loaded; set_solver). by rewrite andb_false_r, all_last.
Qed.

Lemma drop_old_probe_ok w rs n : mprobe_inv w rs n ->
  exists w', drop_old_probe w = Ok tt w' /\ mprobe_inv w' rs n /\ kp (st w') = None /\
    kprobes (st w') = kprobes (st w) /\ rbf (st w') = rbf (st w) /\ user w' = user w.
Proof.
  intros I. unfold drop_old_probe. erewrite bind_ok by reflexivity. destruct (kp (st w)) as [p|] eqn:Hp.
  2: { by exists w. }
  destruct (mi_probe _ _ _ I p Hp) as [Hk _]. erewrite bind_ok by apply kcall__ok.
  erewrite bind_ok by (by eapply destroy_kp_ok). eexists. split; [done|].
  split; [|done]. destruct I as [? ? ? ? ? Hheld Hclean]. destruct (unregister_ok w p Hp Hheld Hclean) as [H1 H2].
  constructor; try done.
  transitivity loaded; [exact H1|]. unfold installed. by destruct (last_accepted _).
Qed.


Definition fresh_probe (a : Z) : kprobe := {| kp_addr := a; symbol_name := None; handlers_set := true |}.

Lemma update_kprobe_ok w p o f :
  kprobes (st w) !! p = Some o ->
  update_kprobe (Some p) f w = Ok tt (with_st (set_kprobes
    (<[p := Some (f (default {| kp_addr := 0; symbol_name := None; handlers_set := false |} o))]> (kprobes (st w))) (st w)) w).
Proof.
  intros H. unfold update_kprobe.
  by rewrite (bind_ok _ _ _ _ _ (deref_ok (fun w => kprobes (st w) !! p) UseAfterFree w _ H)).
Qed.

Lemma init_kp_ok w p a :
  kprobes (st w) !! p = Some None -> a <> 0 ->
  init_kp (Some p) a None w =
    Ok 0 (with_st (set_kprobes (<[p := Some (fresh_probe a)]> (kprobes (st w))) (st w)) w).
Proof.
  intros H Ha. unfold init_kp. rewrite (proj2 (Z.eqb_neq _ _) Ha). cbn [andb negb when].
  erewrite bind_ok by (by apply update_kprobe_ok).
  erewrite bind_ok by (apply update_kprobe_ok; cbn; apply lookup_insert_eq).
  erewrite bind_ok by (apply update_kprobe_ok; cbn; apply lookup_insert_eq).
  erewrite bind_ok by reflexivity.
  erewrite bind_ok by (apply update_kprobe_ok; cbn; apply lookup_insert_eq).
  rewrite mret_ok. f_equal. unfold with_st, set_kprobes, fresh_probe. cbn. by rewrite !insert_insert_eq.
Qed.

Lemma kmalloc_kprobe_ok w p :
  kmalloc (allocated (st w)) = Some p ->
  kmalloc_kprobe w =
    Ok (Some p) (with_st (set_kp (Some p) (set_kprobes (<[p := None]> (kprobes (st w))) (st w))) w).
Proof. intros H. unfold kmalloc_kprobe. erewrite bind_ok by reflexivity. cbn zeta. by rewrite H. Qed.

(** The state a successful [write] leaves. *)

Definition after_write (p : loc) (rq : debug_request) w : sys U mprobe :=
  log_request (Register_kprobe p) (reply (requests w) (Register_kprobe p)) (with_st
    {| kp := Some p; kprobes := <[p := Some (fresh_probe (line_address rq))]> (kprobes (st w)); names := names (st w);
       rbf := {| idx := idx (rbf (st w)); req := rq; rst := rst (rbf (st w)) |}; g_rbf_lock := false |} w).

Lemma install_ok w rs n p bs buf :
  mprobe_inv w rs n -> kp (st w) = None ->
  fetch (user w) buf sizeof_debug_request = (bs, 0) ->
  kmalloc (allocated (st w)) = Some p -> line_address (request_at (user w) buf) <> 0 ->
  (load_request buf ;; new ← kmalloc_kprobe; r ← load_request buf; init_kp new (line_address r) None ;;
   lock_rbf ;; r ← load_request buf;
   modify_rbf (fun b => {| idx := idx b; req := r; rst := rst b |}) ;; unlock_rbf ;;
   register_kprobe new ;; mret 0) w = Ok 0 (after_write p (request_at (user w) buf) w).
Proof.
  intros I Hkp Hf Hp Ha. erewrite bind_ok by (by eapply load_request_ok).
  rewrite (bind_ok _ _ _ _ _ (kmalloc_kprobe_ok _ _ Hp)).
  erewrite bind_ok by (by eapply load_request_ok). cbn [user with_st].
  erewrite bind_ok by (apply init_kp_ok; [cbn; apply lookup_insert_eq|done]).
  erewrite bind_ok by (apply spin_lock_ok; cbn; apply I).
  erewrite bind_ok by (by eapply load_request_ok).
  erewrite bind_ok by reflexivity. erewrite bind_ok by (by apply spin_unlock_ok).
  erewrite bind_ok; last first.
  { unfold register_kprobe. erewrite bind_ok by (apply deref_ok; cbn; by rewrite insert_insert_eq, lookup_insert_eq).
    apply kcall_ok. }
  rewrite mret_ok. f_equal. unfold after_write, log_request, with_st, set_rbf_lock, set_rbf, set_kprobes, set_kp.
  cbn. by rewrite insert_insert_eq.
Qed.

Lemma after_write_inv w rs n p rq :
  mprobe_inv w rs n -> kp (st w) = None -> p ∉ allocated (st w) -> line_address rq <> 0 ->
  mprobe_inv (after_write p rq w) rs (S n).
Proof.
  intros [? Hring ? ? ? Hheld Hclean] Hkp Hp Ha. constructor; try done.
  - cbn. rewrite map_size_insert. assert (kprobes (st w) !! p = None) as -> by (apply not_elem_of_dom; unfold allocated in Hp; set_solver).
    lia.
  - intros q [= <-]. cbn. rewrite lookup_insert_eq. done.
  - unfold installed, after_write, probe_of in *. cbn. rewrite Hheld, Hkp. unfold track. cbn.
    destruct (_ =? 0); [|by destruct (last_accepted _)]. by destruct (last_accepted _).
  - cbn. intros [?|He]; [done|]. rewrite andb_true_r, He. cbn. apply Hclean. by left.
Qed.

(** A write that returns had a request in mapped memory, a non-zero address
    and an allocation. *)

Lemma write_ok w rs n buf bs :
  mprobe_inv w rs n ->
  fetch (user w) buf sizeof_debug_request = (bs, 0) ->
  is_Some (kmalloc (allocated (set_kp None (st w)))) -> line_address (request_at (user w) buf) <> 0 ->
  exists w' p, mprobe_write buf w = Ok 0 w' /\ mprobe_inv w' rs (S n) /\ user w' = user w /\
    kp (st w') = Some p /\ kprobes (st w') !! p = Some (Some (fresh_probe (line_address (request_at (user w) buf)))) /\
    req (rbf (st w')) = request_at (user w) buf /\ kprobes (st w) ⊆ kprobes (st w') /\
    exists l, last_accepted (requests w') = (reply l (Register_kprobe p) =? 0).
Proof.
  intros I Hf [p Hp] Ha. destruct (drop_old_probe_ok _ _ _ I) as (w1 & H1 & I1 & Hk1 & Hkp1 & Hrb1 & Hu1).
  assert (allocated (st w1) = allocated (st w)) as Hal.
  { unfold allocated. by rewrite Hkp1, (mi_names _ _ _ I1), (mi_names _ _ _ I). }
  assert (p ∉ allocated (st w1)) as Hfr by (rewrite Hal; by apply kmalloc_fresh).
  exists (after_write p (request_at (user w) buf) w1), p. split_and!.
  - unfold mprobe_write. rewrite (bind_ok _ _ _ _ _ H1). rewrite <- Hu1.
    eapply install_ok; rewrite ?Hu1, ?Hal; done.
  - by apply after_write_inv.
  - done.
  - done.
  - cbn. by rewrite lookup_insert_eq.
  - done.
  - cbn. rewrite Hkp1. apply insert_subseteq. apply not_elem_of_dom. unfold allocated in Hfr. rewrite Hkp1 in Hfr. set_solver.
  - by eexists.
Qed.
End mprobe.
