(* ===== verification/MprobeHistory.v ===== *)
(** * The mprobe driver: any sequence of calls and hits, and its claims *)

From S2P Require Import Prelude Ring Kernel UserMemory Mprobe MprobeProofs MprobeSpec.

Section history.
Context {U : Type} {KM : Kmalloc} {UM : UserMemory U} {E : Environment}.
Implicit Types (s : mprobe) (p : loc) (w : sys U mprobe) (h : hit) (rs : list debug_result) (mem : Z -> option Z).

(** ** Bad requests *)

Lemma write_unmapped w rs n buf :
  mprobe_inv w rs n -> (fetch (user w) buf sizeof_debug_request).2 <> 0 ->
  exists w', mprobe_write buf w = Crash BadUserAccess w' /\ kp (st w') = None.
Proof.
  intros I Hf. destruct (drop_old_probe_ok _ _ _ I) as (w1 & H1 & _ & Hk1 & _ & _ & Hu1).
  exists w1. split; [|done]. unfold mprobe_write. rewrite (bind_ok _ _ _ _ _ H1). apply bind_crash.
  unfold load_request. apply bind_crash. unfold load_user. rewrite Hu1. by rewrite (proj2 (Z.eqb_neq _ _) Hf).
Qed.

Lemma fetch_pair (u : U) a n : (fetch u a n).2 = 0 -> fetch u a n = ((fetch u a n).1, 0).
Proof. destruct (fetch u a n). simpl. by intros ->. Qed.

Lemma write_no_memory w rs n buf :
  mprobe_inv w rs n -> (fetch (user w) buf sizeof_debug_request).2 = 0 ->
  kmalloc (allocated (st w)) = None ->
  exists w', mprobe_write buf w = Crash NullDeref w'.
Proof.
  intros I Hf%fetch_pair Hp. destruct (drop_old_probe_ok _ _ _ I) as (w1 & H1 & I1 & Hk1 & Hkp1 & _ & Hu1).
  assert (kmalloc (allocated (st w1)) = None) as Hp1.
  { unfold allocated in *. by rewrite Hkp1, (mi_names _ _ _ I1), <- (mi_names _ _ _ I). }
  unfold mprobe_write. rewrite (bind_ok _ _ _ _ _ H1). rewrite <- Hu1 in Hf.
  erewrite bind_ok by (by eapply load_request_ok).
  erewrite bind_ok; last first.
  { unfold kmalloc_kprobe. erewrite bind_ok by reflexivity. cbn zeta. rewrite Hp1.
    erewrite bind_ok by reflexivity. erewrite bind_ok by reflexivity. reflexivity. }
  erewrite bind_ok by (by eapply load_request_ok). cbn [user with_st].
  destruct (Z.eqb_spec (line_address (request_at (user w1) buf)) 0) as [Ha|Ha].
  - rewrite Ha. erewrite bind_ok by reflexivity. erewrite bind_ok by (apply spin_lock_ok; cbn; apply I1).
    erewrite bind_ok by (by eapply load_request_ok). erewrite bind_ok by reflexivity.
    erewrite bind_ok by (by apply spin_unlock_ok). eexists. by apply bind_crash.
  - eexists. apply bind_crash. unfold init_kp. rewrite (proj2 (Z.eqb_neq _ _) Ha). by apply bind_crash.
Qed.

Lemma write_zero_address w rs n buf p :
  mprobe_inv w rs n -> (fetch (user w) buf sizeof_debug_request).2 = 0 ->
  kmalloc (allocated (st w)) = Some p -> line_address (request_at (user w) buf) = 0 ->
  exists w', mprobe_write buf w = Crash UninitRead w'.
Proof.
  intros I Hf%fetch_pair Hp Ha. destruct (drop_old_probe_ok _ _ _ I) as (w1 & H1 & I1 & Hk1 & Hkp1 & _ & Hu1).
  assert (kmalloc (allocated (st w1)) = Some p) as Hp1.
  { unfold allocated in *. by rewrite Hkp1, (mi_names _ _ _ I1), <- (mi_names _ _ _ I). }
  unfold mprobe_write. rewrite (bind_ok _ _ _ _ _ H1). rewrite <- Hu1 in Hf, Ha.
  erewrite bind_ok by (by eapply load_request_ok).
  rewrite (bind_ok _ _ _ _ _ (kmalloc_kprobe_ok _ _ Hp1)).
  erewrite bind_ok by (by eapply load_request_ok). cbn [user with_st]. rewrite Ha.
  erewrite bind_ok by reflexivity. erewrite bind_ok by (apply spin_lock_ok; cbn; apply I1).
  erewrite bind_ok by (by eapply load_request_ok). erewrite bind_ok by reflexivity.
  erewrite bind_ok by (by apply spin_unlock_ok). eexists. apply bind_crash.
  unfold register_kprobe. erewrite bind_ok by (apply deref_ok; cbn; apply lookup_insert_eq). done.
Qed.

Lemma mprobe_write_ok_inv w rs n buf r w' :
  mprobe_inv w rs n -> mprobe_write buf w = Ok r w' -> mprobe_inv w' rs (S n).
Proof.
  intros I H. destruct (decide ((fetch (user w) buf sizeof_debug_request).2 = 0)) as [Hf|Hf].
  2: { destruct (write_unmapped _ _ _ _ I Hf) as (? & Hc & _). congruence. }
  assert (allocated (set_kp None (st w)) = allocated (st w)) as Hal by done.
  destruct (kmalloc (allocated (st w))) as [p|] eqn:Hp.
  2: { destruct (write_no_memory _ _ _ _ I Hf Hp) as (? & Hc). congruence. }
  destruct (decide (line_address (request_at (user w) buf) = 0)) as [Ha|Ha].
  { destruct (write_zero_address _ _ _ _ _ I Hf Hp Ha) as (? & Hc). congruence. }
  destruct (write_ok w rs n buf _ I (fetch_pair _ _ _ Hf)) as (w1 & q & H1 & I1 & _); [rewrite Hal; by eexists|done|].
  rewrite H1 in H. by injection H as <- <-.
Qed.

(** ** Reading *)

Lemma mprobe_read_ok w rs n buf :
  mprobe_inv w rs n -> Forall (fun r => xtc r <> 0) rs ->
  exists items, items ≡ₚ drop (length rs - 10) rs /\ ((length rs <= 10)%nat -> items = rs) /\
  mprobe_read buf w =
    if decide (rs = []) then Ok (- EINVAL) w else
    let r := store (user w) buf (concat (map put_result items)) in
    Ok (Z.of_nat (sizeof_debug_result * length items)) (with_user r.1 w).
Proof.
  intros I Hx. destruct (ring_read _ _ (mi_ring _ _ _ I) Hx) as (Hperm & Hfew & Hc).
  exists (take (count_results (rst (rbf (st w)))) (rst (rbf (st w)))). split_and!; [done..|].
  unfold mprobe_read. rewrite (bind_ok _ _ _ _ _ (spin_lock_ok _ set_rbf_lock _ (mi_lock _ _ _ I))).
  erewrite bind_ok by reflexivity. cbn [st with_st rbf set_rbf_lock].
  assert (with_st (set_rbf_lock false (set_rbf_lock true (st w))) w = w) as Hw.
  { destruct w as [[? ? ? ? l] ? ?]. pose proof (mi_lock _ _ _ I) as Hl. simpl in Hl. by subst l. }
  pose proof (ring_length _ _ (mi_ring _ _ _ I)) as Hlen.
  destruct (rst (rbf (st w))) as [|r0 rst'] eqn:Hr; [done|]. case_decide as Hrs.
  - subst rs. rewrite (proj2 (mi_ring _ _ _ I)) in Hr. injection Hr as <- _.
    cbn [zero_result xtc Z.eqb]. erewrite bind_ok by (by apply spin_unlock_ok).
    rewrite mret_ok. f_equal. exact Hw.
  - assert (xtc r0 <> 0) as H0.
    { destruct (Z.eq_dec (xtc r0) 0) as [E0|]; [|done]. exfalso. apply Hrs.
      cbn [count_results] in Hperm. rewrite E0 in Hperm. cbn [Z.eqb take] in Hperm.
      apply Permutation_nil_l in Hperm. apply (f_equal length) in Hperm. rewrite length_drop in Hperm.
      simpl in Hperm. apply length_zero_iff_nil. lia. }
    rewrite (proj2 (Z.eqb_neq _ _) H0). erewrite bind_ok by (by apply spin_unlock_ok).
    erewrite bind_ok by reflexivity. rewrite store_not_negative.
    change (with_st _ (with_st _ w)) with (with_st (set_rbf_lock false (set_rbf_lock true (st w))) w).
    by rewrite mret_ok, Hw, <- Hc.
Qed.

(** ** Histories *)

Inductive history : sys U mprobe -> list debug_result -> nat -> Prop :=
  | h_init u w : mprobe_init {| st := mprobe_static; requests := []; user := u |} = Ok 0 w -> history w [] 0
  | h_write w rs n buf r w' : history w rs n -> mprobe_write buf w = Ok r w' -> history w' rs (S n)
  | h_read w rs n buf r w' : history w rs n -> Forall (fun r => xtc r <> 0) rs ->
      mprobe_read buf w = Ok r w' -> history w' rs n
  | h_hit w rs n mem h r w' l g : history w rs n -> handler_pre mem h w = Ok r w' ->
      mem (local_address (req (rbf (st w))) h) = Some l -> mem (global_address (req (rbf (st w)))) = Some g ->
      is_Some (mem (h_bp h)) -> history w' (rs ++ [result_of h l g]) n
  | h_processes w rs n u : history w rs n -> history (with_user u w) rs n.

(** The two results that loading does not test are a class and a device, and
    [alloc_chrdev_region] answers 0 or an error.  Nothing is said of
    [register_kprobe]. *)

Record usual_replies : Prop := {
  ur_class t : reply t (Class_create MODULE_NAME) = 0;
  ur_device t : reply t (Device_create MODULE_NAME) = 0;
  ur_region t : reply t (Alloc_chrdev_region MODULE_NAME) <= 0
}.

Lemma mprobe_init_ok u w :
  usual_replies -> mprobe_init {| st := mprobe_static; requests := []; user := u |} = Ok 0 w -> mprobe_inv w [] 0.
Proof.
  intros [Hc Hd Hr] H. revert H. cbv [mprobe_init kcall kcall_ mbind M_bind mret M_ret crash
    requests st user log_request].
  destruct (Z.ltb_spec (reply [] (Alloc_chrdev_region MODULE_NAME)) 0) as [|Hge]; [done|].
  destruct (negb _) eqn:Ek; [done|].
  destruct (negb (reply _ (Cdev_add _) =? 0)) eqn:Ed; [intros [= Ez _]; by rewrite Ez in Ed|].
  intros [= <-]. apply negb_false_iff, Z.eqb_eq in Ek, Ed. rewrite Ek in Ed |- *. rewrite Ed, Hd. rewrite Hc.
  rewrite (Z.le_antisymm _ _ (Hr []) Hge). by constructor.
Qed.

Lemma with_user_inv u w rs n : mprobe_inv w rs n -> mprobe_inv (with_user u w) rs n.
Proof. intros []. by constructor. Qed.

Lemma history_inv w rs n : usual_replies -> history w rs n -> mprobe_inv w rs n.
Proof.
  intros Hu. induction 1 as [u w H|w rs n buf r w' _ I H|w rs n buf r w' _ I Hx H|w rs n mem h r w' l g _ I H Hl Hg [fp Hf]|].
  - by eapply mprobe_init_ok.
  - by eapply mprobe_write_ok_inv.
  - destruct (mprobe_read_ok _ _ _ buf I Hx) as (items & _ & _ & Hr). rewrite Hr in H.
    case_decide; injection H as <- <-; [done|by apply with_user_inv].
  - destruct (hit_keeps mem h w rs n l g fp I Hl Hg Hf) as (s & Hs & Is & _).
    rewrite Hs in H. by injection H as <- <-.
  - by apply with_user_inv.
Qed.

Lemma mprobe_exit_ok w rs n :
  mprobe_inv w rs n ->
  exists w', mprobe_exit w = Ok tt w' /\ kprobes (st w') = kprobes (st w) /\
    held (requests w') = [] /\ clean (requests w') = all_accepted (requests w).
Proof.
  intros I. unfold mprobe_exit. erewrite bind_ok by reflexivity.
  pose proof (mi_held _ _ _ I) as Hh. pose proof (mi_clean _ _ _ I) as Hc.
  destruct (kp (st w)) as [p|] eqn:Hp.
  - destruct (mi_probe _ _ _ I p Hp) as [Hk Ha].
    erewrite bind_ok; last first.
    { erewrite bind_ok by (apply deref_ok, Hk). cbn [kp_addr symbol_name].
      rewrite (proj2 (Z.eqb_neq _ _) Ha). cbn [negb orb when].
      erewrite bind_ok by apply kcall__ok. erewrite bind_ok by (by eapply destroy_kp_ok). reflexivity. }
    repeat erewrite bind_ok by apply kcall__ok. eexists. split; [apply kcall__ok|]. split; [done|].
    destruct (unregister_ok w p Hp Hh (mi_clean _ _ _ I)) as [H1 H2]. cbn [all_accepted log_request requests] in H2. rewrite <- H2.
    cbn [log_request requests with_st held clean track acquires acquired_by] in *. rewrite H1. split; [done|].
    by rewrite !andb_true_r.
  - erewrite bind_ok by reflexivity.
    repeat erewrite bind_ok by apply kcall__ok. eexists. split; [apply kcall__ok|]. split; [done|].
    unfold installed, probe_of in Hh. rewrite Hp in Hh. cbn [log_request requests held clean]. rewrite Hh, Hc by (by left).
    destruct (last_accepted (requests w)); (split; [done|]); cbn; by rewrite !andb_true_r.
Qed.

(** C6: Whatever sequence of requests, hits and reads follows a load that
    returned 0 with its class and device created (each returns, what a hit
    reads is mapped, and no time stamp is 0 when a read looks, which takes
    that for an empty slot): the ring holds the last ten results; at most
    one probe is installed, namely the one last asked for when the kernel
    accepted it, and none when the kernel refused it, which the driver does
    not notice; unloading takes it away and gives back everything the load
    acquired; it and the writes unregister only what was registered exactly
    when no probe was ever refused; and none of the probe structures
    allocated by the writes is ever freed. *)

Theorem any_history_keeps_last_results w rs n :
  usual_replies -> history w rs n ->
  ring_holds (rbf (st w)) rs /\
  (forall p, kp (st w) = Some p -> kprobes (st w) !! p = Some (Some (fresh_probe (line_address (req (rbf (st w))))))) /\
  held (requests w) = (if last_accepted (requests w) then probe_of (st w) else []) ++ loaded /\
  exists w', mprobe_exit w = Ok tt w' /\ held (requests w') = [] /\ clean (requests w') = all_accepted (requests w) /\
    size (kprobes (st w')) = n.
Proof.
  intros Hu H%history_inv; [|done]. split; [apply H|]. split; [intros p Hp; by apply H|]. split; [apply H|].
  destruct (mprobe_exit_ok _ _ _ H) as (w' & ? & Hk & ? & ?). exists w'. split_and!; [done..|].
  rewrite Hk. apply H.
Qed.

Lemma read_prints w rs n buf :
  mprobe_inv w rs n -> Forall (fun r => xtc r <> 0 /\ result_ok r) rs -> writable (user w) buf (32 * (length rs `min` 10)) ->
  exists items, items ≡ₚ drop (length rs - 10) rs /\ ((length rs <= 10)%nat -> items = rs) /\
  if decide (rs = []) then mprobe_read buf w = Ok (- EINVAL) w else
  exists u', mprobe_read buf w = Ok (32 * Z.of_nat (length rs `min` 10)) (with_user u' w) /\
    printed_items (32 * Z.of_nat (length rs `min` 10)) (fetch u' buf (32 * (length rs `min` 10))).1 = items.
Proof.
  intros I Hok Hw. destruct (mprobe_read_ok w rs n buf I) as (items & Hp & Hfew & Hr).
  { eapply Forall_impl; [done|]. by intros r []. }
  exists items. split_and!; [done..|]. case_decide as Hrs; [done|].
  assert (length items = (length rs `min` 10)%nat) as Hl by (rewrite Hp, length_drop; lia).
  specialize (Hw (concat (map put_result items))). rewrite length_concat_results, Hl in Hw. specialize (Hw eq_refl).
  destruct (store (user w) buf (concat (map put_result items))) as [u' k] eqn:Es. simpl in Hw. subst k.
  exists u'. split; [rewrite Hr, Hl; f_equal; unfold sizeof_debug_result; lia|].
  pose proof (fetch_store _ _ _ _ (concat_results_bytes items) Es) as Hf.
  rewrite length_concat_results, Hl in Hf. change sizeof_debug_result with 32%nat in Hf. rewrite Hf. cbn [fst].
  replace (32 * Z.of_nat (length rs `min` 10)) with (Z.of_nat (sizeof_debug_result * length items))
    by (rewrite Hl; unfold sizeof_debug_result; lia).
  apply printed_items_ok. rewrite Hp. apply Forall_drop. eapply Forall_impl; [done|]. by intros r [].
Qed.

(** C32: A read returns -EINVAL before the first hit; afterwards it returns 32
    bytes for each of the last ten results, in order of arrival while there
    are at most ten, and the test programs print exactly these results. *)

Theorem read_returns_last_results w rs n buf :
  mprobe_inv w rs n -> Forall (fun r => xtc r <> 0 /\ result_ok r) rs -> writable (user w) buf (32 * (length rs `min` 10)) ->
  exists items, items ≡ₚ drop (length rs - 10) rs /\ ((length rs <= 10)%nat -> items = rs) /\
  if decide (rs = []) then mprobe_read buf w = Ok (- EINVAL) w else
  exists u', mprobe_read buf w = Ok (32 * Z.of_nat (length rs `min` 10)) (with_user u' w) /\
    printed_items (32 * Z.of_nat (length rs `min` 10)) (fetch u' buf (32 * (length rs `min` 10))).1 = items.
Proof. apply read_prints. Qed.

(** A request in readable memory replaces the probe: afterwards the
    installed probe is at [of_line] beyond the text section, hits are
    interpreted by the new request, the results so far are kept, and the
    structure of every earlier probe is still allocated. *)

Theorem write_installs_probe w rs n buf rq :
  mprobe_inv w rs n -> request_ok rq ->
  fetch (user w) buf sizeof_debug_request = (put_request rq, 0) ->
  is_Some (kmalloc (allocated (st w))) -> u64 (of_line rq + text (sect rq)) <> 0 ->
  exists w' p, mprobe_write buf w = Ok 0 w' /\ mprobe_inv w' rs (S n) /\
    kp (st w') = Some p /\ kprobes (st w') !! p = Some (Some (fresh_probe (u64 (of_line rq + text (sect rq))))) /\
    req (rbf (st w')) = rq /\ kprobes (st w) ⊆ kprobes (st w').
Proof.
  intros I Hok Hf Hm Ha.
  assert (request_at (user w) buf = rq) as Hrq.
  { unfold request_at. rewrite Hf. cbn [fst]. rewrite <- (app_nil_r (put_request rq)). by apply get_put_request. }
  destruct (write_ok w rs n buf _ I Hf Hm) as (w' & p & ? & ? & ? & ? & ? & ? & ? & _); rewrite ?Hrq in *; [done|].
  by exists w', p.
Qed.

(** A hit stores, in the slot the ring has reached, the trap address, the
    process, the cycle count and the two variables the request names: the
    local at [of_local] above the stack pointer, the global at [of_gbl] in
    the bss section. *)

Theorem hit_records_variables mem h w rs n l g :
  mprobe_inv w rs n ->
  mem (local_address (req (rbf (st w))) h) = Some l -> mem (global_address (req (rbf (st w)))) = Some g ->
  is_Some (mem (h_bp h)) ->
  exists s, handler_pre mem h w = Ok 0 (with_st s w) /\ mprobe_inv (with_st s w) (rs ++ [result_of h l g]) n /\
    rst (rbf s) !! (length rs mod 10)%nat = Some (result_of h l g).
Proof.
  intros I Hl Hg [fp Hf]. destruct (inv_slot _ _ _ I) as [Hi [r0 Hr]].
  exists (after_hit (result_of h l g) (st w)).
  assert (handler_pre mem h w = Ok 0 (with_st (after_hit (result_of h l g) (st w)) w)) as Hrun.
  { apply (handler_pre_run mem h w l g fp r0); try done. apply I. }
  split; [done|]. destruct (hit_keeps mem h w rs n l g fp I Hl Hg Hf) as (s & Hs & Is & _).
  rewrite Hrun in Hs. injection Hs as Hs. rewrite <- Hs in Is. split; [done|].
  destruct (mi_ring _ _ _ I) as [Hx _]. cbn [after_hit rbf set_rbf rst]. rewrite Hx, Nat2Z.id.
  apply list_lookup_insert_eq. pose proof (ring_length _ _ (mi_ring _ _ _ I)) as ->.
  by apply Nat.mod_upper_bound.
Qed.

(** A hit whose local variable is not in mapped memory faults with the
    ring's lock held, so every later read or hit waits for it in vain. *)

Theorem faulting_hit_keeps_lock mem h w rs n :
  mprobe_inv w rs n -> mem (local_address (req (rbf (st w))) h) = None ->
  exists w', handler_pre mem h w = Crash BadUserAccess w' /\ g_rbf_lock (st w') = true /\
    forall buf, mprobe_read buf w' = Crash SelfDeadlock w'.
Proof.
  intros I Hl. destruct (inv_slot _ _ _ I) as [Hi [r0 Hr]].
  unfold handler_pre. rewrite (bind_ok _ _ _ _ _ (spin_lock_ok _ set_rbf_lock _ (mi_lock _ _ _ I))).
  erewrite bind_ok by reflexivity. cbn zeta.
  cbn [st with_st set_rbf_lock rbf]. set (i := idx (rbf (st w))) in *.
  erewrite bind_ok by reflexivity. erewrite bind_ok by reflexivity.
  set (w1 := with_st _ (with_st _ _)).
  assert (slot i w1 = Some r0) as H1 by done.
  rewrite (bind_ok _ _ _ _ _ (update_result_ok _ _ _ _ H1)).
  rewrite (update_twice i _ _ _ _ _ (slot_put_slot _ _ _ _ H1)), put_slot_twice.
  eexists. split; [apply bind_crash; unfold load_kernel, deref, local_address in *; cbn; by rewrite Hl|]. split; [done|].
  intros buf. unfold mprobe_read. apply bind_crash. by apply spin_lock_held.
Qed.

(** The request is read straight from the process's pointer and not
    checked: an unmapped buffer is an oops after the old probe is gone; a line
    address of 0 registers a structure nobody initialised; without memory the
    NULL from kmalloc is used. *)

Theorem bad_requests_crash w rs n buf :
  mprobe_inv w rs n ->
  let r := fetch (user w) buf sizeof_debug_request in
  (r.2 <> 0 \/ kmalloc (allocated (st w)) = None \/ line_address (get_request r.1) = 0) ->
  exists w', mprobe_write buf w = Crash (if decide (r.2 <> 0) then BadUserAccess
    else if decide (kmalloc (allocated (st w)) = None) then NullDeref else UninitRead) w'.
Proof.
  intros I r Hbad. case_decide as Hf; [destruct (write_unmapped _ _ _ _ I Hf) as (w' & ? & _); by exists w'|].
  assert (r.2 = 0) as H0 by (destruct (Z.eq_dec r.2 0); [done|by destruct Hf]).
  case_decide as Hp; [by eapply write_no_memory|].
  destruct (kmalloc (allocated (st w))) as [p|] eqn:Hk; [|done].
  eapply write_zero_address; [done..|]. by destruct Hbad as [?|[?|?]].
Qed.

(** A symbol name is copied whole, with its terminator, into an object of
    exactly its size, and the probe points to the copy. *)

Theorem init_kp_copies_symbol w p a name rest n :
  kprobes (st w) !! p = Some None -> Forall (fun c => c <> 0) name -> kmalloc (allocated (st w)) = Some n ->
  exists w', init_kp (Some p) a (Some (c_string name ++ rest)) w = Ok 0 w' /\
    names (st w') !! n = Some (c_string name) /\
    kprobes (st w') !! p = Some (Some {| kp_addr := a; symbol_name := Some n; handlers_set := true |}).
Proof.
  intros Hp Hs Hn. unfold init_kp. rewrite (bool_decide_eq_false_2 (Some _ = None)) by done. rewrite andb_false_r.
  erewrite bind_ok by (by apply update_kprobe_ok).
  erewrite bind_ok by (apply update_kprobe_ok; cbn; apply lookup_insert_eq).
  assert (forall w1 (k1 : kprobe), kprobes (st w1) = <[p := Some k1]> (kprobes (st w)) -> kp_addr k1 = 0 -> names (st w1) = names (st w) ->
    exists w2 k2, when (negb (a =? 0)) (update_kprobe (Some p)
      (fun k => {| kp_addr := a; symbol_name := symbol_name k; handlers_set := handlers_set k |})) w1 = Ok tt w2 /\
      kprobes (st w2) = <[p := Some k2]> (kprobes (st w)) /\ kp_addr k2 = a /\ names (st w2) = names (st w)) as Hwhen.
  { intros w1 k1 H1 Hk1 Hn1. destruct (Z.eqb_spec a 0) as [->|Ha]; cbn [negb when].
    - by exists w1, k1.
    - eexists _, _. split; [apply update_kprobe_ok; rewrite H1; apply lookup_insert_eq|].
      cbn. rewrite H1, insert_insert_eq. done. }
  set (w1 := with_st _ (with_st _ w)).
  edestruct (Hwhen w1) as (w2 & k2 & Hw2 & Hkp & Hka & Hnm); [cbn; by rewrite insert_insert_eq|done|done|].
  erewrite bind_ok by exact Hw2.
  assert (allocated (st w2) = allocated (st w)) as Hal.
  { unfold allocated. rewrite Hkp, Hnm, dom_insert_L. apply elem_of_dom_2 in Hp. set_solver. }
  erewrite bind_ok; last first.
  { unfold copy_name. erewrite bind_ok; last first.
    { erewrite bind_ok by (by apply deref_ok, strlen_ok).
      erewrite bind_ok by (apply deref_ok; by rewrite Hal).
      erewrite bind_ok by (apply deref_ok, strcpy_ok; [done|rewrite length_replicate; lia]).
      erewrite bind_ok by reflexivity. reflexivity. }
    apply update_kprobe_ok. cbn. rewrite Hkp. apply lookup_insert_eq. }
  erewrite bind_ok by (apply update_kprobe_ok; cbn; apply lookup_insert_eq).
  eexists. split; [done|]. cbn. rewrite Hkp, !lookup_insert_eq, Hka, drop_ge, app_nil_r; [done|].
  rewrite length_replicate. lia.
Qed.
End history.
