(* ===== verification/MprobeWitness.v ===== *)
(** * The mprobe driver: concrete runs of its theorems

    A process asks for line 0x99 of a module at text 0x1000 with bss 0x2000;
    twelve hits follow. *)

From S2P Require Import Prelude Kernel UserMemory Mprobe MprobeProofs MprobeSpec MprobeHistory.

#[local] Instance succeed : Environment := all_succeed.

Abbreviation world := (sys (gmap Z Z) mprobe).

Definition req1 : debug_request :=
  {| of_line := 0x99; of_local := 0; of_gbl := 0x424; sect := {| bss := 0x2000; text := 0x1000 |} |}.

Definition user_with (bs : list Z) : gmap Z Z := (map_store (mapped 4096 64) 4096 bs).1.

Definition result_world {A} (d : world) (o : outcome world A) : world :=
  match o with Ok _ w => w | _ => d end.

Definition w_init : world :=
  let w0 : world := {| st := mprobe_static; requests := []; user := user_with (put_request req1) |} in
  result_world w0 (mprobe_init w0).

Definition w_probed : world := result_world w_init (mprobe_write 4096 w_init).

Definition kernel_mem (a : Z) : option Z := if a =? 0 then None else Some (a mod 100).

Definition trap (n : Z) : hit := {| h_ip := 0x1099; h_sp := 0x7000; h_bp := 0x7100; h_pid := 42; h_cycles := n |}.

Definition hit_result (n : Z) : debug_result := result_of (trap n) (0x7000 mod 100) (0x2424 mod 100).

Fixpoint hits (n : nat) (w : world) : world :=
  match n with
  | O => w
  | S n => let w' := hits n w in result_world w' (handler_pre kernel_mem (trap (Z.of_nat (S n))) w')
  end.

Definition results (n : nat) : list debug_result := map (fun i => hit_result (Z.of_nat i)) (seq 1 n).

Lemma mprobe_succeed_usual : usual_replies.
Proof. by constructor. Qed.

Lemma w_init_history : history w_init [] 0.
Proof. apply (h_init (user_with (put_request req1))). vm_compute. reflexivity. Qed.

Lemma w_probed_history : history w_probed [] 1.
Proof. apply (h_write w_init [] 0 4096 0); [apply w_init_history|]. vm_compute. reflexivity. Qed.

Lemma w_hit_history : history (hits 2 w_probed) (results 2) 1.
Proof.
  apply (h_hit (hits 1 w_probed) (results 1) 1 kernel_mem (trap 2) 0).
  - apply (h_hit w_probed [] 1 kernel_mem (trap 1) 0); [apply w_probed_history|..]; vm_compute; by eexists || done.
  - vm_compute. reflexivity.
  - vm_compute. reflexivity.
  - vm_compute. reflexivity.
  - vm_compute. by eexists.
Qed.

Lemma any_history_keeps_last_results_witness :
  ring_holds (rbf (st (hits 2 w_probed))) (results 2) /\
  exists w', mprobe_exit (hits 2 w_probed) = Ok tt w' /\ held (requests w') = [] /\
    clean (requests w') = all_accepted (requests (hits 2 w_probed)) /\ size (kprobes (st w')) = 1%nat.
Proof.
  destruct (any_history_keeps_last_results (hits 2 w_probed) (results 2) 1) as (H1 & _ & _ & H2).
  - apply mprobe_succeed_usual.
  - apply w_hit_history.
  - exact (conj H1 H2).
Defined.

Lemma w_hit_inv : mprobe_inv (hits 2 w_probed) (results 2) 1.
Proof. apply history_inv; [apply mprobe_succeed_usual|apply w_hit_history]. Qed.

Lemma w_probed_inv : mprobe_inv w_probed [] 1.
Proof. apply history_inv; [apply mprobe_succeed_usual|apply w_probed_history]. Qed.

Lemma w_init_inv : mprobe_inv w_init [] 0.
Proof. apply history_inv; [apply mprobe_succeed_usual|apply w_init_history]. Qed.

Lemma user_is_writable n : Z.of_nat n <= 64 -> writable (user (hits 2 w_probed)) 4096 n.
Proof.
  intros Hn. apply writable_map; [|done]. intros i Hi.
  change (user (hits 2 w_probed)) with (user_with (put_request req1)). apply map_store_dom, mapped_is_Some. lia.
Qed.

Lemma read_returns_last_results_witness :
  exists u', mprobe_read 4096 (hits 2 w_probed) = Ok 64 (with_user u' (hits 2 w_probed)) /\
    printed_items 64 (fetch u' 4096 64).1 = results 2.
Proof.
  destruct (read_returns_last_results (hits 2 w_probed) (results 2) 1 4096 w_hit_inv) as (items & _ & Hf & H).
  - apply Forall_cons. split; [repeat split; vm_compute; done|].
    apply Forall_cons. split; [repeat split; vm_compute; done|by apply Forall_nil].
  - apply user_is_writable. vm_compute. done.
  - destruct H as (u' & H1 & H2). rewrite Hf in H2 by (vm_compute; lia). exists u'. exact (conj H1 H2).
Defined.

Lemma write_installs_probe_witness :
  exists w' p, mprobe_write 4096 w_init = Ok 0 w' /\ kp (st w') = Some p /\
    kprobes (st w') !! p = Some (Some (fresh_probe 0x1099)) /\ req (rbf (st w')) = req1.
Proof.
  destruct (write_installs_probe w_init [] 0 4096 req1) as (w' & p & H1 & _ & H2 & H3 & H4 & _).
  - apply w_init_inv.
  - unfold request_ok, is_u64. simpl. lia.
  - vm_compute. reflexivity.
  - vm_compute. by eexists.
  - vm_compute. done.
  - exists w', p. exact (conj H1 (conj H2 (conj H3 H4))).
Defined.

Lemma hit_records_variables_witness :
  exists s, handler_pre kernel_mem (trap 1) w_probed = Ok 0 (with_st s w_probed) /\
    rst (rbf s) !! 0%nat = Some (hit_result 1).
Proof.
  destruct (hit_records_variables kernel_mem (trap 1) w_probed [] 1 (0x7000 mod 100) (0x2424 mod 100) w_probed_inv)
    as (s & H1 & _ & H2).
  - vm_compute. reflexivity.
  - vm_compute. reflexivity.
  - vm_compute. by eexists.
  - exists s. exact (conj H1 H2).
Defined.

Lemma faulting_hit_keeps_lock_witness :
  exists w', handler_pre (fun _ => None) (trap 1) w_probed = Crash BadUserAccess w' /\ g_rbf_lock (st w') = true /\
    forall buf, mprobe_read buf w' = Crash SelfDeadlock w'.
Proof. apply (faulting_hit_keeps_lock (fun _ => None) (trap 1) w_probed [] 1 w_probed_inv). reflexivity. Defined.

Lemma bad_requests_crash_witness :
  exists w', mprobe_write 8 w_probed = Crash BadUserAccess w'.
Proof.
  destruct (bad_requests_crash w_probed [] 1 8 w_probed_inv) as (w' & H).
  - left. vm_compute. done.
  - exists w'. rewrite H. rewrite decide_True by (vm_compute; done). reflexivity.
Defined.

(** "ht530_open", the symbol of the call that the module's init has commented
    out. *)

Definition ht530_open_name : list Z := [104; 116; 53; 51; 48; 95; 111; 112; 101; 110].

Definition w_raw : world :=
  {| st := set_kprobes {[1%positive := None]} mprobe_static; requests := []; user := ∅ |}.

Lemma init_kp_copies_symbol_witness :
  exists w', init_kp (Some 1%positive) 0 (Some (c_string ht530_open_name)) w_raw = Ok 0 w' /\
    names (st w') !! fresh [1%positive] = Some (c_string ht530_open_name).
Proof.
  destruct (init_kp_copies_symbol w_raw 1%positive 0 ht530_open_name [] (fresh [1%positive])) as (w' & H1 & H2 & _).
  - reflexivity.
  - repeat (apply Forall_cons; split; [lia|]). by apply Forall_nil.
  - vm_compute. reflexivity.
  - rewrite app_nil_r in H1. exists w'. exact (conj H1 H2).
Defined.
