(* ===== verification/MprobeTest.v ===== *)
(** * The mprobe test programs: one driver debugs the other

    mprobe/mprobe-test1.c and mprobe-test2.c open both devices, read where the
    hash table module was loaded, ask mprobe for a probe on one of its lines,
    run [flock] and [fsync] on the hash table device and print what mprobe
    recorded.  The two programs differ in the request they write.

    Where the compiler put the lines, the stack frames and the variables of
    ht530.c is not in the source: the lines a call executes, with the trap each
    brings, and the two variables' places are parameters. *)

From S2P Require Import Prelude Kernel UserMemory Text.
From S2P Require Import Ht530.
From S2P Require Import Mprobe.

(** ** [sscanf(buf, "0x%llx", &v)] of the C library *)

Definition hex_value (c : Z) : option Z :=
  if (48 <=? c) && (c <=? 57) then Some (c - 48)
  else if (97 <=? c) && (c <=? 102) then Some (c - 87)
  else if (65 <=? c) && (c <=? 70) then Some (c - 55)
  else None.

Fixpoint scan_hex_digits (acc : Z) (s : list Z) : Z :=
  match s with
  | c :: s' => match hex_value c with Some d => scan_hex_digits (16 * acc + d) s' | None => acc end
  | [] => acc
  end.

Definition scan_hex (s : list Z) : option Z :=
  match s with
  | c :: _ => match hex_value c with Some _ => Some (scan_hex_digits 0 s) | None => None end
  | [] => None
  end.

(** A second "0x" is read over; a number of more than 64 bits is all ones. *)

Definition drop_0x (s : list Z) : list Z :=
  match s with
  | c :: d :: s' => if (c =? 48) && ((d =? 120) || (d =? 88)) then s' else s
  | _ => s
  end.

Definition to_ull (v : Z) : Z := Z.min v (2 ^ 64 - 1).

Definition scan_llx (s : list Z) : option Z :=
  match skip_spaces s with
  | c :: s' =>
      if c =? MINUS then option_map (fun v => if v <? 2 ^ 64 then u64 (- v) else 2 ^ 64 - 1) (scan_hex (drop_0x s'))
      else if c =? 43 then option_map to_ull (scan_hex (drop_0x s'))
      else option_map to_ull (scan_hex (drop_0x (c :: s')))
  | [] => None
  end.

Definition sscanf_0x_llx (s : list Z) : option Z :=
  match s with
  | c :: d :: s' => if (c =? 48) && (d =? 120) then scan_llx s' else None
  | _ => None
  end.

(** ** The requests and the variables they aim at *)

Definition req1 : debug_request :=
  {| of_line := 0x99; of_local := 0; of_gbl := 0x424; sect := {| bss := 0; text := 0 |} |}.

Definition req2 : debug_request :=
  {| of_line := 0x109; of_local := 0; of_gbl := 0x420; sect := {| bss := 0; text := 0 |} |}.

(** [xmen2] of [ht530_fsync] and [superman2] of [ht530_flock]. *)

Definition xmen2 : Z := 0x123456.

Definition superman2 : Z := 0x1234560.

(** Both drivers and the process. *)

Record debugged (U L : Type) := {
  probing : sys U mprobe;
  target : ht530 L
}.
Arguments probing {U L}.
Arguments target {U L}.

(** What the source does not say about the compiled module and the machine. *)

Record machine := {
  text_file : option (list Z);          (* /sys/module/ht530/sections/.text *)
  bss_file : option (list Z);           (* /sys/module/ht530/sections/.bss *)
  at_test1 : Z;                         (* &for_mprobe_test1 *)
  at_test2 : Z;                         (* &for_mprobe_test2 *)
  flock_lines : list (Z * hit);         (* the instructions one call executes *)
  fsync_lines : list (Z * hit);
  stack : Z -> option Z                 (* the rest of the kernel's memory *)
}.

Section programs.
Context {L U : Type} {KM : Kmalloc} {UM : UserMemory U} {E : Environment}.
Context (mc : machine) (req1_at req2_at items_at : Z).

Definition on_mprobe {A} (f : M (sys U mprobe) A) : M (debugged U L) A := fun d =>
  match f (probing d) with
  | Ok a w => Ok a {| probing := w; target := target d |}
  | Crash e w => Crash e {| probing := w; target := target d |}
  | Blocked w => Blocked {| probing := w; target := target d |}
  end.

(** [open], [flock], [fsync] of the hash table make no requests. *)

Definition on_ht530 {A} (f : M (sys U (ht530 L)) A) : M (debugged U L) A := fun d =>
  let back (w : sys U (ht530 L)) := {| probing := with_user (user w) (probing d); target := st w |} in
  match f {| st := target d; requests := []; user := user (probing d) |} with
  | Ok a w => Ok a (back w)
  | Crash e w => Crash e (back w)
  | Blocked w => Blocked (back w)
  end.

(** The file's content is followed by the zeros of [memset]. *)

Definition get_sect_addr (file : option (list Z)) : list Z :=
  match file with Some t => take 1024 t | None => [] end.

Definition store_section (a : Z) (buf : list Z) : M (sys U mprobe) unit :=
  match sscanf_0x_llx buf with
  | Some v => write_user a (put_u64 v)
  | None => mret tt
  end.

Definition get_module_sections (rq : Z) : M (sys U mprobe) Z :=
  store_section (rq + 24) (get_sect_addr (text_file mc)) ;;
  store_section (rq + 16) (get_sect_addr (bss_file mc)) ;;
  mret 0.

(** Kernel memory while a call on the hash table runs. *)

Definition kernel_memory (s : ht530 L) (a : Z) : option Z :=
  if a =? at_test1 mc then Some (for_mprobe_test1 s)
  else if a =? at_test2 mc then Some (for_mprobe_test2 s)
  else stack mc a.

(** A registered probe's handler runs before its instruction. *)

Definition probe_at (a : Z) (w : sys U mprobe) : bool :=
  match kp (st w) with
  | Some p =>
      bool_decide (Register_kprobe p ∈ held (requests w)) &&
      match kprobes (st w) !! p with Some (Some k) => kp_addr k =? a | _ => false end
  | None => false
  end.

Fixpoint execute (mem : Z -> option Z) (lines : list (Z * hit)) : M (sys U mprobe) unit :=
  match lines with
  | [] => mret tt
  | (a, h) :: lines =>
      b ← gets (probe_at a);
      when b (handler_pre mem h ;; mret tt) ;;
      execute mem lines
  end.

(** A call on the hash table, and what its instructions trap into. *)

Definition traced {A} (f : M (sys U (ht530 L)) A) (lines : list (Z * hit)) : M (debugged U L) A :=
  s ← gets target;
  on_mprobe (execute (kernel_memory s) lines) ;;
  on_ht530 f.

(** [main]; [None] is [handle_error].  [rq] is the request that is written. *)

Definition debug_session (rq : Z) : M (debugged U L) (option (list debug_result)) :=
  on_mprobe mprobe_open ;;
  on_ht530 ht530_open ;;
  on_mprobe (get_module_sections req1_at) ;;
  on_mprobe (get_module_sections req2_at) ;;
  on_mprobe (mprobe_write rq) ;;
  traced ht530_flock (flock_lines mc) ;;
  traced ht530_fsync (fsync_lines mc) ;;
  ret_val ← on_mprobe (mprobe_read items_at);
  if ret_val <? 0 then mret None else
  d ← gets (fun d => d);
  let items := (fetch (user (probing d)) items_at (Z.to_nat ret_val)).1 in
  on_mprobe mprobe_release ;;
  on_ht530 ht530_release ;;
  mret (Some (printed_items ret_val items)).

Definition test1_main : M (debugged U L) (option (list debug_result)) := debug_session req1_at.

Definition test2_main : M (debugged U L) (option (list debug_result)) := debug_session req2_at.
End programs.
