(* ===== verification/MprobeTestSpec.v ===== *)
(** * The mprobe test programs show what the hash table holds *)

From S2P Require Import Prelude Ring Kernel UserMemory Text.
From S2P Require Import Ht530.
From S2P Require Import Mprobe MprobeProofs MprobeSpec MprobeHistory MprobeTest.

(** ** The sections' files: "0x", sixteen digits, a newline *)

Definition hex_char (d : Z) : Z := if d <? 10 then 48 + d else 87 + d.

Fixpoint print_hex (n : nat) (v : Z) : list Z :=
  match n with
  | O => []
  | S n => print_hex n (v / 16) ++ [hex_char (v mod 16)]
  end.

Definition section_text (v : Z) : list Z := [48; 120] ++ print_hex 16 v ++ [NEWLINE].

Lemma hex_value_char d : 0 <= d < 16 -> hex_value (hex_char d) = Some d.
Proof.
  intros Hd. unfold hex_char, hex_value. destruct (Z.ltb_spec d 10).
  - destruct (Z.leb_spec 48 (48 + d)), (Z.leb_spec (48 + d) 57); cbn [andb]; try lia. f_equal; lia.
  - destruct (Z.leb_spec 48 (87 + d)), (Z.leb_spec (87 + d) 57), (Z.leb_spec 97 (87 + d)), (Z.leb_spec (87 + d) 102);
      cbn [andb]; try lia. f_equal; lia.
Qed.

Lemma print_hex_chars n v : Forall (fun c => exists d, 0 <= d < 16 /\ c = hex_char d) (print_hex n v).
Proof.
  revert v. induction n as [|n IH]; intros v; [constructor|]. apply Forall_app. split; [apply IH|].
  constructor; [|constructor]. exists (v mod 16). split; [|done]. by apply Z.mod_pos_bound.
Qed.

Lemma length_print_hex n v : length (print_hex n v) = n.
Proof. revert v. induction n as [|n IH]; intros v; [done|]. cbn [print_hex]. rewrite length_app, IH. simpl. lia. Qed.

Lemma scan_print_hex n v acc s : 0 <= v < 16 ^ Z.of_nat n ->
  scan_hex_digits acc (print_hex n v ++ s) = scan_hex_digits (acc * 16 ^ Z.of_nat n + v) s.
Proof.
  revert v acc s. induction n as [|n IH]; intros v acc s Hv; cbn [print_hex app].
  - f_equal. change (16 ^ Z.of_nat 0) with 1 in *. lia.
  - rewrite Nat2Z.inj_succ, Z.pow_succ_r in * by lia. rewrite <- app_assoc, IH; cycle 1.
    { split; [apply Z.div_pos; lia|]. apply Z.div_lt_upper_bound; lia. }
    cbn [app scan_hex_digits]. rewrite hex_value_char by (by apply Z.mod_pos_bound).
    f_equal. pose proof (Z.div_mod v 16). lia.
Qed.

Lemma hex_char_plain d : 0 <= d < 16 ->
  is_space (hex_char d) = false /\ hex_char d <> MINUS /\ hex_char d <> 43 /\ hex_char d <> 120 /\ hex_char d <> 88.
Proof.
  intros Hd. unfold hex_char, is_space, MINUS. destruct (Z.ltb_spec d 10).
  - rewrite orb_false_iff, andb_false_iff, Z.eqb_neq, !Z.leb_gt. lia.
  - rewrite orb_false_iff, andb_false_iff, Z.eqb_neq, !Z.leb_gt. lia.
Qed.

Lemma scan_section v : is_u64 v -> sscanf_0x_llx (get_sect_addr (Some (section_text v))) = Some v.
Proof.
  intros Hv. unfold is_u64 in Hv. unfold get_sect_addr. rewrite take_ge by (unfold section_text; rewrite !length_app, length_print_hex; simpl; lia).
  unfold section_text. cbn [app sscanf_0x_llx]. cbn [Z.eqb Pos.eqb andb].
  pose proof (print_hex_chars 16 v) as Hc. pose proof (length_print_hex 16 v) as Hl.
  pose proof (scan_print_hex 16 v 0 [NEWLINE] Hv) as Hs. destruct (print_hex 16 v) as [|c [|c' ds]]; [done..|].
  apply Forall_cons in Hc as [(d & Hd & ->) Hc]. apply Forall_cons in Hc as [(d' & Hd' & ->) _].
  destruct (hex_char_plain d Hd) as (H1 & H2 & H3 & _). destruct (hex_char_plain d' Hd') as (_ & _ & _ & H4 & H5).
  unfold scan_llx. cbn [app skip_spaces] in *. rewrite H1. rewrite (proj2 (Z.eqb_neq _ _) H2), (proj2 (Z.eqb_neq _ _) H3).
  cbn [drop_0x]. rewrite (proj2 (Z.eqb_neq _ _) H4), (proj2 (Z.eqb_neq _ _) H5). cbn [orb].
  rewrite andb_false_r. cbn [scan_hex]. rewrite hex_value_char by done. rewrite Hs. cbn [scan_hex_digits].
  change (hex_value NEWLINE) with (@None Z). cbn [option_map]. f_equal. unfold to_ull. lia.
Qed.

Section programs.
Context {L U : Type} {KM : Kmalloc} {UM : UserMemory U} {E : Environment}.
Context (mc : machine) (req1_at req2_at items_at : Z) (t b : Z).
Implicit Types (w : sys U mprobe) (u : U) (h : hit) (rs : list debug_result) (d : debugged U L) (r : debug_request).

(** ** The requests once the sections are known *)

Definition request_head r : list Z := put_u64 (of_line r) ++ le_bytes 4 (of_local r) ++ le_bytes 4 (of_gbl r).

Definition located r : debug_request :=
  {| of_line := of_line r; of_local := of_local r; of_gbl := of_gbl r; sect := {| bss := b; text := t |} |}.

Definition with_sections (rq : Z) u : U := (store (store u (rq + 24) (put_u64 t)).1 (rq + 16) (put_u64 b)).1.

Lemma store_fst_ne u a bs a' n :
  a' + Z.of_nat n <= a \/ a + Z.of_nat (length bs) <= a' -> fetch (store u a bs).1 a' n = fetch u a' n.
Proof. intros H. destruct (store u a bs) as [u' r] eqn:Es. by eapply fetch_store_ne. Qed.

Lemma store_fst_eq u a bs :
  Forall (fun c => 0 <= c < 256) bs -> writable u a (length bs) -> fetch (store u a bs).1 a (length bs) = (bs, 0).
Proof.
  intros Hb Hw. specialize (Hw bs eq_refl). destruct (store u a bs) as [u' r] eqn:Es. simpl in Hw. subst r.
  by eapply fetch_store.
Qed.

Lemma with_sections_ne rq u a n :
  a + Z.of_nat n <= rq + 16 \/ rq + 32 <= a -> fetch (with_sections rq u) a n = fetch u a n.
Proof.
  intros H. unfold with_sections.
  rewrite !store_fst_ne; [done|..]; change (length (put_u64 _)) with 8%nat; lia.
Qed.

Lemma with_sections_eq rq u r :
  fetch u rq 16 = (request_head r, 0) -> writable u (rq + 16) 8 -> writable u (rq + 24) 8 ->
  fetch (with_sections rq u) rq 32 = (put_request (located r), 0).
Proof.
  intros Hh H1 H2. change 32%nat with (16 + (8 + 8))%nat. unfold put_request. cbn [located of_line of_local of_gbl sect bss text].
  rewrite !app_assoc, <- (app_assoc _ (put_u64 b)). apply fetch_app.
  - rewrite with_sections_ne by lia. rewrite Hh. unfold request_head. by rewrite app_assoc.
  - change (Z.of_nat 16) with 16. unfold with_sections. apply fetch_app.
    + apply (store_fst_eq _ _ (put_u64 b)); [apply put_u64_bytes|by apply writable_store].
    + replace (rq + 16 + Z.of_nat 8) with (rq + 24) by lia.
      rewrite store_fst_ne by (change (length (put_u64 _)) with 8%nat; lia).
      apply (store_fst_eq _ _ (put_u64 t)); [apply put_u64_bytes|done].
Qed.

Lemma with_sections_writable rq u a n : writable u a n -> writable (with_sections rq u) a n.
Proof. intros H. by repeat apply writable_store. Qed.

(** What the source assumes of its process and of the loaded module. *)

Record ready u : Prop := {
  rd_text : text_file mc = Some (section_text t) /\ is_u64 t;
  rd_bss : bss_file mc = Some (section_text b) /\ is_u64 b;
  rd_req1 : fetch u req1_at 16 = (request_head req1, 0) /\ writable u (req1_at + 16) 8 /\ writable u (req1_at + 24) 8;
  rd_req2 : fetch u req2_at 16 = (request_head req2, 0) /\ writable u (req2_at + 16) 8 /\ writable u (req2_at + 24) 8;
  rd_apart : req1_at + 32 <= req2_at \/ req2_at + 32 <= req1_at;
  rd_items k : (k <= 10)%nat -> writable u items_at (32 * k)
}.

Definition prepared u : U := with_sections req2_at (with_sections req1_at u).

Lemma write_user_runs {S} a bs (w : sys U S) :
  writable (user w) a (length bs) -> write_user a bs w = Ok tt (with_user (store (user w) a bs).1 w).
Proof. intros H. unfold write_user. by rewrite (H bs eq_refl). Qed.

Lemma get_module_sections_ok rq w :
  text_file mc = Some (section_text t) /\ is_u64 t -> bss_file mc = Some (section_text b) /\ is_u64 b ->
  writable (user w) (rq + 16) 8 -> writable (user w) (rq + 24) 8 ->
  get_module_sections mc rq w = Ok 0 (with_user (with_sections rq (user w)) w).
Proof.
  intros [Ht It] [Hb Ib] H1 H2. unfold get_module_sections, store_section. rewrite Ht, Hb, !scan_section by done.
  erewrite bind_ok by (by apply write_user_runs).
  erewrite bind_ok by (apply write_user_runs; by apply writable_store). done.
Qed.

Lemma prepared_requests u :
  ready u -> fetch (prepared u) req1_at 32 = (put_request (located req1), 0) /\
             fetch (prepared u) req2_at 32 = (put_request (located req2), 0).
Proof.
  intros [_ _ (Hf1 & H1 & H1') (Hf2 & H2 & H2') Hap _]. unfold prepared. split.
  - rewrite with_sections_ne by lia. by apply with_sections_eq.
  - apply with_sections_eq; [rewrite with_sections_ne by lia; done|by apply with_sections_writable..].
Qed.

(** ** A call under a probe *)

Definition hits_at (a : Z) (lines : list (Z * hit)) : list hit :=
  map snd (filter (fun l => l.1 = a) lines).

Lemma probe_at_ok w rs n p a :
  mprobe_inv w rs n -> kp (st w) = Some p -> last_accepted (requests w) = true -> probe_at a w = (line_address (req (rbf (st w))) =? a).
Proof.
  intros I Hp Hacc. unfold probe_at. rewrite Hp. destruct (mi_probe _ _ _ I p Hp) as [-> _]. cbn [kp_addr].
  rewrite bool_decide_eq_true_2; [done|]. rewrite (mi_held _ _ _ I). unfold installed, probe_of. rewrite Hacc, Hp. by left.
Qed.

(** What the handler reads of a hit [h]. *)

Definition sees (mem : Z -> option Z) rq h (l g : Z) : Prop :=
  mem (local_address rq h) = Some l /\ mem (global_address rq) = Some g /\ is_Some (mem (h_bp h)).

Lemma execute_ok mem lines w rs n p hs :
  mprobe_inv w rs n -> kp (st w) = Some p -> last_accepted (requests w) = true ->
  hits_at (line_address (req (rbf (st w)))) lines = map (fun x => x.1.1) hs ->
  Forall (fun x : hit * Z * Z => sees mem (req (rbf (st w))) x.1.1 x.1.2 x.2) hs ->
  exists w', execute mem lines w = Ok tt w' /\ mprobe_inv w' (rs ++ map (fun x => result_of x.1.1 x.1.2 x.2) hs) n /\
    kp (st w') = Some p /\ last_accepted (requests w') = true /\ req (rbf (st w')) = req (rbf (st w)) /\ user w' = user w.
Proof.
  revert w rs hs. induction lines as [|[a h] lines IH]; intros w rs hs I Hp Hacc Hh Hs.
  - destruct hs; [|done]. exists w. rewrite app_nil_r. done.
  - cbn [execute]. rewrite (bind_ok _ _ _ _ _ (gets_ok _ _)), (probe_at_ok _ _ _ _ _ I Hp Hacc).
    unfold hits_at in Hh. rewrite filter_cons in Hh. cbn [fst] in Hh. destruct (Z.eqb_spec (line_address (req (rbf (st w)))) a) as [<-|Hne].
    + rewrite decide_True in Hh by done. destruct hs as [|[[h' l] g] hs]; [done|]. injection Hh as <- Hh.
      apply Forall_cons in Hs as [(Hl & Hg & fp & Hf) Hs]. cbn [fst snd] in *.
      destruct (hit_keeps mem h w rs n l g fp I Hl Hg Hf) as (s & Hrun & I' & Hkp & Hrq).
      cbn [when]. erewrite bind_ok by (by erewrite bind_ok by exact Hrun).
      destruct (IH (with_st s w) (rs ++ [result_of h l g]) hs) as (w' & Hw & Iw & ? & ? & Hr & ?); cbn [st with_st]; rewrite ?Hrq, ?Hkp; try done.
      exists w'. cbn [map fst snd]. rewrite <- app_assoc in Iw. cbn [st with_st] in Hr. rewrite Hr, Hrq. done.
    + rewrite decide_False in Hh by congruence. cbn [when]. erewrite bind_ok by reflexivity. by apply IH.
Qed.

(** ** A whole session *)

Lemma on_mprobe_ok {A} (f : M (sys U mprobe) A) d a w :
  f (probing d) = Ok a w -> on_mprobe f d = Ok a {| probing := w; target := target d |}.
Proof. intros H. unfold on_mprobe. by rewrite H. Qed.

(** The hash table once it is open. *)

Definition opened (s : ht530 L) : ht530 L :=
  {| ht530_tbl := ht530_tbl s; nodes := nodes s; cur_size := cur_size s;
     for_mprobe_test1 := 0x12345; for_mprobe_test2 := 0x54321 |}.

Lemma on_open_ok d : on_ht530 ht530_open d = Ok 0 {| probing := probing d; target := opened (target d) |}.
Proof. by destruct d as [[? ? ?] ?]. Qed.

Lemma traced_ok (f : M (sys U (ht530 L)) Z) lines d w :
  (forall w0 : sys U (ht530 L), f w0 = Ok 0 w0) -> execute (kernel_memory mc (target d)) lines (probing d) = Ok tt w ->
  traced mc f lines d = Ok 0 {| probing := w; target := target d |}.
Proof.
  intros Hf He. unfold traced. rewrite (bind_ok _ _ _ _ _ (gets_ok _ _)).
  rewrite (bind_ok _ _ _ _ _ (on_mprobe_ok _ _ _ _ He)). unfold on_ht530. rewrite Hf. by destruct w.
Qed.

Definition results_of (hs : list (hit * Z * Z)) : list debug_result := map (fun x => result_of x.1.1 x.1.2 x.2) hs.

Definition wrote (rq : Z) r : Prop := (rq = req1_at /\ r = req1) \/ (rq = req2_at /\ r = req2).

Lemma located_ok r rq : is_u64 t -> is_u64 b -> wrote rq r -> request_ok (located r).
Proof. intros Ht Hb Hw. unfold request_ok, is_u64 in *. by destruct Hw as [[_ ->]|[_ ->]]; cbn; lia. Qed.

Lemma get_sections_ok {A} d (k : M (debugged U L) A) :
  ready (user (probing d)) ->
  (on_mprobe (get_module_sections mc req1_at) ;; on_mprobe (get_module_sections mc req2_at) ;; k) d =
    k {| probing := with_user (prepared (user (probing d))) (probing d); target := target d |}.
Proof.
  intros [Ht Hb (_ & H1 & H1') (_ & H2 & H2') _ _].
  rewrite (bind_ok _ _ _ _ _ (on_mprobe_ok _ _ _ _ (get_module_sections_ok _ _ Ht Hb H1 H1'))).
  set (d1 := {| probing := _; target := _ |}).
  rewrite (bind_ok _ _ d1 _ _ (on_mprobe_ok _ d1 _ _ (get_module_sections_ok req2_at (probing d1) Ht Hb
    (with_sections_writable _ _ _ _ H2) (with_sections_writable _ _ _ _ H2')))).
  done.
Qed.

Lemma write_located d rs n rq r :
  register_replies -> mprobe_inv (probing d) rs n -> ready (user (probing d)) -> wrote rq r ->
  is_Some (kmalloc (allocated (st (probing d)))) -> line_address (located r) <> 0 ->
  exists w p, mprobe_write rq (with_user (prepared (user (probing d))) (probing d)) = Ok 0 w /\ mprobe_inv w rs (S n) /\
    kp (st w) = Some p /\ last_accepted (requests w) = true /\ req (rbf (st w)) = located r /\ user w = prepared (user (probing d)).
Proof.
  intros Hr I Hu Hw Hm Ha. pose proof (prepared_requests _ Hu) as [H1 H2].
  assert (fetch (prepared (user (probing d))) rq sizeof_debug_request = (put_request (located r), 0)) as Hf.
  { by destruct Hw as [[-> ->]|[-> ->]]. }
  assert (request_at (prepared (user (probing d))) rq = located r) as Hrq.
  { unfold request_at. rewrite Hf. cbn [fst]. rewrite <- (app_nil_r (put_request _)).
    destruct Hu as [[_ ?] [_ ?] _ _ _ _]. apply get_put_request. by apply (located_ok r rq). }
  destruct (write_ok (with_user (prepared (user (probing d))) (probing d)) rs n rq (put_request (located r)))
    as (w & p & ? & ? & Huser & ? & _ & Hreq & _ & l & Hacc); cbn [user with_user]; rewrite ?Hrq in *; try done.
  - by apply with_user_inv.
  - exists w, p. cbn [user with_user] in *. rewrite Hrq in Hreq. rewrite Hr in Hacc. done.
Qed.

Lemma session_ok d rs n rq r hs1 hs2 :
  register_replies -> mprobe_inv (probing d) rs n -> ready (user (probing d)) -> wrote rq r ->
  is_Some (kmalloc (allocated (st (probing d)))) -> line_address (located r) <> 0 ->
  hits_at (line_address (located r)) (flock_lines mc) = map (fun x => x.1.1) hs1 ->
  hits_at (line_address (located r)) (fsync_lines mc) = map (fun x => x.1.1) hs2 ->
  Forall (fun x : hit * Z * Z => sees (kernel_memory mc (opened (target d))) (located r) x.1.1 x.1.2 x.2) (hs1 ++ hs2) ->
  let rs' := rs ++ results_of (hs1 ++ hs2) in
  Forall (fun x : debug_result => xtc x <> 0 /\ result_ok x) rs' -> rs' <> [] ->
  exists items d', debug_session mc req1_at req2_at items_at rq d = Ok (Some items) d' /\
    mprobe_inv (probing d') rs' (S n) /\ items ≡ₚ drop (length rs' - 10) rs' /\
    ((length rs' <= 10)%nat -> items = rs').
Proof.
  intros Hr I Hu Hw Hm Ha H1 H2 [Hs1 Hs2]%Forall_app rs' Hok Hne.
  destruct (write_located _ _ _ _ _ Hr I Hu Hw Hm Ha) as (w & p & Hwr & Iw & Hp & Hacc & Hreq & Huser).
  rewrite <- Hreq in *. set (s := opened (target d)) in *.
  destruct (execute_ok (kernel_memory mc s) _ _ _ _ _ hs1 Iw Hp Hacc H1 Hs1) as (w1 & Hx1 & I1 & Hp1 & Hacc1 & Hreq1 & Hu1).
  rewrite <- Hreq1 in H2, Hs2.
  destruct (execute_ok (kernel_memory mc s) _ _ _ _ _ hs2 I1 Hp1 Hacc1 H2 Hs2) as (w2 & Hx2 & I2 & Hp2 & _ & Hreq2 & Hu2).
  rewrite <- app_assoc in I2. change (map _ hs1) with (results_of hs1) in I2. change (map _ hs2) with (results_of hs2) in I2.
  unfold results_of in I2 at 1 2. rewrite <- map_app in I2. change (mprobe_inv w2 rs' (S n)) in I2.
  destruct (read_prints w2 rs' (S n) items_at I2 Hok) as (items & Hperm & Hfew & Hread).
  { rewrite Hu2, Hu1, Huser. unfold prepared. do 2 apply with_sections_writable. apply Hu. lia. }
  rewrite decide_False in Hread by done. destruct Hread as (u' & Hread & Hprint).
  exists items, {| probing := with_user u' w2; target := s |}. split_and!; [|by apply with_user_inv|done..].
  unfold debug_session. erewrite bind_ok by (by apply on_mprobe_ok).
  rewrite (bind_ok _ _ _ _ _ (on_open_ok _)). fold s.
  rewrite get_sections_ok by done. cbn [probing target].
  rewrite (bind_ok _ _ _ _ _ (on_mprobe_ok _ {| probing := _; target := s |} _ _ Hwr)).
  erewrite bind_ok by (by apply traced_ok). erewrite bind_ok by (by apply traced_ok).
  rewrite (bind_ok _ _ _ _ _ (on_mprobe_ok _ {| probing := _; target := s |} _ _ Hread)).
  rewrite (proj2 (Z.ltb_ge _ 0)) by lia. rewrite (bind_ok _ _ _ _ _ (gets_ok _ _)).
  cbn [probing user with_user]. replace (Z.to_nat (32 * _)) with (32 * (length rs' `min` 10))%nat by lia.
  rewrite Hprint. reflexivity.
Qed.

(** ** The two programs *)

Inductive program := Test1 | Test2.

Definition program_main (p : program) : M (debugged U L) (option (list debug_result)) :=
  match p with
  | Test1 => test1_main mc req1_at req2_at items_at
  | Test2 => test2_main mc req1_at req2_at items_at
  end.

Definition program_request (p : program) : debug_request := match p with Test1 => req1 | Test2 => req2 end.

(** The compiled module is the one the offsets of the request were taken from:
    one call of the function executes the line once, with the stack pointer at
    the function's variable. *)

Record breaks_once (p : program) h : Prop := {
  bo_lines : (hits_at (line_address (located (program_request p))) (flock_lines mc),
              hits_at (line_address (located (program_request p))) (fsync_lines mc)) =
             match p with Test1 => ([], [h]) | Test2 => ([h], []) end;
  bo_line : line_address (located (program_request p)) <> 0;
  bo_words : is_u64 (h_sp h) /\ is_u64 (h_ip h) /\ is_u64 (h_pid h) /\ is_u64 (h_cycles h) /\ h_cycles h <> 0
}.

(** The global the request points at. *)

Definition global_at (p : program) : Z := u64 (b + of_gbl (program_request p)).

Definition is_int (z : Z) : Prop := - 2 ^ 31 <= z < 2 ^ 31.

(** What the break finds in memory once the table is open: an [int] [l] on top
    of the stack, the [int] [g] at the global's address, and a frame. *)

Definition finds (s : ht530 L) (p : program) h (l g : Z) : Prop :=
  kernel_memory mc (opened s) (h_sp h) = Some l /\ kernel_memory mc (opened s) (global_at p) = Some g /\
  is_Some (kernel_memory mc (opened s) (h_bp h)) /\ is_int l /\ is_int g.

Lemma finds_sees p h s l g : breaks_once p h -> finds s p h l g ->
  sees (kernel_memory (L := L) mc (opened s)) (located (program_request p)) h l g.
Proof.
  intros [_ _ [Hsp _]] (Hl & Hg & Hf & _). unfold sees, local_address, global_address.
  assert (of_local (located (program_request p)) = 0) as -> by by destruct p.
  rewrite Z.add_0_r, wrap_small by done. done.
Qed.

Lemma finds_ok p h s l g : breaks_once p h -> finds s p h l g -> xtc (result_of h l g) <> 0 /\ result_ok (result_of h l g).
Proof.
  intros [_ _ (_ & ? & ? & ? & ?)] (_ & _ & _ & ? & ?). unfold result_ok, is_u64, is_int in *. cbn. lia.
Qed.

(** C13: One driver debugs the other.  Whatever was recorded before, a run of
    test 1 (test 2) finds the module's sections, moves the probe to its line
    of the hash table driver, and prints, after the earlier results, the hit
    of that line in [ht530_fsync] ([ht530_flock]) with the [int] on top of
    the stack and the [int] at the requested offset of the bss section; with
    ten results before, the oldest is gone.  The global is 0x12345 where the
    compiler put [for_mprobe_test1] at that offset, as the program's comment
    says, and 0x54321 where it put [for_mprobe_test2] there, as in the
    session of mprobe/README. It takes that kmalloc has memory for the
    probe, that the kernel accepts it, that one call executes the line once,
    that the stack and the global can be read there, that the program's
    variables are writable and sysfs shows it the sections, and that no time
    stamp is 0, which a read takes for an empty slot. *)

Theorem test_programs_show_break p d rs n h l g :
  register_replies -> mprobe_inv (probing d) rs n -> ready (user (probing d)) ->
  is_Some (kmalloc (allocated (st (probing d)))) -> breaks_once p h -> finds (target d) p h l g ->
  Forall (fun x : debug_result => xtc x <> 0 /\ result_ok x) rs ->
  (exists items d', program_main p d = Ok (Some items) d' /\
    mprobe_inv (probing d') (rs ++ [result_of h l g]) (S n) /\
    items ≡ₚ drop (length rs - 9) (rs ++ [result_of h l g]) /\
    ((length rs < 10)%nat -> items = rs ++ [result_of h l g])) /\
  (at_test1 mc = global_at p -> g = 0x12345) /\
  (at_test2 mc = global_at p -> at_test1 mc <> at_test2 mc -> g = 0x54321).
Proof.
  intros Hr I Hu Hm Hb Hg Hok. pose proof (finds_sees p h _ l g Hb Hg) as Hs. pose proof (finds_ok p h _ l g Hb Hg) as Hsh.
  pose proof (bo_lines _ _ Hb) as Hl. pose proof (bo_line _ _ Hb) as Ha. split.
  2: { destruct Hg as (_ & Hg & _). unfold kernel_memory in Hg. split.
       - intros Et. rewrite Et, Z.eqb_refl in Hg. by injection Hg as <-.
       - intros Et Hne. rewrite Et in Hne. rewrite Et, (proj2 (Z.eqb_neq _ _) (not_eq_sym Hne)), Z.eqb_refl in Hg. by injection Hg as <-. }
  set (x := (h, l, g)).
  assert (exists rq hs1 hs2, wrote rq (program_request p) /\ program_main p = debug_session mc req1_at req2_at items_at rq /\
    hs1 ++ hs2 = [x] /\ hits_at (line_address (located (program_request p))) (flock_lines mc) = map (fun x => x.1.1) hs1 /\
    hits_at (line_address (located (program_request p))) (fsync_lines mc) = map (fun x => x.1.1) hs2) as (rq & hs1 & hs2 & Hw & -> & Hx & H1 & H2).
  { destruct p; [exists req1_at, [], [x]|exists req2_at, [x], []]; cbn [program_request] in *; injection Hl as -> ->; split_and!; try done; [by left|by right]. }
  assert (results_of [x] = [result_of h l g]) as Hres by done.
  destruct (session_ok d rs n rq _ hs1 hs2 Hr I Hu Hw Hm Ha H1 H2) as (items & d' & Hrun & I' & Hp & Hfew);
    rewrite ?Hx, ?Hres.
  - by apply Forall_singleton.
  - apply Forall_app. split; [done|by apply Forall_singleton].
  - by destruct rs.
  - rewrite Hx, Hres in *. exists items, d'. rewrite length_app in *. cbn [length] in *.
    replace (length rs + 1 - 10)%nat with (length rs - 9)%nat in Hp by lia. split_and!; try done. intros. apply Hfew. lia.
Qed.
End programs.

(** ** The README's session: test 1, then test 2

    The README prints 0x54321 for test 1, so [for_mprobe_test2] is at 0x424;
    its line for test 2 has 0x54321 too, which no layout gives to both
    offsets; here [for_mprobe_test1] is at 0x420. *)

#[local] Instance succeed : Environment := all_succeed.

Definition text_section : Z := 0xffffffffa04c2000.

Definition bss_section : Z := 0xffffffffa04c4000.

Definition fsync_hit : hit :=
  {| h_ip := 0xffffffffa04c209a; h_sp := 0xffff880070001000; h_bp := 0xffff880070001020; h_pid := 8270; h_cycles := 15669393845297 |}.

Definition flock_hit : hit :=
  {| h_ip := 0xffffffffa04c210a; h_sp := 0xffff880070002000; h_bp := 0xffff880070002020; h_pid := 8299; h_cycles := 15965159589766 |}.

Definition kernel_stack (a : Z) : option Z :=
  if a =? h_sp fsync_hit then Some xmen2 else if a =? h_sp flock_hit then Some superman2
  else if (a =? h_bp fsync_hit) || (a =? h_bp flock_hit) then Some 0 else None.

Definition pc_64 : machine :=
  {| text_file := Some (section_text text_section); bss_file := Some (section_text bss_section);
     at_test1 := bss_section + 0x420; at_test2 := bss_section + 0x424;
     flock_lines := [(text_section + 0x100, flock_hit); (text_section + 0x109, flock_hit)];
     fsync_lines := [(text_section + 0x90, fsync_hit); (text_section + 0x99, fsync_hit)];
     stack := kernel_stack |}.

Definition process : gmap Z Z :=
  (map_store (map_store (mapped 4096 400) 4096 (request_head req1)).1 4128 (request_head req2)).1.

Definition loaded_drivers : debugged (gmap Z Z) (list loc) :=
  {| probing := match mprobe_init {| st := mprobe_static; requests := []; user := process |} with
                | Ok _ w | Crash _ w | Blocked w => w end;
     target := ht530_static |}.

Lemma process_writable a n : 4096 <= a -> a + Z.of_nat n <= 4496 -> writable process a n.
Proof.
  intros Ha Hn. apply writable_map.
  - intros i Hi. do 2 apply map_store_dom. replace (a + i) with (4096 + (a - 4096 + i)) by lia. apply mapped_is_Some. lia.
  - unfold map_access_ok, user_top. destruct (Z.leb_spec 0 a), (Z.ltb_spec a (2 ^ 47)); lia || done.
Qed.

Lemma process_ready : ready pc_64 4096 4128 4160 text_section bss_section process.
Proof.
  split; [split; [done|by vm_compute]..|split_and!|split_and!|lia|intros k Hk; apply process_writable; lia].
  1, 4: vm_compute; reflexivity.
  all: apply process_writable; lia.
Qed.

Lemma readme_breaks : breaks_once pc_64 text_section bss_section Test1 fsync_hit /\
  breaks_once pc_64 text_section bss_section Test2 flock_hit.
Proof.
  split; split; try (vm_compute; reflexivity); by vm_compute.
Qed.

Definition fsync_result : debug_result := result_of fsync_hit xmen2 0x54321.

Definition flock_result : debug_result := result_of flock_hit superman2 0x12345.

Lemma readme_finds (s : ht530 (list loc)) :
  finds pc_64 bss_section s Test1 fsync_hit xmen2 0x54321 /\ finds pc_64 bss_section s Test2 flock_hit superman2 0x12345.
Proof. split; (split_and!; [vm_compute; reflexivity|vm_compute; reflexivity|vm_compute; by eexists|by vm_compute..]). Qed.

Lemma test_programs_show_break_witness : exists d1 d2,
  program_main pc_64 4096 4128 4160 Test1 loaded_drivers = Ok (Some [fsync_result]) d1 /\
  program_main pc_64 4096 4128 4160 Test2 {| probing := with_user process (probing d1); target := target d1 |} =
    Ok (Some [fsync_result; flock_result]) d2.
Proof.
  destruct readme_breaks as [B1 B2].
  destruct (test_programs_show_break pc_64 4096 4128 4160 text_section bss_section Test1 loaded_drivers [] 0 fsync_hit
    xmen2 0x54321) as [(items1 & d1 & H1 & I1 & _ & E1) _].
  - by intros t p.
  - eapply (mprobe_init_ok process); [by constructor|vm_compute; reflexivity].
  - apply process_ready.
  - by eexists.
  - exact B1.
  - apply readme_finds.
  - constructor.
  - destruct (test_programs_show_break pc_64 4096 4128 4160 text_section bss_section Test2
      {| probing := with_user process (probing d1); target := target d1 |} [fsync_result] 1 flock_hit
      superman2 0x12345) as [(items2 & d2 & H2 & _ & _ & E2) _].
    + by intros t p.
    + by apply with_user_inv.
    + apply process_ready.
    + by eexists.
    + exact B2.
    + apply readme_finds.
    + apply Forall_singleton. by apply (finds_ok pc_64 text_section bss_section Test1 fsync_hit (target loaded_drivers)); [exact B1|apply readme_finds].
    + exists d1, d2. rewrite E1 in H1 by (simpl; lia). rewrite E2 in H2 by (simpl; lia). exact (conj H1 H2).
Defined.
