(* ===== verification/HwPins.v ===== *)
(** * The pin tables of the Galileo board and the GPIO set-up

    Each physical pin is a row: its Linux GPIO, and the GPIOs that select its
    level shifter, pull resistor and two multiplexers (-1: none).  A trigger
    uses all of them but the pull, an echo all of them.
    Source: 02_Concurrent_HC-SR04_miscdeivces/hw_setting.h (repeated in 03)
    and hc_sr04_kernel.h. *)

From S2P Require Import Prelude Kernel.

Definition PULL_DOWN : Z := 0.
Definition PULL_UP : Z := 1.
Definition DIR_IN : Z := 1.
Definition DIR_OUT : Z := 0.
Definition HC_GPIO_LINUX : Z := 0.
Definition HC_GPIO_LEVEL : Z := 1.
Definition HC_GPIO_PULL : Z := 2.
Definition HC_GPIO_MUX0 : Z := 3.
Definition HC_GPIO_MUX1 : Z := 4.
Definition PHY_IO_NUM : Z := 20.
Definition HCSR_A_TRIG_PIN : Z := 6.
Definition HCSR_A_ECHO_PIN : Z := 15.
Definition HCSR_B_TRIG_PIN : Z := 10.
Definition HCSR_B_ECHO_PIN : Z := 1.

(** A row: pairs (GPIO, value) indexed by the constants above. *)

Abbreviation row := (list (Z * Z)).

Definition A_pins : list row :=
  [ [(HCSR_A_TRIG_PIN, 0); (36, DIR_OUT); (-1, -1);         (-1, -1); (-1, -1)];
    [(HCSR_A_ECHO_PIN, 0); (42, DIR_IN);  (43, PULL_DOWN);  (-1, -1); (-1, -1)] ].

Definition B_pins : list row :=
  [ [(HCSR_B_TRIG_PIN, 0); (26, DIR_OUT); (-1, -1);         (74, 0);  (-1, -1)];
    [(HCSR_B_ECHO_PIN, 0); (20, DIR_IN);  (21, PULL_DOWN);  (68, 0);  (-1, -1)] ].

Definition all_pins : list row :=
  [ (* IO 0 *) [(11, 0); (32, -1);      (33, PULL_DOWN); (-1, -1); (-1, -1)];
    (* IO 1 *) [(12, 0); (28, -1);      (29, PULL_DOWN); (45, 0);  (-1, -1)];
    (* IO 2 *) [(13, 0); (34, -1);      (35, PULL_DOWN); (77, 0);  (-1, -1)];
    (* IO 3 *) [(14, 0); (16, -1);      (17, PULL_DOWN); (76, 0);  (64, 0)];
    (* IO 4 *) [(6, 0);  (36, -1);      (37, PULL_DOWN); (-1, -1); (-1, -1)];
    (* IO 5 *) [(0, 0);  (18, -1);      (19, PULL_DOWN); (66, 0);  (-1, -1)];
    (* IO 6 *) [(1, 0);  (20, -1);      (21, PULL_DOWN); (68, 0);  (-1, -1)];
    (* IO 7 *) [(38, 0); (-1, DIR_OUT); (-1, PULL_DOWN); (-1, -1); (-1, -1)];
    (* IO 8 *) [(40, 0); (-1, DIR_OUT); (-1, PULL_DOWN); (-1, -1); (-1, -1)];
    (* IO 9 *) [(4, 0);  (22, -1);      (23, PULL_DOWN); (70, 0);  (-1, -1)];
    (* IO10 *) [(10, 0); (26, -1);      (27, PULL_DOWN); (74, 0);  (-1, -1)];
    (* IO11 *) [(5, 0);  (24, -1);      (25, PULL_DOWN); (44, 0);  (72, 0)];
    (* IO12 *) [(15, 0); (42, -1);      (43, PULL_DOWN); (-1, -1); (-1, -1)];
    (* IO13 *) [(7, 0);  (30, -1);      (31, PULL_DOWN); (46, 0);  (-1, -1)];
    (* IO14 *) [(48, 0); (-1, DIR_OUT); (-1, PULL_DOWN); (-1, -1); (-1, -1)];
    (* IO15 *) [(50, 0); (-1, DIR_OUT); (-1, PULL_DOWN); (-1, -1); (-1, -1)];
    (* IO16 *) [(52, 0); (-1, DIR_OUT); (-1, PULL_DOWN); (-1, -1); (-1, -1)];
    (* IO17 *) [(54, 0); (-1, DIR_OUT); (-1, PULL_DOWN); (-1, -1); (-1, -1)];
    (* IO18 *) [(56, 0); (-1, DIR_OUT); (-1, PULL_DOWN); (-1, -1); (-1, -1)];
    (* IO19 *) [(58, 0); (-1, DIR_OUT); (-1, PULL_DOWN); (-1, -1); (-1, -1)] ].

(** [all_pins[i][HC_GPIO_LINUX][PIN_INDEX]]. *)

Definition linux_pin (r : row) : Z := match r with (p, _) :: _ => p | [] => -1 end.

Section pins.
Context {U S : Type} {E : Environment}.

(** The loops over the table: the body of the inner loop gets the index [m]
    and the pair; [Some ret] leaves the function. *)

Fixpoint for_row (body : Z -> Z * Z -> M (sys U S) (option Z)) (m : Z) (es : row) : M (sys U S) (option Z) :=
  match es with
  | [] => mret None
  | e :: es =>
      r ← body m e;
      match r with
      | Some ret => mret (Some ret)
      | None => for_row body (m + 1) es
      end
  end.

Fixpoint for_pins (body : Z -> Z * Z -> M (sys U S) (option Z)) (pin : Z) (rows : list row) :
    M (sys U S) (option Z) :=
  match rows with
  | [] => mret None
  | r :: rows =>
      if negb (pin =? linux_pin r) then for_pins body pin rows else
      x ← for_row body 0 r;
      match x with
      | Some ret => mret (Some ret)
      | None => for_pins body pin rows
      end
  end.

Definition free_trig_entry (m : Z) (e : Z * Z) : M (sys U S) (option Z) :=
  if m =? HC_GPIO_PULL then mret None else
  if e.1 =? -1 then mret None else
  kcall_ (Gpio_free e.1) ;;
  mret None.

Definition freeTrig (pin : Z) : M (sys U S) Z :=
  for_pins free_trig_entry pin all_pins ;;
  mret 0.

Definition free_echo_entry (m : Z) (e : Z * Z) : M (sys U S) (option Z) :=
  if e.1 =? -1 then mret None else
  kcall_ (Gpio_free e.1) ;;
  mret None.

Definition freeEcho (pin : Z) : M (sys U S) Z :=
  for_pins free_echo_entry pin all_pins ;;
  mret 0.

(** ERR_OPER_RETURN: only [pin] itself is given back. *)

Definition check_oper (pin ret : Z) : M (sys U S) (option Z) :=
  if negb (ret =? 0) then
    kcall_ (Gpio_free pin) ;;
    mret (Some ret)
  else mret None.

Definition set_trig_entry (pin m : Z) (e : Z * Z) : M (sys U S) (option Z) :=
  if m =? HC_GPIO_PULL then mret None else
  if e.1 =? -1 then mret None else
  ret ← kcall (Gpio_request e.1);
  if negb (ret =? 0) then mret (Some ret) else
  if (m =? HC_GPIO_MUX0) || (m =? HC_GPIO_MUX1) then
    kcall_ (Gpio_direction_output e.1 e.2) ;;
    mret None
  else if m =? HC_GPIO_LEVEL then
    ret ← kcall (Gpio_direction_output e.1 DIR_OUT);
    check_oper pin ret
  else if m =? HC_GPIO_LINUX then
    ret ← kcall (Gpio_direction_output e.1 0);
    check_oper pin ret
  else mret None.

Definition setTrig (pin : Z) : M (sys U S) Z :=
  r ← for_pins (set_trig_entry pin) pin all_pins;
  match r with
  | Some _ => mret (- EINVAL)
  | None => mret 0
  end.

Definition set_echo_entry (pin m : Z) (e : Z * Z) : M (sys U S) (option Z) :=
  if e.1 =? -1 then mret None else
  ret ← kcall (Gpio_request e.1);
  if negb (ret =? 0) then mret (Some ret) else
  if (m =? HC_GPIO_MUX0) || (m =? HC_GPIO_MUX1) then
    kcall_ (Gpio_direction_output e.1 e.2) ;;
    mret None
  else if m =? HC_GPIO_PULL then
    kcall_ (Gpio_direction_output e.1 PULL_DOWN) ;;
    mret None
  else if m =? HC_GPIO_LEVEL then
    ret ← kcall (Gpio_direction_output e.1 DIR_IN);
    check_oper pin ret
  else if m =? HC_GPIO_LINUX then
    ret ← kcall (Gpio_direction_input e.1);
    check_oper pin ret
  else mret None.

Definition setEcho (pin : Z) : M (sys U S) Z :=
  r ← for_pins (set_echo_entry pin) pin all_pins;
  match r with
  | Some _ => mret (- EINVAL)
  | None => mret 0
  end.
End pins.

(** Conversion unfolds these before the loop over the table. *)

#[global] Strategy expand [setTrig setEcho freeTrig freeEcho].
