(* ===== verification/HwPinsSpec.v ===== *)
(** * The GPIO set-up: what it acquires and gives back *)

From S2P Require Import Prelude Kernel HwPins.

(** The GPIOs of a row that a trigger or an echo uses. *)

Fixpoint trig_gpios (m : Z) (es : row) : list Z :=
  match es with
  | [] => []
  | e :: es =>
      (if (m =? HC_GPIO_PULL) || (e.1 =? -1) then [] else [e.1]) ++ trig_gpios (m + 1) es
  end.

Fixpoint echo_gpios (es : row) : list Z :=
  match es with
  | [] => []
  | e :: es => (if e.1 =? -1 then [] else [e.1]) ++ echo_gpios es
  end.

Definition row_of (pin : Z) : option row := List.find (fun r => pin =? linux_pin r) all_pins.

Definition trig_pins (pin : Z) : list Z := match row_of pin with Some r => trig_gpios 0 r | None => [] end.

Definition echo_pins (pin : Z) : list Z := match row_of pin with Some r => echo_gpios r | None => [] end.

(** What a call did besides its result: the requests it added. *)

Definition same_world {U S} (w w' : sys U S) : Prop := st w' = st w /\ user w' = user w.

Section pins.
Context {U S : Type} {E : Environment}.
Implicit Types (w : sys U S) (es : row).

(** A GPIO that nobody holds is granted, and the direction of one that is held
    can be set.  Nothing is said of the request for a GPIO that is held, which
    gpiolib answers with -EBUSY. *)

Definition gpio_works : Prop := forall t g,
  (Gpio_request g ∉ held t -> reply t (Gpio_request g) = 0) /\
  (Gpio_request g ∈ held t -> (forall v, reply t (Gpio_direction_output g v) = 0) /\ reply t (Gpio_direction_input g) = 0).

Definition unheld (gs : list Z) (l : list request) : Prop := forall g, g ∈ gs -> Gpio_request g ∉ l.

Definition requests_of (gs : list Z) : list request := map Gpio_request gs.

Definition acquired w w' (gs : list Z) : Prop :=
  same_world w w' /\ held (requests w') = reverse (requests_of gs) ++ held (requests w) /\
  (clean (requests w) = true -> clean (requests w') = true).

Definition released w w' (gs : list Z) : Prop :=
  same_world w w' /\ held (requests w') = filter (fun x => x ∉ requests_of gs) (held (requests w)) /\
  (clean (requests w) = true -> NoDup gs -> (forall g, g ∈ gs -> Gpio_request g ∈ held (requests w)) ->
   clean (requests w') = true).

Lemma acquired_refl w : acquired w w [].
Proof. done. Qed.

Lemma acquired_trans w1 w2 w3 gs hs : acquired w1 w2 gs -> acquired w2 w3 hs -> acquired w1 w3 (gs ++ hs).
Proof.
  intros ([S1 S2] & H1 & C1) ([E1 E2] & H2 & C2). split; [split; congruence|]. split; [|auto].
  unfold requests_of in *. by rewrite H2, H1, map_app, reverse_app, app_assoc.
Qed.

Lemma released_refl w : released w w [].
Proof.
  split; [done|]. split; [|done]. induction (held (requests w)) as [|c h IH]; [done|].
  rewrite filter_cons_True by (by apply not_elem_of_nil). by f_equal.
Qed.

Lemma released_cons w1 w2 g gs :
  released (log_request (Gpio_free g) (reply (requests w1) (Gpio_free g)) w1) w2 gs -> released w1 w2 (g :: gs).
Proof.
  intros ([E1 E2] & H & C). split; [done|]. cbn [log_request requests held track acquires acquired_by] in *. split.
  - rewrite H, list_filter_filter. apply list_filter_iff. intros x. unfold requests_of. cbn [map].
    rewrite not_elem_of_cons. tauto.
  - intros Hc Hd Hg. apply NoDup_cons in Hd as [Hn Hd]. apply C; [|done|].
    + cbn [log_request requests clean acquired_by]. rewrite Hc. apply bool_decide_eq_true, Hg. by left.
    + intros x Hx. apply list_elem_of_filter. split; [|by apply Hg; right]. intros [= ->]. done.
Qed.

(** ** The inner loops *)

Lemma free_trig_entry_ok m e w :
  exists w', free_trig_entry m e w = Ok None w' /\ forall w2 gs, released w' w2 gs ->
    released w w2 ((if (m =? HC_GPIO_PULL) || (e.1 =? -1) then [] else [e.1]) ++ gs).
Proof.
  unfold free_trig_entry. destruct (m =? HC_GPIO_PULL), (e.1 =? -1); cbn [orb app].
  1-3: by exists w.
  erewrite bind_ok by apply kcall__ok. eexists. split; [done|]. intros w2 gs. apply released_cons.
Qed.

Lemma free_echo_entry_ok m e w :
  exists w', free_echo_entry m e w = Ok None w' /\ forall w2 gs, released w' w2 gs ->
    released w w2 ((if e.1 =? -1 then [] else [e.1]) ++ gs).
Proof.
  unfold free_echo_entry. destruct (e.1 =? -1); cbn [app]; [by exists w|].
  erewrite bind_ok by apply kcall__ok. eexists. split; [done|]. intros w2 gs. apply released_cons.
Qed.

Lemma free_trig_row m es w :
  exists w', for_row free_trig_entry m es w = Ok None w' /\ released w w' (trig_gpios m es).
Proof.
  revert m w. induction es as [|e es IH]; intros m w; [exists w; split; [done|apply released_refl]|].
  cbn [for_row trig_gpios]. destruct (free_trig_entry_ok m e w) as (w1 & H1 & R1).
  rewrite (bind_ok _ _ _ _ _ H1). destruct (IH (m + 1) w1) as (w2 & H2 & R2). exists w2. split; [done|auto].
Qed.

Lemma free_echo_row m es w :
  exists w', for_row free_echo_entry m es w = Ok None w' /\ released w w' (echo_gpios es).
Proof.
  revert m w. induction es as [|e es IH]; intros m w; [exists w; split; [done|apply released_refl]|].
  cbn [for_row echo_gpios]. destruct (free_echo_entry_ok m e w) as (w1 & H1 & R1).
  rewrite (bind_ok _ _ _ _ _ H1). destruct (IH (m + 1) w1) as (w2 & H2 & R2). exists w2. split; [done|auto].
Qed.

(** Acquiring one GPIO, whatever is then set on it. *)

Lemma acquired_one w g c r :
  acquires c = false -> acquired_by c = None -> acquired w (log_request c r (log_request (Gpio_request g) 0 w)) [g].
Proof.
  intros H1 H2. split; [done|]. cbn [log_request requests held clean]. unfold track.
  rewrite H1, H2. cbn. split; [done|]. intros ->. done.
Qed.

Lemma request_works w g : gpio_works -> Gpio_request g ∉ held (requests w) ->
  kcall (Gpio_request g) w = Ok 0 (log_request (Gpio_request g) 0 w).
Proof. intros Hg Hn. rewrite kcall_ok. by rewrite (proj1 (Hg (requests w) g) Hn). Qed.

Lemma output_works w g v : gpio_works -> let w1 := log_request (Gpio_request g) 0 w in
  kcall (Gpio_direction_output g v) w1 = Ok 0 (log_request (Gpio_direction_output g v) 0 w1).
Proof.
  intros Hg w1. rewrite kcall_ok. destruct (proj2 (Hg (requests w1) g)) as [Hr _]; [by left|]. by rewrite Hr.
Qed.

Lemma input_works w g : gpio_works -> let w1 := log_request (Gpio_request g) 0 w in
  kcall (Gpio_direction_input g) w1 = Ok 0 (log_request (Gpio_direction_input g) 0 w1).
Proof.
  intros Hg w1. rewrite kcall_ok. destruct (proj2 (Hg (requests w1) g)) as [_ Hr]; [by left|]. by rewrite Hr.
Qed.

(** What was acquired is not in the way of what is asked for next. *)

Lemma acquired_unheld w w' gs hs : acquired w w' gs -> NoDup (gs ++ hs) -> unheld hs (held (requests w)) -> unheld hs (held (requests w')).
Proof.
  intros (_ & H & _) Hd Hu g Hg. rewrite H, elem_of_app, elem_of_reverse. intros [Hin|Hin]; [|by apply (Hu g)].
  apply list_elem_of_In, in_map_iff in Hin as (x & [= ->] & Hx%list_elem_of_In).
  apply NoDup_app in Hd as (_ & Hd & _). by apply (Hd g).
Qed.

Lemma check_oper_ok pin w : check_oper pin 0 w = Ok None w.
Proof. done. Qed.

Definition set_entry_acquires (body : Z -> Z * Z -> M (sys U S) (option Z)) (gs : Z -> Z * Z -> list Z) : Prop :=
  forall m e w, 0 <= m < 5 -> unheld (gs m e) (held (requests w)) ->
  exists w', body m e w = Ok None w' /\ acquired w w' (gs m e).

Lemma set_trig_entry_ok pin : gpio_works ->
  set_entry_acquires (set_trig_entry pin) (fun m e => if (m =? HC_GPIO_PULL) || (e.1 =? -1) then [] else [e.1]).
Proof.
  intros Hg m e w Hm Hu. unfold set_trig_entry.
  destruct (Z.eqb_spec m HC_GPIO_PULL) as [->|Hpull]; cbn [orb] in *; [exists w; split; [done|apply acquired_refl]|].
  destruct (e.1 =? -1); [exists w; split; [done|apply acquired_refl]|].
  rewrite (bind_ok _ _ _ _ _ (request_works w e.1 Hg (Hu e.1 ltac:(by left)))). cbn [Z.eqb negb].
  unfold HC_GPIO_MUX0, HC_GPIO_MUX1, HC_GPIO_LEVEL, HC_GPIO_LINUX, HC_GPIO_PULL in *.
  destruct (Z.eqb_spec m 3), (Z.eqb_spec m 4), (Z.eqb_spec m 1), (Z.eqb_spec m 0); cbn [orb]; try lia.
  all: try (erewrite bind_ok by apply kcall__ok).
  all: try (erewrite bind_ok by (by apply output_works); rewrite check_oper_ok).
  all: eexists; split; [reflexivity|]; by apply acquired_one.
Qed.

Lemma set_echo_entry_ok pin : gpio_works ->
  set_entry_acquires (set_echo_entry pin) (fun _ e => if e.1 =? -1 then [] else [e.1]).
Proof.
  intros Hg m e w Hm Hu. unfold set_echo_entry.
  destruct (e.1 =? -1); [exists w; split; [done|apply acquired_refl]|].
  rewrite (bind_ok _ _ _ _ _ (request_works w e.1 Hg (Hu e.1 ltac:(by left)))). cbn [Z.eqb negb].
  unfold HC_GPIO_MUX0, HC_GPIO_MUX1, HC_GPIO_LEVEL, HC_GPIO_LINUX, HC_GPIO_PULL in *.
  destruct (Z.eqb_spec m 3), (Z.eqb_spec m 4), (Z.eqb_spec m 2), (Z.eqb_spec m 1), (Z.eqb_spec m 0); cbn [orb]; try lia.
  all: try (erewrite bind_ok by apply kcall__ok).
  all: try (erewrite bind_ok by (first [by apply output_works|by apply input_works]); rewrite check_oper_ok).
  all: eexists; split; [reflexivity|]; by apply acquired_one.
Qed.

Lemma set_trig_row pin es m w : gpio_works -> 0 <= m -> m + Z.of_nat (length es) <= 5 ->
  NoDup (trig_gpios m es) -> unheld (trig_gpios m es) (held (requests w)) ->
  exists w', for_row (set_trig_entry pin) m es w = Ok None w' /\ acquired w w' (trig_gpios m es).
Proof.
  intros Hg. revert m w. induction es as [|e es IH]; intros m w Hm Hl Hd Hu; [exists w; split; [done|apply acquired_refl]|].
  cbn [for_row trig_gpios length] in *. destruct (set_trig_entry_ok pin Hg m e w) as (w1 & H1 & A1); [lia| |].
  { intros g Hin. apply Hu, elem_of_app. by left. }
  rewrite (bind_ok _ _ _ _ _ H1). destruct (IH (m + 1) w1) as (w2 & H2 & A2); [lia..| | |].
  { by apply NoDup_app in Hd as (_ & _ & Hd). }
  { eapply acquired_unheld; [exact A1|exact Hd|]. intros g Hin. apply Hu, elem_of_app. by right. }
  exists w2. split; [done|]. by eapply acquired_trans.
Qed.

Lemma set_echo_row pin es m w : gpio_works -> 0 <= m -> m + Z.of_nat (length es) <= 5 ->
  NoDup (echo_gpios es) -> unheld (echo_gpios es) (held (requests w)) ->
  exists w', for_row (set_echo_entry pin) m es w = Ok None w' /\ acquired w w' (echo_gpios es).
Proof.
  intros Hg. revert m w. induction es as [|e es IH]; intros m w Hm Hl Hd Hu; [exists w; split; [done|apply acquired_refl]|].
  cbn [for_row echo_gpios length] in *. destruct (set_echo_entry_ok pin Hg m e w) as (w1 & H1 & A1); [lia| |].
  { intros g Hin. apply Hu, elem_of_app. by left. }
  rewrite (bind_ok _ _ _ _ _ H1). destruct (IH (m + 1) w1) as (w2 & H2 & A2); [lia..| | |].
  { by apply NoDup_app in Hd as (_ & _ & Hd). }
  { eapply acquired_unheld; [exact A1|exact Hd|]. intros g Hin. apply Hu, elem_of_app. by right. }
  exists w2. split; [done|]. by eapply acquired_trans.
Qed.

(** ** The outer loop meets at most one row *)

Lemma for_pins_absent body pin rows w :
  pin ∉ map linux_pin rows -> for_pins body pin rows w = Ok None w.
Proof.
  induction rows as [|r rows IH]; intros Hn; [done|]. apply not_elem_of_cons in Hn as [H1 H2]. cbn [for_pins].
  rewrite (proj2 (Z.eqb_neq _ _) H1). by apply IH.
Qed.

Lemma for_pins_unique body pin rows w :
  NoDup (map linux_pin rows) ->
  for_pins body pin rows w =
    match List.find (fun r => pin =? linux_pin r) rows with
    | Some r => for_row body 0 r w
    | None => Ok None w
    end.
Proof.
  induction rows as [|r rows IH]; intros Hd; [done|]. apply NoDup_cons in Hd as [Hn Hd]. cbn [for_pins List.find].
  destruct (Z.eqb_spec pin (linux_pin r)) as [->|Hne]; cbn [negb]; [|by apply IH].
  unfold mbind, M_bind. destruct (for_row body 0 r w) as [[x|] w'| |]; [done| |done|done].
  by apply for_pins_absent.
Qed.

Lemma all_pins_nodup : NoDup (map linux_pin all_pins).
Proof. apply (bool_decide_unpack _). vm_compute. exact I. Qed.

Lemma find_row body pin w :
  for_pins body pin all_pins w = match row_of pin with Some r => for_row body 0 r w | None => Ok None w end.
Proof. unfold row_of. generalize all_pins_nodup. generalize all_pins. intros rows Hd. by apply for_pins_unique. Qed.

Lemma row_length pin r : row_of pin = Some r -> Z.of_nat (length r) <= 5.
Proof.
  intros [Hin _]%List.find_some. apply list_elem_of_In in Hin. revert r Hin. apply Forall_forall.
  apply (bool_decide_unpack _). vm_compute. exact I.
Qed.

(** ** The table *)

Lemma trig_sub_echo m es g : g ∈ trig_gpios m es -> g ∈ echo_gpios es.
Proof.
  revert m. induction es as [|e es IH]; intros m; cbn [trig_gpios echo_gpios]; [done|].
  rewrite !elem_of_app. intros [H|H]; [|right; by eapply IH].
  left. destruct (m =? HC_GPIO_PULL); cbn [orb] in H; [by apply elem_of_nil in H|done].
Qed.

Lemma row_of_elem pin r : row_of pin = Some r -> r ∈ all_pins /\ linux_pin r = pin.
Proof. intros [Hin Hp]%List.find_some. split; [by apply list_elem_of_In|]. by apply Z.eqb_eq in Hp. Qed.

(** No GPIO serves two physical pins, and none serves one pin twice. *)

Lemma rows_disjoint r1 r2 g :
  r1 ∈ all_pins -> r2 ∈ all_pins -> linux_pin r1 <> linux_pin r2 -> g ∈ echo_gpios r1 -> g ∉ echo_gpios r2.
Proof.
  assert (Forall (fun r1 => Forall (fun r2 => linux_pin r1 = linux_pin r2 \/
    Forall (fun g => g ∉ echo_gpios r2) (echo_gpios r1)) all_pins) all_pins) as F.
  { apply (bool_decide_unpack _). vm_compute. exact I. }
  intros H1 H2 Hne Hg. rewrite Forall_forall in F. specialize (F r1 H1). rewrite Forall_forall in F.
  destruct (F r2 H2) as [|F']; [done|]. rewrite Forall_forall in F'. by apply F'.
Qed.

Lemma rows_nodup r : r ∈ all_pins -> NoDup (trig_gpios 0 r) /\ NoDup (echo_gpios r).
Proof.
  revert r. apply Forall_forall. apply (bool_decide_unpack _). vm_compute. exact I.
Qed.

Lemma pins_disjoint t e g : t <> e -> g ∈ trig_pins t -> g ∉ echo_pins e.
Proof.
  unfold trig_pins, echo_pins. intros Hne Ht.
  destruct (row_of t) as [r1|] eqn:E1; [|by apply elem_of_nil in Ht].
  destruct (row_of e) as [r2|] eqn:E2; [|by apply not_elem_of_nil].
  apply row_of_elem in E1 as [I1 <-], E2 as [I2 <-]. apply trig_sub_echo in Ht.
  exact (rows_disjoint _ _ _ I1 I2 Hne Ht).
Qed.

Lemma pins_nodup pin : NoDup (trig_pins pin) /\ NoDup (echo_pins pin).
Proof.
  unfold trig_pins, echo_pins. destruct (row_of pin) as [r|] eqn:Er; [|split; constructor].
  apply row_of_elem in Er as [? _]. by apply rows_nodup.
Qed.

(** ** The four functions *)

Lemma setTrig_ok pin w : gpio_works -> unheld (trig_pins pin) (held (requests w)) ->
  exists w', setTrig pin w = Ok 0 w' /\ acquired w w' (trig_pins pin).
Proof.
  intros Hg. destruct (pins_nodup pin) as [Hd _]. revert Hd. unfold setTrig, trig_pins. pose proof (row_length pin) as Hl.
  pose proof (find_row (set_trig_entry pin) pin w) as Hf. destruct (row_of pin) as [r|]; intros Hd Hu.
  - destruct (set_trig_row pin r 0 w Hg) as (w' & H & A); [lia|by apply Hl|done|done|]. rewrite H in Hf.
    exists w'. by rewrite (bind_ok _ _ _ _ _ Hf).
  - exists w. by rewrite (bind_ok _ _ _ _ _ Hf).
Qed.

Lemma setEcho_ok pin w : gpio_works -> unheld (echo_pins pin) (held (requests w)) ->
  exists w', setEcho pin w = Ok 0 w' /\ acquired w w' (echo_pins pin).
Proof.
  intros Hg. destruct (pins_nodup pin) as [_ Hd]. revert Hd. unfold setEcho, echo_pins. pose proof (row_length pin) as Hl.
  pose proof (find_row (set_echo_entry pin) pin w) as Hf. destruct (row_of pin) as [r|]; intros Hd Hu.
  - destruct (set_echo_row pin r 0 w Hg) as (w' & H & A); [lia|by apply Hl|done|done|]. rewrite H in Hf.
    exists w'. by rewrite (bind_ok _ _ _ _ _ Hf).
  - exists w. by rewrite (bind_ok _ _ _ _ _ Hf).
Qed.

(** A trigger and an echo on different pins. *)

Lemma echo_unheld t e w w1 : t <> e -> acquired w w1 (trig_pins t) -> unheld (echo_pins e) (held (requests w)) ->
  unheld (echo_pins e) (held (requests w1)).
Proof.
  intros Hne A. eapply acquired_unheld; [exact A|]. apply NoDup_app. destruct (pins_nodup t) as [Nt _], (pins_nodup e) as [_ Ne].
  split_and!; [done| |done]. intros g Hg. by eapply pins_disjoint.
Qed.

Lemma freeTrig_ok pin w : exists w', freeTrig pin w = Ok 0 w' /\ released w w' (trig_pins pin).
Proof.
  unfold freeTrig, trig_pins. pose proof (find_row free_trig_entry pin w) as Hf. destruct (row_of pin) as [r|].
  - destruct (free_trig_row 0 r w) as (w' & H & A). rewrite H in Hf. exists w'. by rewrite (bind_ok _ _ _ _ _ Hf).
  - exists w. rewrite (bind_ok _ _ _ _ _ Hf). split; [done|apply released_refl].
Qed.

Lemma freeEcho_ok pin w : exists w', freeEcho pin w = Ok 0 w' /\ released w w' (echo_pins pin).
Proof.
  unfold freeEcho, echo_pins. pose proof (find_row free_echo_entry pin w) as Hf. destruct (row_of pin) as [r|].
  - destruct (free_echo_row 0 r w) as (w' & H & A). rewrite H in Hf. exists w'. by rewrite (bind_ok _ _ _ _ _ Hf).
  - exists w. rewrite (bind_ok _ _ _ _ _ Hf). split; [done|apply released_refl].
Qed.

Lemma elem_of_requests g gs : Gpio_request g ∈ requests_of gs <-> g ∈ gs.
Proof.
  unfold requests_of. rewrite list_elem_of_In, in_map_iff. setoid_rewrite <- list_elem_of_In.
  split; [by intros (? & [= <-] & ?)|by exists g].
Qed.

Lemma filter_keep (gs : list Z) (h : list request) :
  (forall g, g ∈ gs -> Gpio_request g ∉ h) -> filter (fun x => x ∉ requests_of gs) h = h.
Proof.
  intros Hg. induction h as [|c h IH]; [done|]. rewrite filter_cons_True.
  - f_equal. apply IH. intros g Hin Hc. apply (Hg g Hin). by right.
  - intros Hc. unfold requests_of in Hc. apply list_elem_of_In, in_map_iff in Hc as (g & <- & Hin%list_elem_of_In).
    apply (Hg g Hin). by left.
Qed.

Lemma filter_drop (gs : list Z) (h : list request) :
  (forall c, c ∈ h -> c ∈ requests_of gs) -> filter (fun x => x ∉ requests_of gs) h = [].
Proof.
  induction h as [|c h IH]; intros Hh; [done|]. rewrite filter_cons_False.
  - apply IH. intros d Hd. apply Hh. by right.
  - intros Hc. apply Hc, Hh. by left.
Qed.

Lemma elem_of_reverse_requests g gs : Gpio_request g ∈ reverse (requests_of gs) <-> g ∈ gs.
Proof. by rewrite elem_of_reverse, elem_of_requests. Qed.

(** C26: Setting up a sensor on two different pins whose GPIOs nobody holds,
    when gpiolib grants a GPIO that is not held and sets the direction of one
    that is, acquires exactly the GPIOs of their rows (for the trigger all but
    the pull resistor), and freeing the two pins gives back exactly these:
    nothing is left over, nothing is freed that was not requested, and the
    GPIOs of other pins are untouched.  (A set-up that fails half way does
    leak: failed_setup_leaks_level.) *)

Theorem sensor_pins_round_trip t e w :
  gpio_works -> t <> e -> clean (requests w) = true ->
  unheld (trig_pins t ++ echo_pins e) (held (requests w)) ->
  exists w1 w2, (setTrig t ;; setEcho e) w = Ok 0 w1 /\
    held (requests w1) = reverse (requests_of (trig_pins t ++ echo_pins e)) ++ held (requests w) /\
    (freeTrig t ;; freeEcho e) w1 = Ok 0 w2 /\ same_world w w2 /\
    held (requests w2) = held (requests w) /\ clean (requests w2) = true.
Proof.
  intros Hg Hne Hc Hfresh. unfold unheld in Hfresh. setoid_rewrite elem_of_app in Hfresh.
  destruct (setTrig_ok t w Hg) as (wa & Ha & Aa); [intros g Hin; apply Hfresh; by left|].
  destruct (setEcho_ok e wa Hg) as (wb & Hb & Ab).
  { eapply echo_unheld; [exact Hne|exact Aa|]. intros g Hin. apply Hfresh. by right. }
  pose proof (acquired_trans _ _ _ _ _ Aa Ab) as (Sb & Eb & Cb).
  destruct (freeTrig_ok t wb) as (wc & Hcc & Sc & Ec & Cc). destruct (freeEcho_ok e wc) as (wd & Hd & Sd & Ed & Cd).
  destruct (pins_nodup t) as [Nt _], (pins_nodup e) as [_ Ne].
  assert (held (requests wc) = reverse (requests_of (echo_pins e)) ++ held (requests w)) as Ec'.
  { rewrite Ec, Eb. unfold requests_of. rewrite map_app, reverse_app, !filter_app. fold (requests_of (trig_pins t)).
    rewrite (filter_keep (trig_pins t) (reverse _)), (filter_drop (trig_pins t) (reverse _)), (filter_keep (trig_pins t) (held _)).
    - by rewrite app_nil_r.
    - intros g Hin. apply Hfresh. by left.
    - intros c Hin. rewrite elem_of_reverse in Hin. exact Hin.
    - intros g Hin. fold (requests_of (echo_pins e)). rewrite elem_of_reverse_requests. by eapply pins_disjoint. }
  exists wb, wd. rewrite (bind_ok _ _ _ _ _ Ha), (bind_ok _ _ _ _ _ Hcc). split_and!; [done..| | |].
  - destruct Sb, Sc, Sd. split; congruence.
  - rewrite Ed, Ec', filter_app, filter_drop, filter_keep; [done| |].
    + intros g Hin. apply Hfresh. by right.
    + intros c Hin. rewrite elem_of_reverse in Hin. exact Hin.
  - apply Cd; [apply Cc; [by apply Cb|done|]|done|].
    + intros g Hin. rewrite Eb. apply elem_of_app. left. rewrite elem_of_reverse_requests. apply elem_of_app. by left.
    + intros g Hin. rewrite Ec'. apply elem_of_app. left. by rewrite elem_of_reverse_requests.
Qed.

(** A pin number that is on no row is accepted: the set-up returns 0
    without having requested anything. *)
Theorem unknown_pin_is_accepted pin w :
  pin ∉ map linux_pin all_pins ->
  setTrig pin w = Ok 0 w /\ setEcho pin w = Ok 0 w /\ freeTrig pin w = Ok 0 w /\ freeEcho pin w = Ok 0 w.
Proof.
  intros Hp. unfold setTrig, setEcho, freeTrig, freeEcho.
  by rewrite !(bind_ok _ _ _ _ _ (for_pins_absent _ _ _ w Hp)).
Qed.

(** When the direction of the level shifter cannot be set, the set-up
    reports -EINVAL and gives back the pin's own GPIO only: the level
    shifter's GPIO stays requested. *)
Theorem failed_setup_leaks_level pin r l v es err w :
  row_of pin = Some r -> r = (pin, 0) :: (l, v) :: es -> pin <> -1 -> l <> -1 -> pin <> l -> err <> 0 ->
  (forall t, reply t (Gpio_request pin) = 0 /\ reply t (Gpio_request l) = 0 /\
    reply t (Gpio_direction_output pin 0) = 0 /\ reply t (Gpio_direction_output l DIR_OUT) = err) ->
  Gpio_request pin ∉ held (requests w) ->
  exists w', setTrig pin w = Ok (- EINVAL) w' /\ held (requests w') = Gpio_request l :: held (requests w).
Proof.
  intros Hr -> Hp Hl Hpl He Hrep Hn.
  pose proof (find_row (set_trig_entry pin) pin w) as Hf. rewrite Hr in Hf. unfold setTrig.
  assert (forall t, reply t (Gpio_request pin) = 0) as H1 by apply Hrep.
  assert (forall t, reply t (Gpio_request l) = 0) as H2 by apply Hrep.
  assert (forall t, reply t (Gpio_direction_output pin 0) = 0) as H3 by apply Hrep.
  assert (forall t, reply t (Gpio_direction_output l DIR_OUT) = err) as H4 by apply Hrep.
  erewrite bind_ok; last first.
  { rewrite Hf. cbn [for_row]. erewrite bind_ok; last first.
    { unfold set_trig_entry, HC_GPIO_PULL, HC_GPIO_MUX0, HC_GPIO_MUX1, HC_GPIO_LEVEL, HC_GPIO_LINUX.
      cbn [fst snd]. rewrite (proj2 (Z.eqb_neq pin (-1)) Hp). cbn [Z.eqb]. erewrite bind_ok by apply kcall_ok. rewrite H1. cbn [Z.eqb negb orb].
      erewrite bind_ok by apply kcall_ok. rewrite H3. apply check_oper_ok. }
    cbn [for_row]. change (0 + 1) with 1. erewrite bind_ok; last first.
    { unfold set_trig_entry, HC_GPIO_PULL, HC_GPIO_MUX0, HC_GPIO_MUX1, HC_GPIO_LEVEL, HC_GPIO_LINUX.
      cbn [fst snd]. rewrite (proj2 (Z.eqb_neq l (-1)) Hl). cbn [Z.eqb Pos.eqb]. erewrite bind_ok by apply kcall_ok. rewrite H2. cbn [Z.eqb negb orb Pos.eqb].
      erewrite bind_ok by apply kcall_ok. rewrite H4. unfold check_oper.
      rewrite (proj2 (Z.eqb_neq _ _) He). cbn [negb]. erewrite bind_ok by apply kcall__ok. reflexivity. }
    reflexivity. }
  eexists. split; [reflexivity|]. cbn [log_request requests held]. unfold track. cbn [acquires acquired_by Z.eqb].
  rewrite filter_cons_True by (intros [= ->]; done). rewrite filter_cons_False by (by intros ?).
  by rewrite filter_ne_absent.
Qed.
End pins.

(** ** Concrete runs: the default pins of the first sensor *)

#[local] Instance succeed : Environment := all_succeed.

Definition no_requests : sys unit unit := {| st := tt; requests := []; user := tt |}.

Lemma succeed_gpio_works : gpio_works.
Proof. by intros t g. Qed.

Lemma sensor_pins_round_trip_witness :
  exists w1 w2, (setTrig HCSR_A_TRIG_PIN ;; setEcho HCSR_A_ECHO_PIN) no_requests = Ok 0 w1 /\
    held (requests w1) = map Gpio_request [43; 42; 15; 36; 6] /\
    (freeTrig HCSR_A_TRIG_PIN ;; freeEcho HCSR_A_ECHO_PIN) w1 = Ok 0 w2 /\
    held (requests w2) = [].
Proof.
  destruct (sensor_pins_round_trip HCSR_A_TRIG_PIN HCSR_A_ECHO_PIN no_requests) as (w1 & w2 & H1 & H2 & H3 & _ & H4 & _).
  - apply succeed_gpio_works.
  - done.
  - done.
  - intros g _. apply not_elem_of_nil.
  - exists w1, w2. exact (conj H1 (conj H2 (conj H3 H4))).
Defined.

Lemma unknown_pin_is_accepted_witness : setTrig 99 no_requests = Ok 0 no_requests.
Proof.
  apply (unknown_pin_is_accepted 99 no_requests). apply (bool_decide_unpack _). vm_compute. exact I.
Defined.

Lemma failed_setup_leaks_level_witness :
  exists w', setTrig (E := fails_at (Gpio_direction_output 36 DIR_OUT) (-5)) 6 no_requests = Ok (- EINVAL) w' /\
    held (requests w') = [Gpio_request 36].
Proof.
  apply (failed_setup_leaks_level (E := fails_at (Gpio_direction_output 36 DIR_OUT) (-5)) 6
    [(6, 0); (36, -1); (37, 0); (-1, -1); (-1, -1)] 36 (-1) [(37, 0); (-1, -1); (-1, -1)] (-5) no_requests).
  1-6: done.
  - done.
  - apply not_elem_of_nil.
Defined.
