(* ===== verification/Sensor.v ===== *)
(** * The HC-SR04 distance sensor: one device

    The part that 02 and 03 share word for word: the device structure, the
    echo interrupt, the measurement, the periodic thread, SETMODE, [read] and
    [write].  What the two drivers do differently (sending, setting up the
    trigger) is the interface [SensorVariant].

    Time: where the code waits ([udelay], [msleep]) the environment decides
    what happens meanwhile: its reply to [Delay] is 0 for nothing, 1 for an echo
    interrupt and, in a sleep, anything else for one round of the periodic
    thread.  Waits without a bound in the code take the number of delays the
    caller is ready to wait for.
    Sources: 02_Concurrent_HC-SR04_miscdeivces/hc_sr04.c, hc_sr04_kernel.h,
    hc_sr04_common.h and 03_.../hc_sr04_kernel.h. *)

From S2P Require Import Prelude Kernel UserMemory HwPins.

Definition ONE_SHOT : Z := 0.

Definition PERIODIC : Z := 1.

Definition NUM_DATA : Z := 5.

Definition HCSR_W_MAGIC : Z := 72.

Definition ONGOING : Z := 1.

Definition STOPPING : Z := 0.

Definition IRQ_DONE : Z := 1.

Definition IRQ_NOT_DONE : Z := 0.

Record pin_set := { trigger_pin : Z; echo_pin : Z }.

Record mode_set := { mode : Z; freq : Z }.

Record hcsr_set := { pins : pin_set; working_mode : mode_set }.

Record cir_buf := { newest : Z; data : list Z; cir_buf_lock : bool }.

(** [enable] is in the structure of 03 only; 02 never looks at it. *)

Record hcsr_kconfig := { kset : hcsr_set; enable : Z; kconfig_lock : bool }.

(** What [kthread_run] returned: a running thread and its period in
    milliseconds, or an error number in a pointer. *)

Inductive thread_ptr := Thread (ms : Z) | Error_pointer.

Record hcsr := {
  hc_sr04 : string;
  irq_done : Z;
  echo_isr_number : Z;
  kstart : Z;
  kthread : option thread_ptr;
  kthread_lock : bool;
  irq_done_lock : bool;
  kconfig : hcsr_kconfig;
  cirb : cir_buf;
  ongoing : Z;
  ongoing_lock : bool;
  pins_default : list row
}.

Definition with_irq_done (x : Z) (h : hcsr) : hcsr :=
  {| hc_sr04 := hc_sr04 h; irq_done := x; echo_isr_number := echo_isr_number h; kstart := kstart h;
     kthread := kthread h; kthread_lock := kthread_lock h; irq_done_lock := irq_done_lock h; kconfig := kconfig h;
     cirb := cirb h; ongoing := ongoing h; ongoing_lock := ongoing_lock h; pins_default := pins_default h |}.

Definition with_echo_isr_number (x : Z) (h : hcsr) : hcsr :=
  {| hc_sr04 := hc_sr04 h; irq_done := irq_done h; echo_isr_number := x; kstart := kstart h;
     kthread := kthread h; kthread_lock := kthread_lock h; irq_done_lock := irq_done_lock h; kconfig := kconfig h;
     cirb := cirb h; ongoing := ongoing h; ongoing_lock := ongoing_lock h; pins_default := pins_default h |}.

Definition with_kstart (x : Z) (h : hcsr) : hcsr :=
  {| hc_sr04 := hc_sr04 h; irq_done := irq_done h; echo_isr_number := echo_isr_number h; kstart := x;
     kthread := kthread h; kthread_lock := kthread_lock h; irq_done_lock := irq_done_lock h; kconfig := kconfig h;
     cirb := cirb h; ongoing := ongoing h; ongoing_lock := ongoing_lock h; pins_default := pins_default h |}.

Definition with_kthread (x : option thread_ptr) (h : hcsr) : hcsr :=
  {| hc_sr04 := hc_sr04 h; irq_done := irq_done h; echo_isr_number := echo_isr_number h; kstart := kstart h;
     kthread := x; kthread_lock := kthread_lock h; irq_done_lock := irq_done_lock h; kconfig := kconfig h;
     cirb := cirb h; ongoing := ongoing h; ongoing_lock := ongoing_lock h; pins_default := pins_default h |}.

Definition with_kthread_lock (x : bool) (h : hcsr) : hcsr :=
  {| hc_sr04 := hc_sr04 h; irq_done := irq_done h; echo_isr_number := echo_isr_number h; kstart := kstart h;
     kthread := kthread h; kthread_lock := x; irq_done_lock := irq_done_lock h; kconfig := kconfig h;
     cirb := cirb h; ongoing := ongoing h; ongoing_lock := ongoing_lock h; pins_default := pins_default h |}.

Definition with_irq_done_lock (x : bool) (h : hcsr) : hcsr :=
  {| hc_sr04 := hc_sr04 h; irq_done := irq_done h; echo_isr_number := echo_isr_number h; kstart := kstart h;
     kthread := kthread h; kthread_lock := kthread_lock h; irq_done_lock := x; kconfig := kconfig h;
     cirb := cirb h; ongoing := ongoing h; ongoing_lock := ongoing_lock h; pins_default := pins_default h |}.

Definition with_kconfig (x : hcsr_kconfig) (h : hcsr) : hcsr :=
  {| hc_sr04 := hc_sr04 h; irq_done := irq_done h; echo_isr_number := echo_isr_number h; kstart := kstart h;
     kthread := kthread h; kthread_lock := kthread_lock h; irq_done_lock := irq_done_lock h; kconfig := x;
     cirb := cirb h; ongoing := ongoing h; ongoing_lock := ongoing_lock h; pins_default := pins_default h |}.

Definition with_cirb (x : cir_buf) (h : hcsr) : hcsr :=
  {| hc_sr04 := hc_sr04 h; irq_done := irq_done h; echo_isr_number := echo_isr_number h; kstart := kstart h;
     kthread := kthread h; kthread_lock := kthread_lock h; irq_done_lock := irq_done_lock h; kconfig := kconfig h;
     cirb := x; ongoing := ongoing h; ongoing_lock := ongoing_lock h; pins_default := pins_default h |}.

Definition with_ongoing (x : Z) (h : hcsr) : hcsr :=
  {| hc_sr04 := hc_sr04 h; irq_done := irq_done h; echo_isr_number := echo_isr_number h; kstart := kstart h;
     kthread := kthread h; kthread_lock := kthread_lock h; irq_done_lock := irq_done_lock h; kconfig := kconfig h;
     cirb := cirb h; ongoing := x; ongoing_lock := ongoing_lock h; pins_default := pins_default h |}.

Definition with_ongoing_lock (x : bool) (h : hcsr) : hcsr :=
  {| hc_sr04 := hc_sr04 h; irq_done := irq_done h; echo_isr_number := echo_isr_number h; kstart := kstart h;
     kthread := kthread h; kthread_lock := kthread_lock h; irq_done_lock := irq_done_lock h; kconfig := kconfig h;
     cirb := cirb h; ongoing := ongoing h; ongoing_lock := x; pins_default := pins_default h |}.

Definition with_pins (p : pin_set) (h : hcsr) : hcsr :=
  with_kconfig {| kset := {| pins := p; working_mode := working_mode (kset (kconfig h)) |};
                  enable := enable (kconfig h); kconfig_lock := kconfig_lock (kconfig h) |} h.

Definition with_mode (m : mode_set) (h : hcsr) : hcsr :=
  with_kconfig {| kset := {| pins := pins (kset (kconfig h)); working_mode := m |};
                  enable := enable (kconfig h); kconfig_lock := kconfig_lock (kconfig h) |} h.

Definition with_enable (e : Z) (h : hcsr) : hcsr :=
  with_kconfig {| kset := kset (kconfig h); enable := e; kconfig_lock := kconfig_lock (kconfig h) |} h.

Definition with_kconfig_lock (b : bool) (h : hcsr) : hcsr :=
  with_kconfig {| kset := kset (kconfig h); enable := enable (kconfig h); kconfig_lock := b |} h.

Definition with_buf (n : Z) (d : list Z) (h : hcsr) : hcsr :=
  with_cirb {| newest := n; data := d; cir_buf_lock := cir_buf_lock (cirb h) |} h.

Definition with_cirb_lock (b : bool) (h : hcsr) : hcsr :=
  with_cirb {| newest := newest (cirb h); data := data (cirb h); cir_buf_lock := b |} h.

Definition the_pins (h : hcsr) : pin_set := pins (kset (kconfig h)).

Definition the_mode (h : hcsr) : mode_set := working_mode (kset (kconfig h)).

(** ** The echo interrupt and the measurement *)

Section measurement.
Context {U : Type} {UM : UserMemory U} {E : Environment}.

Definition lock_ongoing : M (sys U hcsr) unit := spin_lock ongoing_lock with_ongoing_lock.
Definition unlock_ongoing : M (sys U hcsr) unit := spin_unlock ongoing_lock with_ongoing_lock.
Definition lock_cirb : M (sys U hcsr) unit := spin_lock (fun h => cir_buf_lock (cirb h)) with_cirb_lock.
Definition unlock_cirb : M (sys U hcsr) unit := spin_unlock (fun h => cir_buf_lock (cirb h)) with_cirb_lock.
Definition lock_kconfig : M (sys U hcsr) unit := spin_lock (fun h => kconfig_lock (kconfig h)) with_kconfig_lock.
Definition unlock_kconfig : M (sys U hcsr) unit := spin_unlock (fun h => kconfig_lock (kconfig h)) with_kconfig_lock.
Definition lock_kthread : M (sys U hcsr) unit := spin_lock kthread_lock with_kthread_lock.
Definition unlock_kthread : M (sys U hcsr) unit := spin_unlock kthread_lock with_kthread_lock.
Definition lock_irq_done : M (sys U hcsr) unit := spin_lock irq_done_lock with_irq_done_lock.
Definition unlock_irq_done : M (sys U hcsr) unit := spin_unlock irq_done_lock with_irq_done_lock.

Definition IRQ_HANDLED : Z := 1.

(** [hcsr->cirb.buf.data[i] = v]. *)

Definition store_data (i v : Z) : M (sys U hcsr) unit :=
  s ← get_st;
  if (0 <=? i) && (i <? NUM_DATA)
  then modify_st (with_buf (newest (cirb s)) (<[Z.to_nat i := v]> (data (cirb s))))
  else crash OutOfBounds.

Definition load_data (i : Z) : M (sys U hcsr) Z :=
  deref (fun w => if i <? 0 then None else data (cirb (st w)) !! Z.to_nat i) OutOfBounds.

Definition echo_recv_isr : M (sys U hcsr) Z :=
  lock_ongoing ;;
  s ← get_st;
  (if ongoing s =? STOPPING then unlock_ongoing else
     unlock_ongoing ;;
     kend ← kcall Ktime_get;
     s ← get_st;
     let diff := u32 (kend - kstart s) in
     let distance := diff / 5800 in
     lock_cirb ;;
     s ← get_st;
     modify_st (with_buf (Z.rem (newest (cirb s) + 1) NUM_DATA) (data (cirb s))) ;;
     s ← get_st;
     store_data (newest (cirb s)) distance ;;
     unlock_cirb) ;;
  lock_ongoing ;;
  modify_st (with_ongoing STOPPING) ;;
  unlock_ongoing ;;
  mret IRQ_HANDLED.

(** A delay of the code, into which one echo may fall.  Echoes are let in at
    delays and sleeps only; the code leaves interrupts on while it holds
    [ongoing_lock] and [cir_buf_lock], and an echo that came there would spin
    for ever on a lock of the code it interrupted ([echo_under_lock_deadlocks]).
    The theorems on any echoes speak of those at delays and sleeps. *)

Definition udelay : M (sys U hcsr) unit :=
  r ← kcall Delay;
  if r =? 0 then mret tt else echo_recv_isr ;; mret tt.

(** The trigger pulse, lines 89-92. *)

Definition pulse (trig_pin : Z) : M (sys U hcsr) unit :=
  kcall_ (Gpio_set_value trig_pin 1) ;;
  udelay ;;
  kcall_ (Gpio_set_value trig_pin 0) ;;
  t ← kcall Ktime_get;
  modify_st (with_kstart t).

(** The waiting loop, lines 95-111; it gives up at the 50001st round. *)

Fixpoint wait_echo (fuel : nat) (counter cnt : Z) : M (sys U hcsr) Z :=
  s ← get_st;
  if ongoing s =? ONGOING then
    match fuel with
    | O => blocked
    | S fuel =>
        cnt ← (if cnt =? 0 then unlock_ongoing ;; mret (cnt + 1) else mret cnt);
        let counter := u32 (counter + 1) in
        if 50000 <? counter then
          lock_ongoing ;;
          modify_st (with_ongoing STOPPING) ;;
          unlock_ongoing ;;
          mret (- EAGAIN)
        else
          udelay ;;
          wait_echo fuel counter cnt
    end
  else
    when (cnt =? 0) unlock_ongoing ;;
    mret 0.

Definition measure (trig_pin : Z) : M (sys U hcsr) Z :=
  pulse trig_pin ;;
  lock_ongoing ;;
  wait_echo (Z.to_nat 50001) 0 0.

(** ** What the drivers do their own way *)

Class SensorVariant := {
  do_send : M (sys U hcsr) Z;
  set_trigger : Z -> M (sys U hcsr) Z
}.

Context {V : SensorVariant}.

(** [do ... while (0 != ret && send_cnt++ < retry_cnt)], [n] retries left. *)

Fixpoint resend (n : nat) : M (sys U hcsr) Z :=
  ret ← do_send;
  if ret =? 0 then mret ret else
  match n with
  | O => mret ret
  | S n => resend n
  end.

Definition send (retry_cnt : Z) : M (sys U hcsr) Z :=
  lock_ongoing ;;
  s ← get_st;
  if ongoing s =? ONGOING then
    unlock_ongoing ;;
    mret 0
  else
    modify_st (with_ongoing ONGOING) ;;
    unlock_ongoing ;;
    resend (Z.to_nat retry_cnt).

(** ** The periodic thread

    [thread_function] computes its period when it starts and then sends until
    it is told to stop, which it notices after the round it is in. *)

Definition thread_round : M (sys U hcsr) unit := send 3 ;; mret tt.

Definition thread_function : M (sys U hcsr) Z :=
  s ← get_st;
  if freq (the_mode s) =? 0 then crash DivByZero else mret (1000 / freq (the_mode s)).

Definition kthread_run : M (sys U hcsr) thread_ptr :=
  r ← kcall Kthread_run;
  if negb (r =? 0) then mret Error_pointer else
  ms ← thread_function;
  mret (Thread ms).

Definition kthread_stop (t : thread_ptr) : M (sys U hcsr) unit :=
  match t with
  | Error_pointer => crash BadUserAccess
  | Thread _ =>
      r ← kcall Kthread_stop;
      when (negb (r =? 0)) thread_round
  end.

Definition msleep : M (sys U hcsr) unit :=
  r ← kcall Delay;
  if r =? 0 then mret tt else
  if r =? 1 then echo_recv_isr ;; mret tt else
  s ← get_st;
  match kthread s with
  | Some (Thread _) => thread_round
  | _ => mret tt
  end.

(** ** [read] *)

Fixpoint spin_ongoing (fuel : nat) : M (sys U hcsr) unit :=
  s ← get_st;
  if ongoing s =? ONGOING then
    match fuel with
    | O => blocked
    | S fuel => udelay ;; spin_ongoing fuel
    end
  else mret tt.

(** Lines 336-338: the newest sample to the caller, under the lock. *)

Definition copy_newest (buf : Z) : M (sys U hcsr) Z :=
  lock_cirb ;;
  s ← get_st;
  v ← load_data (newest (cirb s));
  ret ← copy_to_user buf (put_int v);
  unlock_cirb ;;
  mret ret.

(** RECHECK_BUF. *)

Fixpoint wait_sample (fuel : nat) : M (sys U hcsr) unit :=
  lock_cirb ;;
  s ← get_st;
  if newest (cirb s) =? -1 then
    unlock_cirb ;;
    match fuel with
    | O => blocked
    | S fuel => msleep ;; wait_sample fuel
    end
  else unlock_cirb.

Definition send_if_stopped (retry_cnt : Z) : M (sys U hcsr) unit :=
  lock_ongoing ;;
  s ← get_st;
  if ongoing s =? STOPPING then
    unlock_ongoing ;;
    send retry_cnt ;;
    mret tt
  else unlock_ongoing.

Definition hc_sr04_read (fuel : nat) (buf : Z) : M (sys U hcsr) Z :=
  lock_kconfig ;;
  s ← get_st;
  if mode (the_mode s) =? ONE_SHOT then
    unlock_kconfig ;;
    send_if_stopped 5 ;;
    spin_ongoing fuel ;;
    ret ← copy_newest buf;
    if negb (ret =? 0) then mret (- EAGAIN) else mret 0
  else
    unlock_kconfig ;;
    lock_cirb ;;
    s ← get_st;
    if negb (newest (cirb s) =? -1) then
      v ← load_data (newest (cirb s));
      copy_to_user buf (put_int v) ;;                 (* its result is not looked at *)
      unlock_cirb ;;
      mret 0
    else
      unlock_cirb ;;
      wait_sample fuel ;;
      ret ← copy_newest buf;
      if negb (ret =? 0) then mret (- EAGAIN) else mret 0.

(** ** [write] *)

Definition clear_samples : M (sys U hcsr) unit :=
  lock_cirb ;;
  modify_st (with_buf (-1) (replicate (Z.to_nat NUM_DATA) 0)) ;;
  unlock_cirb.

Definition hc_sr04_write (buf : Z) : M (sys U hcsr) Z :=
  c ← copy_from_user buf 4;
  let act := get_int c.1 in
  lock_kconfig ;;
  s ← get_st;
  if mode (the_mode s) =? ONE_SHOT then
    unlock_kconfig ;;
    when (negb (act =? 0)) clear_samples ;;
    send_if_stopped 5 ;;
    mret 0
  else
    unlock_kconfig ;;
    lock_kthread ;;
    s ← get_st;
    (if act =? 0 then
       match kthread s with
       | None => mret tt
       | Some t =>
           kthread_stop t ;;
           modify_st (with_kthread None) ;;
           lock_ongoing ;;
           modify_st (with_ongoing STOPPING) ;;
           unlock_ongoing
       end
     else
       match kthread s with
       | Some _ => mret tt
       | None => t ← kthread_run; modify_st (with_kthread (Some t))
       end) ;;
    unlock_kthread ;;
    mret 0.

(** ** [ioctl] *)

Definition get_pins (bs : list Z) : pin_set := {| trigger_pin := get_int bs; echo_pin := get_int (drop 4 bs) |}.

Definition get_mode (bs : list Z) : mode_set :=
  {| mode := get_int bs; freq := le_value (take 4 (drop 4 bs)) |}.

Definition set_ISR : M (sys U hcsr) Z :=
  s ← get_st;
  ret ← kcall (Gpio_to_irq (echo_pin (the_pins s)));
  if ret <? 0 then mret (- EAGAIN) else
  modify_st (with_echo_isr_number ret) ;;
  ret ← kcall (Request_irq ret);
  if negb (ret =? 0) then mret (- EAGAIN) else mret 0.

(** The two exits of [ioctl_SETPINs]. *)

Definition setpins_error (ret : Z) : M (sys U hcsr) Z :=
  modify_st (fun h => with_pins {| trigger_pin := -1; echo_pin := echo_pin (the_pins h) |} h) ;;
  modify_st (fun h => with_pins {| trigger_pin := trigger_pin (the_pins h); echo_pin := -1 |} h) ;;
  unlock_irq_done ;;
  mret ret.

Definition setpins_success : M (sys U hcsr) Z :=
  modify_st (with_irq_done IRQ_DONE) ;;
  unlock_irq_done ;;
  mret 0.

Definition ioctl_SETPINs (addr : Z) : M (sys U hcsr) Z :=
  c ← copy_from_user addr 8;
  let '(bytes, failed) := c in
  if negb (failed =? 0) then crash NullDeref else      (* the error exit uses hcsr, still NULL *)
  lock_irq_done ;;
  s ← get_st;
  when (irq_done s =? IRQ_DONE) (kcall_ (Free_irq (echo_isr_number s))) ;;
  freeTrig (trigger_pin (the_pins s)) ;;
  freeEcho (echo_pin (the_pins s)) ;;
  modify_st (with_pins (get_pins bytes)) ;;
  ret ← set_trigger (trigger_pin (get_pins bytes));
  if negb (ret =? 0) then setpins_error ret else
  ret ← setEcho (echo_pin (get_pins bytes));
  if negb (ret =? 0) then setpins_error ret else
  ret ← set_ISR;
  if negb (ret =? 0) then setpins_error ret else
  setpins_success.

Definition ioctl_SETMODE (addr : Z) : M (sys U hcsr) Z :=
  c ← copy_from_user addr 8;
  let '(bytes, failed) := c in
  if negb (failed =? 0) then mret (- EAGAIN) else
  let m := get_mode bytes in
  if negb (mode m =? ONE_SHOT) && negb (mode m =? PERIODIC) then mret (- EINVAL) else
  lock_kconfig ;;
  modify_st (with_mode m) ;;
  lock_kthread ;;
  s ← get_st;
  match kthread s with
  | Some t =>
      if negb (mode m =? ONE_SHOT) then
        kthread_stop t ;;
        t ← kthread_run;
        modify_st (with_kthread (Some t))
      else
        kthread_stop t ;;
        modify_st (with_kthread None)
  | None => mret tt
  end ;;
  unlock_kthread ;;
  unlock_kconfig ;;
  mret 0.

Definition SETPINS {IC : IoctlCode} : Z := ioc IOC_W HCSR_W_MAGIC 1.

Definition SETMODE {IC : IoctlCode} : Z := ioc IOC_W HCSR_W_MAGIC 2.

Definition hc_sr04_ioctl {IC : IoctlCode} (arg1 arg2 : Z) : M (sys U hcsr) Z :=
  if arg1 =? SETPINS then ioctl_SETPINs arg2 else
  if arg1 =? SETMODE then ioctl_SETMODE arg2 else
  mret (- EINVAL).
End measurement.

Arguments SensorVariant U : clear implicits.
