(* ===== verification/SensorProofs.v ===== *)
(** * The distance sensor: what one measurement changes *)

From S2P Require Import Prelude Ring Kernel UserMemory HwPins Sensor.

(** ** The samples so far, since they were last cleared *)

Definition samples_ring (log : list Z) : list Z := ring (Z.to_nat NUM_DATA) 0 log.

Definition samples_ok (c : cir_buf) (log : list Z) : Prop :=
  newest c = (if decide (log = []) then -1 else Z.of_nat ((length log - 1) mod 5)) /\
  data c = samples_ring log /\ cir_buf_lock c = false.

Lemma samples_next c log : samples_ok c log -> Z.rem (newest c + 1) NUM_DATA = Z.of_nat (length log mod 5).
Proof.
  intros [-> _]. change NUM_DATA with 5. destruct (decide (log = [])) as [->|Hne]; [done|].
  destruct (length log) as [|n] eqn:Hl; [by destruct log|].
  cbn [Nat.sub]. rewrite Nat.sub_0_r, (mod_succ 5 n) by lia.
  pose proof (Nat.mod_upper_bound n 5 ltac:(lia)). destruct (decide _) as [E|E].
  - replace (n mod 5)%nat with 4%nat by lia. done.
  - rewrite Z.rem_small; lia.
Qed.

Lemma samples_newest c log d : samples_ok c (log ++ [d]) ->
  0 <= newest c < 5 /\ data c !! Z.to_nat (newest c) = Some d.
Proof.
  intros (-> & -> & _). rewrite decide_False by (by destruct log). rewrite length_app. cbn [length].
  rewrite Nat.add_sub. pose proof (Nat.mod_upper_bound (length log) 5 ltac:(lia)). split; [lia|].
  rewrite Nat2Z.id. apply (ring_last 5). lia.
Qed.

Lemma samples_store c log d : samples_ok c log ->
  samples_ok {| newest := Z.of_nat (length log mod 5); data := <[(length log mod 5)%nat := d]> (data c);
                cir_buf_lock := false |} (log ++ [d]).
Proof.
  intros (_ & -> & _). split_and!; cbn [newest data cir_buf_lock].
  - rewrite decide_False by (by destruct log). rewrite length_app. cbn [length]. by rewrite Nat.add_sub.
  - apply (ring_step 5). lia.
  - done.
Qed.

(** ** What a measurement may change: [ongoing], [kstart] and the buffer *)

Section measured.
Context {U : Type} {UM : UserMemory U} {E : Environment}.
Implicit Types (w : sys U hcsr) (log new : list Z).

Record measured w w' log new : Prop := {
  me_state : exists o k c, st w' = with_ongoing o (with_kstart k (with_cirb c (st w))) /\ samples_ok c (log ++ new);
  me_user : user w' = user w;
  me_held : held (requests w') = held (requests w);
  me_clean : clean (requests w') = clean (requests w);
  me_trace : exists l, requests w' = l ++ requests w
}.

Lemma measured_refl w log : samples_ok (cirb (st w)) log -> measured w w log [].
Proof.
  intros Hs. constructor; [|done..|by exists []]. exists (ongoing (st w)), (kstart (st w)), (cirb (st w)).
  rewrite app_nil_r. split; [by destruct w as [[] ? ?]|done].
Qed.

Lemma measured_trans w1 w2 w3 log new1 new2 :
  measured w1 w2 log new1 -> measured w2 w3 (log ++ new1) new2 -> measured w1 w3 log (new1 ++ new2).
Proof.
  intros [(o1 & k1 & c1 & E1 & S1) U1 H1 C1 [l1 T1]] [(o2 & k2 & c2 & E2 & S2) U2 H2 C2 [l2 T2]].
  constructor; [|congruence..|exists (l2 ++ l1); by rewrite T2, T1, app_assoc].
  exists o2, k2, c2. rewrite E2, E1, app_assoc. done.
Qed.

(** What a measurement leaves alone. *)

Lemma measured_fields w w' log new : measured w w' log new ->
  ongoing_lock (st w') = ongoing_lock (st w) /\ kconfig (st w') = kconfig (st w) /\
  kthread (st w') = kthread (st w) /\ kthread_lock (st w') = kthread_lock (st w) /\
  irq_done (st w') = irq_done (st w) /\ irq_done_lock (st w') = irq_done_lock (st w) /\
  samples_ok (cirb (st w')) (log ++ new).
Proof. intros [(o & k & c & -> & S) _ _ _ _]. done. Qed.

(** Requests that acquire and release nothing do not count. *)

Lemma measured_log w log c r :
  samples_ok (cirb (st w)) log -> acquires c = false -> acquired_by c = None -> measured w (log_request c r w) log [].
Proof.
  intros Hs H1 H2. constructor; [|done| | |by exists [(c, r)]].
  - exists (ongoing (st w)), (kstart (st w)), (cirb (st w)). rewrite app_nil_r.
    split; [by destruct w as [[] ? ?]|done].
  - cbn [log_request requests held]. unfold track. by rewrite H1, H2.
  - cbn [log_request requests clean]. rewrite H2. by rewrite andb_true_r.
Qed.

Definition isr_ready (h : hcsr) : Prop := ongoing_lock h = false /\ cir_buf_lock (cirb h) = false.

(** ** The interrupt *)

(** The distance of an echo received at [kend]. *)

Definition distance_of (kend kstart : Z) : Z := u32 (kend - kstart) / 5800.

Lemma lock_ongoing_ok w : ongoing_lock (st w) = false -> lock_ongoing w = Ok tt (with_st (with_ongoing_lock true (st w)) w).
Proof. intros H. by apply spin_lock_ok. Qed.

Lemma unlock_ongoing_ok w : ongoing_lock (st w) = true -> unlock_ongoing w = Ok tt (with_st (with_ongoing_lock false (st w)) w).
Proof. intros H. by apply spin_unlock_ok. Qed.

Lemma relock_ongoing (h : hcsr) b : ongoing_lock h = b -> with_ongoing_lock b h = h.
Proof. intros <-. by destruct h. Qed.

Lemma stop_ok {A} w (k : M (sys U hcsr) A) :
  ongoing_lock (st w) = false ->
  (lock_ongoing ;; modify_st (with_ongoing STOPPING) ;; unlock_ongoing ;; k) w =
    k (with_st (with_ongoing STOPPING (st w)) w).
Proof.
  intros Hl. rewrite (bind_ok _ _ _ _ _ (lock_ongoing_ok _ Hl)).
  erewrite bind_ok by reflexivity. erewrite bind_ok by (by apply unlock_ongoing_ok). f_equal.
  unfold with_st. cbn. f_equal. destruct (st w). simpl in *. by subst.
Qed.

Lemma stop_run w :
  ongoing_lock (st w) = false ->
  (lock_ongoing ;; modify_st (with_ongoing STOPPING) ;; unlock_ongoing) w =
    Ok tt (with_st (with_ongoing STOPPING (st w)) w).
Proof.
  intros Hl. rewrite (bind_ok _ _ _ _ _ (lock_ongoing_ok _ Hl)).
  erewrite bind_ok by reflexivity. rewrite unlock_ongoing_ok by done. f_equal.
  unfold with_st. cbn. f_equal. destruct (st w). simpl in *. by subst.
Qed.

Lemma isr_idle w : ongoing_lock (st w) = false -> ongoing (st w) = STOPPING -> echo_recv_isr w = Ok IRQ_HANDLED w.
Proof.
  intros Hl Ho. unfold echo_recv_isr. rewrite (bind_ok _ _ _ _ _ (lock_ongoing_ok _ Hl)).
  erewrite bind_ok by reflexivity. cbn [with_st st with_ongoing_lock ongoing]. rewrite Ho. cbn [Z.eqb STOPPING].
  erewrite bind_ok by (by apply unlock_ongoing_ok). rewrite stop_ok by done. rewrite mret_ok. f_equal.
  destruct w as [[] ? ?]. simpl in *. by subst.
Qed.

Lemma isr_records w log :
  isr_ready (st w) -> ongoing (st w) <> STOPPING -> samples_ok (cirb (st w)) log ->
  exists w', echo_recv_isr w = Ok IRQ_HANDLED w' /\ ongoing (st w') = STOPPING /\
    measured w w' log [distance_of (reply (requests w) Ktime_get) (kstart (st w))].
Proof.
  intros [Hl Hc] Ho Hs. unfold echo_recv_isr. rewrite (bind_ok _ _ _ _ _ (lock_ongoing_ok _ Hl)).
  erewrite bind_ok by reflexivity. cbn [with_st st with_ongoing_lock ongoing].
  rewrite (proj2 (Z.eqb_neq _ _) Ho).
  erewrite bind_ok; last first.
  { erewrite bind_ok by (by apply unlock_ongoing_ok). erewrite bind_ok by apply kcall_ok.
    erewrite bind_ok by reflexivity. cbn zeta. erewrite bind_ok by (apply spin_lock_ok; exact Hc).
    erewrite bind_ok by reflexivity. erewrite bind_ok by reflexivity. erewrite bind_ok by reflexivity.
    erewrite bind_ok; last first.
    { unfold store_data. erewrite bind_ok by reflexivity. cbn [st with_st log_request with_buf with_cirb newest cirb
        with_cirb_lock with_ongoing_lock data].
      rewrite (samples_next _ _ Hs). pose proof (Nat.mod_upper_bound (length log) 5 ltac:(lia)).
      change NUM_DATA with 5. rewrite (proj2 (Z.leb_le _ _)), (proj2 (Z.ltb_lt _ _)) by lia. reflexivity. }
    apply spin_unlock_ok. reflexivity. }
  rewrite stop_ok by done. eexists. split; [reflexivity|]. split; [reflexivity|].
  rewrite Nat2Z.id. constructor; [|done| | |by eexists [_]].
  - exists STOPPING, (kstart (st w)). eexists. split; [|apply (samples_store _ _ _ Hs)].
    destruct w as [h ? ?]. destruct h as [? ? ? ? ? ? ? ? [] ? ? ?]. simpl in *. by subst.
  - done.
  - cbn. by rewrite andb_true_r.
Qed.

(** A delay: nothing, or one interrupt. *)

Lemma udelay_ok w log :
  isr_ready (st w) -> samples_ok (cirb (st w)) log ->
  exists w' new, udelay w = Ok tt w' /\ measured w w' log new /\ isr_ready (st w') /\
    (new = [] /\ ongoing (st w') = ongoing (st w) \/
     ongoing (st w) <> STOPPING /\ ongoing (st w') = STOPPING /\ length new = 1%nat).
Proof.
  intros Hr Hs. unfold udelay. erewrite bind_ok by apply kcall_ok.
  set (w1 := log_request Delay _ w). assert (measured w w1 log []) as M1 by (by apply measured_log).
  destruct (Z.eqb_spec (reply (requests w) Delay) 0) as [|_].
  { exists w1, []. split; [done|]. split; [done|]. split; [done|by left]. }
  destruct (decide (ongoing (st w) = STOPPING)) as [Ho|Ho].
  - rewrite (bind_ok _ _ _ _ _ (isr_idle w1 (proj1 Hr) Ho)).
    exists w1, []. split; [done|]. split; [done|]. split; [done|by left].
  - destruct (isr_records w1 log Hr Ho Hs) as (w2 & H2 & O2 & M2).
    rewrite (bind_ok _ _ _ _ _ H2). eexists w2, _. split; [done|]. split.
    + eapply (measured_trans _ _ _ _ []); [done|]. rewrite app_nil_r. apply M2.
    + split; [|by right]. destruct (measured_fields _ _ _ _ M2) as (? & _ & _ & _ & _ & _ & S2).
      split; [|apply S2]. rewrite H. apply Hr.
Qed.

(** ** The waiting loop *)

Definition measure_result w w' log (r : Z) new : Prop :=
  ongoing (st w') = STOPPING /\ measured w w' log new /\ isr_ready (st w') /\
  (ongoing (st w) = STOPPING /\ r = 0 /\ new = [] \/
   ongoing (st w) = ONGOING /\ r = 0 /\ length new = 1%nat \/
   ongoing (st w) = ONGOING /\ r = - EAGAIN /\ new = []).

Lemma wait_unlocked fuel counter w log :
  0 <= counter <= 50000 -> 50000 - counter < Z.of_nat fuel ->
  isr_ready (st w) -> samples_ok (cirb (st w)) log -> (ongoing (st w) = ONGOING \/ ongoing (st w) = STOPPING) ->
  exists r w' new, wait_echo fuel counter 1 w = Ok r w' /\ measure_result w w' log r new.
Proof.
  revert counter w. induction fuel as [|fuel IH]; intros counter w Hc Hf Hr Hs Ho; [lia|].
  cbn [wait_echo]. erewrite bind_ok by reflexivity. destruct Ho as [Ho|Ho]; rewrite Ho; cbn [Z.eqb ONGOING STOPPING Pos.eqb].
  2: { exists 0, w, []. split; [done|]. split; [done|]. split; [by apply measured_refl|]. split; [done|by left]. }
  erewrite bind_ok by reflexivity. rewrite (wrap_small 32 (counter + 1)) by lia.
  destruct (Z.ltb_spec 50000 (counter + 1)) as [Hlim|Hlim].
  - rewrite stop_ok by apply Hr. eexists _, _, []. split; [reflexivity|].
    split; [done|]. split; [|split; [done|right; right; done]].
    constructor; [|done..|by exists []]. exists STOPPING, (kstart (st w)), (cirb (st w)). rewrite app_nil_r.
    split; [by destruct w as [[] ? ?]|done].
  - destruct (udelay_ok w log Hr Hs) as (w1 & new1 & H1 & M1 & R1 & HO). rewrite (bind_ok _ _ _ _ _ H1).
    destruct (measured_fields _ _ _ _ M1) as (_ & _ & _ & _ & _ & _ & S1).
    destruct HO as [[-> HO]|(_ & HO & Hlen)].
    + rewrite app_nil_r in S1. rewrite Ho in HO.
      destruct (IH (counter + 1) w1) as (r & w' & new & H2 & O2 & M2 & R2 & HR); [lia|lia|done|done|by left|].
      exists r, w', new. split; [done|]. split; [done|]. split; [|split; [done|]].
      * eapply (measured_trans _ _ _ _ []); [done|]. by rewrite app_nil_r.
      * destruct HR as [[HR _]|HR]; [rewrite HO in HR; done|].
        destruct HR as [(_ & ? & ?)|(_ & ? & ?)]; [right; left|right; right]; done.
    + exists 0, w1, new1. split.
      { destruct fuel as [|fuel]; cbn [wait_echo]; erewrite bind_ok by reflexivity; rewrite HO; done. }
      split; [done|]. split; [done|]. split; [done|]. right. left. done.
Qed.

(** The pulse: the echo may arrive while it lasts. *)

Lemma pulse_ok trig w log :
  isr_ready (st w) -> samples_ok (cirb (st w)) log ->
  exists w1 new1, pulse trig w = Ok tt w1 /\ measured w w1 log new1 /\ isr_ready (st w1) /\
    (new1 = [] /\ ongoing (st w1) = ongoing (st w) \/
     ongoing (st w) <> STOPPING /\ ongoing (st w1) = STOPPING /\ length new1 = 1%nat).
Proof.
  intros Hr Hs. unfold pulse. erewrite bind_ok by apply kcall__ok.
  set (w0 := log_request _ _ w). assert (measured w w0 log []) as M0 by (by apply measured_log).
  destruct (udelay_ok w0 log Hr Hs) as (w1 & new1 & H1 & M1 & R1 & HO). rewrite (bind_ok _ _ _ _ _ H1).
  erewrite bind_ok by apply kcall__ok. erewrite bind_ok by apply kcall_ok.
  destruct (measured_fields _ _ _ _ M1) as (_ & _ & _ & _ & _ & _ & S1).
  set (w2 := log_request _ _ w1). assert (measured w1 w2 (log ++ new1) []) as M2 by (by apply measured_log).
  set (w3 := log_request _ _ w2). assert (measured w2 w3 (log ++ new1) []) as M3 by (by apply measured_log).
  eexists _, new1. split; [reflexivity|]. split; [|split; [apply R1|apply HO]].
  assert (measured w w3 log new1) as M.
  { eapply (measured_trans _ _ _ _ []); [done|]. rewrite app_nil_r. rewrite <- (app_nil_r new1).
    eapply measured_trans; [done|]. eapply (measured_trans _ _ _ _ []); [done|]. by rewrite app_nil_r. }
  destruct M as [(o & k & c & Es & Sc) ? ? ? ?]. constructor; try done.
  eexists o, _, c. split; [|done]. cbn [with_st st]. rewrite Es. reflexivity.
Qed.

Lemma measure_ok trig w log :
  isr_ready (st w) -> samples_ok (cirb (st w)) log -> (ongoing (st w) = ONGOING \/ ongoing (st w) = STOPPING) ->
  exists r w' new, measure trig w = Ok r w' /\ measure_result w w' log r new.
Proof.
  intros Hr Hs Ho. unfold measure.
  destruct (pulse_ok trig w log Hr Hs) as (w1 & new1 & H1 & M1 & R1 & HO).
  rewrite (bind_ok _ _ _ _ _ H1). destruct (measured_fields _ _ _ _ M1) as (_ & _ & _ & _ & _ & _ & S1).
  rewrite (bind_ok _ _ _ _ _ (lock_ongoing_ok _ (proj1 R1))).
  assert (with_st (with_ongoing_lock false (with_ongoing_lock true (st w1))) w1 = w1) as Hback.
  { destruct w1 as [[] ? ?]. destruct R1 as [Hx _]. simpl in Hx. by subst. }
  destruct (Z.to_nat 50001) as [|fuel] eqn:Hfuel; [lia|]. cbn [wait_echo]. erewrite bind_ok by reflexivity.
  cbn [st with_st with_ongoing_lock ongoing].
  assert (ongoing (st w1) = ONGOING \/ ongoing (st w1) = STOPPING) as Ho1.
  { destruct HO as [[_ ->]|(_ & -> & _)]; [done|by right]. }
  destruct Ho1 as [Ho1|Ho1]; rewrite Ho1; cbn [Z.eqb ONGOING STOPPING Pos.eqb].
  - destruct HO as [[-> HO]|(_ & HO & _)]; [|rewrite HO in Ho1; done].
    erewrite bind_ok; last first.
    { erewrite bind_ok by (by apply unlock_ongoing_ok). reflexivity. }
    change (with_st (with_ongoing_lock false _) (with_st _ w1)) with (with_st (with_ongoing_lock false (with_ongoing_lock true (st w1))) w1).
    rewrite Hback. change (50000 <? u32 (0 + 1)) with false. cbn iota. rewrite app_nil_r in S1.
    destruct (udelay_ok w1 log R1 S1) as (w2 & new2 & H2 & M2 & R2 & HO2). rewrite (bind_ok _ _ _ _ _ H2).
    destruct (measured_fields _ _ _ _ M2) as (_ & _ & _ & _ & _ & _ & S2).
    rewrite HO in Ho1. destruct HO2 as [[-> HO2]|(_ & HO2 & Hlen)].
    + rewrite app_nil_r in S2. rewrite HO in HO2.
      destruct (wait_unlocked fuel 1 w2 log) as (r & w' & new & H3 & O3 & M3 & R3 & HR); [lia|lia|done|done|left; congruence|].
      exists r, w', new. split; [exact H3|]. split; [done|]. split; [|split; [done|]].
      * eapply (measured_trans _ _ _ _ []); [exact M1|]. rewrite app_nil_r.
        eapply (measured_trans _ _ _ _ []); [exact M2|]. by rewrite app_nil_r.
      * rewrite Ho1. destruct HR as [[HR _]|HR]; [rewrite HO2, Ho1 in HR; done|].
        destruct HR as [(_ & ? & ?)|(_ & ? & ?)]; [right; left|right; right]; done.
    + exists 0, w2, new2. split.
      { destruct fuel as [|fuel']; cbn [wait_echo]; erewrite bind_ok by reflexivity; rewrite HO2; done. }
      split; [done|]. split; [eapply (measured_trans _ _ _ _ []); [exact M1|]; by rewrite app_nil_r|].
      split; [done|]. right. left. done.
  - cbn [when]. erewrite bind_ok by (by apply unlock_ongoing_ok).
    change (with_st (with_ongoing_lock false _) (with_st _ w1)) with (with_st (with_ongoing_lock false (with_ongoing_lock true (st w1))) w1).
    rewrite Hback. exists 0, w1, new1. split; [done|]. split; [done|]. split; [done|]. split; [done|].
    destruct HO as [[-> HO]|(Hne & HO & Hlen)].
    + left. rewrite <- HO. done.
    + right. left. destruct Ho as [Ho|Ho]; done.
Qed.

(** ** When no echo comes

    [quiet]: no interrupt arrives while the code waits.  Then a measurement
    leaves the samples as they are, whatever else happens. *)

Definition quiet : Prop := forall t, reply t Delay = 0.

Definition any_fault : list fault :=
  [NullDeref; UseAfterFree; OutOfBounds; DivByZero; SelfDeadlock; BadUnlock; UninitRead; BadUserAccess; KernelOverwrite].

Definition keeps_samples {A} (m : M (sys U hcsr) A) : Prop :=
  forall c, safe any_fault (fun w => cirb (st w) = c) m (fun _ w => cirb (st w) = c).

Lemma any_fault_any f : f ∈ any_fault.
Proof. destruct f; apply list_elem_of_In; simpl; tauto. Qed.

Lemma keeps_bind {A B} (m : M (sys U hcsr) A) (k : A -> M (sys U hcsr) B) :
  keeps_samples m -> (forall a, keeps_samples (k a)) -> keeps_samples (m ≫= k).
Proof. intros Hm Hk c. eapply safe_bind; [apply Hm|]. intros a. apply Hk. Qed.

Lemma keeps_ret {A} (a : A) : keeps_samples (mret a).
Proof. intros c. apply safe_done. Qed.

Lemma keeps_get {A} (k : hcsr -> M (sys U hcsr) A) : (forall h, keeps_samples (k h)) -> keeps_samples (h ← get_st; k h).
Proof. intros Hk c w Hw. erewrite bind_ok by reflexivity. by apply Hk. Qed.

Lemma keeps_modify f : (forall h, cirb (f h) = cirb h) -> keeps_samples (modify_st f).
Proof. intros Hf c w <-. apply Hf. Qed.

Lemma keeps_call c : keeps_samples (kcall c).
Proof. by intros x w Hw. Qed.

Lemma keeps_lock b f : (forall x h, cirb (f x h) = cirb h) -> keeps_samples (spin_lock b f).
Proof.
  intros Hf. apply keeps_get. intros h. destruct (b h); [intros c; apply safe_crash, any_fault_any|].
  by apply keeps_modify.
Qed.

Lemma keeps_unlock b f : (forall x h, cirb (f x h) = cirb h) -> keeps_samples (spin_unlock b f).
Proof.
  intros Hf. apply keeps_get. intros h. destruct (b h); [by apply keeps_modify|]. intros c.
  apply safe_crash, any_fault_any.
Qed.

Lemma keeps_udelay : quiet -> keeps_samples udelay.
Proof. intros Hq c w Hw. unfold udelay. erewrite bind_ok by apply kcall_ok. by rewrite Hq. Qed.

Lemma keeps_wait fuel counter cnt : quiet -> keeps_samples (wait_echo fuel counter cnt).
Proof.
  intros Hq. revert counter cnt. induction fuel as [|fuel IH]; intros counter cnt; cbn [wait_echo];
    apply keeps_get; intros h; destruct (ongoing h =? ONGOING).
  - intros c. apply safe_blocked.
  - apply keeps_bind; [|intros ?; apply keeps_ret]. destruct (cnt =? 0); [by apply keeps_unlock|apply keeps_ret].
  - apply keeps_bind.
    { destruct (cnt =? 0); [|apply keeps_ret]. apply keeps_bind; [by apply keeps_unlock|]. intros ?. apply keeps_ret. }
    intros cnt'. cbn zeta. destruct (50000 <? _).
    + apply keeps_bind; [by apply keeps_lock|]. intros ?. apply keeps_bind; [by apply keeps_modify|]. intros ?.
      apply keeps_bind; [by apply keeps_unlock|]. intros ?. apply keeps_ret.
    + apply keeps_bind; [by apply keeps_udelay|]. by intros ?.
  - apply keeps_bind; [|intros ?; apply keeps_ret]. destruct (cnt =? 0); [by apply keeps_unlock|apply keeps_ret].
Qed.

Lemma keeps_measure trig : quiet -> keeps_samples (measure trig).
Proof.
  intros Hq. apply keeps_bind; [|intros ?; apply keeps_bind; [by apply keeps_lock|intros ?; by apply keeps_wait]].
  apply keeps_bind; [apply keeps_bind; [apply keeps_call|intros ?; apply keeps_ret]|]. intros ?.
  apply keeps_bind; [by apply keeps_udelay|]. intros ?.
  apply keeps_bind; [apply keeps_bind; [apply keeps_call|intros ?; apply keeps_ret]|]. intros ?.
  apply keeps_bind; [apply keeps_call|]. intros ?. by apply keeps_modify.
Qed.

(** A sample shows in the buffer. *)

Lemma samples_ok_inj c log d : samples_ok c log -> samples_ok c (log ++ [d]) -> False.
Proof.
  intros H1 H2. destruct (samples_newest _ _ _ H2) as [H0 _]. destruct H1 as [H1 _], H2 as [H2 _].
  rewrite H2 in H1. rewrite decide_False in H1 by (by destruct log). rewrite length_app in H1. cbn [length] in H1.
  rewrite Nat.add_sub in H1. destruct (decide (log = [])) as [|Hne]; [lia|].
  destruct (length log) as [|n] eqn:Hl; [by destruct log|]. cbn [Nat.sub] in H1. rewrite Nat.sub_0_r, (mod_succ 5 n) in H1 by lia.
  pose proof (Nat.mod_upper_bound n 5 ltac:(lia)). destruct (decide _); lia.
Qed.
End measured.
