(* ===== verification/SensorSpec.v ===== *)
(** * The distance sensor: the calls, against the interface of the variants

    [SensorLaws] is what a variant promises: sending ends, and setting the
    trigger up only makes requests. *)

From S2P Require Import Prelude Ring Kernel UserMemory HwPins HwPinsSpec Sensor SensorProofs.

(** ** Code that only makes requests *)

Section silent.
Context {U S : Type} {E : Environment}.

Definition extends (t t' : trace) : Prop := exists l, t' = l ++ t.

Definition silent {A} (f : M (sys U S) A) : Prop :=
  forall w, exists a w', f w = Ok a w' /\ same_world w w' /\ extends (requests w) (requests w').

Lemma silent_ret {A} (a : A) : silent (mret a : M (sys U S) A).
Proof. intros w. exists a, w. split; [done|]. split; [done|]. by exists []. Qed.

Lemma silent_call c : silent (kcall (U := U) (S := S) c).
Proof. intros w. eexists _, _. split; [apply kcall_ok|]. split; [done|]. eexists [_]. reflexivity. Qed.

Lemma silent_bind {A B} (f : M (sys U S) A) (k : A -> M (sys U S) B) :
  silent f -> (forall a, silent (k a)) -> silent (f ≫= k).
Proof.
  intros Hf Hk w. destruct (Hf w) as (a & w1 & H1 & [S1 U1] & [l1 T1]).
  destruct (Hk a w1) as (b & w2 & H2 & [S2 U2] & [l2 T2]).
  exists b, w2. rewrite (bind_ok _ _ _ _ _ H1). split; [done|]. split; [split; congruence|].
  exists (l2 ++ l1). by rewrite T2, T1, app_assoc.
Qed.

Lemma silent_call_ c : silent (kcall_ (U := U) (S := S) c).
Proof. apply silent_bind; [apply silent_call|]. intros _. apply silent_ret. Qed.

Lemma silent_if {A} (b : bool) (f g : M (sys U S) A) : silent f -> silent g -> silent (if b then f else g).
Proof. by destruct b. Qed.

Lemma silent_row (body : Z -> Z * Z -> M (sys U S) (option Z)) m es :
  (forall m e, silent (body m e)) -> silent (for_row body m es).
Proof.
  intros Hb. revert m. induction es as [|e es IH]; intros m; [apply silent_ret|]. cbn [for_row].
  apply silent_bind; [done|]. intros [x|]; [apply silent_ret|apply IH].
Qed.

Lemma silent_pins (body : Z -> Z * Z -> M (sys U S) (option Z)) pin rows :
  (forall m e, silent (body m e)) -> silent (for_pins body pin rows).
Proof.
  intros Hb. induction rows as [|r rows IH]; [apply silent_ret|]. cbn [for_pins].
  apply silent_if; [done|]. apply silent_bind; [by apply silent_row|]. intros [x|]; [apply silent_ret|done].
Qed.

Ltac silence := repeat first
  [ apply silent_ret | apply silent_call | apply silent_call_ | apply silent_if | apply silent_bind; [|intros ?] ].

Lemma silent_freeTrig pin : silent (freeTrig (U := U) (S := S) pin).
Proof. apply silent_bind; [|intros _; apply silent_ret]. apply silent_pins. intros m e. unfold free_trig_entry. silence. Qed.

Lemma silent_freeEcho pin : silent (freeEcho (U := U) (S := S) pin).
Proof. apply silent_bind; [|intros _; apply silent_ret]. apply silent_pins. intros m e. unfold free_echo_entry. silence. Qed.

Lemma silent_set_trig pin rows : silent (for_pins (U := U) (S := S) (set_trig_entry pin) pin rows).
Proof. apply silent_pins. intros m e. unfold set_trig_entry, check_oper. silence. Qed.

Lemma silent_setTrig pin : silent (setTrig (U := U) (S := S) pin).
Proof. apply silent_bind; [apply silent_set_trig|]. intros []; apply silent_ret. Qed.

Lemma silent_setEcho pin : silent (setEcho (U := U) (S := S) pin).
Proof.
  apply silent_bind; [|intros []; apply silent_ret]. apply silent_pins. intros m e.
  unfold set_echo_entry, check_oper. silence.
Qed.

(** Once a release of something not held is in the trace it stays there. *)

Lemma clean_extends t t' : extends t t' -> clean t = false -> clean t' = false.
Proof.
  intros [l ->] Hc. induction l as [|[c r] l IH]; [done|]. cbn [app clean]. by rewrite IH.
Qed.

Lemma silent_safe {A} allowed (P : sys U S -> Prop) (f : M (sys U S) A) :
  silent f -> (forall w w', same_world w w' -> P w -> P w') -> safe allowed P f (fun _ => P).
Proof. intros Hf HP. apply safe_ok. intros w Hw. destruct (Hf w) as (a & w' & H & Hs & _). eauto. Qed.
End silent.

(** ** The interface *)

Class SensorLaws {U} {UM : UserMemory U} {E : Environment} (V : SensorVariant U) := {
  needs_kconfig : bool;        (* sending takes [kconfig_lock] *)
  do_send_ok (w : sys U hcsr) log :
    isr_ready (st w) -> (needs_kconfig = true -> kconfig_lock (kconfig (st w)) = false) ->
    samples_ok (cirb (st w)) log -> (ongoing (st w) = ONGOING \/ ongoing (st w) = STOPPING) ->
    exists r w' new, do_send w = Ok r w' /\ measure_result w w' log r new;
  do_send_quiet : quiet -> keeps_samples (U := U) do_send;
  set_trigger_silent pin : silent (set_trigger pin);
  set_trigger_ok pin (w : sys U hcsr) : gpio_works -> unheld (trig_pins pin) (held (requests w)) ->
    exists w', set_trigger pin w = Ok 0 w' /\ acquired w w' (trig_pins pin)
}.

Section sensor.
Context {U : Type} {UM : UserMemory U} {E : Environment} {V : SensorVariant U} {SL : SensorLaws V}.
Implicit Types (w : sys U hcsr) (log new : list Z).

Definition send_ready (h : hcsr) : Prop :=
  isr_ready h /\ (needs_kconfig = true -> kconfig_lock (kconfig h) = false).

Definition valid_ongoing (h : hcsr) : Prop := ongoing h = ONGOING \/ ongoing h = STOPPING.

Lemma send_ready_measured w w' log new :
  measured w w' log new -> isr_ready (st w') -> send_ready (st w) -> send_ready (st w').
Proof. intros M R [_ Hk]. split; [done|]. destruct (measured_fields _ _ _ _ M) as (_ & -> & _). done. Qed.

(** From an idle sensor [send] always ends, leaves it idle and records at most
    one sample; it reports failure only when no retry is allowed. *)

Lemma resend_ok n w log :
  send_ready (st w) -> samples_ok (cirb (st w)) log -> ongoing (st w) = ONGOING ->
  exists r w' new, resend n w = Ok r w' /\ ongoing (st w') = STOPPING /\ measured w w' log new /\
    isr_ready (st w') /\ (length new <= 1)%nat /\ ((0 < n)%nat -> r = 0).
Proof.
  intros [Hr Hk] Hs Ho. destruct (do_send_ok w log Hr Hk Hs) as (r & w1 & new1 & H1 & O1 & M1 & R1 & HR); [by left|].
  destruct n as [|n]; cbn [resend]; rewrite (bind_ok _ _ _ _ _ H1).
  - exists r, w1, new1. rewrite Ho in HR. split; [by destruct (r =? 0)|].
    split_and!; try done; destruct HR as [(?&?&?)|[(?&?&?)|(?&?&->)]]; simpl; done || lia.
  - rewrite Ho in HR. destruct HR as [(?&_)|[(_&->&Hl)|(_&->&->)]]; [done| |].
    + exists 0, w1, new1. split; [done|]. split_and!; done || lia.
    + change (- EAGAIN =? 0) with false. cbn iota.
      destruct (measured_fields _ _ _ _ M1) as (_ & Ek & _ & _ & _ & _ & S1).
      assert (exists w2, do_send w1 = Ok 0 w2 /\ measured w1 w2 (log ++ []) [] /\ ongoing (st w2) = STOPPING /\
        isr_ready (st w2)) as (w2 & H2 & M2 & O2 & R2).
      { destruct (do_send_ok w1 (log ++ []) R1) as (r & w2 & new2 & H2 & O2 & M2 & R2 & HR2).
        - by rewrite Ek.
        - done.
        - by right.
        - rewrite O1 in HR2. destruct HR2 as [(_&->&->)|[(?&_)|(?&_)]]; [|done..]. by exists w2. }
      exists 0, w2, []. split; [destruct n; cbn [resend]; by rewrite (bind_ok _ _ _ _ _ H2)|].
      split_and!; try done; [|simpl; lia]. by apply (measured_trans _ _ _ _ [] []  M1).
Qed.

Lemma send_ok k w log :
  send_ready (st w) -> samples_ok (cirb (st w)) log -> valid_ongoing (st w) ->
  exists r w' new, send k w = Ok r w' /\ measured w w' log new /\ isr_ready (st w') /\ valid_ongoing (st w') /\
    (length new <= 1)%nat /\ (0 < k -> r = 0) /\ (ongoing (st w) = STOPPING -> ongoing (st w') = STOPPING).
Proof.
  intros Hr Hs Ho. unfold send. rewrite (bind_ok _ _ _ _ _ (lock_ongoing_ok _ (proj1 (proj1 Hr)))).
  erewrite bind_ok by reflexivity. cbn [st with_st with_ongoing_lock ongoing].
  assert (forall o, with_ongoing_lock false (with_ongoing o (with_ongoing_lock true (st w))) = with_ongoing o (st w)) as Hback.
  { intros o. destruct Hr as [[Hx _] _]. destruct (st w). simpl in *. by subst. }
  destruct Ho as [Ho|Ho]; rewrite Ho; cbn [Z.eqb ONGOING STOPPING Pos.eqb].
  - erewrite bind_ok by (by apply unlock_ongoing_ok). exists 0, w, [].
    assert (with_st (with_ongoing_lock false (with_ongoing_lock true (st w))) w = w) as Hw.
    { destruct Hr as [[Hx _] _]. destruct w as [[] ? ?]. simpl in *. by subst. }
    change (with_st (with_ongoing_lock false _) (with_st _ w)) with (with_st (with_ongoing_lock false (with_ongoing_lock true (st w))) w).
    rewrite Hw. split; [done|]. split; [by apply measured_refl|]. split; [apply Hr|].
    split; [by left|]. split; [simpl; lia|]. split; [done|]. by rewrite Ho.
  - erewrite bind_ok by reflexivity. erewrite bind_ok by (by apply unlock_ongoing_ok).
    change (with_st (with_ongoing_lock false _) (with_st _ (with_st _ w))) with
      (with_st (with_ongoing_lock false (with_ongoing ONGOING (with_ongoing_lock true (st w)))) w).
    rewrite Hback. set (w1 := with_st _ w).
    destruct (resend_ok (Z.to_nat k) w1 log Hr Hs eq_refl) as (r & w2 & new & H2 & O2 & M2 & R2 & Hl & Hz).
    exists r, w2, new. split; [done|]. split.
    { destruct M2 as [(o & ks & c & Es & Sc) ? ? ? ?]. constructor; try done.
      exists o, ks, c. split; [|done]. rewrite Es. reflexivity. }
    split; [done|]. split; [by right|]. split; [done|]. split; [intros; apply Hz; lia|done].
Qed.

(** ** Assertions on the whole device *)

Record sensor_state (kc : hcsr_kconfig) (kt : option thread_ptr) (tl il : bool) w : Prop := {
  ss_kconfig : kconfig (st w) = kc;
  ss_kthread : kthread (st w) = kt;
  ss_kthread_lock : kthread_lock (st w) = tl;
  ss_irq_lock : irq_done_lock (st w) = il;
  ss_ongoing_lock : ongoing_lock (st w) = false;
  ss_ongoing : valid_ongoing (st w);
  ss_samples : exists log, samples_ok (cirb (st w)) log
}.

Lemma sensor_isr_ready kc kt tl il w : sensor_state kc kt tl il w -> isr_ready (st w).
Proof. intros [_ _ _ _ Hl _ (log & _ & _ & Hc)]. done. Qed.

Lemma sensor_measured kc kt tl il w w' log new :
  sensor_state kc kt tl il w -> measured w w' log new -> valid_ongoing (st w') -> sensor_state kc kt tl il w'.
Proof.
  intros [] M Ho. destruct (measured_fields _ _ _ _ M) as (H1 & H2 & H3 & H4 & _ & H6 & H7).
  constructor; try congruence. by exists (log ++ new).
Qed.

Definition unlocked_config (kc : hcsr_kconfig) : Prop := kconfig_lock kc = false.

(** The faults the calls may meet from a sound state: a read before the first
    sample, a frequency of 0, a thread that could not be started, SETPINS from
    an unreadable address.  No lock error, no use after free. *)

Definition sensor_faults : list fault := [OutOfBounds; DivByZero; BadUserAccess; NullDeref].

#[local] Abbreviation sensor_safe := (safe sensor_faults).

Lemma send_safe k kc kt tl il :
  (needs_kconfig = true -> unlocked_config kc) ->
  sensor_safe (sensor_state kc kt tl il) (send k) (fun _ => sensor_state kc kt tl il).
Proof.
  intros Hk. apply safe_ok. intros w Hs. pose proof (sensor_isr_ready _ _ _ _ _ Hs) as Hr.
  destruct (ss_samples _ _ _ _ _ Hs) as [log Hlog].
  destruct (send_ok k w log) as (r & w' & new & H & M & _ & O & _); [|done|apply Hs|].
  { split; [done|]. rewrite (ss_kconfig _ _ _ _ _ Hs). done. }
  exists r, w'. split; [done|]. by eapply sensor_measured.
Qed.

Lemma isr_safe kc kt tl il :
  sensor_safe (sensor_state kc kt tl il) echo_recv_isr (fun _ => sensor_state kc kt tl il).
Proof.
  apply safe_ok. intros w Hs. pose proof (sensor_isr_ready _ _ _ _ _ Hs) as Hr.
  destruct (ss_ongoing _ _ _ _ _ Hs) as [Ho|Ho].
  - destruct (ss_samples _ _ _ _ _ Hs) as [log Hlog].
    destruct (isr_records w log Hr) as (w' & H & O & M); [by rewrite Ho|done|].
    exists IRQ_HANDLED, w'. split; [done|]. eapply sensor_measured; [done..|]. by right.
  - exists IRQ_HANDLED, w. split; [|done]. apply isr_idle; [apply Hs|done].
Qed.

Lemma call_safe c kc kt tl il :
  sensor_safe (sensor_state kc kt tl il) (kcall c) (fun _ => sensor_state kc kt tl il).
Proof.
  apply safe_ok. intros w Hs. eexists _, _. split; [apply kcall_ok|]. destruct Hs. by constructor.
Qed.

(** ** Locks *)

Definition kc_lock (b : bool) (kc : hcsr_kconfig) : hcsr_kconfig :=
  {| kset := kset kc; enable := enable kc; kconfig_lock := b |}.

Lemma lock_kconfig_safe kc kt tl il : unlocked_config kc ->
  sensor_safe (sensor_state kc kt tl il) lock_kconfig (fun _ => sensor_state (kc_lock true kc) kt tl il).
Proof.
  intros Hk. apply safe_ok. intros w Hs. eexists _, _. split.
  - apply spin_lock_ok. by rewrite (ss_kconfig _ _ _ _ _ Hs).
  - destruct Hs as [<- ? ? ? ? ? ?]. by constructor.
Qed.

Lemma unlock_kconfig_safe kc kt tl il :
  sensor_safe (sensor_state (kc_lock true kc) kt tl il) unlock_kconfig (fun _ => sensor_state (kc_lock false kc) kt tl il).
Proof.
  apply safe_ok. intros w Hs. eexists _, _. split.
  - apply spin_unlock_ok. by rewrite (ss_kconfig _ _ _ _ _ Hs).
  - destruct Hs as [E1 ? ? ? ? ? ?]. constructor; try done. cbn. by rewrite E1.
Qed.

Lemma kc_relock kc : unlocked_config kc -> kc_lock false kc = kc.
Proof. destruct kc. unfold unlocked_config. simpl. by intros ->. Qed.

Lemma lock_kthread_safe kc kt il :
  sensor_safe (sensor_state kc kt false il) lock_kthread (fun _ => sensor_state kc kt true il).
Proof.
  apply safe_ok. intros w Hs. eexists _, _. split; [apply spin_lock_ok, Hs|]. destruct Hs. by constructor.
Qed.

Lemma unlock_kthread_safe kc kt il :
  sensor_safe (sensor_state kc kt true il) unlock_kthread (fun _ => sensor_state kc kt false il).
Proof.
  apply safe_ok. intros w Hs. eexists _, _. split; [apply spin_unlock_ok, Hs|]. destruct Hs. by constructor.
Qed.

Lemma lock_irq_safe kc kt tl :
  sensor_safe (sensor_state kc kt tl false) lock_irq_done (fun _ => sensor_state kc kt tl true).
Proof.
  apply safe_ok. intros w Hs. eexists _, _. split; [apply spin_lock_ok, Hs|]. destruct Hs. by constructor.
Qed.

Lemma unlock_irq_safe kc kt tl :
  sensor_safe (sensor_state kc kt tl true) unlock_irq_done (fun _ => sensor_state kc kt tl false).
Proof.
  apply safe_ok. intros w Hs. eexists _, _. split; [apply spin_unlock_ok, Hs|]. destruct Hs. by constructor.
Qed.

Lemma modify_safe (f : hcsr -> hcsr) kc kt tl il kc' kt' :
  (forall w, sensor_state kc kt tl il w -> sensor_state kc' kt' tl il (with_st (f (st w)) w)) ->
  sensor_safe (sensor_state kc kt tl il) (modify_st f) (fun _ => sensor_state kc' kt' tl il).
Proof. intros Hf. apply safe_ok. intros w Hs. eexists _, _. split; [apply modify_st_ok|auto]. Qed.

(** Reading the state: what it says of the parts the assertion fixes. *)

Lemma get_safe kc kt tl il {A} (k : hcsr -> M (sys U hcsr) A) Q :
  (forall h, kconfig h = kc -> kthread h = kt -> sensor_safe (sensor_state kc kt tl il) (k h) Q) ->
  sensor_safe (sensor_state kc kt tl il) (h ← get_st; k h) Q.
Proof.
  intros Hk w Hs. erewrite bind_ok by reflexivity. apply Hk; [apply Hs..|done].
Qed.

Lemma stop_safe kc kt tl il :
  sensor_safe (sensor_state kc kt tl il) (lock_ongoing ;; modify_st (with_ongoing STOPPING) ;; unlock_ongoing) (fun _ => sensor_state kc kt tl il).
Proof.
  apply safe_ok. intros w Hs. exists tt, (with_st (with_ongoing STOPPING (st w)) w). split.
  - apply stop_run, Hs.
  - destruct Hs. constructor; try done. by right.
Qed.

(** ** The newest sample to the caller *)

(** A look at the buffer under its lock. *)

Lemma peek_run {A} w log (k : hcsr -> M (sys U hcsr) A) :
  samples_ok (cirb (st w)) log ->
  (lock_cirb ;; h ← get_st; k h) w = k (with_cirb_lock true (st w)) (with_st (with_cirb_lock true (st w)) w).
Proof.
  intros (_ & _ & Hc). erewrite bind_ok by (apply spin_lock_ok; exact Hc). by erewrite bind_ok by reflexivity.
Qed.

Lemma unpeek_run w log :
  samples_ok (cirb (st w)) log -> unlock_cirb (with_st (with_cirb_lock true (st w)) w) = Ok tt w.
Proof.
  intros (_ & _ & Hc). unfold unlock_cirb. rewrite spin_unlock_ok by done. f_equal.
  destruct w as [[? ? ? ? ? ? ? ? [] ? ? ?] ? ?]. simpl in *. by subst.
Qed.

Lemma copy_newest_run buf w log :
  samples_ok (cirb (st w)) log ->
  match last log with
  | None => exists w', copy_newest buf w = Crash OutOfBounds w'
  | Some d => copy_newest buf w =
      Ok (store (user w) buf (put_int d)).2 (with_user (store (user w) buf (put_int d)).1 w)
  end.
Proof.
  intros Hs. pose proof Hs as (Hn & _ & Hc). unfold copy_newest. rewrite (peek_run w log) by done.
  cbn [st with_st with_cirb_lock with_cirb cirb newest]. destruct (last log) as [d|] eqn:Hl.
  - apply last_Some in Hl as [l ->]. destruct (samples_newest _ _ _ Hs) as [Hrange Hd].
    erewrite bind_ok; last first.
    { apply (deref_ok (fun w => if newest _ <? 0 then None else data (cirb (st w)) !! Z.to_nat (newest _))).
      rewrite (proj2 (Z.ltb_ge _ _)) by lia. apply Hd. }
    erewrite bind_ok by reflexivity. cbn [user with_st].
    erewrite bind_ok; [reflexivity|]. apply (unpeek_run (with_user _ w) _ Hs).
  - apply last_None in Hl as ->. rewrite decide_True in Hn by done. rewrite Hn.
    eexists. apply bind_crash. reflexivity.
Qed.

(** With a sample there, the copy of lines 345-346. *)

Lemma copy_now_run buf w log d : samples_ok (cirb (st w)) log -> last log = Some d ->
  (v ← load_data (newest (cirb (with_cirb_lock true (st w)))); copy_to_user buf (put_int v) ;; unlock_cirb ;; mret 0)
    (with_st (with_cirb_lock true (st w)) w) = Ok 0 (with_user (store (user w) buf (put_int d)).1 w).
Proof.
  intros Hs [l ->]%last_Some. destruct (samples_newest _ _ _ Hs) as [Hrange Hd]. erewrite bind_ok; last first.
  { apply (deref_ok (fun w => if newest _ <? 0 then None else data (cirb (st w)) !! Z.to_nat (newest _))).
    rewrite (proj2 (Z.ltb_ge _ _)) by (cbn; lia). apply Hd. }
  erewrite bind_ok by reflexivity. cbn [user with_st]. by erewrite bind_ok by apply (unpeek_run (with_user _ w) _ Hs).
Qed.

Lemma samples_none c log : samples_ok c log -> (newest c =? -1) = bool_decide (log = []).
Proof.
  intros (-> & _). destruct (decide (log = [])) as [->|Hne]; [done|].
  rewrite bool_decide_eq_false_2 by done. apply Z.eqb_neq. lia.
Qed.

Lemma with_user_state u kc kt tl il w : sensor_state kc kt tl il w -> sensor_state kc kt tl il (with_user u w).
Proof. intros []. by constructor. Qed.

Lemma copy_newest_safe buf kc kt tl il :
  sensor_safe (sensor_state kc kt tl il) (copy_newest buf) (fun _ => sensor_state kc kt tl il).
Proof.
  intros w Hs. destruct (ss_samples _ _ _ _ _ Hs) as [log Hlog]. pose proof (copy_newest_run buf w log Hlog) as Hr.
  destruct (last log); [|destruct Hr as [w' ->]; by left]. rewrite Hr. by apply with_user_state.
Qed.

(** ** Waiting *)

Lemma udelay_safe kc kt tl il :
  sensor_safe (sensor_state kc kt tl il) udelay (fun _ => sensor_state kc kt tl il).
Proof.
  eapply safe_bind; [apply call_safe|]. intros r. destruct (r =? 0).
  - apply safe_done.
  - eapply safe_bind; [apply isr_safe|]. intros ?. apply safe_done.
Qed.

Lemma thread_round_safe kc kt tl il : (needs_kconfig = true -> unlocked_config kc) ->
  sensor_safe (sensor_state kc kt tl il) thread_round (fun _ => sensor_state kc kt tl il).
Proof.
  intros Hk. eapply safe_bind; [by apply send_safe|]. intros ?.
  apply safe_done.
Qed.

Lemma msleep_safe kc kt tl il : (needs_kconfig = true -> unlocked_config kc) ->
  sensor_safe (sensor_state kc kt tl il) msleep (fun _ => sensor_state kc kt tl il).
Proof.
  intros Hk. eapply safe_bind; [apply call_safe|]. intros r. destruct (r =? 0), (r =? 1).
  1-2: apply safe_done.
  - eapply safe_bind; [apply isr_safe|]. intros ?. apply safe_done.
  - apply get_safe. intros h _ _. destruct (kthread h) as [[ms|]|]; [by apply thread_round_safe|..];
      apply safe_done.
Qed.

Lemma spin_ongoing_safe fuel kc kt tl il :
  sensor_safe (sensor_state kc kt tl il) (spin_ongoing fuel) (fun _ => sensor_state kc kt tl il).
Proof.
  induction fuel as [|fuel IH]; cbn [spin_ongoing]; apply get_safe; intros h _ _; destruct (ongoing h =? ONGOING).
  - apply safe_blocked.
  - apply safe_done.
  - eapply safe_bind; [apply udelay_safe|]. by intros ?.
  - apply safe_done.
Qed.

Lemma wait_sample_safe fuel kc kt tl il : (needs_kconfig = true -> unlocked_config kc) ->
  sensor_safe (sensor_state kc kt tl il) (wait_sample fuel) (fun _ => sensor_state kc kt tl il).
Proof.
  intros Hk. induction fuel as [|fuel IH]; intros w Hs; destruct (ss_samples _ _ _ _ _ Hs) as [log Hlog];
    cbn [wait_sample]; rewrite (peek_run _ _ _ Hlog); destruct (newest _ =? -1).
  - by rewrite (bind_ok _ _ _ _ _ (unpeek_run _ _ Hlog)).
  - by rewrite (unpeek_run _ _ Hlog).
  - rewrite (bind_ok _ _ _ _ _ (unpeek_run _ _ Hlog)).
    assert (sensor_safe (sensor_state kc kt tl il) (msleep ;; wait_sample fuel) (fun _ => sensor_state kc kt tl il)) as G.
    { eapply safe_bind; [by apply msleep_safe|]. by intros ?. }
    exact (G w Hs).
  - by rewrite (unpeek_run _ _ Hlog).
Qed.

Lemma send_if_stopped_safe k kc kt tl il : (needs_kconfig = true -> unlocked_config kc) ->
  sensor_safe (sensor_state kc kt tl il) (send_if_stopped k) (fun _ => sensor_state kc kt tl il).
Proof.
  intros Hk w Hs. pose proof (ss_ongoing_lock _ _ _ _ _ Hs) as Hl. unfold send_if_stopped.
  rewrite (bind_ok _ _ _ _ _ (lock_ongoing_ok _ Hl)). erewrite bind_ok by reflexivity.
  assert (unlock_ongoing (with_st (with_ongoing_lock true (st w)) w) = Ok tt w) as Hu.
  { rewrite unlock_ongoing_ok by done. f_equal. destruct w as [[] ? ?]. simpl in *. by subst. }
  cbn [st with_st with_ongoing_lock ongoing]. destruct (ongoing (st w) =? STOPPING); [|by rewrite Hu].
  rewrite (bind_ok _ _ _ _ _ Hu). pose proof (send_safe k kc kt tl il Hk w Hs) as H.
  unfold mbind, M_bind. destruct (send k w); [|done..]. apply H.
Qed.
End sensor.
