(* ===== verification/SensorCalls.v ===== *)
(** * The distance sensor: [read], [write] and [ioctl] from a sound device *)

From S2P Require Import Prelude Ring Kernel UserMemory HwPins HwPinsSpec Sensor SensorProofs SensorSpec.

(** The periodic thread exists outside ONE_SHOT mode only, and its period is
    the one of the frequency. *)

Definition thread_ok (kc : hcsr_kconfig) (kt : option thread_ptr) : Prop :=
  match kt with
  | None => True
  | Some t =>
      mode (working_mode (kset kc)) <> ONE_SHOT /\
      match t with
      | Error_pointer => True
      | Thread ms => freq (working_mode (kset kc)) <> 0 /\ ms = 1000 / freq (working_mode (kset kc))
      end
  end.

Section calls.
Context {U : Type} {UM : UserMemory U} {E : Environment} {IC : IoctlCode} {V : SensorVariant U} {SL : SensorLaws V}.
Implicit Types (w : sys U hcsr) (log new : list Z).

#[local] Abbreviation sensor_safe := (safe sensor_faults).

Definition sensor_inv w : Prop :=
  exists kc kt, sensor_state kc kt false false w /\ unlocked_config kc /\ thread_ok kc kt.

(** ** The thread *)

Lemma kthread_stop_safe t kc kt tl il : (needs_kconfig = true -> unlocked_config kc) ->
  sensor_safe (sensor_state (U := U) kc kt tl il) (kthread_stop t) (fun _ => sensor_state kc kt tl il).
Proof.
  intros Hk. destruct t as [ms|]; [|by apply safe_crash; right; right; left].
  eapply safe_bind; [apply call_safe|]. intros r. destruct (negb (r =? 0)); [by apply thread_round_safe|apply safe_done].
Qed.

Lemma kthread_run_safe kc kt tl il :
  sensor_safe (sensor_state (U := U) kc kt tl il) kthread_run
    (fun t w => sensor_state kc kt tl il w /\ (mode (working_mode (kset kc)) <> ONE_SHOT -> thread_ok kc (Some t))).
Proof.
  eapply safe_bind; [apply call_safe|]. intros r. destruct (negb (r =? 0)).
  - intros w Hs. cbn. split; [done|]. by intros ?.
  - unfold thread_function. intros w Hs. unfold mbind, M_bind, get_st, gets, the_mode.
    rewrite (ss_kconfig _ _ _ _ _ Hs). destruct (Z.eqb_spec (freq (working_mode (kset kc))) 0).
    + cbn. by right; left.
    + cbn. split; [done|]. by intros ?.
Qed.

Lemma set_kthread_safe kt' kc kt tl il :
  sensor_safe (sensor_state (U := U) kc kt tl il) (modify_st (with_kthread kt')) (fun _ => sensor_state kc kt' tl il).
Proof. apply modify_safe. intros w []. by constructor. Qed.

(** [kthread = kthread_run(...)]. *)

Lemma start_thread_safe kc kt tl il : mode (working_mode (kset kc)) <> ONE_SHOT ->
  sensor_safe (sensor_state (U := U) kc kt tl il) (t ← kthread_run; modify_st (with_kthread (Some t)))
    (fun _ w => exists kt', sensor_state kc kt' tl il w /\ thread_ok kc kt').
Proof.
  intros Hm. eapply safe_bind; [apply kthread_run_safe|]. intros t. apply safe_ok. intros w [Hs Ht].
  eexists _, _. split; [apply modify_st_ok|]. exists (Some t). split; [|by apply Ht].
  destruct Hs. by constructor.
Qed.

(** ** [read] *)

Lemma read_safe fuel buf kc kt : unlocked_config kc ->
  sensor_safe (sensor_state (U := U) kc kt false false) (hc_sr04_read fuel buf) (fun _ => sensor_state kc kt false false).
Proof.
  intros Hk. unfold hc_sr04_read. eapply safe_bind; [by apply lock_kconfig_safe|]. intros ?.
  apply get_safe. intros h Hkc _. unfold the_mode. rewrite Hkc. cbn [kc_lock kset].
  destruct (mode (working_mode (kset kc)) =? ONE_SHOT);
    (eapply safe_bind; [apply unlock_kconfig_safe|]; intros ?; rewrite kc_relock by done).
  - eapply safe_bind; [by apply send_if_stopped_safe|]. intros ?.
    eapply safe_bind; [apply spin_ongoing_safe|]. intros ?.
    eapply safe_bind; [apply copy_newest_safe|]. intros ret. destruct (negb (ret =? 0)); apply safe_done.
  - intros w Hs. destruct (ss_samples _ _ _ _ _ Hs) as [log Hlog]. rewrite (peek_run w log) by done.
    assert (newest (cirb (with_cirb_lock true (st w))) = newest (cirb (st w))) as -> by done.
    destruct (Z.eqb_spec (newest (cirb (st w))) (-1)) as [Hn|Hn]; cbn [negb].
    + rewrite (bind_ok _ _ _ _ _ (unpeek_run _ _ Hlog)).
      assert (sensor_safe (sensor_state (U := U) kc kt false false)
        (wait_sample fuel ;; ret ← copy_newest buf; if negb (ret =? 0) then mret (- EAGAIN) else mret 0)
        (fun _ => sensor_state kc kt false false)) as G; [|exact (G w Hs)].
      eapply safe_bind; [by apply wait_sample_safe|]. intros ?.
      eapply safe_bind; [apply copy_newest_safe|]. intros ret. destruct (negb (ret =? 0)); apply safe_done.
    + destruct (last log) as [d|] eqn:Hl.
      2: { apply last_None in Hl as ->. by destruct Hlog as (Hx & _). }
      rewrite (copy_now_run buf w log d) by done. by apply with_user_state.
Qed.

(** ** [write] *)

Lemma clear_samples_safe kc kt tl il :
  sensor_safe (sensor_state (U := U) kc kt tl il) clear_samples (fun _ => sensor_state kc kt tl il).
Proof.
  apply safe_ok. intros w Hs. destruct (ss_samples _ _ _ _ _ Hs) as (log & _ & _ & Hc). eexists _, _. split.
  - unfold clear_samples. erewrite bind_ok by (apply spin_lock_ok; exact Hc). erewrite bind_ok by reflexivity.
    by apply spin_unlock_ok.
  - destruct Hs. constructor; try done. exists []. done.
Qed.

(** The thread is the one before, or none, or a new one of the right period. *)

Lemma write_safe buf kc kt : unlocked_config kc ->
  sensor_safe (sensor_state (U := U) kc kt false false) (hc_sr04_write buf)
    (fun _ w => exists kt', sensor_state kc kt' false false w /\ (kt' = kt \/ thread_ok kc kt')).
Proof.
  intros Hk. unfold hc_sr04_write.
  eapply (safe_bind _ _ _ _ (fun _ => sensor_state kc kt false false)); [by intros w Hs|]. intros c.
  eapply safe_bind; [by apply lock_kconfig_safe|]. intros ?.
  apply get_safe. intros h Hkc _. unfold the_mode. rewrite Hkc. cbn [kc_lock kset].
  destruct (Z.eqb_spec (mode (working_mode (kset kc))) ONE_SHOT) as [Hm|Hm];
    (eapply safe_bind; [apply unlock_kconfig_safe|]; intros ?; rewrite kc_relock by done).
  - eapply (safe_bind _ _ _ _ (fun _ => sensor_state kc kt false false)).
    { destruct (negb _); [apply clear_samples_safe|apply safe_done]. }
    intros ?. eapply safe_bind; [by apply send_if_stopped_safe|]. intros ?. intros w Hs. exists kt. split; [done|by left].
  - eapply safe_bind; [apply lock_kthread_safe|]. intros ?. apply get_safe. intros h' _ Hkt.
    eapply (safe_bind _ _ _ _ (fun _ w => exists kt', sensor_state kc kt' true false w /\ (kt' = kt \/ thread_ok kc kt'))).
    + rewrite Hkt. destruct (get_int c.1 =? 0), kt as [t|].
      * eapply safe_bind; [by apply kthread_stop_safe|]. intros ?.
        eapply safe_bind; [apply set_kthread_safe|]. intros ?.
        eapply safe_conseq; [apply stop_safe|done|]. intros ? w Hs. exists None. split; [done|by right].
      * intros w Hs. exists None. split; [done|by left].
      * intros w Hs. exists (Some t). split; [done|by left].
      * eapply safe_conseq; [by apply start_thread_safe|done|]. intros ? w (kt' & Hs & Ht). exists kt'. split; [done|by right].
    + intros ?. apply safe_exists. intros kt' w [Hs Ht'].
      assert (sensor_safe (sensor_state (U := U) kc kt' true false) (unlock_kthread ;; mret 0)
        (fun _ => sensor_state kc kt' false false)) as G.
      { eapply safe_bind; [apply unlock_kthread_safe|]. intros ?. apply safe_done. }
      specialize (G w Hs). destruct ((unlock_kthread ;; mret 0) w); [by exists kt'|done..].
Qed.

(** ** SETMODE, for the variant whose sending does not take [kconfig_lock] *)

Definition kc_mode (m : mode_set) (kc : hcsr_kconfig) : hcsr_kconfig :=
  {| kset := {| pins := pins (kset kc); working_mode := m |}; enable := enable kc; kconfig_lock := kconfig_lock kc |}.

Lemma SETMODE_safe addr kc kt : needs_kconfig = false -> unlocked_config kc -> thread_ok kc kt ->
  sensor_safe (sensor_state (U := U) kc kt false false) (ioctl_SETMODE addr)
    (fun _ w => exists kc' kt', sensor_state kc' kt' false false w /\ unlocked_config kc' /\ thread_ok kc' kt').
Proof.
  intros Hn Hk Ht. unfold ioctl_SETMODE.
  eapply (safe_bind _ _ _ _ (fun _ => sensor_state kc kt false false)); [by intros w Hs|]. intros [bs failed].
  destruct (negb (failed =? 0)); [intros w Hs; by exists kc, kt|]. set (m := get_mode bs). cbn zeta.
  destruct (negb (mode m =? ONE_SHOT) && negb (mode m =? PERIODIC)); [intros w Hs; by exists kc, kt|].
  eapply safe_bind; [by apply lock_kconfig_safe|]. intros ?.
  eapply (safe_bind _ _ _ _ (fun _ => sensor_state (kc_lock true (kc_mode m kc)) kt false false)).
  { apply modify_safe. intros w [E1 ? ? ? ? ? ?]. constructor; try done. cbn. by rewrite E1. }
  intros ?. eapply safe_bind; [apply lock_kthread_safe|]. intros ?. apply get_safe. intros h _ Hkt.
  eapply (safe_bind _ _ _ _ (fun _ w => exists kt', sensor_state (kc_lock true (kc_mode m kc)) kt' true false w /\
    thread_ok (kc_lock true (kc_mode m kc)) kt')).
  - rewrite Hkt. destruct kt as [t|]; [|intros w Hs; by exists None].
    destruct (Z.eqb_spec (mode m) ONE_SHOT) as [Hm|Hm]; cbn [negb].
    + eapply safe_bind; [apply kthread_stop_safe; by rewrite Hn|]. intros ?.
      eapply safe_conseq; [apply set_kthread_safe|done|]. intros ? w Hs. by exists None.
    + eapply safe_bind; [apply kthread_stop_safe; by rewrite Hn|]. intros ?. by apply start_thread_safe.
  - intros ?. apply safe_exists. intros kt' w [Hs Ht'].
    assert (sensor_safe (sensor_state (U := U) (kc_lock true (kc_mode m kc)) kt' true false)
      (unlock_kthread ;; unlock_kconfig ;; mret 0)
      (fun _ => sensor_state (kc_lock false (kc_mode m kc)) kt' false false)) as G.
    { eapply safe_bind; [apply unlock_kthread_safe|]. intros ?.
      eapply safe_bind; [apply unlock_kconfig_safe|]. intros ?. apply safe_done. }
    specialize (G w Hs). destruct ((unlock_kthread ;; unlock_kconfig ;; mret 0) w); [|done..].
    by exists (kc_lock false (kc_mode m kc)), kt'.
Qed.

(** ** SETPINS *)

Definition kc_pins (p : pin_set) (kc : hcsr_kconfig) : hcsr_kconfig :=
  {| kset := {| pins := p; working_mode := working_mode (kset kc) |}; enable := enable kc; kconfig_lock := kconfig_lock kc |}.

Lemma silent_state {A} (f : M (sys U hcsr) A) kc kt tl il : silent f ->
  sensor_safe (sensor_state (U := U) kc kt tl il) f (fun _ => sensor_state kc kt tl il).
Proof.
  intros Hf. apply silent_safe; [done|]. intros w w' [Es _] []. constructor; by rewrite Es.
Qed.

(** Only the pins of the configuration may differ. *)

Definition repinned kc kt il w : Prop :=
  exists p, sensor_state (kc_pins p kc) kt false il w.

Lemma set_pins_safe (f : hcsr -> pin_set) kc kt il :
  sensor_safe (repinned kc kt il) (modify_st (fun h => with_pins (f h) h)) (fun _ => repinned kc kt il).
Proof.
  apply safe_exists. intros p. apply safe_ok. intros w Hs. eexists _, _. split; [apply modify_st_ok|].
  exists (f (st w)). destruct Hs as [E1 ? ? ? ? ? ?]. constructor; try done. cbn. by rewrite E1.
Qed.

Lemma repinned_safe {A} (f : M (sys U hcsr) A) kc kt il (Q : A -> sys U hcsr -> Prop) :
  (forall p, sensor_safe (sensor_state (kc_pins p kc) kt false il) f Q) -> sensor_safe (repinned kc kt il) f Q.
Proof. apply safe_exists. Qed.

Lemma silent_repinned {A} (f : M (sys U hcsr) A) kc kt il : silent f ->
  sensor_safe (repinned kc kt il) f (fun _ => repinned kc kt il).
Proof.
  intros Hf. apply repinned_safe. intros p. eapply safe_conseq; [by apply silent_state|done|].
  intros a w Hs. by exists p.
Qed.

Lemma unlock_repinned {A} (r : A) kc kt :
  sensor_safe (repinned kc kt true) (unlock_irq_done ;; mret r) (fun _ => repinned kc kt false).
Proof.
  apply repinned_safe. intros p. eapply safe_bind; [apply unlock_irq_safe|]. intros ? w Hs. by exists p.
Qed.

Lemma setpins_error_safe r kc kt :
  sensor_safe (repinned kc kt true) (setpins_error r) (fun _ => repinned kc kt false).
Proof.
  unfold setpins_error. eapply safe_bind; [apply (set_pins_safe (fun h => {| trigger_pin := -1; echo_pin := echo_pin (the_pins h) |}))|]. intros ?.
  eapply safe_bind; [apply (set_pins_safe (fun h => {| trigger_pin := trigger_pin (the_pins h); echo_pin := -1 |}))|].
  intros ?. apply unlock_repinned.
Qed.

Lemma setpins_success_safe kc kt :
  sensor_safe (repinned kc kt true) setpins_success (fun _ => repinned kc kt false).
Proof.
  unfold setpins_success. eapply (safe_bind _ _ _ _ (fun _ => repinned kc kt true)).
  - apply repinned_safe. intros p. apply safe_ok. intros w Hs. eexists _, _. split; [apply modify_st_ok|].
    exists p. destruct Hs. by constructor.
  - intros ?. apply unlock_repinned.
Qed.

Lemma set_ISR_safe kc kt :
  sensor_safe (repinned kc kt true) set_ISR (fun _ => repinned kc kt true).
Proof.
  apply repinned_safe. intros p. apply get_safe. intros h _ _.
  eapply safe_bind; [apply call_safe|]. intros ret. destruct (ret <? 0); [intros w Hs; by exists p|].
  eapply (safe_bind _ _ _ _ (fun _ => sensor_state (kc_pins p kc) kt false true)).
  { apply modify_safe. intros w []. by constructor. }
  intros ?. eapply safe_bind; [apply call_safe|]. intros r2. destruct (negb (r2 =? 0)); intros w Hs; by exists p.
Qed.

Lemma kc_pins_same kc : kc_pins (pins (kset kc)) kc = kc.
Proof. by destruct kc as [[] ? ?]. Qed.

Lemma SETPINs_safe addr kc kt :
  sensor_safe (sensor_state (U := U) kc kt false false) (ioctl_SETPINs addr) (fun _ => repinned kc kt false).
Proof.
  unfold ioctl_SETPINs.
  eapply (safe_bind _ _ _ _ (fun _ => sensor_state kc kt false false)); [by intros w Hs|]. intros [bs failed].
  destruct (negb (failed =? 0)); [by apply safe_crash; do 3 right; left|].
  eapply safe_bind; [apply lock_irq_safe|]. intros ?. apply get_safe. intros h _ _.
  eapply (safe_bind _ _ _ _ (fun _ => sensor_state kc kt false true)).
  { apply silent_state. destruct (irq_done h =? IRQ_DONE); [apply silent_call_|apply silent_ret]. }
  intros ?. eapply safe_bind; [apply silent_state, silent_freeTrig|]. intros ?.
  eapply safe_bind; [apply silent_state, silent_freeEcho|]. intros ?.
  eapply (safe_bind _ _ _ _ (fun _ => repinned kc kt true)).
  { eapply (safe_conseq _ (repinned kc kt true)); [apply (set_pins_safe (fun _ => get_pins bs))| |done].
    intros w Hs. exists (pins (kset kc)). by rewrite kc_pins_same. }
  intros ?. eapply safe_bind; [apply silent_repinned, set_trigger_silent|]. intros r1.
  destruct (negb (r1 =? 0)); [apply setpins_error_safe|].
  eapply safe_bind; [apply silent_repinned, silent_setEcho|]. intros r2.
  destruct (negb (r2 =? 0)); [apply setpins_error_safe|].
  eapply safe_bind; [apply set_ISR_safe|]. intros r3.
  destruct (negb (r3 =? 0)); [apply setpins_error_safe|apply setpins_success_safe].
Qed.
End calls.
