(* ===== verification/SensorRead.v ===== *)
(** * The distance sensor: what a reader gets, and when nobody answers *)

From S2P Require Import Prelude Ring Kernel UserMemory HwPins HwPinsSpec Sensor SensorProofs SensorSpec.
From S2P Require Import SensorCalls.

Section read.
Context {U : Type} {UM : UserMemory U} {E : Environment} {V : SensorVariant U} {SL : SensorLaws V}.
Implicit Types (w : sys U hcsr) (log new : list Z).

(** Asking for the mode takes [kconfig_lock] and gives it back. *)

Lemma peek_kconfig {A} w (k : hcsr -> M (sys U hcsr) A) :
  unlocked_config (kconfig (st w)) ->
  (lock_kconfig ;; h ← get_st; k h) w =
    k (with_kconfig_lock true (st w)) (with_st (with_kconfig_lock true (st w)) w).
Proof. intros Hk. erewrite bind_ok by (by apply spin_lock_ok). by erewrite bind_ok by reflexivity. Qed.

Lemma unpeek_kconfig w :
  unlocked_config (kconfig (st w)) -> unlock_kconfig (with_st (with_kconfig_lock true (st w)) w) = Ok tt w.
Proof.
  intros Hk. unfold unlock_kconfig. rewrite spin_unlock_ok by done. f_equal.
  destruct w as [[? ? ? ? ? ? ? [] ? ? ? ?] ? ?]. unfold unlocked_config in Hk. simpl in *. by subst.
Qed.

Lemma send_if_stopped_run k w :
  ongoing_lock (st w) = false -> ongoing (st w) = STOPPING ->
  send_if_stopped k w = match send k w with
                        | Ok _ w' => Ok tt w'
                        | Crash f w' => Crash f w'
                        | Blocked w' => Blocked w'
                        end.
Proof.
  intros Hl Ho. unfold send_if_stopped. rewrite (bind_ok _ _ _ _ _ (lock_ongoing_ok _ Hl)).
  erewrite bind_ok by reflexivity. cbn [st with_st with_ongoing_lock ongoing]. rewrite Ho. cbn [Z.eqb STOPPING].
  erewrite bind_ok; [reflexivity|]. rewrite unlock_ongoing_ok by done. f_equal.
  destruct w as [[] ? ?]. simpl in *. by subst.
Qed.

Lemma spin_stopped fuel w : ongoing (st w) = STOPPING -> spin_ongoing fuel w = Ok tt w.
Proof. intros Ho. by destruct fuel; cbn [spin_ongoing]; erewrite bind_ok by reflexivity; rewrite Ho. Qed.

(** C20: In ONE_SHOT mode, on a sensor that is not measuring (ongoing is
    STOPPING) and whose locks are free, [read] comes back, however long the
    caller is ready to wait: it makes one measurement, which adds at most one
    sample, and hands out the newest sample there is, or -EAGAIN when the
    caller's buffer cannot be written.  If there has never been a sample it
    reads data[-1].  (With a measurement under way it sends nothing and spins
    until that has ended.) *)

Theorem one_shot_read fuel buf w log :
  send_ready (st w) -> unlocked_config (kconfig (st w)) -> samples_ok (cirb (st w)) log ->
  mode (the_mode (st w)) = ONE_SHOT -> ongoing (st w) = STOPPING ->
  exists new w1, measured w w1 log new /\ (length new <= 1)%nat /\ ongoing (st w1) = STOPPING /\
    match last (log ++ new) with
    | Some d =>
        let '(u, failed) := store (user w) buf (put_int d) in
        hc_sr04_read fuel buf w = Ok (if failed =? 0 then 0 else - EAGAIN) (with_user u w1)
    | None => exists w', hc_sr04_read fuel buf w = Crash OutOfBounds w'
    end.
Proof.
  intros Hr Hk Hs Hm Ho. destruct (send_ok 5 w log Hr Hs) as (r & w1 & new & H1 & M1 & R1 & _ & Hl & _ & HO); [by right|].
  exists new, w1. split; [done|]. split; [done|]. split; [by apply HO|].
  destruct (measured_fields _ _ _ _ M1) as (_ & _ & _ & _ & _ & _ & S1).
  assert (hc_sr04_read fuel buf w = (ret ← copy_newest buf; if negb (ret =? 0) then mret (- EAGAIN) else mret 0) w1) as ->.
  { unfold hc_sr04_read. rewrite peek_kconfig by done. change (the_mode (with_kconfig_lock true (st w))) with (the_mode (st w)).
    rewrite Hm. cbn [Z.eqb ONE_SHOT]. rewrite (bind_ok _ _ _ _ _ (unpeek_kconfig _ Hk)).
    erewrite bind_ok by (rewrite send_if_stopped_run by (done || apply Hr); by rewrite H1).
    rewrite (bind_ok _ _ _ _ _ (spin_stopped _ _ (HO Ho))). done. }
  pose proof (copy_newest_run buf w1 _ S1) as Hc. rewrite (me_user _ _ _ _ M1) in Hc.
  destruct (last (log ++ new)) as [d|]; [|destruct Hc as [w' Hc]; exists w'; by apply bind_crash].
  destruct (store (user w) buf (put_int d)) as [u failed]. rewrite (bind_ok _ _ _ _ _ Hc).
  cbn [fst snd]. by destruct (failed =? 0).
Qed.

(** In periodic mode a [read] before the first sample waits for the
    thread; when no thread was started it waits for ever, whatever interrupts
    come: the sensor is idle and its interrupts record nothing. *)
Theorem read_without_thread_waits fuel buf w :
  unlocked_config (kconfig (st w)) -> samples_ok (cirb (st w)) [] -> ongoing_lock (st w) = false ->
  mode (the_mode (st w)) <> ONE_SHOT -> ongoing (st w) = STOPPING -> kthread (st w) = None ->
  exists w', hc_sr04_read fuel buf w = Blocked w'.
Proof.
  intros Hk Hs Hl Hm Ho Ht.
  assert (forall fuel w', st w' = st w -> exists w2, wait_sample fuel w' = Blocked w2) as Hwait.
  { clear fuel. induction fuel as [|fuel IH]; intros w' Hst; cbn [wait_sample];
      rewrite (peek_run _ []) by (by rewrite Hst); pose proof Hs as (Hn & _); rewrite decide_True in Hn by done; cbn [with_cirb_lock with_cirb cirb newest].
    all: rewrite Hst, Hn; cbn [Z.eqb Pos.eqb]; rewrite <- Hst.
    all: erewrite bind_ok by (apply (unpeek_run w' []); by rewrite Hst).
    - by exists w'.
    - unfold msleep. erewrite bind_ok; last first.
      { erewrite bind_ok by apply kcall_ok. destruct (_ =? 0); [reflexivity|]. destruct (_ =? 1).
        - erewrite bind_ok; [reflexivity|]. apply isr_idle; cbn; by rewrite Hst.
        - erewrite bind_ok by reflexivity. cbn [log_request st]. rewrite Hst, Ht. reflexivity. }
      by apply IH. }
  destruct (Hwait fuel w eq_refl) as [w2 H2]. exists w2. unfold hc_sr04_read. rewrite peek_kconfig by done.
  change (the_mode (with_kconfig_lock true (st w))) with (the_mode (st w)). rewrite (proj2 (Z.eqb_neq _ _) Hm).
  rewrite (bind_ok _ _ _ _ _ (unpeek_kconfig _ Hk)). rewrite (peek_run _ []) by done.
  pose proof Hs as (Hn & _). rewrite decide_True in Hn by done.
  cbn [with_cirb_lock with_cirb cirb newest]. rewrite Hn. cbn [Z.eqb Pos.eqb negb].
  rewrite (bind_ok _ _ _ _ _ (unpeek_run w [] Hs)). unfold mbind, M_bind. by rewrite H2.
Qed.

(** A lost echo is not reported: when no echo comes the measurement times
    out, the retry finds the sensor stopped and returns at once, so [send]
    answers 0 although nothing was recorded; only without retries is it
    -EAGAIN. *)

Theorem lost_echo_is_success k w log :
  quiet -> send_ready (st w) -> samples_ok (cirb (st w)) log -> ongoing (st w) = STOPPING ->
  exists w', send k w = Ok (if 0 <? k then 0 else - EAGAIN) w' /\ measured w w' log [] /\ ongoing (st w') = STOPPING.
Proof.
  intros Hq Hr Hs Ho. destruct (send_ok k w log Hr Hs) as (r & w' & new & H & M & _ & _ & Hl & Hz & HO); [by right|].
  assert (new = [] /\ (k <= 0 -> r = - EAGAIN)) as [-> Hr0].
  { unfold send in H. pose proof Hr as [[Hlk _] _]. rewrite (bind_ok _ _ _ _ _ (lock_ongoing_ok _ Hlk)) in H.
    erewrite bind_ok in H by reflexivity. cbn [st with_st with_ongoing_lock ongoing] in H. rewrite Ho in H.
    cbn [Z.eqb ONGOING STOPPING Pos.eqb] in H. erewrite bind_ok in H by reflexivity.
    erewrite bind_ok in H by (by apply unlock_ongoing_ok).
    match type of H with resend _ ?x = _ => set (w0 := x) in * end.
    assert (forall n, keeps_samples (resend n)) as Hkeep.
    { intros n. induction n as [|n IH]; cbn [resend]; (apply keeps_bind; [by apply do_send_quiet|]);
      intros a; destruct (a =? 0); first [apply keeps_ret|apply IH]. }
    assert (isr_ready (st w0)) as R0 by (split; [done|apply Hr]).
    assert (samples_ok (cirb (st w0)) log) as S0 by done.
    pose proof (Hkeep (Z.to_nat k) (cirb (st w0)) w0 eq_refl) as Hc. rewrite H in Hc.
    destruct (measured_fields _ _ _ _ M) as (_ & _ & _ & _ & _ & _ & S1). rewrite Hc in S1.
    destruct new as [|d [|? ?]]; [|exfalso; exact (samples_ok_inj _ _ _ S0 S1)|simpl in Hl; lia]. split; [done|].
    intros Hk. replace (Z.to_nat k) with O in H by lia. cbn [resend] in H.
    destruct (do_send_ok w0 log R0) as (r0 & w1 & new1 & H1 & O1 & M1 & _ & HR); [apply Hr|done|by left|].
    pose proof (do_send_quiet Hq (cirb (st w0)) w0 eq_refl) as Hc1. rewrite H1 in Hc1.
    rewrite (bind_ok _ _ _ _ _ H1) in H. assert (r = r0) as -> by (destruct (r0 =? 0); by injection H).
    destruct HR as [(HR & _)|[(_ & _ & HR)|(_ & HR & _)]]; [done| |done].
    destruct (measured_fields _ _ _ _ M1) as (_ & _ & _ & _ & _ & _ & S2). rewrite Hc1 in S2.
    destruct new1 as [|d [|? ?]]; [done| |done]. exfalso. exact (samples_ok_inj _ _ _ S0 S2). }
  exists w'. split; [|split; [done|by apply HO]]. destruct (Z.ltb_spec 0 k); [by rewrite <- Hz|by rewrite <- Hr0].
Qed.

(** SETMODE accepts a frequency of 0 (and it is 0 until it is first set);
    the thread that a write then starts divides by it. *)
Theorem zero_frequency_kills_thread buf bytes w :
  unlocked_config (kconfig (st w)) -> kthread_lock (st w) = false -> mode (the_mode (st w)) <> ONE_SHOT ->
  freq (the_mode (st w)) = 0 -> kthread (st w) = None -> fetch (user w) buf 4 = (bytes, 0) ->
  get_int bytes <> 0 -> (forall t, reply t Kthread_run = 0) ->
  exists w', hc_sr04_write buf w = Crash DivByZero w'.
Proof.
  intros Hk Hl Hm Hf Ht Hb Hact Hrun. unfold hc_sr04_write.
  rewrite (bind_ok _ _ _ _ _ (copy_from_user_ok _ _ _)), Hb. cbn [fst]. cbn zeta. rewrite peek_kconfig by done.
  change (the_mode (with_kconfig_lock true (st w))) with (the_mode (st w)). rewrite (proj2 (Z.eqb_neq _ _) Hm).
  rewrite (bind_ok _ _ _ _ _ (unpeek_kconfig _ Hk)). erewrite bind_ok by (by apply spin_lock_ok).
  erewrite bind_ok by reflexivity. rewrite (proj2 (Z.eqb_neq _ _) Hact). cbn [st with_st with_kthread_lock kthread]. rewrite Ht.
  eexists. apply bind_crash, bind_crash. unfold kthread_run. erewrite bind_ok by apply kcall_ok.
  rewrite Hrun. cbn [Z.eqb negb]. apply bind_crash. unfold thread_function. erewrite bind_ok by reflexivity.
  change (freq (the_mode _)) with (freq (the_mode (st w))). rewrite Hf. reflexivity.
Qed.

(** C29: An echo that arrives while a measurement is under way appends one
    sample, the microseconds since the pulse divided by 5.8 (at most 740511,
    the clock difference being kept in 32 bits), to the last five that the
    buffer keeps, and ends the measurement; an echo at any other time changes
    nothing. *)

Theorem echo_is_recorded_once w log :
  isr_ready (st w) -> samples_ok (cirb (st w)) log -> valid_ongoing (st w) ->
  let sample := u32 (reply (requests w) Ktime_get - kstart (st w)) / 5800 in
  0 <= sample <= 740511 /\
  exists w', echo_recv_isr w = Ok IRQ_HANDLED w' /\ ongoing (st w') = STOPPING /\
    measured w w' log (if ongoing (st w) =? STOPPING then [] else [sample]) /\
    echo_recv_isr w' = Ok IRQ_HANDLED w'.
Proof.
  intros Hr Hs Ho sample. split.
  { subst sample. pose proof (Z.mod_pos_bound (reply (requests w) Ktime_get - kstart (st w)) (2 ^ 32)) as Hb.
    unfold wrap. split; [apply Z.div_pos; lia|]. apply Z.lt_succ_r, Z.div_lt_upper_bound; lia. }
  destruct (Z.eqb_spec (ongoing (st w)) STOPPING) as [H|H].
  - exists w. rewrite isr_idle by (done || apply Hr). split_and!; [done..|by apply measured_refl|done].
  - destruct (isr_records w log Hr H Hs) as (w' & H1 & O1 & M1). exists w'. split_and!; [done..|].
    apply isr_idle; [|done]. destruct (measured_fields _ _ _ _ M1) as (-> & _). apply Hr.
Qed.

(** The handler takes the two locks that the calls hold with interrupts
    enabled: an echo that falls there never gets the lock of the code it
    interrupted. *)

Theorem echo_under_lock_deadlocks w :
  isr_ready (st w) ->
  (exists w', (lock_ongoing ;; echo_recv_isr) w = Crash SelfDeadlock w') /\
  (ongoing (st w) <> STOPPING -> exists w', (lock_cirb ;; echo_recv_isr) w = Crash SelfDeadlock w').
Proof.
  intros [Hl Hc]. split.
  - eexists. rewrite (bind_ok _ _ _ _ _ (lock_ongoing_ok _ Hl)). apply bind_crash. by apply spin_lock_held.
  - intros Ho. eexists. erewrite bind_ok by (by apply spin_lock_ok). unfold echo_recv_isr.
    erewrite bind_ok by (by apply lock_ongoing_ok). erewrite bind_ok by reflexivity.
    cbn [st with_st with_ongoing_lock with_cirb_lock with_cirb ongoing]. rewrite (proj2 (Z.eqb_neq _ _) Ho).
    apply bind_crash. erewrite bind_ok by (by apply unlock_ongoing_ok). erewrite bind_ok by apply kcall_ok.
    erewrite bind_ok by reflexivity. cbn zeta. apply bind_crash. by apply spin_lock_held.
Qed.

(** C28: A measurement always ends, within 50001 turns of its waiting loop: it
    leaves the sensor idle and either recorded one sample and says 0, or
    recorded none and says -EAGAIN; pins, mode, thread and locks are as
    before. *)

Theorem measurement_ends trig w log :
  isr_ready (st w) -> samples_ok (cirb (st w)) log -> ongoing (st w) = ONGOING ->
  exists r w' new, measure trig w = Ok r w' /\ ongoing (st w') = STOPPING /\ measured w w' log new /\
    isr_ready (st w') /\ (r = 0 /\ length new = 1%nat \/ r = - EAGAIN /\ new = []).
Proof.
  intros Hr Hs Ho. destruct (measure_ok trig w log Hr Hs) as (r & w' & new & H & O & M & R & HR); [by left|].
  exists r, w', new. split_and!; [done..|]. rewrite Ho in HR. destruct HR as [(? & _)|[(_ & ?)|(_ & ?)]]; [done|by left|by right].
Qed.
End read.
