(* ===== verification/SensorPins.v ===== *)
(** * The distance sensor: what SETPINS acquires and gives back *)

From S2P Require Import Prelude Ring Kernel UserMemory HwPins HwPinsSpec Sensor SensorProofs SensorSpec.

Section setpins.
Context {U : Type} {UM : UserMemory U} {E : Environment} {V : SensorVariant U} {SL : SensorLaws V}.
Implicit Types (w : sys U hcsr).

(** The interrupt line of a GPIO, and an interrupt controller that grants a
    line nobody holds. *)

Context (irq_of : Z -> Z).

Definition irq_works : Prop :=
  forall t p, 0 <= irq_of p /\ reply t (Gpio_to_irq p) = irq_of p /\
    (Request_irq (irq_of p) ∉ held t -> reply t (Request_irq (irq_of p)) = 0).

(** The requests a configured sensor holds. *)

Definition holds (n : Z) (p : pin_set) : list request :=
  Request_irq n :: reverse (requests_of (trig_pins (trigger_pin p) ++ echo_pins (echo_pin p))).

Definition freed (p : pin_set) (h : list request) : list request :=
  filter (fun c => c ∉ requests_of (echo_pins (echo_pin p)))
    (filter (fun c => c ∉ requests_of (trig_pins (trigger_pin p))) h).

(** [free_irq], if there is an interrupt to free. *)

Definition without_irq (h : hcsr) (l : list request) : list request :=
  if irq_done h =? IRQ_DONE then filter (fun c => c <> Request_irq (echo_isr_number h)) l else l.

Lemma free_irq_run (h : hcsr) w :
  exists w', when (irq_done h =? IRQ_DONE) (kcall_ (Free_irq (echo_isr_number h))) w = Ok tt w' /\ same_world w w' /\
    held (requests w') = without_irq h (held (requests w)) /\
    (clean (requests w) = true -> (irq_done h = IRQ_DONE -> Request_irq (echo_isr_number h) ∈ held (requests w)) ->
     clean (requests w') = true).
Proof.
  unfold without_irq. destruct (Z.eqb_spec (irq_done h) IRQ_DONE) as [Hd|Hd]; cbn [when].
  - eexists. split; [apply kcall__ok|]. split; [done|]. split; [done|]. intros Hc Hin.
    cbn [log_request requests clean acquired_by]. rewrite Hc. by apply bool_decide_eq_true, Hin.
  - by exists w.
Qed.

Lemma set_ISR_run w : irq_works -> Request_irq (irq_of (echo_pin (the_pins (st w)))) ∉ held (requests w) ->
  exists w', set_ISR w = Ok 0 w' /\ st w' = with_echo_isr_number (irq_of (echo_pin (the_pins (st w)))) (st w) /\
    user w' = user w /\ held (requests w') = Request_irq (irq_of (echo_pin (the_pins (st w)))) :: held (requests w) /\
    (clean (requests w) = true -> clean (requests w') = true).
Proof.
  intros Hi Hn. destruct (Hi (requests w) (echo_pin (the_pins (st w)))) as (H0 & H1 & _).
  unfold set_ISR. erewrite bind_ok by reflexivity. erewrite bind_ok by apply kcall_ok. rewrite H1.
  rewrite (proj2 (Z.ltb_ge _ _)) by done. erewrite bind_ok by reflexivity. erewrite bind_ok by apply kcall_ok.
  set (t := requests _). destruct (Hi t (echo_pin (the_pins (st w)))) as (_ & _ & H2). rewrite H2 by done. cbn [Z.eqb negb].
  eexists. split; [reflexivity|]. split; [done|]. split; [done|]. split; [done|]. intros Hc. subst t. cbn. by rewrite Hc.
Qed.

(** Nobody holds what a sensor on the pins [p] needs. *)

Definition available (p : pin_set) (l : list request) : Prop :=
  unheld (trig_pins (trigger_pin p) ++ echo_pins (echo_pin p)) l /\ Request_irq (irq_of (echo_pin p)) ∉ l.

Lemma no_irq_in_requests n gs : Request_irq n ∉ requests_of gs.
Proof. intros Hx. by apply list_elem_of_In, in_map_iff in Hx as (? & ? & _). Qed.

(** A successful SETPINS, request by request. *)

Lemma setpins_run addr bs w :
  gpio_works -> irq_works -> fetch (user w) addr 8 = (bs, 0) -> irq_done_lock (st w) = false ->
  trigger_pin (get_pins bs) <> echo_pin (get_pins bs) ->
  available (get_pins bs) (freed (the_pins (st w)) (without_irq (st w) (held (requests w)))) ->
  exists w', ioctl_SETPINs addr w = Ok 0 w' /\ user w' = user w /\
    st w' = with_irq_done IRQ_DONE (with_echo_isr_number (irq_of (echo_pin (get_pins bs))) (with_pins (get_pins bs) (st w))) /\
    held (requests w') = holds (irq_of (echo_pin (get_pins bs))) (get_pins bs) ++
      freed (the_pins (st w)) (without_irq (st w) (held (requests w))) /\
    (forall H1, H1 = without_irq (st w) (held (requests w)) ->
     clean (requests w) = true -> (irq_done (st w) = IRQ_DONE -> Request_irq (echo_isr_number (st w)) ∈ held (requests w)) ->
     (forall g, g ∈ trig_pins (trigger_pin (the_pins (st w))) -> Gpio_request g ∈ H1) ->
     (forall g, g ∈ echo_pins (echo_pin (the_pins (st w))) ->
        Gpio_request g ∈ filter (fun c => c ∉ requests_of (trig_pins (trigger_pin (the_pins (st w))))) H1) ->
     clean (requests w') = true).
Proof.
  intros Hg Hi Hf Hl Hne [Hu Hirqn]. unfold ioctl_SETPINs. rewrite (bind_ok _ _ _ _ _ (copy_from_user_ok _ _ _)), Hf. cbn [Z.eqb negb].
  erewrite bind_ok by (by apply spin_lock_ok). erewrite bind_ok by reflexivity.
  set (w0 := with_st (with_irq_done_lock true (st w)) w).
  destruct (free_irq_run (st w) w0) as (w1 & R1 & [S1 U1] & H1 & C1). erewrite bind_ok by apply R1.
  destruct (freeTrig_ok (trigger_pin (the_pins (st w))) w1) as (w2 & R2 & [S2 U2] & H2 & C2). erewrite bind_ok by apply R2.
  destruct (freeEcho_ok (echo_pin (the_pins (st w))) w2) as (w3 & R3 & [S3 U3] & H3 & C3). erewrite bind_ok by apply R3.
  erewrite bind_ok by apply modify_st_ok. set (p := get_pins bs) in *. set (w4 := with_st (with_pins p (st w3)) w3).
  assert (held (requests w4) = freed (the_pins (st w)) (without_irq (st w) (held (requests w)))) as H4.
  { cbn [w4 with_st requests]. rewrite H3, H2, H1. done. }
  rewrite <- H4 in Hu, Hirqn. unfold unheld in Hu. setoid_rewrite elem_of_app in Hu.
  destruct (set_trigger_ok (trigger_pin p) w4 Hg) as (w5 & R5 & A5); [intros g Hin; apply Hu; by left|].
  destruct (setEcho_ok (echo_pin p) w5 Hg) as (w6 & R6 & [S6 U6] & H6 & C6).
  { eapply echo_unheld; [exact Hne|exact A5|]. intros g Hin. apply Hu. by right. }
  destruct A5 as ([S5 U5] & H5 & C5).
  erewrite bind_ok by apply R5. cbn [Z.eqb negb]. erewrite bind_ok by apply R6. cbn [Z.eqb negb].
  assert (st w6 = with_pins p (with_irq_done_lock true (st w))) as E6 by (rewrite S6, S5; unfold w4; cbn; by rewrite S3, S2, S1).
  assert (the_pins (st w6) = p) as Ep by (by rewrite E6).
  destruct (set_ISR_run w6 Hi) as (w7 & R7 & S7 & U7 & H7 & C7).
  { rewrite Ep, H6, H5, !elem_of_app, !elem_of_reverse. intros [H|[H|H]]; [by apply no_irq_in_requests in H..|done]. }
  rewrite (bind_ok _ _ _ _ _ R7). cbn [Z.eqb negb]. rewrite Ep in *. clear Ep.
  unfold setpins_success. erewrite bind_ok by apply modify_st_ok. erewrite bind_ok; last first.
  { apply spin_unlock_ok. cbn. by rewrite S7, E6. }
  eexists. split; [reflexivity|]. split.
  { cbn. rewrite U7, U6, U5. unfold w4. cbn. by rewrite U3, U2, U1. }
  split.
  { cbn. rewrite S7, E6. destruct (st w). simpl in Hl. by subst. }
  split.
  { cbn [with_st requests]. rewrite H7, H6, H5, H4. unfold holds, requests_of.
    rewrite map_app, reverse_app. cbn [app]. by rewrite <- app_assoc. }
  intros H Heq Hc Hirq Ht He. cbn [with_st requests]. apply C7, C6, C5. cbn [w4 with_st requests].
  destruct (pins_nodup (trigger_pin (the_pins (st w)))) as [Nt _], (pins_nodup (echo_pin (the_pins (st w)))) as [_ Ne].
  apply C3; [apply C2; [by apply C1|done|]|done|].
  - intros g Hin. rewrite H1. rewrite Heq in Ht. by apply Ht.
  - intros g Hin. rewrite H2, H1. rewrite Heq in He. by apply He.
Qed.

(** SETPINS on readable pins always returns, with its lock free. *)

Definition acquire_pins (p : pin_set) : M (sys U hcsr) Z :=
  ret ← set_trigger (trigger_pin p);
  if negb (ret =? 0) then setpins_error ret else
  ret ← setEcho (echo_pin p);
  if negb (ret =? 0) then setpins_error ret else
  ret ← set_ISR;
  if negb (ret =? 0) then setpins_error ret else
  setpins_success.

Lemma extends_refl t : extends t t.
Proof. by exists []. Qed.

Lemma extends_trans t1 t2 t3 : extends t1 t2 -> extends t2 t3 -> extends t1 t3.
Proof. intros [l1 ->] [l2 ->]. exists (l2 ++ l1). by rewrite app_assoc. Qed.

Lemma extends_log c r w : extends (requests w) (requests (log_request c r w)).
Proof. by exists [(c, r)]. Qed.

Definition returns (m : M (sys U hcsr) Z) w : Prop :=
  exists r w', m w = Ok r w' /\ irq_done_lock (st w') = false /\ extends (requests w) (requests w').

Lemma returns_bind (m : M (sys U hcsr) Z) k w :
  (exists r w1, m w = Ok r w1 /\ irq_done_lock (st w1) = irq_done_lock (st w) /\ extends (requests w) (requests w1) /\
    returns (k r) w1) -> returns (m ≫= k) w.
Proof.
  intros (r & w1 & H1 & _ & X1 & r2 & w2 & H2 & L2 & X2). exists r2, w2. rewrite (bind_ok _ _ _ _ _ H1).
  split_and!; [done..|by eapply extends_trans].
Qed.

Lemma returns_silent (m : M (sys U hcsr) Z) k w :
  silent m -> (forall r w1, st w1 = st w -> returns (k r) w1) -> returns (m ≫= k) w.
Proof.
  intros Hm Hk. apply returns_bind. destruct (Hm w) as (r & w1 & H1 & [S1 _] & X1). exists r, w1.
  split_and!; [done|by rewrite S1|done|auto].
Qed.

Lemma setpins_error_returns r w : irq_done_lock (st w) = true -> returns (setpins_error r) w.
Proof.
  intros Hl. unfold setpins_error. eexists r, _. erewrite bind_ok by reflexivity. erewrite bind_ok by reflexivity.
  erewrite bind_ok by (apply spin_unlock_ok; exact Hl). split; [reflexivity|]. split; [done|]. apply extends_refl.
Qed.

Lemma set_ISR_returns w :
  exists r w', set_ISR w = Ok r w' /\ irq_done_lock (st w') = irq_done_lock (st w) /\ extends (requests w) (requests w').
Proof.
  unfold set_ISR. erewrite bind_ok by reflexivity. erewrite bind_ok by apply kcall_ok. destruct (_ <? 0).
  - eexists _, _. split; [reflexivity|]. split; [done|]. apply extends_log.
  - erewrite bind_ok by reflexivity. erewrite bind_ok by apply kcall_ok. destruct (negb _).
    all: eexists _, _; (split; [reflexivity|]); (split; [done|]); by eexists [_; _].
Qed.

Lemma acquire_returns p w : irq_done_lock (st w) = true -> returns (acquire_pins p) w.
Proof.
  intros Hl. unfold acquire_pins. apply returns_silent; [apply set_trigger_silent|]. intros r1 w1 E1.
  destruct (negb _); [apply setpins_error_returns; by rewrite E1|].
  apply returns_silent; [apply silent_setEcho|]. intros r2 w2 E2.
  destruct (negb _); [apply setpins_error_returns; by rewrite E2, E1|].
  apply returns_bind. destruct (set_ISR_returns w2) as (r3 & w3 & H3 & L3 & X3). exists r3, w3. split_and!; [done..|].
  assert (irq_done_lock (st w3) = true) as Hl3 by (by rewrite L3, E2, E1).
  destruct (negb _); [by apply setpins_error_returns|]. unfold setpins_success.
  eexists _, _. erewrite bind_ok by reflexivity. erewrite bind_ok by (apply spin_unlock_ok; exact Hl3).
  split; [reflexivity|]. split; [done|]. apply extends_refl.
Qed.

(** What the call does before it sets the new pins up. *)

Definition release_pins (h : hcsr) : M (sys U hcsr) unit :=
  when (irq_done h =? IRQ_DONE) (kcall_ (Free_irq (echo_isr_number h))) ;;
  freeTrig (trigger_pin (the_pins h)) ;;
  freeEcho (echo_pin (the_pins h)) ;;
  mret tt.

Lemma release_pins_run (h : hcsr) w :
  exists w', release_pins h w = Ok tt w' /\ same_world w w' /\
    held (requests w') = freed (the_pins h) (without_irq h (held (requests w))).
Proof.
  unfold release_pins. destruct (free_irq_run h w) as (w1 & R1 & [S1 U1] & H1 & _). rewrite (bind_ok _ _ _ _ _ R1).
  destruct (freeTrig_ok (trigger_pin (the_pins h)) w1) as (w2 & R2 & [S2 U2] & H2 & _). rewrite (bind_ok _ _ _ _ _ R2).
  destruct (freeEcho_ok (echo_pin (the_pins h)) w2) as (w3 & R3 & [S3 U3] & H3 & _). rewrite (bind_ok _ _ _ _ _ R3).
  exists w3. split; [done|]. split; [split; congruence|]. by rewrite H3, H2, H1.
Qed.

Lemma setpins_split addr bs w :
  fetch (user w) addr 8 = (bs, 0) -> irq_done_lock (st w) = false ->
  ioctl_SETPINs addr w =
    (release_pins (st w) ;; modify_st (with_pins (get_pins bs)) ;; acquire_pins (get_pins bs))
      (with_st (with_irq_done_lock true (st w)) w).
Proof.
  intros Hf Hl. unfold ioctl_SETPINs. rewrite (bind_ok _ _ _ _ _ (copy_from_user_ok _ _ _)), Hf. cbn [Z.eqb negb].
  erewrite bind_ok by (by apply spin_lock_ok). erewrite bind_ok by reflexivity.
  set (w0 := with_st _ w). change (irq_done (st w0)) with (irq_done (st w)). unfold release_pins.
  destruct (free_irq_run (st w) w0) as (w1 & R1 & _). rewrite (bind_ok _ _ _ _ _ R1).
  destruct (freeTrig_ok (trigger_pin (the_pins (st w))) w1) as (w2 & R2 & _).
  destruct (freeEcho_ok (echo_pin (the_pins (st w))) w2) as (w3 & R3 & _).
  assert (release_pins (st w) w0 = Ok tt w3) as R.
  { unfold release_pins. by rewrite (bind_ok _ _ _ _ _ R1), (bind_ok _ _ _ _ _ R2), (bind_ok _ _ _ _ _ R3). }
  unfold release_pins in R. rewrite (bind_ok _ _ _ _ _ R2), (bind_ok _ _ _ _ _ R3), (bind_ok _ _ _ _ _ R). done.
Qed.

(** If the old pins are not the device's to give back, the trace tells. *)

Lemma setpins_unclean addr bs w :
  fetch (user w) addr 8 = (bs, 0) -> irq_done_lock (st w) = false ->
  (forall w', release_pins (st w) (with_st (with_irq_done_lock true (st w)) w) = Ok tt w' -> clean (requests w') = false) ->
  exists r w', ioctl_SETPINs addr w = Ok r w' /\ irq_done_lock (st w') = false /\ clean (requests w') = false.
Proof.
  intros Hf Hl Hc. rewrite (setpins_split _ _ _ Hf Hl). set (w0 := with_st _ w) in *.
  destruct (release_pins_run (st w) w0) as (w1 & R1 & [S1 _] & _). specialize (Hc w1 R1).
  rewrite (bind_ok _ _ _ _ _ R1). erewrite bind_ok by apply modify_st_ok.
  set (w2 := with_st _ w1). destruct (acquire_returns (get_pins bs) w2) as (r & w' & H & L & X).
  { cbn. by rewrite S1. }
  exists r, w'. split_and!; [done..|]. by apply (clean_extends _ _ X).
Qed.

Lemma free_irq_unclean (h : hcsr) w w' :
  irq_done h = IRQ_DONE -> Request_irq (echo_isr_number h) ∉ held (requests w) ->
  release_pins h w = Ok tt w' -> clean (requests w') = false.
Proof.
  intros Hd Hn H. unfold release_pins in H. rewrite Hd in H. cbn [Z.eqb IRQ_DONE Pos.eqb when] in H.
  erewrite bind_ok in H by apply kcall__ok. set (w1 := log_request _ _ w) in H.
  destruct (silent_freeTrig (trigger_pin (the_pins h)) w1) as (r2 & w2 & R2 & _ & X2). rewrite (bind_ok _ _ _ _ _ R2) in H.
  destruct (silent_freeEcho (echo_pin (the_pins h)) w2) as (r3 & w3 & R3 & _ & X3). rewrite (bind_ok _ _ _ _ _ R3) in H.
  injection H as <-. apply (clean_extends (requests w1)); [by eapply extends_trans|].
  cbn [w1 log_request requests clean acquired_by]. apply andb_false_iff. right. by apply bool_decide_eq_false.
Qed.

(** C40: When SETPINS fails (here because the new trigger's GPIO is busy) the
    interrupt is gone but the device still says IRQ_DONE: the next SETPINS
    frees an interrupt that it does not have. *)

Theorem failed_setpins_frees_twice a1 bs1 a2 bs2 w w1 r1 :
  fetch (user w) a1 8 = (bs1, 0) -> fetch (user w) a2 8 = (bs2, 0) -> irq_done_lock (st w) = false ->
  irq_done (st w) = IRQ_DONE -> (forall w', exists r w'', set_trigger (trigger_pin (get_pins bs1)) w' = Ok r w'' /\ r <> 0 /\
    same_world w' w'' /\ held (requests w'') = held (requests w')) ->
  ioctl_SETPINs a1 w = Ok r1 w1 ->
  r1 <> 0 /\ irq_done (st w1) = IRQ_DONE /\ the_pins (st w1) = {| trigger_pin := -1; echo_pin := -1 |} /\
  ~ (Request_irq (echo_isr_number (st w1)) ∈ held (requests w1)) /\
  exists r2 w2, ioctl_SETPINs a2 w1 = Ok r2 w2 /\ clean (requests w2) = false.
Proof.
  intros H1 H2 Hl Hd Hbusy Hrun. rewrite (setpins_split _ _ _ H1 Hl) in Hrun. set (w0 := with_st _ w) in *.
  destruct (release_pins_run (st w) w0) as (wa & Ra & [Sa Ua] & Ha). rewrite (bind_ok _ _ _ _ _ Ra) in Hrun.
  erewrite bind_ok in Hrun by apply modify_st_ok. set (wb := with_st _ wa) in Hrun. unfold acquire_pins in Hrun.
  destruct (Hbusy wb) as (r & wc & Hc & Hr & [Sc Uc] & Hh). rewrite (bind_ok _ _ _ _ _ Hc) in Hrun.
  rewrite (proj2 (Z.eqb_neq _ _) Hr) in Hrun. cbn [negb] in Hrun. unfold setpins_error in Hrun.
  erewrite bind_ok in Hrun by apply modify_st_ok. erewrite bind_ok in Hrun by apply modify_st_ok.
  erewrite bind_ok in Hrun; last first.
  { apply spin_unlock_ok. cbn. rewrite Sc. cbn. by rewrite Sa. }
  injection Hrun as <- <-. split; [done|].
  assert (irq_done (st wc) = IRQ_DONE) as Hd' by (rewrite Sc; cbn; by rewrite Sa).
  assert (echo_isr_number (st wc) = echo_isr_number (st w)) as He by (rewrite Sc; cbn; by rewrite Sa).
  assert (Request_irq (echo_isr_number (st w)) ∉ held (requests wc)) as Hn.
  { rewrite Hh. cbn [wb requests with_st]. rewrite Ha. unfold freed, without_irq. rewrite Hd. cbn [Z.eqb IRQ_DONE Pos.eqb].
    rewrite !list_elem_of_filter. intros (_ & _ & Hx & _). by apply Hx. }
  split; [exact Hd'|]. split; [done|]. split; [cbn; by rewrite He|].
  edestruct (setpins_unclean a2 bs2) as (r2 & w2 & R2 & _ & C2); [| | |by exists r2, w2].
  - cbn [user with_st]. rewrite Uc. cbn. rewrite Ua. exact H2.
  - done.
  - intros w' R. eapply free_irq_unclean; [| |exact R]; [exact Hd'|]. cbn. by rewrite He.
Qed.

(** C21: SETPINS moves a configured sensor (irq_done is IRQ_DONE and its lock
    free, and it holds the interrupt and the GPIOs of its pins): on readable
    pins that differ and whose GPIOs and interrupt are the sensor's own or
    held by nobody, with a gpiolib and an interrupt controller that grant
    what is not held, it gives back the interrupt and the GPIOs of the old
    pins, acquires those of the new ones and remembers them; whatever else
    is held stays held, and nothing is freed that was not requested. *)

Theorem setpins_moves_sensor addr bs w other :
  gpio_works -> irq_works -> fetch (user w) addr 8 = (bs, 0) -> irq_done_lock (st w) = false ->
  irq_done (st w) = IRQ_DONE -> trigger_pin (the_pins (st w)) <> echo_pin (the_pins (st w)) ->
  held (requests w) = holds (echo_isr_number (st w)) (the_pins (st w)) ++ other -> clean (requests w) = true ->
  Request_irq (echo_isr_number (st w)) ∉ other ->
  unheld (trig_pins (trigger_pin (the_pins (st w))) ++ echo_pins (echo_pin (the_pins (st w)))) other ->
  trigger_pin (get_pins bs) <> echo_pin (get_pins bs) -> available (get_pins bs) other ->
  exists w', ioctl_SETPINs addr w = Ok 0 w' /\ the_pins (st w') = get_pins bs /\ irq_done (st w') = IRQ_DONE /\
    held (requests w') = holds (echo_isr_number (st w')) (get_pins bs) ++ other /\ clean (requests w') = true.
Proof.
  intros Hg Hi Hf Hl Hd Hne Hh Hc Hirq Hother Hnew Hav. unfold unheld in Hother. setoid_rewrite elem_of_app in Hother.
  set (t := trigger_pin (the_pins (st w))) in *. set (e := echo_pin (the_pins (st w))) in *.
  assert (without_irq (st w) (held (requests w)) = reverse (requests_of (trig_pins t ++ echo_pins e)) ++ other) as Hw.
  { unfold without_irq. rewrite Hd, Hh. cbn [Z.eqb IRQ_DONE Pos.eqb]. unfold holds. cbn [app].
    rewrite filter_cons_False by (by intros ?). apply filter_ne_absent. rewrite elem_of_app. intros [Hx|Hx]; [|done].
    rewrite elem_of_reverse in Hx. apply list_elem_of_In, in_map_iff in Hx as (? & ? & _). done. }
  assert (filter (fun c => c ∉ requests_of (trig_pins t)) (reverse (requests_of (trig_pins t ++ echo_pins e)) ++ other)
    = reverse (requests_of (echo_pins e)) ++ other) as Ht.
  { unfold requests_of. rewrite map_app, reverse_app, !filter_app. fold (requests_of (trig_pins t)).
    rewrite (filter_keep (trig_pins t) (reverse _)), (filter_drop (trig_pins t) (reverse _)), (filter_keep (trig_pins t) other).
    - by rewrite app_nil_r.
    - intros g Hin. apply Hother. by left.
    - intros c Hin. rewrite elem_of_reverse in Hin. exact Hin.
    - intros g Hin. fold (requests_of (echo_pins e)). rewrite elem_of_reverse_requests. by eapply pins_disjoint. }
  assert (freed (the_pins (st w)) (reverse (requests_of (trig_pins t ++ echo_pins e)) ++ other) = other) as Hfr.
  { unfold freed. fold t. fold e. rewrite Ht, filter_app, filter_drop, filter_keep; [done| |].
    - intros g Hin. apply Hother. by right.
    - intros c Hin. rewrite elem_of_reverse in Hin. exact Hin. }
  destruct (setpins_run addr bs w Hg Hi Hf Hl Hnew) as (w' & R & _ & Es & Hh' & C); [by rewrite Hw, Hfr|].
  rewrite Hw in *. exists w'. split; [done|]. rewrite Es. split; [done|]. split; [done|].
  cbn [with_irq_done with_echo_isr_number echo_isr_number]. split.
  - by rewrite Hh', Hfr.
  - apply (C _ eq_refl Hc).
    + intros _. rewrite Hh. by left.
    + intros g Hin. apply elem_of_app. left. rewrite elem_of_reverse_requests. apply elem_of_app. by left.
    + intros g Hin. fold t. rewrite Ht. apply elem_of_app. left. by rewrite elem_of_reverse_requests.
Qed.
End setpins.
