(* ===== verification/Release.v ===== *)
(** * Giving back what is held

    Releases up to the order in which things were acquired, and stopping a
    periodic thread: shared by the unloading of 02 and the removal of 03. *)

From S2P Require Import Prelude Ring Kernel UserMemory HwPins HwPinsSpec Sensor SensorProofs SensorSpec.
From S2P Require Import SensorCalls SensorPins.

(** ** Giving back, up to the order in which it was acquired *)

Section release.
Context {U S : Type} {E : Environment}.
Implicit Types (w : sys U S).

Lemma released_perm w w' gs rest :
  released w w' gs -> held (requests w) ≡ₚ requests_of gs ++ rest -> NoDup (held (requests w)) ->
  clean (requests w) = true -> held (requests w') ≡ₚ rest /\ clean (requests w') = true /\ NoDup (held (requests w')).
Proof.
  intros (_ & Hh & Hc) Hp Hd Hcl. rewrite Hp in Hd. pose proof Hd as (Hd1 & Hdis & Hd2)%NoDup_app.
  assert (held (requests w') ≡ₚ rest) as Hr.
  { rewrite Hh, Hp, filter_app, filter_drop, filter_keep; [done| |done].
    intros g Hg. apply Hdis. by apply elem_of_requests. }
  split; [done|]. split; [|by rewrite Hr]. apply Hc; [done| |].
  - unfold requests_of in Hd1. apply (NoDup_fmap_1 Gpio_request). exact Hd1.
  - intros g Hg. rewrite Hp. apply elem_of_app. left. by apply elem_of_requests.
Qed.

Lemma release_one c a w rest :
  acquires c = false -> acquired_by c = Some a -> held (requests w) ≡ₚ a :: rest -> NoDup (held (requests w)) -> clean (requests w) = true ->
  exists w', kcall_ (U := U) (S := S) c w = Ok tt w' /\ same_world w w' /\ held (requests w') ≡ₚ rest /\
    clean (requests w') = true /\ NoDup (held (requests w')).
Proof.
  intros Hac Ha Hp Hd Hc. eexists. split; [apply kcall__ok|]. split; [done|]. cbn [log_request requests held clean].
  unfold track. rewrite Hac, Ha. rewrite Hp in Hd. apply NoDup_cons in Hd as [Hn Hd].
  assert (filter (fun x => x <> a) (held (requests w)) ≡ₚ rest) as Hr.
  { rewrite Hp, filter_cons_False by (by intros ?). by rewrite filter_ne_absent. }
  split; [done|]. split; [|by rewrite Hr]. rewrite Hc. apply bool_decide_eq_true. rewrite Hp. by left.
Qed.

Lemma kcall__extends c w w' : kcall_ (U := U) (S := S) c w = Ok tt w' -> extends (requests w) (requests w').
Proof. rewrite kcall__ok. intros [= <-]. by eexists [_]. Qed.
End release.

Section thread.
Context {U : Type} {UM : UserMemory U} {E : Environment} {V : SensorVariant U} {SL : SensorLaws V}.

(** Sound: every lock free, [ongoing] a valid value, the buffer the last
    samples.  The thread may run in any mode. *)

Definition sound (w : sys U hcsr) : Prop := exists kc kt, sensor_state kc kt false false w /\ unlocked_config kc.

Lemma holds_perm n p rest :
  holds n p ++ rest ≡ₚ Request_irq n :: requests_of (trig_pins (trigger_pin p)) ++ requests_of (echo_pins (echo_pin p)) ++ rest.
Proof.
  unfold holds, requests_of. cbn [app]. rewrite map_app, reverse_Permutation. by rewrite app_assoc.
Qed.

(** A running thread was told to stop, before anything else was asked of the
    kernel. *)

Definition told_to_stop (kt : option thread_ptr) (t t' : trace) : Prop :=
  kt <> None -> exists l r, t' = l ++ (Kthread_stop, r) :: t.

Lemma told_extends kt t t1 t2 : told_to_stop kt t t1 -> extends t1 t2 -> told_to_stop kt t t2.
Proof. intros H [l ->] Hk. destruct (H Hk) as (l1 & r & ->). exists (l ++ l1), r. by rewrite app_assoc. Qed.

(** Stopping the thread may let it finish a round. *)

Lemma stop_thread_run (w : sys U hcsr) :
  sound w -> kthread (st w) <> Some Error_pointer ->
  exists w' log new, match kthread (st w) with Some t => kthread_stop t | None => mret tt end w = Ok tt w' /\
    measured w w' log new /\ told_to_stop (kthread (st w)) (requests w) (requests w').
Proof.
  intros (kc & kt & Hs & Hk) Ht. destruct (ss_samples _ _ _ _ _ Hs) as [log Hlog].
  destruct (kthread (st w)) as [[ms|]|]; [|done|].
  - unfold kthread_stop. erewrite bind_ok by apply kcall_ok. set (w1 := log_request _ _ w).
    assert (measured w w1 log []) as M1 by (by apply measured_log).
    destruct (negb _); cbn [when]; [|exists w1, log, []; split; [done|]; split; [exact M1|]; intros _; by exists [], (reply (requests w) Kthread_stop)].
    destruct (send_ok 3 w1 log) as (r & w2 & new & H2 & M2 & _); [| |apply Hs|].
    + destruct (sensor_isr_ready _ _ _ _ _ Hs). split; [by split|]. intros _. cbn. by rewrite (ss_kconfig _ _ _ _ _ Hs).
    + done.
    + exists w2, log, new. unfold thread_round. rewrite (bind_ok _ _ _ _ _ H2). split; [done|]. split.
      * apply (measured_trans _ _ _ _ [] new M1). by rewrite app_nil_r.
      * intros _. destruct (me_trace _ _ _ _ M2) as [l ->]. by exists l, (reply (requests w) Kthread_stop).
  - exists w, log, []. split; [done|]. split; [by apply measured_refl|by intros []].
Qed.

End thread.
