(* ===== verification/Hc02.v ===== *)
(** * 02: the driver of two distance sensors as misc devices

    The two static devices, the list of devices, the open files, and the
    calls on them: each takes the device of its file and runs the call of
    [Sensor] on it.
    Source: 02_Concurrent_HC-SR04_miscdeivces/hc_sr04.c. *)

From S2P Require Import Prelude Kernel UserMemory HwPins Sensor.

Inductive device := DevA | DevB.

#[export] Instance device_eq_dec : EqDecision device.
Proof. solve_decision. Defined.

(** [private_data] has the files that are open. *)

Record hc_driver := {
  hcA : hcsr;
  hcB : hcsr;
  hcsr_list : list device;
  private_data : gmap loc device
}.

Definition device_of (d : device) (s : hc_driver) : hcsr :=
  match d with DevA => hcA s | DevB => hcB s end.

Definition with_device (d : device) (h : hcsr) (s : hc_driver) : hc_driver :=
  match d with
  | DevA => {| hcA := h; hcB := hcB s; hcsr_list := hcsr_list s; private_data := private_data s |}
  | DevB => {| hcA := hcA s; hcB := h; hcsr_list := hcsr_list s; private_data := private_data s |}
  end.

Definition with_list (l : list device) (s : hc_driver) : hc_driver :=
  {| hcA := hcA s; hcB := hcB s; hcsr_list := l; private_data := private_data s |}.

Definition with_private (p : gmap loc device) (s : hc_driver) : hc_driver :=
  {| hcA := hcA s; hcB := hcB s; hcsr_list := hcsr_list s; private_data := p |}.

Definition name_of (d : device) : string := match d with DevA => "HCSR_1" | DevB => "HCSR_2" end.

(** What the kernel answers for a file that is not open. *)

Definition EBADF : Z := 9.

(** The devices before [hc_sr04_init]: static memory is zero. *)

Definition static_hcsr : hcsr :=
  {| hc_sr04 := ""; irq_done := 0; echo_isr_number := 0; kstart := 0; kthread := None; kthread_lock := false;
     irq_done_lock := false;
     kconfig := {| kset := {| pins := {| trigger_pin := 0; echo_pin := 0 |}; working_mode := {| mode := 0; freq := 0 |} |};
                   enable := 0; kconfig_lock := false |};
     cirb := {| newest := 0; data := replicate (Z.to_nat NUM_DATA) 0; cir_buf_lock := false |};
     ongoing := 0; ongoing_lock := false; pins_default := [] |}.

Definition hc_start : hc_driver := {| hcA := static_hcsr; hcB := static_hcsr; hcsr_list := []; private_data := ∅ |}.

Section driver.
Context {U : Type} {UM : UserMemory U} {E : Environment} {IC : IoctlCode}.

(** ** What this driver does its own way *)

Definition do_send_02 : M (sys U hcsr) Z :=
  s ← get_st;
  let trig_pin := trigger_pin (the_pins s) in
  measure trig_pin.

#[export] Instance variant_02 : SensorVariant U := {| do_send := do_send_02; set_trigger := setTrig |}.

(** A call on one device. *)

Definition on_device {A} (d : device) (m : M (sys U hcsr) A) : M (sys U hc_driver) A := fun w =>
  let back w' := with_st (with_device d (st w') (st w)) w' in
  match m (with_st (device_of d (st w)) w) with
  | Ok a w' => Ok a (back w')
  | Crash f w' => Crash f (back w')
  | Blocked w' => Blocked (back w')
  end.

(** ** Opening and closing

    [minor] is the number that [misc_register] gave to each device. *)

Context (minor : device -> Z).

Definition get_curr_hcsr (node : Z) : M (sys U hc_driver) (option device) :=
  s ← get_st;
  mret (List.find (fun c => minor c =? node) (hcsr_list s)).

Definition hc_sr04_open (node : Z) (file : loc) : M (sys U hc_driver) Z :=
  curr_hcsr ← get_curr_hcsr node;
  match curr_hcsr with
  | None => crash NullDeref                     (* the name of the device is printed *)
  | Some d =>
      modify_st (fun s => with_private (<[file := d]> (private_data s)) s) ;;
      mret 0
  end.

Definition hc_sr04_release (file : loc) : M (sys U hc_driver) Z :=
  modify_st (fun s => with_private (delete file (private_data s)) s) ;;
  mret 0.

Definition on_file (file : loc) (m : M (sys U hcsr) Z) : M (sys U hc_driver) Z :=
  s ← get_st;
  match private_data s !! file with
  | None => mret (- EBADF)
  | Some d => on_device d m
  end.

(** ** Loading and unloading *)

Definition reg_misc (name : string) : M (sys U hc_driver) Z :=
  error ← kcall (Misc_register name);
  mret error.

Definition dereg_misc (name : string) : M (sys U hc_driver) unit := kcall_ (Misc_deregister name).

(** The pins, [irq_done_lock], [ongoing] and the data keep what they had. *)

Definition init_fields (md : string) (pins : list row) (h : hcsr) : hcsr :=
  {| hc_sr04 := md; irq_done := IRQ_NOT_DONE; echo_isr_number := -1; kstart := kstart h;
     kthread := None; kthread_lock := false; irq_done_lock := irq_done_lock h;
     kconfig := {| kset := {| Sensor.pins := the_pins h; working_mode := {| mode := 0; freq := freq (the_mode h) |} |};
                   enable := enable (kconfig h); kconfig_lock := false |};
     cirb := {| newest := -1; data := data (cirb h); cir_buf_lock := false |};
     ongoing := ongoing h; ongoing_lock := false; pins_default := pins |}.

Definition init_hcsr_struct (d : device) (md : string) (pins : list row) : M (sys U hc_driver) unit :=
  modify_st (fun s => with_device d (init_fields md pins (device_of d s)) s) ;;
  modify_st (fun s => with_list (d :: hcsr_list s) s).

(** 0 also when a device could not be registered. *)

Definition hc_sr04_init : M (sys U hc_driver) Z :=
  a ← reg_misc (name_of DevA);
  if negb (a =? 0) then mret 0 else
  b ← reg_misc (name_of DevB);
  if negb (b =? 0) then mret 0 else
  init_hcsr_struct DevA (name_of DevA) A_pins ;;
  init_hcsr_struct DevB (name_of DevB) B_pins ;;
  mret 0.

Definition free_gpio : M (sys U hcsr) unit :=
  h ← get_st;
  freeTrig (trigger_pin (the_pins h)) ;;
  freeEcho (echo_pin (the_pins h)) ;;
  mret tt.

(** One of the two halves of [hc_sr04_exit]. *)

Definition exit_device : M (sys U hcsr) unit :=
  h ← get_st;
  match kthread h with
  | Some t => kthread_stop t
  | None => mret tt
  end ;;
  h ← get_st;
  when (irq_done h =? IRQ_DONE) (
    kcall_ (Free_irq (echo_isr_number h)) ;;
    free_gpio).

Definition hc_sr04_exit : M (sys U hc_driver) unit :=
  on_device DevA exit_device ;;
  on_device DevB exit_device ;;
  dereg_misc (name_of DevA) ;;
  dereg_misc (name_of DevB).

(** ** Sequences of events: calls of the processes, echoes, rounds of the
    periodic threads *)

Inductive event :=
  | Open (node : Z) (file : loc)
  | Release (file : loc)
  | Read (file : loc) (fuel : nat) (buf : Z)
  | Write (file : loc) (buf : Z)
  | Ioctl (file : loc) (arg1 arg2 : Z)
  | Interrupt (d : device)
  | Round (d : device).

Definition handle (e : event) : M (sys U hc_driver) Z :=
  match e with
  | Open node file => hc_sr04_open node file
  | Release file => hc_sr04_release file
  | Read file fuel buf => on_file file (hc_sr04_read fuel buf)
  | Write file buf => on_file file (hc_sr04_write buf)
  | Ioctl file arg1 arg2 => on_file file (hc_sr04_ioctl arg1 arg2)
  | Interrupt d => on_device d echo_recv_isr
  | Round d =>
      s ← get_st;
      match kthread (device_of d s) with
      | Some (Thread _) => on_device d thread_round ;; mret 0
      | _ => mret 0
      end
  end.

Fixpoint handle_all (es : list event) : M (sys U hc_driver) unit :=
  match es with
  | [] => mret tt
  | e :: es => handle e ;; handle_all es
  end.
End driver.
