(* ===== verification/Hc02Spec.v ===== *)
(** * 02: what the two-sensor driver guarantees *)

From S2P Require Import Prelude Ring Kernel UserMemory HwPins HwPinsSpec Sensor SensorProofs SensorSpec.
From S2P Require Import SensorCalls SensorPins Hc02.

Section laws.
Context {U : Type} {UM : UserMemory U} {E : Environment}.

(** The driver keeps the promises of [SensorLaws]; sending takes no lock of
    the configuration. *)

#[export] Instance laws_02 : SensorLaws (U := U) variant_02.
Proof.
  refine {| needs_kconfig := false |}.
  - intros w log Hr _ Hs Ho. cbn [do_send variant_02]. unfold do_send_02. erewrite bind_ok by reflexivity.
    by apply measure_ok.
  - intros Hq. apply keeps_get. intros h. by apply keeps_measure.
  - intros pin. apply silent_setTrig.
  - intros pin w. apply setTrig_ok.
Defined.
End laws.

Section driver.
Context {U : Type} {UM : UserMemory U} {E : Environment} {IC : IoctlCode}.
Context (minor : device -> Z).
Implicit Types (w : sys U hc_driver).

(** ** One device of the two *)

Definition device_inv (h : hcsr) : Prop := forall w : sys U hcsr, st w = h -> sensor_inv w.

Lemma device_inv_intro (w : sys U hcsr) : sensor_inv w -> device_inv (st w).
Proof.
  intros (kc & kt & Hs & Hk & Ht) w' E'. exists kc, kt. split; [|done]. destruct Hs. constructor; by rewrite E'.
Qed.

Definition driver_inv w : Prop := device_inv (hcA (st w)) /\ device_inv (hcB (st w)).

Lemma driver_device d w : driver_inv w -> device_inv (device_of d (st w)).
Proof. intros [HA HB]. by destruct d. Qed.

Lemma driver_with_device d (s : hc_driver) w (w' : sys U hcsr) :
  driver_inv w -> s = st w -> sensor_inv w' -> driver_inv (with_st (with_device d (st w') s) w').
Proof. intros [HA HB] -> Hi%device_inv_intro. by destruct d. Qed.

#[local] Abbreviation driver_safe := (safe sensor_faults).

Lemma on_device_safe {A} d (m : M (sys U hcsr) A) :
  driver_safe (sensor_inv (U := U)) m (fun _ => sensor_inv) -> driver_safe driver_inv (on_device d m) (fun _ => driver_inv).
Proof.
  intros Hm w Hw. unfold on_device. specialize (Hm (with_st (device_of d (st w)) w)).
  destruct (m (with_st (device_of d (st w)) w)); [| |done].
  - apply (driver_with_device d _ w); [done..|]. by apply Hm, (driver_device d w Hw).
  - by apply Hm, (driver_device d w Hw).
Qed.

Lemma sensor_inv_safe {A} (m : M (sys U hcsr) A) :
  (forall kc kt, unlocked_config kc -> thread_ok kc kt ->
    driver_safe (sensor_state kc kt false false) m (fun _ => sensor_inv)) ->
  driver_safe (sensor_inv (U := U)) m (fun _ => sensor_inv).
Proof. intros Hm w (kc & kt & Hs & Hk & Ht). by apply (Hm kc kt). Qed.

Lemma same_sensor kc kt (w : sys U hcsr) :
  unlocked_config kc -> thread_ok kc kt -> sensor_state kc kt false false w -> sensor_inv w.
Proof. intros. by exists kc, kt. Qed.

Lemma ioctl_safe arg1 arg2 :
  driver_safe (sensor_inv (U := U)) (hc_sr04_ioctl arg1 arg2) (fun _ => sensor_inv).
Proof.
  apply sensor_inv_safe. intros kc kt Hk Ht. unfold hc_sr04_ioctl. destruct (arg1 =? SETPINS); [|destruct (arg1 =? SETMODE)].
  - eapply safe_conseq; [apply SETPINs_safe|done|]. intros ? w (p & Hs). by exists (kc_pins p kc), kt.
  - eapply safe_conseq; [by apply SETMODE_safe|done|]. intros ? w (kc' & kt' & Hs & Hk' & Ht'). by exists kc', kt'.
  - intros w Hs. by exists kc, kt.
Qed.

Lemma handle_safe e : driver_safe driver_inv (handle minor e) (fun _ => driver_inv).
Proof.
  destruct e as [node file|file|file fuel buf|file buf|file a1 a2|d|d]; cbn [handle].
  - intros w Hw. unfold hc_sr04_open, get_curr_hcsr. erewrite bind_ok by reflexivity.
    destruct (List.find _ _); [done|]. do 3 right. by left.
  - by intros w Hw.
  - intros w Hw. unfold on_file. erewrite bind_ok by reflexivity. destruct (_ !! file) as [d|]; [|done].
    apply on_device_safe; [|done]. apply sensor_inv_safe. intros kc kt Hk Ht.
    eapply safe_conseq; [by apply read_safe|done|]. intros ? w' Hs. by exists kc, kt.
  - intros w Hw. unfold on_file. erewrite bind_ok by reflexivity. destruct (_ !! file) as [d|]; [|done].
    apply on_device_safe; [|done]. apply sensor_inv_safe. intros kc kt Hk Ht.
    eapply safe_conseq; [by apply write_safe|done|]. intros ? w' (kt' & Hs & [->|Ht']); [by exists kc, kt|by exists kc, kt'].
  - intros w Hw. unfold on_file. erewrite bind_ok by reflexivity. destruct (_ !! file) as [d|]; [|done].
    apply on_device_safe; [|done]. apply ioctl_safe.
  - apply on_device_safe, sensor_inv_safe. intros kc kt Hk Ht.
    eapply safe_conseq; [apply isr_safe|done|]. intros ? w' Hs. by exists kc, kt.
  - intros w Hw. erewrite bind_ok by reflexivity. destruct (kthread _) as [[ms|]|]; [|done..].
    assert (driver_safe driver_inv (on_device d (thread_round (U := U)) ;; mret 0) (fun _ => driver_inv)) as G; [|exact (G w Hw)].
    eapply safe_bind; [|intros ?; apply safe_done]. apply on_device_safe, sensor_inv_safe. intros kc kt Hk Ht.
    eapply safe_conseq; [by apply thread_round_safe|done|]. intros ? w' Hs. by exists kc, kt.
Qed.

Lemma handle_all_safe es : driver_safe driver_inv (handle_all minor es) (fun _ => driver_inv).
Proof.
  induction es as [|e es IH]; [apply safe_done|]. cbn [handle_all].
  eapply safe_bind; [apply handle_safe|]. by intros ?.
Qed.

(** ** Loading *)

Lemma init_fields_inv md pins h :
  data (cirb h) = replicate (Z.to_nat NUM_DATA) 0 -> irq_done_lock h = false -> valid_ongoing h ->
  device_inv (init_fields md pins h).
Proof.
  intros Hd Hl Ho w Es. exists (kconfig (st w)), None. split; [|rewrite Es; by split].
  constructor; rewrite ?Es; try done. by exists [].
Qed.

Lemma init_inv w :
  st w = hc_start -> (forall t n, reply t (Misc_register n) = 0) ->
  exists w', hc_sr04_init w = Ok 0 w' /\ driver_inv w' /\ hcsr_list (st w') = [DevB; DevA] /\
    held (requests w') = map Misc_register ["HCSR_2"; "HCSR_1"]%string ++ held (requests w).
Proof.
  intros Hst Hreg. unfold hc_sr04_init, reg_misc. erewrite bind_ok by (erewrite bind_ok by apply kcall_ok; reflexivity).
  rewrite Hreg. cbn [Z.eqb negb]. erewrite bind_ok by (erewrite bind_ok by apply kcall_ok; reflexivity).
  rewrite Hreg. cbn [Z.eqb negb]. eexists. split; [reflexivity|]. cbn. rewrite Hst.
  split; [|done]. split; apply init_fields_inv; try done; by right.
Qed.

(** C9: From a load that registers both devices on, whatever sequence of opens,
    reads, writes, ioctls and closes the processes make on the two sensors,
    and however echoes fall into their delays and sleeps and rounds of the
    periodic threads into their sleeps, every call that comes back leaves
    both devices sound (no lock held, the buffer the last five samples, the
    thread at the configured period and only outside ONE_SHOT mode); the
    only faults are then a read without samples, a frequency of 0, a thread
    that could not be started and an unreadable argument.  Echoes that fall
    while a call holds ongoing_lock or cir_buf_lock are excluded: where spin
    locks spin, they deadlock (echo_under_lock_deadlocks). *)

Theorem calls_keep_sensors_sound es w :
  st w = hc_start -> (forall t n, reply t (Misc_register n) = 0) ->
  match (hc_sr04_init ;; handle_all minor es) w with
  | Ok _ w' => driver_inv w'
  | Crash f _ => f ∈ [OutOfBounds; DivByZero; BadUserAccess; NullDeref]
  | Blocked _ => True
  end.
Proof.
  intros Hst Hreg. destruct (init_inv w Hst Hreg) as (w1 & H1 & Hi & _). rewrite (bind_ok _ _ _ _ _ H1).
  by apply handle_all_safe.
Qed.
End driver.
