(* ===== verification/Hc02Exit.v ===== *)
(** * 02: unloading, and what is not given back *)

From S2P Require Import Prelude Ring Kernel UserMemory HwPins HwPinsSpec Sensor SensorProofs SensorSpec.
From S2P Require Import SensorCalls SensorPins Release Hc02 Hc02Spec.

Section exit.
Context {U : Type} {UM : UserMemory U} {E : Environment} {IC : IoctlCode}.

(** What a device holds: nothing until SETPINS succeeded. *)

Definition dev_holds (h : hcsr) : list request :=
  if irq_done h =? IRQ_DONE then holds (echo_isr_number h) (the_pins h) else [].

Lemma inv_sound (w : sys U hcsr) : sensor_inv w -> sound w.
Proof. intros (kc & kt & Hs & Hk & _). by exists kc, kt. Qed.

Lemma exit_device_run (w : sys U hcsr) rest :
  sensor_inv w -> kthread (st w) <> Some Error_pointer ->
  held (requests w) ≡ₚ dev_holds (st w) ++ rest -> NoDup (held (requests w)) -> clean (requests w) = true ->
  exists w', exit_device w = Ok tt w' /\ held (requests w') ≡ₚ rest /\ clean (requests w') = true /\ NoDup (held (requests w')).
Proof.
  intros Hi Ht Hp Hd Hc. unfold exit_device. erewrite bind_ok by reflexivity.
  destruct (stop_thread_run w (inv_sound _ Hi) Ht) as (w1 & log & new & H1 & M & _). rewrite (bind_ok _ _ _ _ _ H1).
  destruct (measured_fields _ _ _ _ M) as (_ & Ek & _ & _ & Ei & _ & _). destruct M as [(o & ks & c & Es & _) _ Hh Hcl _].
  erewrite bind_ok by reflexivity. unfold dev_holds in Hp. rewrite Ei. rewrite <- Hh in Hp, Hd. rewrite <- Hcl in Hc.
  destruct (irq_done (st w) =? IRQ_DONE); cbn [when]; [|by exists w1].
  rewrite holds_perm in Hp. assert (the_pins (st w1) = the_pins (st w)) as Ep by (unfold the_pins; by rewrite Ek).
  assert (echo_isr_number (st w1) = echo_isr_number (st w)) as En by (by rewrite Es). rewrite En.
  destruct (release_one (Free_irq (echo_isr_number (st w))) _ w1 _ eq_refl eq_refl Hp Hd Hc) as (w2 & H2 & [S2 _] & P2 & C2 & D2).
  rewrite (bind_ok _ _ _ _ _ H2). unfold free_gpio. erewrite bind_ok by reflexivity. rewrite S2, Ep.
  destruct (freeTrig_ok (trigger_pin (the_pins (st w))) w2) as (w3 & H3 & R3). rewrite (bind_ok _ _ _ _ _ H3).
  destruct (released_perm _ _ _ _ R3 P2 D2 C2) as (P3 & C3 & D3).
  destruct (freeEcho_ok (echo_pin (the_pins (st w))) w3) as (w4 & H4 & R4). rewrite (bind_ok _ _ _ _ _ H4).
  destruct (released_perm _ _ _ _ R4 P3 D3 C3) as (P4 & C4 & D4). by exists w4.
Qed.

Lemma on_device_ok {A} d (m : M (sys U hcsr) A) w a w' :
  m (with_st (device_of d (st w)) w) = Ok a w' -> on_device d m w = Ok a (with_st (with_device d (st w') (st w)) w').
Proof. intros H. unfold on_device. by rewrite H. Qed.

(** C27: Unloading gives everything back: if the driver is sound, each sensor
    holds what its last successful SETPINS acquired, and neither sensor's
    kthread is the error pointer that a failed kthread_run leaves (line 500
    would follow it), then after [hc_sr04_exit] no GPIO, interrupt or misc
    device is held, and nothing was freed that was not held. *)

Theorem exit_gives_all_back (w : sys U hc_driver) :
  driver_inv w -> kthread (hcA (st w)) <> Some Error_pointer -> kthread (hcB (st w)) <> Some Error_pointer ->
  held (requests w) ≡ₚ dev_holds (hcA (st w)) ++ dev_holds (hcB (st w)) ++ map Misc_register ["HCSR_1"; "HCSR_2"]%string ->
  NoDup (held (requests w)) -> clean (requests w) = true ->
  exists w', hc_sr04_exit w = Ok tt w' /\ held (requests w') = [] /\ clean (requests w') = true.
Proof.
  intros [IA IB] TA TB Hp Hd Hc. unfold hc_sr04_exit, dereg_misc.
  destruct (exit_device_run (with_st (hcA (st w)) w) _ (IA (with_st (hcA (st w)) w) eq_refl) TA Hp Hd Hc) as (wa & Ha & Pa & Ca & Da).
  erewrite bind_ok by (by apply (on_device_ok DevA)). set (w1 := with_st _ wa).
  destruct (exit_device_run (with_st (hcB (st w)) w1) _ (IB (with_st (hcB (st w)) w1) eq_refl) TB Pa Da Ca) as (wb & Hb & Pb & Cb & Db).
  erewrite bind_ok by (by apply (on_device_ok DevB)). set (w2 := with_st _ wb).
  destruct (release_one (Misc_deregister "HCSR_1") _ w2 _ eq_refl eq_refl Pb Db Cb) as (w3 & H3 & _ & P3 & C3 & D3).
  rewrite (bind_ok _ _ _ _ _ H3).
  destruct (release_one (Misc_deregister "HCSR_2") _ w3 _ eq_refl eq_refl P3 D3 C3) as (w4 & H4 & _ & P4 & C4 & _).
  exists w4. split; [exact H4|]. split; [|done]. by apply Permutation_nil_r in P4.
Qed.

(** [hc_sr04_init] answers 0 also when a misc device cannot be registered;
    the unloading that follows then deregisters a device that is not
    registered. *)
Theorem failed_init_exits_unclean (w : sys U hc_driver) d :
  st w = hc_start -> Misc_register (name_of d) ∉ held (requests w) -> (forall t, reply t (Misc_register (name_of d)) <> 0) ->
  exists w1 w2, hc_sr04_init w = Ok 0 w1 /\ hcsr_list (st w1) = [] /\ hc_sr04_exit w1 = Ok tt w2 /\ clean (requests w2) = false.
Proof.
  intros Hst Hn Hr.
  assert (forall w1 : sys U hc_driver, st w1 = hc_start -> Misc_register (name_of d) ∉ held (requests w1) ->
    exists w2, hc_sr04_exit w1 = Ok tt w2 /\ clean (requests w2) = false) as Hexit.
  { intros w1 S1 H1. unfold hc_sr04_exit. erewrite bind_ok by (apply (on_device_ok DevA); rewrite S1; reflexivity).
    erewrite bind_ok by (apply (on_device_ok DevB); cbn; rewrite S1; reflexivity). unfold dereg_misc.
    erewrite bind_ok by apply kcall__ok. eexists. split; [apply kcall__ok|].
    cbn [log_request with_st requests clean acquired_by held track acquires]. apply not_true_is_false.
    rewrite !andb_true_iff, !bool_decide_eq_true, list_elem_of_filter. destruct d; cbn [name_of] in *; tauto. }
  unfold hc_sr04_init, reg_misc. erewrite bind_ok by (erewrite bind_ok by apply kcall_ok; reflexivity).
  set (ra := reply _ _). set (w1 := log_request _ _ w).
  assert (d = DevA -> ra <> 0) as Ha by (intros ->; apply Hr).
  assert (Misc_register (name_of d) ∉ held (requests w1)) as H1.
  { cbn [w1 log_request requests held]. unfold track. cbn [acquires]. destruct (Z.eqb_spec ra 0) as [E0|]; [|done].
    apply not_elem_of_cons. split; [|done]. destruct d; [by destruct Ha|done]. }
  destruct (negb (ra =? 0)) eqn:Hra.
  { destruct (Hexit w1 Hst H1) as (w2 & H2 & C2). exists w1, w2. split; [done|]. cbn. by rewrite Hst. }
  apply negb_false_iff, Z.eqb_eq in Hra. destruct d; [by destruct Ha|].
  erewrite bind_ok by (erewrite bind_ok by apply kcall_ok; reflexivity). set (w2 := log_request _ _ w1).
  rewrite (proj2 (Z.eqb_neq _ 0)) by apply Hr. cbn [negb].
  assert (Misc_register (name_of DevB) ∉ held (requests w2)) as H2.
  { cbn [w2 log_request requests held]. unfold track. cbn [acquires]. by rewrite (proj2 (Z.eqb_neq _ 0)) by apply Hr. }
  destruct (Hexit w2 Hst H2) as (w3 & H3 & C3). exists w2, w3. split; [done|]. cbn. by rewrite Hst.
Qed.

(** A sensor starts with both pins 0, the zero of static memory, and 0 is
    the GPIO of IO5: the first SETPINS frees the GPIOs of IO5, which the sensor
    never requested. *)
Theorem first_setpins_frees_io5 (w : sys U hcsr) addr bs md ps :
  fetch (user w) addr 8 = (bs, 0) -> st w = init_fields md ps static_hcsr -> Gpio_request 0 ∉ held (requests w) ->
  exists r w', ioctl_SETPINs addr w = Ok r w' /\ clean (requests w') = false.
Proof.
  intros Hf Hs Hn. edestruct (setpins_unclean addr bs w Hf) as (r & w' & H & _ & C); [by rewrite Hs| |by exists r, w'].
  intros w' H. rewrite Hs in H. set (w0 := with_st _ w) in H. unfold release_pins in H.
  cbn [init_fields irq_done IRQ_NOT_DONE IRQ_DONE Z.eqb when] in H. erewrite bind_ok in H by reflexivity.
  assert (exists a b c, freeTrig (U := U) (trigger_pin (the_pins (init_fields md ps static_hcsr))) w0 =
    Ok 0 (log_request (Gpio_free 66) c (log_request (Gpio_free 18) b (log_request (Gpio_free 0) a w0)))) as (a & b & c & H1).
  { eexists _, _, _. reflexivity. }
  rewrite (bind_ok _ _ _ _ _ H1) in H. set (w1 := log_request _ c _) in H.
  match type of H with (freeEcho ?p ;; _) _ = _ => destruct (silent_freeEcho p w1) as (r2 & w2 & R2 & _ & X2) end.
  rewrite (bind_ok _ _ _ _ _ R2) in H. injection H as <-. apply (clean_extends _ _ X2).
  cbn [w1 w0 log_request with_st requests clean acquired_by]. apply not_true_is_false.
  rewrite !andb_true_iff, !bool_decide_eq_true. tauto.
Qed.
End exit.
