(* ===== verification/Hc02Witness.v ===== *)
(** * 02: concrete runs of the theorems on the sensors

    Sensor A on its default pins; an echo environment, a silent one, and one
    in which a GPIO is busy. *)

From S2P Require Import Prelude Ring Kernel UserMemory HwPins HwPinsSpec Sensor SensorProofs SensorSpec.
From S2P Require Import SensorCalls SensorRead SensorPins Hc02 Hc02Spec Hc02Exit.

Abbreviation world := (sys (gmap Z Z) hcsr).

(** Every wait is cut short by an echo. *)

Definition echo_env : Environment := fun _ c => match c with Delay => 1 | Ktime_get => 58000 | _ => 0 end.

Definition buffer : Z := 4096.

Definition user_with (bs : list Z) : gmap Z Z := (map_store (mapped buffer 64) buffer bs).1.

Definition put_pins (p : pin_set) : list Z := put_int (trigger_pin p) ++ put_int (echo_pin p).

Definition default_pins : pin_set := {| trigger_pin := HCSR_A_TRIG_PIN; echo_pin := HCSR_A_ECHO_PIN |}.

Definition fresh_sensor : hcsr := init_fields "HCSR_1" A_pins static_hcsr.

Definition sensor_with (bs : list Z) (h : hcsr) : world := {| st := h; requests := []; user := user_with bs |}.

Definition w_fresh : world := sensor_with (put_pins default_pins) fresh_sensor.

Definition w_ongoing : world := sensor_with [] (with_ongoing ONGOING fresh_sensor).

Definition w_periodic (f : Z) (bs : list Z) : world := sensor_with bs (with_mode {| mode := PERIODIC; freq := f |} fresh_sensor).

(** Configured on the default pins, interrupt 15. *)

Definition w_configured : world :=
  {| st := with_irq_done IRQ_DONE (with_echo_isr_number 15 (with_pins default_pins fresh_sensor));
     requests := map (fun c => (c, 0)) (holds 15 default_pins); user := user_with (put_pins default_pins) |}.

Lemma fresh_samples : samples_ok (cirb fresh_sensor) [].
Proof. done. Qed.

Lemma one_shot_read_witness :
  exists new w1, measured w_fresh w1 [] new /\ (length new <= 1)%nat.
Proof.
  destruct (one_shot_read (E := echo_env) (V := variant_02 (E := echo_env)) 0 buffer w_fresh []) as (new & w1 & M & Hl & _).
  1-5: done.
  exists new, w1. exact (conj M Hl).
Defined.

Lemma read_without_thread_waits_witness :
  exists w', hc_sr04_read (E := echo_env) (V := variant_02 (E := echo_env)) 100 buffer (w_periodic 5 []) = Blocked w'.
Proof. by apply (read_without_thread_waits (E := echo_env) (V := variant_02 (E := echo_env)) 100 buffer (w_periodic 5 [])). Defined.

Lemma lost_echo_is_success_witness :
  exists w', send (V := variant_02 (E := all_succeed)) 5 w_fresh = Ok 0 w' /\
    measured w_fresh w' [] [].
Proof.
  destruct (lost_echo_is_success (E := all_succeed) (V := variant_02 (E := all_succeed)) 5 w_fresh []) as (w' & H & M & _).
  1-4: done.
  exists w'. exact (conj H M).
Defined.

Lemma zero_frequency_kills_thread_witness :
  exists w', hc_sr04_write (E := all_succeed) (V := variant_02 (E := all_succeed)) buffer (w_periodic 0 (put_int 1)) = Crash DivByZero w'.
Proof.
  apply (zero_frequency_kills_thread (E := all_succeed) (V := variant_02 (E := all_succeed)) buffer (put_int 1)).
  - done.
  - done.
  - done.
  - done.
  - done.
  - vm_compute. reflexivity.
  - vm_compute. discriminate.
  - done.
Defined.

Lemma echo_is_recorded_once_witness :
  exists w', echo_recv_isr (E := echo_env) w_ongoing = Ok IRQ_HANDLED w' /\ measured w_ongoing w' [] [10].
Proof.
  destruct (echo_is_recorded_once (E := echo_env) w_ongoing []) as (_ & w' & H & _ & M & _).
  - done.
  - done.
  - by left.
  - exists w'. exact (conj H M).
Defined.

Lemma measurement_ends_witness :
  exists r w' new, measure (E := echo_env) HCSR_A_TRIG_PIN w_ongoing = Ok r w' /\ measured w_ongoing w' [] new /\
    (length new <= 1)%nat.
Proof.
  destruct (measurement_ends (E := echo_env) HCSR_A_TRIG_PIN w_ongoing []) as (r & w' & new & H & _ & M & _ & HR).
  1-3: done.
  exists r, w', new. refine (conj H (conj M _)). destruct HR as [[_ ->]|[_ ->]]; simpl; lia.
Defined.

(** ** The pins *)

Lemma fetch_pins h : fetch (user (sensor_with (put_pins default_pins) h)) buffer 8 = (put_pins default_pins, 0).
Proof. vm_compute. reflexivity. Qed.

Lemma succeed_irq_works : irq_works (E := all_succeed) (fun _ => 0).
Proof. by intros t p. Qed.

(** Moving to IO2 and IO3. *)

Definition other_pins : pin_set := {| trigger_pin := 13; echo_pin := 14 |}.

Definition w_moving : world := {| st := st w_configured; requests := requests w_configured; user := user_with (put_pins other_pins) |}.

Lemma setpins_moves_sensor_witness :
  exists w', ioctl_SETPINs (E := all_succeed) (V := variant_02 (E := all_succeed)) buffer w_moving = Ok 0 w' /\
    the_pins (st w') = other_pins /\ clean (requests w') = true.
Proof.
  destruct (setpins_moves_sensor (E := all_succeed) (V := variant_02 (E := all_succeed)) (fun _ => 0) buffer (put_pins other_pins) w_moving [])
    as (w' & H & P & _ & _ & C).
  - by intros t g.
  - apply succeed_irq_works.
  - vm_compute. reflexivity.
  - done.
  - done.
  - done.
  - vm_compute. reflexivity.
  - vm_compute. reflexivity.
  - apply not_elem_of_nil.
  - intros g _. apply not_elem_of_nil.
  - done.
  - split; [intros g _|]; apply not_elem_of_nil.
  - exists w'. exact (conj H (conj P C)).
Defined.

(** GPIO 6, the trigger's, is busy. *)

Definition busy : Environment := fails_at (Gpio_request 6) (-16).

Lemma busy_trigger (w : world) :
  exists r w', setTrig (E := busy) 6 w = Ok r w' /\ r <> 0 /\ same_world w w' /\ held (requests w') = held (requests w).
Proof. eexists _, _. split; [reflexivity|]. split; [done|]. split; done. Qed.

Lemma failed_setpins_frees_twice_witness :
  exists w1 r1 w2 r2, ioctl_SETPINs (E := busy) (V := variant_02 (E := busy)) buffer w_configured = Ok r1 w1 /\ r1 <> 0 /\
    ioctl_SETPINs (E := busy) (V := variant_02 (E := busy)) buffer w1 = Ok r2 w2 /\ clean (requests w2) = false.
Proof.
  destruct (returns_inv (fun _ _ => true) (ioctl_SETPINs (E := busy) (V := variant_02 (E := busy)) buffer w_configured))
    as (r1 & w1 & Hrun & _).
  - vm_compute. reflexivity.
  - destruct (failed_setpins_frees_twice (E := busy) (V := variant_02 (E := busy)) buffer (put_pins default_pins) buffer (put_pins default_pins)
      w_configured w1 r1) as (H1 & _ & _ & _ & r2 & w2 & H2 & C2).
    + vm_compute. reflexivity.
    + vm_compute. reflexivity.
    + done.
    + done.
    + intros w'. apply busy_trigger.
    + exact Hrun.
    + exists w1, r1, w2, r2. exact (conj Hrun (conj H1 (conj H2 C2))).
Defined.

(** ** The driver *)

Definition minors (d : device) : Z := match d with DevA => 54 | DevB => 55 end.

Definition w_boot : sys (gmap Z Z) hc_driver := {| st := hc_start; requests := []; user := user_with (put_pins default_pins) |}.

(** Opening sensor A, setting its pins, reading twice while echoes arrive. *)

Definition session : list event :=
  [Open 54 1%positive; Ioctl 1%positive SETPINS buffer; Read 1%positive 10 buffer; Interrupt DevA; Read 1%positive 10 buffer; Release 1%positive].

Lemma calls_keep_sensors_sound_witness :
  exists w', (hc_sr04_init (E := echo_env) ;; handle_all (E := echo_env) minors session) w_boot = Ok tt w' /\ driver_inv w' /\
    newest (cirb (hcA (st w'))) = 1.
Proof.
  pose proof (calls_keep_sensors_sound (E := echo_env) minors session w_boot eq_refl (fun _ _ => eq_refl)) as H.
  destruct (returns_inv (fun _ w' => newest (cirb (hcA (st w'))) =? 1)
    ((hc_sr04_init (E := echo_env) ;; handle_all (E := echo_env) minors session) w_boot)) as ([] & w' & Hw & Hn).
  - vm_compute. reflexivity.
  - rewrite Hw in H. exists w'. exact (conj Hw (conj H (proj1 (Z.eqb_eq _ _) Hn))).
Defined.

Definition w_done : sys (gmap Z Z) hc_driver :=
  {| st := with_list [DevB; DevA] (with_device DevB (init_fields "HCSR_2" B_pins static_hcsr) (with_device DevA (st w_configured) hc_start));
     requests := requests w_configured ++ [(Misc_register "HCSR_1", 0); (Misc_register "HCSR_2", 0)]; user := ∅ |}.

Lemma w_done_inv : driver_inv (U := gmap Z Z) w_done.
Proof.
  split; intros w Hw; exists (kconfig (st w)), None; (split; [|rewrite Hw; by split]); constructor; rewrite ?Hw; try done.
  all: first [by right|by exists []].
Qed.

Lemma exit_gives_all_back_witness :
  exists w', hc_sr04_exit (E := all_succeed) w_done = Ok tt w' /\ held (requests w') = [] /\ clean (requests w') = true.
Proof.
  apply (exit_gives_all_back (E := all_succeed) w_done).
  - apply w_done_inv.
  - done.
  - done.
  - vm_compute. reflexivity.
  - apply (bool_decide_unpack _). vm_compute. exact I.
  - vm_compute. reflexivity.
Defined.

Definition no_misc : Environment := fails_at (Misc_register "HCSR_2") (-16).

Lemma failed_init_exits_unclean_witness :
  exists w1 w2, hc_sr04_init (E := no_misc) w_boot = Ok 0 w1 /\ hc_sr04_exit (E := no_misc) w1 = Ok tt w2 /\ clean (requests w2) = false.
Proof.
  destruct (failed_init_exits_unclean (E := no_misc) w_boot DevB) as (w1 & w2 & H1 & _ & H2 & C).
  - done.
  - apply not_elem_of_nil.
  - intros t. vm_compute. discriminate.
  - exists w1, w2. exact (conj H1 (conj H2 C)).
Defined.

Lemma first_setpins_frees_io5_witness :
  exists r w', ioctl_SETPINs (E := all_succeed) (V := variant_02 (E := all_succeed)) buffer w_fresh = Ok r w' /\ clean (requests w') = false.
Proof.
  apply (first_setpins_frees_io5 (E := all_succeed) w_fresh buffer (put_pins default_pins) "HCSR_1" A_pins).
  - vm_compute. reflexivity.
  - done.
  - apply not_elem_of_nil.
Defined.
