(* ===== verification/Hc03.v ===== *)
(** * 03: the sensor driver with sysfs attributes, one device

    The calls that 03 shares with 02 are those of [Sensor] at this driver's
    way of sending and of setting a trigger up; they are named again here.
    Then the attributes trigger, echo, mode, frequency, enable, distance.
    Sources: 03_Concurrent_HC-SR04_SYSFS_Platform_Drivers/hc_sr04_kernel.h
    and hc_sr04.h. *)

From S2P Require Import Prelude Kernel UserMemory HwPins Sensor Text.

Section sensor.
Context {U : Type} {UM : UserMemory U} {E : Environment} {IC : IoctlCode}.

(** ** What this driver does its own way *)

Definition do_send_03 : M (sys U hcsr) Z :=
  lock_kconfig ;;
  s ← get_st;
  let trig_pin := trigger_pin (the_pins s) in
  unlock_kconfig ;;
  measure trig_pin.

(** The tables of 03's hw_setting.h. *)

Definition A_pins_03 : list row := A_pins.

Definition B_pins_03 : list row := B_pins.

Definition all_pins_03 : list row := all_pins.

(** The error is handed on as it is. *)

Definition setTrig_03 (pin : Z) : M (sys U hcsr) Z :=
  r ← for_pins (set_trig_entry pin) pin all_pins;
  match r with
  | Some ret => mret ret
  | None => mret 0
  end.

#[export] Instance variant_03 : SensorVariant U := {| do_send := do_send_03; set_trigger := setTrig_03 |}.

(** ** The calls of [Sensor], at this variant *)

Definition set_ISR : M (sys U hcsr) Z := Sensor.set_ISR.

Definition freeTrig (pin : Z) : M (sys U hcsr) Z := HwPins.freeTrig pin.

Definition freeEcho (pin : Z) : M (sys U hcsr) Z := HwPins.freeEcho pin.

Definition setEcho (pin : Z) : M (sys U hcsr) Z := HwPins.setEcho pin.

Definition send (retry_cnt : Z) : M (sys U hcsr) Z := Sensor.send retry_cnt.

Definition thread_function : M (sys U hcsr) Z := Sensor.thread_function.

Definition echo_recv_isr : M (sys U hcsr) Z := Sensor.echo_recv_isr.

Definition ioctl_SETPINs (addr : Z) : M (sys U hcsr) Z := Sensor.ioctl_SETPINs addr.

Definition ioctl_SETMODE (addr : Z) : M (sys U hcsr) Z := Sensor.ioctl_SETMODE addr.

Definition hc_sr04_ioctl (arg1 arg2 : Z) : M (sys U hcsr) Z :=
  if arg1 =? SETPINS then ioctl_SETPINs arg2 else
  if arg1 =? SETMODE then ioctl_SETMODE arg2 else
  mret (- EINVAL).

Definition spin_ongoing (fuel : nat) : M (sys U hcsr) unit := Sensor.spin_ongoing fuel.

Definition hc_sr04_read (fuel : nat) (buf : Z) : M (sys U hcsr) Z := Sensor.hc_sr04_read fuel buf.

Definition hc_sr04_write (buf : Z) : M (sys U hcsr) Z := Sensor.hc_sr04_write buf.

(** ** The attributes

    A [_show] gives the returned length and the text it wrote; a [_store]
    gets the text and its length [count]. *)

Definition show_config (value : hcsr -> Z) : M (sys U hcsr) (Z * list Z) :=
  lock_kconfig ;;
  s ← get_st;
  unlock_kconfig ;;
  mret (snprintf10 (value s)).

Definition trigger_show : M (sys U hcsr) (Z * list Z) := show_config (fun s => trigger_pin (the_pins s)).

Definition echo_show : M (sys U hcsr) (Z * list Z) := show_config (fun s => echo_pin (the_pins s)).

Definition mode_show : M (sys U hcsr) (Z * list Z) := show_config (fun s => mode (the_mode s)).

(** The unsigned frequency is copied to an [int]. *)

Definition frequency_show : M (sys U hcsr) (Z * list Z) := show_config (fun s => s32 (freq (the_mode s))).

Definition enable_show : M (sys U hcsr) (Z * list Z) := show_config (fun s => enable (kconfig s)).

Definition trigger_store (buf : list Z) (count : Z) : M (sys U hcsr) Z :=
  s ← get_st;
  freeTrig (trigger_pin (the_pins s)) ;;
  match scan_int buf with
  | None => mret 0
  | Some trig_pin =>
      ret ← setTrig_03 trig_pin;
      if ret <? 0 then mret ret else
      lock_kconfig ;;
      modify_st (fun h => with_pins {| trigger_pin := trig_pin; echo_pin := echo_pin (the_pins h) |} h) ;;
      unlock_kconfig ;;
      mret count
  end.

(** FAILED_SET of [echo_store]. *)

Definition echo_store_failed (prev_pins : pin_set) (ret : Z) : M (sys U hcsr) Z :=
  modify_st (with_pins prev_pins) ;;
  unlock_kconfig ;;
  mret ret.

Definition echo_store (buf : list Z) (count : Z) : M (sys U hcsr) Z :=
  lock_irq_done ;;
  s ← get_st;
  when (irq_done s =? IRQ_DONE) (
    kcall_ (Free_irq (echo_isr_number s)) ;;
    modify_st (with_irq_done IRQ_NOT_DONE)) ;;
  unlock_irq_done ;;
  s ← get_st;
  freeEcho (echo_pin (the_pins s)) ;;
  lock_kconfig ;;
  s ← get_st;
  let prev_pins := the_pins s in
  match scan_int buf with
  | None => echo_store_failed prev_pins 0
  | Some new_pin =>
      ret ← setEcho new_pin;
      if ret <? 0 then echo_store_failed prev_pins ret else
      modify_st (fun h => with_pins {| trigger_pin := trigger_pin (the_pins h); echo_pin := new_pin |} h) ;;
      ret ← set_ISR;
      if ret <? 0 then echo_store_failed prev_pins ret else
      lock_irq_done ;;
      modify_st (with_irq_done IRQ_DONE) ;;
      unlock_irq_done ;;
      unlock_kconfig ;;
      mret count
  end.

(** The value is tested before the result of [sscanf]: no number is 0. *)

Definition mode_store (buf : list Z) (count : Z) : M (sys U hcsr) Z :=
  let m := default 0 (scan_int buf) in
  if negb (m =? ONE_SHOT) && negb (m =? PERIODIC) then mret (- EINVAL) else
  match scan_int buf with
  | None => mret 0
  | Some _ =>
      lock_kconfig ;;
      modify_st (fun h => with_mode {| mode := m; freq := freq (the_mode h) |} h) ;;
      unlock_kconfig ;;
      mret count
  end.

Definition frequency_store (buf : list Z) (count : Z) : M (sys U hcsr) Z :=
  match scan_int buf with
  | None => mret 0
  | Some f =>
      if f =? 0 then mret (- EINVAL) else
      lock_kconfig ;;
      modify_st (fun h => with_mode {| mode := mode (the_mode h); freq := u32 f |} h) ;;
      unlock_kconfig ;;
      mret count
  end.

(** SUCCESS_SETMODE of [enable_store]. *)

Definition enable_store_success (e count : Z) : M (sys U hcsr) Z :=
  lock_kconfig ;;
  modify_st (with_enable e) ;;
  unlock_kconfig ;;
  mret count.

(** Lines 300-329.  In periodic mode [kconfig_lock] is still held when
    [enable_store_success] takes it: [SelfDeadlock] where spin locks spin.
    (The one-processor kernel of kernel_run.log has spin locks without a
    wait, and returns from the call.) *)

Definition enable_store (buf : list Z) (count : Z) : M (sys U hcsr) Z :=
  match scan_int buf with
  | None => mret 0
  | Some e =>
      if e =? 0 then
        lock_kthread ;;
        s ← get_st;
        match kthread s with
        | Some t =>
            kthread_stop t ;;
            modify_st (with_kthread None)
        | None => mret tt
        end ;;
        unlock_kthread ;;
        lock_ongoing ;;
        modify_st (with_ongoing STOPPING) ;;
        unlock_ongoing ;;
        enable_store_success e count
      else if e =? 1 then
        s ← get_st;
        match kthread s with
        | Some _ => mret count
        | None =>
            lock_kconfig ;;
            s ← get_st;
            (if mode (the_mode s) =? ONE_SHOT then
               unlock_kconfig ;;
               send_if_stopped 5
             else
               lock_kthread ;;
               t ← kthread_run;
               modify_st (with_kthread (Some t)) ;;
               unlock_kthread) ;;
            enable_store_success e count
        end
      else mret (- EINVAL)
  end.

(** The distance is converted from the stored [int]. *)

Definition distance_show : M (sys U hcsr) (Z * list Z) :=
  lock_cirb ;;
  s ← get_st;
  distance ← (if newest (cirb s) =? -1 then mret 0 else load_data (newest (cirb s)));
  unlock_cirb ;;
  mret (snprintf10 distance).
End sensor.

#[global] Strategy expand [setTrig_03].
