(* ===== verification/Hc03Spec.v ===== *)
(** * 03: what the attributes guarantee, and where they fail *)

From S2P Require Import Prelude Ring Kernel UserMemory HwPins HwPinsSpec Sensor SensorProofs SensorSpec.
From S2P Require Import SensorCalls SensorRead SensorPins Text Hc03.

Section laws.
Context {U : Type} {UM : UserMemory U} {E : Environment}.

Lemma relock_kconfig (w : sys U hcsr) {A} (k : hcsr -> M (sys U hcsr) A) :
  kconfig_lock (kconfig (st w)) = false ->
  (lock_kconfig ;; h ← get_st; unlock_kconfig ;; k h) w = k (with_kconfig_lock true (st w)) w.
Proof. intros Hk. rewrite peek_kconfig by done. by rewrite (bind_ok _ _ _ _ _ (unpeek_kconfig _ Hk)). Qed.

(** The driver keeps the promises of [SensorLaws]; sending takes
    [kconfig_lock]. *)

Lemma set_trigger_03_silent pin : silent (U := U) (setTrig_03 pin).
Proof. apply silent_bind; [apply silent_set_trig|]. intros []; apply silent_ret. Qed.

Lemma set_trigger_03_ok pin (w : sys U hcsr) : gpio_works -> unheld (trig_pins pin) (held (requests w)) ->
  exists w', setTrig_03 pin w = Ok 0 w' /\ acquired w w' (trig_pins pin).
Proof.
  intros Hg Hu. destruct (setTrig_ok pin w Hg Hu) as (w' & H & Ha). exists w'. split; [|done].
  destruct (bind_ok_inv _ _ _ _ _ H) as ([x|] & w1 & H1 & H2); [done|].
  unfold setTrig_03. by rewrite (bind_ok _ _ _ _ _ H1).
Qed.

#[export] Instance laws_03 : SensorLaws (U := U) variant_03.
Proof.
  refine {| needs_kconfig := true |}.
  - intros w log Hr Hk Hs Ho. cbn [do_send variant_03]. unfold do_send_03. rewrite relock_kconfig by auto.
    by apply measure_ok.
  - intros Hq. apply keeps_bind; [by apply keeps_lock|]. intros ?. apply keeps_get. intros h.
    apply keeps_bind; [by apply keeps_unlock|]. intros ?. by apply keeps_measure.
  - apply set_trigger_03_silent.
  - apply set_trigger_03_ok.
Defined.
End laws.

Section attributes.
Context {U : Type} {UM : UserMemory U} {E : Environment} {IC : IoctlCode}.
Implicit Types (w : sys U hcsr).

Lemma show_config_run value w :
  unlocked_config (kconfig (st w)) ->
  show_config value w = Ok (snprintf10 (value (with_kconfig_lock true (st w)))) w.
Proof. intros Hk. unfold show_config. by rewrite relock_kconfig. Qed.

(** Storing into the configuration under its lock. *)

Lemma store_config_run (f : hcsr -> hcsr) {A} (k : M (sys U hcsr) A) w :
  unlocked_config (kconfig (st w)) -> (forall b h, f (with_kconfig_lock b h) = with_kconfig_lock b (f h)) ->
  kconfig_lock (kconfig (f (st w))) = false ->
  (lock_kconfig ;; modify_st f ;; unlock_kconfig ;; k) w = k (with_st (f (st w)) w).
Proof.
  intros Hk Hf Hu. erewrite bind_ok by (by apply spin_lock_ok). erewrite bind_ok by apply modify_st_ok.
  erewrite bind_ok; last first.
  { apply spin_unlock_ok. cbn [st with_st]. by rewrite Hf. }
  cbn [st with_st]. rewrite Hf. set (h := f (st w)) in *. f_equal. unfold with_st. f_equal.
  destruct h as [? ? ? ? ? ? ? [] ? ? ? ?]. cbn in *. by subst.
Qed.

Lemma with_mode_same m h : m = the_mode h -> with_mode m h = h.
Proof. intros ->. by destruct h as [? ? ? ? ? ? ? [[? []] ? ?] ? ? ? ?]. Qed.

Lemma with_st_same w : with_st (st w) w = w.
Proof. by destruct w. Qed.

(** C33: What mode_show and frequency_show print, mode_store and
    frequency_store accept, and storing it back changes nothing: for both
    modes, and for every frequency but 0 that prints in nine characters. *)

Theorem shown_values_store_back w :
  unlocked_config (kconfig (st w)) ->
  (mode (the_mode (st w)) = ONE_SHOT \/ mode (the_mode (st w)) = PERIODIC ->
   exists n text, mode_show w = Ok (n, text) w /\ mode_store text n w = Ok n w) /\
  (0 < freq (the_mode (st w)) < 2 ^ 32 -> (length (print_int (s32 (freq (the_mode (st w))))) <= 9)%nat ->
   exists n text, frequency_show w = Ok (n, text) w /\ frequency_store text n w = Ok n w).
Proof.
  intros Hk. split.
  - intros Hm. unfold mode_show. rewrite (show_config_run _ _ Hk).
    change (mode (the_mode (with_kconfig_lock true (st w)))) with (mode (the_mode (st w))).
    set (v := mode (the_mode (st w))) in *. exists (snprintf10 v).1, (snprintf10 v).2. split; [by destruct (snprintf10 v)|].
    unfold mode_store. cbn zeta. rewrite snprintf10_scan by (destruct Hm as [->| ->]; unfold ONE_SHOT, PERIODIC; first [lia|apply Nat.leb_le; vm_compute; reflexivity]).
    cbn [from_option id]. replace (negb (v =? ONE_SHOT) && negb (v =? PERIODIC)) with false by (by destruct Hm as [->| ->]). cbn iota.
    rewrite store_config_run by done. cbn beta. rewrite with_mode_same; [by rewrite with_st_same|].
    unfold v. by destruct (the_mode (st w)).
  - intros Hf Hl. unfold frequency_show. rewrite (show_config_run _ _ Hk).
    change (freq (the_mode (with_kconfig_lock true (st w)))) with (freq (the_mode (st w))).
    set (v := s32 (freq (the_mode (st w)))) in *. exists (snprintf10 v).1, (snprintf10 v).2. split; [by destruct (snprintf10 v)|].
    unfold frequency_store. rewrite snprintf10_scan by (done || apply s32_range).
    destruct (Z.eqb_spec v 0) as [Hv|_]; [apply s32_zero in Hv; lia|].
    rewrite store_config_run by done. cbn beta. rewrite with_mode_same; [by rewrite with_st_same|].
    unfold v. rewrite u32_s32, wrap_small by lia. by destruct (the_mode (st w)).
Qed.

(** The buffer that a _show gives to snprintf is too short for ten digits:
    storing back the frequency shown loses its last digit. *)
Theorem long_frequency_is_cut w :
  unlocked_config (kconfig (st w)) -> 10 ^ 9 <= freq (the_mode (st w)) < 2 ^ 31 ->
  exists n text, frequency_show w = Ok (n, text) w /\
    frequency_store text n w = Ok n (with_st (with_mode {| mode := mode (the_mode (st w));
                                                           freq := freq (the_mode (st w)) / 10 |} (st w)) w).
Proof.
  intros Hk Hf. unfold frequency_show. rewrite (show_config_run _ _ Hk).
  change (freq (the_mode (with_kconfig_lock true (st w)))) with (freq (the_mode (st w))). rewrite s32_small by lia.
  set (v := freq (the_mode (st w))) in *. exists (snprintf10 v).1, (snprintf10 v).2. split; [by destruct (snprintf10 v)|].
  unfold frequency_store. rewrite snprintf10_truncates by done.
  assert (10 ^ 8 <= v / 10 < 2 ^ 31) as Hd.
  { split; [apply Z.div_le_lower_bound|apply Z.div_lt_upper_bound]; lia. }
  rewrite (proj2 (Z.eqb_neq _ _)) by lia. rewrite store_config_run by done. by rewrite wrap_small by lia.
Qed.

Lemma thread_function_run w :
  freq (the_mode (st w)) <> 0 -> Sensor.thread_function w = Ok (1000 / freq (the_mode (st w))) w.
Proof.
  intros Hf%Z.eqb_neq. unfold Sensor.thread_function. erewrite bind_ok by reflexivity. by rewrite Hf.
Qed.

(** C38: Enabling a sensor that is in periodic mode and has no thread starts the
    thread and then takes [kconfig_lock] a second time while it still holds it
    from reading the mode.  Where spin locks spin (several processors, or lock
    debugging) the call never returns, and everything that needs the lock
    waits with it; on a kernel for one processor a spin lock is no wait, and
    the call goes through, as kernel_run.log shows. *)

Theorem enabling_periodic_deadlocks buf count w :
  scan_int buf = Some 1 -> unlocked_config (kconfig (st w)) -> kthread_lock (st w) = false -> kthread (st w) = None ->
  mode (the_mode (st w)) <> ONE_SHOT -> freq (the_mode (st w)) <> 0 ->
  exists w', enable_store buf count w = Crash SelfDeadlock w' /\ kconfig_lock (kconfig (st w')) = true /\
    ((forall t, reply t Kthread_run = 0) -> kthread (st w') = Some (Thread (1000 / freq (the_mode (st w))))).
Proof.
  intros Hb Hk Hl Ht Hm Hf. unfold enable_store. rewrite Hb. cbn [Z.eqb Pos.eqb]. erewrite bind_ok by reflexivity. rewrite Ht.
  rewrite peek_kconfig by done. change (the_mode (with_kconfig_lock true (st w))) with (the_mode (st w)).
  rewrite (proj2 (Z.eqb_neq _ _) Hm).
  set (w1 := with_st _ w).
  assert (exists t w2, kthread_run (with_st (with_kthread_lock true (st w1)) w1) = Ok t w2 /\
    st w2 = with_kthread_lock true (st w1) /\ ((forall t, reply t Kthread_run = 0) -> t = Thread (1000 / freq (the_mode (st w)))))
    as (t & w2 & H2 & S2 & T2).
  { unfold kthread_run. erewrite bind_ok by apply kcall_ok. set (r := reply _ _).
    destruct (Z.eqb_spec r 0) as [|Hr]; cbn [negb].
    - exists (Thread (1000 / freq (the_mode (st w)))), (log_request Kthread_run r (with_st (with_kthread_lock true (st w1)) w1)).
      split; [|done]. by erewrite bind_ok by (apply thread_function_run; exact Hf).
    - eexists _, _. split; [reflexivity|]. split; [done|]. intros Hall. destruct Hr. apply Hall. }
  erewrite bind_ok; last first.
  { erewrite bind_ok by (apply spin_lock_ok; exact Hl). rewrite (bind_ok _ _ _ _ _ H2).
    erewrite bind_ok by apply modify_st_ok. apply spin_unlock_ok. cbn. by rewrite S2. }
  eexists. unfold enable_store_success. split; [apply bind_crash, spin_lock_held; cbn; by rewrite S2|].
  cbn. rewrite S2. split; [done|]. intros Hall. by rewrite T2.
Qed.

(** mode_store only changes the mode: a periodic thread goes on in
    ONE_SHOT mode, and enabling the sensor is then a call that does nothing. *)
Theorem mode_store_leaves_thread buf count buf1 count1 w t :
  scan_int buf = Some ONE_SHOT -> scan_int buf1 = Some 1 -> unlocked_config (kconfig (st w)) -> kthread (st w) = Some t ->
  exists w', mode_store buf count w = Ok count w' /\ mode (the_mode (st w')) = ONE_SHOT /\ kthread (st w') = Some t /\
    ~ thread_ok (kconfig (st w')) (kthread (st w')) /\ enable_store buf1 count1 w' = Ok count1 w'.
Proof.
  intros Hb Hb1 Hk Ht. unfold mode_store. cbn zeta. rewrite Hb. cbn [from_option id]. change (negb (ONE_SHOT =? ONE_SHOT) && _) with false.
  cbn iota. rewrite store_config_run by done. eexists. split; [reflexivity|]. split; [done|]. split; [done|].
  split; [cbn; rewrite Ht; by intros [Hx _]|]. unfold enable_store. rewrite Hb1. cbn [Z.eqb Pos.eqb].
  erewrite bind_ok by reflexivity. cbn [st with_st with_mode with_kconfig kthread]. by rewrite Ht.
Qed.

(** C39: Where spin locks spin, SETMODE while the periodic thread is about to
    measure never returns: it holds [kconfig_lock] and waits for the thread
    to stop, the thread takes [kconfig_lock] before it sends. *)

Theorem setmode_deadlocks_with_thread addr bytes w ms :
  fetch (user w) addr 8 = (bytes, 0) -> mode (get_mode bytes) = ONE_SHOT \/ mode (get_mode bytes) = PERIODIC ->
  unlocked_config (kconfig (st w)) -> kthread_lock (st w) = false -> ongoing_lock (st w) = false ->
  kthread (st w) = Some (Thread ms) -> ongoing (st w) = STOPPING -> (forall t, reply t Kthread_stop <> 0) ->
  exists w', ioctl_SETMODE addr w = Crash SelfDeadlock w'.
Proof.
  intros Hf Hm Hk Hl Hol Ht Ho Hr. unfold ioctl_SETMODE, Sensor.ioctl_SETMODE.
  rewrite (bind_ok _ _ _ _ _ (copy_from_user_ok _ _ _)), Hf. cbn [Z.eqb negb]. cbn zeta.
  replace (negb (mode (get_mode bytes) =? ONE_SHOT) && negb (mode (get_mode bytes) =? PERIODIC)) with false by (by destruct Hm as [->| ->]). cbn iota.
  erewrite bind_ok by (by apply spin_lock_ok). erewrite bind_ok by apply modify_st_ok.
  erewrite bind_ok by (apply spin_lock_ok; exact Hl). erewrite bind_ok by reflexivity.
  set (w1 := with_st (with_kthread_lock true _) _).
  assert (exists w', kthread_stop (Thread ms) w1 = Crash SelfDeadlock w') as [w' H].
  { unfold kthread_stop. eexists. erewrite bind_ok by apply kcall_ok. rewrite (proj2 (Z.eqb_neq _ _)) by apply Hr. cbn [negb when].
    apply bind_crash. unfold Sensor.send. erewrite bind_ok by (apply lock_ongoing_ok; exact Hol). erewrite bind_ok by reflexivity.
    cbn [st with_st log_request w1 with_ongoing_lock with_kthread_lock with_mode with_kconfig with_kconfig_lock ongoing].
    rewrite Ho. cbn [Z.eqb ONGOING STOPPING Pos.eqb]. erewrite bind_ok by reflexivity.
    erewrite bind_ok by (by apply unlock_ongoing_ok). change (Z.to_nat 3) with 3%nat. cbn [resend].
    apply bind_crash, bind_crash, spin_lock_held. reflexivity. }
  exists w'. apply bind_crash. cbn [st with_st w1 with_kthread_lock with_mode with_kconfig with_kconfig_lock kthread]. rewrite Ht.
  destruct (negb _); by apply bind_crash.
Qed.

(** Freeing the pins of a trigger is clean only if all of them were held. *)

Lemma free_trig_row_clean m es w w' :
  for_row free_trig_entry m es w = Ok None w' -> clean (requests w') = true ->
  forall g, g ∈ trig_gpios m es -> Gpio_request g ∈ held (requests w).
Proof.
  revert m w. induction es as [|e es IH]; intros m w H Hc g Hg; [by apply elem_of_nil in Hg|].
  cbn [for_row trig_gpios] in *.
  assert (free_trig_entry m e w = Ok None (if (m =? HC_GPIO_PULL) || (e.1 =? -1) then w
    else log_request (Gpio_free e.1) (reply (requests w) (Gpio_free e.1)) w)) as He.
  { unfold free_trig_entry. by destruct (m =? HC_GPIO_PULL), (e.1 =? -1). }
  rewrite (bind_ok _ _ _ _ _ He) in H. destruct ((m =? HC_GPIO_PULL) || (e.1 =? -1)); cbn [app] in *; [by eapply IH|].
  set (w1 := log_request _ _ w) in H.
  assert (clean (requests w1) = true) as Hc1.
  { apply not_false_iff_true. intros Hf. assert (extends (requests w1) (requests w')) as X.
    { assert (silent (for_row (U := U) (S := hcsr) free_trig_entry (m + 1) es)) as Hsil.
      { apply silent_row. intros m' e'. unfold free_trig_entry. apply silent_if; [apply silent_ret|].
        apply silent_if; [apply silent_ret|]. apply silent_bind; [apply silent_call_|]. intros ?. apply silent_ret. }
      destruct (Hsil w1) as (a & w2 & H2 & _ & X). rewrite H in H2. by simplify_eq. }
    by rewrite (clean_extends _ _ X Hf) in Hc. }
  cbn [w1 log_request requests clean acquired_by] in Hc1. apply andb_true_iff in Hc1 as [_ Hin%bool_decide_eq_true].
  apply elem_of_cons in Hg as [->|Hg]; [done|]. specialize (IH _ _ H Hc g Hg).
  cbn [w1 log_request requests held track acquires acquired_by] in IH. by apply list_elem_of_filter in IH as [_ ?].
Qed.

Lemma free_trig_unclean pin w r w' :
  trig_pins pin <> [] -> (forall g, g ∈ trig_pins pin -> Gpio_request g ∉ held (requests w)) ->
  HwPins.freeTrig pin w = Ok r w' -> clean (requests w') = false.
Proof.
  intros Hne Hn H. apply not_true_is_false. intros Hc. unfold trig_pins in *.
  pose proof (find_row free_trig_entry pin w) as Hf.
  destruct (row_of pin) as [row|]; [|done]. destruct (trig_gpios 0 row) as [|g gs] eqn:Eg; [done|].
  destruct (free_trig_row 0 row w) as (w1 & H1 & _). rewrite H1 in Hf. unfold HwPins.freeTrig in H.
  rewrite (bind_ok _ _ _ _ _ Hf) in H. injection H as _ <-. apply (Hn g); [by left|].
  eapply free_trig_row_clean; [exact H1|done|]. rewrite Eg. by left.
Qed.

(** A text that is no number makes trigger_store return 0 after it has
    freed the GPIOs of the trigger, which the configuration still names;
    repeating the write, as a caller does that wrote 0 bytes, frees them
    again. *)
Theorem bad_trigger_text_frees_pins buf count w :
  scan_int buf = None -> trig_pins (trigger_pin (the_pins (st w))) <> [] ->
  exists w1 w2, trigger_store buf count w = Ok 0 w1 /\ st w1 = st w /\
    (forall g, g ∈ trig_pins (trigger_pin (the_pins (st w))) -> ~ (Gpio_request g ∈ held (requests w1))) /\
    trigger_store buf count w1 = Ok 0 w2 /\ clean (requests w2) = false.
Proof.
  intros Hb Hp. set (p := trigger_pin (the_pins (st w))) in *.
  destruct (freeTrig_ok p w) as (w1 & H1 & [S1 U1] & R1 & _). destruct (freeTrig_ok p w1) as (w2 & H2 & _ & R2 & _).
  assert (forall g, g ∈ trig_pins p -> Gpio_request g ∉ held (requests w1)) as Hgone.
  { intros g Hg. rewrite R1, list_elem_of_filter. intros [Hx _]. apply Hx. by apply elem_of_requests. }
  exists w1, w2. split_and!; try done.
  - unfold trigger_store. erewrite bind_ok by reflexivity. rewrite (bind_ok _ _ _ _ _ H1). by rewrite Hb.
  - unfold trigger_store. erewrite bind_ok by reflexivity. rewrite S1. rewrite (bind_ok _ _ _ _ _ H2). by rewrite Hb.
  - eapply free_trig_unclean; [done| |exact H2]. exact Hgone.
Qed.
End attributes.
