(* ===== verification/Hc03Safe.v ===== *)
(** * 03: the calls on one device that keep it sound *)

From S2P Require Import Prelude Ring Kernel UserMemory HwPins HwPinsSpec Sensor SensorProofs SensorSpec.
From S2P Require Import SensorCalls SensorRead SensorPins Release Text Hc03 Hc03Spec.

Section safe03.
Context {U : Type} {UM : UserMemory U} {E : Environment} {IC : IoctlCode}.
Implicit Types (w : sys U hcsr).

#[local] Abbreviation sensor_safe := (safe sensor_faults).
#[local] Abbreviation sound := (Release.sound (U := U)).

Lemma sound_safe {A} (m : M (sys U hcsr) A) (Q : A -> sys U hcsr -> Prop) :
  (forall kc kt, unlocked_config kc -> sensor_safe (sensor_state kc kt false false) m Q) -> sensor_safe sound m Q.
Proof. intros Hm w (kc & kt & Hs & Hk). by apply (Hm kc kt). Qed.

Lemma sound_intro {A} (m : M (sys U hcsr) A) kc kt kc' kt' :
  unlocked_config kc' -> sensor_safe (sensor_state kc kt false false) m (fun _ => sensor_state kc' kt' false false) ->
  sensor_safe (sensor_state kc kt false false) m (fun _ => sound).
Proof. intros Hk Hm. eapply safe_conseq; [exact Hm|done|]. intros a w Hs. by exists kc', kt'. Qed.

(** Showing. *)

Lemma show_config_safe value : sensor_safe sound (show_config value) (fun _ => sound).
Proof.
  intros w Hw. pose proof Hw as (kc & kt & Hs & Hk). rewrite show_config_run; [done|].
  unfold unlocked_config. by rewrite (ss_kconfig _ _ _ _ _ Hs).
Qed.

Lemma distance_show_safe : sensor_safe sound distance_show (fun _ => sound).
Proof.
  intros w Hw. pose proof Hw as (kc & kt & Hs & Hk). destruct (ss_samples _ _ _ _ _ Hs) as [log Hlog].
  unfold distance_show. rewrite (peek_run w log) by done. cbn [with_cirb_lock with_cirb cirb newest].
  destruct (Z.eqb_spec (newest (cirb (st w))) (-1)) as [Hn|Hn].
  - erewrite bind_ok by reflexivity. by rewrite (bind_ok _ _ _ _ _ (unpeek_run _ _ Hlog)).
  - destruct (last log) as [d|] eqn:Hl.
    2: { apply last_None in Hl as ->. by destruct Hlog as (Hx & _). }
    apply last_Some in Hl as [l ->]. destruct (samples_newest _ _ _ Hlog) as [Hrange Hd].
    erewrite bind_ok; last first.
    { apply (deref_ok (fun w => if newest _ <? 0 then None else data (cirb (st w)) !! Z.to_nat (newest _))).
      rewrite (proj2 (Z.ltb_ge _ _)) by lia. apply Hd. }
    by rewrite (bind_ok _ _ _ _ _ (unpeek_run _ _ Hlog)).
Qed.

(** Storing a value of the configuration. *)

Lemma store_config_safe (f : hcsr -> hcsr) (g : hcsr_kconfig -> hcsr_kconfig) count kc kt :
  unlocked_config kc -> (forall h, f h = with_kconfig (g (kconfig h)) h) ->
  (forall kc, kconfig_lock (g kc) = kconfig_lock kc) ->
  (forall b kc, g (kc_lock b kc) = kc_lock b (g kc)) ->
  sensor_safe (sensor_state kc kt false false) (lock_kconfig ;; modify_st f ;; unlock_kconfig ;; mret (count : Z)) (fun _ => sound).
Proof.
  intros Hk Hf Hg Hc. apply (sound_intro _ kc kt (g kc) kt); [unfold unlocked_config in *; by rewrite Hg|].
  eapply safe_bind; [by apply lock_kconfig_safe|]. intros ?.
  eapply (safe_bind _ _ _ _ (fun _ => sensor_state (kc_lock true (g kc)) kt false false)).
  { apply modify_safe. intros w [E1 ? ? ? ? ? ?]. rewrite Hf. constructor; try done. cbn. by rewrite E1, Hc. }
  intros ?. eapply safe_bind; [apply unlock_kconfig_safe|]. intros ?. rewrite kc_relock; [apply safe_done|].
  unfold unlocked_config in *. by rewrite Hg.
Qed.

Definition kc_trigger (p : Z) (kc : hcsr_kconfig) : hcsr_kconfig :=
  kc_pins {| trigger_pin := p; echo_pin := echo_pin (pins (kset kc)) |} kc.

Definition kc_echo (p : Z) (kc : hcsr_kconfig) : hcsr_kconfig :=
  kc_pins {| trigger_pin := trigger_pin (pins (kset kc)); echo_pin := p |} kc.

Lemma trigger_store_safe buf count : sensor_safe sound (trigger_store buf count) (fun _ => sound).
Proof.
  apply sound_safe. intros kc kt Hk. unfold trigger_store. apply get_safe. intros h _ _.
  eapply safe_bind; [apply silent_state, silent_freeTrig|]. intros ?.
  destruct (scan_int buf) as [p|]; [|intros w Hs; by exists kc, kt].
  eapply safe_bind.
  { apply silent_state. apply (set_trigger_silent (V := variant_03)). }
  intros r. destruct (r <? 0); [intros w Hs; by exists kc, kt|].
  by apply (store_config_safe _ (kc_trigger p)).
Qed.

Lemma mode_store_safe buf count : sensor_safe sound (mode_store buf count) (fun _ => sound).
Proof.
  apply sound_safe. intros kc kt Hk. unfold mode_store. cbn zeta. destruct (_ && _); [intros w Hs; by exists kc, kt|].
  destruct (scan_int buf) as [m|]; [|intros w Hs; by exists kc, kt]. cbn [from_option id].
  by apply (store_config_safe _ (fun kc => kc_mode {| mode := m; freq := freq (working_mode (kset kc)) |} kc)).
Qed.

Lemma frequency_store_safe buf count : sensor_safe sound (frequency_store buf count) (fun _ => sound).
Proof.
  apply sound_safe. intros kc kt Hk. unfold frequency_store.
  destruct (scan_int buf) as [f|]; [|intros w Hs; by exists kc, kt]. destruct (f =? 0); [intros w Hs; by exists kc, kt|].
  by apply (store_config_safe _ (fun kc => kc_mode {| mode := mode (working_mode (kset kc)); freq := u32 f |} kc)).
Qed.

(** [echo_store] holds [kconfig_lock] while it acquires the new pin. *)

Lemma with_pins_safe (f : hcsr -> pin_set) kc kt tl il :
  sensor_safe (fun w : sys U hcsr => exists p, sensor_state (kc_pins p kc) kt tl il w) (modify_st (fun h => with_pins (f h) h))
    (fun _ w => exists p, sensor_state (kc_pins p kc) kt tl il w).
Proof.
  apply safe_exists. intros p. apply safe_ok. intros w Hs. eexists _, _. split; [apply modify_st_ok|].
  exists (f (st w)). destruct Hs as [E1 ? ? ? ? ? ?]. constructor; try done. cbn. by rewrite E1.
Qed.

Lemma echo_failed_safe prev r kc kt : unlocked_config kc ->
  sensor_safe (fun w : sys U hcsr => exists p, sensor_state (kc_pins p (kc_lock true kc)) kt false false w)
    (echo_store_failed prev r) (fun _ => sound).
Proof.
  intros Hk. unfold echo_store_failed.
  eapply safe_bind; [apply (with_pins_safe (fun _ => prev))|]. intros ?. apply safe_exists. intros p.
  eapply safe_bind.
  - change (kc_pins p (kc_lock true kc)) with (kc_lock true (kc_pins p kc)). apply unlock_kconfig_safe.
  - intros ? w Hs. exists (kc_lock false (kc_pins p kc)), kt. by split.
Qed.

Lemma set_ISR_03_safe kc kt tl il :
  sensor_safe (sensor_state (U := U) kc kt tl il) set_ISR (fun _ => sensor_state kc kt tl il).
Proof.
  apply get_safe. intros h _ _. eapply safe_bind; [apply call_safe|]. intros r. destruct (r <? 0); [apply safe_done|].
  eapply safe_bind.
  { apply (modify_safe _ kc kt tl il kc kt). intros w []. by constructor. }
  intros ?. eapply safe_bind; [apply call_safe|]. intros r2. destruct (negb _); apply safe_done.
Qed.

Lemma echo_store_safe buf count : sensor_safe sound (echo_store buf count) (fun _ => sound).
Proof.
  apply sound_safe. intros kc kt Hk. unfold echo_store.
  eapply safe_bind; [apply lock_irq_safe|]. intros ?. apply get_safe. intros h _ _.
  eapply (safe_bind _ _ _ _ (fun _ => sensor_state kc kt false true)).
  { destruct (irq_done h =? IRQ_DONE); [|apply safe_done].
    eapply safe_bind; [apply silent_state, silent_call_|]. intros ?. apply modify_safe. intros w []. by constructor. }
  intros ?. eapply safe_bind; [apply unlock_irq_safe|]. intros ?. apply get_safe. intros h1 _ _.
  eapply safe_bind; [apply silent_state, silent_freeEcho|]. intros ?.
  eapply safe_bind; [by apply lock_kconfig_safe|]. intros ?. apply get_safe. intros h2 _ _.
  set (K := fun w : sys U hcsr => exists p, sensor_state (kc_pins p (kc_lock true kc)) kt false false w).
  assert (forall w, sensor_state (kc_lock true kc) kt false false w -> K w) as HK.
  { intros w Hs. exists (pins (kset (kc_lock true kc))). by rewrite kc_pins_same. }
  destruct (scan_int buf) as [p|].
  2: { eapply safe_conseq; [by apply (echo_failed_safe _ _ kc kt)|exact HK|done]. }
  eapply safe_bind; [apply silent_state, silent_setEcho|]. intros r.
  destruct (r <? 0); [eapply safe_conseq; [by apply (echo_failed_safe _ _ kc kt)|exact HK|done]|].
  eapply (safe_bind _ _ _ _ (fun _ => K)).
  { eapply safe_conseq; [|exact HK|intros b w Hw; exact Hw].
    apply (with_pins_safe (fun h => {| trigger_pin := trigger_pin (the_pins h); echo_pin := p |})). }
  intros ?. unfold K. apply safe_exists. intros q. eapply safe_bind; [apply set_ISR_03_safe|]. intros r2.
  destruct (r2 <? 0); [eapply safe_conseq; [by apply (echo_failed_safe _ _ kc kt)|intros w Hs; by exists q|done]|].
  eapply safe_bind; [apply lock_irq_safe|]. intros ?.
  eapply safe_bind.
  { apply (modify_safe _ _ _ _ _ (kc_pins q (kc_lock true kc)) kt). intros w []. by constructor. }
  intros ?. eapply safe_bind; [apply unlock_irq_safe|]. intros ?. eapply safe_bind.
  { change (kc_pins q (kc_lock true kc)) with (kc_lock true (kc_pins q kc)). apply unlock_kconfig_safe. }
  intros ? w Hs. exists (kc_lock false (kc_pins q kc)), kt. by split.
Qed.

(** [enable_store], except to start. *)

Lemma enable_store_safe buf count : scan_int buf <> Some 1 -> sensor_safe sound (enable_store buf count) (fun _ => sound).
Proof.
  intros Hb. apply sound_safe. intros kc kt Hk. unfold enable_store.
  destruct (scan_int buf) as [e|]; [|intros w Hs; by exists kc, kt].
  destruct (Z.eqb_spec e 0) as [->|He0].
  - eapply safe_bind; [apply lock_kthread_safe|]. intros ?. apply get_safe. intros h _ Hkt.
    eapply (safe_bind _ _ _ _ (fun _ => sensor_state kc None true false)).
    { rewrite Hkt. destruct kt as [t|]; [|apply safe_done]. eapply safe_bind; [by apply kthread_stop_safe|]. intros ?.
      apply set_kthread_safe. }
    intros ?. eapply safe_bind; [apply unlock_kthread_safe|]. intros ?.
    intros w Hs. rewrite stop_ok by apply Hs.
    refine (store_config_safe (with_enable 0) (fun kc => {| kset := kset kc; enable := 0; kconfig_lock := kconfig_lock kc |})
      count kc None Hk _ _ _ _ _); try done.
    destruct Hs. constructor; try done. by right.
  - destruct (Z.eqb_spec e 1) as [->|He1]; [done|]. intros w Hs. by exists kc, kt.
Qed.

(** ** The calls of the processes *)

Inductive call :=
  | Read (fuel : nat) (buf : Z)
  | Write (buf : Z)
  | Ioctl (arg1 arg2 : Z)
  | Show_trigger | Show_echo | Show_mode | Show_frequency | Show_enable | Show_distance
  | Store_trigger (buf : list Z)
  | Store_echo (buf : list Z)
  | Store_mode (buf : list Z)
  | Store_frequency (buf : list Z)
  | Store_enable (buf : list Z)
  | Interrupt
  | Round.

Definition length_of (buf : list Z) : Z := Z.of_nat (length buf).

Definition shown (m : M (sys U hcsr) (Z * list Z)) : M (sys U hcsr) Z := r ← m; mret r.1.

Definition do_call (c : call) : M (sys U hcsr) Z :=
  match c with
  | Read fuel buf => hc_sr04_read fuel buf
  | Write buf => hc_sr04_write buf
  | Ioctl arg1 arg2 => hc_sr04_ioctl arg1 arg2
  | Show_trigger => shown trigger_show
  | Show_echo => shown echo_show
  | Show_mode => shown mode_show
  | Show_frequency => shown frequency_show
  | Show_enable => shown enable_show
  | Show_distance => shown distance_show
  | Store_trigger buf => trigger_store buf (length_of buf)
  | Store_echo buf => echo_store buf (length_of buf)
  | Store_mode buf => mode_store buf (length_of buf)
  | Store_frequency buf => frequency_store buf (length_of buf)
  | Store_enable buf => enable_store buf (length_of buf)
  | Interrupt => echo_recv_isr
  | Round =>
      s ← get_st;
      match kthread s with
      | Some (Thread _) => thread_round ;; mret 0
      | _ => mret 0
      end
  end.

Fixpoint do_calls (cs : list call) : M (sys U hcsr) unit :=
  match cs with
  | [] => mret tt
  | c :: cs => do_call c ;; do_calls cs
  end.

(** All but SETMODE and enabling, which can deadlock. *)

Definition harmless (c : call) : Prop :=
  match c with
  | Ioctl arg1 _ => arg1 <> SETMODE
  | Store_enable buf => scan_int buf <> Some 1
  | _ => True
  end.

Lemma shown_safe (m : M (sys U hcsr) (Z * list Z)) :
  sensor_safe sound m (fun _ => sound) -> sensor_safe sound (shown m) (fun _ => sound).
Proof. intros Hm. eapply safe_bind; [exact Hm|]. intros ?. apply safe_done. Qed.

Lemma do_call_safe c : harmless c -> sensor_safe sound (do_call c) (fun _ => sound).
Proof.
  intros Hc. destruct c; cbn [do_call harmless] in *.
  - apply sound_safe. intros kc kt Hk. apply (sound_intro _ kc kt kc kt); [done|]. by apply read_safe.
  - apply sound_safe. intros kc kt Hk. eapply safe_conseq; [by apply write_safe|done|].
    intros ? w (kt' & Hs & _). by exists kc, kt'.
  - unfold hc_sr04_ioctl. apply Z.eqb_neq in Hc. rewrite Hc. destruct (arg1 =? SETPINS); [|apply safe_done].
    apply sound_safe. intros kc kt Hk. eapply safe_conseq; [apply SETPINs_safe|done|]. intros ? w (p & Hs).
    by exists (kc_pins p kc), kt.
  - apply shown_safe, show_config_safe.
  - apply shown_safe, show_config_safe.
  - apply shown_safe, show_config_safe.
  - apply shown_safe, show_config_safe.
  - apply shown_safe, show_config_safe.
  - apply shown_safe, distance_show_safe.
  - apply trigger_store_safe.
  - apply echo_store_safe.
  - apply mode_store_safe.
  - apply frequency_store_safe.
  - by apply enable_store_safe.
  - apply sound_safe. intros kc kt Hk. apply (sound_intro _ kc kt kc kt); [done|]. apply isr_safe.
  - apply sound_safe. intros kc kt Hk. apply get_safe. intros h _ _. apply (sound_intro _ kc kt kc kt); [done|].
    destruct (kthread h) as [[ms|]|]; [|apply safe_done..].
    eapply safe_bind; [by apply thread_round_safe|]. intros ?. apply safe_done.
Qed.

Lemma do_calls_safe cs : Forall harmless cs -> sensor_safe sound (do_calls cs) (fun _ => sound).
Proof.
  induction 1 as [|c cs Hc _ IH]; [apply safe_done|]. cbn [do_calls].
  eapply safe_bind; [by apply do_call_safe|]. by intros ?.
Qed.

(** C16: Any sequence of reads, writes, SETPINS, shows and stores, echoes and
    rounds of the thread leaves the device sound, with every lock free; only
    SETMODE and enabling are not among the calls.  The faults that can happen
    are a read without samples, a frequency of 0, a thread that could not be
    started and an unreadable argument. *)

Theorem attributes_keep_sensor_sound cs w :
  Forall harmless cs -> sound w ->
  match do_calls cs w with
  | Ok _ w' => sound w'
  | Crash f _ => f ∈ [OutOfBounds; DivByZero; BadUserAccess; NullDeref]
  | Blocked _ => True
  end.
Proof. intros Hc Hw. exact (do_calls_safe cs Hc w Hw). Qed.
End safe03.
