(* ===== verification/Platform.v ===== *)
(** * 03: the platform devices and the life of their sensors

    Two platform devices; the driver's probe allocates and registers a sensor
    for each, its remove gives everything back.  A class is shared by the
    devices and counted.  A sensor is an object on the heap with an address:
    after its [kfree] the pointers to it remain.
    Sources: 03_.../HCSR.c, HCSR_driver.c, HCSR_kernel_common.h, hc_sr04.h
    (hc_sr04_init, hc_sr04_exit) and hc_sr04_kernel.h (open, release). *)

From S2P Require Import Prelude Kernel UserMemory HwPins Sensor Hc03.

Inductive plat := HCSR_1_dev | HCSR_2_dev.

#[export] Instance plat_eq_dec : EqDecision plat.
Proof. solve_decision. Defined.

Definition name (p : plat) : string := match p with HCSR_1_dev => "HCSR_1" | HCSR_2_dev => "HCSR_2" end.

Definition dev_no (p : plat) : Z := match p with HCSR_1_dev => 20 | HCSR_2_dev => 55 end.

(** [plf_dev.name] *)

Definition plf_name (p : plat) : string := match p with HCSR_1_dev => "HCSRdevice1" | HCSR_2_dev => "HCSRdevice2" end.

Definition P_id_table : list string := ["HCSRdevice1"; "HCSRdevice2"]%string.

(** [hcsr_struct]: the sensor; [hcsr_cdev] and the list links, NULL until
    they are set. *)

Record hcsr_struct := { sensor : hcsr; hcsr_cdev : bool; list_links : bool }.

Record platform := {
  objects : gmap loc hcsr_struct;      (* allocated and not freed *)
  pdev : plat -> option loc;           (* HCSR_device.pdev *)
  class_cnt : Z;
  hcsr_list : list loc;
  minor : loc -> option Z;             (* the misc minor of an object *)
  private_data : gmap loc loc
}.

Definition with_objects (o : gmap loc hcsr_struct) (s : platform) : platform :=
  {| objects := o; pdev := pdev s; class_cnt := class_cnt s; hcsr_list := hcsr_list s; minor := minor s;
     private_data := private_data s |}.

Definition with_pdev (p : plat) (q : loc) (s : platform) : platform :=
  {| objects := objects s; pdev := fun p' => if decide (p' = p) then Some q else pdev s p'; class_cnt := class_cnt s;
     hcsr_list := hcsr_list s; minor := minor s; private_data := private_data s |}.

Definition with_class_cnt (n : Z) (s : platform) : platform :=
  {| objects := objects s; pdev := pdev s; class_cnt := n; hcsr_list := hcsr_list s; minor := minor s;
     private_data := private_data s |}.

Definition with_hcsr_list (l : list loc) (s : platform) : platform :=
  {| objects := objects s; pdev := pdev s; class_cnt := class_cnt s; hcsr_list := l; minor := minor s;
     private_data := private_data s |}.

Definition with_minor (q : loc) (n : Z) (s : platform) : platform :=
  {| objects := objects s; pdev := pdev s; class_cnt := class_cnt s; hcsr_list := hcsr_list s;
     minor := fun q' => if decide (q' = q) then Some n else minor s q'; private_data := private_data s |}.

Definition with_private_data (d : gmap loc loc) (s : platform) : platform :=
  {| objects := objects s; pdev := pdev s; class_cnt := class_cnt s; hcsr_list := hcsr_list s; minor := minor s;
     private_data := d |}.

(** Memory after [memset(.., 0, ..)]. *)

Definition zero_hcsr : hcsr :=
  {| hc_sr04 := ""; irq_done := 0; echo_isr_number := 0; kstart := 0; kthread := None; kthread_lock := false;
     irq_done_lock := false;
     kconfig := {| kset := {| pins := {| trigger_pin := 0; echo_pin := 0 |}; working_mode := {| mode := 0; freq := 0 |} |};
                   enable := 0; kconfig_lock := false |};
     cirb := {| newest := 0; data := replicate (Z.to_nat NUM_DATA) 0; cir_buf_lock := false |};
     ongoing := 0; ongoing_lock := false; pins_default := [] |}.

Definition zero_struct : hcsr_struct := {| sensor := zero_hcsr; hcsr_cdev := false; list_links := false |}.

Section platform.
Context {U : Type} {UM : UserMemory U} {E : Environment} {IC : IoctlCode} {KM : Kmalloc}.

(** ** Objects *)

Definition get_object (q : loc) : M (sys U platform) hcsr_struct := deref (fun w => objects (st w) !! q) UseAfterFree.

Definition set_object (q : loc) (f : hcsr_struct -> hcsr_struct) : M (sys U platform) unit :=
  o ← get_object q;
  modify_st (fun s => with_objects (<[q := f o]> (objects s)) s).

(** A call of [Hc03] on the sensor of an object. *)

Definition on_sensor {A} (q : loc) (m : M (sys U hcsr) A) : M (sys U platform) A := fun w =>
  match objects (st w) !! q with
  | None => Crash UseAfterFree w
  | Some o =>
      let back w' := with_st (with_objects (<[q := {| sensor := st w'; hcsr_cdev := hcsr_cdev o; list_links := list_links o |}]>
                                             (objects (st w))) (st w)) w' in
      match m (with_st (sensor o) w) with
      | Ok a w' => Ok a (back w')
      | Crash f w' => Crash f (back w')
      | Blocked w' => Blocked (back w')
      end
  end.

(** [kmalloc]: NULL, or a new object. *)

Definition kmalloc_struct (p : plat) : M (sys U platform) (option loc) :=
  r ← kcall (Kmalloc_of (name p +:+ " hcsr_struct"));
  if negb (r =? 0) then mret None else
  s ← get_st;
  mret (kmalloc (dom (objects s))).

(** ** [hc_sr04_init] *)

Definition init_fields (h : hcsr) : hcsr :=
  {| hc_sr04 := hc_sr04 h; irq_done := IRQ_NOT_DONE; echo_isr_number := -1; kstart := kstart h;
     kthread := None; kthread_lock := false; irq_done_lock := false;
     kconfig := {| kset := {| pins := {| trigger_pin := -1; echo_pin := -1 |};
                              working_mode := {| mode := 0; freq := freq (the_mode h) |} |};
                   enable := enable (kconfig h); kconfig_lock := false |};
     cirb := {| newest := -1; data := data (cirb h); cir_buf_lock := false |};
     ongoing := ongoing h; ongoing_lock := false; pins_default := A_pins |}.

Definition init_hcsr_struct (q : loc) : M (sys U platform) unit :=
  set_object q (fun o => {| sensor := init_fields (sensor o); hcsr_cdev := hcsr_cdev o; list_links := true |}) ;;
  modify_st (fun s => with_hcsr_list (q :: hcsr_list s) s).

(** [list_del] follows both links. *)

Definition uninit_hcsr_struct (q : loc) : M (sys U platform) unit :=
  o ← get_object q;
  if list_links o then modify_st (fun s => with_hcsr_list (filter (fun q' => q' <> q) (hcsr_list s)) s) else crash NullDeref.

Definition reg_misc (md : string) : M (sys U platform) Z :=
  error ← kcall (Misc_register md);
  mret error.

Definition dereg_misc (md : string) : M (sys U platform) unit := kcall_ (Misc_deregister md).

Definition attributes : list string := ["trigger"; "echo"; "mode"; "frequency"; "enable"; "distance"]%string.

(** [dev] is an error pointer when [device_create] failed. *)

Fixpoint create_files (plf : string) (created : bool) (attrs : list string) : M (sys U platform) unit :=
  match attrs with
  | [] => mret tt
  | a :: attrs =>
      if created then kcall_ (Device_create_file plf a) ;; create_files plf created attrs
      else crash BadUserAccess
  end.

(** The minor that [misc_register] chooses for a device. *)

Context (number : plat -> Z).

(** The end of [hc_sr04_init]: the class, the fields, the files in sysfs. *)

Definition announce (p : plat) (q : loc) : M (sys U platform) Z :=
  s ← get_st;
  when (class_cnt s =? 0) (kcall_ (Class_create "HCSR")) ;;
  modify_st (fun s => with_class_cnt (class_cnt s + 1) s) ;;
  init_hcsr_struct q ;;
  d ← kcall (Device_create (plf_name p));
  create_files (plf_name p) (d =? 0) attributes ;;
  mret 0.

Definition hc_sr04_init (p : plat) : M (sys U platform) Z :=
  q ← kmalloc_struct p;
  match q with
  | None => crash NullDeref                             (* memset *)
  | Some q =>
      modify_st (fun s => with_objects (<[q := zero_struct]> (objects s)) s) ;;
      r ← kcall (Kmalloc_of (name p +:+ " miscdevice"));
      if negb (r =? 0) then crash NullDeref else        (* memset *)
      modify_st (with_pdev p q) ;;
      set_object q (fun o => {| sensor := {| hc_sr04 := name p; irq_done := irq_done (sensor o);
        echo_isr_number := echo_isr_number (sensor o); kstart := kstart (sensor o); kthread := kthread (sensor o);
        kthread_lock := kthread_lock (sensor o); irq_done_lock := irq_done_lock (sensor o); kconfig := kconfig (sensor o);
        cirb := cirb (sensor o); ongoing := ongoing (sensor o); ongoing_lock := ongoing_lock (sensor o);
        pins_default := pins_default (sensor o) |}; hcsr_cdev := hcsr_cdev o; list_links := list_links o |}) ;;
      r ← reg_misc (name p);
      if negb (r =? 0) then mret 0 else
      modify_st (with_minor q (number p)) ;;
      rval ← kcall (Alloc_chrdev_region (plf_name p));
      if negb (rval =? 0) then mret (-1) else
      c ← kcall (Cdev_alloc (plf_name p));
      if negb (c =? 0) then mret (-1) else
      set_object q (fun o => {| sensor := sensor o; hcsr_cdev := true; list_links := list_links o |}) ;;
      rval ← kcall (Cdev_add (plf_name p));
      if rval <? 0 then mret (-1) else
      announce p q
  end.

Definition free_gpio : M (sys U hcsr) unit :=
  h ← get_st;
  freeTrig (trigger_pin (the_pins h)) ;;
  freeEcho (echo_pin (the_pins h)) ;;
  mret tt.

(** The part of [hc_sr04_exit] that is about the sensor itself. *)

Definition exit_sensor : M (sys U hcsr) unit :=
  h ← get_st;
  match kthread h with
  | Some t => kthread_stop t
  | None => mret tt
  end ;;
  lock_irq_done ;;
  h ← get_st;
  when (irq_done h =? IRQ_DONE) (kcall_ (Free_irq (echo_isr_number h))) ;;
  free_gpio ;;
  unlock_irq_done.

Definition hc_sr04_exit (p : plat) : M (sys U platform) unit :=
  s ← get_st;
  match pdev s p with
  | None => crash NullDeref
  | Some q =>
      on_sensor q exit_sensor ;;
      kcall_ (Device_destroy (plf_name p)) ;;
      modify_st (fun s => with_class_cnt (class_cnt s - 1) s) ;;
      s ← get_st;
      when (class_cnt s =? 0) (kcall_ (Class_destroy "HCSR")) ;;
      o ← get_object q;
      (if hcsr_cdev o then kcall_ (Cdev_del (plf_name p)) else crash NullDeref) ;;
      kcall_ (Unregister_chrdev_region (plf_name p)) ;;
      dereg_misc (name p) ;;
      uninit_hcsr_struct q ;;
      kcall_ (Kfree_of (name p +:+ " miscdevice")) ;;
      kcall_ (Kfree_of (name p +:+ " hcsr_struct")) ;;
      modify_st (fun s => with_objects (delete q (objects s)) s)
  end.

(** ** The driver and the module of the devices *)

Definition HCSR_driver_probe (p : plat) : M (sys U platform) Z := hc_sr04_init p ;; mret 0.

Definition HCSR_driver_remove (p : plat) : M (sys U platform) Z := hc_sr04_exit p ;; mret 0.

(** Only the last result is returned. *)

Definition HCSR_device_init : M (sys U platform) Z :=
  kcall_ (Platform_device_register (plf_name HCSR_1_dev)) ;;
  ret ← kcall (Platform_device_register (plf_name HCSR_2_dev));
  mret ret.

Definition HCSR_device_exit : M (sys U platform) unit :=
  kcall_ (Platform_device_unregister (plf_name HCSR_2_dev)) ;;
  kcall_ (Platform_device_unregister (plf_name HCSR_1_dev)).

(** ** Files *)

Definition get_curr_hcsr (node : Z) : M (sys U platform) (option loc) :=
  s ← get_st;
  mret (List.find (fun c => bool_decide (minor s c = Some node)) (hcsr_list s)).

Definition hc_sr04_open (node : Z) (file : loc) : M (sys U platform) Z :=
  curr_hcsr ← get_curr_hcsr node;
  match curr_hcsr with
  | None => crash NullDeref                     (* the name of the device is printed *)
  | Some q =>
      modify_st (fun s => with_private_data (<[file := q]> (private_data s)) s) ;;
      mret 0
  end.

(** [private_data] stays as it is; the file is closed. *)

Definition hc_sr04_release (file : loc) : M (sys U platform) Z :=
  modify_st (fun s => with_private_data (delete file (private_data s)) s) ;;
  mret 0.

Definition EBADF : Z := 9.

Definition on_file (file : loc) (m : M (sys U hcsr) Z) : M (sys U platform) Z :=
  s ← get_st;
  match private_data s !! file with
  | None => mret (- EBADF)
  | Some q => on_sensor q m
  end.
End platform.
