(* ===== verification/PlatformSpec.v ===== *)
(** * 03: probing and removing a platform device *)

From S2P Require Import Prelude Ring Kernel UserMemory HwPins HwPinsSpec Sensor SensorProofs SensorSpec.
From S2P Require Import SensorCalls SensorPins Release Hc03 Hc03Spec Platform.

Section platform.
Context {U : Type} {UM : UserMemory U} {E : Environment} {IC : IoctlCode} {KM : Kmalloc}.
Context (number : plat -> Z).
Implicit Types (w : sys U platform) (p : plat) (q : loc).

(** What a registered device holds, newest first; the class is counted. *)

Definition plat_holds p : list request :=
  [Device_create (plf_name p); Cdev_add (plf_name p); Alloc_chrdev_region (plf_name p); Misc_register (name p);
   Kmalloc_of (name p +:+ " miscdevice"); Kmalloc_of (name p +:+ " hcsr_struct")].

Definition class_holds (n : Z) : list request := if n =? 0 then [] else [Class_create "HCSR"].

(** What a sensor holds besides: its interrupt and its GPIOs. *)

Definition sensor_holds (h : hcsr) : list request :=
  (if irq_done h =? IRQ_DONE then [Request_irq (echo_isr_number h)] else []) ++
  requests_of (trig_pins (trigger_pin (the_pins h))) ++ requests_of (echo_pins (echo_pin (the_pins h))).

Definition registered p : hcsr_struct :=
  {| sensor := with_pins {| trigger_pin := -1; echo_pin := -1 |}
       {| hc_sr04 := name p; irq_done := IRQ_NOT_DONE; echo_isr_number := -1; kstart := 0; kthread := None; kthread_lock := false;
          irq_done_lock := false; kconfig := kconfig zero_hcsr;
          cirb := {| newest := -1; data := data (cirb zero_hcsr); cir_buf_lock := false |};
          ongoing := STOPPING; ongoing_lock := false; pins_default := A_pins |};
     hcsr_cdev := true; list_links := true |}.

(** An environment in which the registrations succeed. *)

Definition registrations_work : Prop := forall t c,
  (acquires c = true -> reply t c = 0) /\ (forall n, c = Cdev_alloc n -> reply t c = 0).

Lemma with_objects_insert q o o' (m : gmap loc hcsr_struct) : <[q := o]> (<[q := o']> m) = <[q := o]> m.
Proof. apply insert_insert_eq. Qed.

Lemma get_object_ok q o w : objects (st w) !! q = Some o -> get_object q w = Ok o w.
Proof. intros Ho. by apply (deref_ok (fun w => objects (st w) !! q)). Qed.

Lemma set_object_ok q o f w :
  objects (st w) !! q = Some o ->
  set_object q f w = Ok tt (with_st (with_objects (<[q := f o]> (objects (st w))) (st w)) w).
Proof. intros Ho. unfold set_object. rewrite (bind_ok _ _ _ _ _ (get_object_ok _ _ _ Ho)). done. Qed.

(** A request that is granted, and the answer 0. *)

Lemma granted c w : registrations_work -> acquires c = true -> kcall c w = Ok 0 (log_request c 0 w).
Proof. intros Hr Hc. rewrite kcall_ok. by rewrite (proj1 (Hr _ _) Hc). Qed.

Lemma create_files_run plf attrs w :
  exists w', create_files plf true attrs w = Ok tt w' /\ same_world w w' /\ held (requests w') = held (requests w) /\
    clean (requests w') = clean (requests w).
Proof.
  revert w. induction attrs as [|a attrs IH]; intros w; cbn [create_files]; [by exists w|].
  erewrite bind_ok by apply kcall__ok. destruct (IH (log_request (Device_create_file plf a) (reply (requests w) (Device_create_file plf a)) w))
    as (w' & H & [S1 U1] & Hh & Hc). exists w'. split; [done|]. split; [done|]. split; [by rewrite Hh|].
  rewrite Hc. cbn. by rewrite andb_true_r.
Qed.

Definition new_class (n : Z) : list request := if n =? 0 then [Class_create "HCSR"] else [].

Lemma announce_run p q o w :
  registrations_work -> objects (st w) !! q = Some o ->
  exists w', announce p q w = Ok 0 w' /\
    st w' = with_hcsr_list (q :: hcsr_list (st w)) (with_objects
      (<[q := {| sensor := init_fields (sensor o); hcsr_cdev := hcsr_cdev o; list_links := true |}]> (objects (st w)))
      (with_class_cnt (class_cnt (st w) + 1) (st w))) /\
    held (requests w') = Device_create (plf_name p) :: new_class (class_cnt (st w)) ++ held (requests w) /\
    clean (requests w') = clean (requests w).
Proof.
  intros Hr Ho. unfold announce. step. set (n := class_cnt (st w)).
  assert (exists w1, when (n =? 0) (kcall_ (Class_create "HCSR")) w = Ok tt w1 /\ st w1 = st w /\
    held (requests w1) = new_class n ++ held (requests w) /\ clean (requests w1) = clean (requests w)) as (w1 & H1 & S1 & Hh1 & C1).
  { unfold new_class. destruct (n =? 0); cbn [when]; [|by exists w]. eexists. split; [apply kcall__ok|]. split; [done|].
    cbn [log_request requests held clean track acquires acquired_by]. rewrite (proj1 (Hr _ (Class_create "HCSR")) eq_refl).
    by rewrite andb_true_r. }
  rewrite (bind_ok _ _ _ _ _ H1). step. unfold init_hcsr_struct. erewrite bind_ok; last first.
  { erewrite bind_ok by (apply set_object_ok; cbn; by rewrite S1). reflexivity. }
  erewrite bind_ok by (by apply granted). rewrite Z.eqb_refl.
  match goal with |- context [log_request ?c 0 ?x] => destruct (create_files_run (plf_name p) attributes (log_request c 0 x)) as (w2 & H2 & [S2 _] & Hh2 & C2) end.
  rewrite (bind_ok _ _ _ _ _ H2). exists w2. split; [done|]. rewrite S2, Hh2, C2. cbn. rewrite S1, Hh1, C1. split_and!; [done..|].
  by rewrite andb_true_r.
Qed.

(** The part before: memory, the misc device and the character device. *)

Definition unannounced p : hcsr_struct :=
  {| sensor := {| hc_sr04 := name p; irq_done := 0; echo_isr_number := 0; kstart := 0; kthread := None; kthread_lock := false;
       irq_done_lock := false; kconfig := kconfig zero_hcsr; cirb := cirb zero_hcsr; ongoing := 0; ongoing_lock := false;
       pins_default := [] |};
     hcsr_cdev := true; list_links := false |}.

Lemma init_before_announce p w q :
  registrations_work -> kmalloc (dom (objects (st w))) = Some q ->
  exists w1, hc_sr04_init number p w = announce p q w1 /\
    st w1 = {| objects := <[q := unannounced p]> (objects (st w)); pdev := pdev (with_pdev p q (st w));
               class_cnt := class_cnt (st w); hcsr_list := hcsr_list (st w); minor := minor (with_minor q (number p) (st w));
               private_data := private_data (st w) |} /\
    held (requests w1) = [Cdev_add (plf_name p); Alloc_chrdev_region (plf_name p); Misc_register (name p);
      Kmalloc_of (name p +:+ " miscdevice"); Kmalloc_of (name p +:+ " hcsr_struct")] ++ held (requests w) /\
    clean (requests w1) = clean (requests w).
Proof.
  intros Hr Hq. eexists. split; [|split].
  - unfold hc_sr04_init, kmalloc_struct, reg_misc. erewrite bind_ok; last first.
    { erewrite bind_ok by (by apply granted). cbn [Z.eqb negb]. step. cbn [st log_request]. rewrite Hq. reflexivity. }
    cbn iota beta. step. erewrite bind_ok by (by apply granted). cbn [Z.eqb negb].
    step. erewrite bind_ok by (apply set_object_ok, lookup_insert_eq).
    erewrite bind_ok by (erewrite bind_ok by (by apply granted); reflexivity). cbn [Z.eqb negb].
    step. erewrite bind_ok by (by apply granted). cbn [Z.eqb negb].
    erewrite bind_ok by apply kcall_ok. rewrite (proj2 (Hr _ _) _ eq_refl). cbn [Z.eqb negb].
    erewrite bind_ok by (apply set_object_ok, lookup_insert_eq).
    erewrite bind_ok by (by apply granted). cbn [Z.ltb Z.compare]. reflexivity.
  - cbn. by rewrite !insert_insert_eq.
  - cbn [log_request with_st requests held clean acquired_by]. unfold track. cbn [acquires acquired_by Z.eqb].
    by rewrite !andb_true_r.
Qed.

(** C24: Probing a device, when kmalloc has memory and the kernel grants every
    registration, registers a new sensor: idle, in ONE_SHOT mode, on no pins,
    listed first and found by its misc minor; the first device creates the
    class, and every one is counted.  It acquires exactly [plat_holds].  (When
    a registration is refused the probe returns 0 all the same:
    failed_probe_crashes_remove.) *)

Theorem probe_registers_sensor p w q :
  registrations_work -> kmalloc (dom (objects (st w))) = Some q ->
  exists w', HCSR_driver_probe number p w = Ok 0 w' /\
    objects (st w') = <[q := registered p]> (objects (st w)) /\ objects (st w) !! q = None /\ pdev (st w') p = Some q /\
    class_cnt (st w') = class_cnt (st w) + 1 /\ hcsr_list (st w') = q :: hcsr_list (st w) /\
    get_curr_hcsr (number p) w' = Ok (Some q) w' /\
    held (requests w') ≡ₚ plat_holds p ++ new_class (class_cnt (st w)) ++ held (requests w) /\
    clean (requests w') = clean (requests w).
Proof.
  intros Hr Hq. unfold HCSR_driver_probe.
  destruct (init_before_announce p w q Hr Hq) as (w1 & H1 & S1 & Hh1 & C1).
  destruct (announce_run p q (unannounced p) w1 Hr) as (w2 & H2 & S2 & Hh2 & C2).
  { rewrite S1. apply lookup_insert_eq. }
  rewrite H2 in H1. rewrite (bind_ok _ _ _ _ _ H1). exists w2. split; [done|]. unfold get_curr_hcsr.
  assert (objects (st w) !! q = None) as Hn by (apply not_elem_of_dom, kmalloc_fresh; exact Hq).
  rewrite S2, S1. cbn. rewrite insert_insert_eq. split; [done|]. split; [done|]. split; [by rewrite decide_True|].
  split; [done|]. split; [done|]. split.
  - step. rewrite S2, S1. cbn. rewrite decide_True by done. by rewrite bool_decide_eq_true_2.
  - split; [|by rewrite C2]. rewrite Hh2, Hh1, S1. cbn [class_cnt]. unfold plat_holds. cbn [app]. constructor.
    apply (Permutation_app_swap_app (new_class _) [_; _; _; _; _] _).
Qed.

(** ** Removing *)

Lemma exit_sensor_run (w : sys U hcsr) rest :
  sound w -> kthread (st w) <> Some Error_pointer ->
  held (requests w) ≡ₚ sensor_holds (st w) ++ rest -> NoDup (held (requests w)) -> clean (requests w) = true ->
  exists (w' : sys U hcsr), exit_sensor w = Ok tt w' /\ held (requests w') ≡ₚ rest /\ clean (requests w') = true /\
    NoDup (held (requests w')) /\ told_to_stop (kthread (st w)) (requests w) (requests w').
Proof.
  intros Hi Ht Hp Hd Hc. pose proof Hi as (kc & kt & Hs & _). unfold exit_sensor. step.
  destruct (stop_thread_run w Hi Ht) as (w1 & log & new & H1 & M & T1). rewrite (bind_ok _ _ _ _ _ H1).
  destruct (measured_fields _ _ _ _ M) as (_ & Ek & _ & _ & Ei & El & _). destruct M as [(o & ks & c & Es & _) _ Hh Hcl _].
  assert (irq_done_lock (st w1) = false) as Hl by (rewrite El; apply Hs).
  erewrite bind_ok by (by apply spin_lock_ok). step. set (w2 := with_st _ w1).
  assert (exists (w3 : sys U hcsr), when (irq_done (st w2) =? IRQ_DONE) (kcall_ (Free_irq (echo_isr_number (st w2)))) w2 = Ok tt w3 /\
    same_world w2 w3 /\ extends (requests w2) (requests w3) /\ held (requests w3) ≡ₚ requests_of (trig_pins (trigger_pin (the_pins (st w)))) ++
      requests_of (echo_pins (echo_pin (the_pins (st w)))) ++ rest /\ clean (requests w3) = true /\ NoDup (held (requests w3)))
    as (w3 & H3 & [S3 _] & X3 & P3 & C3 & D3).
  { cbn [w2 st with_st with_irq_done_lock irq_done echo_isr_number]. rewrite Ei. unfold sensor_holds in Hp.
    rewrite <- Hh in Hp, Hd. rewrite <- Hcl in Hc. rewrite <- !app_assoc in Hp.
    revert Hp. destruct (irq_done (st w) =? IRQ_DONE); cbn [when app]; intros Hp; [|exists w2; by (split_and!; try done; apply extends_refl)].
    assert (echo_isr_number (st w1) = echo_isr_number (st w)) as -> by (by rewrite Es).
    destruct (release_one (Free_irq (echo_isr_number (st w))) _ w2 _ eq_refl eq_refl Hp Hd Hc) as (w3 & H3 & ?).
    exists w3. split; [done|]. split; [tauto|]. split; [by eapply kcall__extends|tauto]. }
  rewrite (bind_ok _ _ _ _ _ H3).
  assert (the_pins (st w3) = the_pins (st w)) as Ep by (rewrite S3; unfold the_pins; cbn; by rewrite Ek).
  destruct (freeTrig_ok (trigger_pin (the_pins (st w))) w3) as (w4 & H4 & R4). destruct (released_perm _ _ _ _ R4 P3 D3 C3) as (P4 & C4 & D4).
  destruct (freeEcho_ok (echo_pin (the_pins (st w))) w4) as (w5 & H5 & R5). destruct (released_perm _ _ _ _ R5 P4 D4 C4) as (P5 & C5 & D5).
  erewrite bind_ok; last first.
  { unfold free_gpio, freeTrig, freeEcho. step. rewrite Ep. by rewrite (bind_ok _ _ _ _ _ H4), (bind_ok _ _ _ _ _ H5). }
  eexists. split; [apply spin_unlock_ok|split_and!; try done].
  2: { destruct (silent_freeTrig (trigger_pin (the_pins (st w))) w3) as (? & ? & E4 & _ & X4). rewrite H4 in E4. injection E4 as <- <-.
       destruct (silent_freeEcho (echo_pin (the_pins (st w))) w4) as (? & ? & E5 & _ & X5). rewrite H5 in E5. injection E5 as <- <-.
       eapply told_extends; [exact T1|]. eapply extends_trans; [exact X3|]. eapply extends_trans; [exact X4|exact X5]. }
  destruct R5 as [[S5 _] _], R4 as [[S4 _] _]. by rewrite S5, S4, S3.
Qed.

Lemma on_sensor_ok {A} q o (m : M (sys U hcsr) A) w a (w' : sys U hcsr) :
  objects (st w) !! q = Some o -> m (with_st (sensor o) w) = Ok a w' ->
  on_sensor q m w = Ok a (with_st (with_objects (<[q := {| sensor := st w'; hcsr_cdev := hcsr_cdev o; list_links := list_links o |}]>
    (objects (st w))) (st w)) w').
Proof. intros Ho H. unfold on_sensor. by rewrite Ho, H. Qed.

Lemma remove_run p w q o rest :
  pdev (st w) p = Some q -> objects (st w) !! q = Some o -> hcsr_cdev o = true -> list_links o = true ->
  sound (with_st (sensor o) w) -> kthread (sensor o) <> Some Error_pointer ->
  held (requests w) ≡ₚ sensor_holds (sensor o) ++ plat_holds p ++ (if class_cnt (st w) =? 1 then [Class_create "HCSR"] else []) ++ rest ->
  NoDup (held (requests w)) -> clean (requests w) = true ->
  exists w', HCSR_driver_remove p w = Ok 0 w' /\ held (requests w') ≡ₚ rest /\ clean (requests w') = true /\
    objects (st w') = delete q (objects (st w)) /\ hcsr_list (st w') = filter (fun q' => q' <> q) (hcsr_list (st w)) /\
    class_cnt (st w') = class_cnt (st w) - 1 /\ private_data (st w') = private_data (st w) /\
    told_to_stop (kthread (sensor o)) (requests w) (requests w').
Proof.
  intros Hq Ho Hcd Hli Hso Ht Hp Hd Hc. unfold HCSR_driver_remove, hc_sr04_exit.
  destruct (exit_sensor_run (with_st (sensor o) w) _ Hso Ht Hp Hd Hc) as (w1 & H1 & P1 & C1 & D1 & T1).
  set (w2 := with_st (with_objects (<[q := {| sensor := st w1; hcsr_cdev := hcsr_cdev o; list_links := list_links o |}]>
    (objects (st w))) (st w)) w1).
  unfold plat_holds in P1. cbn [app] in P1.
  destruct (release_one (Device_destroy (plf_name p)) _ w2 _ eq_refl eq_refl P1 D1 C1) as (w3 & H3 & [S3 _] & P3 & C3 & D3).
  set (w4 := with_st (with_class_cnt (class_cnt (st w3) - 1) (st w3)) w3).
  assert (exists w5, when (class_cnt (st w4) =? 0) (kcall_ (Class_destroy "HCSR")) w4 = Ok tt w5 /\ st w5 = st w4 /\
    held (requests w5) ≡ₚ Cdev_add (plf_name p) :: Alloc_chrdev_region (plf_name p) :: Misc_register (name p) ::
      Kmalloc_of (name p +:+ " miscdevice") :: Kmalloc_of (name p +:+ " hcsr_struct") :: rest /\
    clean (requests w5) = true /\ NoDup (held (requests w5)) /\ extends (requests w4) (requests w5)) as (w5 & H5 & S5 & P5 & C5 & D5 & X5).
  { assert (class_cnt (st w4) = class_cnt (st w) - 1) as -> by (cbn; by rewrite S3).
    replace (class_cnt (st w) - 1 =? 0) with (class_cnt (st w) =? 1)
      by (destruct (Z.eqb_spec (class_cnt (st w)) 1), (Z.eqb_spec (class_cnt (st w) - 1) 0); lia).
    revert P3. destruct (class_cnt (st w) =? 1); cbn [when app]; intros P3; [|exists w4; by (split_and!; try done; apply extends_refl)].
    pose proof (Permutation_middle [Cdev_add (plf_name p); Alloc_chrdev_region (plf_name p); Misc_register (name p);
      Kmalloc_of (name p +:+ " miscdevice"); Kmalloc_of (name p +:+ " hcsr_struct")] rest (Class_create "HCSR")) as Hm.
    assert (held (requests w4) ≡ₚ Class_create "HCSR" :: _) as P4 by (etrans; [exact P3|symmetry; exact Hm]).
    destruct (release_one (Class_destroy "HCSR") _ w4 _ eq_refl eq_refl P4 D3 C3) as (w5 & H5 & [S5 _] & R5 & ? & ?).
    exists w5. split_and!; try done. by eapply kcall__extends. }
  destruct (release_one (Cdev_del (plf_name p)) _ w5 _ eq_refl eq_refl P5 D5 C5) as (w6 & H6 & [S6 _] & P6 & C6 & D6).
  destruct (release_one (Unregister_chrdev_region (plf_name p)) _ w6 _ eq_refl eq_refl P6 D6 C6) as (w7 & H7 & [S7 _] & P7 & C7 & D7).
  destruct (release_one (Misc_deregister (name p)) _ w7 _ eq_refl eq_refl P7 D7 C7) as (w8 & H8 & [S8 _] & P8 & C8 & D8).
  set (w9 := with_st (with_hcsr_list (filter (fun q' => q' <> q) (hcsr_list (st w8))) (st w8)) w8).
  destruct (release_one (Kfree_of (name p +:+ " miscdevice")) _ w9 _ eq_refl eq_refl P8 D8 C8) as (wa & Ha & [Sa _] & Pa & Ca & Da).
  destruct (release_one (Kfree_of (name p +:+ " hcsr_struct")) _ wa _ eq_refl eq_refl Pa Da Ca) as (wb & Hb & [Sb _] & Pb & Cb & Db).
  assert (st w5 = with_class_cnt (class_cnt (st w) - 1) (st w2)) as E5 by (rewrite S5; cbn; by rewrite S3).
  assert (st w8 = st w5) as E8 by congruence.
  assert (objects (st w5) !! q = Some {| sensor := st w1; hcsr_cdev := hcsr_cdev o; list_links := list_links o |}) as O5.
  { rewrite E5. apply lookup_insert_eq. }
  erewrite bind_ok; last first.
  { step. rewrite Hq. erewrite bind_ok by (by apply on_sensor_ok). rewrite (bind_ok _ _ _ _ _ H3). step. step.
    rewrite (bind_ok _ _ _ _ _ H5), (bind_ok _ _ _ _ _ (get_object_ok _ _ _ O5)). cbn [hcsr_cdev]. rewrite Hcd.
    rewrite (bind_ok _ _ _ _ _ H6), (bind_ok _ _ _ _ _ H7). unfold dereg_misc. rewrite (bind_ok _ _ _ _ _ H8).
    erewrite bind_ok; last first.
    { unfold uninit_hcsr_struct. rewrite <- E8 in O5. rewrite (bind_ok _ _ _ _ _ (get_object_ok _ _ _ O5)). cbn [list_links]. rewrite Hli. reflexivity. }
    rewrite (bind_ok _ _ _ _ _ Ha), (bind_ok _ _ _ _ _ Hb). reflexivity. }
  eexists. split; [reflexivity|]. split; [done|]. split; [done|]. cbn [st with_st with_objects objects hcsr_list class_cnt].
  rewrite Sb, Sa. cbn [w9 st with_st with_hcsr_list objects hcsr_list class_cnt]. rewrite E8, E5. cbn.
  split; [by rewrite delete_insert_eq|]. do 3 (split; [done|]). eapply told_extends; [exact T1|].
  apply kcall__extends in H3, H6, H7, H8, Ha, Hb. eapply extends_trans; [exact H3|]. eapply extends_trans; [exact X5|].
  eapply extends_trans; [exact H6|]. eapply extends_trans; [exact H7|]. eapply extends_trans; [exact H8|].
  eapply extends_trans; [exact Ha|exact Hb].
Qed.

(** C23: Removing a registered device whose sensor is sound, whose thread, if
    it has one, was started (kthread is no error pointer) and that holds what
    its probe and its SETPINS acquired: the first thing remove asks of the
    kernel is to stop the thread, if there is one; then it gives back the
    interrupt, the GPIOs, the files, devices, regions and memory, and the
    class with the last device; nothing is freed that was not held, the object
    is gone and the other devices are untouched. *)

Theorem remove_gives_all_back p w q o rest :
  pdev (st w) p = Some q -> objects (st w) !! q = Some o -> hcsr_cdev o = true -> list_links o = true ->
  sound (with_st (sensor o) w) -> kthread (sensor o) <> Some Error_pointer ->
  held (requests w) ≡ₚ sensor_holds (sensor o) ++ plat_holds p ++ (if class_cnt (st w) =? 1 then [Class_create "HCSR"] else []) ++ rest ->
  NoDup (held (requests w)) -> clean (requests w) = true ->
  exists w', HCSR_driver_remove p w = Ok 0 w' /\ held (requests w') ≡ₚ rest /\ clean (requests w') = true /\
    objects (st w') = delete q (objects (st w)) /\ hcsr_list (st w') = filter (fun q' => q' <> q) (hcsr_list (st w)) /\
    class_cnt (st w') = class_cnt (st w) - 1 /\
    (kthread (sensor o) <> None -> exists l r, requests w' = l ++ (Kthread_stop, r) :: requests w).
Proof.
  intros. destruct (remove_run p w q o rest) as (w' & H' & P & C & O & L & N & _ & T); try done. by exists w'.
Qed.

(** Nothing stops a device from being removed while a process has it open:
    the file keeps the address of the freed sensor, and the next call on it is a
    use after free. *)

Theorem open_file_outlives_device p w q o rest file (m : M (sys U hcsr) Z) :
  pdev (st w) p = Some q -> objects (st w) !! q = Some o -> hcsr_cdev o = true -> list_links o = true ->
  sound (with_st (sensor o) w) -> kthread (sensor o) <> Some Error_pointer ->
  held (requests w) ≡ₚ sensor_holds (sensor o) ++ plat_holds p ++ (if class_cnt (st w) =? 1 then [Class_create "HCSR"] else []) ++ rest ->
  NoDup (held (requests w)) -> clean (requests w) = true -> private_data (st w) !! file = Some q ->
  exists w', HCSR_driver_remove p w = Ok 0 w' /\ on_file file m w' = Crash UseAfterFree w'.
Proof.
  intros Hq Ho Hcd Hli Hso Ht Hp Hd Hc Hf.
  destruct (remove_run p w q o rest Hq Ho Hcd Hli Hso Ht Hp Hd Hc) as (w' & H' & _ & _ & O & _ & _ & F & _).
  exists w'. split; [done|]. unfold on_file. step. rewrite F, Hf. unfold on_sensor. by rewrite O, lookup_delete_eq.
Qed.

(** Removing a sensor whose probe stopped early. *)

Lemma exit_sensor_idle (w : sys U hcsr) :
  kthread (st w) = None -> irq_done_lock (st w) = false -> irq_done (st w) = IRQ_NOT_DONE ->
  exists (w' : sys U hcsr), exit_sensor w = Ok tt w'.
Proof.
  intros T1 I1 D1. unfold exit_sensor. step. rewrite T1. step. erewrite bind_ok by (by apply spin_lock_ok). step.
  cbn [st with_st with_irq_done_lock irq_done]. rewrite D1. cbn [Z.eqb IRQ_NOT_DONE IRQ_DONE when]. step.
  match goal with |- context [(free_gpio ≫= _) ?x] => set (w2 := x) end.
  destruct (freeTrig_ok (trigger_pin (the_pins (st w2))) w2) as (w3 & H3 & [S3 _] & _).
  destruct (freeEcho_ok (echo_pin (the_pins (st w2))) w3) as (w4 & H4 & [S4 _] & _).
  erewrite bind_ok; last first.
  { unfold free_gpio, freeTrig, freeEcho. step. by rewrite (bind_ok _ _ _ _ _ H3), (bind_ok _ _ _ _ _ H4). }
  eexists. apply spin_unlock_ok. by rewrite S4, S3.
Qed.

Lemma unfinished_exit_crashes p q o w :
  pdev (st w) p = Some q -> objects (st w) !! q = Some o -> hcsr_cdev o = false -> kthread (sensor o) = None ->
  irq_done_lock (sensor o) = false -> irq_done (sensor o) = IRQ_NOT_DONE ->
  exists w', hc_sr04_exit p w = Crash NullDeref w' /\ class_cnt (st w') = class_cnt (st w) - 1.
Proof.
  intros Hq Ho Hc Ht Hl Hd. destruct (exit_sensor_idle (with_st (sensor o) w) Ht Hl Hd) as [ws Hs].
  unfold hc_sr04_exit. erewrite bind_ok by reflexivity. rewrite Hq.
  rewrite (bind_ok _ _ _ _ _ (on_sensor_ok q o _ _ _ _ Ho Hs)). do 3 step.
  match goal with |- exists _, ((when ?b _) ≫= _) ?x = _ /\ _ =>
    assert (exists w2, when b (kcall_ (Class_destroy "HCSR")) x = Ok tt w2 /\ st w2 = st x) as (w2 & H2 & S2) end.
  { destruct (_ =? 0); cbn [when]; [|by eexists]. eexists. split; [apply kcall__ok|done]. }
  rewrite (bind_ok _ _ _ _ _ H2). erewrite bind_ok; last first.
  { apply get_object_ok. rewrite S2. cbn. apply lookup_insert_eq. }
  cbn [hcsr_cdev]. rewrite Hc. exists w2. split; [by apply bind_crash|]. by rewrite S2.
Qed.

(** When the misc device cannot be registered the probe still reports
    success; removing the device then lowers a class count that it never raised
    and follows the NULL pointer of the character device. *)
Theorem failed_probe_crashes_remove p w q :
  (forall t c, acquires c = true -> c <> Misc_register (name p) -> reply t c = 0) ->
  (forall t, reply t (Misc_register (name p)) <> 0) -> kmalloc (dom (objects (st w))) = Some q ->
  exists w1 w2, HCSR_driver_probe number p w = Ok 0 w1 /\ hcsr_list (st w1) = hcsr_list (st w) /\
    HCSR_driver_remove p w1 = Crash NullDeref w2 /\ class_cnt (st w2) = class_cnt (st w) - 1.
Proof.
  intros Hr Hm Hq.
  assert (forall c w, acquires c = true -> c <> Misc_register (name p) -> kcall (U := U) c w = Ok 0 (log_request c 0 w)) as Hg.
  { intros c w' Hc Hne. rewrite kcall_ok. by rewrite (Hr _ _ Hc Hne). }
  assert (exists w1, hc_sr04_init number p w = Ok 0 w1 /\ pdev (st w1) p = Some q /\ class_cnt (st w1) = class_cnt (st w) /\
    hcsr_list (st w1) = hcsr_list (st w) /\ exists o, objects (st w1) !! q = Some o /\ hcsr_cdev o = false /\
    kthread (sensor o) = None /\ irq_done_lock (sensor o) = false /\ irq_done (sensor o) = IRQ_NOT_DONE)
    as (w1 & H1 & Q1 & N1 & L1 & o & O1 & C1 & T1 & I1 & D1).
  { eexists. split.
    - unfold hc_sr04_init, kmalloc_struct, reg_misc. erewrite bind_ok; last first.
      { erewrite bind_ok by (by apply Hg). cbn [Z.eqb negb]. step. cbn [st log_request]. rewrite Hq. reflexivity. }
      cbn iota beta. step. erewrite bind_ok by (by apply Hg). cbn [Z.eqb negb].
      step. erewrite bind_ok by (apply set_object_ok, lookup_insert_eq).
      erewrite bind_ok by (erewrite bind_ok by apply kcall_ok; reflexivity). rewrite (proj2 (Z.eqb_neq _ _)) by apply Hm. reflexivity.
    - cbn. rewrite decide_True by done. split_and!; [done..|]. eexists. split; [apply lookup_insert_eq|]. done. }
  destruct (unfinished_exit_crashes p q o w1 Q1 O1 C1 T1 I1 D1) as (w2 & H2 & N2).
  exists w1, w2. unfold HCSR_driver_probe, HCSR_driver_remove. rewrite (bind_ok _ _ _ _ _ H1).
  split; [done|]. split; [done|]. split; [by apply bind_crash|]. by rewrite N2, N1.
Qed.

(** Loading the module of the devices reports the registration of the second
    device only; when the first one failed, unloading unregisters a device that
    is not registered. *)
Theorem first_registration_is_not_reported w :
  (forall t, reply t (Platform_device_register (plf_name HCSR_1_dev)) <> 0) ->
  (forall t, reply t (Platform_device_register (plf_name HCSR_2_dev)) = 0) -> 
  ~ (Platform_device_register (plf_name HCSR_1_dev) ∈ held (requests w)) ->
  exists w1 w2, HCSR_device_init w = Ok 0 w1 /\ HCSR_device_exit w1 = Ok tt w2 /\ clean (requests w2) = false.
Proof.
  intros H1 H2 Hn. unfold HCSR_device_init, HCSR_device_exit. eexists _, _. split.
  { step. erewrite bind_ok by apply kcall_ok. rewrite H2. reflexivity. }
  split; [step; apply kcall__ok|]. cbn [log_request requests clean acquired_by held]. unfold track. cbn [acquires acquired_by].
  rewrite (proj2 (Z.eqb_neq _ _) (H1 _)). apply andb_false_iff. right. apply bool_decide_eq_false.
  rewrite list_elem_of_filter. cbn [Z.eqb]. rewrite elem_of_cons. intros [_ [?|?]]; done.
Qed.
End platform.
