(* ===== verification/Variants.v ===== *)
(** * 02 and 03 read and write alike

    03 reads the trigger pin under [kconfig_lock] where 02 reads it without.
    While no other call holds that lock the two drivers do the same, request
    by request. *)

From S2P Require Import Prelude Ring Kernel UserMemory HwPins HwPinsSpec Sensor SensorProofs SensorSpec.
From S2P Require Import SensorCalls SensorRead SensorPins Release Hc02 Hc02Spec Hc03 Hc03Spec.

Section variants.
Context {U : Type} {UM : UserMemory U} {E : Environment}.
Implicit Types (w : sys U hcsr).

(** Two programs that do the same from every state in [P]. *)

Definition agree {A} (P : sys U hcsr -> Prop) (m1 m2 : M (sys U hcsr) A) : Prop := forall w, P w -> m1 w = m2 w.

Lemma agree_refl {A} P (m : M (sys U hcsr) A) : agree P m m.
Proof. done. Qed.

Lemma agree_bind {A B} allowed P (Q : A -> sys U hcsr -> Prop) (m1 m2 : M (sys U hcsr) A) (k1 k2 : A -> M (sys U hcsr) B) :
  safe allowed P m1 Q -> agree P m1 m2 -> (forall a, agree (Q a) (k1 a) (k2 a)) -> agree P (m1 ≫= k1) (m2 ≫= k2).
Proof.
  intros Hs Hm Hk w Hw. specialize (Hs w Hw). unfold mbind, M_bind. rewrite <- (Hm w Hw).
  destruct (m1 w); [by apply Hk|done..].
Qed.

Lemma agree_get {A} kc kt tl il (k1 k2 : hcsr -> M (sys U hcsr) A) :
  (forall h, kconfig h = kc -> kthread h = kt -> agree (sensor_state kc kt tl il) (k1 h) (k2 h)) ->
  agree (sensor_state kc kt tl il) (h ← get_st; k1 h) (h ← get_st; k2 h).
Proof. intros Hk w Hw. step. etrans; [|symmetry; by step]. apply Hk; [apply Hw..|done]. Qed.

#[local] Abbreviation v2 := (variant_02 (U := U)).
#[local] Abbreviation v3 := (variant_03 (U := U)).
#[local] Abbreviation sensor_safe := (safe sensor_faults).

Section unlocked.
Context (kc : hcsr_kconfig) (kt : option thread_ptr) (tl il : bool) (Hk : unlocked_config kc).

#[local] Abbreviation P := (sensor_state (U := U) kc kt tl il).

Lemma do_send_agree : agree P (do_send (SensorVariant := v2)) (do_send (SensorVariant := v3)).
Proof.
  intros w Hw. cbn [do_send variant_02 variant_03]. unfold do_send_02, do_send_03.
  rewrite relock_kconfig by (rewrite (ss_kconfig _ _ _ _ _ Hw); exact Hk). by step.
Qed.

Lemma do_send_safe : sensor_safe P (do_send (SensorVariant := v2)) (fun _ => P).
Proof.
  apply safe_ok. intros w Hs. pose proof (sensor_isr_ready _ _ _ _ _ Hs) as Hr.
  destruct (ss_samples _ _ _ _ _ Hs) as [log Hlog].
  destruct (do_send_ok (SensorLaws := laws_02) w log Hr) as (r & w' & new & H & O & M & _); [done|done|apply Hs|].
  exists r, w'. split; [done|]. eapply sensor_measured; [done..|]. by right.
Qed.

Lemma resend_agree n : agree P (resend (V := v2) n) (resend (V := v3) n).
Proof.
  induction n as [|n IH]; cbn [resend]; (eapply agree_bind; [apply do_send_safe|apply do_send_agree|]); intros r;
    destruct (r =? 0); try apply agree_refl. done.
Qed.

Lemma send_agree n : agree P (Sensor.send (V := v2) n) (Sensor.send (V := v3) n).
Proof.
  intros w Hw. unfold Sensor.send. pose proof (ss_ongoing_lock _ _ _ _ _ Hw) as Hl.
  rewrite !(bind_ok _ _ _ _ _ (lock_ongoing_ok _ Hl)). step. etrans; [|symmetry; by step].
  cbn [st with_st with_ongoing_lock ongoing]. destruct (ongoing (st w) =? ONGOING); [done|].
  step. erewrite bind_ok by (by apply unlock_ongoing_ok). etrans; [|symmetry; step; by erewrite bind_ok by (by apply unlock_ongoing_ok)].
  apply resend_agree. destruct Hw. constructor; try done. by left.
Qed.

Lemma thread_round_agree : agree P (thread_round (V := v2)) (thread_round (V := v3)).
Proof. eapply agree_bind; [by apply (send_safe (SL := laws_02))|apply send_agree|]. intros ?. apply agree_refl. Qed.

Lemma kthread_stop_agree t : agree P (kthread_stop (V := v2) t) (kthread_stop (V := v3) t).
Proof.
  destruct t as [ms|]; [|apply agree_refl]. eapply agree_bind; [apply call_safe|apply agree_refl|].
  intros r. destruct (negb _); [apply thread_round_agree|apply agree_refl].
Qed.

Lemma msleep_agree : agree P (msleep (V := v2)) (msleep (V := v3)).
Proof.
  eapply agree_bind; [apply call_safe|apply agree_refl|]. intros r. destruct (r =? 0), (r =? 1); try apply agree_refl.
  apply agree_get. intros h _ _. destruct (kthread h) as [[ms|]|]; [apply thread_round_agree|apply agree_refl..].
Qed.

Lemma wait_sample_agree fuel : agree P (wait_sample (V := v2) fuel) (wait_sample (V := v3) fuel).
Proof.
  induction fuel as [|fuel IH]; [apply agree_refl|]. intros w Hw. destruct (ss_samples _ _ _ _ _ Hw) as [log Hlog].
  cbn [wait_sample]. rewrite !(peek_run _ _ _ Hlog). destruct (newest _ =? -1); [|done].
  rewrite !(bind_ok _ _ _ _ _ (unpeek_run _ _ Hlog)). revert w Hw Hlog.
  assert (agree P (msleep (V := v2) ;; wait_sample (V := v2) fuel) (msleep (V := v3) ;; wait_sample (V := v3) fuel)) as G.
  { eapply agree_bind; [by apply (msleep_safe (SL := laws_02))|apply msleep_agree|]. by intros ?. }
  intros w Hw _. by apply G.
Qed.

Lemma send_if_stopped_agree n : agree P (send_if_stopped (V := v2) n) (send_if_stopped (V := v3) n).
Proof.
  intros w Hw. pose proof (ss_ongoing_lock _ _ _ _ _ Hw) as Hl. destruct (decide (ongoing (st w) = STOPPING)) as [Ho|Ho].
  - rewrite !send_if_stopped_run by done. by rewrite send_agree.
  - unfold send_if_stopped. rewrite !(bind_ok _ _ _ _ _ (lock_ongoing_ok _ Hl)). step. etrans; [|symmetry; by step].
    cbn [st with_st with_ongoing_lock ongoing]. by rewrite (proj2 (Z.eqb_neq _ _) Ho).
Qed.
End unlocked.

Lemma read_agree fuel buf kc kt : unlocked_config kc ->
  agree (sensor_state kc kt false false) (Sensor.hc_sr04_read (V := v2) fuel buf) (Sensor.hc_sr04_read (V := v3) fuel buf).
Proof.
  intros Hk. unfold Sensor.hc_sr04_read. eapply agree_bind; [by apply lock_kconfig_safe|apply agree_refl|]. intros ?.
  apply agree_get. intros h Hkc _. unfold the_mode. rewrite Hkc. cbn [kc_lock kset].
  destruct (mode (working_mode (kset kc)) =? ONE_SHOT);
    (eapply agree_bind; [apply unlock_kconfig_safe|apply agree_refl|]; intros ?; rewrite kc_relock by done).
  - eapply agree_bind; [by apply (send_if_stopped_safe (SL := laws_02))|by apply send_if_stopped_agree|]. intros ?.
    apply agree_refl.
  - intros w Hw. destruct (ss_samples _ _ _ _ _ Hw) as [log Hlog]. rewrite !(peek_run w log) by done.
    destruct (negb _); [done|]. rewrite !(bind_ok _ _ _ _ _ (unpeek_run _ _ Hlog)).
    assert (agree (sensor_state kc kt false false)
      (wait_sample (V := v2) fuel ;; ret ← copy_newest buf; if negb (ret =? 0) then mret (- EAGAIN) else mret 0)
      (wait_sample (V := v3) fuel ;; ret ← copy_newest buf; if negb (ret =? 0) then mret (- EAGAIN) else mret 0)) as G.
    { eapply agree_bind; [by apply (wait_sample_safe (SL := laws_02))|by apply wait_sample_agree|]. intros ?. apply agree_refl. }
    by apply G.
Qed.

Lemma write_agree buf kc kt : unlocked_config kc ->
  agree (sensor_state kc kt false false) (Sensor.hc_sr04_write (V := v2) buf) (Sensor.hc_sr04_write (V := v3) buf).
Proof.
  intros Hk. unfold Sensor.hc_sr04_write.
  apply (agree_bind sensor_faults _ (fun _ => sensor_state kc kt false false)); [by intros w Hs|apply agree_refl|]. intros c.
  eapply agree_bind; [by apply lock_kconfig_safe|apply agree_refl|]. intros ?.
  apply agree_get. intros h Hkc _. unfold the_mode. rewrite Hkc. cbn [kc_lock kset].
  destruct (mode (working_mode (kset kc)) =? ONE_SHOT);
    (eapply agree_bind; [apply unlock_kconfig_safe|apply agree_refl|]; intros ?; rewrite kc_relock by done).
  - apply (agree_bind sensor_faults _ (fun _ => sensor_state kc kt false false)); [|apply agree_refl|].
    { destruct (negb _); [apply clear_samples_safe|apply safe_done]. }
    intros ?. eapply agree_bind; [by apply (send_if_stopped_safe (SL := laws_02))|by apply send_if_stopped_agree|].
    intros ?. apply agree_refl.
  - eapply agree_bind; [apply lock_kthread_safe|apply agree_refl|]. intros ?. apply agree_get. intros h' _ Hkt.
    rewrite Hkt. destruct (get_int c.1 =? 0), kt as [t|]; try apply agree_refl.
    apply (agree_bind sensor_faults _ (fun _ w => True)); [| |intros ?; apply agree_refl].
    + intros w Hw.
      assert (sensor_safe (sensor_state (U := U) kc (Some t) true false)
        (kthread_stop (V := v2) t ;; modify_st (with_kthread None) ;; lock_ongoing ;; modify_st (with_ongoing STOPPING) ;; unlock_ongoing)
        (fun _ _ => True)) as G; [|exact (G w Hw)].
      eapply safe_bind; [by apply (kthread_stop_safe (SL := laws_02))|]. intros ?.
      eapply safe_bind; [apply set_kthread_safe|]. intros ?. eapply safe_conseq; [apply stop_safe|done|done].
    + eapply agree_bind; [by apply (kthread_stop_safe (SL := laws_02))|by apply kthread_stop_agree|]. intros ?. apply agree_refl.
Qed.

(** C22: From every sound device the two drivers read and write alike: the same
    result, the same requests in the same order, the same device and the same
    memory of the caller, in every mode and whatever echoes and rounds of the
    thread intervene. *)

Theorem drivers_read_and_write_alike fuel buf w :
  sound w -> hc_sr04_read fuel buf w = Sensor.hc_sr04_read (V := v2) fuel buf w /\
    hc_sr04_write buf w = Sensor.hc_sr04_write (V := v2) buf w.
Proof.
  intros (kc & kt & Hs & Hk). split; symmetry; [by eapply read_agree|by eapply write_agree].
Qed.
End variants.
