(* ===== verification/Hc03Witness.v ===== *)
(** * 03: concrete runs of its theorems *)

From S2P Require Import Prelude Ring Kernel UserMemory HwPins HwPinsSpec Sensor SensorProofs SensorSpec.
From S2P Require Import SensorCalls SensorPins Release Text Hc03 Hc03Spec Hc03Safe Platform PlatformSpec.
From S2P Require Import Variants.

#[local] Instance succeed : Environment := all_succeed.

Abbreviation world := (sys (gmap Z Z) hcsr).

Definition buffer : Z := 4096.

Definition user_with (bs : list Z) : gmap Z Z := (map_store (mapped buffer 64) buffer bs).1.

Definition put_mode (m : mode_set) : list Z := put_int (mode m) ++ le_bytes 4 (freq m).

(** A sensor as its probe leaves it, then in periodic mode at 5 Hz. *)

Definition fresh_sensor : hcsr := sensor (registered HCSR_1_dev).

Definition periodic (f : Z) : hcsr := with_mode {| mode := PERIODIC; freq := f |} fresh_sensor.

Definition world_of (bs : list Z) (h : hcsr) : world := {| st := h; requests := []; user := user_with bs |}.

(** "1\n" *)

Definition one : list Z := [49; 10].

Lemma fresh_sound bs h :
  ongoing h = STOPPING -> cirb h = cirb fresh_sensor -> ongoing_lock h = false -> kthread_lock h = false -> irq_done_lock h = false ->
  kconfig_lock (kconfig h) = false -> sound (world_of bs h).
Proof.
  intros Ho Hc H1 H2 H3 Hk. exists (kconfig h), (kthread h). split; [|done]. constructor; try done; [by right|].
  exists []. cbn. by rewrite Hc.
Qed.

Lemma attributes_keep_sensor_sound_witness :
  exists w', do_calls [Store_frequency one; Store_mode one; Show_mode; Write buffer; Show_distance] (world_of (put_int 1) fresh_sensor) = Ok tt w' /\
    sound w' /\ kthread (st w') = Some (Thread 1000).
Proof.
  pose proof (attributes_keep_sensor_sound [Store_frequency one; Store_mode one; Show_mode; Write buffer; Show_distance]
    (world_of (put_int 1) fresh_sensor)) as H.
  destruct (returns_inv (fun _ w' => match kthread (st w') with Some (Thread ms) => ms =? 1000 | _ => false end)
    (do_calls [Store_frequency one; Store_mode one; Show_mode; Write buffer; Show_distance] (world_of (put_int 1) fresh_sensor)))
    as ([] & w' & Hw & Ht).
  { vm_compute. reflexivity. }
  rewrite Hw in H. exists w'. refine (conj Hw (conj (H _ _) _)).
  - by repeat constructor.
  - by apply fresh_sound.
  - destruct (kthread (st w')) as [[ms|]|]; [|done..]. apply Z.eqb_eq in Ht. by subst.
Defined.

Lemma shown_values_store_back_witness :
  (exists n text, mode_show (world_of [] (periodic 250)) = Ok (n, text) (world_of [] (periodic 250)) /\
     mode_store text n (world_of [] (periodic 250)) = Ok n (world_of [] (periodic 250))) /\
  (exists n text, frequency_show (world_of [] (periodic 250)) = Ok (n, text) (world_of [] (periodic 250)) /\
     frequency_store text n (world_of [] (periodic 250)) = Ok n (world_of [] (periodic 250))).
Proof.
  destruct (shown_values_store_back (world_of [] (periodic 250)) eq_refl) as [Hm Hf]. split.
  - apply Hm. by right.
  - apply Hf; [done|]. apply Nat.leb_le. vm_compute. reflexivity.
Defined.

Lemma long_frequency_is_cut_witness :
  exists n text w', frequency_show (world_of [] (periodic 2000000019)) = Ok (n, text) (world_of [] (periodic 2000000019)) /\
    frequency_store text n (world_of [] (periodic 2000000019)) = Ok n w' /\ freq (the_mode (st w')) = 200000001.
Proof.
  destruct (long_frequency_is_cut (world_of [] (periodic 2000000019)) eq_refl) as (n & text & H1 & H2); [done|].
  exists n, text. eexists. exact (conj H1 (conj H2 eq_refl)).
Defined.

Lemma enabling_periodic_deadlocks_witness :
  exists w', enable_store one 2 (world_of [] (periodic 5)) = Crash SelfDeadlock w' /\ kthread (st w') = Some (Thread 200).
Proof.
  destruct (enabling_periodic_deadlocks one 2 (world_of [] (periodic 5))) as (w' & H & _ & Ht).
  1-6: done.
  exists w'. exact (conj H (Ht (fun _ => eq_refl))).
Defined.

Definition running : hcsr := with_kthread (Some (Thread 200)) (periodic 5).

Lemma mode_store_leaves_thread_witness :
  exists w', mode_store [48] 1 (world_of [] running) = Ok 1 w' /\ kthread (st w') = Some (Thread 200) /\ enable_store one 2 w' = Ok 2 w'.
Proof.
  destruct (mode_store_leaves_thread [48] 1 one 2 (world_of [] running) (Thread 200)) as (w' & H & _ & Ht & _ & He).
  1-4: done.
  exists w'. exact (conj H (conj Ht He)).
Defined.

(** The thread is always caught at the start of a round. *)

Definition thread_busy : Environment := fun _ c => match c with Kthread_stop => 1 | _ => 0 end.

Lemma setmode_deadlocks_with_thread_witness :
  exists w', ioctl_SETMODE (E := thread_busy) buffer (world_of (put_mode {| mode := ONE_SHOT; freq := 1 |}) running) = Crash SelfDeadlock w'.
Proof.
  apply (setmode_deadlocks_with_thread (E := thread_busy) buffer (put_mode {| mode := ONE_SHOT; freq := 1 |}) _ 200).
  - vm_compute. reflexivity.
  - left. vm_compute. reflexivity.
  - done.
  - done.
  - done.
  - done.
  - done.
  - done.
Defined.

Definition on_default_pins : hcsr := with_pins {| trigger_pin := 6; echo_pin := 15 |} fresh_sensor.

Lemma bad_trigger_text_frees_pins_witness :
  exists w1 w2, trigger_store [120] 1 (world_of [] on_default_pins) = Ok 0 w1 /\ trigger_store [120] 1 w1 = Ok 0 w2 /\
    clean (requests w2) = false.
Proof.
  destruct (bad_trigger_text_frees_pins [120] 1 (world_of [] on_default_pins)) as (w1 & w2 & H1 & _ & _ & H2 & C).
  - done.
  - vm_compute. discriminate.
  - exists w1, w2. exact (conj H1 (conj H2 C)).
Defined.

Lemma drivers_read_and_write_alike_witness :
  hc_sr04_read 5 buffer (world_of [] fresh_sensor) = Sensor.hc_sr04_read (V := Hc02.variant_02) 5 buffer (world_of [] fresh_sensor) /\
  hc_sr04_write buffer (world_of [] fresh_sensor) = Sensor.hc_sr04_write (V := Hc02.variant_02) buffer (world_of [] fresh_sensor).
Proof. apply (drivers_read_and_write_alike 5 buffer (world_of [] fresh_sensor)). by apply fresh_sound. Defined.

(** ** The platform devices *)

Definition numbers (p : plat) : Z := match p with HCSR_1_dev => 54 | HCSR_2_dev => 55 end.

Definition nothing : platform :=
  {| objects := ∅; pdev := fun _ => None; class_cnt := 0; hcsr_list := []; minor := fun _ => None; private_data := ∅ |}.

Definition w_empty : sys (gmap Z Z) platform := {| st := nothing; requests := []; user := ∅ |}.

Lemma succeed_registrations : registrations_work.
Proof. done. Qed.

Lemma probe_registers_sensor_witness :
  exists w', HCSR_driver_probe numbers HCSR_1_dev w_empty = Ok 0 w' /\ class_cnt (st w') = 1 /\ hcsr_list (st w') = [1%positive].
Proof.
  destruct (probe_registers_sensor numbers HCSR_1_dev w_empty 1%positive) as (w' & H & _ & _ & _ & N & L & _).
  - done.
  - vm_compute. reflexivity.
  - exists w'. exact (conj H (conj N L)).
Defined.

(** Device 1 after its probe, with the file 7 open on it. *)

Definition object1 : hcsr_struct := registered HCSR_1_dev.

Definition probed : platform :=
  {| objects := {[ 1%positive := object1 ]}; pdev := fun p => if decide (p = HCSR_1_dev) then Some 1%positive else None;
     class_cnt := 1; hcsr_list := [1%positive]; minor := fun _ => Some 54; private_data := {[ 7%positive := 1%positive ]} |}.

Definition w_probed : sys (gmap Z Z) platform :=
  {| st := probed; requests := map (fun c => (c, 0)) (plat_holds HCSR_1_dev ++ [Class_create "HCSR"]); user := ∅ |}.

Lemma w_probed_sound : sound (with_st (sensor object1) w_probed).
Proof.
  exists (kconfig (sensor object1)), None. split; [|done]. constructor; try done; [by right|]. by exists [].
Qed.

Lemma w_probed_held : held (requests w_probed) ≡ₚ sensor_holds (sensor object1) ++ plat_holds HCSR_1_dev ++
  (if class_cnt (st w_probed) =? 1 then [Class_create "HCSR"] else []) ++ [].
Proof. vm_compute. reflexivity. Qed.

Lemma w_probed_NoDup : NoDup (held (requests w_probed)).
Proof. apply (bool_decide_unpack _). vm_compute. exact I. Qed.

Lemma remove_gives_all_back_witness :
  exists w', HCSR_driver_remove HCSR_1_dev w_probed = Ok 0 w' /\ held (requests w') ≡ₚ [] /\ class_cnt (st w') = 0.
Proof.
  destruct (remove_gives_all_back HCSR_1_dev w_probed 1%positive object1 []) as (w' & H & P & _ & _ & _ & N).
  1-4: done.
  - apply w_probed_sound.
  - done.
  - apply w_probed_held.
  - apply w_probed_NoDup.
  - vm_compute. reflexivity.
  - exists w'. exact (conj H (conj P (proj1 N))).
Defined.

Lemma open_file_outlives_device_witness :
  exists w', HCSR_driver_remove HCSR_1_dev w_probed = Ok 0 w' /\
    on_file 7%positive (hc_sr04_read 1 buffer) w' = Crash UseAfterFree w'.
Proof.
  apply (open_file_outlives_device HCSR_1_dev w_probed 1%positive object1 [] 7%positive (hc_sr04_read 1 buffer)).
  1-4: done.
  - apply w_probed_sound.
  - done.
  - apply w_probed_held.
  - apply w_probed_NoDup.
  - vm_compute. reflexivity.
  - done.
Defined.

Definition no_misc : Environment := fails_at (Misc_register "HCSR_1") (-16).

Lemma failed_probe_crashes_remove_witness :
  exists w1 w2, HCSR_driver_probe (E := no_misc) numbers HCSR_1_dev w_empty = Ok 0 w1 /\
    HCSR_driver_remove (E := no_misc) HCSR_1_dev w1 = Crash NullDeref w2 /\ class_cnt (st w2) = -1.
Proof.
  destruct (failed_probe_crashes_remove (E := no_misc) numbers HCSR_1_dev w_empty 1%positive) as (w1 & w2 & H1 & _ & H2 & N).
  - intros t c _ Hc. unfold reply, no_misc, fails_at. by rewrite decide_False.
  - intros t. vm_compute. discriminate.
  - vm_compute. reflexivity.
  - exists w1, w2. exact (conj H1 (conj H2 N)).
Defined.

Definition no_first : Environment := fails_at (Platform_device_register "HCSRdevice1") (-16).

Lemma first_registration_is_not_reported_witness :
  exists w1 w2, HCSR_device_init (E := no_first) w_empty = Ok 0 w1 /\ HCSR_device_exit (E := no_first) w1 = Ok tt w2 /\
    clean (requests w2) = false.
Proof.
  apply (first_registration_is_not_reported (E := no_first) w_empty).
  - intros t. vm_compute. discriminate.
  - intros t. vm_compute. reflexivity.
  - apply not_elem_of_nil.
Defined.
