(* ===== verification/SensorEcho.v ===== *)
(** * The distance sensor: a sensor that answers

    While a measurement waits, the echo comes before its 50000 turns are over:
    then every measurement records exactly one sample and no call waits for
    one in vain. *)

From S2P Require Import Prelude Ring Kernel UserMemory HwPins HwPinsSpec Sensor SensorProofs SensorSpec.
From S2P Require Import SensorCalls SensorRead Hc02 Hc02Spec Hc03 Hc03Spec.

(** [n] waits without an echo, newest first. *)

Definition silence (n : nat) : trace := replicate n (Delay, 0).

Definition answering {E : Environment} : Prop :=
  forall t, exists n, Z.of_nat n < 50000 /\ reply (silence n ++ t) Delay <> 0.

Lemma silence_snoc n t : silence n ++ (Delay, 0) :: t = silence (S n) ++ t.
Proof. unfold silence. by rewrite (cons_middle (Delay, 0)), app_assoc, <- replicate_S_end. Qed.

Section echo.
Context {U : Type} {UM : UserMemory U} {E : Environment}.
Implicit Types (w : sys U hcsr) (log new : list Z).

(** A turn of the waiting loop that leaves the sensor waiting was silent. *)

Lemma udelay_silent w log w' :
  isr_ready (st w) -> samples_ok (cirb (st w)) log -> ongoing (st w) = ONGOING ->
  udelay w = Ok tt w' -> ongoing (st w') = ONGOING ->
  reply (requests w) Delay = 0 /\ requests w' = (Delay, 0) :: requests w.
Proof.
  intros Hr Hs Ho H Ho'. unfold udelay in H. erewrite bind_ok in H by apply kcall_ok.
  destruct (Z.eqb_spec (reply (requests w) Delay) 0) as [E0|_].
  - injection H as <-. cbn [log_request requests]. by rewrite E0.
  - destruct (isr_records (log_request Delay (reply (requests w) Delay) w) log) as (w2 & H2 & O2 & _);
      [done|cbn; by rewrite Ho|done|].
    rewrite (bind_ok _ _ _ _ _ H2) in H. injection H as <-. by rewrite O2 in Ho'.
Qed.

Lemma wait_timeout fuel counter w log w' :
  0 <= counter <= 50000 -> isr_ready (st w) -> samples_ok (cirb (st w)) log -> ongoing (st w) = ONGOING ->
  wait_echo fuel counter 1 w = Ok (- EAGAIN) w' ->
  forall n, Z.of_nat n < 50000 - counter -> reply (silence n ++ requests w) Delay = 0.
Proof.
  revert counter w. induction fuel as [|fuel IH]; intros counter w Hc Hr Hs Ho H n Hn; cbn [wait_echo] in H;
    (erewrite bind_ok in H by reflexivity); rewrite Ho in H; cbn [Z.eqb ONGOING Pos.eqb] in H; [done|].
  erewrite bind_ok in H by reflexivity. rewrite (wrap_small 32 (counter + 1)) in H by lia.
  destruct (Z.ltb_spec 50000 (counter + 1)); [lia|].
  destruct (udelay_ok w log Hr Hs) as (w1 & new1 & H1 & M1 & R1 & HO). rewrite (bind_ok _ _ _ _ _ H1) in H.
  destruct (measured_fields _ _ _ _ M1) as (_ & _ & _ & _ & _ & _ & S1).
  destruct HO as [[-> HO]|(_ & HO & _)].
  - rewrite Ho in HO. destruct (udelay_silent w log w1 Hr Hs Ho H1 HO) as [E0 Et]. rewrite app_nil_r in S1.
    destruct n as [|n]; [done|]. rewrite <- silence_snoc, <- Et. apply (IH (counter + 1) w1); (done || lia).
  - exfalso. destruct fuel; cbn [wait_echo] in H; (erewrite bind_ok in H by reflexivity); by rewrite HO in H.
Qed.

(** An answering sensor records one sample per measurement. *)

Lemma measure_answered trig w log :
  answering -> isr_ready (st w) -> samples_ok (cirb (st w)) log -> ongoing (st w) = ONGOING ->
  exists w' d, measure trig w = Ok 0 w' /\ measure_result w w' log 0 [d].
Proof.
  intros Ha Hr Hs Ho. destruct (measure_ok trig w log Hr Hs) as (r & w' & new & H & HR); [by left|].
  pose proof HR as (O & M & R & [(HR0 & _)|[(_ & -> & Hl)|(_ & -> & ->)]]); [by rewrite HR0 in Ho| |].
  { destruct new as [|d [|? ?]]; [done| |done]. by exists w', d. }
  exfalso. unfold measure in H. destruct (pulse_ok trig w log Hr Hs) as (w1 & new1 & H1 & M1 & R1 & HO).
  rewrite (bind_ok _ _ _ _ _ H1) in H. destruct (measured_fields _ _ _ _ M1) as (_ & _ & _ & _ & _ & _ & S1).
  rewrite (bind_ok _ _ _ _ _ (lock_ongoing_ok _ (proj1 R1))) in H.
  assert (with_st (with_ongoing_lock false (with_ongoing_lock true (st w1))) w1 = w1) as Hback.
  { destruct w1 as [[] ? ?]. destruct R1 as [Hx _]. simpl in Hx. by subst. }
  destruct (Z.to_nat 50001) as [|fuel] eqn:Hfuel; [lia|]. cbn [wait_echo] in H. erewrite bind_ok in H by reflexivity.
  cbn [st with_st with_ongoing_lock ongoing] in H. destruct HO as [[-> HO]|(_ & HO & _)].
  2: { rewrite HO in H. cbn [Z.eqb ONGOING STOPPING Pos.eqb] in H.
       erewrite bind_ok in H by (by apply unlock_ongoing_ok). done. }
  rewrite Ho in HO. rewrite HO in H. cbn [Z.eqb ONGOING STOPPING Pos.eqb] in H.
  erewrite bind_ok in H.
  2: { erewrite bind_ok by (by apply unlock_ongoing_ok). reflexivity. }
  change (with_st (with_ongoing_lock false _) (with_st _ w1)) with (with_st (with_ongoing_lock false (with_ongoing_lock true (st w1))) w1) in H.
  rewrite Hback in H. change (50000 <? u32 (0 + 1)) with false in H. cbn iota in H. rewrite app_nil_r in S1.
  destruct (udelay_ok w1 log R1 S1) as (w2 & new2 & H2 & M2 & R2 & HO2). rewrite (bind_ok _ _ _ _ _ H2) in H.
  destruct (measured_fields _ _ _ _ M2) as (_ & _ & _ & _ & _ & _ & S2).
  destruct HO2 as [[-> HO2]|(_ & HO2 & _)].
  2: { destruct fuel; cbn [wait_echo] in H; (erewrite bind_ok in H by reflexivity); by rewrite HO2 in H. }
  rewrite HO in HO2. rewrite app_nil_r in S2. destruct (udelay_silent w1 log w2 R1 S1 HO H2 HO2) as [E0 Et].
  destruct (Ha (requests w1)) as (n & Hn & Hecho). destruct n as [|n]; [done|].
  rewrite <- silence_snoc, <- Et in Hecho. apply Hecho.
  eapply (wait_timeout fuel (u32 (0 + 1)) w2 log); [|done|done|done|exact H|].
  - change (u32 (0 + 1)) with 1. lia.
  - change (u32 (0 + 1)) with 1. lia.
Qed.
End echo.

(** ** Both drivers' measurements are answered *)

Class EchoLaws {U} {UM : UserMemory U} {E : Environment} (V : SensorVariant U) {SL : SensorLaws V} :=
  do_send_answered (w : sys U hcsr) log :
    answering -> send_ready (st w) -> samples_ok (cirb (st w)) log -> ongoing (st w) = ONGOING ->
    exists w' d, do_send w = Ok 0 w' /\ measure_result w w' log 0 [d].

#[export] Instance echo_02 {U} {UM : UserMemory U} {E : Environment} : EchoLaws (variant_02 (U := U)).
Proof.
  intros w log Ha [Hr _] Hs Ho. cbn [do_send variant_02]. unfold do_send_02. erewrite bind_ok by reflexivity.
  by apply measure_answered.
Qed.

#[export] Instance echo_03 {U} {UM : UserMemory U} {E : Environment} : EchoLaws (variant_03 (U := U)).
Proof.
  intros w log Ha [Hr Hk] Hs Ho. cbn [do_send variant_03]. unfold do_send_03. rewrite relock_kconfig by (by apply Hk).
  by apply measure_answered.
Qed.

Section send.
Context {U : Type} {UM : UserMemory U} {E : Environment} {V : SensorVariant U} {SL : SensorLaws V} {EL : EchoLaws V}.
Implicit Types (w : sys U hcsr) (log new : list Z).

Lemma send_answered k w log :
  answering -> send_ready (st w) -> samples_ok (cirb (st w)) log -> ongoing (st w) = STOPPING ->
  exists w' d, Sensor.send k w = Ok 0 w' /\ measured w w' log [d] /\ ongoing (st w') = STOPPING /\ send_ready (st w').
Proof.
  intros Ha Hr Hs Ho. pose proof Hr as [[Hl Hc] Hk]. unfold Sensor.send. rewrite (bind_ok _ _ _ _ _ (lock_ongoing_ok _ Hl)).
  erewrite bind_ok by reflexivity. cbn [st with_st with_ongoing_lock ongoing]. rewrite Ho.
  cbn [Z.eqb ONGOING STOPPING Pos.eqb]. erewrite bind_ok by reflexivity. erewrite bind_ok by (by apply unlock_ongoing_ok).
  match goal with |- context [resend _ ?x] => set (w0 := x) end.
  assert (w0 = with_st (with_ongoing ONGOING (st w)) w) as E0.
  { subst w0. destruct w as [[] ? ?]. cbn in *. by subst. }
  rewrite E0. clear w0 E0. set (w0 := with_st _ w).
  destruct (do_send_answered w0 log Ha) as (w1 & d & H1 & O1 & M1 & R1 & _); [done|done|done|].
  exists w1, d. split; [|split; [|split; [done|]]].
  - destruct (Z.to_nat k); cbn [resend]; by rewrite (bind_ok _ _ _ _ _ H1).
  - destruct M1 as [(o & ks & c & Es & Sc) ? ? ? ?]. constructor; try done.
    exists o, ks, c. split; [|done]. rewrite Es. reflexivity.
  - split; [done|]. intros Hn. destruct (measured_fields _ _ _ _ M1) as (_ & -> & _). by apply Hk.
Qed.
End send.
