(* ===== verification/SensorTest.v ===== *)
(** * The sensors' test program: four threads on two sensors

    hc_sr04-test.c of 02 and HCSR-test.c of 03 are the same text: [main] sets
    both sensors up and exercises A, then B beside a thread that reads B, then
    both in a thread each.  The program is built for a 32-bit board, where a
    [pthread_t] and a pointer are as wide as an [int].

    The calls of the threads interleave where a [read] waits, which may be for
    ever: it is cut there into turns (the board has one processor).  The other
    calls are one turn each, with the end of the driver's thread that a write
    or SETMODE waits for.  Between the turns come echoes and the rounds of the
    drivers' threads.  The driver the program runs on is the interface
    [LoadedDriver].
    Sources: 02_.../hc_sr04-test.c, hc_sr04_user.h, 03_.../HCSR-test.c. *)

From S2P Require Import Prelude Kernel UserMemory HwPins Sensor.

(** The device files the program opens. *)

Inductive sensor_name := HCSR_1 | HCSR_2.

#[export] Instance sensor_name_eq_dec : EqDecision sensor_name.
Proof. solve_decision. Defined.

(** The threads: [main], the one of line 79, and [tA], [tB]. *)

Inductive task := Main | Reader | TA | TB.

#[export] Instance task_eq_dec : EqDecision task.
Proof. solve_decision. Defined.

#[export] Instance task_countable : Countable task.
Proof.
  refine {| encode t := match t with Main => 1 | Reader => 2 | TA => 3 | TB => 4 end;
            decode p := Some match p with 1 => Main | 2 => Reader | 3 => TA | _ => TB end |}%positive.
  by intros [].
Defined.

(** ** A [read] in turns *)

Inductive progress := Returned (r : Z) | Spinning | Sleeping.

Section read.
Context {U : Type} {UM : UserMemory U} {E : Environment} {V : SensorVariant U}.

(** Lines 336-339 and 360-364: both ways end like this. *)

Definition end_read (buf : Z) : M (sys U hcsr) Z :=
  ret ← copy_newest buf;
  if negb (ret =? 0) then mret (- EAGAIN) else mret 0.

(** A call that would have to wait stops there. *)

Definition pausing (wait : hcsr -> progress) (m : M (sys U hcsr) Z) : M (sys U hcsr) progress := fun w =>
  match m w with
  | Ok r w' => Ok (Returned r) w'
  | Crash f w' => Crash f w'
  | Blocked w' => Ok (wait (st w')) w'
  end.

(** The call up to its first wait: in ONE_SHOT mode for the measurement under
    way, else for a sample. *)

Definition read_begin (buf : Z) : M (sys U hcsr) progress :=
  pausing (fun h => if mode (the_mode h) =? ONE_SHOT then Spinning else Sleeping) (hc_sr04_read 0 buf).

(** Another look, after the wait. *)

Definition read_spin (buf : Z) : M (sys U hcsr) progress :=
  pausing (fun _ => Spinning) (spin_ongoing 0 ;; end_read buf).

Definition read_wake (buf : Z) : M (sys U hcsr) progress :=
  pausing (fun _ => Sleeping) (wait_sample 0 ;; end_read buf).

(** One round of the driver's thread, if there is one. *)

Definition thread_turn : M (sys U hcsr) unit :=
  s ← get_st;
  match kthread s with
  | Some (Thread _) => thread_round
  | _ => mret tt
  end.
End read.

(** ** The program *)

(** The [int]s of the program's memory, by their owner; the structures are
    [Apins], [Bpins], [Aset], [Bset] and the [working_mode] in [Adata], [Bdata]. *)

Inductive variable :=
  | I (t : task)
  | TMP (t : task)
  | pins_trigger (s : sensor_name)
  | pins_echo (s : sensor_name)
  | set_mode (s : sensor_name)
  | set_freq (s : sensor_name)
  | data_mode (s : sensor_name)
  | data_freq (s : sensor_name).

#[export] Instance variable_eq_dec : EqDecision variable.
Proof. solve_decision. Defined.

Inductive command := SETPINS_cmd | SETMODE_cmd.

#[export] Instance command_eq_dec : EqDecision command.
Proof. solve_decision. Defined.

(** [Ioctl_int] passes the address through [(int)]; [Create] through a pointer
    to [i] stores the thread's number there. *)

Inductive statement :=
  | Assign (x : variable) (v : Z)
  | Open (s : sensor_name)
  | Ioctl (s : sensor_name) (c : command) (x : variable)
  | Ioctl_int (s : sensor_name) (c : command) (x : variable)
  | Write (s : sensor_name) (x : variable)
  | Read (s : sensor_name) (x : variable)
  | Create (t : task) (number : option variable)
  | Join (t : task).

Definition PRINT (t : task) (s : sensor_name) : statement := Read s (TMP t).

(** The call and the PRINT behind it. *)

Definition write_print (t : task) (s : sensor_name) : list statement := [Write s (I t); PRINT t s].

Definition read_print (t : task) (s : sensor_name) : list statement := [Read s (I t); PRINT t s].

Definition readfunc (t : task) (s : sensor_name) : list statement := Assign (I t) 0 :: read_print t s.

Definition pfunction (t : task) (s : sensor_name) : list statement :=
  [Assign (I t) 0; Ioctl_int s SETMODE_cmd (data_mode s); Assign (I t) 1] ++ read_print t s ++
  [Assign (I t) 1] ++ write_print t s ++
  [Assign (I t) 0] ++ write_print t s.

Definition main_variables : list statement :=
  [Assign (I Main) 1;
   Assign (pins_trigger HCSR_1) HCSR_A_TRIG_PIN; Assign (pins_echo HCSR_1) HCSR_A_ECHO_PIN;
   Assign (pins_trigger HCSR_2) HCSR_B_TRIG_PIN; Assign (pins_echo HCSR_2) HCSR_B_ECHO_PIN;
   Assign (set_mode HCSR_1) 0; Assign (set_freq HCSR_1) 7;
   Assign (set_mode HCSR_2) 1; Assign (set_freq HCSR_2) 7].

Definition main_open : list statement :=
  [Open HCSR_1; Ioctl HCSR_1 SETPINS_cmd (pins_trigger HCSR_1);
   Open HCSR_2; Ioctl HCSR_2 SETPINS_cmd (pins_trigger HCSR_2)].

Definition main_one_shot : list statement :=
  [Ioctl HCSR_1 SETMODE_cmd (set_mode HCSR_1); Assign (I Main) 0] ++ write_print Main HCSR_1 ++ write_print Main HCSR_1 ++
  [Assign (I Main) 1] ++ write_print Main HCSR_1 ++
  read_print Main HCSR_1 ++ read_print Main HCSR_1.

Definition main_periodic : list statement :=
  [Ioctl HCSR_2 SETMODE_cmd (set_mode HCSR_2); Create Reader (Some (I Main)); Assign (I Main) 1] ++
  write_print Main HCSR_2 ++
  [Assign (I Main) 0] ++ write_print Main HCSR_2.

Definition main_clear : list statement :=
  [Assign (set_mode HCSR_2) 0; Ioctl HCSR_2 SETMODE_cmd (set_mode HCSR_2); Assign (I Main) 0; Assign (I Main) 1] ++
  write_print Main HCSR_1 ++
  [Assign (I Main) 1] ++ write_print Main HCSR_2.

Definition main_threads : list statement :=
  [Assign (data_mode HCSR_1) 1; Assign (data_freq HCSR_1) 7; Assign (data_mode HCSR_2) 0; Assign (data_freq HCSR_2) 7;
   Create TA None; Create TB None; Join TA; Join TB].

Definition main : list statement :=
  main_variables ++ main_open ++ main_one_shot ++ main_periodic ++ main_clear ++ main_threads.

Definition code (t : task) : list statement :=
  match t with
  | Main => main
  | Reader => readfunc Reader HCSR_2
  | TA => pfunction TA HCSR_1
  | TB => pfunction TB HCSR_2
  end.

(** The program of 03, HCSR-test.c, word for word. *)

Definition HCSR_readfunc (t : task) (s : sensor_name) : list statement := readfunc t s.

Definition HCSR_pfunction (t : task) (s : sensor_name) : list statement := pfunction t s.

Definition HCSR_main : list statement := main.

(** ** The driver it runs on *)

(** [node] is what the file's [private_data] points to. *)

Class LoadedDriver (U S : Type) {UM : UserMemory U} {E : Environment} := {
  variant :: SensorVariant U;
  node : Type;
  open_file : sensor_name -> loc -> M (sys U S) Z;
  node_of_file : S -> loc -> option node;
  node_of_sensor : S -> sensor_name -> option node;
  on_node {A} : node -> M (sys U hcsr) A -> M (sys U S) A
}.

(** Where a thread is: before its [n]th statement, or waiting in it. *)

Inductive place := At (n : nat) | Spins (n : nat) | Sleeps (n : nat).

#[export] Instance place_eq_dec : EqDecision place.
Proof. solve_decision. Defined.

(** [returned]: what the calls returned, newest first. *)

Record test (U S : Type) := {
  machine : sys U S;
  pc : gmap task place;
  returned : list (task * nat * Z)
}.
Arguments machine {U S}.
Arguments pc {U S}.
Arguments returned {U S}.

Inductive turn := Task (t : task) | Echo (s : sensor_name) | Round (s : sensor_name).

Section program.
Context {U S : Type} {UM : UserMemory U} {E : Environment} {IC : IoctlCode} {LD : LoadedDriver U S}.

(** The addresses of the variables, the files, and the thread numbers. *)

Context (at_ : variable -> Z) (fd : sensor_name -> loc) (pthread : task -> Z).

Definition on_machine {A} (m : M (sys U S) A) : M (test U S) A := fun s =>
  let back w := {| machine := w; pc := pc s; returned := returned s |} in
  match m (machine s) with
  | Ok a w => Ok a (back w)
  | Crash f w => Crash f (back w)
  | Blocked w => Blocked (back w)
  end.

Definition place_at (t : task) (p : place) : M (test U S) unit :=
  modify (fun s => {| machine := machine s; pc := <[t := p]> (pc s); returned := returned s |}).

(** The call of statement [n] returned [r]. *)

Definition return_ (t : task) (n : nat) (r : Z) : M (test U S) unit :=
  modify (fun s => {| machine := machine s; pc := <[t := At (n + 1)]> (pc s); returned := (t, n, r) :: returned s |}).

Definition EBADF : Z := 9.

Definition on_file {A} (s : sensor_name) (closed : A) (m : M (sys U hcsr) A) : M (sys U S) A :=
  d ← get_st;
  match node_of_file d (fd s) with
  | Some x => on_node x m
  | None => mret closed
  end.

Definition on_sensor (s : sensor_name) (m : M (sys U hcsr) unit) : M (sys U S) unit :=
  d ← get_st;
  match node_of_sensor d s with
  | Some x => on_node x m
  | None => mret tt
  end.

Definition command_number (c : command) : Z :=
  match c with SETPINS_cmd => SETPINS | SETMODE_cmd => SETMODE end.

Definition ioctl (s : sensor_name) (c : command) (arg : Z) : M (test U S) Z :=
  on_machine (on_file s (- EBADF) (hc_sr04_ioctl (command_number c) arg)).

(** The end of a turn inside a [read]. *)

Definition reading (t : task) (n : nat) (r : progress) : M (test U S) unit :=
  match r with
  | Returned r => return_ t n r
  | Spinning => place_at t (Spins n)
  | Sleeping => place_at t (Sleeps n)
  end.

Definition resume (t : task) (n : nat) (again : Z -> M (sys U hcsr) progress) : M (test U S) unit :=
  match code t !! n with
  | Some (Read s x) =>
      r ← on_machine (on_file s (Returned (- EBADF)) (again (at_ x)));
      reading t n r
  | _ => blocked
  end.

Definition finished (t : task) (p : gmap task place) : bool :=
  match p !! t with Some (At n) => (length (code t) <=? n)%nat | _ => false end.

Definition execute (t : task) (n : nat) (x : statement) : M (test U S) unit :=
  match x with
  | Assign x v =>
      on_machine (write_user (at_ x) (put_int v)) ;;
      place_at t (At (n + 1))
  | Open s =>
      r ← on_machine (open_file s (fd s));
      return_ t n r
  | Ioctl s c x =>
      r ← ioctl s c (at_ x);
      return_ t n r
  | Ioctl_int s c x =>
      r ← ioctl s c (u32 (s32 (at_ x)));
      return_ t n r
  | Write s x =>
      r ← on_machine (on_file s (- EBADF) (hc_sr04_write (at_ x)));
      return_ t n r
  | Read s x =>
      r ← on_machine (on_file s (Returned (- EBADF)) (read_begin (at_ x)));
      reading t n r
  | Create t' number =>
      match number with
      | Some x => on_machine (write_user (at_ x) (put_int (pthread t')))
      | None => mret tt
      end ;;
      place_at t' (At 0) ;;
      place_at t (At (n + 1))
  | Join t' =>
      s ← gets (fun s : test U S => s);
      if finished t' (pc s) then place_at t (At (n + 1)) else blocked
  end.

(** One turn. *)

Definition run_task (t : task) : M (test U S) unit :=
  p ← gets (fun s : test U S => pc s !! t);
  match p with
  | None => blocked
  | Some (At n) => match code t !! n with Some x => execute t n x | None => blocked end
  | Some (Spins n) => resume t n read_spin
  | Some (Sleeps n) => resume t n read_wake
  end.

Definition take_turn (a : turn) : M (test U S) unit :=
  match a with
  | Task t => run_task t
  | Echo s => on_machine (on_sensor s (echo_recv_isr ;; mret tt))
  | Round s => on_machine (on_sensor s thread_turn)
  end.

(** A thread that cannot go on lets its turn pass. *)

Fixpoint run (sch : list turn) : M (test U S) unit :=
  match sch with
  | [] => mret tt
  | a :: sch => fun s =>
      match take_turn a s with
      | Ok _ s' | Blocked s' => run sch s'
      | Crash f s' => Crash f s'
      end
  end.

Definition begin (w : sys U S) : test U S := {| machine := w; pc := {[ Main := At 0 ]}; returned := [] |}.
End program.
