(* ===== verification/SensorTurns.v ===== *)
(** * The sensors' test program: its calls on an answering sensor

    A [read] is its turns; and every call of the program, from a sensor at
    rest, returns, with the effect on mode, thread and samples that the
    functions on [adev] compute. *)

From S2P Require Import Prelude Ring Kernel UserMemory HwPins HwPinsSpec Sensor SensorProofs SensorSpec.
From S2P Require Import SensorCalls SensorRead SensorEcho SensorTest.

(** ** A [read] is its turns *)

Section turns.
Context {U : Type} {UM : UserMemory U} {E : Environment} {V : SensorVariant U} {SL : SensorLaws V}.
Implicit Types (w : sys U hcsr) (log : list Z).

Fixpoint repeat_turns (pause : M (sys U hcsr) unit) (again : M (sys U hcsr) progress) (fuel : nat) : M (sys U hcsr) Z :=
  match fuel with
  | O => blocked
  | S fuel =>
      pause ;;
      p ← again;
      match p with
      | Returned r => mret r
      | _ => repeat_turns pause again fuel
      end
  end.

Definition go_on (fuel : nat) (buf : Z) (p : progress) : M (sys U hcsr) Z :=
  match p with
  | Returned r => mret r
  | Spinning => repeat_turns udelay (read_spin buf) fuel
  | Sleeping => repeat_turns msleep (read_wake buf) fuel
  end.

(** The end of a read does not wait. *)

Ltac never_waits :=
  unfold lock_cirb, unlock_cirb, spin_lock, spin_unlock, load_data, deref, copy_to_user, get_st, gets, modify_st, modify, mbind,
    M_bind, crash; intros H; repeat case_match; simplify_eq.

Lemma end_read_ends buf w w' : end_read buf w <> Blocked w'.
Proof. unfold end_read, copy_newest. never_waits. Qed.

(** Lines 345-346. *)

Lemma copy_now_ends n buf w w' :
  (v ← load_data n; copy_to_user buf (put_int v) ;; unlock_cirb ;; mret 0) w <> Blocked w'.
Proof. never_waits. Qed.

Lemma end_read_pausing f buf w : pausing f (end_read buf) w = (r ← end_read buf; mret (Returned r)) w.
Proof.
  pose proof (end_read_ends buf w) as H. unfold pausing, mbind, M_bind. destruct (end_read buf w); [done..|]. by edestruct H.
Qed.

Lemma read_spin_run buf w :
  read_spin buf w =
    if ongoing (st w) =? ONGOING then Ok Spinning w else (r ← end_read buf; mret (Returned r)) w.
Proof.
  rewrite <- (end_read_pausing (fun _ => Spinning)). unfold read_spin, pausing, mbind, M_bind. cbn [spin_ongoing].
  unfold mbind, M_bind. cbn [get_st gets]. by destruct (ongoing (st w) =? ONGOING).
Qed.

Lemma wait_sample_run fuel w log : samples_ok (cirb (st w)) log ->
  wait_sample fuel w =
    if newest (cirb (st w)) =? -1
    then match fuel with O => Blocked w | S fuel => (msleep ;; wait_sample fuel) w end
    else Ok tt w.
Proof.
  intros Hs. destruct fuel as [|fuel]; cbn [wait_sample]; rewrite (peek_run _ log) by done;
    change (newest (cirb (with_cirb_lock true (st w)))) with (newest (cirb (st w)));
    (destruct (newest (cirb (st w)) =? -1); [|by apply (unpeek_run w log)]);
    by rewrite (bind_ok _ _ _ _ _ (unpeek_run w log Hs)).
Qed.

Lemma read_wake_run buf w log : samples_ok (cirb (st w)) log ->
  read_wake buf w =
    if newest (cirb (st w)) =? -1 then Ok Sleeping w else (r ← end_read buf; mret (Returned r)) w.
Proof.
  intros Hs. rewrite <- (end_read_pausing (fun _ => Sleeping)). unfold read_wake, pausing, mbind at 1, M_bind at 1.
  rewrite (wait_sample_run 0 w log Hs). by destruct (newest (cirb (st w)) =? -1).
Qed.

Lemma returned_go_on fuel buf w : ((r ← end_read buf; mret (Returned r)) ≫= go_on fuel buf) w = end_read buf w.
Proof. unfold mbind, M_bind. by destruct (end_read buf w). Qed.

Lemma spin_turns fuel buf w :
  (spin_ongoing fuel ;; end_read buf) w = (read_spin buf ≫= go_on fuel buf) w.
Proof.
  revert w. induction fuel as [|fuel IH]; intros w; unfold mbind at 1 2, M_bind at 1 2; rewrite read_spin_run; cbn [spin_ongoing];
    unfold mbind at 1, M_bind at 1; cbn [get_st gets]; destruct (ongoing (st w) =? ONGOING).
  - done.
  - symmetry. exact (returned_go_on 0 buf w).
  - cbn [go_on repeat_turns]. unfold mbind at 1 2, M_bind at 1 2. destruct (udelay w) as [[] w1| |]; [|done..].
    specialize (IH w1). unfold mbind at 1 2, M_bind at 1 2 in IH. rewrite IH. unfold mbind, M_bind. rewrite read_spin_run.
    destruct (ongoing (st w1) =? ONGOING); [done|]. unfold mbind, M_bind. by destruct (end_read buf w1).
  - symmetry. exact (returned_go_on (S fuel) buf w).
Qed.

Lemma wake_turns fuel buf kc kt w : unlocked_config kc -> sensor_state kc kt false false w ->
  (wait_sample fuel ;; end_read buf) w = (read_wake buf ≫= go_on fuel buf) w.
Proof.
  intros Hk. revert w. induction fuel as [|fuel IH]; intros w Hw; destruct (ss_samples _ _ _ _ _ Hw) as [log Hs];
    unfold mbind at 1 2, M_bind at 1 2; rewrite (read_wake_run _ _ log), (wait_sample_run _ _ log) by done;
    destruct (newest (cirb (st w)) =? -1).
  - done.
  - symmetry. exact (returned_go_on 0 buf w).
  - cbn [go_on repeat_turns]. unfold mbind at 1 2, M_bind at 1 2.
    pose proof (msleep_safe kc kt false false (fun _ => Hk) w Hw) as Hw1. destruct (msleep w) as [[] w1| |]; [|done..].
    specialize (IH w1 Hw1). unfold mbind at 1 2, M_bind at 1 2 in IH. rewrite IH. unfold mbind, M_bind.
    destruct (ss_samples _ _ _ _ _ Hw1) as [log1 Hs1]. rewrite (read_wake_run _ _ log1) by done.
    destruct (newest (cirb (st w1)) =? -1); [done|]. unfold mbind, M_bind. by destruct (end_read buf w1).
  - symmetry. exact (returned_go_on (S fuel) buf w).
Qed.
(** The measurement of a [read] or [write] always returns. *)

Lemma send_if_stopped_returns k kc kt w : unlocked_config kc -> sensor_state kc kt false false w ->
  exists w', send_if_stopped k w = Ok tt w' /\ sensor_state kc kt false false w'.
Proof.
  intros Hk Hw. pose proof (send_if_stopped_safe k kc kt false false (fun _ => Hk) w Hw) as Hs.
  pose proof (ss_ongoing_lock _ _ _ _ _ Hw) as Hl. destruct (decide (ongoing (st w) = STOPPING)) as [Ho|Ho].
  - rewrite send_if_stopped_run in * by done. destruct (ss_samples _ _ _ _ _ Hw) as [log Hlog].
    destruct (send_ok k w log) as (r & w1 & new & H1 & _); [|done|by right|].
    { split; [by eapply sensor_isr_ready|]. by rewrite (ss_kconfig _ _ _ _ _ Hw). }
    rewrite H1 in *. by exists w1.
  - exists w. split; [|done]. unfold send_if_stopped. rewrite (bind_ok _ _ _ _ _ (lock_ongoing_ok _ Hl)).
    erewrite bind_ok by reflexivity. cbn [st with_st with_ongoing_lock ongoing]. rewrite (proj2 (Z.eqb_neq _ _) Ho).
    rewrite unlock_ongoing_ok by done. f_equal. destruct w as [[] ? ?]. simpl in *. by subst.
Qed.

(** However long the caller is ready to wait, the call is its first turn, and
    then pauses and further turns until one returns. *)

Theorem read_in_turns fuel buf kc kt w : unlocked_config kc -> sensor_state kc kt false false w ->
  hc_sr04_read fuel buf w = (read_begin buf ≫= go_on fuel buf) w.
Proof.
  intros Hk Hw. pose proof (ss_kconfig _ _ _ _ _ Hw) as Ek. assert (unlocked_config (kconfig (st w))) as Hu by (by rewrite Ek).
  unfold mbind at 1, M_bind at 1. unfold read_begin, pausing, hc_sr04_read. rewrite !peek_kconfig by done.
  change (mode (the_mode (with_kconfig_lock true (st w)))) with (mode (the_mode (st w))).
  destruct (mode (the_mode (st w)) =? ONE_SHOT) eqn:Hm; rewrite !(bind_ok _ _ _ _ _ (unpeek_kconfig _ Hu)).
  - destruct (send_if_stopped_returns 5 kc kt w Hk Hw) as (w1 & H1 & Hw1). rewrite !(bind_ok _ _ _ _ _ H1).
    etrans; [exact (spin_turns fuel buf w1)|]. unfold mbind at 1, M_bind at 1. unfold read_spin, pausing, end_read.
    destruct ((spin_ongoing 0 ;; _) w1) as [| |w2] eqn:H2; [done..|].
    assert (w2 = w1) as ->.
    { revert H2. unfold mbind at 1, M_bind at 1. cbn [spin_ongoing]. unfold mbind at 1, M_bind at 1. cbn [get_st gets].
      destruct (ongoing (st w1) =? ONGOING); [by intros [= ->]|]. intros H2. by destruct (end_read_ends buf w1 w2). }
    assert (mode (the_mode (st w1)) = mode (the_mode (st w))) as ->.
    { unfold the_mode. by rewrite (ss_kconfig _ _ _ _ _ Hw1), Ek. }
    by rewrite Hm.
  - destruct (ss_samples _ _ _ _ _ Hw) as [log Hs]. rewrite !(peek_run _ log) by done.
    destruct (negb _) eqn:Hn.
    + destruct ((v ← load_data _; _) _) as [| |w2] eqn:H2; [done..|]. by destruct (copy_now_ends _ _ _ _ H2).
    + rewrite !(bind_ok _ _ _ _ _ (unpeek_run w log Hs)). etrans; [by apply (wake_turns fuel buf kc kt w)|].
      unfold mbind at 1, M_bind at 1. unfold read_wake, pausing, end_read.
      destruct ((wait_sample 0 ;; _) w) as [| |w2] eqn:H2; [done..|].
      assert (w2 = w) as ->.
      { revert H2. unfold mbind at 1, M_bind at 1. rewrite (wait_sample_run 0 w log Hs).
        destruct (newest (cirb (st w)) =? -1); [by intros [= ->]|]. intros H2. by destruct (end_read_ends buf w w2). }
      by rewrite Hm.
Qed.
End turns.
