(* ===== verification/SensorIdle.v ===== *)
(** * The distance sensor: calls from one rest to the next

    When the sensor answers, every call of the test program returns and
    leaves the sensor at rest.  What it does to mode, thread and samples is
    computed on [adev]. *)

From S2P Require Import Prelude Ring Kernel UserMemory HwPins HwPinsSpec Sensor SensorProofs SensorSpec.
From S2P Require Import SensorCalls SensorRead SensorEcho SensorTest SensorTurns.

(** A sensor as the program sees it. *)

Record adev := {
  a_open : bool;            (* its file is open *)
  a_mode : Z;
  a_freq : Z;
  a_thread : bool;          (* the periodic thread runs *)
  a_sample : bool           (* there is a sample *)
}.

#[export] Instance adev_eq_dec : EqDecision adev.
Proof. solve_decision. Defined.

Definition opened (a : adev) : adev :=
  {| a_open := true; a_mode := a_mode a; a_freq := a_freq a; a_thread := a_thread a; a_sample := a_sample a |}.

Definition in_mode (m f : Z) (a : adev) : adev :=
  {| a_open := a_open a; a_mode := m; a_freq := f; a_thread := a_thread a; a_sample := a_sample a |}.

Definition threaded (b : bool) (a : adev) : adev :=
  {| a_open := a_open a; a_mode := a_mode a; a_freq := a_freq a; a_thread := b; a_sample := a_sample a |}.

Definition sampled (a : adev) : adev :=
  {| a_open := a_open a; a_mode := a_mode a; a_freq := a_freq a; a_thread := a_thread a; a_sample := true |}.

Record at_rest (tl : bool) (a : adev) (h : hcsr) : Prop := {
  ar_ongoing_lock : ongoing_lock h = false;
  ar_config : unlocked_config (kconfig h);
  ar_kthread_lock : kthread_lock h = tl;
  ar_irq_lock : irq_done_lock h = false;
  ar_ongoing : ongoing h = STOPPING;
  ar_mode : mode (the_mode h) = a_mode a;
  ar_freq : freq (the_mode h) = a_freq a;
  ar_thread : kthread h = if a_thread a then Some (Thread (1000 / a_freq a)) else None;
  ar_samples : exists log, samples_ok (cirb h) log /\ (a_sample a = true <-> log <> [])
}.

Section idle.
Context {U : Type} {UM : UserMemory U} {E : Environment} {IC : IoctlCode}.
Context {V : SensorVariant U} {SL : SensorLaws V} {EL : EchoLaws V}.
Implicit Types (w : sys U hcsr) (a : adev) (u : U).

(** [tl] is the state of [kthread_lock], which [write] holds for a while. *)

Record resting (tl : bool) a u w : Prop := { id_rest : at_rest tl a (st w); id_user : user w = u }.

#[local] Abbreviation idle := (resting false).

Lemma idle_ready tl a u w : resting tl a u w -> send_ready (st w).
Proof.
  intros [[] _]. destruct ar_samples0 as (log & (_ & _ & Hc) & _). split; [done|]. by intros _.
Qed.

Lemma idle_state a u w : idle a u w -> sensor_state (kconfig (st w)) (kthread (st w)) false false w.
Proof.
  intros [[] _]. destruct ar_samples0 as (log & Hs & _). constructor; try done; [by right|by exists log].
Qed.

(** A measurement: only the samples are new. *)

Lemma measured_idle tl a u w w' log d :
  resting tl a u w -> measured w w' log [d] -> ongoing (st w') = STOPPING -> resting tl (sampled a) u w'.
Proof.
  intros [[] Hu] M Ho. destruct (measured_fields _ _ _ _ M) as (H1 & H2 & H3 & H4 & _ & H6 & H7).
  split; [|by rewrite (me_user _ _ _ _ M)]. unfold the_mode, unlocked_config in *.
  constructor; unfold the_mode, unlocked_config; cbn [sampled a_mode a_freq a_thread a_sample]; try congruence.
  exists (log ++ [d]). split; [done|]. split; [|done]. by destruct log.
Qed.

Definition total {A} (P : sys U hcsr -> Prop) (m : M (sys U hcsr) A) (Q : A -> sys U hcsr -> Prop) : Prop :=
  forall w, P w -> exists r w', m w = Ok r w' /\ Q r w'.

Lemma total_bind {A B} P (m : M (sys U hcsr) A) (k : A -> M (sys U hcsr) B) Q R :
  total P m Q -> (forall r, total (Q r) (k r) R) -> total P (m ≫= k) R.
Proof.
  intros Hm Hk w Hw. destruct (Hm w Hw) as (r & w1 & H1 & Hw1). rewrite (bind_ok _ _ _ _ _ H1). by apply Hk.
Qed.

Lemma total_ret {A} (P : sys U hcsr -> Prop) (r : A) : total P (mret r) (fun r' w => r' = r /\ P w).
Proof. intros w Hw. by exists r, w. Qed.

Context (echo : answering).

Lemma send_total k tl a u : total (resting tl a u) (send k) (fun r w => r = 0 /\ resting tl (sampled a) u w).
Proof.
  intros w Hw. pose proof (ar_samples _ _ _ (id_rest _ _ _ _ Hw)) as (log & Hs & _).
  destruct (send_answered k w log echo (idle_ready _ _ _ _ Hw) Hs) as (w' & d & H & M & O & _); [apply Hw|].
  exists 0, w'. split; [done|]. split; [done|]. by eapply measured_idle.
Qed.

Lemma send_if_stopped_total k a u : total (idle a u) (send_if_stopped k) (fun _ => idle (sampled a) u).
Proof.
  intros w Hw. destruct (send_total k false a u w Hw) as (r & w' & H & _ & Hw'). exists tt, w'. split; [|done].
  rewrite send_if_stopped_run by apply Hw. by rewrite H.
Qed.

(** ** The turns of the drivers' threads *)

Lemma thread_turn_total a u :
  total (idle a u) thread_turn (fun _ => idle (if a_thread a then sampled a else a) u).
Proof.
  intros w Hw. unfold thread_turn. erewrite bind_ok by reflexivity. rewrite (ar_thread _ _ _ (id_rest _ _ _ _ Hw)).
  destruct (a_thread a) eqn:Ht; [|by exists tt, w].
  destruct (send_total 3 false a u w Hw) as (r & w' & H & _ & Hw'). exists tt, w'. split; [|done].
  unfold thread_round. by rewrite (bind_ok _ _ _ _ _ H).
Qed.

Lemma echo_total a u : total (idle a u) (echo_recv_isr ;; mret tt) (fun _ => idle a u).
Proof.
  intros w Hw. exists tt, w. split; [|done]. erewrite bind_ok by (apply isr_idle; apply Hw). done.
Qed.

(** ** [read] *)

Definition stored_to (buf : Z) u u' : Prop := exists bs, length bs = 4%nat /\ u' = (store u buf bs).1.

Lemma end_read_total buf a u : writable u buf 4 -> a_sample a = true ->
  total (idle a u) (end_read buf) (fun r w => r = 0 /\ exists u', stored_to buf u u' /\ idle a u' w).
Proof.
  intros Hb Ha w Hw. pose proof (ar_samples _ _ _ (id_rest _ _ _ _ Hw)) as (log & Hs & Hne). apply Hne in Ha.
  pose proof (copy_newest_run buf w log Hs) as Hc. destruct (last log) as [d|] eqn:Hl; [|by apply last_None in Hl].
  pose proof (id_user _ _ _ _ Hw) as Hu. rewrite Hu in Hc. rewrite Hb in Hc by apply length_le_bytes.
  eexists 0, _. split; [unfold end_read; rewrite (bind_ok _ _ _ _ _ Hc); reflexivity|]. split; [done|].
  eexists. split; [by exists (put_int d)|]. split; [apply Hw|done].
Qed.
Lemma idle_peek_kconfig {A} a u w (k : hcsr -> M (sys U hcsr) A) : idle a u w ->
  (lock_kconfig ;; h ← get_st; k h) w = k (with_kconfig_lock true (st w)) (with_st (with_kconfig_lock true (st w)) w) /\
  unlock_kconfig (with_st (with_kconfig_lock true (st w)) w) = Ok tt w /\
  mode (the_mode (with_kconfig_lock true (st w))) = a_mode a.
Proof.
  intros [R _]. pose proof (ar_config _ _ _ R). split; [by apply peek_kconfig|]. split; [by apply unpeek_kconfig|apply R].
Qed.

Definition read_back (buf : Z) a u (p : progress) w : Prop :=
  p = Returned 0 /\ exists u', stored_to buf u u' /\ idle a u' w.

(** Before the first sample a read in periodic mode sleeps. *)

Definition reads (buf : Z) a u (p : progress) w : Prop :=
  if a_mode a =? ONE_SHOT then read_back buf (sampled a) u p w
  else if a_sample a then read_back buf a u p w
  else p = Sleeping /\ idle a u w.

Lemma idle_newest a u w : idle a u w ->
  exists log, samples_ok (cirb (st w)) log /\ (newest (cirb (st w)) =? -1) = negb (a_sample a) /\
    (a_sample a = true -> exists d, last log = Some d).
Proof.
  intros [R _]. destruct (ar_samples _ _ _ R) as (log & Hs & Hne). exists log. split; [done|].
  rewrite (samples_none _ _ Hs). split.
  - case_bool_decide as Hl; destruct (a_sample a); cbn [negb]; try done; [by destruct Hne as [Hne _]; destruct Hne|].
    by destruct Hne as [_ Hne]; discriminate Hne.
  - intros Ha%Hne. destruct (last log) as [d|] eqn:Hl; [by exists d|]. by apply last_None in Hl.
Qed.

Lemma read_wake_total buf a u : writable u buf 4 ->
  total (idle a u) (read_wake buf) (fun p w => if a_sample a then read_back buf a u p w else p = Sleeping /\ idle a u w).
Proof.
  intros Hb w Hw. destruct (idle_newest a u w Hw) as (log & Hs & Hn & _). rewrite (read_wake_run _ _ log Hs), Hn.
  destruct (a_sample a) eqn:Ha; cbn [negb]; [|by exists Sleeping, w].
  destruct (end_read_total buf a u Hb Ha w Hw) as (r & w' & H & -> & Hu). rewrite (bind_ok _ _ _ _ _ H).
  by exists (Returned 0), w'.
Qed.

Lemma read_begin_total buf a u : writable u buf 4 -> total (idle a u) (read_begin buf) (reads buf a u).
Proof.
  intros Hb w Hw. unfold read_begin, pausing, hc_sr04_read, reads.
  match goal with |- context [(lock_kconfig ;; h ← get_st; @?k h) w] => destruct (idle_peek_kconfig a u w k Hw) as (-> & Hu & Hm) end.
  cbn beta. rewrite Hm. destruct (a_mode a =? ONE_SHOT) eqn:Hshot; rewrite (bind_ok _ _ _ _ _ Hu).
  - destruct (send_if_stopped_total 5 a u w Hw) as ([] & w1 & H1 & Hw1). rewrite (bind_ok _ _ _ _ _ H1).
    rewrite (bind_ok _ _ _ _ _ (spin_stopped 0 w1 (ar_ongoing _ _ _ (id_rest _ _ _ _ Hw1)))).
    destruct (end_read_total buf (sampled a) u Hb eq_refl w1 Hw1) as (r & w2 & H2 & -> & H). unfold end_read in H2. rewrite H2.
    by exists (Returned 0), w2.
  - destruct (idle_newest a u w Hw) as (log & Hs & Hn & Hl). rewrite (peek_run _ log) by done.
    change (newest (cirb (with_cirb_lock true (st w))) =? -1) with (newest (cirb (st w)) =? -1). rewrite Hn, negb_involutive.
    destruct (a_sample a) eqn:Ha.
    + destruct (Hl eq_refl) as [d Hd]. rewrite (copy_now_run buf w log d) by done. eexists (Returned 0), _. split; [done|].
      split; [done|]. eexists. split; [by exists (put_int d)|]. split; [apply Hw|cbn; by rewrite (id_user _ _ _ _ Hw)].
    + rewrite (bind_ok _ _ _ _ _ (unpeek_run w log Hs)). unfold mbind at 1, M_bind at 1.
      rewrite (wait_sample_run 0 w log Hs), Hn. cbn [negb]. exists Sleeping, w. split; [|done].
      change (mode (the_mode (st w))) with (mode (the_mode (with_kconfig_lock true (st w)))). by rewrite Hm, Hshot.
Qed.

(** ** [write] *)

Lemma clear_total a u : total (idle a u) clear_samples
  (fun _ => idle {| a_open := a_open a; a_mode := a_mode a; a_freq := a_freq a; a_thread := a_thread a; a_sample := false |} u).
Proof.
  intros w [R Hu]. destruct (ar_samples _ _ _ R) as (log & (_ & _ & Hc) & _). eexists tt, _. split.
  - unfold clear_samples. erewrite bind_ok by (apply spin_lock_ok; exact Hc). erewrite bind_ok by reflexivity.
    by apply spin_unlock_ok.
  - split; [|done]. destruct R. constructor; try done. exists []. split; [done|]. by split.
Qed.

(** The thread that [write] starts has the period of the frequency. *)

Lemma kthread_run_total tl a u : a_freq a <> 0 -> (forall t, reply t Kthread_run = 0) ->
  total (resting tl a u) kthread_run (fun t w => t = Thread (1000 / a_freq a) /\ resting tl a u w).
Proof.
  intros Hf Hk w [R Hu]. unfold kthread_run. erewrite bind_ok by apply kcall_ok. rewrite Hk. cbn [Z.eqb negb].
  eexists (Thread _), (log_request Kthread_run 0 w). split; [|split; [reflexivity|by split]].
  erewrite bind_ok; [reflexivity|]. unfold thread_function. erewrite bind_ok by reflexivity.
  cbn [log_request st]. rewrite (ar_freq _ _ _ R). by rewrite (proj2 (Z.eqb_neq _ _) Hf).
Qed.

Lemma kthread_stop_total tl a u ms : a_sample a = true ->
  total (resting tl a u) (kthread_stop (Thread ms)) (fun _ => resting tl a u).
Proof.
  intros Ha w Hw. unfold kthread_stop. erewrite bind_ok by apply kcall_ok. set (w1 := log_request _ _ _).
  assert (resting tl a u w1) as Hw1 by (by destruct Hw). destruct (_ =? 0); cbn [negb when]; [by exists tt, w1|].
  destruct (send_total 3 tl a u w1 Hw1) as (r & w' & H & _ & Hw'). exists tt, w'.
  split; [unfold thread_round; by rewrite (bind_ok _ _ _ _ _ H)|]. destruct a. cbn in *. by subst.
Qed.

(** What [write] does, where it is sure to. *)

Definition write_effect (act : Z) a : option adev :=
  if a_mode a =? ONE_SHOT then Some (sampled a)
  else if act =? 0 then (if a_thread a && negb (a_sample a) then None else Some (threaded false a))
  else if a_thread a then Some a
  else if a_freq a =? 0 then None else Some (threaded true a).

Lemma lock_kthread_total a u : total (idle a u) lock_kthread (fun _ => resting true a u).
Proof.
  intros w [R Hu]. eexists tt, _. split; [apply spin_lock_ok, R|]. split; [|done]. destruct R. by constructor.
Qed.

Lemma unlock_kthread_total a u : total (resting true a u) unlock_kthread (fun _ => idle a u).
Proof.
  intros w [R Hu]. eexists tt, _. split; [apply spin_unlock_ok, R|]. split; [|done]. destruct R. by constructor.
Qed.

Lemma set_kthread_total (b : bool) tl a u :
  total (resting tl a u) (modify_st (with_kthread (if b then Some (Thread (1000 / a_freq a)) else None)))
    (fun _ => resting tl (threaded b a) u).
Proof.
  intros w [R Hu]. eexists tt, _. split; [apply modify_st_ok|]. split; [|done]. destruct R. by constructor.
Qed.

Lemma stop_total tl a u :
  total (resting tl a u) (lock_ongoing ;; modify_st (with_ongoing STOPPING) ;; unlock_ongoing) (fun _ => resting tl a u).
Proof.
  intros w [R Hu]. eexists tt, _. split; [apply stop_run, R|]. split; [|done]. destruct R. by constructor.
Qed.

Lemma get_total {A} tl a u (k : hcsr -> M (sys U hcsr) A) Q :
  (forall h, at_rest tl a h -> total (resting tl a u) (k h) Q) -> total (resting tl a u) (h ← get_st; k h) Q.
Proof. intros Hk w Hw. erewrite bind_ok by reflexivity. by apply Hk; [apply Hw|]. Qed.

Lemma write_total buf bs a u a' :
  fetch u buf 4 = (bs, 0) -> (forall t, reply t Kthread_run = 0) -> write_effect (get_int bs) a = Some a' ->
  total (idle a u) (hc_sr04_write buf) (fun r w => r = 0 /\ idle a' u w).
Proof.
  intros Hb Hk Ha w Hw. unfold hc_sr04_write. rewrite (bind_ok _ _ _ _ _ (copy_from_user_ok _ _ _)), (id_user _ _ _ _ Hw), Hb.
  cbn [fst]. cbn zeta.
  match goal with |- context [(lock_kconfig ;; h ← get_st; @?k h) w] => destruct (idle_peek_kconfig a u w k Hw) as (-> & Hu & Hm) end.
  cbn beta. rewrite Hm. unfold write_effect in Ha. destruct (a_mode a =? ONE_SHOT); rewrite (bind_ok _ _ _ _ _ Hu).
  - injection Ha as <-. destruct (get_int bs =? 0); cbn [negb when].
    + erewrite bind_ok by reflexivity. destruct (send_if_stopped_total 5 a u w Hw) as ([] & w2 & H2 & Hw2). rewrite (bind_ok _ _ _ _ _ H2). by exists 0, w2.
    + destruct (clear_total a u w Hw) as ([] & w1 & H1 & Hw1). rewrite (bind_ok _ _ _ _ _ H1).
      destruct (send_if_stopped_total 5 _ u w1 Hw1) as ([] & w2 & H2 & Hw2). rewrite (bind_ok _ _ _ _ _ H2). by exists 0, w2.
  - clear Hu Hm. revert w Hw. eapply total_bind; [apply lock_kthread_total|]. intros [].
    apply get_total. intros h R. rewrite (ar_thread _ _ _ R).
    eapply (total_bind _ _ _ (fun _ => resting true a' u)); [|intros []; eapply total_bind; [apply unlock_kthread_total|]].
    2: { intros [] w Hw. by exists 0, w. }
    destruct (get_int bs =? 0), (a_thread a) eqn:Ht; cbn [andb negb] in Ha.
    + destruct (a_sample a) eqn:Hsm; [|done]. injection Ha as <-. eapply total_bind; [by apply kthread_stop_total|]. intros [].
      eapply total_bind; [apply (set_kthread_total false)|]. intros []. apply stop_total.
    + injection Ha as <-. intros w Hw. exists tt, w. split; [done|]. destruct a. cbn in *. by subst.
    + injection Ha as <-. intros w Hw. by exists tt, w.
    + destruct (Z.eqb_spec (a_freq a) 0); [done|]. injection Ha as <-.
      eapply total_bind; [by apply kthread_run_total|]. intros t w [-> Hw]. by apply (set_kthread_total true).
Qed.

(** ** SETMODE and SETPINS *)

Lemma ioctl_SETMODE_run addr w : hc_sr04_ioctl SETMODE addr w = ioctl_SETMODE addr w.
Proof.
  unfold hc_sr04_ioctl. destruct (Z.eqb_spec SETMODE SETPINS) as [Hn|_]; [|by rewrite Z.eqb_refl].
  by apply ioc_inj in Hn as (_ & _ & ?).
Qed.

Lemma ioctl_SETPINs_run addr w : hc_sr04_ioctl SETPINS addr w = ioctl_SETPINs addr w.
Proof. unfold hc_sr04_ioctl. by rewrite Z.eqb_refl. Qed.

Lemma setmode_total addr bs a u :
  fetch u addr 8 = (bs, 0) -> (mode (get_mode bs) = ONE_SHOT \/ mode (get_mode bs) = PERIODIC) -> a_thread a = false ->
  total (idle a u) (hc_sr04_ioctl SETMODE addr) (fun r w => r = 0 /\ idle (in_mode (mode (get_mode bs)) (freq (get_mode bs)) a) u w).
Proof.
  intros Hb Hm Ht w [R Hu]. rewrite ioctl_SETMODE_run. unfold ioctl_SETMODE.
  rewrite (bind_ok _ _ _ _ _ (copy_from_user_ok _ _ _)), Hu, Hb. cbn [Z.eqb negb]. cbn zeta.
  assert (negb (mode (get_mode bs) =? ONE_SHOT) && negb (mode (get_mode bs) =? PERIODIC) = false) as ->.
  { by destruct Hm as [-> | ->]. }
  pose proof R as []. rewrite Ht in *. erewrite bind_ok by (by apply spin_lock_ok). erewrite bind_ok by reflexivity.
  erewrite bind_ok by (by apply spin_lock_ok). erewrite bind_ok by reflexivity. cbn [st with_st with_kthread_lock kthread with_mode with_kconfig with_kconfig_lock].
  rewrite ar_thread0. erewrite bind_ok by reflexivity. erewrite bind_ok by (by apply spin_unlock_ok).
  erewrite bind_ok by (by apply spin_unlock_ok). eexists 0, _. split; [reflexivity|]. split; [done|]. split; [|done].
  constructor; try done. cbn. by rewrite Ht.
Qed.

(** SETPINS changes the pins and what belongs to their interrupt. *)

Definition pinned (h : hcsr) (u : U) (il : bool) w : Prop :=
  user w = u /\ exists p i n, st w = with_irq_done_lock il (with_irq_done i (with_echo_isr_number n (with_pins p h))).

Lemma pinned_silent {A} (f : M (sys U hcsr) A) h u il : silent f -> total (pinned h u il) f (fun _ => pinned h u il).
Proof.
  intros Hf w [Hu Hw]. destruct (Hf w) as (r & w' & H & [Es Eu] & _). exists r, w'. split; [done|].
  by split; rewrite ?Es, ?Eu.
Qed.

Lemma pinned_modify (f : hcsr -> hcsr) h u il :
  (forall p i n, exists p' i' n', f (with_irq_done_lock il (with_irq_done i (with_echo_isr_number n (with_pins p h)))) =
    with_irq_done_lock il (with_irq_done i' (with_echo_isr_number n' (with_pins p' h)))) ->
  total (pinned h u il) (modify_st f) (fun _ => pinned h u il).
Proof.
  intros Hf w (Hu & p & i & n & Hw). eexists tt, _. split; [apply modify_st_ok|]. split; [done|]. cbn [st with_st].
  rewrite Hw. apply Hf.
Qed.

Lemma pinned_get {A} h u il (k : hcsr -> M (sys U hcsr) A) Q :
  (forall h', total (pinned h u il) (k h') Q) -> total (pinned h u il) (h' ← get_st; k h') Q.
Proof. intros Hk w Hw. erewrite bind_ok by reflexivity. by apply Hk. Qed.

Lemma pinned_unlock h u (r : Z) : total (pinned h u true) (unlock_irq_done ;; mret r) (fun _ => pinned h u false).
Proof.
  intros w (Hu & p & i & n & Hw). eexists r, _. split; [erewrite bind_ok; [reflexivity|]; apply spin_unlock_ok; by rewrite Hw|].
  split; [done|]. exists p, i, n. cbn [st with_st]. by rewrite Hw.
Qed.

Lemma pinned_error r h u : total (pinned h u true) (setpins_error r) (fun _ => pinned h u false).
Proof.
  unfold setpins_error. do 2 (eapply total_bind; [apply pinned_modify; intros p i n; by eexists _, i, n|]; intros ?).
  apply pinned_unlock.
Qed.

Lemma pinned_success h u : total (pinned h u true) setpins_success (fun _ => pinned h u false).
Proof.
  unfold setpins_success. eapply total_bind; [apply pinned_modify; intros p i n; by eexists p, _, n|]. intros ?.
  apply pinned_unlock.
Qed.

Lemma pinned_set_ISR h u : total (pinned h u true) set_ISR (fun _ => pinned h u true).
Proof.
  apply pinned_get. intros h'. eapply total_bind; [apply pinned_silent, silent_call|]. intros r.
  destruct (r <? 0); [apply pinned_silent, silent_ret|].
  eapply total_bind; [apply pinned_modify; intros p i n; by eexists p, i, _|]. intros ?.
  eapply total_bind; [apply pinned_silent, silent_call|]. intros r2. destruct (negb (r2 =? 0)); apply pinned_silent, silent_ret.
Qed.

Lemma pinned_SETPINs addr bs h u : fetch u addr 8 = (bs, 0) -> irq_done_lock h = false ->
  total (fun w => st w = h /\ user w = u) (ioctl_SETPINs addr) (fun _ => pinned h u false).
Proof.
  intros Hb Hl. unfold ioctl_SETPINs.
  eapply (total_bind _ _ _ (fun c w => c = (bs, 0) /\ st w = h /\ user w = u)).
  { intros w [Hst Hu]. eexists _, w. split; [apply copy_from_user_ok|]. by rewrite Hu, Hb. }
  intros c w (-> & Hst & Hu). revert w Hst Hu. cbn [Z.eqb negb].
  assert (forall m : M (sys U hcsr) Z, total (pinned h u true) m (fun _ => pinned h u false) ->
    total (fun w => st w = h /\ user w = u) (lock_irq_done ;; m) (fun _ => pinned h u false)) as Hlock.
  { intros m Hm w [Hst Hu]. erewrite bind_ok by (apply spin_lock_ok; by rewrite Hst). apply Hm. split; [done|].
    exists (the_pins h), (irq_done h), (echo_isr_number h). cbn [st with_st]. rewrite Hst. by destruct h as [? ? ? ? ? ? ? [[] ? ?] ? ? ? ?]. }
  intros w Hst Hu. apply Hlock; [|done]. clear w Hst Hu Hlock. apply pinned_get. intros h'.
  eapply total_bind; [apply pinned_silent; destruct (irq_done h' =? IRQ_DONE); [apply silent_call_|apply silent_ret]|]. intros ?.
  eapply total_bind; [apply pinned_silent, silent_freeTrig|]. intros ?.
  eapply total_bind; [apply pinned_silent, silent_freeEcho|]. intros ?.
  eapply total_bind; [apply pinned_modify; intros p i n; by eexists _, i, n|]. intros ?.
  eapply total_bind; [apply pinned_silent, set_trigger_silent|]. intros ra. destruct (negb (ra =? 0)); [apply pinned_error|].
  eapply total_bind; [apply pinned_silent, silent_setEcho|]. intros rb. destruct (negb (rb =? 0)); [apply pinned_error|].
  eapply total_bind; [apply pinned_set_ISR|]. intros rc. destruct (negb (rc =? 0)); [apply pinned_error|apply pinned_success].
Qed.

Lemma setpins_total addr bs a u : fetch u addr 8 = (bs, 0) ->
  total (idle a u) (hc_sr04_ioctl SETPINS addr) (fun _ => idle a u).
Proof.
  intros Hb w [R Hu]. rewrite ioctl_SETPINs_run.
  destruct (pinned_SETPINs addr bs (st w) u Hb (ar_irq_lock _ _ _ R) w (conj eq_refl Hu)) as (r & w' & H & Hu' & p & i & n & Es).
  exists r, w'. split; [done|]. split; [|done]. rewrite Es. destruct R. by constructor.
Qed.
End idle.
