(* ===== verification/SensorTestProofs.v ===== *)
(** * The sensors' test program: its states

    The interface of a loaded driver, and a finite machine that the program
    follows on it while the sensors answer: where the threads are, what the
    variables hold as far as it is known, and the two sensors as [adev]. *)

From S2P Require Import Prelude Ring Kernel UserMemory HwPins HwPinsSpec Sensor SensorProofs SensorSpec.
From S2P Require Import SensorCalls SensorRead SensorEcho SensorTest SensorTurns SensorIdle.

(** ** What the program relies on

    [loaded]: both sensors are there; [sensor_of], [file_of]: the sensors and
    what the open files are on.  Opening a device file succeeds; a call on a
    node is the call on its sensor and leaves the rest alone. *)

Class DriverLaws {U S} {UM : UserMemory U} {E : Environment} (LD : LoadedDriver U S) := {
  sensor_laws :: SensorLaws variant;
  echo_laws :: EchoLaws variant;
  loaded : S -> Prop;
  sensor_of : S -> sensor_name -> hcsr;
  file_of : S -> loc -> option sensor_name;
  is_node : S -> sensor_name -> node -> Prop;
  node_of_sensor_ok d s : loaded d -> exists x, node_of_sensor d s = Some x /\ is_node d s x;
  node_of_file_ok d f s : loaded d -> file_of d f = Some s -> exists x, node_of_file d f = Some x /\ is_node d s x;
  open_ok s f (w : sys U S) : loaded (st w) ->
    exists d, open_file s f w = Ok 0 (with_st d w) /\ loaded d /\
      (forall s', sensor_of d s' = sensor_of (st w) s') /\
      (forall f', file_of d f' = if decide (f' = f) then Some s else file_of (st w) f');
  on_node_ok {A} s x (m : M (sys U hcsr) A) (w : sys U S) : loaded (st w) -> is_node (st w) s x ->
    exists put : hcsr -> S,
      (forall h, loaded (put h) /\ (forall s', sensor_of (put h) s' = if decide (s' = s) then h else sensor_of (st w) s') /\
        (forall f, file_of (put h) f = file_of (st w) f)) /\
      on_node x m w =
        match m (with_st (sensor_of (st w) s) w) with
        | Ok a w' => Ok a (with_st (put (st w')) w')
        | Crash f w' => Crash f (with_st (put (st w')) w')
        | Blocked w' => Blocked (with_st (put (st w')) w')
        end
}.

#[export] Instance variable_countable : Countable variable.
Proof.
  apply (inj_countable
    (fun x => match x with
      | I t => (0%nat, inl t) | TMP t => (1%nat, inl t)
      | pins_trigger s => (2%nat, inr (bool_decide (s = HCSR_1))) | pins_echo s => (3%nat, inr (bool_decide (s = HCSR_1)))
      | set_mode s => (4%nat, inr (bool_decide (s = HCSR_1))) | set_freq s => (5%nat, inr (bool_decide (s = HCSR_1)))
      | data_mode s => (6%nat, inr (bool_decide (s = HCSR_1))) | data_freq s => (7%nat, inr (bool_decide (s = HCSR_1)))
      end)
    (fun p => let s b := if b : bool then HCSR_1 else HCSR_2 in
      match p with
      | (0%nat, inl t) => Some (I t) | (1%nat, inl t) => Some (TMP t)
      | (2%nat, inr b) => Some (pins_trigger (s b)) | (3%nat, inr b) => Some (pins_echo (s b))
      | (4%nat, inr b) => Some (set_mode (s b)) | (5%nat, inr b) => Some (set_freq (s b))
      | (6%nat, inr b) => Some (data_mode (s b)) | (7%nat, inr b) => Some (data_freq (s b))
      | _ => None
      end)).
  by intros [|[]|[]|[]|[]|[]|[]|[]].
Defined.

(** ** The finite machine *)

Record abs := {
  a_pc : gmap task place;
  a_dev1 : adev;
  a_dev2 : adev;
  a_mem : gmap variable Z
}.

#[export] Instance abs_eq_dec : EqDecision abs.
Proof. solve_decision. Defined.

Definition a_dev (a : abs) (s : sensor_name) : adev := match s with HCSR_1 => a_dev1 a | HCSR_2 => a_dev2 a end.

Definition with_dev (s : sensor_name) (d : adev) (a : abs) : abs :=
  match s with
  | HCSR_1 => {| a_pc := a_pc a; a_dev1 := d; a_dev2 := a_dev2 a; a_mem := a_mem a |}
  | HCSR_2 => {| a_pc := a_pc a; a_dev1 := a_dev1 a; a_dev2 := d; a_mem := a_mem a |}
  end.

Definition with_mem (m : gmap variable Z) (a : abs) : abs :=
  {| a_pc := a_pc a; a_dev1 := a_dev1 a; a_dev2 := a_dev2 a; a_mem := m |}.

Definition goto (t : task) (p : place) (a : abs) : abs :=
  {| a_pc := <[t := p]> (a_pc a); a_dev1 := a_dev1 a; a_dev2 := a_dev2 a; a_mem := a_mem a |}.

Definition next (t : task) (n : nat) (a : abs) : abs := goto t (At (n + 1)) a.

(** The second [int] of a structure. *)

Definition second (x : variable) : option variable :=
  match x with
  | pins_trigger s => Some (pins_echo s)
  | set_mode s => Some (set_freq s)
  | data_mode s => Some (data_freq s)
  | _ => None
  end.

Definition is_mode (m f : Z) : bool :=
  ((m =? ONE_SHOT) || (m =? PERIODIC)) && (0 <=? f) && (f <? 2 ^ 32).

Definition abs_ioctl (s : sensor_name) (c : command) (x : variable) (a : abs) : option abs :=
  y ← second x;
  v ← a_mem a !! x;
  v2 ← a_mem a !! y;
  if a_open (a_dev a s) then
    match c with
    | SETPINS_cmd => Some a
    | SETMODE_cmd =>
        if is_mode v v2 && negb (a_thread (a_dev a s)) then Some (with_dev s (in_mode v v2 (a_dev a s)) a) else None
    end
  else None.

Definition forget (x : variable) (a : abs) : abs := with_mem (delete x (a_mem a)) a.

Definition abs_execute (t : task) (n : nat) (x : statement) (a : abs) : option abs :=
  match x with
  | Assign x v => Some (next t n (with_mem (<[x := v]> (a_mem a)) a))
  | Open s => Some (next t n (with_dev s (opened (a_dev a s)) a))
  | Ioctl s c x | Ioctl_int s c x => next t n <$> abs_ioctl s c x a
  | Write s x =>
      if a_open (a_dev a s) then
        v ← a_mem a !! x;
        d ← write_effect (s32 v) (a_dev a s);
        Some (next t n (with_dev s d a))
      else None
  | Read s x =>
      if a_open (a_dev a s) then
        Some (if a_mode (a_dev a s) =? ONE_SHOT then next t n (forget x (with_dev s (sampled (a_dev a s)) a))
              else if a_sample (a_dev a s) then next t n (forget x a)
              else goto t (Sleeps n) a)
      else None
  | Create t' number =>
      Some (next t n (goto t' (At 0) (match number with Some x => forget x a | None => a end)))
  | Join t' => Some (if finished t' (a_pc a) then next t n a else a)
  end.

Definition abs_task (t : task) (a : abs) : option abs :=
  match a_pc a !! t with
  | None => Some a
  | Some (At n) => match code t !! n with Some x => abs_execute t n x a | None => Some a end
  | Some (Spins n) => None
  | Some (Sleeps n) =>
      match code t !! n with
      | Some (Read s x) =>
          if a_open (a_dev a s) then Some (if a_sample (a_dev a s) then next t n (forget x a) else a) else None
      | _ => None
      end
  end.

Definition abs_turn (b : turn) (a : abs) : option abs :=
  match b with
  | Task t => abs_task t a
  | Echo s => Some a
  | Round s => Some (with_dev s (if a_thread (a_dev a s) then sampled (a_dev a s) else a_dev a s) a)
  end.

(** ** The program follows the machine *)

(** Where the variables are: apart, the structures in one piece, in a 32-bit
    process and writable. *)

Record layout (at_ : variable -> Z) : Prop := {
  la_apart x y : x <> y -> at_ x + 4 <= at_ y \/ at_ y + 4 <= at_ x;
  la_second x y : second x = Some y -> at_ y = at_ x + 4;
  la_word x : 0 <= at_ x < 2 ^ 32
}.

Lemma int_of_pointer p : 0 <= p < 2 ^ 32 -> u32 (s32 p) = p.
Proof.
  intros Hp. unfold s32, wrap. rewrite Zminus_mod_idemp_l. replace (p + 2 ^ 31 - 2 ^ 31) with p by lia. by apply Z.mod_small.
Qed.

Section follows.
Context {U S : Type} {UM : UserMemory U} {E : Environment} {IC : IoctlCode} {LD : LoadedDriver U S} {DL : DriverLaws LD}.
Context (at_ : variable -> Z) (fd : sensor_name -> loc) (pthread : task -> Z).
Context (lay : layout at_) (fd_apart : fd HCSR_1 <> fd HCSR_2).
Context (echo : answering) (thread_starts : forall t, reply t Kthread_run = 0).
Implicit Types (w : sys U S) (a : abs) (u : U).

Lemma fd_inj s s' : fd s = fd s' -> s = s'.
Proof. destruct s, s'; congruence. Qed.

(** *** The program's memory *)

Definition mem_ok (m : gmap variable Z) u : Prop :=
  (forall x v, m !! x = Some v -> fetch u (at_ x) 4 = (put_int v, 0)) /\ (forall x, writable u (at_ x) 4).

Lemma mem_store m u x bs : mem_ok m u -> length bs = 4%nat -> mem_ok (delete x m) (store u (at_ x) bs).1.
Proof.
  intros [Hm Hw] Hl. split; [|intros y; by apply writable_store].
  intros y v [Hne Hy]%lookup_delete_Some. rewrite <- (Hm y v Hy).
  apply (fetch_store_ne u (at_ x) bs _ (store u (at_ x) bs).2); [by destruct (store u (at_ x) bs)|].
  rewrite Hl. destruct (la_apart _ lay x y Hne); [by right|by left].
Qed.

Lemma mem_assign m u x v : mem_ok m u -> mem_ok (<[x := v]> m) (store u (at_ x) (put_int v)).1.
Proof.
  intros Hm. destruct (mem_store m u x (put_int v) Hm eq_refl) as [Hd Hw]. split; [|done].
  intros y v'. destruct (decide (x = y)) as [<-|Hne].
  - rewrite lookup_insert_eq. intros [= <-]. pose proof (proj2 Hm x (put_int v) eq_refl) as Hs.
    change 4%nat with (length (put_int v)). apply (fetch_store u); [apply put_int_bytes|].
    destruct (store u (at_ x) (put_int v)) as [u' r]. cbn in *. by subst.
  - rewrite lookup_insert_ne by done. intros Hy. apply Hd. by rewrite lookup_delete_ne.
Qed.

Lemma mem_struct m u x y v v2 : mem_ok m u -> second x = Some y -> m !! x = Some v -> m !! y = Some v2 ->
  fetch u (at_ x) 8 = (put_int v ++ put_int v2, 0).
Proof.
  intros [Hm _] Hy Hx H2. apply (fetch_app u (at_ x) 4 4); [by apply Hm|].
  change (Z.of_nat 4) with 4. rewrite <- (la_second _ lay x y Hy). by apply Hm.
Qed.

Lemma mem_writes m u x bs : mem_ok m u -> length bs = 4%nat -> (store u (at_ x) bs).2 = 0.
Proof. intros [_ Hw]. apply Hw. Qed.

(** *** The machine's state *)

Record follows a w : Prop := {
  fo_loaded : loaded (st w);
  fo_dev s : at_rest false (a_dev a s) (sensor_of (st w) s);
  fo_open s : a_open (a_dev a s) = true -> file_of (st w) (fd s) = Some s;
  fo_mem : mem_ok (a_mem a) (user w)
}.

(** [w'] is [w] after a call on sensor [s] alone. *)

Definition after (s : sensor_name) (wh : sys U hcsr) w w' : Prop :=
  loaded (st w') /\ (forall s', sensor_of (st w') s' = if decide (s' = s) then st wh else sensor_of (st w) s') /\
  (forall f, file_of (st w') f = file_of (st w) f) /\ user w' = user wh.

Lemma on_node_run {A} a w s x (m : M (sys U hcsr) A) Q :
  follows a w -> is_node (st w) s x -> total (resting false (a_dev a s) (user w)) m Q ->
  exists r w' wh, on_node x m w = Ok r w' /\ Q r wh /\ after s wh w w'.
Proof.
  intros F Hx Hm. destruct (on_node_ok s x m w (fo_loaded _ _ F) Hx) as (put & Hput & ->).
  destruct (Hm (with_st (sensor_of (st w) s) w)) as (r & wh & -> & HQ); [split; [apply F|done]|].
  exists r, (with_st (put (st wh)) wh), wh. split; [done|]. split; [done|]. destruct (Hput (st wh)) as (H1 & H2 & H3). done.
Qed.

Lemma on_file_run {A} a w s closed (m : M (sys U hcsr) A) Q :
  follows a w -> a_open (a_dev a s) = true -> total (resting false (a_dev a s) (user w)) m Q ->
  exists r w' wh, on_file fd s closed m w = Ok r w' /\ Q r wh /\ after s wh w w'.
Proof.
  intros F Ho Hm. destruct (node_of_file_ok (st w) (fd s) s (fo_loaded _ _ F) (fo_open _ _ F s Ho)) as (x & Hx & Hn).
  unfold on_file. erewrite bind_ok by reflexivity. rewrite Hx. by apply (on_node_run a).
Qed.

Lemma on_sensor_run a w s (m : M (sys U hcsr) unit) Q :
  follows a w -> total (resting false (a_dev a s) (user w)) m Q ->
  exists r w' wh, on_sensor s m w = Ok r w' /\ Q r wh /\ after s wh w w'.
Proof.
  intros F Hm. destruct (node_of_sensor_ok (st w) s (fo_loaded _ _ F)) as (x & Hx & Hn).
  unfold on_sensor. erewrite bind_ok by reflexivity. rewrite Hx. by apply (on_node_run a).
Qed.

Lemma after_follows a w w' s wh d u m : follows a w -> after s wh w w' -> resting false d u wh ->
  (a_open d = true -> a_open (a_dev a s) = true) -> mem_ok m u -> follows (with_mem m (with_dev s d a)) w'.
Proof.
  intros F (Hl & Hs & Hf & Hu) [R Hwu] Ho Hm. split.
  - done.
  - intros s'. rewrite Hs. destruct (decide (s' = s)) as [->|Hne]; [by destruct s|].
    replace (a_dev (with_mem m (with_dev s d a)) s') with (a_dev a s') by (by destruct s, s'). apply F.
  - intros s' Hs'. rewrite Hf. apply F. by destruct s, s'; try apply Ho.
  - rewrite Hu, Hwu. by destruct s.
Qed.
(** *** The calls *)

Lemma with_mem_same a s d : with_mem (a_mem a) (with_dev s d a) = with_dev s d a.
Proof. by destruct a, s. Qed.

Lemma with_dev_same a s : with_dev s (a_dev a s) a = a.
Proof. by destruct a, s. Qed.

Lemma is_mode_ok v f : is_mode v f = true -> (v = ONE_SHOT \/ v = PERIODIC) /\ 0 <= f < 2 ^ 32.
Proof.
  unfold is_mode. intros [[[H|H]%orb_true_iff H1]%andb_true_iff H2]%andb_true_iff; apply Z.eqb_eq in H; apply Z.leb_le in H1;
    apply Z.ltb_lt in H2; (split; [|done]); [by left|by right].
Qed.

Lemma get_mode_put v f : is_mode v f = true -> get_mode (put_int v ++ put_int f) = {| mode := v; freq := f |}.
Proof.
  intros [Hv Hf]%is_mode_ok. unfold get_mode. rewrite get_put_int, drop_app_length' by done. f_equal.
  - by destruct Hv as [-> | ->].
  - rewrite take_ge by done. unfold put_int. rewrite le_value_bytes. by apply Z.mod_small.
Qed.

Lemma ioctl_run a a' w s c x : follows a w -> abs_ioctl s c x a = Some a' ->
  exists r w', on_file fd s (- EBADF) (hc_sr04_ioctl (command_number c) (at_ x)) w = Ok r w' /\ follows a' w' /\
    (r = 0 \/ c = SETPINS_cmd).
Proof.
  intros F Ha. unfold abs_ioctl in Ha. apply bind_Some in Ha as (y & Hy & (v & Hv & (v2 & Hv2 & Ha)%bind_Some)%bind_Some).
  pose proof (mem_struct _ _ x y v v2 (fo_mem _ _ F) Hy Hv Hv2) as Hb.
  destruct (a_open (a_dev a s)) eqn:Ho; [|done]. destruct c; cbn [command_number].
  - injection Ha as <-. destruct (on_file_run a w s (- EBADF) _ _ F Ho (setpins_total _ _ (a_dev a s) _ Hb))
      as (r & w' & wh & H & Hi & Haf).
    exists r, w'. split; [done|]. split; [|by right]. rewrite <- (with_dev_same a s), <- with_mem_same.
    by eapply (after_follows a w w' s wh); [..|apply F].
  - destruct (is_mode v v2) eqn:Hm, (a_thread (a_dev a s)) eqn:Ht; try done. injection Ha as <-.
    pose proof (setmode_total _ _ (a_dev a s) _ Hb) as Hset. rewrite get_mode_put in Hset by done. cbn [mode freq] in Hset.
    destruct (on_file_run a w s (- EBADF) _ _ F Ho (Hset (proj1 (is_mode_ok _ _ Hm)) Ht)) as (r & w' & wh & H & [-> Hi] & Haf).
    exists 0, w'. split; [done|]. split; [|by left]. rewrite <- with_mem_same. by eapply (after_follows a w w' s wh); [..|apply F].
Qed.

Lemma write_effect_open act d d' : write_effect act d = Some d' -> a_open d' = a_open d.
Proof. unfold write_effect. intros H. by repeat case_match; simplify_eq. Qed.

Lemma write_run a w s x v d : follows a w -> a_open (a_dev a s) = true -> a_mem a !! x = Some v ->
  write_effect (s32 v) (a_dev a s) = Some d ->
  exists w', on_file fd s (- EBADF) (hc_sr04_write (at_ x)) w = Ok 0 w' /\ follows (with_dev s d a) w'.
Proof.
  intros F Ho Hv Hd. pose proof (proj1 (fo_mem _ _ F) x v Hv) as Hb.
  assert (write_effect (get_int (put_int v)) (a_dev a s) = Some d) as Hd'.
  { by rewrite <- (app_nil_r (put_int v)), get_put_int. }
  destruct (on_file_run a w s (- EBADF) _ _ F Ho (write_total echo _ _ _ _ _ Hb thread_starts Hd')) as (r & w' & wh & H & [-> Hi] & Haf).
  exists w'. split; [done|]. rewrite <- with_mem_same. eapply (after_follows a w w' s wh); [done..| |apply F].
  by rewrite (write_effect_open _ _ _ Hd).
Qed.

(** A read that returned has changed its variable. *)

Lemma read_back_follows a w w' s wh x p d : follows a w -> after s wh w w' ->
  read_back (at_ x) d (user w) p wh -> a_open d = a_open (a_dev a s) ->
  p = Returned 0 /\ follows (forget x (with_dev s d a)) w'.
Proof.
  intros F Haf (-> & u' & (bs & Hl & ->) & Hi) Ho. split; [done|]. unfold forget.
  replace (a_mem (with_dev s d a)) with (a_mem a) by (by destruct s).
  eapply (after_follows a w w' s wh); [done..|by rewrite Ho|]. apply mem_store; [apply F|done].
Qed.

Lemma read_run a w s x : follows a w -> a_open (a_dev a s) = true ->
  exists p w', on_file fd s (Returned (- EBADF)) (read_begin (at_ x)) w = Ok p w' /\
    if a_mode (a_dev a s) =? ONE_SHOT then p = Returned 0 /\ follows (forget x (with_dev s (sampled (a_dev a s)) a)) w'
    else if a_sample (a_dev a s) then p = Returned 0 /\ follows (forget x a) w'
    else p = Sleeping /\ follows a w'.
Proof.
  intros F Ho. destruct (on_file_run a w s (Returned (- EBADF)) _ _ F Ho (read_begin_total echo (at_ x) _ _ (proj2 (fo_mem _ _ F) x)))
    as (p & w' & wh & H & Hr & Haf).
  exists p, w'. split; [done|]. unfold reads in Hr.
  destruct (a_mode (a_dev a s) =? ONE_SHOT); [by eapply read_back_follows|].
  destruct (a_sample (a_dev a s)).
  - rewrite <- (with_dev_same a s). by eapply read_back_follows.
  - destruct Hr as [-> Hi]. split; [done|]. rewrite <- (with_dev_same a s), <- with_mem_same.
    by eapply (after_follows a w w' s wh); [..|apply F].
Qed.

Lemma wake_run a w s x : follows a w -> a_open (a_dev a s) = true ->
  exists p w', on_file fd s (Returned (- EBADF)) (read_wake (at_ x)) w = Ok p w' /\
    if a_sample (a_dev a s) then p = Returned 0 /\ follows (forget x a) w' else p = Sleeping /\ follows a w'.
Proof.
  intros F Ho. destruct (on_file_run a w s (Returned (- EBADF)) _ _ F Ho (read_wake_total (at_ x) _ _ (proj2 (fo_mem _ _ F) x)))
    as (p & w' & wh & H & Hr & Haf).
  exists p, w'. split; [done|]. destruct (a_sample (a_dev a s)).
  - rewrite <- (with_dev_same a s). by eapply read_back_follows.
  - destruct Hr as [-> Hi]. split; [done|]. rewrite <- (with_dev_same a s), <- with_mem_same.
    by eapply (after_follows a w w' s wh); [..|apply F].
Qed.

Lemma assign_run a w x v : follows a w ->
  exists w', write_user (at_ x) (put_int v) w = Ok tt w' /\ follows (with_mem (<[x := v]> (a_mem a)) a) w'.
Proof.
  intros [? ? ? Hm]. eexists. unfold write_user. rewrite (mem_writes _ _ x (put_int v) Hm eq_refl). split; [reflexivity|].
  by split; try apply mem_assign.
Qed.

Lemma open_run a w s : follows a w ->
  exists w', open_file s (fd s) w = Ok 0 w' /\ follows (with_dev s (opened (a_dev a s)) a) w'.
Proof.
  intros F. destruct (open_ok s (fd s) w (fo_loaded _ _ F)) as (d & H & Hl & Hs & Hf). eexists. split; [done|]. split.
  - done.
  - intros s'. cbn [st with_st]. rewrite Hs. pose proof (fo_dev _ _ F s') as R.
    destruct (decide (s' = s)) as [->|Hne]; [|by destruct s, s'].
    replace (a_dev (with_dev s _ a) s) with (opened (a_dev a s)) by (by destruct s). destruct R. by constructor.
  - intros s' Ho. cbn [st with_st]. rewrite Hf. destruct (decide (fd s' = fd s)) as [Hfd|Hne]; [by rewrite (fd_inj _ _ Hfd)|].
    apply F. by destruct s, s'.
  - destruct s; apply F.
Qed.
End follows.
