(* ===== verification/SensorTestRuns.v ===== *)
(** * The sensors' test program: all its schedules

    The states of the finite machine are computed once; every schedule of the
    program stays among them, and each round of turns brings it further. *)

From S2P Require Import Prelude Ring Kernel UserMemory HwPins HwPinsSpec Sensor SensorProofs SensorSpec.
From S2P Require Import SensorCalls SensorRead SensorEcho SensorTest SensorTurns SensorIdle SensorTestProofs.

(** ** One turn *)

(** Every call returned 0, but setting the pins may be refused. *)

Definition sets_pins (x : statement) : bool :=
  match x with Ioctl _ SETPINS_cmd _ | Ioctl_int _ SETPINS_cmd _ => true | _ => false end.

Definition call_ok (c : task * nat * Z) : Prop :=
  c.2 = 0 \/ exists x, code c.1.1 !! c.1.2 = Some x /\ sets_pins x = true.

Section turn.
Context {U S : Type} {UM : UserMemory U} {E : Environment} {IC : IoctlCode} {LD : LoadedDriver U S} {DL : DriverLaws LD}.
Context (at_ : variable -> Z) (fd : sensor_name -> loc) (pthread : task -> Z).
Context (lay : layout at_) (fd_apart : fd HCSR_1 <> fd HCSR_2).
Context (echo : answering) (thread_starts : forall t, reply t Kthread_run = 0).
Implicit Types (w : sys U S) (a : abs) (s : test U S).

Record sim a s : Prop := {
  si_machine : follows at_ fd a (machine s);
  si_pc : pc s = a_pc a;
  si_returned : Forall call_ok (returned s)
}.

(** The turn ends in a state of the machine, or passes there. *)

Definition ends_in a (o : outcome (test U S) unit) : Prop :=
  match o with
  | Ok _ s | Blocked s => sim a s
  | Crash _ _ => False
  end.

Lemma follows_goto t p a w : follows at_ fd (goto t p a) w <-> follows at_ fd a w.
Proof.
  split; intros [? Hd Ho ?]; (split; [done|intros b; specialize (Hd b); by destruct b|intros b; specialize (Ho b); by destruct b|done]).
Qed.

Lemma on_machine_run {A} (m : M (sys U S) A) (k : A -> M (test U S) unit) s r w :
  m (machine s) = Ok r w ->
  (on_machine m ≫= k) s = k r {| machine := w; pc := pc s; returned := returned s |}.
Proof. intros H. unfold mbind, M_bind, on_machine. by rewrite H. Qed.

Lemma return_sim a w s t n r : pc s = a_pc a -> Forall call_ok (returned s) -> follows at_ fd a w -> call_ok (t, n, r) ->
  ends_in (next t n a) (return_ t n r {| machine := w; pc := pc s; returned := returned s |}).
Proof. intros Hp Hr F Hc. split; cbn; [by apply follows_goto|by rewrite Hp|by constructor]. Qed.

Lemma place_sim a w s t p : pc s = a_pc a -> Forall call_ok (returned s) -> follows at_ fd a w ->
  ends_in (goto t p a) (place_at t p {| machine := w; pc := pc s; returned := returned s |}).
Proof. intros Hp Hr F. split; cbn; [by apply follows_goto|by rewrite Hp|done]. Qed.

Lemma returns_zero t n : call_ok (t, n, 0).
Proof. by left. Qed.

(** [a'] differs from [a] in sensors and memory only. *)

Lemma same_pc_dev b d a : a_pc (with_dev b d a) = a_pc a.
Proof. by destruct b. Qed.

Lemma abs_ioctl_pc b c x a a' : abs_ioctl b c x a = Some a' -> a_pc a' = a_pc a.
Proof.
  unfold abs_ioctl. intros (y & _ & (v & _ & (v2 & _ & H)%bind_Some)%bind_Some)%bind_Some.
  destruct (a_open (a_dev a b)), c; try done; [by injection H as <-|]. destruct (_ && _); [|done]. injection H as <-.
  apply same_pc_dev.
Qed.

Lemma ioctl_sim a a' s t n b c x arg : sim a s -> arg = at_ x -> abs_ioctl b c x a = Some a' ->
  (c = SETPINS_cmd -> exists y, code t !! n = Some y /\ sets_pins y = true) ->
  ends_in (next t n a') ((r ← ioctl fd b c arg; return_ t n r) s).
Proof.
  intros [F Hp Hr] -> Ha Hc. destruct (ioctl_run at_ fd lay a a' (machine s) b c x F Ha) as (r & w & H & F' & Hz).
  unfold ioctl. rewrite (on_machine_run _ _ _ _ _ H). apply return_sim; [by rewrite (abs_ioctl_pc _ _ _ _ _ Ha)|done..|].
  destruct Hz as [->|Hs]; [by left|]. right. by apply Hc.
Qed.

Lemma execute_sim a a' s t n x : sim a s -> code t !! n = Some x -> abs_execute t n x a = Some a' ->
  ends_in a' (execute at_ fd pthread t n x s).
Proof.
  intros Hs Hx Ha. pose proof Hs as [F Hp Hr]. destruct x as [x v|b|b c x|b c x|b x|b x|t' [x|]|t']; cbn [abs_execute execute] in *.
  - injection Ha as <-. destruct (assign_run at_ fd lay a (machine s) x v F) as (w & H & F').
    rewrite (on_machine_run _ _ _ _ _ H). by apply place_sim.
  - injection Ha as <-. destruct (open_run at_ fd fd_apart a (machine s) b F) as (w & H & F').
    rewrite (on_machine_run _ _ _ _ _ H). apply return_sim; [by rewrite same_pc_dev|done|done|apply returns_zero].
  - apply fmap_Some in Ha as (a1 & Ha & ->). apply (ioctl_sim a a1 s t n b c x); [done..|]. intros ->. by eexists.
  - apply fmap_Some in Ha as (a1 & Ha & ->). apply (ioctl_sim a a1 s t n b c x); [done| |done|].
    + apply int_of_pointer, (la_word _ lay).
    + intros ->. by eexists.
  - destruct (a_open (a_dev a b)) eqn:Ho; [|done]. apply bind_Some in Ha as (v & Hv & (d & Hd & [= <-])%bind_Some).
    destruct (write_run at_ fd fd_apart echo thread_starts a (machine s) b x v d F Ho Hv Hd) as (w & H & F').
    rewrite (on_machine_run _ _ _ _ _ H). apply return_sim; [by rewrite same_pc_dev|done|done|apply returns_zero].
  - destruct (a_open (a_dev a b)) eqn:Ho; [|done]. injection Ha as <-.
    destruct (read_run at_ fd lay echo a (machine s) b x F Ho) as (p & w & H & F'). rewrite (on_machine_run _ _ _ _ _ H).
    destruct (a_mode (a_dev a b) =? ONE_SHOT), (a_sample (a_dev a b)); destruct F' as [-> F']; cbn [reading].
    1-3: apply return_sim; [by cbn; rewrite ?same_pc_dev|done|done|apply returns_zero].
    by apply place_sim.
  - injection Ha as <-.
    destruct (assign_run at_ fd lay a (machine s) x (pthread t') F) as (w & H & F').
    rewrite (on_machine_run _ _ _ _ _ H).
    assert (follows at_ fd (forget x a) w) as F''.
    { destruct F' as [? ? ? [Hm ?]]. split; try done. split; [|done]. cbn. intros y v [Hne Hy]%lookup_delete_Some.
      apply Hm. cbn. by rewrite lookup_insert_ne. }
    clear F'. split; cbn; [by do 2 apply follows_goto|by rewrite Hp|done].
  - injection Ha as <-. split; cbn; [by do 2 apply follows_goto|by rewrite Hp|done].
  - injection Ha as <-. unfold mbind, M_bind. cbn [gets]. rewrite Hp.
    destruct (finished t' (a_pc a)); [|by split]. split; cbn; [by apply follows_goto|by rewrite Hp|done].
Qed.

Lemma task_sim a a' s t : sim a s -> abs_task t a = Some a' -> ends_in a' (run_task at_ fd pthread t s).
Proof.
  intros Hs Ha. pose proof Hs as [F Hp Hr]. unfold run_task, abs_task in *. unfold mbind, M_bind. cbn [gets]. rewrite Hp.
  destruct (a_pc a !! t) as [[n|n|n]|] eqn:Ht; [|done|unfold resume|injection Ha as <-; by split].
  - destruct (code t !! n) as [x|] eqn:Hx; [by eapply execute_sim|]. injection Ha as <-. by split.
  - destruct (code t !! n) as [[x v|b|b c x|b c x|b x|b x|t' [x|]|t']|]; try done.
    destruct (a_open (a_dev a b)) eqn:Ho; [|done]. injection Ha as <-.
    destruct (wake_run at_ fd lay a (machine s) b x F Ho) as (p & w & H & F'). rewrite (on_machine_run _ _ _ _ _ H).
    destruct (a_sample (a_dev a b)); destruct F' as [-> F']; cbn [reading].
    + by apply return_sim; [..|apply returns_zero].
    + split; cbn; [done| |done]. by rewrite Hp, insert_id.
Qed.

Lemma turn_sim a a' s b : sim a s -> abs_turn b a = Some a' -> ends_in a' (take_turn at_ fd pthread b s).
Proof.
  intros Hs Ha. destruct b as [t|b|b]; cbn [abs_turn take_turn] in *; [by eapply task_sim|..]; destruct Hs as [F Hp Hr]; injection Ha as <-.
  - destruct (on_sensor_run at_ fd a (machine s) b _ _ F (echo_total (a_dev a b) _)) as ([] & w & wh & H & Hi & Haf).
    unfold on_machine. rewrite H. split; [|done..]. cbn. rewrite <- (with_dev_same a b), <- with_mem_same.
    by eapply (after_follows at_ fd a (machine s) w b wh); [..|apply F].
  - destruct (on_sensor_run at_ fd a (machine s) b _ _ F (thread_turn_total echo (a_dev a b) _)) as ([] & w & wh & H & Hi & Haf).
    unfold on_machine. rewrite H. split; [|cbn; by rewrite same_pc_dev|done]. cbn. rewrite <- with_mem_same.
    eapply (after_follows at_ fd a (machine s) w b wh); [done..| |apply F]. by destruct (a_thread (a_dev a b)).
Qed.

(** ** Whole schedules *)

Fixpoint abs_run (sch : list turn) (a : abs) : option abs :=
  match sch with
  | [] => Some a
  | b :: sch => abs_turn b a ≫= abs_run sch
  end.

Lemma run_sim sch a a' s : sim a s -> abs_run sch a = Some a' ->
  exists s', run at_ fd pthread sch s = Ok tt s' /\ sim a' s'.
Proof.
  revert a s. induction sch as [|b sch IH]; intros a s Hs Ha; cbn [abs_run run] in *.
  - injection Ha as <-. by exists s.
  - apply bind_Some in Ha as (a1 & Ha1 & Ha). pose proof (turn_sim a a1 s b Hs Ha1) as Ht. unfold ends_in in Ht.
    destruct (take_turn at_ fd pthread b s); [by eapply IH|done|by eapply IH].
Qed.
End turn.

(** ** The states of the machine *)

(** A sensor after loading: ONE_SHOT, no frequency, no thread, no sample. *)

Definition fresh_dev : adev := {| a_open := false; a_mode := 0; a_freq := 0; a_thread := false; a_sample := false |}.

Definition abs_start : abs :=
  {| a_pc := {[ Main := At 0 ]}; a_dev1 := fresh_dev; a_dev2 := fresh_dev; a_mem := ∅ |}.

Definition all_turns : list turn := [Task Main; Task Reader; Task TA; Task TB; Round HCSR_1; Round HCSR_2].

(** States by where their threads are. *)

Definition place_no (o : option place) : positive :=
  match o with
  | None => 1
  | Some (At n) => 3 * Pos.of_succ_nat n
  | Some (Spins n) => 3 * Pos.of_succ_nat n + 1
  | Some (Sleeps n) => 3 * Pos.of_succ_nat n + 2
  end.

Definition key (a : abs) : positive :=
  place_no (a_pc a !! Main) + 256 * (place_no (a_pc a !! Reader) + 256 * (place_no (a_pc a !! TA) + 256 * place_no (a_pc a !! TB))).

Abbreviation table := (gmap positive (list abs)).

Definition bucket (m : table) (a : abs) : list abs := default [] (m !! key a).

Definition known (m : table) (a : abs) : bool := bool_decide (a ∈ bucket m a).

Definition enter (a : abs) (m : table) : table := <[key a := a :: bucket m a]> m.

(** Depth first; [None] if some turn leads out of the machine. *)

Fixpoint explore (fuel : nat) (todo : list abs) (seen : table) : option table :=
  match fuel, todo with
  | _, [] => Some seen
  | O, _ => None
  | S fuel, a :: todo =>
      if known seen a then explore fuel todo seen else
      l ← mapM (fun b => abs_turn b a) all_turns;
      explore fuel (l ++ todo) (enter a seen)
  end.

Definition states : table := default ∅ (explore (6 * 1000) [abs_start] ∅).

(** What is left to do: two units per statement, of which a wait in it takes
    one, one for creating a thread, and a sensor's first sample. *)

Definition place_weight (t : task) (o : option place) : nat :=
  match o with
  | None => 2 * length (code t) + 1
  | Some (At n) => 2 * (length (code t) - n)
  | Some (Spins n) | Some (Sleeps n) => 2 * (length (code t) - n) - 1
  end.

Definition all_tasks : list task := [Main; Reader; TA; TB].

Definition weight (a : abs) : nat :=
  sum_list_with (fun t => place_weight t (a_pc a !! t)) all_tasks +
  (if a_sample (a_dev1 a) then 0 else 1) + (if a_sample (a_dev2 a) then 0 else 1).

Definition over (a : abs) : bool :=
  forallb (fun t => finished t (a_pc a)) all_tasks && negb (a_thread (a_dev1 a)) && negb (a_thread (a_dev2 a)).

Definition moves (a : abs) (b : turn) : bool :=
  match abs_turn b a with Some a' => (weight a' <? weight a)%nat | None => false end.

Definition turn_fine (m : table) (a : abs) (b : turn) : bool :=
  match abs_turn b a with Some a' => known m a' && (bool_decide (a' = a) || moves a b) | None => false end.

Definition state_fine (m : table) (a : abs) : bool :=
  forallb (turn_fine m a) all_turns && (if (weight a =? 0)%nat then over a else existsb (moves a) all_turns).

Definition closed (m : table) : bool :=
  known m abs_start && forallb (fun p => forallb (state_fine m) p.2) (map_to_list m).

Lemma states_closed : closed states = true.
Proof. vm_compute. reflexivity. Qed.

(** ** Reachable states *)

Section reach.
Context (m : table) (Hm : closed m = true).

Definition reach (a : abs) : Prop := known m a = true.

Lemma reach_start : reach abs_start.
Proof. by apply andb_true_iff in Hm as [? _]. Qed.

Lemma reach_fine a : reach a -> state_fine m a = true.
Proof.
  pose proof Hm as [_ H]%andb_true_iff. rewrite forallb_forall in H.
  unfold reach, known, bucket. intros Ha%bool_decide_eq_true_1. destruct (m !! key a) as [l|] eqn:Hl; cbn [default] in Ha.
  - specialize (H (key a, l)). cbn in H. rewrite forallb_forall in H. apply H; [|by apply list_elem_of_In].
    by apply list_elem_of_In, elem_of_map_to_list.
  - by apply not_elem_of_nil in Ha.
Qed.

Lemma turn_stays a b : reach a ->
  exists a', abs_turn b a = Some a' /\ reach a' /\ (a' = a \/ moves a b = true).
Proof.
  intros Ha. assert (forall c, c ∈ all_turns -> exists a', abs_turn c a = Some a' /\ reach a' /\ (a' = a \/ moves a c = true)) as Hall.
  { pose proof (reach_fine a Ha) as [H _]%andb_true_iff. rewrite forallb_forall in H. intros c Hc%list_elem_of_In%H.
    unfold turn_fine in Hc. destruct (abs_turn c a) as [a'|]; [|done]. apply andb_true_iff in Hc as [Hk [Hs|Hb]%orb_true_iff].
    - apply bool_decide_eq_true_1 in Hs as ->. exists a. split; [done|]. split; [done|by left].
    - exists a'. split; [done|]. split; [done|by right]. }
  destruct b as [t|s|s]; [apply Hall; destruct t; set_solver| |apply Hall; destruct s; set_solver].
  exists a. split; [done|]. split; [done|by left].
Qed.

Lemma reach_moves a : reach a -> weight a <> 0%nat -> exists b, b ∈ all_turns /\ moves a b = true.
Proof.
  intros [_ H]%reach_fine%andb_true_iff Hw. rewrite (proj2 (Nat.eqb_neq _ _) Hw) in H.
  apply existsb_exists in H as (b & Hb & Hmoves). exists b. split; [by apply list_elem_of_In|done].
Qed.

Lemma reach_over a : reach a -> weight a = 0%nat -> over a = true.
Proof. intros [_ H]%reach_fine%andb_true_iff Hw. by rewrite Hw in H. Qed.

(** A schedule with a turn that brings the program further does so: until
    then nothing changes. *)

Lemma abs_run_reach sch a : reach a ->
  exists a', abs_run sch a = Some a' /\ reach a' /\ (a' = a \/ (weight a' < weight a)%nat) /\
    (Exists (fun b => moves a b = true) sch -> (weight a' < weight a)%nat).
Proof.
  revert a. induction sch as [|b sch IH]; intros a Ha; cbn [abs_run].
  - exists a. split; [done|]. split; [done|]. split; [by left|]. by intros ?%Exists_nil.
  - destruct (turn_stays a b Ha) as (a1 & H1 & Ha1 & Hc). rewrite H1. cbn.
    destruct (IH a1 Ha1) as (a' & Hr & Ha' & Hw & Hex). exists a'. split; [done|]. split; [done|].
    assert (moves a b = true -> (weight a1 < weight a)%nat) as Hless.
    { unfold moves. rewrite H1. apply Nat.ltb_lt. }
    destruct (decide (moves a b = true)) as [Hb|Hb].
    + specialize (Hless Hb). assert (weight a' < weight a)%nat by (destruct Hw as [->|Hw]; [done|by etrans]). split; [by right|done].
    + destruct Hc as [->|]; [|done]. split; [done|]. rewrite Exists_cons. intros [|He]; [done|by apply Hex].
Qed.

(** ** Fair schedules: [n] rounds in which every thread of the program and of
    the drivers has a turn *)

Definition fair (n : nat) (sch : list turn) : Prop :=
  exists rounds, sch = concat rounds /\ (n <= length rounds)%nat /\ Forall (fun r => forall b, b ∈ all_turns -> b ∈ r) rounds.

Lemma abs_run_app sch1 sch2 a : abs_run (sch1 ++ sch2) a = abs_run sch1 a ≫= abs_run sch2.
Proof. revert a. induction sch1 as [|b sch1 IH]; intros a; cbn; [done|]. destruct (abs_turn b a); cbn; [apply IH|done]. Qed.

Lemma rounds_end rounds a : reach a -> Forall (fun r => forall b, b ∈ all_turns -> b ∈ r) rounds ->
  exists a', abs_run (concat rounds) a = Some a' /\ reach a' /\ (weight a' <= weight a - length rounds)%nat.
Proof.
  intros Ha Hr. revert a Ha. induction Hr as [|r rounds Hr _ IH]; intros a Ha; cbn [concat length].
  - exists a. split; [done|]. split; [done|lia].
  - destruct (abs_run_reach r a Ha) as (a1 & H1 & Ha1 & Hw & Hex). destruct (IH a1 Ha1) as (a' & H2 & Ha' & Hw').
    exists a'. rewrite abs_run_app, H1. split; [done|]. split; [done|]. destruct (decide (weight a = 0%nat)) as [H0|H0].
    + destruct Hw as [->|]; lia.
    + destruct (reach_moves a Ha H0) as (b & Hb & Hmoves). enough (weight a1 < weight a)%nat by lia.
      apply Hex, Exists_exists. exists b. split; [by apply Hr|done].
Qed.

Lemma fair_ends n sch a : reach a -> (weight a <= n)%nat -> fair n sch ->
  exists a', abs_run sch a = Some a' /\ over a' = true.
Proof.
  intros Ha Hn (rounds & -> & Hl & Hr). destruct (rounds_end rounds a Ha Hr) as (a' & H & Ha' & Hw).
  exists a'. split; [done|]. apply reach_over; [done|lia].
Qed.
End reach.
