(* ===== verification/SensorTestSpec.v ===== *)
(** * The sensors' test program on both drivers *)

From S2P Require Import Prelude Ring Kernel UserMemory HwPins HwPinsSpec Sensor SensorProofs SensorSpec.
From S2P Require Import SensorCalls SensorRead SensorEcho Hc02 Hc02Spec Hc03 Hc03Spec Platform.
From S2P Require Import SensorTest SensorTurns SensorIdle SensorTestProofs SensorTestRuns.

(** ** The driver of 02 *)

Section driver_02.
Context {U : Type} {UM : UserMemory U} {E : Environment} (minor : device -> Z).

Definition device_named (s : sensor_name) : device := match s with HCSR_1 => DevA | HCSR_2 => DevB end.

Definition name_of_device (d : device) : sensor_name := match d with DevA => HCSR_1 | DevB => HCSR_2 end.

Definition driver_02 : LoadedDriver U hc_driver :=
  {| variant := variant_02;
     open_file s f := Hc02.hc_sr04_open minor (minor (device_named s)) f;
     node_of_file d f := Hc02.private_data d !! f;
     node_of_sensor d s := Some (device_named s);
     on_node A x m := on_device x m |}.

Context (minors_differ : minor DevA <> minor DevB).

#[export] Instance driver_02_laws : DriverLaws driver_02.
Proof using minors_differ.
  refine (@Build_DriverLaws U hc_driver UM E driver_02 laws_02 echo_02
    (fun d => Hc02.hcsr_list d = [DevB; DevA]) (fun d s => device_of (device_named s) d)
    (fun d f => name_of_device <$> Hc02.private_data d !! f) (fun d s x => x = device_named s) _ _ _ _).
  - intros d s _. by exists (device_named s).
  - intros d f s _ Hf. apply fmap_Some in Hf as (x & Hx & ->). exists x. split; [done|by destruct x].
  - intros s f w Hl. exists (Hc02.with_private (<[f := device_named s]> (Hc02.private_data (st w))) (st w)).
    split; [|split; [done|split; [done|]]].
    + cbn [open_file driver_02]. unfold Hc02.hc_sr04_open, Hc02.get_curr_hcsr. erewrite bind_ok by reflexivity. rewrite Hl. cbn [List.find].
      destruct s; cbn [device_named]; [rewrite (proj2 (Z.eqb_neq (minor DevB) (minor DevA))) by congruence|]; by rewrite Z.eqb_refl.
    + intros f'. cbn. destruct (decide (f' = f)) as [->|Hne]; [rewrite lookup_insert_eq|by rewrite lookup_insert_ne]. by destruct s.
  - intros A s x m w Hl ->. exists (fun h => with_device (device_named s) h (st w)). split.
    + intros h. split; [by destruct s|]. split; [|by destruct s]. by intros []; destruct s.
    + cbn [on_node driver_02]. unfold on_device. by destruct (m _).
Defined.
End driver_02.

(** ** The driver of 03, both devices probed *)

Section driver_03.
Context {U : Type} {UM : UserMemory U} {E : Environment} (number : plat -> Z).

Definition plat_named (s : sensor_name) : plat := match s with HCSR_1 => HCSR_1_dev | HCSR_2 => HCSR_2_dev end.

Definition driver_03 : LoadedDriver U platform :=
  {| variant := variant_03;
     open_file s f := Platform.hc_sr04_open (number (plat_named s)) f;
     node_of_file d f := Platform.private_data d !! f;
     node_of_sensor d s := pdev d (plat_named s);
     on_node A x m := Platform.on_sensor x m |}.

Record probed (d : platform) : Prop := {
  pr_object p : exists q o, pdev d p = Some q /\ objects d !! q = Some o /\ Platform.minor d q = Some (number p);
  pr_list q : q ∈ Platform.hcsr_list d <-> exists p, pdev d p = Some q
}.

Definition named_by (d : platform) (q : loc) : option sensor_name :=
  if decide (pdev d HCSR_1_dev = Some q) then Some HCSR_1
  else if decide (pdev d HCSR_2_dev = Some q) then Some HCSR_2 else None.

Definition sensor_at (d : platform) (s : sensor_name) : hcsr :=
  from_option sensor zero_hcsr (pdev d (plat_named s) ≫= fun q => objects d !! q).

Context (numbers_differ : number HCSR_1_dev <> number HCSR_2_dev).

Lemma number_inj p p' : number p = number p' -> p = p'.
Proof using numbers_differ. destruct p, p'; congruence. Qed.

Lemma probed_inj d p p' q : probed d -> pdev d p = Some q -> pdev d p' = Some q -> p = p'.
Proof using numbers_differ.
  intros [Ho _] Hp Hp'. destruct (Ho p) as (q1 & o1 & H1 & _ & N1), (Ho p') as (q2 & o2 & H2 & _ & N2).
  apply number_inj. congruence.
Qed.

Lemma probed_find d p q : probed d -> pdev d p = Some q ->
  List.find (fun c => bool_decide (Platform.minor d c = Some (number p))) (Platform.hcsr_list d) = Some q.
Proof using numbers_differ.
  intros Hd Hp. pose proof Hd as [Ho Hl].
  assert (forall c, c ∈ Platform.hcsr_list d -> bool_decide (Platform.minor d c = Some (number p)) = true -> c = q) as Hq.
  { intros c [p' Hp']%Hl Hb%bool_decide_eq_true_1. destruct (Ho p') as (q' & o' & H' & _ & N').
    assert (p' = p) as -> by (apply number_inj; congruence). congruence. }
  destruct (List.find _ _) as [c|] eqn:Hf.
  - apply find_some in Hf as [Hin Hb]. f_equal. apply Hq; [by apply list_elem_of_In|done].
  - exfalso. assert (q ∈ Platform.hcsr_list d) as Hin by (apply Hl; by exists p).
    pose proof (find_none _ _ Hf q) as Hn. apply list_elem_of_In in Hin. specialize (Hn Hin). cbn in Hn.
    apply bool_decide_eq_false_1 in Hn. destruct (Ho p) as (q' & o' & H' & _ & N'). congruence.
Qed.

Lemma named_by_pdev d s q : probed d -> named_by d q = Some s <-> pdev d (plat_named s) = Some q.
Proof using numbers_differ.
  intros Hd. unfold named_by. split.
  - repeat case_decide; intros [= <-]; done.
  - intros Hs. destruct s; cbn [plat_named] in Hs; repeat case_decide; try done.
    by assert (HCSR_1_dev = HCSR_2_dev) by (by eapply probed_inj).
Qed.

#[export] Instance driver_03_laws : DriverLaws driver_03.
Proof using numbers_differ.
  refine (@Build_DriverLaws U platform UM E driver_03 laws_03 echo_03 probed sensor_at
    (fun d f => Platform.private_data d !! f ≫= named_by d) (fun d s q => pdev d (plat_named s) = Some q) _ _ _ _).
  - intros d s [Ho _]. destruct (Ho (plat_named s)) as (q & o & Hq & _). by exists q.
  - intros d f s Hd Hf. apply bind_Some in Hf as (q & Hq & Hs). exists q. split; [done|]. by apply named_by_pdev.
  - intros s f w Hd. pose proof Hd as [Ho _]. destruct (Ho (plat_named s)) as (q & o & Hq & _).
    exists (Platform.with_private_data (<[f := q]> (Platform.private_data (st w))) (st w)).
    split; [|split; [by destruct Hd|split; [done|]]].
    + cbn [open_file driver_03]. unfold Platform.hc_sr04_open, Platform.get_curr_hcsr. erewrite bind_ok by reflexivity.
      by rewrite (probed_find _ _ _ Hd Hq).
    + intros f'. cbn [Platform.private_data Platform.with_private_data]. destruct (decide (f' = f)) as [->|Hne];
        [rewrite lookup_insert_eq; exact (proj2 (named_by_pdev (st w) s q Hd) Hq)|by rewrite lookup_insert_ne].
  - intros A s q m w Hd Hq. pose proof Hd as [Ho Hl]. destruct (Ho (plat_named s)) as (q' & o & Hq' & Hobj & _).
    cbn in Hq. assert (q' = q) as -> by congruence. cbn [on_node driver_03]. unfold Platform.on_sensor. rewrite Hobj.
    assert (sensor_at (st w) s = sensor o) as -> by (unfold sensor_at; rewrite Hq; cbn; by rewrite Hobj).
    exists (fun h => Platform.with_objects (<[q := {| sensor := h; hcsr_cdev := hcsr_cdev o; list_links := list_links o |}]>
      (objects (st w))) (st w)).
    split; [|by destruct (m _)]. intros h. split; [|split; [|done]].
    + split; [|done]. intros p. destruct (Ho p) as (q' & o' & H1 & H2 & H3). cbn.
      destruct (decide (q = q')) as [<-|Hne]; [exists q; eexists; by rewrite lookup_insert_eq|exists q', o'; by rewrite lookup_insert_ne].
    + intros s'. unfold sensor_at. cbn. destruct (decide (s' = s)) as [->|Hne]; [rewrite Hq; cbn; by rewrite lookup_insert_eq|].
      destruct (Ho (plat_named s')) as (q' & o' & H1 & H2 & _). rewrite H1. cbn. rewrite lookup_insert_ne; [done|].
      intros <-. apply Hne. assert (plat_named s' = plat_named s) by (by eapply probed_inj). by destruct s, s'.
Defined.
End driver_03.

(** ** The program on a loaded driver *)

Section program.
Context {U S : Type} {UM : UserMemory U} {E : Environment} {IC : IoctlCode} {LD : LoadedDriver U S} {DL : DriverLaws LD}.
Implicit Types (w : sys U S) (s : test U S).

(** Both sensors as loading leaves them, and the program's memory. *)

Record ready (at_ : variable -> Z) w : Prop := {
  re_loaded : loaded (st w);
  re_sensor x : at_rest false fresh_dev (sensor_of (st w) x);
  re_memory x : writable (user w) (at_ x) 4
}.

Lemma ready_sim at_ fd w : ready at_ w -> sim at_ fd abs_start (begin w).
Proof.
  intros [Hl Hs Hm]. split; [|done|by constructor]. split; [done|intros x; specialize (Hs x); by destruct x|by intros []|].
  split; [|done]. intros x v. cbn. by rewrite lookup_empty.
Qed.

(** All threads of the program have returned; the drivers' threads are gone,
    no lock is held, no measurement under way. *)

Definition ended s : Prop :=
  (forall t, finished t (pc s) = true) /\
  (forall x, exists d, a_thread d = false /\ at_rest false d (sensor_of (st (machine s)) x)).

Lemma over_ended at_ fd a s : sim at_ fd a s -> over a = true -> ended s.
Proof.
  intros [F Hp _] [[Ht H1]%andb_true_iff H2]%andb_true_iff. split.
  - intros t. rewrite Hp. rewrite forallb_forall in Ht. apply Ht. destruct t; cbn; tauto.
  - intros x. exists (a_dev a x). split; [|apply F]. destruct x; by apply negb_true_iff.
Qed.

(** C14: On either driver, freshly loaded, with both devices open, writable
    variables, sensors that answer every pulse, and a kthread_run that
    always succeeds (the code does not test it), the test program cannot
    fail: whatever the order in which its four threads, the echoes and the
    rounds of the drivers' threads take their turns, no call crashes, every
    call returns 0 (but SETPINS, when a GPIO or the interrupt is refused),
    and once each thread has had 157 turns the program is over, the periodic
    threads are stopped and the sensors at rest.  A turn is a whole write or
    ioctl, or the part of a read between two waits; echoes and rounds fall
    where the calls wait, never while a spin lock is held. *)

End program.
