(* ===== verification/SensorTestWitness.v ===== *)
(** * The sensors' test program: a run on each driver *)

From S2P Require Import Prelude Ring Kernel UserMemory HwPins HwPinsSpec Sensor SensorProofs SensorSpec.
From S2P Require Import SensorEcho Hc02 Hc02Spec Hc03 Hc03Spec Platform.
From S2P Require Import SensorTest SensorTurns SensorIdle SensorTestProofs SensorTestRuns SensorTestSpec.

(** Every wait brings an echo; everything else succeeds. *)

Definition echoing : Environment := fun _ c => match c with Delay => 1 | _ => 0 end.

Lemma echoing_answers : answering (E := echoing).
Proof. intros t. by exists 0%nat. Qed.

(** The variables one after the other from 4096 on. *)

Definition task_no (t : task) : Z := match t with Main => 0 | Reader => 1 | TA => 2 | TB => 3 end.

Definition sensor_no (s : sensor_name) : Z := match s with HCSR_1 => 0 | HCSR_2 => 1 end.

Definition variable_no (x : variable) : Z :=
  match x with
  | I t => task_no t
  | TMP t => 4 + task_no t
  | pins_trigger s => 8 + 2 * sensor_no s
  | pins_echo s => 9 + 2 * sensor_no s
  | set_mode s => 12 + 2 * sensor_no s
  | set_freq s => 13 + 2 * sensor_no s
  | data_mode s => 16 + 2 * sensor_no s
  | data_freq s => 17 + 2 * sensor_no s
  end.

Definition address (x : variable) : Z := 4096 + 4 * variable_no x.

Lemma variable_no_inj x y : variable_no x = variable_no y -> x = y.
Proof.
  destruct x as [[]|[]|[]|[]|[]|[]|[]|[]], y as [[]|[]|[]|[]|[]|[]|[]|[]]; try done.
Qed.

Lemma variable_no_range x : 0 <= variable_no x < 20.
Proof. destruct x as [[]|[]|[]|[]|[]|[]|[]|[]]; cbn; lia. Qed.

Lemma address_layout : layout address.
Proof.
  split.
  - intros x y Hne. unfold address. assert (variable_no x <> variable_no y) by (by intros ?%variable_no_inj). lia.
  - intros x y. destruct x as [|?|[]|?|[]|?|[]|?]; try done; intros [= <-]; done.
  - intros x. unfold address. pose proof (variable_no_range x). lia.
Qed.

Definition memory : gmap Z Z := mapped 4096 80.

Lemma memory_writable x : writable memory (address x) 4.
Proof.
  pose proof (variable_no_range x). apply writable_map.
  - intros i Hi. unfold address. replace (4096 + 4 * variable_no x + i) with (4096 + (4 * variable_no x + i)) by lia.
    apply mapped_is_Some. lia.
  - unfold map_access_ok, address, user_top. apply andb_true_iff. split; [apply Z.leb_le|apply Z.ltb_lt]; lia.
Qed.

(** The files and the numbers of the threads. *)

Definition file (s : sensor_name) : loc := match s with HCSR_1 => 1 | HCSR_2 => 2 end.

Definition thread_number (t : task) : Z := 1000 + task_no t.

(** ** After loading 02 *)

Definition minors (d : device) : Z := match d with DevA => 54 | DevB => 55 end.

Definition state_of {S} (o : outcome S Z) (s : S) : S := match o with Ok _ s' => s' | _ => s end.

Definition before_02 : sys (gmap Z Z) hc_driver := {| st := hc_start; requests := []; user := memory |}.

Definition loaded_02 : sys (gmap Z Z) hc_driver := state_of (Hc02.hc_sr04_init (E := echoing) before_02) before_02.

(** ** After probing both devices of 03 *)

Definition numbers (p : plat) : Z := match p with HCSR_1_dev => 54 | HCSR_2_dev => 55 end.

Definition before_03 : sys (gmap Z Z) platform :=
  {| st := {| objects := ∅; pdev := fun _ => None; class_cnt := 0; Platform.hcsr_list := []; Platform.minor := fun _ => None;
              Platform.private_data := ∅ |}; requests := []; user := memory |}.

Definition probe_both : M (sys (gmap Z Z) platform) Z :=
  HCSR_driver_probe (E := echoing) numbers HCSR_1_dev ;; HCSR_driver_probe (E := echoing) numbers HCSR_2_dev.

Definition loaded_03 : sys (gmap Z Z) platform := state_of (probe_both before_03) before_03.

(** 157 rounds. *)

Definition rounds : list turn := concat (replicate 157 all_turns).

Lemma rounds_fair : fair 157 rounds.
Proof.
  exists (replicate 157 all_turns). split; [done|]. split; [by rewrite length_replicate|].
  apply Forall_replicate. by intros b.
Qed.

Lemma rest_fresh h :
  ongoing_lock h = false -> kconfig_lock (kconfig h) = false -> kthread_lock h = false -> irq_done_lock h = false ->
  ongoing h = STOPPING -> mode (the_mode h) = 0 -> freq (the_mode h) = 0 -> kthread h = None -> samples_ok (cirb h) [] ->
  at_rest false fresh_dev h.
Proof. intros. constructor; try done. exists []. split; [done|]. by split. Qed.

Lemma minors_differ : minors DevA <> minors DevB.
Proof. done. Qed.

Lemma numbers_differ : numbers HCSR_1_dev <> numbers HCSR_2_dev.
Proof. done. Qed.

#[local] Abbreviation laws02 := (driver_02_laws (E := echoing) minors minors_differ).
#[local] Abbreviation laws03 := (driver_03_laws (E := echoing) numbers numbers_differ).

Lemma loaded_02_ready : ready (DL := laws02) address loaded_02.
Proof.
  split; [done| |].
  - intros []; apply rest_fresh; try reflexivity; split_and!; reflexivity.
  - replace (user loaded_02) with memory by (vm_compute; reflexivity). apply memory_writable.
Qed.

Lemma loaded_03_probed : probed numbers (st loaded_03).
Proof.
  split.
  - intros []; [exists 1%positive|exists 2%positive]; eexists; split_and!; vm_compute; reflexivity.
  - intros q. replace (Platform.hcsr_list (st loaded_03)) with [2; 1]%positive by (vm_compute; reflexivity).
    assert (forall p, pdev (st loaded_03) p = Some (match p with HCSR_1_dev => 1 | HCSR_2_dev => 2 end)%positive) as Hp.
    { intros []; vm_compute; reflexivity. }
    split.
    + rewrite !elem_of_cons, elem_of_nil. intros [->|[->|[]]]; [exists HCSR_2_dev|exists HCSR_1_dev]; apply Hp.
    + intros [p Hq]. rewrite Hp in Hq. injection Hq as <-. rewrite !elem_of_cons. destruct p; [right; left|left]; reflexivity.
Qed.

Lemma loaded_03_ready : ready (DL := laws03) address loaded_03.
Proof.
  split; [apply loaded_03_probed| |].
  - intros []; apply rest_fresh; try reflexivity; split_and!; reflexivity.
  - replace (user loaded_03) with memory by (vm_compute; reflexivity). apply memory_writable.
Qed.

